(* ===== verification/_CoqProject ===== *)
-Q . S2P
Prelude.v
JsString.v
JsNum.v
JsSort.v
JsDate.v
JsValue.v
JsonFacts.v
Models.v
ApiRoutes.v
Safe.v
Urls.v
LiveRefresh.v
LiveTransport.v
Settings.v
DashboardConfig.v
ToastQueue.v
ApiParsers.v
RequestClient.v
RequestPool.v
ConsoleState.v
DemoData.v
LiveState.v
LiveData.v
LiveTasks.v
LiveManagers.v
LiveTimeouts.v
LiveProperties.v
Unmount.v
ConsoleViews.v
ConsoleForms.v
ConsoleActions.v
ConsoleProperties.v
LiveFrame.v
OpsConsole.v
OpsConsoleProperties.v
OpsRefreshes.v
DemoSession.v
Sections.v
Tables.v
Page.v
PageProperties.v
Shell.v
