(* ===== verification/Prelude.v ===== *)
(** A verification of the operations dashboard of the distributed job platform:
    the TypeScript under [src/src], which shows the state of a job queue, keeps it
    up to date over HTTP and a realtime channel, and lets an operator act on it.

    * The program and its model

    The dashboard is one React component, [OpsConsole], over a hook that keeps its
    data, over libraries that talk to the API. The files follow these layers; a
    file requires only the ones before it in [_CoqProject].

    - JavaScript. JsString, JsNum, JsSort, JsDate, JsValue and JsonFacts model what
      the source uses of the language: strings of code units below 256, binary64
      numbers (all operations evaluate), stable sorting, dates and the ISO format,
      [JSON.parse] and [JSON.stringify], and the fact that printed JSON reads back.
    - Data. Models has a record per type of [lib/models.ts]. ApiRoutes is
      [lib/api-routes.ts]; ApiParsers the guards of [lib/api-parsers.ts]; Safe the
      coercions, URLs, formatting and drafts of [lib/safe.ts]; Urls states what Safe
      relies on in the browser's URL class.
    - Console data. ConsoleState is [lib/console-data.ts]: reconciliation, the event
      feed, updates of jobs and dead letters, reuse of unchanged values. DemoData is
      the demo data set of the same file.
    - Connections. LiveRefresh is [lib/live-refresh.ts] (signatures, poll delays,
      health); LiveTransport the realtime manager of [lib/live-transport.ts], with
      the browser's timers and sockets as state; RequestClient one HTTP request of
      [lib/request-client.ts]; RequestPool the sharing of requests by key and their
      AbortControllers.
    - Live data. LiveState and LiveData are the hook [useDashboardLiveData]: its
      React state, refs, effects, callbacks and the continuations of its promises.
      It uses the pool for its requests, a manager of LiveTransport for its channel
      and ConsoleState for its data. LiveTasks, LiveManagers, LiveTimeouts and
      LiveProperties hold one invariant each and its consequences; LiveFrame says
      what a callback of the hook leaves alone, and Unmount what is left of it when
      its component unmounts.
    - Console. Settings is the configuration and the persisted settings
      ([lib/runtime-config.ts], [api/config.ts], [usePersistentState],
      [useQueryParamState]); DashboardConfig is the configuration of the second copy
      of the dashboard; ToastQueue is [useToastQueue]. ConsoleViews, ConsoleForms
      and ConsoleActions are [components/OpsConsole.tsx]: what it shows, its forms,
      and its actions in demo and live mode. ConsoleProperties says what the actions
      guarantee. Sections has what the components below it compute: the headline and
      previews of [OperationsHero], the paths of [TrendChart], the replay form of
      [JobDrawer], the counts and texts of the smaller sections, and the reset of
      [ErrorBoundary].
    - The whole. OpsConsole runs the actions, the hook and the queue of toasts
      together, as the component does: an action updates the hook's data, its
      request is one of the hook's pool and its continuation runs when that is
      handled, its [refreshConsole] starts a refresh, the settings are the options
      of the hook's next render, and notifications enter the queue.
      OpsConsoleProperties, OpsRefreshes and DemoSession say what holds of it.
    - The page. Tables has the texts, statuses and keys of the rows and cards the
      sections render; Page has the inputs and buttons of the page, whether each is
      disabled, and the handler it runs on the console; PageProperties says which
      actions the page offers, and that its users only take steps of the console.
      Shell puts the page inside [ErrorBoundary], as [main.tsx] does, with the local
      storage and the URL that outlive it: the first render with the effects of the
      hook and of the console, a render that throws (in the inspection of the selected
      job, or in the updater of a demo submission), the two buttons of the boundary,
      and reloading.

    * Conventions

    Pure functions are functions. Code that can throw returns a [result]. Stateful
    code is a function on an explicit state (the manager, a request, the pool, the
    hook, the queue of toasts, the console); what may happen next - a timer, a
    socket event, an answer, a click - is a step relation on it, whose steps call
    these functions, and invariants are proved by induction over it. The clock,
    random ids and random numbers are arguments. Names are those of the source.

    Code outside the repository is a class: the URL class ([UrlApi], with [UrlLaws]),
    [Headers], the locale and [Intl], the host's part of [Date.parse] and of the JSON error
    messages, the browser ([Browser]), and the records that a cast claims a parsed
    value to be ([ApiView], [ActionApi]). Every property with a hypothesis has a
    witness in which the class is a concrete function.

    The keys of objects used as maps are own properties: the names of
    [Object.prototype] are not used as queues, workers or ids. React applies a state
    update where it is made, and a handler reads the state it is called in; effects
    run in the order of the source after a commit.

    * What is proved

    - The whole console: each of its steps is a run of steps of the hook, of the
      queue and of the actions, so that what is proved of the parts holds in it;
      every action that waits has a request that can settle, whose handling ends the
      action; an answer in live mode begins a refresh that stands alone; a session
      in demo mode keeps its data consistent and makes no request.
    - The page: its enabled controls run exactly the actions that the tab, the
      filters, the drawer, the flags and the mode permit, and whatever is pressed or
      typed is a step of the console; no two rows of a table share a key.
    - The shell: there is always a page that can be shown or the boundary, which
      appears exactly when a render throws and whose buttons mount a page that can be
      shown, with the saved settings or with the defaults; in live mode such a page has
      no job selected, whatever the URL names. A hook that is unmounted has no timeout,
      loop or channel left and its refreshes and inspections are aborted. The requests of
      actions are not: their late answers begin a refresh each, and nothing else.
    - Transport: no timer or channel leaks, the reported status is true, a running
      manager is never stuck, failures end in polling after boundedly many steps,
      nothing happens after [stop] or on a replaced socket, [retryNow] starts over,
      and only well-formed events are delivered.
    - Refresh policy: a signature determines the data up to the order of fields;
      the delay of a poll grows within its bounds.
    - Drafts, URLs, timelines and inspections: what they give on every input, and
      exactly when they throw; the graph of an inspection has the first eight jobs of
      the workflow, and its idempotency record ends fifteen minutes after the job's
      creation.
    - Console data: counters count; jobs, schedules, dead letters and workers are
      permuted into their order and the feed keeps the newest sixty events; events
      join once; a value is reused exactly if one with its key has the same JSON data
      up to the order of fields; the demo data is a fixed point.
    - Requests: one in flight per key, each settles within four events and releases
      its timer and listener, and what each answer becomes.
    - Live data: one refresh at a time, the channel follows the settings, polling
      goes on, queued events arrive, and each health is shown exactly under its
      conditions; with live updates and polling both on, live means a live channel.
    - Settings: usable settings come back after a reload; an emptied token or URL
      comes back as its default.
    - Console: filters and views show what the data hold; forms accept exactly what
      is valid and mark the fields at fault, but for an empty payload, which they
      refuse without a mark; any run of actions keeps the data consistent; busy flags
      correspond to tasks as long as no action starts while its flag is up; each
      action in demo mode changes the jobs and dead letters it names, field by field,
      and in live mode sends its request, which a change of priority does not; and
      the hero calls the system steady exactly when nothing is wrong.

    Fuel occurs in the parser of JSON ([parse_value], given twice the length of the
    text, which [JsonFacts.json_parse_print] shows to be enough for every printed
    value), in [shortest], the search for the shortest decimal of a number (at most
    seventeen digits, which binary64 never exceeds), and in [decimal_point_from],
    which corrects an estimate of the decimal point.

    * Not modelled

    The layout and the animations of the components: of the JSX the development has
    the texts of rows and cards and the controls with their handlers, not the
    elements around them; the number format of the browser's [Intl] is a parameter.
    Code units above 255. The second run of effects that [React.StrictMode] makes
    during development.
    The server side, written in Go, is another program, seen here through its
    answers. [src/dashboard/src] is a second copy of [src/src]: but for its runtime
    configuration, which DashboardConfig models, its files are those of [src/src],
    so the model is of both. In OpsConsole the effects of the console run after those
    of the hook in one step with the render, and two tasks that wait for one request
    go on in that step, in the order they began; React may interleave other
    callbacks there.

    This file holds what all others share: results of code that can throw, the
    tactics and hints of the development, and lemmas on lists and options. *)

From stdpp Require Import base list strings gmap.
From Stdlib Require Import ZArith Lia Bool.

(** * Results of code that can throw *)

(** A thrown JavaScript value, as far as the code tells them apart: its
    constructor and message. *)
Inductive exn :=
  | RangeError (msg : string)
  | TypeError (msg : string)
  | SyntaxError (msg : string)
  | PlainError (msg : string).

Inductive result (A : Type) :=
  | Ok (a : A)
  | Throw (e : exn).
Arguments Ok {A} _.
Arguments Throw {A} _.

Definition result_bind {A B : Type} (r : result A) (k : A -> result B) : result B :=
  match r with
  | Ok a => k a
  | Throw e => Throw e
  end.

(** [Array.prototype.map] with a callback that may throw: the first exception
    stops the traversal. *)
Fixpoint result_map {A B : Type} (f : A -> result B) (l : list A) : result (list B) :=
  match l with
  | [] => Ok []
  | x :: l' =>
      result_bind (f x) (fun y => result_bind (result_map f l') (fun ys => Ok (y :: ys)))
  end.

Definition is_ok {A : Type} (r : result A) : bool :=
  match r with Ok _ => true | Throw _ => false end.

Declare Scope js_scope.
Delimit Scope js_scope with js.
Notation "'let!' x := e 'in' k" := (result_bind e (fun x => k))
  (at level 10, x name, e at level 100, k at level 200) : js_scope.

(** * Automation *)

(** Facts that [eauto] may use to close side conditions. *)
Create HintDb console.

(** Split every boolean test or match the goal branches on, keeping equations. *)
Ltac split_ifs :=
  repeat match goal with
    | |- context [if ?b then _ else _] => let E := fresh "E" in destruct b eqn:E
    | |- context [match ?x with _ => _ end] => let E := fresh "E" in destruct x eqn:E
    end.

(** Turn boolean hypotheses into propositions. *)
Ltac prop_bools :=
  repeat match goal with
    | H : _ && _ = true |- _ => apply andb_true_iff in H; destruct H
    | H : _ || _ = false |- _ => apply orb_false_iff in H; destruct H
    | H : _ || _ = true |- _ => apply orb_true_iff in H
    | H : _ && _ = false |- _ => apply andb_false_iff in H
    | H : negb _ = true |- _ => apply negb_true_iff in H
    | H : negb _ = false |- _ => apply negb_false_iff in H
    | H : String.eqb _ _ = true |- _ => apply String.eqb_eq in H
    | H : String.eqb _ _ = false |- _ => apply String.eqb_neq in H
    | H : (_ =? _)%Z = true |- _ => apply Z.eqb_eq in H
    | H : (_ =? _)%Z = false |- _ => apply Z.eqb_neq in H
    | H : (_ <? _)%Z = true |- _ => apply Z.ltb_lt in H
    | H : (_ <? _)%Z = false |- _ => apply Z.ltb_ge in H
    | H : (_ <=? _)%Z = true |- _ => apply Z.leb_le in H
    | H : (_ <=? _)%Z = false |- _ => apply Z.leb_gt in H
    | H : bool_decide _ = true |- _ => apply bool_decide_eq_true in H
    | H : bool_decide _ = false |- _ => apply bool_decide_eq_false in H
    end.

(** * Results *)

Lemma result_bind_ok {A B} (r : result A) (k : A -> result B) (b : B) :
  result_bind r k = Ok b <-> exists a, r = Ok a /\ k a = Ok b.
Proof. destruct r; naive_solver. Qed.

Lemma result_bind_throw {A B} (r : result A) (k : A -> result B) (e : exn) :
  result_bind r k = Throw e <-> r = Throw e \/ exists a, r = Ok a /\ k a = Throw e.
Proof. destruct r; naive_solver. Qed.

Lemma result_map_ok {A B} (f : A -> result B) (l : list A) (l' : list B) :
  result_map f l = Ok l' <-> Forall2 (fun x y => f x = Ok y) l l'.
Proof.
  revert l'. induction l as [|x l IH]; intros l'; cbn.
  - split; [by intros [= <-] | by intros ->%Forall2_nil_inv_l].
  - rewrite result_bind_ok. split.
    + intros (y & Hy & H). apply result_bind_ok in H as (ys & Hys & [= <-]).
      constructor; [done | by apply IH].
    + intros H. inv H. eexists; split; [done |].
      apply result_bind_ok. eexists; split; [by apply IH | done].
Qed.

(** A computation that gives something gives what its default hides. *)
Lemma is_some_default {A} (d : A) (o : option A) :
  bool_decide (is_Some o) = true -> o = Some (default d o).
Proof. destruct o; [done | intros E%bool_decide_eq_true; by destruct E]. Qed.

(** * Generic list facts *)

(** The last element, as [list\[list.length - 1\]] reads it. *)
Definition last_of {A : Type} (l : list A) : option A := last l.

(** [count f l]: how many elements satisfy [f]; the length of [l.filter(f)]. *)
Definition count {A : Type} (f : A -> bool) (l : list A) : nat :=
  length (List.filter f l).

Lemma count_cons {A} (f : A -> bool) x l :
  count f (x :: l) = ((if f x then 1 else 0) + count f l)%nat.
Proof. unfold count; cbn. by destruct (f x). Qed.

Lemma count_app {A} (f : A -> bool) l1 l2 :
  count f (l1 ++ l2) = (count f l1 + count f l2)%nat.
Proof. unfold count. by rewrite List.filter_app, length_app. Qed.

Lemma count_le_length {A} (f : A -> bool) l : (count f l <= length l)%nat.
Proof. induction l; [done |]. rewrite count_cons; cbn. destruct (f a); lia. Qed.

Lemma count_perm {A} (f : A -> bool) l1 l2 : l1 ≡ₚ l2 -> count f l1 = count f l2.
Proof.
  induction 1 as [|x l1 l2 _ IH|x y l|l1 l2 l3 _ IH1 _ IH2];
    rewrite ?count_cons; lia.
Qed.

Lemma filter_perm {A} (f : A -> bool) (l1 l2 : list A) :
  l1 ≡ₚ l2 -> List.filter f l1 ≡ₚ List.filter f l2.
Proof.
  induction 1; cbn; try (destruct (f x)); try (destruct (f y)); eauto using Permutation.
Qed.

Lemma filter_all {A} (f : A -> bool) (l : list A) :
  (forall x, x ∈ l -> f x = true) -> List.filter f l = l.
Proof.
  induction l as [|x l IH]; intros H; [done |]. cbn.
  rewrite (H x) by set_solver. f_equal. apply IH. set_solver.
Qed.

#[export] Hint Resolve filter_perm : console.

