(* ===== verification/JsString.v ===== *)
(** JavaScript strings, as far as the dashboard uses them.

    A string is a Rocq [string]; each [ascii] is one UTF-16 code unit in
    0..255. Code units above 255 are outside the alphabet of the model: on the
    strings it does cover (ISO 8859-1) every operation below computes what
    ECMAScript specifies. *)

From stdpp Require Import base list strings pretty.
From Stdlib Require Import ZArith Lia Bool Ascii.
From S2P Require Import Prelude.

(** * Characters *)

Notation chars := String.list_ascii_of_string.
Notation of_chars := String.string_of_list_ascii.

Definition code (c : ascii) : N := N_of_ascii c.

(** WhiteSpace and LineTerminator of ECMAScript below 256: the characters that
    [trim] removes and that the regular-expression class [\s] matches. *)
Definition is_space (c : ascii) : bool :=
  let n := code c in
  ((9 <=? n) && (n <=? 13) || (n =? 32) || (n =? 160))%N.

(** [String.prototype.toLowerCase] on one code unit. *)
Definition lower_char (c : ascii) : ascii :=
  let n := code c in
  if ((65 <=? n) && (n <=? 90) || (192 <=? n) && (n <=? 222) && negb (n =? 215))%N
  then ascii_of_N (n + 32) else c.

Definition is_digit (c : ascii) : bool :=
  ((48 <=? code c) && (code c <=? 57))%N.

Definition digit_val (c : ascii) : Z := Z.of_N (code c) - 48.

(** * Operations on lists of characters *)

Fixpoint drop_while {A : Type} (p : A -> bool) (l : list A) : list A :=
  match l with
  | [] => []
  | x :: l' => if p x then drop_while p l' else l
  end.

Definition drop_while_end {A : Type} (p : A -> bool) (l : list A) : list A :=
  rev (drop_while p (rev l)).

(** Maximal runs of characters that do not satisfy [sep], the empty ones
    included: what [split] gives for a one-character separator. *)
Fixpoint split_at (sep : ascii -> bool) (l : list ascii) : list (list ascii) :=
  match l with
  | [] => [[]]
  | c :: l' =>
      if sep c then [] :: split_at sep l'
      else match split_at sep l' with
           | [] => [[c]]
           | w :: ws => (c :: w) :: ws
           end
  end.

(** Pieces between maximal runs of separators: [split] with a regular
    expression [\[...\]+]. *)
Fixpoint split_runs (sep : ascii -> bool) (l : list ascii) : list (list ascii) :=
  match l with
  | [] => [[]]
  | c :: l' =>
      if sep c then
        match l' with
        | d :: _ => if sep d then split_runs sep l' else [] :: split_runs sep l'
        | [] => [[]; []]
        end
      else match split_runs sep l' with
           | [] => [[c]]
           | w :: ws => (c :: w) :: ws
           end
  end.

(** * Operations on strings *)

(** ToBoolean of a string. *)
Definition truthy (s : string) : bool := negb (String.eqb s "").

(** [a || b] on strings. *)
Definition or_else (a b : string) : string := if truthy a then a else b.

(** ToBoolean of an optional string property: absent and empty are falsy. *)
Definition opt_truthy (o : option string) : bool :=
  match o with Some s => truthy s | None => false end.

(** [a || b] for an optional string property [a]. *)
Definition opt_or_else (o : option string) (b : string) : string :=
  match o with Some s => or_else s b | None => b end.

(** [a ?? b] for an optional string property [a]. *)
Definition opt_default (o : option string) (b : string) : string :=
  match o with Some s => s | None => b end.

Definition trim (s : string) : string :=
  of_chars (drop_while_end is_space (drop_while is_space (chars s))).

Definition to_lower (s : string) : string := of_chars (map lower_char (chars s)).

Definition starts_with (p s : string) : bool := String.prefix p s.

Fixpoint includes (s sub : string) : bool :=
  String.prefix sub s ||
  match s with
  | EmptyString => false
  | String _ s' => includes s' sub
  end.

(** [s.indexOf(c)] for a one-character string; [None] is -1. *)
Fixpoint index_of (c : ascii) (l : list ascii) : option nat :=
  match l with
  | [] => None
  | d :: l' => if Ascii.eqb c d then Some 0%nat else S <$> index_of c l'
  end.

(** [s.slice(0, n)] and [s.slice(n)] for [0 <= n]. *)
Definition slice_to (n : nat) (s : string) : string := of_chars (take n (chars s)).
Definition slice_from (n : nat) (s : string) : string := of_chars (drop n (chars s)).

Definition split_char (c : ascii) (s : string) : list string :=
  of_chars <$> split_at (Ascii.eqb c) (chars s).

Fixpoint join (sep : string) (l : list string) : string :=
  match l with
  | [] => ""
  | [x] => x
  | x :: l' => x +:+ sep +:+ join sep l'
  end.

(** ** Words: the non-empty pieces *)

Definition nonempty {A : Type} (l : list A) : bool :=
  match l with [] => false | _ => true end.

Definition words (sep : ascii -> bool) (l : list ascii) : list (list ascii) :=
  List.filter nonempty (split_at sep l).

(** Decimal notation of an integer, as [String(n)] prints it for
    [|n| < 10^21]. *)
Definition dec (z : Z) : string := pretty z.

(** * Lemmas *)

Lemma chars_of_chars l : chars (of_chars l) = l.
Proof. induction l; cbn; congruence. Qed.

Lemma of_chars_chars s : of_chars (chars s) = s.
Proof. induction s; cbn; congruence. Qed.

Lemma chars_inj s t : chars s = chars t -> s = t.
Proof. intros H. by rewrite <- (of_chars_chars s), H, of_chars_chars. Qed.

Lemma chars_app s t : chars (s +:+ t) = chars s ++ chars t.
Proof.
  induction s as [|c s IH]; [done |].
  change (c :: chars (s +:+ t) = c :: (chars s ++ chars t)). by rewrite IH.
Qed.

Lemma truthy_true s : truthy s = true <-> s <> "".
Proof. unfold truthy. destruct s; cbn; split; done. Qed.

Lemma truthy_false s : truthy s = false <-> s = "".
Proof. unfold truthy. destruct s; cbn; split; done. Qed.

Lemma dec_inj a b : dec a = dec b -> a = b.
Proof. apply pretty_Z_inj. Qed.

Section Drop_while.
Context {A : Type} (p : A -> bool).

Lemma drop_while_suffix l : exists k, l = k ++ drop_while p l /\ Forall (fun x => p x = true) k.
Proof.
  induction l as [|x l (k & Hk & Hp)]; cbn; [by exists [] |].
  destruct (p x) eqn:E; [| by exists []].
  exists (x :: k). split; [by cbn; rewrite <- Hk | by constructor].
Qed.

Lemma drop_while_head l x l' : drop_while p l = x :: l' -> p x = false.
Proof.
  induction l as [|y l IH]; cbn; [done |].
  destruct (p y) eqn:E; [done |]. by intros [= <- <-].
Qed.

Lemma drop_while_keep x l : p x = false -> drop_while p (x :: l) = x :: l.
Proof. intros H. cbn. by rewrite H. Qed.

Lemma drop_while_idem l : drop_while p (drop_while p l) = drop_while p l.
Proof.
  destruct (drop_while p l) as [|x l'] eqn:E; [done |].
  apply drop_while_keep. by eapply drop_while_head.
Qed.

Lemma drop_while_forall (Q : A -> Prop) l : Forall Q l -> Forall Q (drop_while p l).
Proof.
  intros H. destruct (drop_while_suffix l) as (k & Hk & _).
  rewrite Hk in H. by apply Forall_app in H as [_ H].
Qed.

Lemma drop_while_none l : Forall (fun x => p x = false) l -> drop_while p l = l.
Proof. destruct 1; [done |]. by apply drop_while_keep. Qed.

Lemma drop_while_end_prefix l :
  exists k, l = drop_while_end p l ++ k /\ Forall (fun x => p x = true) k.
Proof.
  destruct (drop_while_suffix (rev l)) as (k & Hk & Hp). exists (rev k). split.
  - unfold drop_while_end. rewrite <- rev_app_distr, <- Hk. by rewrite rev_involutive.
  - by apply Forall_rev.
Qed.

Lemma drop_while_end_idem l : drop_while_end p (drop_while_end p l) = drop_while_end p l.
Proof. unfold drop_while_end. by rewrite rev_involutive, drop_while_idem. Qed.

Lemma drop_while_end_snoc l l' x : drop_while_end p l = l' ++ [x] -> p x = false.
Proof.
  unfold drop_while_end. intros H. apply (f_equal (@rev A)) in H.
  rewrite rev_involutive, rev_app_distr in H. cbn in H. by eapply drop_while_head.
Qed.

(** Cutting the end of a list that starts with a kept element keeps it. *)
Lemma drop_while_end_cons x l :
  p x = false -> exists l', drop_while_end p (x :: l) = x :: l'.
Proof.
  intros Hx. destruct (drop_while_end_prefix (x :: l)) as (k & Hk & Hp).
  destruct (drop_while_end p (x :: l)) as [|y l'] eqn:E.
  - cbn in Hk. subst k. inv Hp. congruence.
  - injection Hk as -> _. eauto.
Qed.

Lemma drop_while_both_idem l :
  drop_while p (drop_while_end p (drop_while p l)) = drop_while_end p (drop_while p l).
Proof.
  destruct (drop_while p l) as [|x l'] eqn:E; [done |].
  assert (p x = false) as Hx by (by eapply drop_while_head).
  destruct (drop_while_end_cons x l' Hx) as [l'' ->]. by apply drop_while_keep.
Qed.
End Drop_while.

Lemma trim_idem s : trim (trim s) = trim s.
Proof. unfold trim. by rewrite chars_of_chars, drop_while_both_idem, drop_while_end_idem. Qed.

Lemma trim_no_space s :
  Forall (fun c => is_space c = false) (chars s) -> trim s = s.
Proof.
  intros H. unfold trim, drop_while_end.
  rewrite (drop_while_none _ _ H), drop_while_none by (by apply Forall_rev).
  by rewrite rev_involutive, of_chars_chars.
Qed.

(** Splitting loses only separators, and no piece holds one. *)
Lemma split_at_no_sep sep l :
  Forall (Forall (fun c => sep c = false)) (split_at sep l).
Proof.
  induction l as [|c l IH]; cbn; [by repeat constructor |].
  destruct (sep c) eqn:E; [by constructor |].
  destruct (split_at sep l) as [|w ws]; inv IH; repeat constructor; done.
Qed.

Lemma split_at_cons_nil sep l : split_at sep l <> [].
Proof.
  destruct l as [|c l]; cbn; [done |]. destruct (sep c); [done |].
  by destruct (split_at sep l).
Qed.

Lemma split_at_app_sep sep l1 c l2 :
  Forall (fun x => sep x = false) l1 -> sep c = true ->
  split_at sep (l1 ++ c :: l2) = l1 :: split_at sep l2.
Proof.
  intros H Hc. induction H as [|x l1 Hx _ IH]; cbn.
  - by rewrite Hc.
  - by rewrite Hx, IH.
Qed.

Lemma split_at_none sep l :
  Forall (fun x => sep x = false) l -> split_at sep l = [l].
Proof. induction 1 as [|x l Hx _ IH]; cbn; [done |]. by rewrite Hx, IH. Qed.

(** ** Words: the non-empty pieces *)

Lemma join_cons sep x l : l <> [] -> join sep (x :: l) = x +:+ sep +:+ join sep l.
Proof. by destruct l. Qed.

Lemma words_sep sep c l : sep c = true -> words sep (c :: l) = words sep l.
Proof. intros H. unfold words. cbn. by rewrite H. Qed.

Lemma words_drop_while sep p l :
  (forall c, p c = true -> sep c = true) -> words sep (drop_while p l) = words sep l.
Proof.
  intros H. induction l as [|c l IH]; [done |]. cbn [drop_while].
  destruct (p c) eqn:E; [| done]. by rewrite IH, words_sep by auto.
Qed.

Lemma split_at_app_all_sep sep l k :
  Forall (fun c => sep c = true) k ->
  split_at sep (l ++ k) = split_at sep l ++ repeat [] (length k).
Proof.
  intros Hk. induction l as [|c l IH]; cbn.
  - induction Hk as [|c k Hc _ IH]; [done |]. cbn. rewrite Hc, IH. done.
  - rewrite IH. destruct (sep c); [done |].
    pose proof (split_at_cons_nil sep l). by destruct (split_at sep l).
Qed.

Lemma words_drop_while_end sep p l :
  (forall c, p c = true -> sep c = true) -> words sep (drop_while_end p l) = words sep l.
Proof.
  intros H. destruct (drop_while_end_prefix p l) as (k & Hk & Hp).
  rewrite Hk at 2. unfold words. rewrite split_at_app_all_sep by (by eapply Forall_impl).
  rewrite List.filter_app, <- (app_nil_r (List.filter _ (split_at sep (drop_while_end p l)))).
  f_equal; [by rewrite app_nil_r |]. by induction (length k).
Qed.

Lemma split_runs_words sep l : List.filter nonempty (split_runs sep l) = words sep l.
Proof.
  assert (split_runs sep l <> [] /\
          (forall w ws, split_runs sep l = w :: ws ->
           exists ws', split_at sep l = w :: ws' /\
                       List.filter nonempty ws = List.filter nonempty ws') /\
          List.filter nonempty (split_runs sep l) = words sep l) as (_ & _ & H); [| exact H].
  unfold words. induction l as [|c l (Hn & Hh & IH)].
  { split; [done |]. split; [| done]. intros w ws [= <- <-]. by exists []. }
  destruct (sep c) eqn:Ec.
  - assert (split_at sep (c :: l) = [] :: split_at sep l) as -> by (cbn; by rewrite Ec).
    assert (split_runs sep (c :: l) = [] :: split_runs sep l \/
            split_runs sep (c :: l) = split_runs sep l /\
            exists l', split_at sep l = [] :: l') as [-> | [-> [l' Hl]]].
    { cbn [split_runs]. rewrite Ec. destruct l as [|d l]; [by left |].
      destruct (sep d) eqn:Ed; [| by left]. right. split; [done |]. cbn. rewrite Ed. eauto. }
    + split; [done |]. split; [| exact IH]. intros w ws [= <- <-]. eauto.
    + split; [done |]. split; [| exact IH].
      intros w ws E. destruct (Hh w ws E) as (ws' & E' & Hf). rewrite Hl in E'.
      injection E' as <- <-. eexists. split; [reflexivity |]. by rewrite Hl.
  - cbn [split_runs split_at]. rewrite Ec. destruct (split_runs sep l) as [|w ws]; [done |].
    destruct (Hh w ws eq_refl) as (ws' & -> & Hf).
    split; [done |]. split.
    + intros w' ws'' [= <- <-]. eauto.
    + cbn. by rewrite Hf.
Qed.

Lemma split_runs_no_sep sep l :
  Forall (Forall (fun c => sep c = false)) (split_runs sep l).
Proof.
  induction l as [|c l IH]; cbn; [by repeat constructor |].
  destruct (sep c) eqn:E.
  - destruct l as [|d l]; [by repeat constructor |]. destruct (sep d); [done |]. by constructor.
  - destruct (split_runs sep l) as [|w ws]; inv IH; repeat constructor; done.
Qed.

Lemma words_no_sep sep l :
  Forall (fun w => w <> [] /\ Forall (fun c => sep c = false) w) (words sep l).
Proof.
  rewrite List.Forall_forall. intros w [Hw Hn]%filter_In. split; [by destruct w |].
  pose proof (split_at_no_sep sep l) as H. rewrite List.Forall_forall in H. auto.
Qed.

(** Words separated by non-empty runs of separators are found again. *)
Lemma words_join sep (glue : string) (ws : list string) :
  nonempty (chars glue) = true -> Forall (fun c => sep c = true) (chars glue) ->
  Forall (fun w => w <> "" /\ Forall (fun c => sep c = false) (chars w)) ws ->
  words sep (chars (join glue ws)) = List.map chars ws.
Proof.
  intros Hg Hs Hw. induction Hw as [|w ws [Hne Hw] Hws IH]; [done |].
  assert (nonempty (chars w) = true) as Hnw by (by destruct w).
  destruct (decide (ws = [])) as [-> | Hnil].
  - cbn [join List.map]. unfold words. rewrite split_at_none by done. cbn. by rewrite Hnw.
  - rewrite join_cons, !chars_app by done. cbn [List.map]. rewrite <- IH.
    destruct (chars glue) as [|c g]; [done |]. inv Hs. cbn [app].
    unfold words. rewrite split_at_app_sep by done. cbn [List.filter]. rewrite Hnw. f_equal.
    clear -H2. induction H2 as [|d g Hd _ IHg]; [done |]. cbn. by rewrite Hd.
Qed.

Lemma index_of_some c l n :
  index_of c l = Some n ->
  l = take n l ++ c :: drop (S n) l /\ ~ In c (take n l).
Proof.
  revert n. induction l as [|d l IH]; intros n; cbn; [done |].
  destruct (Ascii.eqb_spec c d) as [-> | Hne].
  - intros [= <-]. cbn. split; [by destruct l | tauto].
  - destruct (index_of c l) as [m|] eqn:E; cbn; [| done].
    intros [= <-]. destruct (IH m eq_refl) as [Hl Hn]. cbn. split.
    + f_equal. by rewrite <- Hl at 1.
    + intros [H | H]; [by symmetry in H | by apply Hn].
Qed.

Lemma index_of_none c l : index_of c l = None <-> ~ In c l.
Proof.
  induction l as [|d l IH]; cbn; [tauto |].
  destruct (Ascii.eqb_spec c d) as [-> | Hne]; [split; [done | tauto] |].
  rewrite fmap_None, IH. split; [intros H [?|?]; [by symmetry in H0 | tauto] | tauto].
Qed.

#[export] Hint Rewrite chars_of_chars of_chars_chars chars_app : strings.
