(* ===== verification/JsNum.v ===== *)
(** JavaScript numbers: IEEE 754 binary64 values as [spec_float] (sign,
    mantissa, exponent, or a zero, an infinity, or NaN), with the operations of
    ECMAScript the dashboard uses. Everything here evaluates. *)

From stdpp Require Import base list strings pretty.
From Stdlib Require Import ZArith Lia Bool Ascii.
From Stdlib Require Export SpecFloat.
From S2P Require Import Prelude JsString.

Notation num := spec_float.

Definition nan : num := S754_nan.
Definition infinity (neg : bool) : num := S754_infinity neg.

#[export] Instance num_eq_dec : EqDecision num.
Proof. solve_decision. Defined.

(** * Arithmetic and comparison *)

Definition num_add : num -> num -> num := SFadd 53 1024.
Definition num_sub : num -> num -> num := SFsub 53 1024.
Definition num_mul : num -> num -> num := SFmul 53 1024.
Definition num_div : num -> num -> num := SFdiv 53 1024.

Definition num_lt (x y : num) : bool := SFltb x y.
Definition num_le (x y : num) : bool := SFleb x y.
Definition num_gt (x y : num) : bool := SFltb y x.
Definition num_ge (x y : num) : bool := SFleb y x.
(** [x === y] *)
Definition num_eqb (x y : num) : bool := SFeqb x y.

Definition is_nan (x : num) : bool :=
  match x with S754_nan => true | _ => false end.

(** [Number.isFinite] *)
Definition is_finite (x : num) : bool :=
  match x with S754_zero _ | S754_finite _ _ _ => true | _ => false end.

(** ToBoolean *)
Definition num_truthy (x : num) : bool :=
  match x with S754_zero _ | S754_nan => false | _ => true end.

(** The zero that [Math.max] returns for two zeros is negative only when both
    are; the one of [Math.min] is negative when one is. *)
Definition zero_or (f : bool -> bool -> bool) (x y : num) : num :=
  match x, y with
  | S754_zero a, S754_zero b => S754_zero (f a b)
  | _, _ => x
  end.

(** [Math.max(x, y)] *)
Definition num_max (x y : num) : num :=
  match SFcompare x y with
  | Some Lt => y
  | Some Gt => x
  | Some Eq => zero_or andb x y
  | None => nan
  end.

(** [Math.min(x, y)] *)
Definition num_min (x y : num) : num :=
  match SFcompare x y with
  | Some Lt => x
  | Some Gt => y
  | Some Eq => zero_or orb x y
  | None => nan
  end.

Definition num_abs : num -> num := SFabs.

(** * Integers *)

Definition num_of_Z (z : Z) : num := binary_normalize 53 1024 z 0 false.

Definition num_of_nat (n : nat) : num := num_of_Z (Z.of_nat n).

Definition signed (neg : bool) (z : Z) : Z := if neg then - z else z.

(** Numerator and denominator of a finite magnitude [m * 2^e]. *)
Definition ratio (m : positive) (e : Z) : Z * Z :=
  if (0 <=? e)%Z then (Zpos m * 2 ^ e, 1)%Z else (Zpos m, 2 ^ (- e))%Z.

(** The integer a number is, when it is one. *)
Definition num_to_Z (x : num) : option Z :=
  match x with
  | S754_zero _ => Some 0%Z
  | S754_finite s m e =>
      let '(n, d) := ratio m e in
      if (n mod d =? 0)%Z then Some (signed s (n / d)) else None
  | _ => None
  end.

(** [Math.round]: the nearest integer, ties towards +Infinity. *)
Definition num_round (x : num) : num :=
  match x with
  | S754_finite s m e =>
      let '(n, d) := ratio m e in
      let r := ((2 * signed s n + d) / (2 * d))%Z in
      if (r =? 0)%Z then S754_zero s else num_of_Z r
  | _ => x
  end.

(** * Decimal text *)

(** The number nearest to [m * 10^e], [m >= 0]. The two bounds only keep
    evaluation cheap: beyond them the result is Infinity or zero anyway. *)
Definition num_of_decimal (neg : bool) (m e : Z) : num :=
  match m with
  | Zpos p =>
      if (309 <? e)%Z then infinity neg
      else if (e + Z.log2 m / 3 + 1 <? -330)%Z then S754_zero neg
      else if (0 <=? e)%Z then binary_normalize 53 1024 (signed neg (m * 10 ^ e)) 0 neg
      else
        let '(mz, ez, lz) := SFdiv_core_binary 53 1024 m 0 (10 ^ (- e)) 0 in
        binary_round_aux 53 1024 neg mz ez lz
  | _ => S754_zero neg
  end.

(** Longest prefix of decimal digits: its value, its length, the rest. *)
Fixpoint scan_digits (acc : Z) (n : nat) (l : list ascii) : Z * nat * list ascii :=
  match l with
  | c :: l' =>
      if is_digit c then scan_digits (10 * acc + digit_val c)%Z (S n) l' else (acc, n, l)
  | [] => (acc, n, l)
  end.

(** Optional sign. *)
Definition scan_sign (l : list ascii) : bool * list ascii :=
  match l with
  | c :: l' =>
      if Ascii.eqb c "-" then (true, l') else if Ascii.eqb c "+" then (false, l') else (false, l)
  | [] => (false, l)
  end.

(** Optional exponent part; [None] when an [e] is not followed by digits. *)
Definition scan_exp (l : list ascii) : option (Z * list ascii) :=
  match l with
  | c :: l' =>
      if Ascii.eqb c "e" || Ascii.eqb c "E" then
        let '(neg, l1) := scan_sign l' in
        let '(v, n, l2) := scan_digits 0 0 l1 in
        if Nat.eqb n 0 then None else Some (signed neg v, l2)
      else Some (0%Z, l)
  | [] => Some (0%Z, l)
  end.

(** Optional fraction part: value and number of its digits. *)
Definition scan_frac (acc : Z) (l : list ascii) : Z * nat * list ascii :=
  match l with
  | c :: l' => if Ascii.eqb c "." then scan_digits acc 0 l' else (acc, 0%nat, l)
  | [] => (acc, 0%nat, l)
  end.

(** StrUnsignedDecimalLiteral, the whole list. *)
Definition parse_decimal (neg : bool) (l : list ascii) : num :=
  let '(i, ni, l1) := scan_digits 0 0 l in
  let '(m, nf, l2) := scan_frac i l1 in
  match scan_exp l2 with
  | Some (e, []) =>
      if Nat.eqb (ni + nf) 0 then nan else num_of_decimal neg m (e - Z.of_nat nf)
  | _ => nan
  end.

Definition radix_digit (c : ascii) : option Z :=
  let n := Z.of_N (code c) in
  if (48 <=? n)%Z && (n <=? 57)%Z then Some (n - 48)%Z
  else if (97 <=? n)%Z && (n <=? 102)%Z then Some (n - 87)%Z
  else if (65 <=? n)%Z && (n <=? 70)%Z then Some (n - 55)%Z
  else None.

(** Digits of a hexadecimal, octal or binary literal; at least one. *)
Definition parse_radix (base : Z) (l : list ascii) : num :=
  match l with
  | [] => nan
  | _ =>
      match foldl (fun acc c =>
              match acc, radix_digit c with
              | Some v, Some d => if (d <? base)%Z then Some (base * v + d)%Z else None
              | _, _ => None
              end) (Some 0%Z) l with
      | Some v => num_of_Z v
      | None => nan
      end
  end.

(** [Number(s)] for a string: StringToNumber of ECMAScript. *)
Definition num_of_string (s : string) : num :=
  match chars (trim s) with
  | [] => num_of_Z 0
  | "0"%char :: "x"%char :: l | "0"%char :: "X"%char :: l => parse_radix 16 l
  | "0"%char :: "o"%char :: l | "0"%char :: "O"%char :: l => parse_radix 8 l
  | "0"%char :: "b"%char :: l | "0"%char :: "B"%char :: l => parse_radix 2 l
  | l =>
      let '(neg, l') := scan_sign l in
      if String.eqb (of_chars l') "Infinity" then infinity neg else parse_decimal neg l'
  end.

(** ** Number to string *)

Definition zeros (n : Z) : string := of_chars (repeat "0"%char (Z.to_nat n)).

(** Digits without the trailing zeros. *)
Definition strip_zeros (ds : string) : string :=
  of_chars (drop_while_end (Ascii.eqb "0") (chars ds)).

(** Layout of the digits [ds] of a value [0.ds * 10^n]: Number::toString. *)
Definition layout (ds : string) (n : Z) : string :=
  let k := Z.of_nat (String.length ds) in
  if (k <=? n)%Z && (n <=? 21)%Z then ds +:+ zeros (n - k)
  else if (0 <? n)%Z && (n <=? 21)%Z then
    slice_to (Z.to_nat n) ds +:+ "." +:+ slice_from (Z.to_nat n) ds
  else if (-6 <? n)%Z && (n <=? 0)%Z then "0." +:+ zeros (- n) +:+ ds
  else
    slice_to 1 ds +:+ (if (k =? 1)%Z then "" else "." +:+ slice_from 1 ds) +:+
    "e" +:+ (if (n - 1 <? 0)%Z then "-" else "+") +:+ dec (Z.abs (n - 1)).

(** [10^(decimal_point n d - 1) <= n/d < 10^(decimal_point n d)]: an estimate
    from the bit lengths, raised by at most a few steps. *)
Definition ge_pow10 (n d p : Z) : bool :=
  if (0 <=? p)%Z then (10 ^ p * d <=? n)%Z else (d <=? n * 10 ^ (- p))%Z.

Fixpoint decimal_point_from (fuel : nat) (n d p : Z) : Z :=
  match fuel with
  | O => p
  | S f => if ge_pow10 n d p then decimal_point_from f n d (p + 1) else p
  end.

Definition decimal_point (n d : Z) : Z :=
  decimal_point_from 8 n d ((Z.log2 n - Z.log2 d - 1) * 30103 / 100000 - 1)%Z.

(** The two integers around [n/d * 10^q], the nearer one first. *)
Definition candidates (n d q : Z) : list Z :=
  let '(n', d') := if (0 <=? q)%Z then (n * 10 ^ q, d)%Z else (n, d * 10 ^ (- q))%Z in
  let f := (n' / d')%Z in
  if (2 * (n' - f * d') <? d')%Z then [f; f + 1]%Z else [f + 1; f]%Z.

(** Shortest digits that read back as [x]: at most 17 are needed. *)
Fixpoint shortest (fuel : nat) (k : Z) (x : num) (n d p : Z) : option (Z * Z) :=
  match fuel with
  | O => None
  | S f =>
      match List.find (fun s => bool_decide (num_of_decimal false s (p - k) = x))
              (candidates n d (k - p)) with
      | Some s => Some (s, p - k)%Z
      | None => shortest f (k + 1) x n d p
      end
  end.

Definition pos_to_string (m : positive) (e : Z) : string :=
  let '(n, d) := ratio m e in
  if (n mod d =? 0)%Z && (n / d <? 2 ^ 53)%Z then dec (n / d)
  else
    match shortest 17 1 (S754_finite false m e) n d (decimal_point n d) with
    | Some (s, q) =>
        let ds := dec s in
        layout (strip_zeros ds) (Z.of_nat (String.length ds) + q)
    | None => "NaN"
    end.

(** [String(x)] *)
Definition num_to_string (x : num) : string :=
  match x with
  | S754_nan => "NaN"
  | S754_zero _ => "0"
  | S754_infinity s => if s then "-Infinity" else "Infinity"
  | S754_finite s m e => (if s then "-" else "") +:+ pos_to_string m e
  end.

(** [n] as decimal digits, at least [w] of them. *)
Definition pad_left (w : nat) (s : string) : string :=
  zeros (Z.of_nat w - Z.of_nat (String.length s)) +:+ s.

(** [x.toFixed(f)]: the integer [r] with [r / 10^f] nearest to the magnitude
    of [x], the larger one on a tie. *)
Definition to_fixed (f : nat) (x : num) : string :=
  match x with
  | S754_zero _ => dec 0 +:+ (if Nat.eqb f 0 then "" else "." +:+ zeros (Z.of_nat f))
  | S754_finite s m e =>
      let '(n, d) := ratio m e in
      if (10 ^ 21 * d <=? n)%Z then num_to_string x
      else
        let r := ((2 * n * 10 ^ Z.of_nat f + d) / (2 * d))%Z in
        let ds := pad_left (S f) (dec r) in
        let i := (String.length ds - f)%nat in
        (if s then "-" else "") +:+ slice_to i ds +:+
        (if Nat.eqb f 0 then "" else "." +:+ slice_from i ds)
  | _ => num_to_string x
  end.

(** * Evaluation *)

Example num_strings :
  map (fun s => num_to_string (num_of_string s))
    ["0.1"; "1e21"; "1.5"; "-0"; "5e-324"; "0.000001"; "1e-7"; " 42 "; "0x1F"; "";
     "1e400"; "12px"; "9007199254740993"; "123456789012345680000"; "-2.50"; ".5"; "."]
  = ["0.1"; "1e+21"; "1.5"; "0"; "5e-324"; "0.000001"; "1e-7"; "42"; "31"; "0";
     "Infinity"; "NaN"; "9007199254740992"; "123456789012345680000"; "-2.5"; "0.5"; "NaN"].
Proof. vm_compute. reflexivity. Qed.

Example num_fixed :
  map (fun p => to_fixed (fst p) (num_of_string (snd p)))
    [(1%nat, "9.96"); (2%nat, "1.005"); (2%nat, "0.004"); (1%nat, "-1.25"); (2%nat, "0")]
  = ["10.0"; "1.00"; "0.00"; "-1.3"; "0.00"].
Proof. vm_compute. reflexivity. Qed.

(** * Lemmas: order *)

Lemma pos_compare_swap (a b : positive) :
  Pos.compare_cont Eq b a = CompOpp (Pos.compare_cont Eq a b).
Proof. apply Pos.compare_antisym. Qed.

Lemma compare_swap x y : SFcompare y x = CompOpp <$> SFcompare x y.
Proof.
  destruct x as [s1|s1| |s1 m1 e1], y as [s2|s2| |s2 m2 e2];
    try destruct s1; try destruct s2; try reflexivity; cbn;
    rewrite (Z.compare_antisym e1 e2), (pos_compare_swap m1 m2);
    destruct (e1 ?= e2)%Z; cbn; try reflexivity; by rewrite ?CompOpp_involutive.
Qed.

Lemma compare_refl x : is_nan x = false -> SFcompare x x = Some Eq.
Proof.
  destruct x as [s|s| |s m e]; try done; intros _; cbn; destruct s; try done;
    by rewrite Z.compare_refl, Pos.compare_cont_refl.
Qed.

Lemma compare_not_nan x y c : SFcompare x y = Some c -> is_nan x = false /\ is_nan y = false.
Proof. destruct x, y; cbn; done. Qed.

Lemma compare_total x y :
  is_nan x = false -> is_nan y = false -> exists c, SFcompare x y = Some c.
Proof.
  destruct x as [s1|s1| |s1 m1 e1], y as [s2|s2| |s2 m2 e2]; cbn; try done; eauto.
Qed.

Lemma le_compare x y :
  num_le x y = true <-> SFcompare x y = Some Lt \/ SFcompare x y = Some Eq.
Proof. unfold num_le, SFleb. destruct (SFcompare x y) as [[]|]; naive_solver. Qed.

Lemma num_le_refl x : is_nan x = false -> num_le x x = true.
Proof. intros H. apply le_compare. right. by apply compare_refl. Qed.

(** A zero compares the same whatever its sign. *)
Lemma compare_zero_l a b y : SFcompare (S754_zero a) y = SFcompare (S754_zero b) y.
Proof. by destruct y. Qed.

Lemma compare_zero_r a b x : SFcompare x (S754_zero a) = SFcompare x (S754_zero b).
Proof. by destruct x. Qed.

Lemma compare_zero_or_l f x y z :
  SFcompare x y = Some Eq -> SFcompare (zero_or f x y) z = SFcompare x z.
Proof. by destruct x; cbn; try done; destruct y; try done; intros _; destruct z. Qed.

Lemma compare_zero_or_r f x y z :
  SFcompare x y = Some Eq -> SFcompare z (zero_or f x y) = SFcompare z x.
Proof. by destruct x; cbn; try done; destruct y; try done; intros _; destruct z. Qed.

(** ** [Math.max], [Math.min], [clamp] *)

Section Max_min.
Context (x y : num) (Hx : is_nan x = false) (Hy : is_nan y = false).

Lemma num_max_ge_r : num_le y (num_max x y) = true.
Proof.
  destruct (compare_total x y Hx Hy) as [c Hc]. unfold num_max. rewrite Hc.
  apply le_compare. destruct c.
  - rewrite compare_zero_or_r by done. rewrite (compare_swap x y), Hc. by right.
  - right. by apply compare_refl.
  - left. by rewrite (compare_swap x y), Hc.
Qed.

Lemma num_min_le_r : num_le (num_min x y) y = true.
Proof.
  destruct (compare_total x y Hx Hy) as [c Hc]. unfold num_min. rewrite Hc.
  apply le_compare. destruct c.
  - rewrite compare_zero_or_l by done. by right.
  - by left.
  - right. by apply compare_refl.
Qed.

(** The value of a minimum is that of one of its arguments. *)
Lemma num_min_cases z :
  SFcompare z (num_min x y) = SFcompare z x \/ SFcompare z (num_min x y) = SFcompare z y.
Proof.
  destruct (compare_total x y Hx Hy) as [c Hc]. unfold num_min. rewrite Hc.
  destruct c; [left; by apply compare_zero_or_r | by left | by right].
Qed.

Lemma num_max_not_nan : is_nan (num_max x y) = false.
Proof.
  destruct (compare_total x y Hx Hy) as [c Hc]. unfold num_max. rewrite Hc.
  destruct c; try done. by destruct x, y.
Qed.
End Max_min.

(** ** Integers *)

Lemma digits2_shift k p : digits2_pos (shift_pos k p) = (digits2_pos p + k)%positive.
Proof.
  unfold shift_pos. induction k using Pos.peano_ind.
  - cbn. lia.
  - rewrite Pos.iter_succ. cbn. lia.
Qed.

Lemma shift_pos_spec k p : Zpos (shift_pos k p) = (Zpos p * 2 ^ Zpos k)%Z.
Proof. rewrite shift_pos_correct, Z.mul_comm. reflexivity. Qed.

Lemma fexp_normal d : (1 <= d <= 53)%Z -> fexp 53 1024 d = (d - 53)%Z.
Proof. unfold fexp, SpecFloat.emin. lia. Qed.

(** The mantissa of an integer of at most 53 bits, normalised to 53 bits. *)
Definition int_mantissa (p : positive) : positive :=
  match (53 - Zpos (digits2_pos p))%Z with Zpos k => shift_pos k p | _ => p end.

Lemma int_mantissa_spec p :
  (Zpos (digits2_pos p) <= 53)%Z ->
  Zpos (int_mantissa p) = (Zpos p * 2 ^ (53 - Zpos (digits2_pos p)))%Z /\
  Zpos (digits2_pos (int_mantissa p)) = 53%Z.
Proof.
  intros H. unfold int_mantissa.
  destruct (53 - Zpos (digits2_pos p))%Z as [|k|k] eqn:E; try lia.
  rewrite shift_pos_spec, digits2_shift. lia.
Qed.

Lemma binary_round_int s p :
  (Zpos (digits2_pos p) <= 53)%Z ->
  binary_round 53 1024 s p 0 =
  S754_finite s (int_mantissa p) (Zpos (digits2_pos p) - 53).
Proof.
  intros H. destruct (int_mantissa_spec p H) as [Hm Hd].
  assert (fexp 53 1024 (Zpos (digits2_pos p) + 0) = Zpos (digits2_pos p) - 53)%Z as Hf
    by (rewrite Z.add_0_r; apply fexp_normal; lia).
  unfold binary_round, shl_align. rewrite Hf.
  assert (forall q, Zpos (digits2_pos q) = 53%Z ->
      binary_round_aux 53 1024 s (Zpos q) (Zpos (digits2_pos p) - 53) loc_Exact
      = S754_finite s q (Zpos (digits2_pos p) - 53)) as Haux.
  { intros q Hq. unfold binary_round_aux, shr_fexp, Zdigits2. rewrite Hq.
    rewrite fexp_normal by lia.
    replace (53 + (Z.pos (digits2_pos p) - 53) - 53 - (Z.pos (digits2_pos p) - 53))%Z
      with 0%Z by lia. cbn [shr shr_m shr_record_of_loc loc_of_shr_record round_nearest_even].
    rewrite Hq, fexp_normal by lia.
    replace (53 + (Z.pos (digits2_pos p) - 53) - 53 - (Z.pos (digits2_pos p) - 53))%Z
      with 0%Z by lia. cbn [shr shr_m shr_record_of_loc].
    by rewrite (proj2 (Z.leb_le _ _)) by lia. }
  unfold int_mantissa in *.
  replace (53 - Zpos (digits2_pos p))%Z with (- (Zpos (digits2_pos p) - 53 - 0))%Z in * by lia.
  destruct (Zpos (digits2_pos p) - 53 - 0)%Z as [|k|k] eqn:E; try lia; cbn [Z.opp] in *.
  - replace 0%Z with (Zpos (digits2_pos p) - 53)%Z at 1 by lia. by apply Haux.
  - by apply Haux.
Qed.

(** Integers strictly between -2^53 and 2^53, which binary64 represents
    exactly: [Number.isSafeInteger]. *)
Definition safe_int (z : Z) : Prop := (- 2 ^ 53 < z < 2 ^ 53)%Z.

Lemma digits2_size p : digits2_pos p = Pos.size p.
Proof. induction p; cbn; congruence. Qed.

Lemma digits2_bounds p :
  (2 ^ (Zpos (digits2_pos p) - 1) <= Zpos p < 2 ^ Zpos (digits2_pos p))%Z.
Proof.
  rewrite digits2_size.
  pose proof (Pos.size_gt p) as Hgt. pose proof (Pos.size_le p) as Hle.
  assert (2 ^ Zpos (Pos.size p) <= 2 * Zpos p)%Z as Hle' by lia.
  replace (2 ^ Z.pos (Pos.size p))%Z with (2 * 2 ^ (Z.pos (Pos.size p) - 1))%Z in Hle'.
  2:{ rewrite <- Z.pow_succ_r by lia. f_equal. lia. }
  split; lia.
Qed.

Lemma digits2_safe p : (Zpos p < 2 ^ 53)%Z -> (Zpos (digits2_pos p) <= 53)%Z.
Proof.
  intros H. pose proof (digits2_bounds p) as [Hl _].
  apply Z.lt_succ_r, Z.lt_sub_lt_add_r, (Z.pow_lt_mono_r_iff 2); lia.
Qed.

Lemma num_of_Z_pos p :
  (Zpos p < 2 ^ 53)%Z ->
  num_of_Z (Zpos p) = S754_finite false (int_mantissa p) (Zpos (digits2_pos p) - 53) /\
  num_of_Z (Zneg p) = S754_finite true (int_mantissa p) (Zpos (digits2_pos p) - 53).
Proof. intros H. split; apply binary_round_int; by apply digits2_safe. Qed.

Lemma int_ratio p :
  (Zpos p < 2 ^ 53)%Z ->
  let '(n, d) := ratio (int_mantissa p) (Zpos (digits2_pos p) - 53) in
  (n = Zpos p * d /\ 0 < d)%Z.
Proof.
  intros H. pose proof (digits2_safe p H) as Hd.
  destruct (int_mantissa_spec p Hd) as [Hm _]. unfold ratio.
  destruct (0 <=? Zpos (digits2_pos p) - 53)%Z eqn:E.
  - apply Z.leb_le in E. replace (Zpos (digits2_pos p)) with 53%Z in * by lia.
    rewrite Hm. cbn. lia.
  - apply Z.leb_gt in E. rewrite Hm. split; [| apply Z.pow_pos_nonneg; lia].
    do 2 f_equal. lia.
Qed.

Lemma num_to_of_Z z : safe_int z -> num_to_Z (num_of_Z z) = Some z.
Proof.
  unfold safe_int. intros H. destruct z as [|p|p]; [done | |];
    (destruct (num_of_Z_pos p) as [Hp Hn]; [lia |]; rewrite ?Hp, ?Hn; cbn [num_to_Z];
     pose proof (int_ratio p ltac:(lia)) as Hr;
     destruct (ratio _ _) as [n d]; destruct Hr as [-> Hd];
     rewrite Z.mod_mul, Z.div_mul by lia; done).
Qed.

Lemma num_of_Z_finite z : safe_int z -> is_finite (num_of_Z z) = true.
Proof.
  unfold safe_int. intros H. destruct z as [|p|p]; [done | |];
    destruct (num_of_Z_pos p) as [Hp Hn]; try lia; by rewrite ?Hp, ?Hn.
Qed.

Lemma finite_not_nan x : is_finite x = true -> is_nan x = false.
Proof. by destruct x. Qed.

(** Safe integers are printed in decimal notation. *)
Lemma num_to_string_int z : safe_int z -> num_to_string (num_of_Z z) = dec z.
Proof.
  unfold safe_int. intros H. destruct z as [|p|p]; [done | |];
    (destruct (num_of_Z_pos p) as [Hp Hn]; [lia |]; rewrite ?Hp, ?Hn; cbn [num_to_string];
     unfold pos_to_string; pose proof (int_ratio p ltac:(lia)) as Hr;
     destruct (ratio _ _) as [n d]; destruct Hr as [-> Hd];
     rewrite Z.mod_mul, Z.div_mul by lia;
     rewrite (proj2 (Z.ltb_lt _ _)) by lia; done).
Qed.

Lemma int_compare_pos p q :
  (Zpos p < 2 ^ 53)%Z -> (Zpos q < 2 ^ 53)%Z ->
  match (Zpos (digits2_pos p) - 53 ?= Zpos (digits2_pos q) - 53)%Z with
  | Lt => Lt
  | Gt => Gt
  | Eq => Pos.compare_cont Eq (int_mantissa p) (int_mantissa q)
  end = (Zpos p ?= Zpos q)%Z.
Proof.
  intros Hp Hq.
  destruct (int_mantissa_spec p (digits2_safe p Hp)) as [Hmp _].
  destruct (int_mantissa_spec q (digits2_safe q Hq)) as [Hmq _].
  pose proof (digits2_bounds p) as [Hp1 Hp2]. pose proof (digits2_bounds q) as [Hq1 Hq2].
  pose proof (digits2_safe p Hp). pose proof (digits2_safe q Hq).
  destruct (Z.compare_spec (Zpos (digits2_pos p) - 53) (Zpos (digits2_pos q) - 53)) as [E | E | E].
  - change (Pos.compare_cont Eq (int_mantissa p) (int_mantissa q))
      with (Zpos (int_mantissa p) ?= Zpos (int_mantissa q))%Z.
    rewrite Hmp, Hmq. replace (Zpos (digits2_pos q)) with (Zpos (digits2_pos p)) by lia.
    symmetry. apply Zmult_compare_compat_r. apply Z.lt_gt, Z.pow_pos_nonneg; lia.
  - symmetry. apply Z.compare_lt_iff.
    assert (2 ^ Zpos (digits2_pos p) <= 2 ^ (Zpos (digits2_pos q) - 1))%Z
      by (apply Z.pow_le_mono_r; lia). lia.
  - symmetry. apply Z.compare_gt_iff.
    assert (2 ^ Zpos (digits2_pos q) <= 2 ^ (Zpos (digits2_pos p) - 1))%Z
      by (apply Z.pow_le_mono_r; lia). lia.
Qed.

(** On safe integers the comparisons are those of the integers. *)
Lemma compare_int a b :
  safe_int a -> safe_int b -> SFcompare (num_of_Z a) (num_of_Z b) = Some (a ?= b)%Z.
Proof.
  unfold safe_int. intros Ha Hb.
  destruct a as [|p|p], b as [|q|q]; try done;
    try (destruct (num_of_Z_pos p) as [Hp Hp']; [lia |]; rewrite ?Hp, ?Hp');
    try (destruct (num_of_Z_pos q) as [Hq Hq']; [lia |]; rewrite ?Hq, ?Hq'); try done;
    cbn [SFcompare]; f_equal.
  - apply int_compare_pos; lia.
  - change (Zneg p ?= Zneg q)%Z with (CompOpp (Zpos p ?= Zpos q)%Z).
    rewrite <- (int_compare_pos p q) by lia.
    by destruct (Zpos (digits2_pos p) - 53 ?= Zpos (digits2_pos q) - 53)%Z.
Qed.

Lemma num_le_int a b :
  safe_int a -> safe_int b -> num_le (num_of_Z a) (num_of_Z b) = (a <=? b)%Z.
Proof.
  intros Ha Hb. unfold num_le, SFleb. rewrite compare_int by done.
  unfold Z.leb. by destruct (a ?= b)%Z.
Qed.

Lemma num_lt_int a b :
  safe_int a -> safe_int b -> num_lt (num_of_Z a) (num_of_Z b) = (a <? b)%Z.
Proof.
  intros Ha Hb. unfold num_lt, SFltb. rewrite compare_int by done.
  unfold Z.ltb. by destruct (a ?= b)%Z.
Qed.

Lemma num_of_Z_inj a b : safe_int a -> safe_int b -> num_of_Z a = num_of_Z b -> a = b.
Proof.
  intros Ha Hb H. apply (f_equal num_to_Z) in H.
  rewrite !num_to_of_Z in H by done. congruence.
Qed.

#[export] Hint Resolve finite_not_nan num_of_Z_finite : console.

(** ** Sign *)

(** Not below zero (NaN included). *)
Definition nonneg (x : num) : bool :=
  match x with
  | S754_finite s _ _ | S754_infinity s => negb s
  | _ => true
  end.

Lemma binary_round_aux_nonneg m e l : nonneg (binary_round_aux 53 1024 false m e l) = true.
Proof.
  unfold binary_round_aux. destruct (shr_fexp 53 1024 m e l) as [r1 e1].
  destruct (shr_fexp 53 1024 _ e1 _) as [r2 e2].
  destruct (shr_m r2); try done. by destruct (_ <=? _)%Z.
Qed.

Lemma binary_normalize_nonneg z e : (0 <= z)%Z -> nonneg (binary_normalize 53 1024 z e false) = true.
Proof.
  intros H. destruct z as [|p|p]; [done | | lia]. cbn [binary_normalize]. unfold binary_round.
  destruct (shl_align _ _ _). apply binary_round_aux_nonneg.
Qed.

Lemma num_of_Z_nonneg z : (0 <= z)%Z -> nonneg (num_of_Z z) = true.
Proof. apply binary_normalize_nonneg. Qed.

Lemma num_mul_nonneg x y : nonneg x = true -> nonneg y = true -> nonneg (num_mul x y) = true.
Proof.
  destruct x as [s1|s1| |s1 m1 e1], y as [s2|s2| |s2 m2 e2]; cbn; try done;
    destruct s1, s2; try done; intros _ _; apply binary_round_aux_nonneg.
Qed.

Lemma ratio_pos m e : let '(n, d) := ratio m e in (0 < n /\ 0 < d)%Z.
Proof. unfold ratio. destruct (Z.leb_spec 0 e); split; try lia; apply Z.pow_pos_nonneg || idtac; lia. Qed.

Lemma num_to_Z_nonneg x z : nonneg x = true -> num_to_Z x = Some z -> (0 <= z)%Z.
Proof.
  destruct x as [s|s| |s m e]; cbn; try done; [by intros _ [= <-] |].
  destruct s; [done |]. intros _. pose proof (ratio_pos m e) as Hr.
  destruct (ratio m e) as [n d]. destruct (_ =? _)%Z; [| done]. intros [= <-].
  cbn. apply Z.div_pos; lia.
Qed.

Lemma num_round_nonneg x : nonneg x = true -> nonneg (num_round x) = true.
Proof.
  destruct x as [s|s| |s m e]; cbn; try done. destruct s; [done |]. intros _.
  pose proof (ratio_pos m e) as Hr. destruct (ratio m e) as [n d].
  destruct (_ =? _)%Z; [done |]. apply num_of_Z_nonneg. cbn [signed].
  apply Z.div_pos; lia.
Qed.

Lemma num_le_zero_nonneg x : num_le (num_of_Z 0) x = true -> nonneg x = true.
Proof. destruct x as [s|s| |s m e]; destruct s || idtac; done. Qed.

(** ** Sums of integers are exact *)

Lemma iter_pos_iter {A} (f : A -> A) n x : iter_pos f n x = Pos.iter f x n.
Proof. revert x. induction n as [n IH|n IH|]; intros x; cbn; rewrite ?IH, ?Pos.iter_swap; done. Qed.

Lemma shr_shift d m :
  iter_pos shr_1 d {| shr_m := Zpos (shift_pos d m); shr_r := false; shr_s := false |} =
  {| shr_m := Zpos m; shr_r := false; shr_s := false |}.
Proof.
  rewrite iter_pos_iter. unfold shift_pos. revert m.
  induction d as [|d IH] using Pos.peano_ind; intros m; [done |].
  rewrite Pos.iter_succ_r, Pos.iter_succ. cbn [shr_1 orb]. apply IH.
Qed.

Lemma shift_pos_add a b p : shift_pos a (shift_pos b p) = shift_pos (a + b) p.
Proof.
  apply Pos2Z.inj. rewrite !shift_pos_spec, Pos2Z.inj_add, Z.pow_add_r by lia. lia.
Qed.

(** A mantissa of exactly 53 bits in range is already rounded. *)
Lemma round_aux_exact s q f :
  Zpos (digits2_pos q) = 53%Z -> (-1074 <= f <= 971)%Z ->
  binary_round_aux 53 1024 s (Zpos q) f loc_Exact = S754_finite s q f.
Proof.
  intros Hq Hf. unfold binary_round_aux, shr_fexp, Zdigits2. rewrite Hq.
  assert (fexp 53 1024 (53 + f) - f = 0)%Z as -> by (unfold fexp, SpecFloat.emin; lia).
  cbn [shr shr_m shr_record_of_loc loc_of_shr_record round_nearest_even].
  rewrite Hq. assert (fexp 53 1024 (53 + f) - f = 0)%Z as -> by (unfold fexp, SpecFloat.emin; lia).
  cbn [shr shr_m shr_record_of_loc]. by rewrite (proj2 (Z.leb_le _ _)) by lia.
Qed.

(** An integer given with [j] trailing zero bits. *)
Lemma binary_round_shifted s p j :
  (Zpos (digits2_pos p) <= 53)%Z ->
  binary_round 53 1024 s (shift_pos j p) (- Zpos j) =
  S754_finite s (int_mantissa p) (Zpos (digits2_pos p) - 53).
Proof.
  intros H. destruct (int_mantissa_spec p H) as [Hm Hd].
  assert (1 <= Zpos (digits2_pos p))%Z as Hpos by lia.
  unfold binary_round. rewrite digits2_shift.
  replace (Zpos (digits2_pos p + j) + - Zpos j)%Z with (Zpos (digits2_pos p)) by lia.
  rewrite fexp_normal by lia. unfold shl_align. unfold int_mantissa in *.
  destruct (Zpos (digits2_pos p) - 53 - - Zpos j)%Z as [|d|d] eqn:E.
  - replace (- Zpos j)%Z with (Zpos (digits2_pos p) - 53)%Z by lia.
    replace (53 - Zpos (digits2_pos p))%Z with (Zpos j) in * by lia.
    apply round_aux_exact; lia.
  - (* zero bits are shifted out *)
    set (m := match (53 - Zpos (digits2_pos p))%Z with Zpos k => shift_pos k p | _ => p end) in *.
    assert (shift_pos j p = shift_pos d m) as ->.
    { apply Pos2Z.inj. rewrite !shift_pos_spec, Hm, <- Z.mul_assoc, <- Z.pow_add_r by lia.
      do 2 f_equal. lia. }
    unfold binary_round_aux, shr_fexp, Zdigits2. rewrite digits2_shift.
    replace (Zpos (digits2_pos m + d) + - Zpos j)%Z with (Zpos (digits2_pos p)) by lia.
    rewrite fexp_normal, E by lia. cbn [shr shr_record_of_loc]. rewrite shr_shift.
    cbn [shr_m loc_of_shr_record round_nearest_even]. rewrite Hd.
    replace (- Zpos j + Zpos d)%Z with (Zpos (digits2_pos p) - 53)%Z by lia.
    rewrite fexp_normal by lia.
    replace (53 + (Zpos (digits2_pos p) - 53) - 53 - (Zpos (digits2_pos p) - 53))%Z with 0%Z by lia.
    cbn [shr shr_record_of_loc shr_m]. by rewrite (proj2 (Z.leb_le _ _)) by lia.
  - replace (53 - Zpos (digits2_pos p))%Z with (Zpos (d + j)) in * by lia.
    change (Pos.iter xO (shift_pos j p) d) with (shift_pos d (shift_pos j p)).
    rewrite shift_pos_add. apply round_aux_exact; lia.
Qed.

Lemma normalize_scaled z e :
  safe_int z -> (e <= 0)%Z -> binary_normalize 53 1024 (z * 2 ^ (- e)) e false = num_of_Z z.
Proof.
  unfold safe_int. intros Hz He.
  destruct (- e)%Z as [|j|j] eqn:Ej; [| | lia].
  { rewrite Z.mul_1_r. by replace e with 0%Z by lia. }
  replace e with (- Zpos j)%Z by lia.
  destruct z as [|p|p]; [done | |];
    (destruct (num_of_Z_pos p) as [Hp Hn]; [lia |]);
    rewrite ?Hp, ?Hn, <- (binary_round_shifted _ p j) by (apply digits2_safe; lia).
  - by rewrite <- shift_pos_spec.
  - replace (Zneg p * 2 ^ Zpos j)%Z with (- (Zpos p * 2 ^ Zpos j))%Z by lia.
    by rewrite <- shift_pos_spec.
Qed.

(** The mantissa of an integer, aligned on a smaller exponent. *)
Lemma align_int p ez :
  (Zpos p < 2 ^ 53)%Z -> (ez <= Zpos (digits2_pos p) - 53)%Z ->
  Zpos (fst (shl_align (int_mantissa p) (Zpos (digits2_pos p) - 53) ez)) = (Zpos p * 2 ^ (- ez))%Z.
Proof.
  intros Hp Hez. pose proof (digits2_safe p Hp) as Hd.
  destruct (int_mantissa_spec p Hd) as [Hm _]. unfold shl_align.
  destruct (ez - (Zpos (digits2_pos p) - 53))%Z as [|d|d] eqn:E; cbn [fst]; [| lia |].
  - rewrite Hm. do 2 f_equal. lia.
  - change (Pos.iter xO (int_mantissa p) d) with (shift_pos d (int_mantissa p)).
    rewrite shift_pos_spec, Hm, <- Z.mul_assoc, <- Z.pow_add_r by lia. do 2 f_equal. lia.
Qed.

Lemma align_signed a s m e ez :
  safe_int a -> num_of_Z a = S754_finite s m e -> (ez <= e)%Z ->
  cond_Zopp s (Zpos (fst (shl_align m e ez))) = (a * 2 ^ (- ez))%Z /\ (e <= 0)%Z.
Proof.
  unfold safe_int. intros Ha E Hez.
  destruct a as [|p|p]; [done | |]; (destruct (num_of_Z_pos p) as [Hp Hn]; [lia |]);
    rewrite ?Hp, ?Hn in E; injection E as <- <- <-;
    (split; [| pose proof (digits2_safe p ltac:(lia)); lia]); cbn [cond_Zopp];
    rewrite align_int by lia; lia.
Qed.

Lemma num_add_int a b :
  safe_int a -> safe_int b -> safe_int (a + b) -> num_add (num_of_Z a) (num_of_Z b) = num_of_Z (a + b).
Proof.
  intros Ha Hb Hab. unfold num_add, SFadd.
  destruct (num_of_Z a) as [sa|?| |sa ma ea] eqn:Ea.
  2,3: apply num_of_Z_finite in Ha; by rewrite Ea in Ha.
  - assert (a = 0%Z) as ->.
    { apply (f_equal num_to_Z) in Ea. rewrite num_to_of_Z in Ea by done. by injection Ea. }
    injection Ea as <-. rewrite Z.add_0_l. pose proof (num_of_Z_finite b Hb).
    destruct (num_of_Z b) as [sb| | |] eqn:Eb; try done.
    assert (b = 0%Z) as ->.
    { apply (f_equal num_to_Z) in Eb. rewrite num_to_of_Z in Eb by done. by injection Eb. }
    by injection Eb as <-.
  - destruct (num_of_Z b) as [sb|?| |sb mb eb] eqn:Eb.
    2,3: apply num_of_Z_finite in Hb; by rewrite Eb in Hb.
    + apply (f_equal num_to_Z) in Eb. rewrite num_to_of_Z in Eb by done.
      injection Eb as ->. by rewrite Z.add_0_r, Ea.
    + destruct (align_signed a sa ma ea (Z.min ea eb) Ha Ea ltac:(lia)) as [-> Hea].
      destruct (align_signed b sb mb eb (Z.min ea eb) Hb Eb ltac:(lia)) as [-> Heb].
      rewrite <- Z.mul_add_distr_r. apply normalize_scaled; [done | lia].
Qed.

Lemma num_of_Z_zero z b : safe_int z -> num_of_Z z = S754_zero b -> z = 0%Z /\ b = false.
Proof.
  intros Hz E. assert (z = 0%Z) as ->.
  { pose proof (f_equal num_to_Z E) as H. rewrite num_to_of_Z in H by done. by injection H. }
  by injection E as <-.
Qed.

Lemma num_sub_int a b :
  safe_int a -> safe_int b -> safe_int (a - b) -> num_sub (num_of_Z a) (num_of_Z b) = num_of_Z (a - b).
Proof.
  intros Ha Hb Hab. unfold num_sub, SFsub.
  destruct (num_of_Z a) as [sa|?| |sa ma ea] eqn:Ea.
  2,3: apply num_of_Z_finite in Ha; by rewrite Ea in Ha.
  - apply num_of_Z_zero in Ea as [-> ->]; [| done]. rewrite Z.sub_0_l.
    destruct b as [|p|p]; [done | |]; unfold safe_int in Hb;
      (destruct (num_of_Z_pos p) as [Hp Hn]; [lia |]).
    + change (- Zpos p)%Z with (Zneg p). by rewrite Hp, Hn.
    + change (- Zneg p)%Z with (Zpos p). by rewrite Hp, Hn.
  - destruct (num_of_Z b) as [sb|?| |sb mb eb] eqn:Eb.
    2,3: apply num_of_Z_finite in Hb; by rewrite Eb in Hb.
    + apply num_of_Z_zero in Eb as [-> ->]; [| done]. by rewrite Z.sub_0_r, Ea.
    + destruct (align_signed a sa ma ea (Z.min ea eb) Ha Ea ltac:(lia)) as [-> Hea].
      destruct (align_signed b sb mb eb (Z.min ea eb) Hb Eb ltac:(lia)) as [-> Heb].
      rewrite <- Z.mul_sub_distr_r. apply normalize_scaled; [done | lia].
Qed.

(** The comparator [(left, right) => left - right] on safe integers. *)
Definition compare_diff (left right : num) : comparison :=
  let d := num_sub left right in
  if num_lt d (num_of_Z 0) then Lt else if num_gt d (num_of_Z 0) then Gt else Eq.

Lemma compare_diff_int a b :
  safe_int a -> safe_int b -> safe_int (a - b) ->
  compare_diff (num_of_Z a) (num_of_Z b) = (a ?= b)%Z.
Proof.
  intros Ha Hb Hab. unfold compare_diff, num_gt. rewrite num_sub_int by done.
  change (SFltb (num_of_Z 0) (num_of_Z (a - b))) with (num_lt (num_of_Z 0) (num_of_Z (a - b))).
  rewrite !num_lt_int by (done || (unfold safe_int; lia)).
  destruct (Z.ltb_spec (a - b) 0), (Z.ltb_spec 0 (a - b)); try lia;
    symmetry; [apply Z.compare_lt_iff | apply Z.compare_gt_iff | apply Z.compare_eq_iff]; lia.
Qed.
