(* ===== verification/JsSort.v ===== *)
(** [Array.prototype.sort] with a comparator.

    ECMAScript requires a stable sort, and fixes its result when the comparator
    is consistent: [sort_unique] below says that a consistent comparator leaves
    exactly one stable sorted arrangement. For an inconsistent comparator (one
    that subtracts invalid dates, for instance) the order is left to the
    engine; [sort_by] is then one of the allowed permutations. *)

From stdpp Require Import base list sorting.
From Stdlib Require Import Lia Bool.
From S2P Require Import Prelude.

Section Sort.
Context {A : Type} (cmp : A -> A -> comparison).

(** [cmp x y] is the sign of the number the comparator returns. *)
Fixpoint insert_by (x : A) (l : list A) : list A :=
  match l with
  | [] => [x]
  | y :: l' => match cmp x y with Gt => y :: insert_by x l' | _ => x :: l end
  end.

Fixpoint sort_by (l : list A) : list A :=
  match l with
  | [] => []
  | x :: l' => insert_by x (sort_by l')
  end.

(** [x] may stand before [y]. *)
Definition before (x y : A) : Prop := cmp x y <> Gt.

Definition same_rank (x y : A) : bool :=
  match cmp x y with Eq => true | _ => false end.

Lemma insert_by_perm x l : insert_by x l ≡ₚ x :: l.
Proof.
  induction l as [|y l IH]; cbn; [done |]. destruct (cmp x y); try done.
  rewrite IH. apply Permutation_swap.
Qed.

Lemma sort_by_perm l : sort_by l ≡ₚ l.
Proof. induction l as [|x l IH]; cbn; [done |]. by rewrite insert_by_perm, IH. Qed.

Lemma length_sort_by l : length (sort_by l) = length l.
Proof. by rewrite sort_by_perm. Qed.

(** A list already in order is left alone, whatever the comparator. *)
Lemma sort_by_sorted_id l : StronglySorted before l -> sort_by l = l.
Proof.
  induction 1 as [|x l Hs IH Hx]; cbn; [done |]. rewrite IH.
  destruct Hx as [|y l Hxy Hl]; cbn; [done |]. unfold before in Hxy.
  by destruct (cmp x y).
Qed.

(** Comparators that are consistent on the elements satisfying [P]. *)
Class Consistent (P : A -> Prop) : Prop := {
  consistent_swap : forall x y, P x -> P y -> cmp y x = CompOpp (cmp x y);
  consistent_trans : forall x y z,
    P x -> P y -> P z -> before x y -> before y z -> before x z
}.

Context (P : A -> Prop) `{!Consistent P}.

Lemma insert_by_sorted x l :
  P x -> Forall P l -> StronglySorted before l -> StronglySorted before (insert_by x l).
Proof.
  intros Hx HP Hs. induction Hs as [|y l Hs IH Hy]; cbn; [by repeat constructor |].
  inv HP. destruct (cmp x y) eqn:E.
  1,2: (constructor; [by constructor |];
     assert (before x y) as Hxy by (unfold before; congruence);
     constructor; [done |];
     rewrite List.Forall_forall in *; intros z Hz;
     eapply (consistent_trans x y z); eauto).
  constructor; [auto |]. rewrite (insert_by_perm x l).
  constructor; [| done]. unfold before. rewrite (consistent_swap x y), E by done. done.
Qed.

Lemma sort_by_sorted l : Forall P l -> StronglySorted before (sort_by l).
Proof.
  induction 1 as [|x l Hx Hl IH]; cbn; [constructor |].
  apply insert_by_sorted; [done | | done]. by rewrite sort_by_perm.
Qed.

Lemma sort_by_idem l : Forall P l -> sort_by (sort_by l) = sort_by l.
Proof. intros H. by apply sort_by_sorted_id, sort_by_sorted. Qed.

Lemma insert_by_first x l : Forall (before x) l -> insert_by x l = x :: l.
Proof. intros [| y l' Hxy _]; [done |]. cbn. unfold before in Hxy. by destruct (cmp x y). Qed.

(** Sorting a part of a list gives that part of the sorted list. *)
Lemma insert_by_filter p x l :
  P x -> Forall P l -> StronglySorted before l ->
  List.filter p (insert_by x l) = if p x then insert_by x (List.filter p l) else List.filter p l.
Proof.
  intros Hx HP Hs. induction Hs as [| y l Hs IH Hy]; cbn; [by destruct (p x) |]. inv HP.
  destruct (cmp x y) eqn:E.
  3: { cbn. rewrite IH by done. destruct (p y), (p x); cbn; by rewrite ?E. }
  all: assert (before x y) as Hxy by (unfold before; congruence); cbn; destruct (p x); [| done];
    rewrite insert_by_first; [done |]; apply List.Forall_forall; intros z Hz;
    assert (In z (List.filter p (y :: l))) as [[-> | Hin] _]%filter_In by exact Hz; [done |];
    rewrite List.Forall_forall in *; eapply (consistent_trans x y z); eauto.
Qed.

Lemma sort_by_filter p l : Forall P l -> sort_by (List.filter p l) = List.filter p (sort_by l).
Proof.
  induction 1 as [| x l Hx Hl IH]; [done |]. cbn [sort_by].
  rewrite insert_by_filter by (done || (by rewrite sort_by_perm) || by apply sort_by_sorted).
  cbn [List.filter]. destruct (p x); cbn [sort_by]; by rewrite IH.
Qed.

(** Stability: elements of equal rank keep their order. *)
Lemma insert_by_stable a x l :
  P a -> P x -> Forall P l -> StronglySorted before l ->
  List.filter (same_rank a) (insert_by x l) = List.filter (same_rank a) (x :: l).
Proof.
  intros Ha Hx HP Hs. induction Hs as [|y l Hs IH Hy]; [done |].
  inv HP. cbn [insert_by]. destruct (cmp x y) eqn:E; [done | done |].
  cbn [List.filter] in *. rewrite IH by done.
  destruct (same_rank a x) eqn:E1; [| done].
  destruct (same_rank a y) eqn:E2; [| done]. exfalso.
  unfold same_rank in *.
  destruct (cmp a x) eqn:E3; try done. destruct (cmp a y) eqn:E4; try done.
  apply (consistent_trans x a y); unfold before; try done; [| congruence].
  rewrite (consistent_swap a x), E3; done.
Qed.

Lemma sort_by_stable a l :
  P a -> Forall P l -> List.filter (same_rank a) (sort_by l) = List.filter (same_rank a) l.
Proof.
  intros Ha. induction 1 as [|x l Hx Hl IH]; [done |]. cbn [sort_by].
  rewrite insert_by_stable; try done; [| by rewrite sort_by_perm | by apply sort_by_sorted].
  cbn. by rewrite IH.
Qed.

Lemma same_rank_refl x : P x -> same_rank x x = true.
Proof.
  intros Hx. unfold same_rank. pose proof (consistent_swap x x Hx Hx) as H.
  by destruct (cmp x x).
Qed.

(** Two sorted lists with the same classes of equal rank are equal. *)
Lemma sorted_stable_eq l1 l2 :
  Forall P l1 -> Forall P l2 -> StronglySorted before l1 -> StronglySorted before l2 ->
  (forall a, P a -> List.filter (same_rank a) l1 = List.filter (same_rank a) l2) ->
  l1 = l2.
Proof.
  intros HP1 HP2 Hs1. revert l2 HP2. induction Hs1 as [|a l1 Hs1 IH Ha]; intros l2 HP2 Hs2 Hf.
  - destruct l2 as [|b l2]; [done |]. inv HP2.
    specialize (Hf b ltac:(done)). cbn in Hf. by rewrite same_rank_refl in Hf.
  - inv HP1. destruct Hs2 as [|b l2 Hs2 Hb].
    { specialize (Hf a ltac:(done)). cbn in Hf. by rewrite same_rank_refl in Hf. }
    inv HP2.
    assert (before a b) as Hab.
    { pose proof (Hf b ltac:(done)) as E. cbn in E. rewrite (same_rank_refl b) in E by done.
      assert (In b (List.filter (same_rank b) (a :: l1))) as Hin by (cbn; rewrite E; by left).
      apply filter_In in Hin as [[-> | Hin] _].
      - unfold before. rewrite (consistent_swap b b) by done. pose proof (same_rank_refl b).
        unfold same_rank in *. destruct (cmp b b); naive_solver.
      - rewrite List.Forall_forall in Ha. auto. }
    assert (before b a) as Hba.
    { pose proof (Hf a ltac:(done)) as E. cbn in E. rewrite (same_rank_refl a) in E by done.
      assert (In a (List.filter (same_rank a) (b :: l2))) as Hin by (cbn; rewrite <- E; by left).
      apply filter_In in Hin as [[-> | Hin] _]; [done |].
      rewrite List.Forall_forall in Hb. auto. }
    assert (same_rank a b = true) as Hr.
    { unfold before, same_rank in *. rewrite (consistent_swap a b) in Hba by done.
      by destruct (cmp a b). }
    pose proof (Hf a ltac:(done)) as E. cbn in E.
    rewrite (same_rank_refl a), Hr in E by done. injection E as <- E.
    f_equal. apply IH; [done | done | done |]. intros c Hc.
    pose proof (Hf c Hc) as Ec. cbn in Ec. destruct (same_rank c a); congruence.
Qed.

(** The only stable sorted arrangement of [l] is [sort_by l]. *)
Lemma sort_unique l l' :
  Forall P l -> l' ≡ₚ l -> StronglySorted before l' ->
  (forall a, P a -> List.filter (same_rank a) l' = List.filter (same_rank a) l) ->
  l' = sort_by l.
Proof.
  intros HP Hperm Hs Hf. apply sorted_stable_eq; try done.
  - by rewrite Hperm.
  - by rewrite sort_by_perm.
  - by apply sort_by_sorted.
  - intros a Ha. by rewrite sort_by_stable, Hf.
Qed.
End Sort.

Arguments Consistent {A} cmp P.
Arguments consistent_swap {A} cmp {P _} x y.

(** Sorting commutes with a map that preserves the comparison. *)
Lemma sort_by_map {A B} (cmp : A -> A -> comparison) (cmp' : B -> B -> comparison) (f : A -> B) l :
  (forall x y, cmp' (f x) (f y) = cmp x y) ->
  sort_by cmp' (List.map f l) = List.map f (sort_by cmp l).
Proof.
  intros Hf.
  assert (forall x k, insert_by cmp' (f x) (List.map f k) = List.map f (insert_by cmp x k)) as Hi.
  { intros x k. induction k as [|y k IH]; [done |]. cbn. rewrite Hf.
    destruct (cmp x y); cbn; by rewrite ?IH. }
  induction l as [|x l IH]; [done |]. cbn. by rewrite IH, Hi.
Qed.

(** Sorting forgets the initial order when no two elements have equal rank. *)
Lemma sort_by_perm_eq {A} (cmp : A -> A -> comparison) (P : A -> Prop) `{!Consistent cmp P} l l' :
  Forall P l -> (forall x y, x ∈ l -> y ∈ l -> cmp x y = Eq -> x = y) ->
  l ≡ₚ l' -> sort_by cmp l = sort_by cmp l'.
Proof.
  intros HP Hinj Hp.
  assert (Forall P l') as HP' by (by rewrite <- Hp).
  apply (StronglySorted_unique_strong (before cmp)).
  - intros x y. rewrite !sort_by_perm, <- Hp. intros Hx Hy Hxy Hyx.
    rewrite Forall_forall in HP. apply Hinj; [done.. |].
    unfold before in *. rewrite (consistent_swap cmp x y) in Hyx by auto.
    by destruct (cmp x y).
  - by apply (sort_by_sorted cmp P).
  - by apply (sort_by_sorted cmp P).
  - by rewrite !sort_by_perm.
Qed.

#[export] Hint Resolve sort_by_perm : console.
