(* ===== verification/JsDate.v ===== *)
(** JavaScript dates: time values, [toISOString], [Date.parse].

    A time value is a [Z] of milliseconds since the epoch; an invalid date is
    [None] (its time value is NaN). The ISO format of ECMAScript is parsed and
    printed here. What the specification leaves to the host is the class
    [DateHost]: the local time zone, and the strings [Date.parse] accepts
    beyond the ISO format. *)

From stdpp Require Import base list strings pretty sorting.
From Stdlib Require Import ZArith Lia Bool Ascii.
From S2P Require Import Prelude JsString JsNum JsSort.

#[local] Open Scope Z_scope.

(** * The proleptic Gregorian calendar *)

Definition ms_per_day : Z := 86400000.

(** Year of the 400-year cycle and day of that year, both counted from the
    first of March, for a day of the cycle. *)
Definition year_of_cycle (doe : Z) : Z * Z :=
  let c := Z.min (doe / 36524) 3 in
  let doc := doe - c * 36524 in
  let q := doc / 1461 in
  let doq := doc - q * 1461 in
  let y := Z.min (doq / 365) 3 in
  (100 * c + 4 * q + y, doq - 365 * y).

(** Year, month (1 to 12), day (1 to 31) of a day number, 0 being 1970-01-01. *)
Definition civil_of_days (days : Z) : Z * Z * Z :=
  let z := days + 719468 in
  let era := z / 146097 in
  let '(yoe, doy) := year_of_cycle (z - era * 146097) in
  let mp := (5 * doy + 2) / 153 in
  let d := doy - (153 * mp + 2) / 5 + 1 in
  let m := if mp <? 10 then mp + 3 else mp - 9 in
  let y := yoe + era * 400 in
  (if m <=? 2 then y + 1 else y, m, d).

Definition days_of_civil (y m d : Z) : Z :=
  let y' := if m <=? 2 then y - 1 else y in
  let era := y' / 400 in
  let yoe := y' - era * 400 in
  let mp := if 2 <? m then m - 3 else m + 9 in
  let doy := (153 * mp + 2) / 5 + d - 1 in
  era * 146097 + yoe * 365 + yoe / 4 - yoe / 100 + doy - 719468.

(** * Printing *)

(** [n] in exactly [w] decimal digits ([n mod 10^w]). *)
Fixpoint digits (w : nat) (n : Z) : list ascii :=
  match w with
  | O => []
  | S w' => digits w' (n / 10) ++ [ascii_of_N (Z.to_N (48 + n mod 10))]
  end.

Definition iso_year (y : Z) : list ascii :=
  if (0 <=? y) && (y <=? 9999) then digits 4 y
  else (if y <? 0 then "-"%char else "+"%char) :: digits 6 (Z.abs y).

(** [new Date(t).toISOString()] for a valid time value. *)
Definition iso_of_time (t : Z) : string :=
  let '(y, m, d) := civil_of_days (t / ms_per_day) in
  let r := t mod ms_per_day in
  of_chars (iso_year y ++ "-"%char :: digits 2 m ++ "-"%char :: digits 2 d ++
    "T"%char :: digits 2 (r / 3600000) ++ ":"%char :: digits 2 (r / 60000 mod 60) ++
    ":"%char :: digits 2 (r / 1000 mod 60) ++ "."%char :: digits 3 (r mod 1000) ++
    ["Z"%char]).

(** Range of time values: [TimeClip]. *)
Definition max_time : Z := 8640000000000000.
Definition time_clip (t : Z) : option Z :=
  if (- max_time <=? t) && (t <=? max_time) then Some t else None.

(** [date.toISOString()]: throws on an invalid date. *)
Definition to_iso_string (t : option Z) : result string :=
  match t with
  | Some t => Ok (iso_of_time t)
  | None => Throw (RangeError "Invalid time value")
  end.

(** * Parsing dates *)

(** Exactly [w] digits. *)
Fixpoint read_digits (w : nat) (acc : Z) (l : list ascii) : option (Z * list ascii) :=
  match w, l with
  | O, _ => Some (acc, l)
  | S w', c :: l' => if is_digit c then read_digits w' (10 * acc + digit_val c) l' else None
  | S _, [] => None
  end.

Definition read_char (c : ascii) (l : list ascii) : option (list ascii) :=
  match l with
  | d :: l' => if Ascii.eqb c d then Some l' else None
  | [] => None
  end.

(** Four digits, or a sign and six; minus zero is not a year. *)
Definition read_year (l : list ascii) : option (Z * list ascii) :=
  match l with
  | "+"%char :: l' => read_digits 6 0 l'
  | "-"%char :: l' =>
      '(y, l1) ← read_digits 6 0 l'; if y =? 0 then None else Some (- y, l1)
  | _ => read_digits 4 0 l
  end.

(** [-MM], when present. *)
Definition read_dash2 (l : list ascii) : option (option Z * list ascii) :=
  match read_char "-" l with
  | Some l' => '(v, l1) ← read_digits 2 0 l'; Some (Some v, l1)
  | None => Some (None, l)
  end.

(** Year, month, day; a missing month or day is 1. *)
Definition read_date (l : list ascii) : option (Z * Z * Z * list ascii) :=
  '(y, l1) ← read_year l;
  '(om, l2) ← read_dash2 l1;
  match om with
  | None => Some (y, 1, 1, l2)
  | Some m =>
      '(od, l3) ← read_dash2 l2;
      Some (y, m, match od with Some d => d | None => 1 end, l3)
  end.

(** Hour and minute. *)
Definition read_hm (l : list ascii) : option (Z * Z * list ascii) :=
  '(h, l1) ← read_digits 2 0 l;
  l2 ← read_char ":" l1;
  '(m, l3) ← read_digits 2 0 l2;
  Some (h, m, l3).

(** Seconds and milliseconds, when present. *)
Definition read_seconds (l : list ascii) : option (Z * Z * list ascii) :=
  match read_char ":" l with
  | None => Some (0, 0, l)
  | Some l1 =>
      '(s, l2) ← read_digits 2 0 l1;
      match read_char "." l2 with
      | None => Some (s, 0, l2)
      | Some l3 => '(ms, l4) ← read_digits 3 0 l3; Some (s, ms, l4)
      end
  end.

Inductive zone :=
  | LocalZone
  | Offset (minutes : Z)
  | BadOffset.

(** The rest of the string: the zone designator. *)
Definition read_zone (l : list ascii) : option zone :=
  match l with
  | [] => Some LocalZone
  | ["Z"%char] => Some (Offset 0)
  | c :: l' =>
      sign ← (if Ascii.eqb c "+" then Some 1 else if Ascii.eqb c "-" then Some (-1) else None);
      '(h, m, l1) ← read_hm l';
      match l1 with
      | [] => Some (if (h <=? 23) && (m <=? 59) then Offset (sign * (60 * h + m)) else BadOffset)
      | _ => None
      end
  end.

Inductive iso_result :=
  | NotIso
  | Illegal
  | Wall (ms : Z) (z : zone).

Definition legal_time (h mi s ms : Z) : bool :=
  (mi <=? 59) && (s <=? 59) &&
  ((h <=? 23) || (h =? 24) && (mi =? 0) && (s =? 0) && (ms =? 0)).

(** A month or day out of its range is illegal; a day past the end of a
    shorter month is left to the host. *)
Definition wall_time (y m d h mi s ms : Z) (z : zone) : iso_result :=
  if negb ((1 <=? m) && (m <=? 12) && (1 <=? d) && (d <=? 31) && legal_time h mi s ms)
  then Illegal
  else
    let days := days_of_civil y m d in
    if bool_decide (civil_of_days days = (y, m, d))
    then Wall (days * ms_per_day + h * 3600000 + mi * 60000 + s * 1000 + ms) z
    else NotIso.

Definition read_time (l : list ascii) : option (Z * Z * Z * Z * zone) :=
  '(h, mi, l1) ← read_hm l;
  '(s, ms, l2) ← read_seconds l1;
  z ← read_zone l2;
  Some (h, mi, s, ms, z).

(** The date-time string format of ECMAScript; a date without a time is UTC. *)
Definition iso_parse (s : string) : iso_result :=
  match read_date (chars s) with
  | None => NotIso
  | Some (y, m, d, []) => wall_time y m d 0 0 0 0 (Offset 0)
  | Some (y, m, d, l) =>
      match read_char "T" l ≫= read_time with
      | Some (h, mi, sec, ms, z) => wall_time y m d h mi sec ms z
      | None => NotIso
      end
  end.

(** What ECMAScript leaves to the implementation. *)
Class DateHost := {
  local_to_utc : Z -> Z;
  parse_fallback : string -> option Z
}.

(** [new Date(s).getTime()] *)
Definition date_parse `{DateHost} (s : string) : option Z :=
  match iso_parse s with
  | Wall ms (Offset o) => time_clip (ms - o * 60000)
  | Wall ms LocalZone => time_clip (local_to_utc ms)
  | Wall _ BadOffset | Illegal => None
  | NotIso => parse_fallback s ≫= time_clip
  end.

(** A host in the UTC time zone that accepts nothing beyond the ISO format. *)
Definition utc_host : DateHost :=
  {| local_to_utc := fun t => t; parse_fallback := fun _ => None |}.

(** [new Date(x).getTime()] for [x = t + delta] with [t] possibly NaN. *)
Definition time_add (t : option Z) (delta : Z) : option Z :=
  t' ← t; time_clip (t' + delta).

(** [new Date(x).getTime()] for a number [x]: integer part, then the range. *)
Definition time_of_num (x : num) : option Z :=
  match x with
  | S754_zero _ => Some 0
  | S754_finite s m e =>
      let '(n, d) := ratio m e in time_clip (signed s (n / d))
  | _ => None
  end.

(** Sign of [left.getTime() - right.getTime()]: a NaN difference counts as
    zero, as [Array.prototype.sort] treats it. *)
Definition compare_times (a b : option Z) : comparison :=
  match a, b with
  | Some x, Some y => (x ?= y)%Z
  | _, _ => Eq
  end.

Example iso_examples :
  map iso_of_time [0; 1773345600123; -1; 253402300800000; -62198755200000; 951782400000]
  = ["1970-01-01T00:00:00.000Z"; "2026-03-12T20:00:00.123Z"; "1969-12-31T23:59:59.999Z";
     "+010000-01-01T00:00:00.000Z"; "-000001-01-01T00:00:00.000Z"; "2000-02-29T00:00:00.000Z"].
Proof. vm_compute. reflexivity. Qed.

Example parse_examples :
  map (date_parse (H := utc_host))
    ["2026-03-12T20:00:00Z"; "2026-03-12"; "2026-03-12T22:00:00.123+02:00"; "2026-13-01";
     "2026-02-30"; ""; "yesterday"; "2026-03-12T24:00"; "2026-03-12T24:01Z"]
  = [Some 1773345600000; Some 1773273600000; Some 1773345600123; None; None; None; None;
     Some 1773360000000; None].
Proof. vm_compute. reflexivity. Qed.

(** * Lemmas *)

(** Let [lia] reason about division and remainder by constants. *)
#[local] Ltac Zify.zify_post_hook ::= Z.to_euclidean_division_equations.

Lemma year_of_cycle_spec doe :
  0 <= doe < 146097 ->
  let '(yoe, doy) := year_of_cycle doe in
  0 <= yoe <= 399 /\ 0 <= doy <= 365 /\ yoe * 365 + yoe / 4 - yoe / 100 + doy = doe.
Proof.
  intros H. unfold year_of_cycle.
  remember (Z.min (doe / 36524) 3) as c eqn:Ec.
  assert (0 <= c <= 3 /\ 0 <= doe - c * 36524 <= 36524) as [Hc Hdoc] by lia.
  remember (doe - c * 36524) as doc eqn:Edoc. remember (doc / 1461) as q eqn:Eq.
  assert (0 <= q <= 24 /\ 0 <= doc - q * 1461 <= 1460) as [Hq Hdoq] by lia.
  remember (doc - q * 1461) as doq eqn:Edoq. remember (Z.min (doq / 365) 3) as y eqn:Ey.
  assert (0 <= y <= 3 /\ 0 <= doq - 365 * y <= 365) as [Hy Hdoy] by lia.
  assert ((100 * c + 4 * q + y) / 4 = 25 * c + q) as -> by lia.
  assert ((100 * c + 4 * q + y) / 100 = c) as -> by lia.
  lia.
Qed.

Lemma days_of_civil_of_days n :
  let '(y, m, d) := civil_of_days n in
  1 <= m <= 12 /\ 1 <= d <= 31 /\ days_of_civil y m d = n.
Proof.
  unfold civil_of_days.
  pose proof (year_of_cycle_spec (n + 719468 - (n + 719468) / 146097 * 146097) ltac:(lia)) as H.
  destruct (year_of_cycle _) as [yoe doy]. destruct H as (Hy & Hd & He).
  set (era := (n + 719468) / 146097) in *. set (mp := (5 * doy + 2) / 153).
  assert (0 <= mp <= 11) by lia.
  set (m := if mp <? 10 then mp + 3 else mp - 9).
  assert (1 <= m <= 12 /\ (if 2 <? m then m - 3 else m + 9) = mp) as [Hm Hmp].
  { subst m. destruct (Z.ltb_spec mp 10).
    - rewrite (proj2 (Z.ltb_lt 2 _)); lia.
    - rewrite (proj2 (Z.ltb_ge 2 _)); lia. }
  split; [done |]. split; [lia |].
  assert ((if m <=? 2 then (if m <=? 2 then yoe + era * 400 + 1 else yoe + era * 400) - 1
           else (if m <=? 2 then yoe + era * 400 + 1 else yoe + era * 400))
          = yoe + era * 400) as Hy'.
  { destruct (m <=? 2); lia. }
  unfold days_of_civil. rewrite Hy', Hmp. lia.
Qed.

(** Years that time values reach. *)
Lemma civil_year_bound n :
  -100000000 <= n <= 100000000 ->
  let '(y, _, _) := civil_of_days n in -999999 < y < 999999.
Proof.
  intros Hn. unfold civil_of_days.
  pose proof (year_of_cycle_spec (n + 719468 - (n + 719468) / 146097 * 146097) ltac:(lia)) as H.
  destruct (year_of_cycle _) as [yoe doy]. destruct H as (Hy & Hd & He).
  destruct (_ <=? 2); lia.
Qed.

(** ** Fixed-width digits *)

Lemma digit_code n : 0 <= n <= 9 ->
  is_digit (ascii_of_N (Z.to_N (48 + n))) = true /\
  digit_val (ascii_of_N (Z.to_N (48 + n))) = n.
Proof.
  intros H. unfold is_digit, digit_val, code.
  rewrite N_ascii_embedding by lia. split; [| lia].
  apply andb_true_intro; split; apply N.leb_le; lia.
Qed.

Lemma read_digits_app w acc n rest :
  0 <= n < 10 ^ Z.of_nat w ->
  read_digits w acc (digits w n ++ rest) = Some (10 ^ Z.of_nat w * acc + n, rest).
Proof.
  revert acc n rest. induction w as [|w IH]; intros acc n rest Hn.
  - cbn in *. do 2 f_equal. lia.
  - rewrite Nat2Z.inj_succ, Z.pow_succ_r in * by lia. cbn [digits].
    rewrite <- app_assoc.
    assert (forall w' acc l, read_digits (S w') acc l =
      match read_digits w' acc l with
      | Some (v, c :: l') => if is_digit c then Some (10 * v + digit_val c, l') else None
      | _ => None
      end) as Hsnoc.
    { induction w' as [|w' IHw]; intros a l; [done |].
      destruct l as [|c l]; [done |]. cbn [read_digits] in *.
      destruct (is_digit c); [| done]. apply IHw. }
    rewrite Hsnoc, IH by (split; [| apply Z.div_lt_upper_bound]; lia).
    destruct (digit_code (n mod 10)) as [H1 H2]; [lia |].
    cbn [app]. rewrite H1, H2. do 2 f_equal. pose proof (Z.div_mod n 10). nia.
Qed.

Lemma read_digits_2 n rest :
  0 <= n < 100 -> read_digits 2 0 (digits 2 n ++ rest) = Some (n, rest).
Proof. intros H. rewrite read_digits_app by (cbn; lia). do 2 f_equal. Qed.

(** The first digit of a year is not a sign. *)
Lemma digits_head w n : exists c l, digits (S w) n = c :: l /\ is_digit c = true.
Proof.
  revert n. induction w as [|w IH]; intros n.
  - cbn [digits app]. do 2 eexists. split; [done |].
    apply (digit_code (n mod 10)). lia.
  - destruct (IH (n / 10)) as (c & l & E & Hc). cbn [digits] in *. rewrite E. eauto.
Qed.

Lemma read_year_digit c l : is_digit c = true -> read_year (c :: l) = read_digits 4 0 (c :: l).
Proof. destruct c as [[] [] [] [] [] [] [] []]; cbn; done. Qed.

Lemma read_iso_year y rest :
  -999999 < y < 999999 -> read_year (iso_year y ++ rest) = Some (y, rest).
Proof.
  intros Hy. unfold iso_year. destruct (_ && _) eqn:E; prop_bools.
  - destruct (digits_head 3 y) as (c & l & Hd & Hc).
    rewrite Hd. cbn [app]. rewrite read_year_digit by done.
    change (c :: l ++ rest) with ((c :: l) ++ rest). rewrite <- Hd.
    rewrite read_digits_app by (cbn; lia). do 2 f_equal.
  - destruct (y <? 0) eqn:E'; prop_bools; cbn [app read_year].
    + rewrite read_digits_app by (cbn; lia). cbn [mbind option_bind].
      rewrite Z.mul_0_r, Z.add_0_l. rewrite (proj2 (Z.eqb_neq _ _)) by lia.
      do 2 f_equal. lia.
    + rewrite read_digits_app by (cbn; lia). do 2 f_equal. lia.
Qed.

Lemma read_dash2_digits n rest :
  0 <= n < 100 -> read_dash2 ("-"%char :: digits 2 n ++ rest) = Some (Some n, rest).
Proof.
  intros H. unfold read_dash2. cbn [read_char Ascii.eqb Bool.eqb].
  by rewrite read_digits_2 by lia.
Qed.

Lemma time_of_day r :
  0 <= r < ms_per_day ->
  r / 3600000 * 3600000 + r / 60000 mod 60 * 60000 + r / 1000 mod 60 * 1000 + r mod 1000 = r.
Proof. unfold ms_per_day. lia. Qed.

Lemma read_time_digits h mi s ms :
  0 <= h < 100 -> 0 <= mi < 100 -> 0 <= s < 100 -> 0 <= ms < 1000 ->
  read_time (digits 2 h ++ ":"%char :: digits 2 mi ++ ":"%char :: digits 2 s ++
             "."%char :: digits 3 ms ++ ["Z"%char])
  = Some (h, mi, s, ms, Offset 0).
Proof.
  intros. unfold read_time, read_hm, read_seconds.
  rewrite read_digits_2 by lia. cbn [mbind option_bind read_char Ascii.eqb Bool.eqb].
  rewrite read_digits_2 by lia. cbn [mbind option_bind read_char Ascii.eqb Bool.eqb].
  rewrite read_digits_2 by lia. cbn [mbind option_bind read_char Ascii.eqb Bool.eqb].
  rewrite read_digits_app by (cbn; lia). cbn [mbind option_bind read_zone]. done.
Qed.

Lemma time_clip_in t : - max_time <= t <= max_time -> time_clip t = Some t.
Proof.
  intros H. unfold time_clip. rewrite (proj2 (Z.leb_le _ _)), (proj2 (Z.leb_le _ _)) by lia. done.
Qed.

Lemma time_clip_some t u : time_clip t = Some u -> u = t /\ - max_time <= t <= max_time.
Proof. unfold time_clip. destruct (_ && _) eqn:E; [| done]. prop_bools. naive_solver lia. Qed.

Section Roundtrip.
Context `{DateHost}.

(** What [toISOString] prints, [Date.parse] reads back. *)
Lemma date_parse_iso t :
  - max_time <= t <= max_time -> date_parse (iso_of_time t) = Some t.
Proof.
  intros Ht. unfold iso_of_time, date_parse, iso_parse.
  pose proof (days_of_civil_of_days (t / ms_per_day)) as Hc.
  pose proof (civil_year_bound (t / ms_per_day)) as Hy.
  destruct (civil_of_days (t / ms_per_day)) as [[y m] d] eqn:Ec.
  destruct Hc as (Hm & Hd & Hn).
  assert (-999999 < y < 999999) as Hy' by (apply Hy; unfold max_time, ms_per_day in *; lia).
  assert (0 <= t mod ms_per_day < ms_per_day) as Hr by (apply Z.mod_pos_bound; done).
  pose proof (time_of_day _ Hr) as Htod. set (r := t mod ms_per_day) in *.
  rewrite chars_of_chars. unfold read_date. rewrite read_iso_year by done.
  cbn [mbind option_bind]. rewrite read_dash2_digits by lia.
  cbn [mbind option_bind]. rewrite read_dash2_digits by lia.
  cbn [mbind option_bind read_char Ascii.eqb Bool.eqb].
  unfold ms_per_day in Hr. rewrite read_time_digits by lia.
  unfold wall_time, legal_time.
  rewrite !(proj2 (Z.leb_le _ _)) by lia. cbn [andb orb negb].
  rewrite Hn, bool_decide_true by done.
  rewrite <- (time_clip_in t) by done. f_equal. unfold ms_per_day.
  pose proof (Z.div_mod t ms_per_day). unfold ms_per_day in *. subst r. lia.
Qed.
End Roundtrip.

Lemma compare_times_swap a b : compare_times b a = CompOpp (compare_times a b).
Proof. destruct a, b; cbn; try done. apply Z.compare_antisym. Qed.

(** Valid dates, newest first: the comparator of the console's event lists. *)
Section Newest_first.
Context {A : Type} (time : A -> option Z).

Definition newest_first (left right : A) : comparison := compare_times (time right) (time left).

#[export] Instance newest_first_consistent :
  Consistent newest_first (fun x => is_Some (time x)).
Proof.
  split.
  - intros x y _ _. unfold newest_first. apply compare_times_swap.
  - intros x y z [a Ha] [b Hb] [c Hc]. unfold before, newest_first.
    rewrite Ha, Hb, Hc. cbn. rewrite !Z.compare_le_iff. lia.
Qed.

Lemma newest_first_before x y a b :
  time x = Some a -> time y = Some b -> before newest_first x y <-> b <= a.
Proof. intros Ha Hb. unfold before, newest_first. rewrite Ha, Hb. cbn. by rewrite Z.compare_le_iff. Qed.

Definition oldest_first (left right : A) : comparison := compare_times (time left) (time right).

#[export] Instance oldest_first_consistent :
  Consistent oldest_first (fun x => is_Some (time x)).
Proof.
  split.
  - intros x y _ _. unfold oldest_first. apply compare_times_swap.
  - intros x y z [a Ha] [b Hb] [c Hc]. unfold before, oldest_first.
    rewrite Ha, Hb, Hc. cbn. rewrite !Z.compare_le_iff. lia.
Qed.
End Newest_first.

Lemma date_parse_range `{DateHost} s t : date_parse s = Some t -> - max_time <= t <= max_time.
Proof.
  unfold date_parse. destruct (iso_parse s) as [| |ms []]; try done.
  - destruct (parse_fallback s) as [u|]; cbn; [| done]. intros E.
    by apply time_clip_some in E as [-> ?].
  - intros E. by apply time_clip_some in E as [-> ?].
  - intros E. by apply time_clip_some in E as [-> ?].
Qed.

Lemma time_of_num_range x t : time_of_num x = Some t -> - max_time <= t <= max_time.
Proof.
  destruct x as [s|s| |s m e]; try done.
  - cbn. intros [= <-]. done.
  - cbn. destruct (ratio m e) as [n d]. intros E. by apply time_clip_some in E as [-> ?].
Qed.

#[export] Hint Resolve time_clip_in date_parse_range time_of_num_range : console.
