(* ===== verification/JsValue.v ===== *)
(** JavaScript values of type [unknown], [JSON.stringify] and [JSON.parse].

    An object is the list of its own enumerable properties in the order they
    were created; [own_props] gives the order in which they are enumerated. *)

From stdpp Require Import base list strings sorting.
From Stdlib Require Import ZArith Lia Bool Ascii.
From S2P Require Import Prelude JsString JsNum JsSort.

Inductive jsval :=
  | VUndefined
  | VNull
  | VBool (b : bool)
  | VNum (n : num)
  | VStr (s : string)
  | VArr (l : list jsval)
  | VObj (fields : list (string * jsval)).

(** Induction that reaches the elements of arrays and objects. *)
Fixpoint jsval_rect_nested (P : jsval -> Prop)
    (Hu : P VUndefined) (Hn : P VNull) (Hb : forall b, P (VBool b))
    (Hm : forall n, P (VNum n)) (Hs : forall s, P (VStr s))
    (Ha : forall l, Forall P l -> P (VArr l))
    (Ho : forall fs, Forall (fun kv => P (snd kv)) fs -> P (VObj fs)) (v : jsval) : P v :=
  let rec := jsval_rect_nested P Hu Hn Hb Hm Hs Ha Ho in
  match v with
  | VUndefined => Hu
  | VNull => Hn
  | VBool b => Hb b
  | VNum n => Hm n
  | VStr s => Hs s
  | VArr l =>
      Ha l ((fix go l := match l return Forall P l with
             | [] => @List.Forall_nil _ P
             | x :: l' => @List.Forall_cons _ P x l' (rec x) (go l')
             end) l)
  | VObj fs =>
      Ho fs ((fix go l := match l return Forall (fun kv => P (snd kv)) l with
              | [] => @List.Forall_nil _ (fun kv => P (snd kv))
              | x :: l' => @List.Forall_cons _ (fun kv => P (snd kv)) x l' (rec (snd x)) (go l')
              end) fs)
  end.

(** * Objects *)

(** Value of an own property, [undefined] when there is none. *)
Definition get_prop (fields : list (string * jsval)) (k : string) : jsval :=
  match List.find (fun kv => String.eqb (fst kv) k) fields with
  | Some kv => snd kv
  | None => VUndefined
  end.

(** Assignment to a property: an existing one keeps its place. *)
Fixpoint set_prop (fields : list (string * jsval)) (k : string) (v : jsval)
  : list (string * jsval) :=
  match fields with
  | [] => [(k, v)]
  | (k', v') :: r => if String.eqb k' k then (k', v) :: r else (k', v') :: set_prop r k v
  end.

(** The array index a property key denotes: canonical decimal, below 2^32 - 1. *)
Definition array_index (k : string) : option Z :=
  match chars k with
  | [] => None
  | "0"%char :: _ :: _ => None
  | l =>
      match scan_digits 0 0 l with
      | (v, _, []) => if (v <? 2 ^ 32 - 1)%Z then Some v else None
      | _ => None
      end
  end.

Definition compare_index {A : Type} (a b : string * A) : comparison :=
  match array_index (fst a), array_index (fst b) with
  | Some x, Some y => (x ?= y)%Z
  | _, _ => Eq
  end.

Definition is_index {A : Type} (kv : string * A) : bool :=
  match array_index (fst kv) with Some _ => true | None => false end.

(** Own properties in enumeration order: array indices in increasing order,
    then the other keys in creation order. *)
Definition own_props {A : Type} (fields : list (string * A)) : list (string * A) :=
  sort_by compare_index (List.filter is_index fields) ++
  List.filter (fun kv => negb (is_index kv)) fields.

(** * Conversions *)

(** ToBoolean *)
Definition value_truthy (v : jsval) : bool :=
  match v with
  | VUndefined | VNull => false
  | VBool b => b
  | VNum n => num_truthy n
  | VStr s => truthy s
  | VArr _ | VObj _ => true
  end.

(** [String(v)]; an array joins its elements, null and undefined ones as the
    empty string. *)
Fixpoint to_js_string (v : jsval) : string :=
  match v with
  | VUndefined => "undefined"
  | VNull => "null"
  | VBool b => if b then "true" else "false"
  | VNum n => num_to_string n
  | VStr s => s
  | VArr l =>
      join "," (List.map (fun x => match x with
                                   | VUndefined | VNull => ""
                                   | _ => to_js_string x
                                   end) l)
  | VObj _ => "[object Object]"
  end.

(** [Number(v)] *)
Definition to_js_number (v : jsval) : num :=
  match v with
  | VUndefined => nan
  | VNull => num_of_Z 0
  | VBool b => num_of_Z (if b then 1 else 0)
  | VNum n => n
  | VStr s => num_of_string s
  | VArr _ => num_of_string (to_js_string v)
  | VObj _ => nan
  end.

(** * JSON.stringify *)

Definition dquote : ascii := ascii_of_N 34.
Definition backslash : ascii := ascii_of_N 92.

Definition hex_digit (n : N) : ascii :=
  ascii_of_N (if (n <? 10)%N then 48 + n else 87 + n).

Definition quote_char (c : ascii) : list ascii :=
  let n := code c in
  if (n =? 34)%N then [backslash; dquote]
  else if (n =? 92)%N then [backslash; backslash]
  else if (n =? 8)%N then [backslash; "b"%char]
  else if (n =? 9)%N then [backslash; "t"%char]
  else if (n =? 10)%N then [backslash; "n"%char]
  else if (n =? 12)%N then [backslash; "f"%char]
  else if (n =? 13)%N then [backslash; "r"%char]
  else if (n <? 32)%N then
    [backslash; "u"%char; "0"%char; "0"%char; hex_digit (n / 16); hex_digit (n mod 16)]
  else [c].

Definition quote_chars (s : string) : list ascii :=
  dquote :: (chars s ≫= quote_char) ++ [dquote].

(** [JSON.stringify] of a string. *)
Definition quote (s : string) : string := of_chars (quote_chars s).

(** What survives serialisation: undefined properties vanish, undefined
    elements and non-finite numbers become null, -0 becomes 0, properties come
    in enumeration order. [None]: the value itself is undefined. *)
Fixpoint json_norm (v : jsval) : option jsval :=
  match v with
  | VUndefined => None
  | VNull => Some VNull
  | VBool b => Some (VBool b)
  | VNum n =>
      Some match n with
           | S754_zero _ => VNum (S754_zero false)
           | S754_finite _ _ _ => VNum n
           | _ => VNull
           end
  | VStr s => Some (VStr s)
  | VArr l =>
      Some (VArr (List.map (fun x => match json_norm x with Some y => y | None => VNull end) l))
  | VObj fs =>
      Some (VObj (omap (fun kv => pair (fst kv) <$> snd kv)
                   (own_props (List.map (fun kv => (fst kv, json_norm (snd kv))) fs))))
  end.

(** Compact text of a normalised value. *)
Fixpoint print (v : jsval) : string :=
  match v with
  | VUndefined | VNull => "null"
  | VBool b => if b then "true" else "false"
  | VNum n => num_to_string n
  | VStr s => quote s
  | VArr l => "[" +:+ join "," (List.map print l) +:+ "]"
  | VObj fs =>
      "{" +:+ join "," (List.map (fun kv => quote (fst kv) +:+ ":" +:+ print (snd kv)) fs)
      +:+ "}"
  end.

(** [JSON.stringify(v)] *)
Definition json_stringify (v : jsval) : option string := print <$> json_norm v.

Definition newline : string := of_chars [ascii_of_N 10].
Definition indent (depth : nat) : string := of_chars (repeat " "%char (2 * depth)).

(** Text with an indentation of two. *)
Fixpoint print_indented (depth : nat) (v : jsval) : string :=
  let sep := newline +:+ indent (S depth) in
  let block (opening closing : string) (items : list string) :=
    match items with
    | [] => opening +:+ closing
    | _ => opening +:+ sep +:+ join ("," +:+ sep) items +:+ newline +:+ indent depth +:+ closing
    end in
  match v with
  | VArr l => block "[" "]" (List.map (print_indented (S depth)) l)
  | VObj fs =>
      block "{" "}"
        (List.map (fun kv => quote (fst kv) +:+ ": " +:+ print_indented (S depth) (snd kv)) fs)
  | _ => print v
  end.

(** [JSON.stringify(v, null, 2)] *)
Definition json_stringify2 (v : jsval) : option string := print_indented 0 <$> json_norm v.

(** * JSON.parse *)

Definition is_json_space (c : ascii) : bool :=
  let n := code c in ((n =? 32) || (n =? 9) || (n =? 10) || (n =? 13))%N.

Definition skip_ws : list ascii -> list ascii := drop_while is_json_space.

Fixpoint skip_prefix (p l : list ascii) : option (list ascii) :=
  match p, l with
  | [], _ => Some l
  | c :: p', d :: l' => if Ascii.eqb c d then skip_prefix p' l' else None
  | _ :: _, [] => None
  end.

Definition hex4 (a b c d : ascii) : option Z :=
  x ← radix_digit a; y ← radix_digit b; z ← radix_digit c; w ← radix_digit d;
  Some (((x * 16 + y) * 16 + z) * 16 + w)%Z.

(** The character a one-letter escape stands for. *)
Definition unescape (c : ascii) : option ascii :=
  let n := code c in
  if (n =? 34)%N || (n =? 92)%N || (n =? 47)%N then Some c
  else if (n =? 98)%N then Some (ascii_of_N 8)
  else if (n =? 116)%N then Some (ascii_of_N 9)
  else if (n =? 110)%N then Some (ascii_of_N 10)
  else if (n =? 102)%N then Some (ascii_of_N 12)
  else if (n =? 114)%N then Some (ascii_of_N 13)
  else None.

(** Characters after the opening quote. An escape above U+00FF has no image in
    the alphabet of the model and counts as malformed. *)
Fixpoint parse_chars (l acc : list ascii) : option (string * list ascii) :=
  match l with
  | [] => None
  | c :: l1 =>
      if Ascii.eqb c dquote then Some (of_chars (rev acc), l1)
      else if Ascii.eqb c backslash then
        match l1 with
        | [] => None
        | d :: l2 =>
            if Ascii.eqb d "u" then
              match l2 with
              | h1 :: h2 :: h3 :: h4 :: l3 =>
                  match hex4 h1 h2 h3 h4 with
                  | Some v =>
                      if (v <? 256)%Z then parse_chars l3 (ascii_of_N (Z.to_N v) :: acc) else None
                  | None => None
                  end
              | _ => None
              end
            else match unescape d with Some e => parse_chars l2 (e :: acc) | None => None end
        end
      else if (code c <? 32)%N then None
      else parse_chars l1 (c :: acc)
  end.

(** At least one digit. *)
Definition scan_digits1 (acc : Z) (l : list ascii) : option (Z * nat * list ascii) :=
  let '(v, n, l') := scan_digits acc 0 l in
  if Nat.eqb n 0 then None else Some (v, n, l').

(** The integer part: no leading zero. *)
Definition scan_int (l : list ascii) : option (Z * list ascii) :=
  match l with
  | c :: l' =>
      if Ascii.eqb c "0" then Some (0%Z, l')
      else '(v, _, l1) ← scan_digits1 0 l; Some (v, l1)
  | [] => None
  end.

(** The fraction part, when there is one. *)
Definition scan_frac1 (acc : Z) (l : list ascii) : option (Z * nat * list ascii) :=
  match l with
  | c :: l' => if Ascii.eqb c "." then scan_digits1 acc l' else Some (acc, 0%nat, l)
  | [] => Some (acc, 0%nat, l)
  end.

Definition scan_minus (l : list ascii) : bool * list ascii :=
  match l with
  | c :: l' => if Ascii.eqb c "-" then (true, l') else (false, l)
  | [] => (false, l)
  end.

Definition parse_number (l : list ascii) : option (num * list ascii) :=
  let '(neg, l0) := scan_minus l in
  '(i, l1) ← scan_int l0;
  '(m, nf, l2) ← scan_frac1 i l1;
  '(e, l3) ← scan_exp l2;
  Some (num_of_decimal neg m (e - Z.of_nat nf), l3).

Fixpoint parse_value (fuel : nat) (l : list ascii) : option (jsval * list ascii) :=
  match fuel with
  | O => None
  | S f =>
      match skip_ws l with
      | [] => None
      | c :: r =>
          if Ascii.eqb c "n" then r' ← skip_prefix (chars "ull") r; Some (VNull, r')
          else if Ascii.eqb c "t" then r' ← skip_prefix (chars "rue") r; Some (VBool true, r')
          else if Ascii.eqb c "f" then r' ← skip_prefix (chars "alse") r; Some (VBool false, r')
          else if Ascii.eqb c dquote then '(s, r') ← parse_chars r []; Some (VStr s, r')
          else if Ascii.eqb c "[" then
            match skip_prefix (chars "]") (skip_ws r) with
            | Some r' => Some (VArr [], r')
            | None => '(vs, r') ← parse_elems f r; Some (VArr vs, r')
            end
          else if Ascii.eqb c "{" then
            match skip_prefix (chars "}") (skip_ws r) with
            | Some r' => Some (VObj [], r')
            | None => '(fs, r') ← parse_members f r []; Some (VObj fs, r')
            end
          else '(n, r') ← parse_number (c :: r); Some (VNum n, r')
      end
  end
with parse_elems (fuel : nat) (l : list ascii) : option (list jsval * list ascii) :=
  match fuel with
  | O => None
  | S f =>
      '(v, r) ← parse_value f l;
      match skip_ws r with
      | c :: r' =>
          if Ascii.eqb c "," then '(vs, r2) ← parse_elems f r'; Some (v :: vs, r2)
          else if Ascii.eqb c "]" then Some ([v], r')
          else None
      | [] => None
      end
  end
with parse_members (fuel : nat) (l : list ascii) (acc : list (string * jsval))
  : option (list (string * jsval) * list ascii) :=
  match fuel with
  | O => None
  | S f =>
      match skip_ws l with
      | c :: r =>
          if Ascii.eqb c dquote then
            '(k, r1) ← parse_chars r [];
            r2 ← skip_prefix (chars ":") (skip_ws r1);
            '(v, r3) ← parse_value f r2;
            match skip_ws r3 with
            | d :: r4 =>
                if Ascii.eqb d "," then parse_members f r4 (set_prop acc k v)
                else if Ascii.eqb d "}" then Some (set_prop acc k v, r4)
                else None
            | [] => None
            end
          else None
      | [] => None
      end
  end.

(** [JSON.parse(s)]; [None] is a SyntaxError. Every call of the parser consumes
    at least one character per two units of fuel. *)
Definition json_parse (s : string) : option jsval :=
  '(v, r) ← parse_value (S (2 * String.length s)) (chars s);
  match skip_ws r with
  | [] => Some v
  | _ => None
  end.

Example json_example :
  (json_parse " [1, 2.50, {} , true,[ ], -0, null ] " ≫= json_stringify)
  = Some "[1,2.5,{},true,[],0,null]".
Proof. vm_compute. reflexivity. Qed.

Example json_object_order :
  json_stringify (VObj [("b", VNull); ("10", VBool true); ("u", VUndefined); ("9", VArr [VUndefined])])
  = Some (of_chars (chars "{" ++ quote_chars "9" ++ chars ":[null]," ++ quote_chars "10" ++
          chars ":true," ++ quote_chars "b" ++ chars ":null}")).
Proof. vm_compute. reflexivity. Qed.
