(* ===== verification/JsonFacts.v ===== *)
(** Facts on JSON text: [json_parse] reads back what [print] writes, so the text
    of a normalised value determines the value. *)

From stdpp Require Import base list strings pretty.
From Stdlib Require Import ZArith Lia Bool Ascii.
From S2P Require Import Prelude JsString JsNum JsSort JsValue.

(** The text of a number reads back as the number. ECMAScript promises it for
    every finite number; it is decidable, and proved below for safe integers. *)
Definition number_reads_back (n : num) : bool :=
  match parse_number (chars (num_to_string n)) with
  | Some (n', []) => bool_decide (n' = n)
  | _ => false
  end.

(** Values the serialiser writes faithfully: no undefined, distinct property
    names, numbers that read back. *)
Fixpoint printable (v : jsval) : Prop :=
  match v with
  | VUndefined => False
  | VNull | VBool _ | VStr _ => True
  | VNum n => number_reads_back n = true
  | VArr l => (fix all l := match l with [] => True | x :: l' => printable x /\ all l' end) l
  | VObj fs =>
      NoDup fs.*1 /\
      (fix all l := match l with [] => True | x :: l' => printable (snd x) /\ all l' end) fs
  end.

Lemma printable_arr l : printable (VArr l) <-> Forall printable l.
Proof.
  induction l as [|x l IH]; [done |]. rewrite Forall_cons. cbn in *. by rewrite IH.
Qed.

Lemma printable_obj fs :
  printable (VObj fs) <-> NoDup fs.*1 /\ Forall (fun kv => printable (snd kv)) fs.
Proof.
  cbn [printable]. apply and_iff_compat_l.
  induction fs as [|x l IH]; [done |]. rewrite Forall_cons. by rewrite <- IH.
Qed.

(** * Scanners read a prefix *)

(** What may follow a value in compact text. *)
Definition follows (rest : list ascii) : Prop :=
  match rest with
  | [] => True
  | c :: _ => c = ","%char \/ c = "]"%char \/ c = "}"%char
  end.

Lemma scan_digits_app rest l :
  follows rest -> forall acc k v n l',
  scan_digits acc k l = (v, n, l') -> scan_digits acc k (l ++ rest) = (v, n, l' ++ rest).
Proof.
  intros Hr. induction l as [|c l IH]; intros acc k v n l'; cbn.
  - intros [= <- <- <-]. destruct rest as [|c rest]; [done |]. cbn.
    by destruct Hr as [-> | [-> | ->]].
  - destruct (is_digit c); [apply IH | by intros [= <- <- <-]].
Qed.

Lemma scan_digits1_app rest l acc v n l' :
  follows rest ->
  scan_digits1 acc l = Some (v, n, l') -> scan_digits1 acc (l ++ rest) = Some (v, n, l' ++ rest).
Proof.
  intros Hr. unfold scan_digits1. destruct (scan_digits acc 0 l) as [[w m] l1] eqn:E.
  rewrite (scan_digits_app _ _ Hr _ _ _ _ _ E). destruct (Nat.eqb m 0); [done |].
  by intros [= <- <- <-].
Qed.

Lemma scan_int_app rest l v l' :
  follows rest -> scan_int l = Some (v, l') -> scan_int (l ++ rest) = Some (v, l' ++ rest).
Proof.
  intros Hr. destruct l as [|c l]; [done |]. cbn [scan_int app].
  destruct (Ascii.eqb c "0"); [by intros [= <- <-] |].
  destruct (scan_digits1 0 (c :: l)) as [[[w m] l1]|] eqn:E; cbn; [| done].
  change (c :: l ++ rest) with ((c :: l) ++ rest).
  rewrite (scan_digits1_app _ _ _ _ _ _ Hr E). by intros [= <- <-].
Qed.

Lemma scan_frac1_app rest l acc v n l' :
  follows rest ->
  scan_frac1 acc l = Some (v, n, l') -> scan_frac1 acc (l ++ rest) = Some (v, n, l' ++ rest).
Proof.
  intros Hr. destruct l as [|c l]; cbn [scan_frac1 app].
  - intros [= <- <- <-]. destruct rest as [|d rest]; [done |].
    by destruct Hr as [-> | [-> | ->]].
  - destruct (Ascii.eqb c "."); [by apply scan_digits1_app | by intros [= <- <- <-]].
Qed.

Lemma scan_exp_app rest l e l' :
  follows rest -> scan_exp l = Some (e, l') -> scan_exp (l ++ rest) = Some (e, l' ++ rest).
Proof.
  intros Hr. destruct l as [|c l]; cbn [scan_exp app].
  - intros [= <- <-]. destruct rest as [|d rest]; [done |].
    by destruct Hr as [-> | [-> | ->]].
  - destruct (Ascii.eqb c "e" || Ascii.eqb c "E"); [| by intros [= <- <-]].
    assert (forall neg l1, scan_sign l = (neg, l1) -> l1 <> [] ->
              scan_sign (l ++ rest) = (neg, l1 ++ rest)) as Hs.
    { intros neg l1. destruct l as [|d l]; cbn; [by intros [= <- <-] |].
      destruct (Ascii.eqb d "-"), (Ascii.eqb d "+"); by intros [= <- <-]. }
    destruct (scan_sign l) as [neg l1] eqn:Es. specialize (Hs neg l1 eq_refl).
    destruct l1 as [|d l1]; [done |]. rewrite Hs by done.
    destruct (scan_digits 0 0 (d :: l1)) as [[w m] l2] eqn:E.
    rewrite (scan_digits_app _ _ Hr _ _ _ _ _ E). destruct (Nat.eqb m 0); [done |].
    by intros [= <- <-].
Qed.

Lemma parse_number_app rest l n l' :
  follows rest ->
  parse_number l = Some (n, l') -> parse_number (l ++ rest) = Some (n, l' ++ rest).
Proof.
  intros Hr H. unfold parse_number in *.
  assert (forall neg l1, scan_minus l = (neg, l1) -> l1 <> [] ->
            scan_minus (l ++ rest) = (neg, l1 ++ rest)) as Hs.
  { intros neg l1. destruct l as [|d l]; cbn; [by intros [= <- <-] |].
    destruct (Ascii.eqb d "-"); by intros [= <- <-]. }
  destruct (scan_minus l) as [neg l0]. specialize (Hs neg l0 eq_refl).
  destruct (scan_int l0) as [[i l1]|] eqn:E1; cbn in H; [| done].
  rewrite Hs by (by intros ->).
  rewrite (scan_int_app _ _ _ _ Hr E1). cbn.
  destruct (scan_frac1 i l1) as [[[m nf] l2]|] eqn:E2; cbn in H; [| done].
  rewrite (scan_frac1_app _ _ _ _ _ _ Hr E2). cbn.
  destruct (scan_exp l2) as [[e l3]|] eqn:E3; cbn in H; [| done].
  rewrite (scan_exp_app _ _ _ _ Hr E3). cbn. by injection H as <- <-.
Qed.

(** A number starts with a minus sign or a digit. *)
Lemma parse_number_head l n l' :
  parse_number l = Some (n, l') ->
  exists c r, l = c :: r /\ (c = "-"%char \/ is_digit c = true).
Proof.
  unfold parse_number. destruct l as [|c r]; [done |]. intros H. exists c, r. split; [done |].
  cbn [scan_minus] in H. destruct (Ascii.eqb_spec c "-") as [-> | _]; [by left |].
  right. cbn [scan_int] in H. destruct (Ascii.eqb_spec c "0") as [-> | _]; [done |].
  unfold scan_digits1 in H. cbn [scan_digits] in H. by destruct (is_digit c).
Qed.

(** * Strings *)

Lemma parse_quote_char c acc rest :
  parse_chars (quote_char c ++ rest) acc = parse_chars rest (c :: acc).
Proof. destruct c as [[] [] [] [] [] [] [] []]; reflexivity. Qed.

Lemma parse_quoted l acc rest :
  parse_chars ((l ≫= quote_char) ++ dquote :: rest) acc
  = Some (of_chars (rev acc ++ l), rest).
Proof.
  revert acc. induction l as [|c l IH]; intros acc.
  - cbn [mbind list_bind app]. cbn. by rewrite app_nil_r.
  - cbn [mbind list_bind]. rewrite <- app_assoc, parse_quote_char.
    change (list_bind _ _ quote_char l) with (l ≫= quote_char). rewrite IH. cbn [rev].
    by rewrite <- app_assoc.
Qed.

Lemma chars_quote s : chars (quote s) = quote_chars s.
Proof. apply chars_of_chars. Qed.

Lemma parse_quote s rest :
  parse_chars ((chars s ≫= quote_char) ++ dquote :: rest) [] = Some (s, rest).
Proof. rewrite parse_quoted. cbn [rev app]. by rewrite of_chars_chars. Qed.

(** * Values *)

Notation text v := (chars (print v)).

(** The text of a value starts with a character that opens a value. *)
Definition opens (c : ascii) : bool :=
  negb (is_json_space c) && negb (Ascii.eqb c "]") && negb (Ascii.eqb c "}").

Lemma digit_opens c : c = "-"%char \/ is_digit c = true ->
  opens c = true /\ Ascii.eqb c "n" = false /\ Ascii.eqb c "t" = false /\
  Ascii.eqb c "f" = false /\ Ascii.eqb c dquote = false /\ Ascii.eqb c "[" = false /\
  Ascii.eqb c "{" = false.
Proof.
  intros [-> | H]; [done |]. revert H.
  destruct c as [[] [] [] [] [] [] [] []]; intros H; try (cbv in H; discriminate H); repeat split.
Qed.

Lemma number_text n :
  number_reads_back n = true ->
  exists c r, chars (num_to_string n) = c :: r /\ (c = "-"%char \/ is_digit c = true) /\
  parse_number (c :: r) = Some (n, []).
Proof.
  unfold number_reads_back. intros H.
  destruct (parse_number _) as [[m l]|] eqn:E; [| done]. destruct l; [| done].
  apply bool_decide_eq_true in H as ->.
  destruct (parse_number_head _ _ _ E) as (c & r & Hl & Hc).
  exists c, r. by rewrite <- Hl.
Qed.

Lemma chars_arr l : text (VArr l) = "["%char :: chars (join "," (List.map print l)) ++ ["]"%char].
Proof. cbn [print]. by rewrite !chars_app. Qed.

Definition member_text (kv : string * jsval) : string := quote (fst kv) +:+ ":" +:+ print (snd kv).

Lemma chars_obj fs :
  text (VObj fs) = "{"%char :: chars (join "," (List.map member_text fs)) ++ ["}"%char].
Proof. cbn [print]. by rewrite !chars_app. Qed.

Lemma chars_member k v :
  chars (member_text (k, v)) =
  dquote :: (chars k ≫= quote_char) ++ dquote :: ":"%char :: text v.
Proof.
  unfold member_text. cbn [fst snd]. rewrite !chars_app, chars_quote. unfold quote_chars.
  cbn [app]. by rewrite <- app_assoc.
Qed.

Lemma text_opens v : printable v -> exists c r, text v = c :: r /\ opens c = true.
Proof.
  destruct v as [| |b|n|s|l|fs]; intros H.
  - done.
  - by do 2 eexists.
  - destruct b; by do 2 eexists.
  - destruct (number_text n H) as (c & r & Hc & Hd & _).
    exists c, r. split; [done |]. by apply digit_opens in Hd as [? _].
  - cbn [print]. rewrite chars_quote. by do 2 eexists.
  - rewrite chars_arr. by do 2 eexists.
  - rewrite chars_obj. by do 2 eexists.
Qed.

Lemma skip_ws_opens c r : opens c = true -> skip_ws (c :: r) = c :: r.
Proof.
  unfold opens. intros H. apply drop_while_keep. by destruct (is_json_space c).
Qed.

Lemma follows_comma r : follows ("," :: r)%char. Proof. by left. Qed.
Lemma follows_bracket r : follows ("]" :: r)%char. Proof. by right; left. Qed.
Lemma follows_brace r : follows ("}" :: r)%char. Proof. by right; right. Qed.
#[local] Hint Resolve follows_comma follows_bracket follows_brace : core.

(** What the round trip says of one value, for any continuation. *)
Definition reads_back (v : jsval) : Prop :=
  forall fuel rest, follows rest -> (2 * length (text v) <= fuel)%nat ->
  parse_value fuel (text v ++ rest) = Some (v, rest).

Lemma parse_elems_back l :
  l <> [] -> Forall reads_back l -> forall fuel rest,
  (2 * length (chars (join "," (List.map print l))) < fuel)%nat ->
  parse_elems fuel (chars (join "," (List.map print l)) ++ "]"%char :: rest) = Some (l, rest).
Proof.
  intros Hne Hl. induction Hl as [|v l Hv Hl IH]; [done |]. intros fuel rest Hf.
  destruct fuel as [|fuel]; [lia |]. cbn [parse_elems]. destruct l as [|w l].
  - cbn [List.map join] in *. rewrite Hv by (done || lia). done.
  - cbn [List.map] in Hf |- *. rewrite join_cons in Hf |- * by done.
    rewrite !chars_app in Hf |- *. rewrite !length_app in Hf. cbn [length] in Hf.
    rewrite <- !app_assoc. change (chars "," ++ ?x) with (","%char :: x).
    rewrite Hv by (auto; lia). cbn [mbind option_bind].
    rewrite skip_ws_opens by done. cbn [Ascii.eqb Bool.eqb].
    change (print w :: List.map print l) with (List.map print (w :: l)) in *.
    rewrite IH; [done | done |]. cbn in Hf |- *. lia.
Qed.

Lemma set_prop_fresh fs k v : k ∉ fs.*1 -> set_prop fs k v = fs ++ [(k, v)].
Proof.
  induction fs as [|[k' v'] fs IH]; [done |]. cbn. intros H. apply not_elem_of_cons in H as [Hk H].
  destruct (String.eqb_spec k' k) as [-> | _]; [done |]. by rewrite IH.
Qed.

Lemma parse_members_back fs :
  fs <> [] -> Forall (fun kv => reads_back (snd kv) /\ printable (snd kv)) fs ->
  forall fuel rest acc,
  NoDup (acc ++ fs).*1 ->
  (2 * length (chars (join "," (List.map member_text fs))) < fuel)%nat ->
  parse_members fuel (chars (join "," (List.map member_text fs)) ++ "}"%char :: rest) acc
  = Some (acc ++ fs, rest).
Proof.
  intros Hne Hl. induction Hl as [|[k v] fs [Hv Hp] Hl IH]; [done |].
  cbn [snd] in *. intros fuel rest acc Hnd Hf.
  destruct fuel as [|fuel]; [lia |].
  assert (k ∉ acc.*1) as Hk.
  { rewrite fmap_app in Hnd. cbn in Hnd. apply NoDup_app in Hnd as (_ & H & _).
    intros Hin. apply (H _ Hin). by left. }
  assert (forall tl, (2 * length (text v) <= fuel)%nat -> follows tl ->
    parse_members (S fuel) (chars (member_text (k, v)) ++ tl) acc =
    match tl with
    | d :: r4 =>
        if Ascii.eqb d "," then parse_members fuel r4 (acc ++ [(k, v)])
        else if Ascii.eqb d "}" then Some (acc ++ [(k, v)], r4) else None
    | [] => None
    end) as Hstep.
  { intros tl Hfu Htl. rewrite chars_member. cbn [app parse_members].
    rewrite skip_ws_opens by done. change (Ascii.eqb dquote dquote) with true. cbn match.
    rewrite <- app_assoc. cbn [app]. rewrite parse_quote. cbn [mbind option_bind].
    rewrite skip_ws_opens by done. cbn [chars skip_prefix Ascii.eqb Bool.eqb option_bind].
    cbn [mbind option_bind]. rewrite Hv by done. cbn [mbind option_bind].
    rewrite set_prop_fresh by done.
    destruct tl as [|d tl]; [done |]. by destruct Htl as [-> | [-> | ->]]. }
  assert (length (chars (member_text (k, v))) >= 3 + length (text v))%nat as Hlen.
  { rewrite chars_member. cbn [length]. rewrite length_app. cbn. lia. }
  destruct fs as [|w fs].
  - cbn [List.map join] in *. rewrite Hstep by (done || lia). done.
  - cbn [List.map] in Hf |- *. rewrite join_cons in Hf |- * by done.
    rewrite !chars_app in Hf |- *. rewrite !length_app in Hf. cbn [length] in Hf.
    rewrite <- !app_assoc. change (chars "," ++ ?x) with (","%char :: x).
    rewrite Hstep by (done || lia). cbn [Ascii.eqb Bool.eqb].
    change (member_text w :: List.map member_text fs) with (List.map member_text (w :: fs)) in *.
    rewrite IH; [by rewrite <- app_assoc | done | by rewrite <- app_assoc |].
    cbn in Hf |- *. lia.
Qed.


Lemma join_head (p : string) l c r :
  chars p = c :: r -> exists r', chars (join "," (p :: l)) = c :: r'.
Proof.
  intros H. destruct l as [|q l]; [by eexists |].
  rewrite join_cons, chars_app, H by done. by eexists.
Qed.

Lemma skip_closing close c r :
  opens c = true -> (close = "]"%char \/ close = "}"%char) ->
  skip_prefix [close] (skip_ws (c :: r)) = None.
Proof.
  intros H Hc. rewrite skip_ws_opens by done. cbn [skip_prefix]. unfold opens in H.
  rewrite Ascii.eqb_sym. destruct Hc as [-> | ->].
  - destruct (Ascii.eqb c "]"); [| done]. by rewrite andb_false_r in H.
  - destruct (Ascii.eqb c "}"); [| done]. by rewrite andb_false_r in H.
Qed.

Lemma parse_value_quote f r :
  parse_value (S f) (dquote :: r) = '(s, r') ← parse_chars r []; Some (VStr s, r').
Proof. reflexivity. Qed.

Lemma parse_value_bracket f r :
  parse_value (S f) ("["%char :: r) =
  match skip_prefix ["]"%char] (skip_ws r) with
  | Some r' => Some (VArr [], r')
  | None => '(vs, r') ← parse_elems f r; Some (VArr vs, r')
  end.
Proof. reflexivity. Qed.

Lemma parse_value_brace f r :
  parse_value (S f) ("{"%char :: r) =
  match skip_prefix ["}"%char] (skip_ws r) with
  | Some r' => Some (VObj [], r')
  | None => '(fs, r') ← parse_members f r []; Some (VObj fs, r')
  end.
Proof. reflexivity. Qed.

Lemma printable_reads_back v : printable v -> reads_back v.
Proof.
  induction v as [| |b|n|s|l IH|fs IH] using jsval_rect_nested; intros Hp fuel rest Hr Hf;
    [done | | | | | |];
    (destruct fuel as [|fuel];
     [destruct (text_opens _ Hp) as (c & r & Hc & _); rewrite Hc in Hf; cbn in Hf; lia |]).
  - done.
  - by destruct b.
  - destruct (number_text n Hp) as (c & r & Hc & Hd & Hn). cbn [print]. rewrite Hc.
    apply (parse_number_app rest) in Hn; [| done].
    apply digit_opens in Hd as (Ho & E1 & E2 & E3 & E4 & E5 & E6).
    cbn [app parse_value]. rewrite skip_ws_opens by done. rewrite E1, E2, E3, E4, E5, E6.
    cbn [app] in Hn. by rewrite Hn.
  - cbn [print]. rewrite chars_quote. unfold quote_chars.
    cbn [app]. rewrite parse_value_quote, <- app_assoc. cbn [app]. by rewrite parse_quote.
  - apply printable_arr in Hp. rewrite chars_arr in Hf |- *. cbn [app].
    rewrite parse_value_bracket, <- app_assoc. cbn [app]. destruct l as [|v l]; [done |].
    destruct (text_opens v) as (c & r & Hc & Ho); [by inv Hp |].
    destruct (join_head (print v) (List.map print l) c r Hc) as [r' Hj].
    assert (skip_prefix ["]"%char]
      (skip_ws (chars (join "," (List.map print (v :: l))) ++ "]"%char :: rest)) = None) as ->.
    { cbn [List.map]. rewrite Hj. cbn [app]. apply skip_closing; [done | by left]. }
    rewrite parse_elems_back; [done | done | |].
    + rewrite List.Forall_forall in *. auto.
    + cbn [length] in Hf. rewrite length_app in Hf. cbn [length] in Hf. lia.
  - apply printable_obj in Hp as [Hnd Hp]. rewrite chars_obj in Hf |- *. cbn [app].
    rewrite parse_value_brace, <- app_assoc. cbn [app]. destruct fs as [|[k v] fs]; [done |].
    destruct (join_head (member_text (k, v)) (List.map member_text fs) _ _ (chars_member k v))
      as [r' Hj].
    assert (skip_prefix ["}"%char]
      (skip_ws (chars (join "," (List.map member_text ((k, v) :: fs))) ++ "}"%char :: rest))
      = None) as ->.
    { cbn [List.map]. rewrite Hj. cbn [app]. apply skip_closing; [done | by right]. }
    rewrite (parse_members_back ((k, v) :: fs)); [done | done | | done |].
    + rewrite List.Forall_forall in *. auto.
    + cbn [length] in Hf. rewrite length_app in Hf. cbn [length] in Hf. lia.
Qed.

(** [JSON.parse] reads back the text of a value. *)
Lemma json_parse_print v : printable v -> json_parse (print v) = Some v.
Proof.
  intros Hp. unfold json_parse.
  pose proof (printable_reads_back v Hp (S (2 * String.length (print v))) [] I) as H.
  rewrite app_nil_r in H.
  assert (forall s, length (chars s) = String.length s) as Hl
    by (intros s; induction s; cbn; congruence).
  rewrite H by (rewrite Hl; lia). done.
Qed.

Lemma print_inj v w : printable v -> printable w -> print v = print w -> v = w.
Proof.
  intros Hv Hw H. apply json_parse_print in Hv, Hw. rewrite H in Hv. congruence.
Qed.

(** * Numbers: safe integers read back *)

Lemma pretty_digit d :
  (d < 10)%N ->
  is_digit (pretty_N_char d) = true /\ digit_val (pretty_N_char d) = Z.of_N d /\
  (d <> 0%N -> Ascii.eqb (pretty_N_char d) "0" = false).
Proof.
  intros H.
  assert (d = 0 \/ d = 1 \/ d = 2 \/ d = 3 \/ d = 4 \/ d = 5 \/ d = 6 \/ d = 7 \/ d = 8 \/ d = 9)%N
    as Hd by lia.
  repeat destruct Hd as [-> | Hd]; subst; done.
Qed.

Lemma scan_pretty x s acc k :
  exists n, scan_digits acc k (chars (pretty_N_go x s)) =
            scan_digits (acc * 10 ^ Z.of_nat n + Z.of_N x) (k + n) (chars s).
Proof.
  revert s. induction (N.lt_wf_0 x) as [x _ IH]. intros s.
  destruct (decide (0 < x)%N) as [Hx | Hx].
  - rewrite pretty_N_go_step by done.
    destruct (IH (x `div` 10)%N (N.div_lt x 10 ltac:(lia) ltac:(lia))
                (String (pretty_N_char (x `mod` 10)) s)) as [n Hn].
    rewrite Hn. exists (S n).
    pose proof (N.mod_lt x 10 ltac:(lia)) as Hm.
    destruct (pretty_digit _ Hm) as (H1 & H2 & _).
    cbn [scan_digits chars]. rewrite H1, H2. f_equal; [| lia].
    rewrite Nat2Z.inj_succ, Z.pow_succ_r by lia.
    assert (Z.of_N x = 10 * Z.of_N (x `div` 10) + Z.of_N (x `mod` 10))%Z as E
      by (pose proof (N.div_mod x 10 ltac:(lia)); lia).
    rewrite E. ring.
  - assert (x = 0%N) as -> by lia. exists 0%nat. rewrite pretty_N_go_0.
    f_equal; [cbn; lia | lia].
Qed.

Lemma pretty_head x s :
  (0 < x)%N -> exists c r, chars (pretty_N_go x s) = c :: r /\
  is_digit c = true /\ Ascii.eqb c "0" = false.
Proof.
  revert s. induction (N.lt_wf_0 x) as [x _ IH]. intros s Hx.
  rewrite pretty_N_go_step by done.
  destruct (decide (0 < x `div` 10)%N) as [Hd | Hd].
  - apply IH; [apply N.div_lt; lia | done].
  - assert (x `div` 10 = 0)%N as E by (by apply N.le_0_r, N.nlt_ge). rewrite E, pretty_N_go_0.
    assert (x < 10)%N as Hlt by (apply N.div_small_iff; lia).
    rewrite N.mod_small by done. destruct (pretty_digit x Hlt) as (H1 & _ & H3).
    do 2 eexists. split; [reflexivity |]. split; [done |]. apply H3. lia.
Qed.

Lemma num_of_decimal_int neg p :
  num_of_decimal neg (Zpos p) 0 = num_of_Z (signed neg (Zpos p)).
Proof.
  unfold num_of_decimal. change (309 <? 0)%Z with false. cbn match.
  rewrite (proj2 (Z.ltb_ge _ _)).
  2:{ pose proof (Z.log2_nonneg (Zpos p)). pose proof (Z.div_pos (Z.log2 (Zpos p)) 3). lia. }
  change (0 <=? 0)%Z with true. cbn match. rewrite Z.mul_1_r. by destruct neg.
Qed.

Lemma parse_positive p l0 neg :
  scan_minus l0 = (neg, chars (pretty (Npos p))) ->
  parse_number l0 = Some (num_of_Z (signed neg (Zpos p)), []).
Proof.
  intros Hm. unfold parse_number. rewrite Hm.
  assert (pretty (Npos p) = pretty_N_go (Npos p) "") as -> by done.
  destruct (pretty_head (Npos p) "" ltac:(lia)) as (c & r & Hc & Hd & H0).
  destruct (scan_pretty (Npos p) "" 0 0) as [n Hn]. rewrite Hc in *.
  cbn [scan_int]. rewrite H0. unfold scan_digits1. rewrite Hn.
  assert (n <> 0%nat) as Hnz.
  { intros ->. cbn [scan_digits] in Hn. rewrite Hd in Hn.
    assert (forall l a k, (k <= (scan_digits a k l).1.2)%nat) as Hk.
    { intros l. induction l as [|d l IHl]; intros a k; cbn; [done |].
      destruct (is_digit d); [| done]. specialize (IHl (10 * a + digit_val d)%Z (S k)). lia. }
    pose proof (Hk r (10 * 0 + digit_val c)%Z 1%nat) as Hle. rewrite Hn in Hle. cbn in Hle. lia. }
  cbn [chars scan_digits]. rewrite (proj2 (Nat.eqb_neq _ _)) by lia.
  cbn [mbind option_bind scan_frac1 scan_exp].
  replace (0 * 10 ^ Z.of_nat n + Z.of_N (Npos p))%Z with (Zpos p) by lia.
  change (0 - Z.of_nat 0)%Z with 0%Z. by rewrite num_of_decimal_int.
Qed.

Lemma safe_int_reads_back z : safe_int z -> number_reads_back (num_of_Z z) = true.
Proof.
  intros Hz. unfold number_reads_back. rewrite num_to_string_int by done. unfold dec.
  destruct z as [|p|p]; [done | |].
  - rewrite (parse_positive p _ false); [by apply bool_decide_eq_true |].
    change (pretty (Zpos p)) with (pretty (Npos p)).
    assert (pretty (Npos p) = pretty_N_go (Npos p) "") as -> by done.
    destruct (pretty_head (Npos p) "" ltac:(lia)) as (c & r & Hc & Hd & _).
    rewrite Hc. cbn [scan_minus]. destruct (Ascii.eqb_spec c "-") as [-> |]; done.
  - rewrite (parse_positive p _ true); [by apply bool_decide_eq_true |]. done.
Qed.

(** * Properties of objects *)

Lemma own_props_perm {A} (fs : list (string * A)) : own_props fs ≡ₚ fs.
Proof.
  unfold own_props. rewrite sort_by_perm.
  induction fs as [|x fs IH]; [done |]. cbn. destruct (is_index x); cbn.
  - by constructor.
  - rewrite <- Permutation_middle. by constructor.
Qed.

Lemma filter_map_fields {A B} (f : A -> B) (p : forall T, string * T -> bool) fs :
  (forall k v, p B (k, f v) = p A (k, v)) ->
  List.filter (p B) (List.map (fun kv => (fst kv, f (snd kv))) fs) =
  List.map (fun kv => (fst kv, f (snd kv))) (List.filter (p A) fs).
Proof.
  intros H. induction fs as [|[k v] fs IH]; [done |]. cbn. rewrite H, IH.
  by destruct (p A (k, v)).
Qed.

(** The order of properties does not depend on their values. *)
Lemma own_props_map {A B} (f : A -> B) fs :
  own_props (List.map (fun kv => (fst kv, f (snd kv))) fs) =
  List.map (fun kv => (fst kv, f (snd kv))) (own_props fs).
Proof.
  unfold own_props. rewrite List.map_app. f_equal.
  - rewrite (filter_map_fields f (@is_index)) by done. by apply sort_by_map.
  - by apply (filter_map_fields f (fun T kv => negb (is_index kv))).
Qed.

Lemma compare_string_consistent {A} :
  Consistent (fun a b : string * A => String.compare (fst a) (fst b)) (fun _ => True).
Proof.
  split; [intros x y _ _; apply String.compare_antisym |].
  intros [x x1] [y y1] [z z1] _ _ _. unfold before. cbn. clear x1 y1 z1.
  revert y z. induction x as [|a x IH]; intros [|b y] [|c z]; cbn; try done.
  destruct (Ascii.compare a b) eqn:Eab, (Ascii.compare b c) eqn:Ebc; try done;
    unfold Ascii.compare in *;
    rewrite ?N.compare_eq_iff, ?N.compare_lt_iff in *.
  - rewrite Eab, Ebc, N.compare_refl. apply IH.
  - rewrite Eab, (proj2 (N.compare_lt_iff _ _)) by lia. done.
  - rewrite <- Ebc, (proj2 (N.compare_lt_iff _ _)) by lia. done.
  - rewrite (proj2 (N.compare_lt_iff _ _)) by lia. done.
Qed.

(** Distinct keys: two fields of equal key are the same field. *)
Lemma NoDup_keys_inj {A} (fs : list (string * A)) x y :
  NoDup fs.*1 -> x ∈ fs -> y ∈ fs -> fst x = fst y -> x = y.
Proof.
  intros Hn Hx Hy E. apply list_elem_of_lookup in Hx as [i Hi], Hy as [j Hj].
  assert (i = j) as ->; [| congruence].
  apply (NoDup_lookup fs.*1 i j (fst x)); [done | |]; rewrite list_lookup_fmap.
  - by rewrite Hi.
  - by rewrite Hj, E.
Qed.
