(* ===== verification/Models.v ===== *)
(** The data model of the dashboard: [src/lib/models.ts].

    Each TypeScript type is a module of its name holding a record (or an
    inductive type) of its name, so [Job.state j] reads as in the source. A
    [number] is a binary64 [num], an optional property an [option],
    [unknown] a [jsval], and a [Record<string, T>] a [gmap string T] (its own
    properties; names of [Object.prototype] are never used as keys).
    [T | null] is an [option] whose [None] is null.

    [to_value] gives the JavaScript object a record is; the serialisers of
    LiveRefresh.v work on it. *)

From stdpp Require Import base list strings gmap.
From Stdlib Require Import ZArith Bool.
From S2P Require Import Prelude JsString JsNum JsValue.

(** * Enumerations *)

(** A job state. The API parsers only ask for a non-empty string, so a string
    outside the union can reach the reducers: [unknown_state]. *)
Inductive JobState :=
  | queued | scheduled | retrying | blocked | throttled | active | completed | failed | canceled
  | unknown_state (s : string).

Definition state_name (s : JobState) : string :=
  match s with
  | queued => "queued"
  | scheduled => "scheduled"
  | retrying => "retrying"
  | blocked => "blocked"
  | throttled => "throttled"
  | active => "active"
  | completed => "completed"
  | failed => "failed"
  | canceled => "canceled"
  | unknown_state s => s
  end.

Definition state_of_name (s : string) : JobState :=
  match List.find (fun st => String.eqb (state_name st) s)
          [queued; scheduled; retrying; blocked; throttled; active; completed; failed; canceled]
  with
  | Some st => st
  | None => unknown_state s
  end.

(** [a === b] on states. *)
Definition state_eqb (a b : JobState) : bool := String.eqb (state_name a) (state_name b).

Inductive LiveHealth := health_live | health_degraded | health_reconnecting | health_offline
  | health_paused | health_demo.

Inductive TransportMode := mode_websocket | mode_sse | mode_polling | mode_degraded
  | mode_offline | mode_demo.

Inductive TransportConnectionState := conn_idle | conn_connecting | conn_live | conn_polling
  | conn_degraded | conn_offline | conn_paused | conn_demo.

(** Milliseconds; the presets are 0, 5000, 15000 and 30000. *)
Definition PollingPreset : Type := Z.

Inductive ControlScope := scope_live | scope_local.
Inductive DataSource := source_demo | source_live.
Inductive ToastTone := tone_info | tone_success | tone_warning | tone_danger.

Inductive TabKey := tab_overview | tab_jobs | tab_queues | tab_workers | tab_schedules
  | tab_dead_letter | tab_workflows | tab_metrics | tab_events.

#[export] Instance transport_mode_eq_dec : EqDecision TransportMode.
Proof. solve_decision. Defined.
#[export] Instance connection_state_eq_dec : EqDecision TransportConnectionState.
Proof. solve_decision. Defined.
#[export] Instance live_health_eq_dec : EqDecision LiveHealth.
Proof. solve_decision. Defined.
#[export] Instance data_source_eq_dec : EqDecision DataSource.
Proof. solve_decision. Defined.
#[export] Instance job_state_eq_dec : EqDecision JobState.
Proof. solve_decision. Defined.

(** * JavaScript values of fields *)

(** An absent property is undefined. *)
Definition opt_value {A : Type} (f : A -> jsval) (o : option A) : jsval :=
  match o with Some a => f a | None => VUndefined end.

Definition null_value {A : Type} (f : A -> jsval) (o : option A) : jsval :=
  match o with Some a => f a | None => VNull end.

Definition list_value {A : Type} (f : A -> jsval) (l : list A) : jsval := VArr (List.map f l).

Definition map_value {A : Type} (f : A -> jsval) (m : gmap string A) : jsval :=
  VObj (List.map (fun kv => (fst kv, f (snd kv))) (map_to_list m)).

(** * Records *)

Module TransportStatus.
Record TransportStatus := mk {
  mode : TransportMode;
  state : TransportConnectionState;
  attempt : Z;
  lastMessageAt : string;
  lastFailureAt : string;
  lastError : string;
  degradedReason : string;
  nextRetryAt : string
}.
End TransportStatus.
Notation TransportStatus := TransportStatus.TransportStatus.

Module LatencySummary.
Record LatencySummary := mk {
  p50Ms : num;
  p95Ms : num;
  p99Ms : num
}.

Definition to_value (r : LatencySummary) : jsval := VObj [
  ("p50Ms", VNum (p50Ms r));
  ("p95Ms", VNum (p95Ms r));
  ("p99Ms", VNum (p99Ms r))
].
End LatencySummary.
Notation LatencySummary := LatencySummary.LatencySummary.

Module MetricsPoint.
Record MetricsPoint := mk {
  timestamp : string;
  value : num
}.

Definition to_value (r : MetricsPoint) : jsval := VObj [
  ("timestamp", VStr (timestamp r));
  ("value", VNum (value r))
].
End MetricsPoint.
Notation MetricsPoint := MetricsPoint.MetricsPoint.

Module Job.
Record Job := mk {
  id : string;
  type : string;
  queue : string;
  tenantId : string;
  payload : jsval;
  priority : num;
  attempts : num;
  maxAttempts : num;
  state : JobState;
  schemaVersion : num;
  idempotencyKey : option string;
  workflowId : option string;
  parentJobId : option string;
  dependencyPolicy : option string;
  blockedReason : option string;
  createdAt : string;
  updatedAt : string;
  runAt : string;
  startedAt : option string;
  finishedAt : option string;
  lastHeartbeatAt : option string;
  leaseExpiresAt : option string;
  throttleUntil : option string;
  lastError : option string;
  result : jsval;
  workerId : option string;
  leaseToken : option string;
  timeoutSeconds : num;
  cancelRequested : bool;
  executionMs : num
}.

Definition to_value (r : Job) : jsval := VObj [
  ("id", VStr (id r));
  ("type", VStr (type r));
  ("queue", VStr (queue r));
  ("tenantId", VStr (tenantId r));
  ("payload", payload r);
  ("priority", VNum (priority r));
  ("attempts", VNum (attempts r));
  ("maxAttempts", VNum (maxAttempts r));
  ("state", VStr (state_name (state r)));
  ("schemaVersion", VNum (schemaVersion r));
  ("idempotencyKey", opt_value VStr (idempotencyKey r));
  ("workflowId", opt_value VStr (workflowId r));
  ("parentJobId", opt_value VStr (parentJobId r));
  ("dependencyPolicy", opt_value VStr (dependencyPolicy r));
  ("blockedReason", opt_value VStr (blockedReason r));
  ("createdAt", VStr (createdAt r));
  ("updatedAt", VStr (updatedAt r));
  ("runAt", VStr (runAt r));
  ("startedAt", opt_value VStr (startedAt r));
  ("finishedAt", opt_value VStr (finishedAt r));
  ("lastHeartbeatAt", opt_value VStr (lastHeartbeatAt r));
  ("leaseExpiresAt", opt_value VStr (leaseExpiresAt r));
  ("throttleUntil", opt_value VStr (throttleUntil r));
  ("lastError", opt_value VStr (lastError r));
  ("result", result r);
  ("workerId", opt_value VStr (workerId r));
  ("leaseToken", opt_value VStr (leaseToken r));
  ("timeoutSeconds", VNum (timeoutSeconds r));
  ("cancelRequested", VBool (cancelRequested r));
  ("executionMs", VNum (executionMs r))
].
End Job.
Notation Job := Job.Job.

Module JobAttempt.
Record JobAttempt := mk {
  id : num;
  jobId : string;
  attempt : num;
  workerId : string;
  leaseToken : option string;
  status : string;
  errorType : option string;
  errorMessage : option string;
  stackTrace : option string;
  leaseExpired : bool;
  startedAt : string;
  finishedAt : option string
}.

Definition to_value (r : JobAttempt) : jsval := VObj [
  ("id", VNum (id r));
  ("jobId", VStr (jobId r));
  ("attempt", VNum (attempt r));
  ("workerId", VStr (workerId r));
  ("leaseToken", opt_value VStr (leaseToken r));
  ("status", VStr (status r));
  ("errorType", opt_value VStr (errorType r));
  ("errorMessage", opt_value VStr (errorMessage r));
  ("stackTrace", opt_value VStr (stackTrace r));
  ("leaseExpired", VBool (leaseExpired r));
  ("startedAt", VStr (startedAt r));
  ("finishedAt", opt_value VStr (finishedAt r))
].
End JobAttempt.
Notation JobAttempt := JobAttempt.JobAttempt.

Module JobEvent.
Record JobEvent := mk {
  jobId : string;
  type : string;
  message : string;
  metadata : jsval;
  occurredAt : string
}.

Definition to_value (r : JobEvent) : jsval := VObj [
  ("jobId", VStr (jobId r));
  ("type", VStr (type r));
  ("message", VStr (message r));
  ("metadata", metadata r);
  ("occurredAt", VStr (occurredAt r))
].
End JobEvent.
Notation JobEvent := JobEvent.JobEvent.

Module DependencyNode.
Record DependencyNode := mk {
  jobId : string;
  type : string;
  state : JobState;
  queue : string;
  parentJobId : option string;
  workflowId : option string;
  blockedReason : option string;
  dependencyPolicy : option string;
  dependsOn : option (list string);
  dependents : option (list string)
}.

Definition to_value (r : DependencyNode) : jsval := VObj [
  ("jobId", VStr (jobId r));
  ("type", VStr (type r));
  ("state", VStr (state_name (state r)));
  ("queue", VStr (queue r));
  ("parentJobId", opt_value VStr (parentJobId r));
  ("workflowId", opt_value VStr (workflowId r));
  ("blockedReason", opt_value VStr (blockedReason r));
  ("dependencyPolicy", opt_value VStr (dependencyPolicy r));
  ("dependsOn", opt_value (list_value VStr) (dependsOn r));
  ("dependents", opt_value (list_value VStr) (dependents r))
].
End DependencyNode.
Notation DependencyNode := DependencyNode.DependencyNode.

Module DependencyGraph.
Record DependencyGraph := mk {
  rootJobId : string;
  nodes : list DependencyNode
}.

Definition to_value (r : DependencyGraph) : jsval := VObj [
  ("rootJobId", VStr (rootJobId r));
  ("nodes", list_value DependencyNode.to_value (nodes r))
].
End DependencyGraph.
Notation DependencyGraph := DependencyGraph.DependencyGraph.

Module IdempotencyRecord.
Record IdempotencyRecord := mk {
  scope : string;
  tenantId : string;
  jobType : string;
  idempotencyKey : string;
  jobId : string;
  status : string;
  outcome : jsval;
  firstSeenAt : string;
  updatedAt : string;
  expiresAt : string
}.

Definition to_value (r : IdempotencyRecord) : jsval := VObj [
  ("scope", VStr (scope r));
  ("tenantId", VStr (tenantId r));
  ("jobType", VStr (jobType r));
  ("idempotencyKey", VStr (idempotencyKey r));
  ("jobId", VStr (jobId r));
  ("status", VStr (status r));
  ("outcome", outcome r);
  ("firstSeenAt", VStr (firstSeenAt r));
  ("updatedAt", VStr (updatedAt r));
  ("expiresAt", VStr (expiresAt r))
].
End IdempotencyRecord.
Notation IdempotencyRecord := IdempotencyRecord.IdempotencyRecord.

Module DeadLetter.
Record DeadLetter := mk {
  jobId : string;
  queue : string;
  workerId : string;
  errorType : option string;
  errorMessage : string;
  stackTrace : option string;
  failedAt : string;
  lastAttempt : num;
  replayCount : num;
  lastReplayedAt : option string;
  job : option Job;
  attempts : option (list JobAttempt)
}.

Definition to_value (r : DeadLetter) : jsval := VObj [
  ("jobId", VStr (jobId r));
  ("queue", VStr (queue r));
  ("workerId", VStr (workerId r));
  ("errorType", opt_value VStr (errorType r));
  ("errorMessage", VStr (errorMessage r));
  ("stackTrace", opt_value VStr (stackTrace r));
  ("failedAt", VStr (failedAt r));
  ("lastAttempt", VNum (lastAttempt r));
  ("replayCount", VNum (replayCount r));
  ("lastReplayedAt", opt_value VStr (lastReplayedAt r));
  ("job", opt_value Job.to_value (job r));
  ("attempts", opt_value (list_value JobAttempt.to_value) (attempts r))
].
End DeadLetter.
Notation DeadLetter := DeadLetter.DeadLetter.

Module WorkerLeaseHealth.
Record WorkerLeaseHealth := mk {
  workerId : string;
  hostname : string;
  status : string;
  queues : list string;
  lastSeenAt : string;
  heartbeatAgeMs : num;
  activeLeaseCount : num;
  oldestLeaseAgeMs : num;
  oldestLeaseJobId : option string;
  version : string;
  startedAt : string;
  leaseExpiresAt : option string
}.

Definition to_value (r : WorkerLeaseHealth) : jsval := VObj [
  ("workerId", VStr (workerId r));
  ("hostname", VStr (hostname r));
  ("status", VStr (status r));
  ("queues", list_value VStr (queues r));
  ("lastSeenAt", VStr (lastSeenAt r));
  ("heartbeatAgeMs", VNum (heartbeatAgeMs r));
  ("activeLeaseCount", VNum (activeLeaseCount r));
  ("oldestLeaseAgeMs", VNum (oldestLeaseAgeMs r));
  ("oldestLeaseJobId", opt_value VStr (oldestLeaseJobId r));
  ("version", VStr (version r));
  ("startedAt", VStr (startedAt r));
  ("leaseExpiresAt", opt_value VStr (leaseExpiresAt r))
].
End WorkerLeaseHealth.
Notation WorkerLeaseHealth := WorkerLeaseHealth.WorkerLeaseHealth.

Module WorkerStatus.
Record WorkerStatus := mk {
  workerId : string;
  hostname : string;
  queues : list string;
  concurrency : num;
  status : string;
  startedAt : string;
  lastSeenAt : string;
  version : string
}.

Definition to_value (r : WorkerStatus) : jsval := VObj [
  ("workerId", VStr (workerId r));
  ("hostname", VStr (hostname r));
  ("queues", list_value VStr (queues r));
  ("concurrency", VNum (concurrency r));
  ("status", VStr (status r));
  ("startedAt", VStr (startedAt r));
  ("lastSeenAt", VStr (lastSeenAt r));
  ("version", VStr (version r))
].
End WorkerStatus.
Notation WorkerStatus := WorkerStatus.WorkerStatus.

Module RateLimitPolicy.
Record RateLimitPolicy := mk {
  id : string;
  name : string;
  scope : string;
  scopeValue : option string;
  mode : string;
  limit : num;
  windowSeconds : num;
  burst : num;
  enabled : bool;
  createdAt : string;
  updatedAt : string
}.

Definition to_value (r : RateLimitPolicy) : jsval := VObj [
  ("id", VStr (id r));
  ("name", VStr (name r));
  ("scope", VStr (scope r));
  ("scopeValue", opt_value VStr (scopeValue r));
  ("mode", VStr (mode r));
  ("limit", VNum (limit r));
  ("windowSeconds", VNum (windowSeconds r));
  ("burst", VNum (burst r));
  ("enabled", VBool (enabled r));
  ("createdAt", VStr (createdAt r));
  ("updatedAt", VStr (updatedAt r))
].
End RateLimitPolicy.
Notation RateLimitPolicy := RateLimitPolicy.RateLimitPolicy.

Module RateLimitStatus.
Record RateLimitStatus := mk {
  policy : RateLimitPolicy;
  activeCount : num;
  recentCount : num;
  throttled : bool
}.

Definition to_value (r : RateLimitStatus) : jsval := VObj [
  ("policy", RateLimitPolicy.to_value (policy r));
  ("activeCount", VNum (activeCount r));
  ("recentCount", VNum (recentCount r));
  ("throttled", VBool (throttled r))
].
End RateLimitStatus.
Notation RateLimitStatus := RateLimitStatus.RateLimitStatus.

Module SchedulerLeaderStatus.
Record SchedulerLeaderStatus := mk {
  schedulerId : option string;
  token : option string;
  isLeaderHealthy : option bool;
  acquiredAt : option string;
  lastHeartbeatAt : option string;
  leaseExpiresAt : option string
}.

Definition to_value (r : SchedulerLeaderStatus) : jsval := VObj [
  ("schedulerId", opt_value VStr (schedulerId r));
  ("token", opt_value VStr (token r));
  ("isLeaderHealthy", opt_value VBool (isLeaderHealthy r));
  ("acquiredAt", opt_value VStr (acquiredAt r));
  ("lastHeartbeatAt", opt_value VStr (lastHeartbeatAt r));
  ("leaseExpiresAt", opt_value VStr (leaseExpiresAt r))
].
End SchedulerLeaderStatus.
Notation SchedulerLeaderStatus := SchedulerLeaderStatus.SchedulerLeaderStatus.

Module Schedule.
Record Schedule := mk {
  id : string;
  name : string;
  cronExpression : string;
  queue : string;
  type : string;
  payload : jsval;
  priority : num;
  maxAttempts : num;
  timeoutSeconds : num;
  enabled : bool;
  timezone : string;
  nextRunAt : string;
  lastRunAt : option string;
  createdAt : string;
  updatedAt : string
}.

Definition to_value (r : Schedule) : jsval := VObj [
  ("id", VStr (id r));
  ("name", VStr (name r));
  ("cronExpression", VStr (cronExpression r));
  ("queue", VStr (queue r));
  ("type", VStr (type r));
  ("payload", payload r);
  ("priority", VNum (priority r));
  ("maxAttempts", VNum (maxAttempts r));
  ("timeoutSeconds", VNum (timeoutSeconds r));
  ("enabled", VBool (enabled r));
  ("timezone", VStr (timezone r));
  ("nextRunAt", VStr (nextRunAt r));
  ("lastRunAt", opt_value VStr (lastRunAt r));
  ("createdAt", VStr (createdAt r));
  ("updatedAt", VStr (updatedAt r))
].
End Schedule.
Notation Schedule := Schedule.Schedule.

Module SystemEvent.
Record SystemEvent := mk {
  kind : string;
  jobId : option string;
  queue : option string;
  workerId : option string;
  state : option JobState;
  message : option string;
  timestamp : string
}.

Definition to_value (r : SystemEvent) : jsval := VObj [
  ("kind", VStr (kind r));
  ("jobId", opt_value VStr (jobId r));
  ("queue", opt_value VStr (queue r));
  ("workerId", opt_value VStr (workerId r));
  ("state", opt_value (fun s => VStr (state_name s)) (state r));
  ("message", opt_value VStr (message r));
  ("timestamp", VStr (timestamp r))
].
End SystemEvent.
Notation SystemEvent := SystemEvent.SystemEvent.

Module Overview.
Record Overview := mk {
  totalJobs : num;
  queuedJobs : num;
  blockedJobs : num;
  throttledJobs : num;
  activeJobs : num;
  failedJobs : num;
  retryingJobs : num;
  completedJobs : num;
  scheduledJobs : num;
  canceledJobs : num;
  queueLengths : gmap string num;
  averageExecMs : num;
  lastUpdatedAt : string;
  activeWorkers : num;
  delayedBacklog : num
}.

Definition to_value (r : Overview) : jsval := VObj [
  ("totalJobs", VNum (totalJobs r));
  ("queuedJobs", VNum (queuedJobs r));
  ("blockedJobs", VNum (blockedJobs r));
  ("throttledJobs", VNum (throttledJobs r));
  ("activeJobs", VNum (activeJobs r));
  ("failedJobs", VNum (failedJobs r));
  ("retryingJobs", VNum (retryingJobs r));
  ("completedJobs", VNum (completedJobs r));
  ("scheduledJobs", VNum (scheduledJobs r));
  ("canceledJobs", VNum (canceledJobs r));
  ("queueLengths", map_value VNum (queueLengths r));
  ("averageExecMs", VNum (averageExecMs r));
  ("lastUpdatedAt", VStr (lastUpdatedAt r));
  ("activeWorkers", VNum (activeWorkers r));
  ("delayedBacklog", VNum (delayedBacklog r))
].
End Overview.
Notation Overview := Overview.Overview.

Module Metrics.
Record Metrics := mk {
  jobsPerSecond : num;
  retryRate : num;
  deadLetterRate : num;
  executionLatency : LatencySummary;
  queueLatency : LatencySummary;
  maxWorkerHeartbeatAgeMs : num
}.

Definition to_value (r : Metrics) : jsval := VObj [
  ("jobsPerSecond", VNum (jobsPerSecond r));
  ("retryRate", VNum (retryRate r));
  ("deadLetterRate", VNum (deadLetterRate r));
  ("executionLatency", LatencySummary.to_value (executionLatency r));
  ("queueLatency", LatencySummary.to_value (queueLatency r));
  ("maxWorkerHeartbeatAgeMs", VNum (maxWorkerHeartbeatAgeMs r))
].
End Metrics.
Notation Metrics := Metrics.Metrics.

Module Trend.
Record Trend := mk {
  throughput : list MetricsPoint;
  executionP95Ms : list MetricsPoint;
  queueLatencyP95Ms : list MetricsPoint;
  retryRate : list MetricsPoint;
  deadLetterRate : list MetricsPoint
}.

Definition to_value (r : Trend) : jsval := VObj [
  ("throughput", list_value MetricsPoint.to_value (throughput r));
  ("executionP95Ms", list_value MetricsPoint.to_value (executionP95Ms r));
  ("queueLatencyP95Ms", list_value MetricsPoint.to_value (queueLatencyP95Ms r));
  ("retryRate", list_value MetricsPoint.to_value (retryRate r));
  ("deadLetterRate", list_value MetricsPoint.to_value (deadLetterRate r))
].
End Trend.
Notation Trend := Trend.Trend.

Module DashboardSnapshot.
Record DashboardSnapshot := mk {
  overview : Overview;
  metrics : Metrics;
  trend : Trend;
  workers : list WorkerLeaseHealth;
  deadLetters : list DeadLetter;
  blockedJobs : list Job;
  throttledJobs : list Job;
  rateLimits : list RateLimitStatus;
  leader : SchedulerLeaderStatus
}.

Definition to_value (r : DashboardSnapshot) : jsval := VObj [
  ("overview", Overview.to_value (overview r));
  ("metrics", Metrics.to_value (metrics r));
  ("trend", Trend.to_value (trend r));
  ("workers", list_value WorkerLeaseHealth.to_value (workers r));
  ("deadLetters", list_value DeadLetter.to_value (deadLetters r));
  ("blockedJobs", list_value Job.to_value (blockedJobs r));
  ("throttledJobs", list_value Job.to_value (throttledJobs r));
  ("rateLimits", list_value RateLimitStatus.to_value (rateLimits r));
  ("leader", SchedulerLeaderStatus.to_value (leader r))
].
End DashboardSnapshot.
Notation DashboardSnapshot := DashboardSnapshot.DashboardSnapshot.

Module JobInspection.
Record JobInspection := mk {
  job : Job;
  attempts : list JobAttempt;
  events : list JobEvent;
  graph : DependencyGraph;
  idempotency : option IdempotencyRecord;
  deadLetter : option DeadLetter
}.

Definition to_value (r : JobInspection) : jsval := VObj [
  ("job", Job.to_value (job r));
  ("attempts", list_value JobAttempt.to_value (attempts r));
  ("events", list_value JobEvent.to_value (events r));
  ("graph", DependencyGraph.to_value (graph r));
  ("idempotency", null_value IdempotencyRecord.to_value (idempotency r));
  ("deadLetter", null_value DeadLetter.to_value (deadLetter r))
].
End JobInspection.
Notation JobInspection := JobInspection.JobInspection.

Module QueueControl.
Record QueueControl := mk {
  paused : bool;
  draining : bool;
  scope : ControlScope;
  updatedAt : string
}.
End QueueControl.
Notation QueueControl := QueueControl.QueueControl.

Module WorkerControl.
Record WorkerControl := mk {
  cordoned : bool;
  scope : ControlScope;
  updatedAt : string
}.
End WorkerControl.
Notation WorkerControl := WorkerControl.WorkerControl.

Module ConsoleData.
Record ConsoleData := mk {
  snapshot : DashboardSnapshot;
  jobs : list Job;
  schedules : list Schedule;
  events : list SystemEvent;
  workerStatuses : list WorkerStatus;
  inspections : gmap string JobInspection;
  queueControls : gmap string QueueControl;
  workerControls : gmap string WorkerControl;
  lastHydratedAt : string;
  source : DataSource
}.
End ConsoleData.
Notation ConsoleData := ConsoleData.ConsoleData.

Module Toast.
Record Toast := mk {
  id : string;
  title : string;
  description : option string;
  tone : ToastTone
}.
End Toast.
Notation Toast := Toast.Toast.

Module JobDraft.
Record JobDraft := mk {
  type : string;
  queue : string;
  tenantId : string;
  priority : string;
  maxAttempts : string;
  timeoutSeconds : string;
  delaySeconds : string;
  scheduledAt : string;
  workflowId : string;
  dependencies : string;
  idempotencyKey : string;
  dedupeWindowSeconds : string;
  payload : string
}.
End JobDraft.
Notation JobDraft := JobDraft.JobDraft.

Module ScheduleDraft.
Record ScheduleDraft := mk {
  name : string;
  cronExpression : string;
  queue : string;
  type : string;
  priority : string;
  maxAttempts : string;
  timeoutSeconds : string;
  timezone : string;
  enabled : bool;
  payload : string
}.
End ScheduleDraft.
Notation ScheduleDraft := ScheduleDraft.ScheduleDraft.

(** * Lemmas *)

Lemma state_of_state_name s :
  state_name (state_of_name s) = s.
Proof.
  unfold state_of_name. destruct (List.find _ _) as [st|] eqn:E; [| done].
  apply List.find_some in E as [_ E]. by apply String.eqb_eq in E.
Qed.

Lemma state_eqb_refl s : state_eqb s s = true.
Proof. apply String.eqb_refl. Qed.
