(* ===== verification/ApiRoutes.v ===== *)
(** [src/lib/api-routes.ts]: the route contract between dashboard and API. *)

From stdpp Require Import base list strings.
From Stdlib Require Import ZArith.
From S2P Require Import Prelude JsString.

Definition API_V1_PREFIX : string := "/api/v1".

Module API_ROUTES.
Definition dashboardSnapshot : string := API_V1_PREFIX +:+ "/dashboard".
Definition jobs : string := API_V1_PREFIX +:+ "/jobs".
Definition workers : string := API_V1_PREFIX +:+ "/workers".
Definition schedules : string := API_V1_PREFIX +:+ "/schedules".
Definition deadLettersReplay : string := API_V1_PREFIX +:+ "/dlq/replay".
Definition deadLettersDelete : string := API_V1_PREFIX +:+ "/dlq/delete".
Definition workflowDemoThumbnail : string := API_V1_PREFIX +:+ "/workflows/demo/thumbnail".
Definition jobRetry (jobId : string) : string := API_V1_PREFIX +:+ "/jobs/" +:+ jobId +:+ "/retry".
Definition jobCancel (jobId : string) : string := API_V1_PREFIX +:+ "/jobs/" +:+ jobId +:+ "/cancel".
Definition jobInspection (jobId : string) : string :=
  API_V1_PREFIX +:+ "/jobs/" +:+ jobId +:+ "/inspection".
Definition jobsWithLimit (limit : Z) : string := API_V1_PREFIX +:+ "/jobs?limit=" +:+ dec limit.
End API_ROUTES.

Module REALTIME_ROUTES.
Definition websocket : string := "/ws/events".
Definition sse : string := "/sse/events".
End REALTIME_ROUTES.
