(* ===== verification/Safe.v ===== *)
(** [src/lib/safe.ts]: coercions, storage, URLs, formatting, and the jobs and
    inspections the console builds locally. *)

From stdpp Require Import base list strings gmap sorting.
From Stdlib Require Import ZArith Lia Bool Ascii.
From S2P Require Import Prelude JsString JsNum JsDate JsSort JsValue Models ApiRoutes.

#[local] Open Scope js_scope.

(** * Constants *)

Definition QUEUES : list string := ["critical"; "default"; "low"].

Definition JOB_TYPES : list string :=
  ["email.send"; "report.generate"; "cleanup.run"; "webhook.dispatch"; "file.ingest";
   "image.thumbnail"; "metadata.aggregate"; "user.notify"].

Definition TABS : list (TabKey * string) :=
  [(tab_overview, "Overview"); (tab_jobs, "Jobs"); (tab_queues, "Queues");
   (tab_workers, "Workers"); (tab_schedules, "Schedules"); (tab_dead_letter, "Dead Letter");
   (tab_workflows, "Workflows"); (tab_metrics, "Metrics"); (tab_events, "Events")].

Module STORAGE_KEYS.
Definition baseUrl := "jobsystem.baseUrl".
Definition token := "jobsystem.token".
Definition liveMode := "jobsystem.liveMode".
Definition liveUpdates := "jobsystem.liveUpdates".
Definition pollIntervalMs := "jobsystem.pollIntervalMs".
Definition environment := "jobsystem.environment".
End STORAGE_KEYS.

(** * Coercions *)

Definition asString (value : jsval) (fallback : string) : string :=
  match value with
  | VStr s => s
  | VNull | VUndefined => fallback
  | _ => to_js_string value
  end.

Definition safeTrim (value : jsval) : string := trim (asString value "").

Definition safeIncludes (value : jsval) (expected : string) : bool :=
  includes (safeTrim value) expected.

Definition safeStartsWith (value : jsval) (prefix : string) : bool :=
  starts_with prefix (safeTrim value).

Definition asNumber (value : jsval) (fallback : num) : num :=
  let parsed := to_js_number value in
  if is_finite parsed then parsed else fallback.

Definition clamp (value min max : num) : num := num_min (num_max value min) max.

(** * Local storage *)

(** [window] may be missing; storage may refuse every access; a write may
    fail on its own (quota). *)
Inductive storage :=
  | NoWindow
  | Blocked
  | Store (items : gmap string string) (full : bool).

Definition readStoredValue (st : storage) (key fallback : string) : string :=
  match st with
  | Store items _ => or_else (trim (opt_default (items !! key) "")) fallback
  | NoWindow | Blocked => fallback
  end.

Definition clearStoredValue (st : storage) (key : string) : storage :=
  match st with
  | Store items full => Store (delete key items) full
  | NoWindow | Blocked => st
  end.

Definition writeStoredValue (st : storage) (key : string) (value : jsval) : storage :=
  match st with
  | Store items full =>
      let next := asString value "" in
      if truthy next then (if full then st else Store (<[key := next]> items) full)
      else Store (delete key items) full
  | NoWindow | Blocked => st
  end.

(** * URL paths *)

Definition is_slash (c : ascii) : bool := Ascii.eqb "/" c.

(** [s.replace(/\/+$/, "")] and [s.replace(/^\/+/, "")] *)
Definition strip_trailing_slashes (s : string) : string :=
  of_chars (drop_while_end is_slash (chars s)).
Definition strip_leading_slashes (s : string) : string :=
  of_chars (drop_while is_slash (chars s)).

(** [s.replace(/\/$/, "")] *)
Definition strip_one_slash (s : string) : string :=
  match rev (chars s) with
  | c :: l => if is_slash c then of_chars (rev l) else s
  | [] => s
  end.

Definition normalizeUrlPathname (pathname : string) : string :=
  if negb (truthy pathname) || String.eqb pathname "/" then "/"
  else
    let trimmed := strip_trailing_slashes pathname in
    if starts_with "/" trimmed then trimmed else "/" +:+ trimmed.

Record UrlPath := { pathname : string; search : string }.

Definition splitUrlPath (path : string) : UrlPath :=
  let raw := trim path in
  if negb (truthy raw) then {| pathname := "/"; search := "" |}
  else
    let pathWithoutHash :=
      match index_of "#" (chars raw) with
      | Some hashIndex => slice_to hashIndex raw
      | None => raw
      end in
    match index_of "?" (chars pathWithoutHash) with
    | None => {| pathname := pathWithoutHash; search := "" |}
    | Some searchIndex =>
        {| pathname := or_else (slice_to searchIndex pathWithoutHash) "/";
           search := slice_from searchIndex pathWithoutHash |}
    end.

(** [s.split("/").filter(Boolean)] *)
Definition segments (s : string) : list string := List.filter truthy (split_char "/" s).

(** The [while] loop of [joinUrlPath]: the next path loses its first segments
    while they repeat the last base segment. *)
Fixpoint drop_repeated (last : option string) (next : list string) : list string :=
  match last, next with
  | Some b, n :: next' => if String.eqb b n then drop_repeated last next' else next
  | _, _ => next
  end.

Definition path_of (segs : list string) : string :=
  match segs with [] => "/" | _ => "/" +:+ join "/" segs end.

Definition joinUrlPath (basePath nextPath : string) : string :=
  let baseSegments := segments (strip_leading_slashes (normalizeUrlPathname basePath)) in
  let nextSegments := segments (strip_leading_slashes (trim nextPath)) in
  match nextSegments with
  | [] => path_of baseSegments
  | _ => path_of (baseSegments ++ drop_repeated (last_of baseSegments) nextSegments)
  end.

(** * URLs *)

(** The browser's [URL] class: parsing, the attributes the code reads and
    writes, and serialisation. *)
Class UrlApi := {
  URL : Type;
  url_new : string -> option URL;
  url_protocol : URL -> string;
  url_set_protocol : string -> URL -> URL;
  url_pathname : URL -> string;
  url_set_pathname : string -> URL -> URL;
  url_set_search : string -> URL -> URL;
  url_set_hash : string -> URL -> URL;
  url_params_set : string -> string -> URL -> URL;
  url_href : URL -> string
}.

Inductive StreamProtocol := protocol_http | protocol_ws.

Section Urls.
Context `{UrlApi}.

Definition normalizeBaseUrl (value : jsval) : option string :=
  let raw := safeTrim value in
  if negb (truthy raw) then None
  else
    parsed ← url_new raw;
    let parsed :=
      if String.eqb (url_protocol parsed) "ws:" then url_set_protocol "http:" parsed else parsed in
    let parsed :=
      if String.eqb (url_protocol parsed) "wss:" then url_set_protocol "https:" parsed else parsed in
    if negb (existsb (String.eqb (url_protocol parsed)) ["http:"; "https:"]) then None
    else
      let parsed := url_set_hash "" parsed in
      let parsed := url_set_search "" parsed in
      let parsed := url_set_pathname (normalizeUrlPathname (url_pathname parsed)) parsed in
      Some (strip_one_slash (url_href parsed)).

Definition buildApiUrl (baseUrl : option string) (path : string) : option string :=
  if negb (opt_truthy baseUrl) then None
  else
    parsed ← url_new (opt_default baseUrl "");
    let nextPath := splitUrlPath path in
    let parsed := url_set_pathname (joinUrlPath (url_pathname parsed) (pathname nextPath)) parsed in
    let parsed := url_set_search (search nextPath) parsed in
    Some (url_href (url_set_hash "" parsed)).

Definition buildStreamUrl (baseUrl : option string) (path : string)
    (token : option string) (protocol : option StreamProtocol) : option string :=
  if negb (opt_truthy baseUrl) then None
  else
    parsed ← url_new (opt_default baseUrl "");
    let nextPath := splitUrlPath path in
    let parsed :=
      match protocol with
      | Some protocol_ws =>
          url_set_protocol (if String.eqb (url_protocol parsed) "https:" then "wss:" else "ws:") parsed
      | _ => parsed
      end in
    let parsed := url_set_pathname (joinUrlPath (url_pathname parsed) (pathname nextPath)) parsed in
    let parsed := url_set_search (search nextPath) parsed in
    let parsed := url_set_hash "" parsed in
    let trimmedToken := trim (opt_default token "") in
    let parsed := if truthy trimmedToken then url_params_set "token" trimmedToken parsed else parsed in
    Some (url_href parsed).

Definition buildSocketUrl (baseUrl : option string) (token : string) : option string :=
  buildStreamUrl baseUrl REALTIME_ROUTES.websocket (Some token) (Some protocol_ws).
End Urls.

(** * JSON *)

(** [{ value, error }]: [value] is null when there is no value. *)
Record JsonResult := { json_value : option jsval; json_error : string }.

(** The message of a [SyntaxError] is the engine's. *)
Class JsonHost := { syntax_error_message : string -> string }.

Definition safeJsonParse `{JsonHost} (input : jsval) : JsonResult :=
  let raw := safeTrim input in
  if negb (truthy raw) then {| json_value := None; json_error := "" |}
  else
    match json_parse raw with
    | Some v => {| json_value := Some v; json_error := "" |}
    | None => {| json_value := None; json_error := syntax_error_message raw |}
    end.

(** [value ?? {}] *)
Definition or_empty_object (value : jsval) : jsval :=
  match value with VUndefined | VNull => VObj [] | v => v end.

Definition stringifyJson (value : jsval) : option string := json_stringify2 (or_empty_object value).

(** * Formatting *)

(** The locale-dependent renderings are the browser's. *)
Class LocaleHost := {
  to_locale_string : Z -> string;
  to_locale_time_string : Z -> string
}.

Section Dates.
Context `{DateHost}.

Definition formatDateTime `{LocaleHost} (value : option string) : string :=
  let raw := trim (opt_default value "") in
  if negb (truthy raw) then "n/a"
  else match date_parse raw with None => "n/a" | Some t => to_locale_string t end.

Definition formatTime `{LocaleHost} (value : option string) : string :=
  let raw := trim (opt_default value "") in
  if negb (truthy raw) then "n/a"
  else match date_parse raw with None => "n/a" | Some t => to_locale_time_string t end.

(** [Math.round((timestamp - now) / 1000)] on integers. *)
Definition round_seconds (ms : Z) : Z := (2 * ms + 1000) / 2000.

Definition formatRelative (now : Z) (value : option string) : string :=
  let raw := trim (opt_default value "") in
  if negb (truthy raw) then "n/a"
  else
    match date_parse raw with
    | None => "n/a"
    | Some timestamp =>
        let deltaSeconds := round_seconds (timestamp - now) in
        if (Z.abs deltaSeconds <? 1)%Z then "now"
        else if (0 <? deltaSeconds)%Z then "in " +:+ dec deltaSeconds +:+ "s"
        else dec (Z.abs deltaSeconds) +:+ "s ago"
    end.
End Dates.

Definition formatPercent (value : num) : string :=
  to_fixed (if num_ge value (num_of_Z 10) then 1 else 2) value +:+ "%".

Definition formatLatency (value : num) : string :=
  if num_ge value (num_of_Z 1000)
  then to_fixed 1 (num_div value (num_of_Z 1000)) +:+ "s"
  else num_to_string (num_round value) +:+ "ms".

Definition formatRate (value : num) (unit : string) : string :=
  to_fixed (if num_ge value (num_of_Z 10) then 1 else 2) value +:+ unit.

Definition payloadPreview (value : jsval) : string :=
  match value with
  | VStr s => slice_to 120 s
  | VArr l => dec (Z.of_nat (length l)) +:+ " items"
  | VObj fs => join ", " (take 4 (own_props fs).*1)
  | _ => asString value "empty payload"
  end.

(** * Errors *)

(** A thrown or reported value: a string, an [Error], or anything else. *)
Inductive thrown :=
  | ThrownString (s : string)
  | ThrownError (name message : string)
  | ThrownOther (v : jsval).

Definition formatRequestError (error : thrown) : string :=
  match error with
  | ThrownError _ message => message
  | _ => "Request failed"
  end.

Definition knownExtensionMarkers : list string :=
  ["bootstrap-autofill"; "chrome-extension://"; "moz-extension://"; "safari-web-extension://";
   "bitwarden"; "lastpass"; "1password"; "proxyrelay"; "receiving end does not exist";
   "could not establish connection"; "message port closed"; "runtime.lasterror"; "autofill";
   "password manager"].

(** [error?.message] *)
Definition optional_message (v : jsval) : jsval :=
  match v with VObj fs => get_prop fs "message" | _ => VUndefined end.

Definition looksLikeAutofillError (error : thrown) : bool :=
  let message :=
    match error with
    | ThrownString s => s
    | ThrownError name message => name +:+ " " +:+ message
    | ThrownOther v => asString (optional_message v) ""
    end in
  let normalized := to_lower (trim message) in
  existsb (includes normalized) knownExtensionMarkers ||
  (includes normalized "password" && includes normalized "extension").

Definition friendlyInlineError (field error : string) : string :=
  if String.eqb field "payload" then "Payload JSON is invalid: " +:+ error
  else if String.eqb field "cronExpression" then
    "Cron expressions require five space-separated fields."
  else if String.eqb field "scheduledAt" then "Provide a valid future timestamp."
  else error.

(** Attributes that keep password managers away from an input. *)
Definition autofillGuardProps : list (string * string) :=
  [("autoComplete", "off"); ("data-bwignore", "true"); ("data-lpignore", "true");
   ("data-1p-ignore", "true")].

Definition credentialGuardProps : list (string * string) :=
  autofillGuardProps ++ [("data-form-type", "other")].

(** The number is written by the browser's [Intl.NumberFormat]. *)
Class IntlHost := { format_compact : num -> string }.

Definition formatCompact `{IntlHost} (value : num) : string := format_compact value.

(** [randomUUID] is what the browser's [crypto] draws, where it has one. *)
Definition createToastId (randomUUID : option string) (now : Z) (random : num) : string :=
  match randomUUID with
  | Some id => id
  | None => dec now +:+ "-" +:+ num_to_string (num_round (num_mul random (num_of_Z 100000)))
  end.

(** * Events and jobs built by the console *)

(** [Partial<SystemEvent>]: the properties a caller passes. *)
Record PartialEvent := {
  p_kind : option string;
  p_jobId : option string;
  p_queue : option string;
  p_workerId : option string;
  p_state : option JobState;
  p_message : option string;
  p_timestamp : option string
}.

(** [{ kind, timestamp: now, ...payload }]: the payload wins. *)
Definition makeSystemEvent (now : Z) (kind : string) (payload : PartialEvent) : SystemEvent :=
  {| SystemEvent.kind := opt_default (p_kind payload) kind;
     SystemEvent.jobId := p_jobId payload;
     SystemEvent.queue := p_queue payload;
     SystemEvent.workerId := p_workerId payload;
     SystemEvent.state := p_state payload;
     SystemEvent.message := p_message payload;
     SystemEvent.timestamp := opt_default (p_timestamp payload) (iso_of_time now) |}.

Definition is_dependency_separator (c : ascii) : bool := is_space c || Ascii.eqb "," c.

Definition parseDependencyIds (value : jsval) : list string :=
  List.filter truthy
    (List.map trim
      (List.map of_chars (split_runs is_dependency_separator (chars (safeTrim value))))).

(** The run time of a drafted job: the scheduled time when it is a date, moved
    to [now + delay] when there is a positive delay. *)
Definition draft_run_at `{DateHost} (now : Z) (draft : JobDraft) : option Z :=
  let scheduledAt := trim (JobDraft.scheduledAt draft) in
  let delaySeconds := asNumber (VStr (JobDraft.delaySeconds draft)) (num_of_Z 0) in
  let runAt :=
    if truthy scheduledAt
    then match date_parse scheduledAt with Some parsed => Some parsed | None => Some now end
    else Some now in
  if num_gt delaySeconds (num_of_Z 0)
  then time_of_num (num_add (num_of_Z now) (num_mul delaySeconds (num_of_Z 1000)))
  else runAt.

(** [now] is the clock reading, [id] what [createToastId] returns. *)
Definition createJobFromDraft `{DateHost} (now : Z) (id : string) (draft : JobDraft)
    (payload : jsval) : result Job :=
  let runAt := draft_run_at now draft in
  let dependencies := parseDependencyIds (VStr (JobDraft.dependencies draft)) in
  let blocked_job := negb (Nat.eqb (length dependencies) 0) in
  let state :=
    if blocked_job then blocked
    else match runAt with
         | Some t => if (now <? t)%Z then scheduled else queued
         | None => queued
         end in
  let field (f : JobDraft -> string) := VStr (f draft) in
  let! runAtText := to_iso_string runAt in
  Ok {| Job.id := id;
        Job.type := or_else (trim (JobDraft.type draft)) "email.send";
        Job.queue := or_else (trim (JobDraft.queue draft)) "default";
        Job.tenantId := or_else (trim (JobDraft.tenantId draft)) "default";
        Job.payload := payload;
        Job.priority :=
          clamp (asNumber (field JobDraft.priority) (num_of_Z 5)) (num_of_Z 0) (num_of_Z 9);
        Job.attempts := num_of_Z 0;
        Job.maxAttempts :=
          num_max (asNumber (field JobDraft.maxAttempts) (num_of_Z 5)) (num_of_Z 1);
        Job.state := state;
        Job.schemaVersion := num_of_Z 1;
        Job.idempotencyKey := Some (trim (JobDraft.idempotencyKey draft));
        Job.workflowId := Some (trim (JobDraft.workflowId draft));
        Job.parentJobId := None;
        Job.dependencyPolicy := Some (if blocked_job then "block" else "");
        Job.blockedReason :=
          Some (if blocked_job
                then "waiting on " +:+ dec (Z.of_nat (length dependencies)) +:+ " dependencies"
                else "");
        Job.createdAt := iso_of_time now;
        Job.updatedAt := iso_of_time now;
        Job.runAt := runAtText;
        Job.startedAt := None;
        Job.finishedAt := None;
        Job.lastHeartbeatAt := None;
        Job.leaseExpiresAt := None;
        Job.throttleUntil := None;
        Job.lastError := None;
        Job.result := VUndefined;
        Job.workerId := None;
        Job.leaseToken := None;
        Job.timeoutSeconds :=
          num_max (asNumber (field JobDraft.timeoutSeconds) (num_of_Z 60)) (num_of_Z 0);
        Job.cancelRequested := false;
        Job.executionMs := num_of_Z 0 |}.

(** ** Inspection fallback *)

Definition timeline_event (jobId type message occurredAt : string) : JobEvent :=
  {| JobEvent.jobId := jobId; JobEvent.type := type; JobEvent.message := message;
     JobEvent.metadata := VUndefined; JobEvent.occurredAt := occurredAt |}.

(** Newest first. *)
Definition occurred `{DateHost} (event : JobEvent) : option Z :=
  date_parse (JobEvent.occurredAt event).
Definition compare_occurred `{DateHost} : JobEvent -> JobEvent -> comparison :=
  newest_first occurred.

(** The events before sorting, in the order they are pushed. *)
Definition synthetic_events (job : Job) : list JobEvent :=
  let event := timeline_event (Job.id job) in
  [event "job.enqueued" ("job accepted into " +:+ Job.queue job) (Job.createdAt job)] ++
  (if opt_truthy (Job.startedAt job) then
     [event "job.started"
        (if opt_truthy (Job.workerId job)
         then "lease claimed by " +:+ opt_default (Job.workerId job) ""
         else "worker started job")
        (opt_default (Job.startedAt job) "")]
   else []) ++
  (if opt_truthy (Job.finishedAt job) && state_eqb (Job.state job) completed then
     [event "job.completed" "job completed successfully" (opt_default (Job.finishedAt job) "")]
   else []) ++
  (if opt_truthy (Job.finishedAt job) && state_eqb (Job.state job) failed then
     [event "job.failed" (opt_or_else (Job.lastError job) "job failed")
        (opt_default (Job.finishedAt job) "")]
   else []) ++
  (if state_eqb (Job.state job) blocked then
     [event "job.blocked" (opt_or_else (Job.blockedReason job) "waiting on dependencies")
        (Job.updatedAt job)]
   else []).

Definition buildSyntheticTimeline `{DateHost} (job : Job) : list JobEvent :=
  sort_by compare_occurred (synthetic_events job).

(** [candidate.workflowId && candidate.workflowId === job.workflowId] *)
Definition same_workflow (job candidate : Job) : bool :=
  match Job.workflowId candidate, Job.workflowId job with
  | Some w, Some w' => truthy w && String.eqb w w'
  | _, _ => false
  end.

Definition fallback_node (candidate : Job) : DependencyNode :=
  {| DependencyNode.jobId := Job.id candidate;
     DependencyNode.type := Job.type candidate;
     DependencyNode.state := Job.state candidate;
     DependencyNode.queue := Job.queue candidate;
     DependencyNode.parentJobId := Job.parentJobId candidate;
     DependencyNode.workflowId := Job.workflowId candidate;
     DependencyNode.blockedReason := Job.blockedReason candidate;
     DependencyNode.dependencyPolicy := None;
     DependencyNode.dependsOn := Some [];
     DependencyNode.dependents := Some [] |}.

Definition single_node (job : Job) : DependencyNode :=
  {| DependencyNode.jobId := Job.id job;
     DependencyNode.type := Job.type job;
     DependencyNode.state := Job.state job;
     DependencyNode.queue := Job.queue job;
     DependencyNode.parentJobId := None;
     DependencyNode.workflowId := None;
     DependencyNode.blockedReason := None;
     DependencyNode.dependencyPolicy := None;
     DependencyNode.dependsOn := None;
     DependencyNode.dependents := None |}.

(** Fifteen minutes after the job was created. *)
Definition fallback_expiry `{DateHost} (job : Job) : option Z :=
  time_add (date_parse (Job.createdAt job)) (15 * 60 * 1000).

Definition fallback_idempotency `{DateHost} (job : Job) : result (option IdempotencyRecord) :=
  if opt_truthy (Job.idempotencyKey job) then
    let key := opt_default (Job.idempotencyKey job) "" in
    let! expiresAt := to_iso_string (fallback_expiry job) in
    Ok (Some
      {| IdempotencyRecord.scope := Job.tenantId job +:+ ":" +:+ Job.type job +:+ ":" +:+ key;
         IdempotencyRecord.tenantId := Job.tenantId job;
         IdempotencyRecord.jobType := Job.type job;
         IdempotencyRecord.idempotencyKey := key;
         IdempotencyRecord.jobId := Job.id job;
         IdempotencyRecord.status :=
           if state_eqb (Job.state job) completed then "completed" else "accepted";
         IdempotencyRecord.outcome := VUndefined;
         IdempotencyRecord.firstSeenAt := Job.createdAt job;
         IdempotencyRecord.updatedAt := Job.updatedAt job;
         IdempotencyRecord.expiresAt := expiresAt |})
  else Ok None.

Definition createInspectionFallback `{DateHost} (job : Job) (jobs : list Job)
  : result JobInspection :=
  let events := buildSyntheticTimeline job in
  let graphNodes := List.map fallback_node (List.filter (same_workflow job) jobs) in
  let! idempotency := fallback_idempotency job in
  Ok {| JobInspection.job := job;
        JobInspection.attempts := [];
        JobInspection.events := events;
        JobInspection.graph :=
          {| DependencyGraph.rootJobId := Job.id job;
             DependencyGraph.nodes :=
               match graphNodes with [] => [single_node job] | _ => graphNodes end |};
        JobInspection.idempotency := idempotency;
        JobInspection.deadLetter := None |}.

(** * Views *)

Definition seriesValue (series : list MetricsPoint) : num :=
  match last_of series with
  | Some latest => MetricsPoint.value latest
  | None => num_of_Z 0
  end.

(** [ToastTone | "neutral"] *)
Inductive PillTone := pill_neutral | pill (t : ToastTone).

Definition statusTone (value : option string) : PillTone :=
  let normalized := to_lower (trim (opt_default value "")) in
  let among := existsb (String.eqb normalized) in
  if negb (truthy normalized) then pill_neutral
  else if among ["completed"; "healthy"; "open"; "leader healthy"; "enabled"; "live";
                 "websocket"; "sse"] then pill tone_success
  else if among ["failed"; "canceled"; "closed"; "stale"; "offline"] then pill tone_danger
  else if among ["blocked"; "throttled"; "active"; "draining"; "polling"; "retrying";
                 "degraded"; "reconnecting"; "paused"] then pill tone_warning
  else if among ["connecting"] then pill tone_info
  else pill tone_info.

(** * Lemmas *)

(** ** Coercions *)

Lemma asNumber_not_nan v d : is_nan d = false -> is_nan (asNumber v d) = false.
Proof. intros Hd. unfold asNumber. destruct (is_finite _) eqn:E; [| done]. by apply finite_not_nan. Qed.

Lemma num_le_trans_min v lo hi :
  is_nan v = false -> num_le lo hi = true -> num_le lo v = true -> num_le lo (num_min v hi) = true.
Proof.
  intros Hv Hlh Hlv.
  assert (is_nan hi = false) as Hh
    by (apply le_compare in Hlh as [E | E]; by apply compare_not_nan in E as [? ?]).
  apply le_compare. destruct (num_min_cases v hi Hv Hh lo) as [-> | ->]; by apply le_compare.
Qed.

Lemma clamp_between v lo hi :
  is_nan v = false -> num_le lo hi = true ->
  num_le lo (clamp v lo hi) = true /\ num_le (clamp v lo hi) hi = true.
Proof.
  intros Hv Hlh.
  assert (is_nan lo = false /\ is_nan hi = false) as [Hl Hh]
    by (apply le_compare in Hlh as [E | E]; by apply compare_not_nan in E as [? ?]).
  pose proof (num_max_not_nan v lo Hv Hl). unfold clamp. split.
  - apply num_le_trans_min; [done | done |]. by apply num_max_ge_r.
  - by apply num_min_le_r.
Qed.

(** ** Dependency lists *)

Lemma dependency_words (l : list ascii) :
  List.filter truthy (List.map trim (List.map of_chars (split_runs is_dependency_separator l)))
  = List.map of_chars (words is_dependency_separator l).
Proof.
  rewrite <- split_runs_words.
  assert (Forall (Forall (fun c => is_dependency_separator c = false))
            (split_runs is_dependency_separator l)) as H by apply split_runs_no_sep.
  induction H as [|w ws Hw _ IH]; [done |]. cbn [List.map List.filter].
  rewrite trim_no_space.
  2:{ rewrite chars_of_chars. eapply Forall_impl; [exact Hw |].
      intros c [? _]%orb_false_iff. done. }
  destruct w; cbn; congruence.
Qed.

Lemma parse_dependencies s :
  parseDependencyIds (VStr s) = List.map of_chars (words is_dependency_separator (chars s)).
Proof.
  unfold parseDependencyIds. rewrite dependency_words. unfold safeTrim, trim. cbn [asString].
  rewrite chars_of_chars, words_drop_while_end, words_drop_while; [done | |];
    intros c Hc; unfold is_dependency_separator; by rewrite Hc.
Qed.

(** ** URL paths *)

Lemma segments_words s : segments s = List.map of_chars (words is_slash (chars s)).
Proof.
  unfold segments, split_char, words. change (Ascii.eqb "/") with is_slash.
  induction (split_at is_slash (chars s)) as [|w l IH]; [done |]. cbn.
  destruct w; cbn; [done |]. f_equal. exact IH.
Qed.

Lemma segments_strip_leading s : segments (strip_leading_slashes s) = segments s.
Proof.
  rewrite !segments_words. unfold strip_leading_slashes.
  by rewrite chars_of_chars, words_drop_while.
Qed.

Lemma segments_strip_trailing s : segments (strip_trailing_slashes s) = segments s.
Proof.
  rewrite !segments_words. unfold strip_trailing_slashes.
  by rewrite chars_of_chars, words_drop_while_end.
Qed.

Lemma segments_add_slash s : segments ("/" +:+ s) = segments s.
Proof. rewrite !segments_words, chars_app. cbn [chars app]. by rewrite words_sep. Qed.

Lemma segments_normalize p : segments (normalizeUrlPathname p) = segments p.
Proof.
  unfold normalizeUrlPathname. destruct (negb (truthy p)) eqn:E1; cbn [orb].
  { prop_bools. by apply truthy_false in E1 as ->. }
  destruct (String.eqb_spec p "/") as [-> |]; [done |].
  destruct (starts_with _ _); rewrite ?segments_add_slash; apply segments_strip_trailing.
Qed.

Definition proper_segment (s : string) : Prop :=
  s <> "" /\ Forall (fun c => is_slash c = false) (chars s).

Lemma segments_proper s : Forall proper_segment (segments s).
Proof.
  rewrite segments_words. apply Forall_map. eapply Forall_impl; [apply words_no_sep |].
  intros w [Hw Hn]. split; cbn; [by destruct w | by rewrite chars_of_chars].
Qed.

Lemma segments_path_of segs : Forall proper_segment segs -> segments (path_of segs) = segs.
Proof.
  intros H. destruct segs as [|x l]; [done |]. unfold path_of.
  rewrite segments_add_slash, segments_words, words_join; [| done | by repeat constructor | done].
  rewrite List.map_map. transitivity (List.map (fun s => s) (x :: l)); [| apply List.map_id].
  apply List.map_ext, of_chars_chars.
Qed.

Lemma drop_repeated_suffix last next : exists k, next = k ++ drop_repeated last next.
Proof.
  destruct last as [b|]; [| exists []; by destruct next]. induction next as [|n next [k Hk]]; [by exists [] |].
  cbn. destruct (String.eqb b n); [exists (n :: k); cbn; by rewrite <- Hk | by exists []].
Qed.

Lemma drop_repeated_proper last next :
  Forall proper_segment next -> Forall proper_segment (drop_repeated last next).
Proof.
  intros H. destruct (drop_repeated_suffix last next) as [k Hk].
  rewrite Hk in H. by apply Forall_app in H as [_ ?].
Qed.

(** ** Drafted jobs *)

#[local] Open Scope Z_scope.

Section Drafts.
Context `{DateHost}.

Lemma draft_run_at_range now draft t :
  - max_time <= now <= max_time -> draft_run_at now draft = Some t ->
  - max_time <= t <= max_time.
Proof.
  intros Hn. unfold draft_run_at. destruct (num_gt _ _); [apply time_of_num_range |].
  destruct (truthy _); [| by intros [= <-]].
  destruct (date_parse _) eqn:E; intros [= <-]; [by eapply date_parse_range | done].
Qed.
End Drafts.

(** ** Timelines *)

(** The dates a timeline is sorted by are those of its events. *)
Definition dated `{DateHost} (e : JobEvent) : Prop := is_Some (occurred e).

(** [newer e1 e2]: [e1] did not happen before [e2]. *)
Definition newer `{DateHost} (e1 e2 : JobEvent) : Prop :=
  match occurred e1, occurred e2 with
  | Some t1, Some t2 => t2 <= t1
  | _, _ => False
  end.

Lemma StronglySorted_Forall_impl {A} (R S : A -> A -> Prop) (P : A -> Prop) l :
  (forall x y, P x -> P y -> R x y -> S x y) ->
  Forall P l -> StronglySorted R l -> StronglySorted S l.
Proof.
  intros HRS HP Hs. induction Hs as [|x l Hs IH Hx]; [constructor |].
  inv HP. constructor; [auto |]. rewrite List.Forall_forall in *. eauto.
Qed.

(** * Properties *)

(** C16: a job drafted in the console is well formed whatever the form fields
    hold: the dates it carries read back as the clock and as the run time, it is
    blocked exactly when it has dependencies and scheduled exactly when it has
    none and starts in the future, and priority, attempts and timeout are in
    their ranges. *)
Theorem draft_job_well_formed `{DateHost} now id draft payload job :
  - max_time <= now <= max_time ->
  createJobFromDraft now id draft payload = Ok job ->
  date_parse (Job.createdAt job) = Some now /\
  (exists runAt, draft_run_at now draft = Some runAt /\
     date_parse (Job.runAt job) = Some runAt /\
     (Job.state job = blocked <->
        parseDependencyIds (VStr (JobDraft.dependencies draft)) <> []) /\
     (Job.state job = scheduled <->
        parseDependencyIds (VStr (JobDraft.dependencies draft)) = [] /\ now < runAt) /\
     Job.state job ∈ [blocked; scheduled; queued]) /\
  num_le (num_of_Z 0) (Job.priority job) = true /\
  num_le (Job.priority job) (num_of_Z 9) = true /\
  num_le (num_of_Z 1) (Job.maxAttempts job) = true /\
  num_le (num_of_Z 0) (Job.timeoutSeconds job) = true /\
  Job.queue job <> "" /\ Job.type job <> "" /\ Job.tenantId job <> "".
Proof.
  intros Hn. unfold createJobFromDraft. set (deps := parseDependencyIds _).
  destruct (draft_run_at now draft) as [runAt|] eqn:Er; [| done]. cbn [to_iso_string result_bind].
  intros [= <-].
  cbn [Job.createdAt Job.runAt Job.state Job.priority Job.maxAttempts Job.timeoutSeconds
       Job.queue Job.type Job.tenantId].
  assert (forall s t, t <> "" -> or_else s t <> "") as Hor.
  { intros s t Ht. unfold or_else. destruct (truthy s) eqn:E; [by apply truthy_true | done]. }
  split; [by apply date_parse_iso |]. split.
  - exists runAt. split; [done |].
    split; [apply date_parse_iso; by eapply draft_run_at_range |].
    destruct deps as [|d deps]; cbn; [| set_solver].
    destruct (Z.ltb_spec now runAt); set_solver by lia.
  - destruct (clamp_between (asNumber (VStr (JobDraft.priority draft)) (num_of_Z 5))
                (num_of_Z 0) (num_of_Z 9)) as [H1 H2]; [by apply asNumber_not_nan | done |].
    repeat split; try done; try (by apply Hor); apply num_max_ge_r; try done;
      by apply asNumber_not_nan.
Qed.

Definition sample_draft : JobDraft :=
  {| JobDraft.type := ""; JobDraft.queue := " critical "; JobDraft.tenantId := "";
     JobDraft.priority := "12"; JobDraft.maxAttempts := "0"; JobDraft.timeoutSeconds := "";
     JobDraft.delaySeconds := "30"; JobDraft.scheduledAt := ""; JobDraft.workflowId := "";
     JobDraft.dependencies := ""; JobDraft.idempotencyKey := "";
     JobDraft.dedupeWindowSeconds := ""; JobDraft.payload := "{}" |}.

Lemma draft_job_well_formed_witness :
  match createJobFromDraft (H := utc_host) 1773345600000 "id" sample_draft VNull with
  | Ok job => Job.state job = scheduled /\ num_le (Job.priority job) (num_of_Z 9) = true
  | Throw _ => False
  end.
Proof.
  destruct (createJobFromDraft (H := utc_host) 1773345600000 "id" sample_draft VNull)
    as [job |] eqn:E; [| vm_compute in E; discriminate].
  split; [vm_compute in E; by injection E as <- |].
  refine (proj1 (proj2 (proj2 (proj2
    (draft_job_well_formed (H := utc_host) 1773345600000 "id" sample_draft VNull job _ E))))).
  unfold max_time. lia.
Defined.

(** Drafting a job throws a RangeError exactly when a positive delay
    leaves the range of dates; no other field can make it throw. *)
Theorem draft_job_throws `{DateHost} now id draft payload :
  let delay := asNumber (VStr (JobDraft.delaySeconds draft)) (num_of_Z 0) in
  createJobFromDraft now id draft payload = Throw (RangeError "Invalid time value") <->
  num_gt delay (num_of_Z 0) = true /\
  time_of_num (num_add (num_of_Z now) (num_mul delay (num_of_Z 1000))) = None.
Proof.
  cbn zeta. unfold createJobFromDraft.
  transitivity (draft_run_at now draft = None).
  - destruct (draft_run_at now draft); cbn; split; done.
  - unfold draft_run_at. destruct (num_gt _ _); [naive_solver |].
    destruct (truthy _); [destruct (date_parse _) |]; naive_solver.
Qed.

(** Joining two URL paths gives a canonical path (one leading slash, no
    empty segment), whose segments are those of the base followed by those of
    the route less the leading ones that repeat the last base segment. *)
Theorem joinUrlPath_segments basePath nextPath :
  let merged :=
    segments basePath ++
    drop_repeated (last_of (segments basePath)) (segments (trim nextPath)) in
  joinUrlPath basePath nextPath = path_of merged /\
  segments (joinUrlPath basePath nextPath) = merged.
Proof.
  cbn zeta.
  assert (joinUrlPath basePath nextPath =
    path_of (segments basePath ++
      drop_repeated (last_of (segments basePath)) (segments (trim nextPath)))) as E.
  { unfold joinUrlPath. rewrite !segments_strip_leading, segments_normalize.
    destruct (segments (trim nextPath)); [| done].
    assert (drop_repeated (last_of (segments basePath)) [] = []) as -> by (by destruct (last_of _)).
    by rewrite app_nil_r. }
  split; [exact E |]. rewrite E. apply segments_path_of, Forall_app.
  split; [apply segments_proper | apply drop_repeated_proper, segments_proper].
Qed.

(** The dependency field is read as its words (maximal runs without
    spaces and commas), so every identifier is non-empty and clean, and a list
    of clean identifiers written with commas reads back. *)
Theorem parseDependencyIds_roundtrip ids :
  Forall (fun s => s <> "" /\
            Forall (fun c => is_dependency_separator c = false) (chars s)) ids ->
  parseDependencyIds (VStr (join ", " ids)) = ids.
Proof.
  intros Hids. rewrite parse_dependencies, words_join; [| done | by repeat constructor | done].
  rewrite List.map_map. transitivity (List.map (fun s => s) ids); [| apply List.map_id].
  apply List.map_ext, of_chars_chars.
Qed.

Lemma parseDependencyIds_roundtrip_witness :
  parseDependencyIds (VStr (join ", " ["job-1"; "job-2"])) = ["job-1"; "job-2"].
Proof. apply (parseDependencyIds_roundtrip ["job-1"; "job-2"]). repeat constructor; done. Defined.

(** The synthetic timeline of a job holds exactly the events its fields
    call for, newest first when their dates are valid. *)
Theorem buildSyntheticTimeline_sorted `{DateHost} job :
  Forall dated (synthetic_events job) ->
  buildSyntheticTimeline job ≡ₚ synthetic_events job /\
  StronglySorted newer (buildSyntheticTimeline job).
Proof.
  intros Hd. pose proof (sort_by_perm compare_occurred (synthetic_events job)) as Hp.
  split; [exact Hp |].
  eapply (StronglySorted_Forall_impl (before compare_occurred) _ dated).
  - intros x y [a Ha] [b Hb] Hxy. unfold newer. rewrite Ha, Hb.
    by apply (newest_first_before occurred x y).
  - unfold buildSyntheticTimeline. by rewrite Hp.
  - by apply (sort_by_sorted compare_occurred dated).
Qed.

Definition sample_job : Job :=
  {| Job.id := "job-1"; Job.type := "email.send"; Job.queue := "default";
     Job.tenantId := "default"; Job.payload := VNull; Job.priority := num_of_Z 5;
     Job.attempts := num_of_Z 1; Job.maxAttempts := num_of_Z 5; Job.state := completed;
     Job.schemaVersion := num_of_Z 1; Job.idempotencyKey := Some "key";
     Job.workflowId := None; Job.parentJobId := None; Job.dependencyPolicy := None;
     Job.blockedReason := None; Job.createdAt := "2026-03-12T20:00:00Z";
     Job.updatedAt := "2026-03-12T20:00:09Z"; Job.runAt := "2026-03-12T20:00:00Z";
     Job.startedAt := Some "2026-03-12T20:00:03Z";
     Job.finishedAt := Some "2026-03-12T20:00:09Z"; Job.lastHeartbeatAt := None;
     Job.leaseExpiresAt := None; Job.throttleUntil := None; Job.lastError := None;
     Job.result := VUndefined; Job.workerId := Some "worker-a"; Job.leaseToken := None;
     Job.timeoutSeconds := num_of_Z 60; Job.cancelRequested := false;
     Job.executionMs := num_of_Z 6000 |}.

Lemma buildSyntheticTimeline_sorted_witness :
  List.map JobEvent.type (buildSyntheticTimeline (H := utc_host) sample_job) =
    ["job.completed"; "job.started"; "job.enqueued"] /\
  StronglySorted (newer (H := utc_host)) (buildSyntheticTimeline (H := utc_host) sample_job).
Proof.
  split; [vm_compute; reflexivity |].
  apply (buildSyntheticTimeline_sorted (H := utc_host) sample_job).
  repeat constructor; vm_compute; discriminate || (eexists; reflexivity).
Defined.

(** [candidate.workflowId && candidate.workflowId === job.workflowId]: the jobs of
    the job's workflow, which has a name. *)
Definition shares_workflow (job candidate : Job) : Prop :=
  Job.workflowId candidate = Job.workflowId job /\ Job.workflowId job ∉ [None; Some ""].

#[local] Instance shares_workflow_dec job candidate : Decision (shares_workflow job candidate).
Proof. apply _. Defined.

Lemma same_workflow_spec job candidate :
  same_workflow job candidate = true <-> shares_workflow job candidate.
Proof.
  unfold same_workflow, shares_workflow. rewrite !not_elem_of_cons.
  destruct (Job.workflowId candidate) as [w |], (Job.workflowId job) as [w' |]; cbn; try naive_solver.
  rewrite andb_true_iff, truthy_true, String.eqb_eq. set_solver.
Qed.

Lemma workflow_members job jobs :
  List.filter (same_workflow job) jobs = filter (shares_workflow job) jobs.
Proof.
  induction jobs as [| c jobs IH]; [done |]. cbn [List.filter]. rewrite filter_cons, IH.
  destruct (same_workflow job c) eqn:E, (decide (shares_workflow job c)) as [Hw | Hw]; try done.
  - by apply same_workflow_spec in E.
  - by apply same_workflow_spec in Hw; congruence.
Qed.

Lemma fallback_expiry_none `{DateHost} job :
  fallback_expiry job = None <->
  forall t, date_parse (Job.createdAt job) = Some t -> ~ (- max_time <= t + 900000 <= max_time).
Proof.
  unfold fallback_expiry, time_add. destruct (date_parse (Job.createdAt job)) as [t |]; cbn; [| naive_solver].
  change (15 * 60 * 1000) with 900000. split.
  - intros E ? [= <-] Hin. by rewrite (time_clip_in (t + 900000) Hin) in E.
  - intros Hn. destruct (time_clip _) as [u |] eqn:E; [| done].
    apply time_clip_some in E as [_ Hin]. by destruct (Hn t eq_refl).
Qed.

(** C17: the local fallback for an inspection throws exactly when the job has an
    idempotency key, not blank, and its creation date does not parse or leaves the
    range of dates when fifteen minutes are added. Otherwise the inspection is of
    that job, its record of the key, there exactly when the job has one, ends fifteen
    minutes after the creation, and its graph lists the jobs that carry the job's
    workflow id, in their order, or the job itself when it has no workflow id, a
    blank one, or no such job exists. *)
Theorem createInspectionFallback_total `{DateHost} job jobs :
  let has_key := Job.idempotencyKey job <> None /\ Job.idempotencyKey job <> Some "" in
  let members := filter (fun c => Job.workflowId c = Job.workflowId job /\
                                  Job.workflowId job ∉ [None; Some ""]) jobs in
  (is_ok (createInspectionFallback job jobs) = false <->
   has_key /\
   forall t, date_parse (Job.createdAt job) = Some t -> ~ (- max_time <= t + 900000 <= max_time)) /\
  (forall inspection, createInspectionFallback job jobs = Ok inspection ->
     JobInspection.job inspection = job /\
     List.map (fun n => (DependencyNode.jobId n, DependencyNode.state n))
       (DependencyGraph.nodes (JobInspection.graph inspection)) =
       List.map (fun c => (Job.id c, Job.state c)) (if decide (members = []) then [job] else members) /\
     match JobInspection.idempotency inspection with
     | Some r => has_key /\ Some (IdempotencyRecord.idempotencyKey r) = Job.idempotencyKey job /\
         exists t, date_parse (Job.createdAt job) = Some t /\
           IdempotencyRecord.expiresAt r = iso_of_time (t + 900000)
     | None => ~ has_key
     end).
Proof.
  cbn zeta. assert (forall k, opt_truthy k = true <-> k <> None /\ k <> Some "") as Hk.
  { intros [k |]; cbn; [rewrite truthy_true |]; naive_solver. }
  rewrite <- Hk, <- fallback_expiry_none. unfold createInspectionFallback, fallback_idempotency.
  rewrite workflow_members. split.
  - destruct (opt_truthy _); [| naive_solver].
    destruct (fallback_expiry job); cbn; naive_solver.
  - intros i Hi. apply result_bind_ok in Hi as (idem & Hid & [= <-]).
    cbn [JobInspection.job JobInspection.graph JobInspection.idempotency DependencyGraph.nodes].
    split; [done |]. split.
    + change (filter (fun c => _) jobs) with (filter (shares_workflow job) jobs).
      destruct (filter (shares_workflow job) jobs) as [| x l]; [done |].
      rewrite decide_False by done. cbn [List.map]. f_equal. by rewrite List.map_map.
    + destruct (opt_truthy (Job.idempotencyKey job)) eqn:Et; [| injection Hid as <-; cbn; rewrite <- Hk; congruence].
      apply result_bind_ok in Hid as (e & He & [= <-]). cbn. rewrite <- Hk. split; [done |].
      destruct (Job.idempotencyKey job) as [k |]; [split; [done |] | done].
      unfold fallback_expiry, time_add in He. destruct (date_parse (Job.createdAt job)) as [t |]; [| done].
      exists t. split; [done |]. cbn in He. destruct (time_clip _) as [u |] eqn:Eu; [| done].
      apply time_clip_some in Eu as [-> _]. by injection He as <-.
Qed.

(** What is written to local storage is read back trimmed, other keys
    are untouched, an empty value clears the key, and storage that is missing,
    blocked or full never throws and never loses the fallback. *)
Theorem stored_value_roundtrip st key key' value fallback :
  let st' := writeStoredValue st key value in
  (key <> key' -> readStoredValue st' key' fallback = readStoredValue st key' fallback) /\
  (asString value "" = "" -> (forall items full, st = Store items full ->
     readStoredValue st' key fallback = fallback)) /\
  (forall items, st = Store items false ->
     readStoredValue st' key fallback = or_else (safeTrim value) fallback) /\
  ((forall items full, st <> Store items full) -> readStoredValue st' key fallback = fallback).
Proof.
  cbn zeta. unfold writeStoredValue, safeTrim. destruct st as [| |items full]; cbn.
  1,2: naive_solver.
  split; [| split; [| split]].
  - intros Hk. destruct (truthy _); [destruct full |]; cbn; [done | |].
    + by rewrite lookup_insert_ne.
    + by rewrite lookup_delete_ne.
  - intros -> ? ? _. cbn. by rewrite lookup_delete_eq.
  - intros ? [= _ ->]. destruct (truthy (asString value "")) eqn:E; cbn.
    + by rewrite lookup_insert_eq.
    + apply truthy_false in E. rewrite lookup_delete_eq, E. done.
  - intros Hne. by destruct (Hne items full).
Qed.

(** Without [randomUUID] two ids of one millisecond can be the same. *)
Example toast_ids_collide :
  createToastId None 1773345600000 (num_of_string "0.5") =
  createToastId None 1773345600000 (num_of_string "0.500001").
Proof. vm_compute. reflexivity. Qed.
