(* ===== verification/Urls.v ===== *)
(** What [src/lib/safe.ts] relies on in the browser's [URL] class, as the class
    [UrlLaws], with a small instance that shows the laws can hold, and the theorem
    on the WebSocket URL that is proved from them. *)

From stdpp Require Import base list strings sets.
From Stdlib Require Import ZArith Lia Bool Ascii.
From S2P Require Import Prelude JsString JsValue ApiRoutes Safe.

(** The schemes the code switches between; all are special schemes, between
    which the [protocol] setter may change. *)
Definition http_like : list string := ["http:"; "https:"; "ws:"; "wss:"].

(** Documented behaviour of [URL] setters: assigning a special scheme to a URL
    with a special scheme takes effect; the other setters keep the scheme. *)
Class UrlLaws `{UrlApi} : Prop := {
  protocol_set_protocol : forall p u,
    p ∈ http_like -> url_protocol u ∈ http_like ->
    url_protocol (url_set_protocol p u) = p;
  protocol_set_pathname : forall p u, url_protocol (url_set_pathname p u) = url_protocol u;
  protocol_set_search : forall p u, url_protocol (url_set_search p u) = url_protocol u;
  protocol_set_hash : forall p u, url_protocol (url_set_hash p u) = url_protocol u;
  protocol_params_set : forall k v u, url_protocol (url_params_set k v u) = url_protocol u
}.

(** * An instance *)

(** A URL without escapes: what [scheme://host/path?query#fragment] is made of. *)
Record SimpleUrl := {
  su_protocol : string;
  su_host : string;
  su_pathname : string;
  su_search : string;
  su_hash : string
}.

(** The text before the first occurrence of a character, and the rest. *)
Definition cut (c : ascii) (s : string) : string * string :=
  match index_of c (chars s) with
  | Some n => (slice_to n s, slice_from n s)
  | None => (s, "")
  end.

Definition su_parse (s : string) : option SimpleUrl :=
  let '(scheme, r) := cut ":" s in
  if starts_with "://" r then
    let '(before_hash, hash) := cut "#" (slice_from 3 r) in
    let '(before_search, search) := cut "?" before_hash in
    let '(host, path) := cut "/" before_search in
    if truthy host then
      Some {| su_protocol := to_lower scheme +:+ ":"; su_host := host;
              su_pathname := or_else path "/"; su_search := search; su_hash := hash |}
    else None
  else None.

Definition su_href (u : SimpleUrl) : string :=
  su_protocol u +:+ "//" +:+ su_host u +:+ su_pathname u +:+ su_search u +:+ su_hash u.

Definition prefixed (p v : string) : string :=
  if truthy v then (if starts_with p v then v else p +:+ v) else "".

#[export] Instance simple_urls : UrlApi := {|
  URL := SimpleUrl;
  url_new := su_parse;
  url_protocol := su_protocol;
  url_set_protocol p u :=
    {| su_protocol := p; su_host := su_host u; su_pathname := su_pathname u;
       su_search := su_search u; su_hash := su_hash u |};
  url_pathname := su_pathname;
  url_set_pathname p u :=
    {| su_protocol := su_protocol u; su_host := su_host u; su_pathname := p;
       su_search := su_search u; su_hash := su_hash u |};
  url_set_search v u :=
    {| su_protocol := su_protocol u; su_host := su_host u; su_pathname := su_pathname u;
       su_search := prefixed "?" v; su_hash := su_hash u |};
  url_set_hash v u :=
    {| su_protocol := su_protocol u; su_host := su_host u; su_pathname := su_pathname u;
       su_search := su_search u; su_hash := prefixed "#" v |};
  url_params_set k v u :=
    {| su_protocol := su_protocol u; su_host := su_host u; su_pathname := su_pathname u;
       su_search := su_search u +:+ (if truthy (su_search u) then "&" else "?") +:+ k +:+ "=" +:+ v;
       su_hash := su_hash u |};
  url_href := su_href
|}.

Example socket_url_example :
  buildSocketUrl (Some "https://jobs.example/api") "t" =
  Some "wss://jobs.example/api/ws/events?token=t".
Proof. vm_compute. reflexivity. Qed.

#[export] Instance simple_urls_laws : UrlLaws.
Proof. by split. Qed.

(** * Properties *)

(** The WebSocket URL keeps the security of the base: a parsable http
    or https base always has one, with the scheme ws or wss, and it is wss for
    https and only for https. *)
Theorem buildSocketUrl_secure `{UrlLaws} base token u :
  truthy base = true -> url_new base = Some u -> url_protocol u ∈ ["http:"; "https:"] ->
  exists w,
    buildSocketUrl (Some base) token = Some (url_href w) /\
    url_protocol w ∈ ["ws:"; "wss:"] /\
    (url_protocol w = "wss:" <-> url_protocol u = "https:").
Proof.
  intros Ht Hu Hp. unfold buildSocketUrl, buildStreamUrl, opt_truthy. rewrite Ht.
  cbn [negb opt_default]. rewrite Hu. cbn [mbind option_bind].
  eexists. split; [reflexivity |].
  assert (url_protocol u ∈ http_like) as Hp' by (unfold http_like; set_solver).
  destruct (truthy (trim token)); rewrite ?protocol_params_set;
    rewrite protocol_set_hash, protocol_set_search, protocol_set_pathname;
    destruct (String.eqb_spec (url_protocol u) "https:") as [E | E];
    rewrite protocol_set_protocol by (done || (unfold http_like; set_solver));
    (split; [set_solver | done]).
Qed.

Lemma buildSocketUrl_secure_witness :
  exists w,
    buildSocketUrl (Some "https://jobs.example") "" = Some (url_href w) /\
    url_protocol w ∈ ["ws:"; "wss:"] /\
    (url_protocol w = "wss:" <-> "https:" = "https:").
Proof.
  apply (@buildSocketUrl_secure simple_urls simple_urls_laws "https://jobs.example" ""
    {| su_protocol := "https:"; su_host := "jobs.example"; su_pathname := "/";
       su_search := ""; su_hash := "" |}); [reflexivity | vm_compute; reflexivity | set_solver].
Defined.
