(* ===== verification/LiveRefresh.v ===== *)
(** [src/lib/live-refresh.ts]: signatures of API payloads, event fingerprints,
    poll delays and the health of the live connection. *)

From stdpp Require Import base list strings gmap sorting.
From Stdlib Require Import ZArith Lia Bool Ascii.
From S2P Require Import Prelude JsString JsNum JsSort JsValue JsonFacts Models.

Definition POLLING_PRESETS : list (string * PollingPreset) :=
  [("Paused", 0); ("5s", 5000); ("15s", 15000); ("30s", 30000)]%Z.

(** * Signatures *)

(** Order of property names by code units: [Array.prototype.sort] without a
    comparator. *)
Definition compare_key {A : Type} (a b : string * A) : comparison :=
  String.compare (fst a) (fst b).

(** [result\[key\] = value]: assigning [__proto__] sets the prototype and
    creates no property. *)
Definition assign (result : list (string * jsval)) (kv : string * jsval)
  : list (string * jsval) :=
  if String.eqb (fst kv) "__proto__" then result else set_prop result (fst kv) (snd kv).

Fixpoint sortValue (value : jsval) : jsval :=
  match value with
  | VArr l => VArr (List.map sortValue l)
  | VObj fs =>
      let entries := List.map (fun kv => (fst kv, sortValue (snd kv))) fs in
      VObj (foldl assign [] (sort_by compare_key (own_props entries)))
  | _ => value
  end.

Definition stableSerialize (value : jsval) : option string := json_stringify (sortValue value).

Definition createConsolePayloadSignature (snapshot : DashboardSnapshot) (jobs : list Job)
    (schedules : list Schedule) (workerStatuses : list WorkerStatus) : option string :=
  stableSerialize (VObj
    [("snapshot", DashboardSnapshot.to_value snapshot);
     ("jobs", list_value Job.to_value jobs);
     ("schedules", list_value Schedule.to_value schedules);
     ("workerStatuses", list_value WorkerStatus.to_value workerStatuses)]).

Definition createInspectionSignature (inspection : JobInspection) : option string :=
  stableSerialize (JobInspection.to_value inspection).

Definition createEventFingerprint (event : SystemEvent) : string :=
  join "|"
    [SystemEvent.kind event;
     SystemEvent.timestamp event;
     opt_default (SystemEvent.jobId event) "";
     opt_default (SystemEvent.queue event) "";
     opt_default (SystemEvent.workerId event) "";
     match SystemEvent.state event with Some s => state_name s | None => "" end;
     opt_default (SystemEvent.message event) ""].

(** * Poll delays *)

#[local] Open Scope Z_scope.

(** [null] is [None]. *)
Definition getNextPollDelay (baseIntervalMs consecutiveFailures : Z) : option Z :=
  if baseIntervalMs <=? 0 then None
  else if consecutiveFailures <=? 0 then Some baseIntervalMs
  else
    let multiplier := Z.min (2 ^ consecutiveFailures) 8 in
    Some (Z.min (baseIntervalMs * multiplier) 60000).

Definition getDrawerRefreshInterval (baseIntervalMs : Z) : Z :=
  if baseIntervalMs <=? 0 then 0 else Z.max (baseIntervalMs * 2) 15000.

(** * Health *)

Record HealthInput := {
  liveMode : bool;
  pollIntervalMs : Z;
  liveUpdates : bool;
  hasLiveData : bool;
  resolvedBaseUrl : option string;
  consecutiveFailures : Z;
  socketConnected : bool;
  socketDesired : bool
}.

Definition resolveLiveHealth (input : HealthInput) : LiveHealth :=
  if negb (liveMode input) then health_demo
  else if negb (opt_truthy (resolvedBaseUrl input)) then health_offline
  else if (pollIntervalMs input <=? 0) && negb (liveUpdates input) then health_paused
  else if 0 <? consecutiveFailures input then
    if hasLiveData input then health_degraded else health_offline
  else if socketDesired input && negb (socketConnected input) && hasLiveData input
  then health_reconnecting
  else health_live.

(** * Plain data *)

#[local] Close Scope Z_scope.

(** No property is called [__proto__]. *)
Fixpoint no_proto (v : jsval) : bool :=
  match v with
  | VArr l => forallb no_proto l
  | VObj fs => forallb (fun kv => negb (String.eqb (fst kv) "__proto__") && no_proto (snd kv)) fs
  | _ => true
  end.

(** What [JSON.parse] gives for a document: no undefined, distinct property
    names, numbers that print and read back. *)
Definition plain (v : jsval) : Prop := printable v /\ no_proto v = true.

(** The same JSON data: arrays agree element by element, objects agree field by
    field whatever the order of their fields. *)
Inductive same_data : jsval -> jsval -> Prop :=
  | same_refl v : same_data v v
  | same_arr l l' : Forall2 same_data l l' -> same_data (VArr l) (VArr l')
  | same_obj fs fs' gs :
      fs ≡ₚ fs' ->
      Forall2 (fun a b => fst a = fst b /\ same_data (snd a) (snd b)) fs' gs ->
      same_data (VObj fs) (VObj gs).

(** The value whose text [stableSerialize] prints. *)
Fixpoint canon (v : jsval) : jsval :=
  match v with
  | VArr l => VArr (List.map canon l)
  | VObj fs =>
      VObj (own_props (sort_by compare_key (List.map (fun kv => (fst kv, canon (snd kv))) fs)))
  | _ => v
  end.

(** * Lemmas *)

Lemma plain_arr l : plain (VArr l) <-> Forall plain l.
Proof.
  unfold plain. rewrite printable_arr. cbn. rewrite forallb_forall.
  rewrite !Forall_forall. setoid_rewrite list_elem_of_In. naive_solver.
Qed.

Lemma plain_obj fs :
  plain (VObj fs) <->
  NoDup fs.*1 /\ Forall (fun kv => fst kv <> "__proto__" /\ plain (snd kv)) fs.
Proof.
  unfold plain. rewrite printable_obj. cbn. rewrite forallb_forall.
  rewrite !Forall_forall. setoid_rewrite list_elem_of_In.
  setoid_rewrite andb_true_iff. setoid_rewrite negb_true_iff. setoid_rewrite String.eqb_neq.
  naive_solver.
Qed.

#[export] Instance compare_key_consistent {A} :
  Consistent (@compare_key A) (fun _ => True).
Proof. apply compare_string_consistent. Qed.

Lemma sort_keys_perm {A} (fs gs : list (string * A)) :
  NoDup fs.*1 -> fs ≡ₚ gs -> sort_by compare_key fs = sort_by compare_key gs.
Proof.
  intros Hn Hp. apply (sort_by_perm_eq compare_key (fun _ => True)); [by apply Forall_true | | done].
  intros x y Hx Hy E. apply String.compare_eq_iff in E.
  by eapply NoDup_keys_inj.
Qed.

Lemma assign_all acc l :
  NoDup (acc ++ l).*1 -> Forall (fun kv => fst kv <> "__proto__") l ->
  foldl assign acc l = acc ++ l.
Proof.
  intros Hn Hp. revert acc Hn. induction Hp as [|[k v] l Hk Hl IH]; intros acc Hn; cbn.
  - by rewrite app_nil_r.
  - unfold assign at 2. cbn. rewrite (proj2 (String.eqb_neq _ _)) by done.
    rewrite set_prop_fresh.
    + rewrite IH; by rewrite <- app_assoc.
    + rewrite fmap_app in Hn. apply NoDup_app in Hn as (_ & Hn & _).
      intros Hin. apply (Hn k Hin). by left.
Qed.

Lemma fmap_map_fields {A B} (f : A -> B) (fs : list (string * A)) :
  (List.map (fun kv => (fst kv, f (snd kv))) fs).*1 = fs.*1.
Proof. induction fs as [|[k v] fs IH]; [done |]. cbn. by f_equal. Qed.

Lemma canon_obj fs :
  canon (VObj fs) =
  VObj (List.map (fun kv => (fst kv, canon (snd kv))) (own_props (sort_by compare_key fs))).
Proof. cbn. f_equal. by rewrite <- own_props_map, (sort_by_map compare_key). Qed.

Lemma sortValue_fields fs :
  NoDup fs.*1 -> Forall (fun kv => fst kv <> "__proto__") fs ->
  sortValue (VObj fs) =
  VObj (List.map (fun kv => (fst kv, sortValue (snd kv))) (sort_by compare_key fs)).
Proof.
  intros Hn Hp. cbn. f_equal.
  set (es := List.map (fun kv => (fst kv, sortValue (snd kv))) fs).
  assert (NoDup es.*1) as Hes by (by unfold es; rewrite fmap_map_fields).
  rewrite (sort_keys_perm (own_props es) es); [| by rewrite own_props_perm | apply own_props_perm].
  rewrite assign_all; cbn.
  - by apply sort_by_map.
  - by rewrite sort_by_perm.
  - rewrite sort_by_perm. by apply Forall_map.
Qed.

Lemma sortValue_obj fs :
  plain (VObj fs) ->
  sortValue (VObj fs) =
  VObj (List.map (fun kv => (fst kv, sortValue (snd kv))) (sort_by compare_key fs)).
Proof.
  intros [Hn Hp]%plain_obj. apply sortValue_fields; [done |].
  eapply Forall_impl; [exact Hp |]. by intros kv [? _].
Qed.

Lemma json_norm_printable_num n :
  number_reads_back n = true -> json_norm (VNum n) = Some (VNum n).
Proof. destruct n as [[]|[]| |s m e]; done. Qed.

Lemma sortValue_norm v :
  plain v -> json_norm (sortValue v) = Some (canon v) /\ printable (canon v).
Proof.
  induction v as [| |b|n|s|l IH|fs IH] using jsval_rect_nested; intros Hv; try done.
  - by destruct Hv.
  - destruct Hv as [Hv _]. split; [| done]. by apply json_norm_printable_num.
  - apply plain_arr in Hv. cbn. split.
    + do 2 f_equal. rewrite List.map_map. apply List.map_ext_in. intros x Hx%list_elem_of_In.
      rewrite Forall_forall in IH, Hv. by rewrite (proj1 (IH x Hx (Hv x Hx))).
    + apply printable_arr, Forall_map, Forall_forall. intros x Hx.
      rewrite Forall_forall in IH, Hv. by apply IH; auto.
  - rewrite sortValue_obj, canon_obj by done. apply plain_obj in Hv as [Hn Hv].
    assert (Forall (fun kv => json_norm (sortValue (snd kv)) = Some (canon (snd kv)) /\
                              printable (canon (snd kv)))
              (own_props (sort_by compare_key fs))) as H.
    { rewrite own_props_perm, sort_by_perm. rewrite Forall_forall in *.
      intros kv Hkv. apply IH; [done |]. by apply Hv. }
    split.
    + cbn [json_norm]. do 2 f_equal. rewrite List.map_map. cbn [fst snd].
      rewrite (own_props_map (fun v => json_norm (sortValue v)) (sort_by compare_key fs)).
      induction H as [|[k v] L [Hk _] _ IHL]; [done |]. cbn in *. by rewrite Hk, IHL.
    + apply printable_obj. rewrite fmap_map_fields. split.
      * by rewrite own_props_perm, sort_by_perm.
      * apply Forall_map. eapply Forall_impl; [exact H |]. by intros kv [_ ?].
Qed.

Lemma stableSerialize_canon v : plain v -> stableSerialize v = Some (print (canon v)).
Proof. intros Hv. unfold stableSerialize, json_stringify. by rewrite (proj1 (sortValue_norm v Hv)). Qed.

Lemma canon_same_data v : forall w, canon v = canon w -> same_data v w.
Proof.
  induction v as [| |b|n|s|l IH|fs IH] using jsval_rect_nested; intros w Hw;
    destruct w as [| | | | |l'|gs]; try discriminate; try (cbn in Hw; injection Hw as ->; constructor).
  - constructor.
  - constructor.
  - constructor. cbn in Hw. injection Hw as Hw.
    revert l' Hw. induction IH as [|x l Hx _ IHl]; intros [|y l'] Hw; try done.
    cbn in Hw. injection Hw as Hxy Hw. constructor; auto.
  - cbn in Hw. injection Hw as Hw.
    assert (List.map (fun kv => (fst kv, canon (snd kv))) gs ≡ₚ
            List.map (fun kv => (fst kv, canon (snd kv))) fs) as Hp.
    { rewrite <- (sort_by_perm compare_key), <- own_props_perm, <- Hw.
      by rewrite own_props_perm, sort_by_perm. }
    apply Permutation_map_inv in Hp as (fs' & Hm & Hp). eapply same_obj; [exact Hp |].
    rewrite Hp in IH. clear Hp Hw. revert gs Hm.
    induction IH as [|x fs' Hx _ IHf]; intros [|y gs] Hm; try done.
    cbn in Hm. injection Hm as Hk Hv Hm. constructor; auto.
Qed.

Lemma same_data_canon v : forall w, plain v -> same_data v w -> canon v = canon w.
Proof.
  induction v as [| |b|n|s|l IH|fs IH] using jsval_rect_nested; intros w Hv Hs;
    try (by inv Hs).
  - inversion Hs as [|? l' Hl|]; subst; [done |]. apply plain_arr in Hv. cbn. f_equal.
    clear Hs. induction Hl as [|x y l l' Hxy _ IHl]; [done |]. inv IH. inv Hv. cbn. f_equal; auto.
  - inversion Hs as [| |? fs' gs Hp Hf]; subst; [done |].
    apply plain_obj in Hv as [Hn Hv]. cbn. do 2 f_equal. clear Hs.
    apply sort_keys_perm; [by rewrite fmap_map_fields |].
    rewrite Hp in IH, Hv |- *. clear Hp Hn.
    induction Hf as [|x y fs' gs [Hk Hxy] _ IHf]; [done |].
    apply Forall_cons in IH as [IH1 IH2], Hv as [[_ Hv1] Hv2]. cbn.
    rewrite Hk, (IH1 (snd y) Hv1 Hxy). constructor. by apply IHf.
Qed.

Lemma stable_same_data v w :
  plain v -> plain w -> stableSerialize v = stableSerialize w <-> same_data v w.
Proof.
  intros Hv Hw. rewrite !stableSerialize_canon by done. split.
  - intros [= E]. apply canon_same_data, print_inj; [| | done]; by apply sortValue_norm.
  - intros H. by rewrite (same_data_canon v w).
Qed.

(** ** Records *)

(** What a record of Models.v is: plain data, except that optional properties may
    be undefined. *)
Fixpoint record_value (v : jsval) : Prop :=
  match v with
  | VUndefined => False
  | VNull | VBool _ | VStr _ => True
  | VNum n => number_reads_back n = true
  | VArr l => (fix all l := match l with [] => True | x :: l' => record_value x /\ all l' end) l
  | VObj fs =>
      NoDup fs.*1 /\
      (fix all l := match l with
                    | [] => True
                    | x :: l' => (fst x <> "__proto__" /\ (snd x = VUndefined \/ record_value (snd x))) /\ all l'
                    end) fs
  end.

Definition is_defined (kv : string * jsval) : bool :=
  match snd kv with VUndefined => false | _ => true end.

(** The properties that JSON knows. *)
Fixpoint json_data (v : jsval) : jsval :=
  match v with
  | VArr l => VArr (List.map json_data l)
  | VObj fs => VObj (List.filter is_defined (List.map (fun kv => (fst kv, json_data (snd kv))) fs))
  | _ => v
  end.

Lemma record_arr l : record_value (VArr l) <-> Forall record_value l.
Proof. induction l as [| x l IH]; [done |]. rewrite Forall_cons. cbn in *. by rewrite IH. Qed.

Lemma record_obj fs :
  record_value (VObj fs) <->
  NoDup fs.*1 /\ Forall (fun kv => fst kv <> "__proto__" /\ (snd kv = VUndefined \/ record_value (snd kv))) fs.
Proof.
  cbn [record_value]. apply and_iff_compat_l.
  induction fs as [| x l IH]; [done |]. rewrite Forall_cons. by rewrite <- IH.
Qed.

Lemma json_data_defined v : v <> VUndefined -> json_data v <> VUndefined.
Proof. by destruct v. Qed.

Lemma filter_keys {A} (p : string * A -> bool) fs : NoDup fs.*1 -> NoDup (List.filter p fs).*1.
Proof.
  induction fs as [| kv fs IH]; [done |]. cbn. intros [Hk Hn]%NoDup_cons.
  destruct (p kv); [| by apply IH]. cbn. apply NoDup_cons. split; [| by apply IH].
  intros (x & Ex & Hx)%list_elem_of_fmap. apply Hk, list_elem_of_fmap. exists x. split; [done |].
  by apply list_elem_of_In, filter_In in Hx as [?%list_elem_of_In _].
Qed.

Lemma json_data_plain v : record_value v -> plain (json_data v).
Proof.
  induction v as [| |b|n|s|l IH|fs IH] using jsval_rect_nested; intros Hv; try done.
  - apply record_arr in Hv. cbn. apply plain_arr, Forall_map. rewrite Forall_forall in *. eauto.
  - apply record_obj in Hv as [Hn Hv]. cbn. apply plain_obj. split.
    + apply filter_keys. by rewrite fmap_map_fields.
    + apply Forall_forall. intros kv [Hin Hd]%list_elem_of_In%filter_In.
      apply in_map_iff in Hin as (kv' & <- & Hin%list_elem_of_In). rewrite Forall_forall in IH, Hv.
      destruct (Hv kv' Hin) as [Hp Hr]. split; [done |]. cbn in *. apply (IH kv' Hin).
      destruct Hr as [E | Hr]; [| done]. cbn in Hd. by rewrite E in Hd.
Qed.

(** The properties of an object that [JSON.stringify] writes. *)
Definition written (fs : list (string * jsval)) : list (string * jsval) :=
  omap (fun kv => pair (fst kv) <$> json_norm (snd kv)) (own_props fs).

Lemma json_norm_obj fs : json_norm (VObj fs) = Some (VObj (written fs)).
Proof.
  cbn. unfold written. do 2 f_equal. rewrite (own_props_map json_norm).
  induction (own_props fs) as [| kv l IH]; [done |]. cbn. by rewrite IH.
Qed.

#[export] Instance compare_index_consistent {A} :
  Consistent (@compare_index A) (fun kv => is_index kv = true).
Proof.
  unfold is_index. split.
  - intros x y. unfold compare_index. destruct (array_index (fst x)), (array_index (fst y)); try done.
    intros _ _. apply Z.compare_antisym.
  - intros x y z. unfold before, compare_index.
    destruct (array_index (fst x)), (array_index (fst y)), (array_index (fst z)); try done.
    intros _ _ _. rewrite !Z.compare_le_iff. lia.
Qed.

Lemma own_props_filter {A} (p : string * A -> bool) fs :
  own_props (List.filter p fs) = List.filter p (own_props fs).
Proof.
  unfold own_props. rewrite List.filter_app.
  assert (forall q, List.filter q (List.filter p fs) = List.filter p (List.filter q fs)) as Hc.
  { intros q. induction fs as [| x l IH]; [done |]. cbn.
    destruct (p x) eqn:Ep, (q x) eqn:Eq; cbn; rewrite ?Ep, ?Eq, IH; done. }
  rewrite !Hc. f_equal. apply (sort_by_filter compare_index (fun kv => is_index kv = true)).
  apply List.Forall_forall. by intros x [_ ?]%filter_In.
Qed.

(** [JSON.stringify] leaves undefined properties out, so that sorting what is left
    gives the same text. *)
Lemma json_data_norm v : record_value v -> json_norm (sortValue (json_data v)) = json_norm (sortValue v).
Proof.
  induction v as [| |b|n|s|l IH|fs IH] using jsval_rect_nested; intros Hv; try done.
  - apply record_arr in Hv. cbn. do 2 f_equal. rewrite !List.map_map. apply List.map_ext_in.
    intros x Hx%list_elem_of_In. rewrite Forall_forall in IH, Hv. by rewrite (IH x Hx (Hv x Hx)).
  - pose proof (json_data_plain _ Hv) as Hpl. apply record_obj in Hv as [Hn Hv].
    rewrite (sortValue_fields fs) by (done || by (eapply Forall_impl; [exact Hv | intros ? []])).
    cbn [json_data] in *. apply plain_obj in Hpl as [Hn' Hp'].
    rewrite sortValue_fields by (done || by (eapply Forall_impl; [exact Hp' | intros ? []])).
    rewrite (sort_by_filter compare_key (fun _ => True)) by (by apply Forall_true).
    rewrite (sort_by_map compare_key compare_key) by done. rewrite !json_norm_obj. do 2 f_equal.
    unfold written. rewrite !(own_props_map sortValue), own_props_filter, (own_props_map json_data).
    assert (Forall (fun kv => snd kv = VUndefined \/
        record_value (snd kv) /\ json_norm (sortValue (json_data (snd kv))) = json_norm (sortValue (snd kv)))
      (own_props (sort_by compare_key fs))) as H.
    { rewrite own_props_perm, sort_by_perm. rewrite Forall_forall in *. intros kv Hkv.
      destruct (Hv kv Hkv) as [_ [? | ?]]; auto. }
    induction H as [| [k v] L Hk _ IHL]; [done |]. cbn [List.map List.filter fst snd omap list_omap].
    destruct Hk as [E | [Hr E]]; cbn [fst snd] in *.
    + subst v. exact IHL.
    + cbn [is_defined snd]. destruct (is_defined (k, json_data v)) eqn:Ed.
      * cbn [List.map omap list_omap fst snd]. rewrite E, IHL. done.
      * exfalso. unfold is_defined in Ed. cbn in Ed. by destruct v.
Qed.

(** Records have the same signature exactly when JSON knows the same data of them. *)
Lemma stable_same_record v w :
  record_value v -> record_value w ->
  stableSerialize v = stableSerialize w <-> same_data (json_data v) (json_data w).
Proof.
  intros Hv Hw.
  assert (forall v, record_value v -> stableSerialize v = Some (print (canon (json_data v)))) as E.
  { intros u Hu. rewrite <- stableSerialize_canon by (by apply json_data_plain).
    unfold stableSerialize, json_stringify. by rewrite json_data_norm. }
  rewrite !E by done. rewrite <- !stableSerialize_canon by (by apply json_data_plain).
  apply stable_same_data; by apply json_data_plain.
Qed.

(** ** Fingerprints *)

(** The fields of a fingerprint but the last, which is the message. *)
Definition fingerprint_head (event : SystemEvent) : list string :=
  [SystemEvent.kind event; SystemEvent.timestamp event;
   opt_default (SystemEvent.jobId event) ""; opt_default (SystemEvent.queue event) "";
   opt_default (SystemEvent.workerId event) "";
   match SystemEvent.state event with Some s => state_name s | None => "" end].

Definition no_bar (s : string) : Prop := ~ In "|"%char (chars s).

Lemma bar_split (a b x y : list ascii) :
  ~ In "|"%char a -> ~ In "|"%char b ->
  a ++ "|"%char :: x = b ++ "|"%char :: y -> a = b /\ x = y.
Proof.
  revert b. induction a as [|c a IH]; intros [|d b] Ha Hb; cbn in *.
  - by intros [= ->].
  - intros [= <- _]. tauto.
  - intros [= -> _]. tauto.
  - intros [= -> E]. destruct (IH b) as [-> ->]; tauto.
Qed.

Lemma join_bar_inj l l' m m' :
  length l = length l' -> Forall no_bar l -> Forall no_bar l' ->
  join "|" (l ++ [m]) = join "|" (l' ++ [m']) -> l = l' /\ m = m'.
Proof.
  intros Hlen Hl. revert l' Hlen. induction Hl as [|a l Ha _ IH]; intros [|b l'] Hlen Hl' E;
    try done.
  apply Forall_cons in Hl' as [Hb Hl']. cbn [app] in E.
  rewrite (join_cons _ a), (join_cons _ b) in E by first [by destruct l | by destruct l'].
  apply (f_equal chars) in E. rewrite !chars_app in E.
  apply bar_split in E as [Eab E]; [| done | done].
  apply chars_inj in Eab as ->. apply chars_inj in E.
  destruct (IH l') as [-> ->]; [by injection Hlen | done | done | done].
Qed.

(** * Properties *)

(** C14: two payloads get the same signature exactly when they hold the
    same data, whatever the order of the object fields: a refresh is skipped
    only if nothing changed, and a reordered response is not a change. *)
Theorem stableSerialize_same_data v w :
  plain v -> plain w -> stableSerialize v = stableSerialize w <-> same_data v w.
Proof. apply stable_same_data. Qed.

Lemma stableSerialize_same_data_witness :
  let v := VObj [("b", VNum (num_of_Z 2)); ("a", VArr [VNull; VStr "x"])] in
  let w := VObj [("a", VArr [VNull; VStr "x"]); ("b", VNum (num_of_Z 2))] in
  plain v /\ plain w /\ (stableSerialize v = stableSerialize w <-> same_data v w).
Proof.
  cbn zeta.
  match goal with |- plain ?v /\ plain ?w /\ _ =>
    assert (plain v) as Hv; [| assert (plain w) as Hw; [| split; [exact Hv | split; [exact Hw |]];
      apply (stableSerialize_same_data v w Hv Hw)]] end;
    (apply plain_obj; split; [apply (bool_decide_unpack _); vm_compute; exact I |];
     repeat constructor; discriminate).
Defined.

#[local] Open Scope Z_scope.

(** C15: the poll delay backs off: polling is off exactly for a non-positive
    interval; for every interval the console offers the delay starts at the
    interval, never shrinks as failures accumulate, stays below eight times the
    interval and below a minute, and is constant from the third failure on. *)
Theorem getNextPollDelay_backoff base failures failures' :
  (getNextPollDelay base failures = None <-> base <= 0) /\
  (0 < base <= 60000 -> failures <= failures' ->
   exists d d',
     getNextPollDelay base failures = Some d /\ getNextPollDelay base failures' = Some d' /\
     base <= d <= d' /\ d' <= Z.min (8 * base) 60000 /\
     (failures <= 0 -> d = base) /\ (3 <= failures -> d' = d)).
Proof.
  unfold getNextPollDelay. destruct (Z.leb_spec base 0) as [Hb | Hb].
  - split; [by split; intros _ | lia].
  - split; [split; [by destruct (_ <=? 0) | lia] |]. intros Hb2 Hf.
    assert (forall n, 1 <= n -> 2 <= Z.min (2 ^ n) 8) as Hlow.
    { intros n Hn. pose proof (Z.pow_le_mono_r 2 1 n). lia. }
    assert (forall n, 3 <= n -> Z.min (2 ^ n) 8 = 8) as Hhigh.
    { intros n Hn. pose proof (Z.pow_le_mono_r 2 3 n). lia. }
    pose proof (Z.pow_le_mono_r 2 failures failures' ltac:(lia) Hf) as Hmono.
    destruct (Z.leb_spec failures 0) as [H1 | H1], (Z.leb_spec failures' 0) as [H2 | H2];
      do 2 eexists; (split; [reflexivity |]); (split; [reflexivity |]).
    + lia.
    + pose proof (Hlow failures' ltac:(lia)). repeat split; try nia.
    + lia.
    + pose proof (Hlow failures ltac:(lia)). pose proof (Hlow failures' ltac:(lia)).
      repeat split; try nia. intros H3. rewrite !Hhigh by lia. done.
Qed.

(** The connection is reported live exactly when the console is in live
    mode with a base URL, something refreshes it, the last request did not fail
    and the wanted socket is not down under displayed data. *)
Theorem resolveLiveHealth_live input :
  (resolveLiveHealth input = health_live <->
   liveMode input = true /\ opt_truthy (resolvedBaseUrl input) = true /\
   (0 < pollIntervalMs input \/ liveUpdates input = true) /\
   consecutiveFailures input <= 0 /\
   ~ (socketDesired input = true /\ socketConnected input = false /\ hasLiveData input = true)) /\
  (resolveLiveHealth input = health_degraded ->
   hasLiveData input = true /\ 0 < consecutiveFailures input) /\
  (resolveLiveHealth input = health_offline ->
   opt_truthy (resolvedBaseUrl input) = false \/
   hasLiveData input = false /\ 0 < consecutiveFailures input).
Proof.
  unfold resolveLiveHealth.
  destruct (liveMode input), (opt_truthy (resolvedBaseUrl input)), (liveUpdates input),
    (socketDesired input), (socketConnected input), (hasLiveData input),
    (Z.leb_spec (pollIntervalMs input) 0), (Z.ltb_spec 0 (consecutiveFailures input));
    cbn; naive_solver lia.
Qed.

(** Events with the same fingerprint agree on every field that is
    shown, as long as no field before the message holds a bar (missing and empty
    fields count as equal): the feed drops no event that is new. *)
Theorem createEventFingerprint_inj event event' :
  Forall no_bar (fingerprint_head event) -> Forall no_bar (fingerprint_head event') ->
  createEventFingerprint event = createEventFingerprint event' ->
  fingerprint_head event = fingerprint_head event' /\
  opt_default (SystemEvent.message event) "" = opt_default (SystemEvent.message event') "".
Proof. intros H H' E. by apply (join_bar_inj (fingerprint_head event) (fingerprint_head event')). Qed.

Definition sample_event (message : option string) : SystemEvent :=
  {| SystemEvent.kind := "job.failed"; SystemEvent.jobId := Some "job-1";
     SystemEvent.queue := None; SystemEvent.workerId := None;
     SystemEvent.state := Some failed; SystemEvent.message := message;
     SystemEvent.timestamp := "2026-03-12T20:00:00Z" |}.

Lemma createEventFingerprint_inj_witness :
  fingerprint_head (sample_event None) = fingerprint_head (sample_event (Some "")) /\
  opt_default (SystemEvent.message (sample_event None)) "" =
  opt_default (SystemEvent.message (sample_event (Some ""))) "".
Proof.
  apply (createEventFingerprint_inj (sample_event None) (sample_event (Some "")));
    [| | reflexivity]; repeat constructor; intros H; vm_compute in H;
    repeat (destruct H as [H | H]; [discriminate |]); exact H.
Defined.
