(* ===== verification/LiveTransport.v ===== *)
(** [src/lib/live-transport.ts]: the manager of the realtime connection.

    The manager owns at most one WebSocket or one EventSource and two timers.
    Its handlers run to completion, so each is a function on the state [St]:
    the manager's fields, the browser's timers, sockets and event sources, and
    the calls made to the owner's callbacks. [Env] is what one handler run reads
    from outside: the clock, [Math.random], whether the WebSocket constructor
    throws. The callbacks do not call back into the manager. [perform] gives the
    effect of every action of the owner and of every browser event that the
    platform allows in a state; [step] is the relation they induce. *)

From stdpp Require Import base list strings gmap relations.
From Stdlib Require Import ZArith Lia Bool Ascii.
From S2P Require Import Prelude JsString JsNum JsDate JsValue Models ApiRoutes Safe Urls.

#[local] Open Scope Z_scope.

Definition WEBSOCKET_ATTEMPT_LIMIT : Z := 3.
Definition SSE_ATTEMPT_LIMIT : Z := 2.
Definition REALTIME_PROBE_DELAY_MS : Z := 90000.

Inductive RealtimeMode := websocket | sse.

#[export] Instance realtime_mode_eq_dec : EqDecision RealtimeMode.
Proof. solve_decision. Defined.

Definition transport_mode (m : RealtimeMode) : TransportMode :=
  match m with websocket => mode_websocket | sse => mode_sse end.

(** * Pure functions *)

(** [Math.round(x)] of a finite number, as an integer. The argument below is
    [0.3 * baseDelay * r] with [0 <= r < 1], which is finite; integers of this
    size are exact numbers, so the sums below are those of [Z]. *)
Definition round_to_Z (x : num) : Z :=
  match num_to_Z (num_round x) with Some z => z | None => 0 end.

Definition base_delay (attempt baseMs capMs : Z) : Z :=
  Z.min (baseMs * 2 ^ Z.max (attempt - 1) 0) capMs.

Definition getBackoffDelay (attempt baseMs capMs : Z) (random : num) : Z :=
  let baseDelay := base_delay attempt baseMs capMs in
  let jitter :=
    round_to_Z (num_mul (num_mul (num_of_Z baseDelay) (num_of_string "0.3")) random) in
  Z.min (baseDelay + jitter) capMs.

Definition formatTransportMode (mode : TransportMode) : string :=
  match mode with
  | mode_websocket => "Live (WebSocket)"
  | mode_sse => "Live (SSE)"
  | mode_polling => "Polling"
  | mode_degraded => "Degraded"
  | mode_offline => "Offline"
  | mode_demo => "Demo"
  end.

(** [message.data] *)
Inductive WireData :=
  | WireText (s : string)
  | WireBuffer (bytes : list Byte.byte)
  | WireOther (v : jsval).

(** What the browser provides: [EventSource] may be missing, and [TextDecoder]
    decodes buffers. *)
Class Browser := {
  has_EventSource : bool;
  decode_buffer : list Byte.byte -> string
}.

(** The event is handed on as parsed: an object with a string [kind]. *)
Definition parseTransportEvent `{Browser} (payload : WireData) : option jsval :=
  let raw :=
    match payload with
    | WireText s => s
    | WireBuffer b => decode_buffer b
    | WireOther v => to_js_string v
    end in
  match json_parse raw with
  | Some (VObj fs) =>
      match get_prop fs "kind" with
      | VStr _ => Some (VObj fs)
      | _ => None
      end
  | _ => None
  end.

(** * State *)

Inductive ReadyState := CONNECTING | OPEN | CLOSING | CLOSED.

#[export] Instance ready_state_eq_dec : EqDecision ReadyState.
Proof. solve_decision. Defined.

(** The four handlers are attached and detached together; [handlers] holds the
    [attempt] they close over, [opened] the variable they share. *)
Record WebSocket := mkSocket {
  readyState : ReadyState;
  handlers : option Z;
  opened : bool;
  close_on_open : bool
}.

Record EventSource := mkSource {
  sourceState : ReadyState;
  sourceHandlers : option Z
}.

(** Callbacks handed to [setTimeout]. *)
Inductive task :=
  | RetryTask (mode : RealtimeMode) (attempt : Z) (reason : string)
  | ProbeTask (reason : string).

(** Calls of the owner's callbacks. *)
Inductive output :=
  | OnStatus (status : TransportStatus)
  | OnEvent (event : jsval)
  | OnMalformedMessage.

(** The private fields; [status] groups the eight that [emitStatus] reports. *)
Record LiveTransportManager := mkManager {
  status : TransportStatus;
  stopped : bool;
  retryTimer : option nat;
  probeTimer : option nat;
  socket : option nat;
  eventSource : option nat
}.

(** [timers]: the armed timers with their callback and delay. [next]: the next
    fresh handle. [out]: the callbacks made so far, the latest first. *)
Record St := mkSt {
  manager : LiveTransportManager;
  timers : gmap nat (task * Z);
  sockets : gmap nat WebSocket;
  sources : gmap nat EventSource;
  next : nat;
  out : list output
}.

Record Env := mkEnv {
  now : Z;
  random : num;
  ws_constructor_throws : bool
}.

Record LiveTransportManagerOptions := {
  baseUrl : string;
  token : string
}.

Definition initial_status : TransportStatus :=
  {| TransportStatus.mode := mode_polling; TransportStatus.state := conn_idle;
     TransportStatus.attempt := 0; TransportStatus.lastMessageAt := "";
     TransportStatus.lastFailureAt := ""; TransportStatus.lastError := "";
     TransportStatus.degradedReason := ""; TransportStatus.nextRetryAt := "" |}.

Definition initial : St :=
  mkSt (mkManager initial_status false None None None None) ∅ ∅ ∅ 0 [].

(** ** Assignments to fields *)

Definition set_status (f : TransportStatus -> TransportStatus) (s : St) : St :=
  let m := manager s in
  mkSt (mkManager (f (status m)) (stopped m) (retryTimer m) (probeTimer m) (socket m)
          (eventSource m)) (timers s) (sockets s) (sources s) (next s) (out s).

Definition set_mode (v : TransportMode) : St -> St :=
  set_status (fun '(TransportStatus.mk _ b c d e f g h) => TransportStatus.mk v b c d e f g h).
Definition set_state (v : TransportConnectionState) : St -> St :=
  set_status (fun '(TransportStatus.mk a _ c d e f g h) => TransportStatus.mk a v c d e f g h).
Definition set_attempt (v : Z) : St -> St :=
  set_status (fun '(TransportStatus.mk a b _ d e f g h) => TransportStatus.mk a b v d e f g h).
Definition set_lastMessageAt (v : string) : St -> St :=
  set_status (fun '(TransportStatus.mk a b c _ e f g h) => TransportStatus.mk a b c v e f g h).
Definition set_lastFailureAt (v : string) : St -> St :=
  set_status (fun '(TransportStatus.mk a b c d _ f g h) => TransportStatus.mk a b c d v f g h).
Definition set_lastError (v : string) : St -> St :=
  set_status (fun '(TransportStatus.mk a b c d e _ g h) => TransportStatus.mk a b c d e v g h).
Definition set_degradedReason (v : string) : St -> St :=
  set_status (fun '(TransportStatus.mk a b c d e f _ h) => TransportStatus.mk a b c d e f v h).
Definition set_nextRetryAt (v : string) : St -> St :=
  set_status (fun '(TransportStatus.mk a b c d e f g _) => TransportStatus.mk a b c d e f g v).

Definition set_manager (m : LiveTransportManager) (s : St) : St :=
  mkSt m (timers s) (sockets s) (sources s) (next s) (out s).
Definition set_stopped (v : bool) (s : St) : St :=
  let m := manager s in
  set_manager (mkManager (status m) v (retryTimer m) (probeTimer m) (socket m) (eventSource m)) s.
Definition set_retryTimer (v : option nat) (s : St) : St :=
  let m := manager s in
  set_manager (mkManager (status m) (stopped m) v (probeTimer m) (socket m) (eventSource m)) s.
Definition set_probeTimer (v : option nat) (s : St) : St :=
  let m := manager s in
  set_manager (mkManager (status m) (stopped m) (retryTimer m) v (socket m) (eventSource m)) s.
Definition set_socket (v : option nat) (s : St) : St :=
  let m := manager s in
  set_manager (mkManager (status m) (stopped m) (retryTimer m) (probeTimer m) v (eventSource m)) s.
Definition set_eventSource (v : option nat) (s : St) : St :=
  let m := manager s in
  set_manager (mkManager (status m) (stopped m) (retryTimer m) (probeTimer m) (socket m) v) s.

(** ** The browser's side *)

Definition set_timers (t : gmap nat (task * Z)) (s : St) : St :=
  mkSt (manager s) t (sockets s) (sources s) (next s) (out s).
Definition set_sockets (w : gmap nat WebSocket) (s : St) : St :=
  mkSt (manager s) (timers s) w (sources s) (next s) (out s).
Definition set_sources (w : gmap nat EventSource) (s : St) : St :=
  mkSt (manager s) (timers s) (sockets s) w (next s) (out s).
Definition bump (s : St) : St :=
  mkSt (manager s) (timers s) (sockets s) (sources s) (S (next s)) (out s).
Definition emit (o : output) (s : St) : St :=
  mkSt (manager s) (timers s) (sockets s) (sources s) (next s) (o :: out s).

(** [setTimeout(t, delay)]: the handle is [next s]. *)
Definition setTimeout (t : task) (delay : Z) (s : St) : St :=
  bump (set_timers (<[next s := (t, delay)]> (timers s)) s).
Definition clearTimeout (id : nat) (s : St) : St := set_timers (delete id (timers s)) s.

(** [socket.close()] *)
Definition socket_close (w : WebSocket) : WebSocket :=
  mkSocket (match readyState w with CLOSED => CLOSED | _ => CLOSING end)
    (handlers w) (opened w) (close_on_open w).

Definition detach (w : WebSocket) : WebSocket :=
  mkSocket (readyState w) None (opened w) (close_on_open w).
Definition add_close_on_open (w : WebSocket) : WebSocket :=
  mkSocket (readyState w) (handlers w) (opened w) true.
Definition set_readyState (r : ReadyState) (w : WebSocket) : WebSocket :=
  mkSocket r (handlers w) (opened w) (close_on_open w).
Definition set_opened (w : WebSocket) : WebSocket :=
  mkSocket (readyState w) (handlers w) true (close_on_open w).

(** [source.close()] *)
Definition source_close (e : EventSource) : EventSource := mkSource CLOSED (sourceHandlers e).
Definition source_detach (e : EventSource) : EventSource := mkSource (sourceState e) None.
Definition set_sourceState (r : ReadyState) (e : EventSource) : EventSource :=
  mkSource r (sourceHandlers e).

(** * The manager *)

Section Transport.
Context `{UrlApi} `{Browser} (options : LiveTransportManagerOptions).

Definition emitStatus (s : St) : St := emit (OnStatus (status (manager s))) s.

Definition clearTimers (s : St) : St :=
  let s :=
    match retryTimer (manager s) with
    | Some id => set_retryTimer None (clearTimeout id s)
    | None => s
    end in
  match probeTimer (manager s) with
  | Some id => set_probeTimer None (clearTimeout id s)
  | None => s
  end.

(** A socket that is still connecting is closed once it opens. *)
Definition abandon_socket (w : WebSocket) : WebSocket :=
  let w := detach w in
  if decide (readyState w = CONNECTING) then add_close_on_open w else socket_close w.

Definition closeCurrent (s : St) : St :=
  let s :=
    match socket (manager s) with
    | Some id => set_socket None (set_sockets (alter abandon_socket id (sockets s)) s)
    | None => s
    end in
  match eventSource (manager s) with
  | Some id =>
      set_eventSource None
        (set_sources (alter (fun e => source_close (source_detach e)) id (sources s)) s)
  | None => s
  end.

Definition stop (nextState : TransportConnectionState) (s : St) : St :=
  let s := set_stopped true s in
  let s := clearTimers s in
  let s := closeCurrent s in
  let s := set_state nextState s in
  let s := set_attempt 0 s in
  let s := set_nextRetryAt "" s in
  emitStatus s.

Definition start (s : St) : St :=
  let s := set_stopped false s in
  let s := clearTimers s in
  set_retryTimer (Some (next s)) (setTimeout (RetryTask websocket 0 "") 0 s).

Section Handler.
Context (env : Env).

Definition scheduleProbe (t : task) (delayMs : Z) (s : St) : St :=
  if stopped (manager s) then s
  else
    let s := set_nextRetryAt (iso_of_time (now env + delayMs)) s in
    let s := emitStatus s in
    set_probeTimer (Some (next s)) (setTimeout t delayMs s).

Definition enterPolling (reason : string) (s : St) : St :=
  let s := clearTimers s in
  let s := closeCurrent s in
  let s := set_mode mode_polling s in
  let s := set_state conn_polling s in
  let s := set_attempt 0 s in
  let s := set_degradedReason reason s in
  let s := set_lastFailureAt (iso_of_time (now env)) s in
  let s := set_lastError reason s in
  let s := emitStatus s in
  scheduleProbe (ProbeTask "Retrying realtime transport after polling fallback.")
    REALTIME_PROBE_DELAY_MS s.

Definition scheduleRetry (mode : RealtimeMode) (attempt : Z) (reason : string) (s : St) : St :=
  let s := set_lastFailureAt (iso_of_time (now env)) s in
  let delayMs :=
    getBackoffDelay attempt (if decide (mode = websocket) then 900 else 1500)
      (if decide (mode = websocket) then 12000 else 20000) (random env) in
  let s := set_nextRetryAt (iso_of_time (now env + delayMs)) s in
  let s := set_degradedReason reason s in
  let s := set_mode (transport_mode mode) s in
  let s := set_state conn_connecting s in
  let s := set_attempt attempt s in
  let s := emitStatus s in
  set_retryTimer (Some (next s)) (setTimeout (RetryTask mode attempt reason) delayMs s).

Definition sseUrl : option string :=
  buildStreamUrl (Some (baseUrl options)) REALTIME_ROUTES.sse (Some (token options)) None.

Definition openEventSource (attempt : Z) (s : St) : St :=
  if negb has_EventSource then
    enterPolling "Server-Sent Events are not supported in this browser." s
  else if negb (opt_truthy sseUrl) then enterPolling "Invalid SSE URL." s
  else
    let source := next s in
    let s := bump (set_sources (<[source := mkSource CONNECTING (Some attempt)]> (sources s)) s) in
    set_eventSource (Some source) s.

(** The part of [connect] before the channel is opened. *)
Definition begin_connect (mode : RealtimeMode) (attempt : Z) (reason : string) (s : St) : St :=
  let s := clearTimers s in
  let s := closeCurrent s in
  let s := set_mode (transport_mode mode) s in
  let s := set_state conn_connecting s in
  let s := set_attempt attempt s in
  let s := if truthy reason then set_degradedReason reason s else s in
  emitStatus s.

(** [connect("sse", attempt, reason)]; [connect] itself is defined below,
    after the failure handler that calls it in this mode only. *)
Definition connect_sse (attempt : Z) (reason : string) (s : St) : St :=
  if stopped (manager s) then s
  else openEventSource attempt (begin_connect sse attempt reason s).

Definition handleRealtimeFailure (mode : RealtimeMode) (attempt : Z) (reason : string)
    (s : St) : St :=
  if stopped (manager s) then s
  else
    let s := set_lastFailureAt (iso_of_time (now env)) s in
    let s := set_lastError reason s in
    match mode with
    | websocket =>
        if attempt + 1 <? WEBSOCKET_ATTEMPT_LIMIT then scheduleRetry websocket (attempt + 1) reason s
        else if has_EventSource && opt_truthy sseUrl then
          connect_sse 0 "WebSocket upgrades failed. Falling back to SSE." s
        else enterPolling "WebSocket upgrades failed and SSE is unavailable." s
    | sse =>
        if attempt + 1 <? SSE_ATTEMPT_LIMIT then scheduleRetry sse (attempt + 1) reason s
        else
          enterPolling "Realtime stream unavailable. Using polling until a later probe succeeds." s
    end.

Definition openWebSocket (attempt : Z) (s : St) : St :=
  let socketUrl := buildSocketUrl (Some (baseUrl options)) (token options) in
  if negb (opt_truthy socketUrl) then enterPolling "Invalid WebSocket URL." s
  else if ws_constructor_throws env then
    handleRealtimeFailure websocket attempt "WebSocket initialization failed." s
  else
    let id := next s in
    let s :=
      bump (set_sockets (<[id := mkSocket CONNECTING (Some attempt) false false]> (sockets s)) s) in
    set_socket (Some id) s.

Definition connect (mode : RealtimeMode) (attempt : Z) (reason : string) (s : St) : St :=
  if stopped (manager s) then s
  else
    let s := begin_connect mode attempt reason s in
    match mode with
    | websocket => openWebSocket attempt s
    | sse => openEventSource attempt s
    end.

Definition retryNow (s : St) : St :=
  if stopped (manager s) then s
  else
    let s := clearTimers s in
    let s := set_degradedReason "" s in
    let s := set_lastError "" s in
    let s := set_nextRetryAt "" s in
    connect websocket 0 "Manual reconnect requested." s.

(** ** Handlers of a socket *)

(** The guard every handler starts with, negated. *)
Definition socket_current (id : nat) (s : St) : bool :=
  bool_decide (socket (manager s) = Some id) && negb (stopped (manager s)).
Definition source_current (id : nat) (s : St) : bool :=
  bool_decide (eventSource (manager s) = Some id) && negb (stopped (manager s)).

Definition mark_live (mode : TransportMode) (s : St) : St :=
  let s := set_mode mode s in
  let s := set_state conn_live s in
  let s := set_attempt 0 s in
  let s := set_degradedReason "" s in
  let s := set_lastError "" s in
  let s := set_nextRetryAt "" s in
  emitStatus s.

Definition socket_onopen (id : nat) (s : St) : St :=
  if negb (socket_current id s) then s
  else
    let s := set_sockets (alter set_opened id (sockets s)) s in
    mark_live mode_websocket s.

(** The body [socket.onmessage] and [source.onmessage] share. *)
Definition receive (data : WireData) (s : St) : St :=
  match parseTransportEvent data with
  | None => emit OnMalformedMessage s
  | Some event =>
      let s := set_lastMessageAt (iso_of_time (now env)) s in
      let s := emit (OnEvent event) s in
      emitStatus s
  end.

Definition socket_onmessage (id : nat) (data : WireData) (s : St) : St :=
  if negb (socket_current id s) then s else receive data s.

Definition socket_onerror (id : nat) (s : St) : St :=
  if negb (socket_current id s) then s
  else emitStatus (set_lastError "WebSocket transport error." s).

(** [code] is a number; zero counts as unknown. *)
Definition close_reason (code : Z) (reason : string) : string :=
  or_else (trim reason)
    ("WebSocket closed (" +:+ (if code =? 0 then "unknown" else dec code) +:+ ").").

Definition socket_onclose (id : nat) (attempt : Z) (opened : bool) (code : Z) (reason : string)
    (s : St) : St :=
  if negb (socket_current id s) then s
  else
    let s := set_socket None s in
    let reason := close_reason code reason in
    handleRealtimeFailure websocket attempt
      (if opened then reason else "WebSocket upgrade failed: " +:+ reason) s.

(** ** Handlers of an event source *)

Definition source_onopen (id : nat) (s : St) : St :=
  if negb (source_current id s) then s
  else
    scheduleProbe (ProbeTask "Probing WebSocket recovery after SSE fallback.")
      REALTIME_PROBE_DELAY_MS (mark_live mode_sse s).

Definition source_onmessage (id : nat) (data : WireData) (s : St) : St :=
  if negb (source_current id s) then s else receive data s.

Definition source_onerror (id : nat) (attempt : Z) (s : St) : St :=
  if negb (source_current id s) then s
  else
    let s := set_sources (alter source_close id (sources s)) s in
    let s := set_eventSource None s in
    handleRealtimeFailure sse attempt "SSE stream disconnected." s.

(** ** Timer callbacks *)

Definition run_task (t : task) (s : St) : St :=
  match t with
  | RetryTask mode attempt reason => connect mode attempt reason (set_retryTimer None s)
  | ProbeTask reason =>
      connect websocket 0 reason (set_nextRetryAt "" (set_probeTimer None s))
  end.

(** * Actions *)

(** Calls of the owner, and events of the browser. *)
Inductive action :=
  | Start
  | Stop (nextState : TransportConnectionState)
  | RetryNow
  | FireTimer (id : nat)
  | SocketOpen (id : nat)
  | SocketMessage (id : nat) (data : WireData)
  | SocketError (id : nat)
  | SocketClose (id : nat) (code : Z) (reason : string)
  | SourceOpen (id : nat)
  | SourceMessage (id : nat) (data : WireData)
  | SourceError (id : nat) (fatal : bool).

(** Run a handler that may be detached. *)
Definition attached (handler : option Z) (k : Z -> St -> St) (s : St) : St :=
  match handler with Some attempt => k attempt s | None => s end.

(** The listener [closeCurrent] leaves on an abandoned socket. *)
Definition close_if_abandoned (id : nat) (s : St) : St :=
  set_sockets
    (alter (fun w => if close_on_open w then socket_close w else w) id (sockets s)) s.

(** [None]: the platform does not produce this event in this state. A timer
    fires once, when armed; a socket opens once, delivers messages while open,
    and reports its closure once; a closed event source is silent. *)
Definition perform (a : action) (s : St) : option St :=
  match a with
  | Start => Some (start s)
  | Stop nextState => Some (stop nextState s)
  | RetryNow => Some (retryNow s)
  | FireTimer id =>
      '(t, _) ← timers s !! id;
      Some (run_task t (clearTimeout id s))
  | SocketOpen id =>
      w ← sockets s !! id;
      if decide (readyState w = CONNECTING) then
        let s := set_sockets (alter (set_readyState OPEN) id (sockets s)) s in
        let s := attached (handlers w) (fun _ => socket_onopen id) s in
        Some (close_if_abandoned id s)
      else None
  | SocketMessage id data =>
      w ← sockets s !! id;
      if decide (readyState w = OPEN) then
        Some (attached (handlers w) (fun _ => socket_onmessage id data) s)
      else None
  | SocketError id =>
      w ← sockets s !! id;
      if decide (readyState w <> CLOSED) then
        Some (attached (handlers w) (fun _ => socket_onerror id) s)
      else None
  | SocketClose id code reason =>
      w ← sockets s !! id;
      if decide (readyState w <> CLOSED) then
        let s := set_sockets (alter (set_readyState CLOSED) id (sockets s)) s in
        Some (attached (handlers w)
          (fun attempt => socket_onclose id attempt (opened w) code reason) s)
      else None
  | SourceOpen id =>
      e ← sources s !! id;
      if decide (sourceState e = CONNECTING) then
        let s := set_sources (alter (set_sourceState OPEN) id (sources s)) s in
        Some (attached (sourceHandlers e) (fun _ => source_onopen id) s)
      else None
  | SourceMessage id data =>
      e ← sources s !! id;
      if decide (sourceState e = OPEN) then
        Some (attached (sourceHandlers e) (fun _ => source_onmessage id data) s)
      else None
  | SourceError id fatal =>
      e ← sources s !! id;
      if decide (sourceState e <> CLOSED) then
        let s :=
          set_sources
            (alter (set_sourceState (if fatal then CLOSED else CONNECTING)) id (sources s)) s in
        Some (attached (sourceHandlers e) (fun attempt => source_onerror id attempt) s)
      else None
  end.
End Handler.

(** ** The protocol of the owner *)

(** The hook that owns the manager starts a new or stopped manager, and stops
    one in the states idle, demo, polling and paused. *)
Definition polite (a : action) (s : St) : Prop :=
  match a with
  | Start => stopped (manager s) = true \/ s = initial
  | Stop nextState => nextState <> conn_live
  | _ => True
  end.

(** [Math.random()] is in [\[0, 1)]. *)
Definition valid_env (env : Env) : Prop :=
  num_le (num_of_Z 0) (random env) = true /\ num_lt (random env) (num_of_Z 1) = true.

Inductive step : St -> St -> Prop :=
  | step_perform env a s s' :
      valid_env env -> polite a s -> perform env a s = Some s' -> step s s'.

Definition reachable : St -> Prop := rtc step initial.

(** Run a list of actions, each in its environment. *)
Fixpoint run (l : list (Env * action)) (s : St) : option St :=
  match l with
  | [] => Some s
  | (env, a) :: l' => s' ← perform env a s; run l' s'
  end.
End Transport.

(** * The shape of reachable states *)

(** A socket the manager has let go: closed, or closing, or closed as soon as
    it opens; none of its handlers can act. *)
Definition abandoned (w : WebSocket) : Prop :=
  readyState w = CLOSED \/
  handlers w = None /\ (readyState w = CLOSING \/ readyState w = CONNECTING /\ close_on_open w = true).

(** Every socket and source below [n] is abandoned. *)
Record background (ws : gmap nat WebSocket) (es : gmap nat EventSource) (n : nat) : Prop := {
  background_sockets : forall id w, ws !! id = Some w -> (id < n)%nat /\ abandoned w;
  background_sources : forall id e, es !! id = Some e -> (id < n)%nat /\ sourceState e = CLOSED
}.

(** The timers when only the probe may be armed. *)
Definition probe_timers (p : option (nat * string)) : gmap nat (task * Z) :=
  match p with
  | Some (id, reason) => {[id := (ProbeTask reason, REALTIME_PROBE_DELAY_MS)]}
  | None => ∅
  end.

Definition probe_below (p : option (nat * string)) (n : nat) : Prop :=
  match p with Some (id, _) => (id < n)%nat | None => True end.

(** The latest status the owner was told, if any. *)
Fixpoint last_status (o : list output) : option TransportStatus :=
  match o with
  | [] => None
  | OnStatus st :: _ => Some st
  | _ :: o' => last_status o'
  end.

(** What the owner knows is the current status. *)
Definition coherent (st : TransportStatus) (o : list output) : Prop :=
  last_status o = Some st \/ last_status o = None /\ st = initial_status.

Definition well_formed_event (o : output) : Prop :=
  match o with
  | OnEvent v => exists fs k, v = VObj fs /\ get_prop fs "kind" = VStr k
  | _ => True
  end.

Definition log_ok (st : TransportStatus) (o : list output) : Prop :=
  coherent st o /\ Forall well_formed_event o.

Definition attempt_limit (m : RealtimeMode) : Z :=
  match m with websocket => WEBSOCKET_ATTEMPT_LIMIT | sse => SSE_ATTEMPT_LIMIT end.

Definition attempt_ok (m : RealtimeMode) (a : Z) : Prop := 0 <= a < attempt_limit m.

Definition retry_base (m : RealtimeMode) : Z := match m with websocket => 900 | sse => 1500 end.
Definition retry_cap (m : RealtimeMode) : Z := match m with websocket => 12000 | sse => 20000 end.

(** The delay of an armed retry: at once for the first attempt, and the backoff
    of its attempt otherwise. *)
Definition retry_delay_ok (m : RealtimeMode) (a d : Z) : Prop :=
  a = 0 /\ d = 0 \/
  0 < a /\ base_delay a (retry_base m) (retry_cap m) <= d <= retry_cap m.

Definition channel_state (open : bool) : TransportConnectionState :=
  if open then conn_live else conn_connecting.

Definition channel_ready (open : bool) : ReadyState := if open then OPEN else CONNECTING.

(** What the status says about a channel: its mode, and whether it is open. *)
Definition describes (m : RealtimeMode) (open : bool) (attempt : Z) (st : TransportStatus) : Prop :=
  TransportStatus.mode st = transport_mode m /\
  TransportStatus.state st = channel_state open /\
  TransportStatus.attempt st = (if open then 0 else attempt).

Definition refs (retry : option nat) (p : option (nat * string)) (sock src : option nat)
    (st : TransportStatus) (stop : bool) : LiveTransportManager :=
  mkManager st stop retry (fst <$> p) sock src.

(** The manager between two handler runs: never used, stopped, waiting for a
    retry (an old probe may still be armed), holding a socket, holding a source
    (with a probe once it is open), or polling until a probe. *)
Inductive phase : St -> Prop :=
  | phase_initial : phase initial
  | phase_stopped st ws es n o :
      background ws es n -> log_ok st o -> TransportStatus.state st <> conn_live ->
      phase (mkSt (refs None None None None st true) ∅ ws es n o)
  | phase_retry st ws es n o p id m a r d :
      background ws es n -> log_ok st o -> TransportStatus.state st <> conn_live ->
      (id < n)%nat -> probe_below p id -> attempt_ok m a -> retry_delay_ok m a d ->
      phase (mkSt (refs (Some id) p None None st false)
               (<[id := (RetryTask m a r, d)]> (probe_timers p)) ws es n o)
  | phase_socket st ws es n o id a open :
      background ws es n -> log_ok st o -> ws !! id = None -> (id < n)%nat ->
      attempt_ok websocket a -> describes websocket open a st ->
      phase (mkSt (refs None None (Some id) None st false) ∅
               (<[id := mkSocket (channel_ready open) (Some a) open false]> ws) es n o)
  | phase_source st ws es n o p id a open :
      background ws es n -> log_ok st o -> es !! id = None -> (id < n)%nat ->
      probe_below p n -> is_Some p <-> open = true ->
      attempt_ok sse a -> describes sse open a st ->
      phase (mkSt (refs None p None (Some id) st false) (probe_timers p)
               ws (<[id := mkSource (channel_ready open) (Some a)]> es) n o)
  | phase_polling st ws es n o id r :
      background ws es n -> log_ok st o -> (id < n)%nat ->
      TransportStatus.mode st = mode_polling -> TransportStatus.state st = conn_polling ->
      phase (mkSt (refs None (Some (id, r)) None None st false)
               (probe_timers (Some (id, r))) ws es n o).

(** Position on the fallback ladder: how many failures away polling is, for a
    channel or a retry of the given mode and attempt. *)
Definition rung (m : RealtimeMode) (a : Z) : Z :=
  match m with
  | websocket => WEBSOCKET_ATTEMPT_LIMIT + SSE_ATTEMPT_LIMIT - a
  | sse => SSE_ATTEMPT_LIMIT - a
  end.

(** Twice the rung of the current channel, one more for a retry still to come,
    zero for a manager that polls, is stopped or was never started. *)
Definition rank (s : St) : Z :=
  match socket (manager s), eventSource (manager s), retryTimer (manager s) with
  | Some id, _, _ =>
      match sockets s !! id ≫= handlers with Some a => 2 * rung websocket a | None => 0 end
  | None, Some id, _ =>
      match sources s !! id ≫= sourceHandlers with Some a => 2 * rung sse a | None => 0 end
  | None, None, Some id =>
      match timers s !! id with Some (RetryTask m a _, _) => 2 * rung m a + 1 | _ => 0 end
  | None, None, None => 0
  end.

(** [lands k s]: a state between handler runs, at most [k] up the ladder. *)
Definition lands (k : Z) (s : St) : Prop := phase s /\ rank s <= k.

(** [clearTimers] then [closeCurrent] leave nothing behind. *)
Definition tidy (s : St) : Prop :=
  exists ws es,
    closeCurrent (clearTimers s) =
      mkSt (refs None None None None (status (manager s)) (stopped (manager s))) ∅ ws es
        (next s) (out s) /\
    background ws es (next s).

(** * Lemmas *)

(** ** Backoff *)

Lemma round_to_Z_nonneg x : nonneg x = true -> 0 <= round_to_Z x.
Proof.
  intros H. unfold round_to_Z. destruct (num_to_Z (num_round x)) as [z|] eqn:E; [| lia].
  by eapply num_to_Z_nonneg, E; apply num_round_nonneg.
Qed.

Lemma getBackoffDelay_bounds attempt baseMs capMs random :
  0 <= baseMs -> 0 <= capMs -> num_le (num_of_Z 0) random = true ->
  base_delay attempt baseMs capMs <= getBackoffDelay attempt baseMs capMs random <= capMs.
Proof.
  intros Hb Hc Hr. unfold getBackoffDelay.
  pose proof (round_to_Z_nonneg
    (num_mul (num_mul (num_of_Z (base_delay attempt baseMs capMs)) (num_of_string "0.3")) random)) as H.
  assert (0 <= base_delay attempt baseMs capMs <= capMs) as Hd.
  { unfold base_delay. pose proof (Z.pow_nonneg 2 (Z.max (attempt - 1) 0)). nia. }
  assert (nonneg (num_mul (num_mul (num_of_Z (base_delay attempt baseMs capMs))
            (num_of_string "0.3")) random) = true) as Hn.
  { apply num_mul_nonneg; [| by apply num_le_zero_nonneg].
    apply num_mul_nonneg; [apply num_of_Z_nonneg; lia | done]. }
  specialize (H Hn). lia.
Qed.

(** Compute the assignments of a handler on an explicit state. *)
Ltac run_assignments :=
  cbv [set_mode set_state set_attempt set_lastMessageAt set_lastFailureAt set_lastError
       set_degradedReason set_nextRetryAt set_status set_manager set_stopped set_retryTimer
       set_probeTimer set_socket set_eventSource set_timers set_sockets set_sources bump emit
       emitStatus setTimeout manager timers sockets sources next out status stopped retryTimer
       probeTimer socket eventSource refs scheduleProbe mark_live].

Ltac ladder :=
  unfold attempt_ok, attempt_limit, rung, WEBSOCKET_ATTEMPT_LIMIT, SSE_ATTEMPT_LIMIT in *; lia.

(** ** Abandoned channels *)

Lemma background_mono ws es n n' : background ws es n -> (n <= n')%nat -> background ws es n'.
Proof.
  intros [H1 H2] Hn. split; intros id x Hx; [destruct (H1 id x Hx) | destruct (H2 id x Hx)];
    (split; [lia | done]).
Qed.

Lemma background_socket ws es n id w :
  background ws es n -> (id < n)%nat -> abandoned w -> background (<[id := w]> ws) es n.
Proof.
  intros [H1 H2] Hid Hw. split; [| done]. intros id' w'. rewrite lookup_insert_Some. naive_solver.
Qed.

Lemma background_source ws es n id e :
  background ws es n -> (id < n)%nat -> sourceState e = CLOSED ->
  background ws (<[id := e]> es) n.
Proof.
  intros [H1 H2] Hid He. split; [done |]. intros id' e'. rewrite lookup_insert_Some. naive_solver.
Qed.

Lemma background_fresh ws es n id :
  background ws es n -> (n <= id)%nat -> ws !! id = None /\ es !! id = None.
Proof.
  intros [H1 H2] Hid. split; apply eq_None_not_Some; intros [x Hx];
    [apply H1 in Hx | apply H2 in Hx]; lia.
Qed.

Lemma background_empty n : background ∅ ∅ n.
Proof. by split; intros ? ?; rewrite lookup_empty. Qed.

Lemma abandon_socket_abandoned w : abandoned (abandon_socket w).
Proof.
  unfold abandoned, abandon_socket. destruct w as [[] h o c]; cbn; auto.
Qed.

(** ** Tidying up *)

Definition retry_timers (r : option (nat * (task * Z))) (t : gmap nat (task * Z)) :=
  match r with Some (id, x) => <[id := x]> t | None => t end.
Definition with_current {A} (c : option (nat * A)) (m : gmap nat A) : gmap nat A :=
  match c with Some (id, x) => <[id := x]> m | None => m end.
Definition below {A} (c : option (nat * A)) (n : nat) : Prop :=
  match c with Some (id, _) => (id < n)%nat | None => True end.

Lemma clear_retry_timers id x p j r :
  id <> j -> p = Some (j, r) ->
  delete j (delete id (<[id := x]> (probe_timers p))) = ∅.
Proof.
  intros Hne ->. cbn. rewrite delete_insert_id by by rewrite lookup_singleton_ne.
  apply delete_singleton_eq.
Qed.

Lemma clearTimers_shape st b r p sock src ws es n o :
  (forall i x j y, r = Some (i, x) -> p = Some (j, y) -> i <> j) ->
  clearTimers (mkSt (refs (fst <$> r) p sock src st b) (retry_timers r (probe_timers p)) ws es n o) =
  mkSt (refs None None sock src st b) ∅ ws es n o.
Proof.
  intros Hne. unfold clearTimers, refs, set_retryTimer, set_probeTimer, set_manager, clearTimeout,
    set_timers. destruct r as [[i x]|], p as [[j y]|]; cbn; f_equal.
  - eapply (clear_retry_timers i x (Some (j, y))); [by eapply Hne | done].
  - rewrite insert_empty. apply delete_singleton_eq.
  - apply delete_singleton_eq.
Qed.

Lemma tidy_shape st b r p sock src ws es n o :
  background ws es n -> below sock n -> below src n ->
  (forall i x j y, r = Some (i, x) -> p = Some (j, y) -> i <> j) ->
  tidy (mkSt (refs (fst <$> r) p (fst <$> sock) (fst <$> src) st b)
          (retry_timers r (probe_timers p)) (with_current sock ws) (with_current src es) n o).
Proof.
  intros Hbg Hsock Hsrc Hne. unfold tidy. rewrite clearTimers_shape by done.
  cbn [next out status stopped manager refs].
  destruct sock as [[i w]|], src as [[j e]|]; cbn in *;
    unfold closeCurrent, set_socket, set_eventSource, set_manager, set_sockets, set_sources, refs;
    cbn; rewrite ?alter_insert_eq;
    do 2 eexists; (split; [reflexivity |]);
    repeat first [apply background_socket | apply background_source];
    auto using abandon_socket_abandoned.
Qed.

(** ** The operations land on the ladder *)

Lemma log_ok_report st o : Forall well_formed_event o -> log_ok st (OnStatus st :: o).
Proof. intros H. split; [by left | by constructor]. Qed.

Lemma rank_socket r p id st b T w a ws es n o :
  handlers w = Some a ->
  rank (mkSt (refs r p (Some id) None st b) T (<[id := w]> ws) es n o) = 2 * rung websocket a.
Proof. intros Hw. unfold rank. cbn. by rewrite lookup_insert_eq; cbn; rewrite Hw. Qed.

Lemma rank_source r p id st b T e a ws es n o :
  sourceHandlers e = Some a ->
  rank (mkSt (refs r p None (Some id) st b) T ws (<[id := e]> es) n o) = 2 * rung sse a.
Proof. intros He. unfold rank. cbn. by rewrite lookup_insert_eq; cbn; rewrite He. Qed.

Lemma rank_no_channel st r p ws es n o stop T :
  r = None -> rank (mkSt (refs r p None None st stop) T ws es n o) = 0.
Proof. by intros ->. Qed.

Section Lands.
Context `{UrlApi} `{Browser} (options : LiveTransportManagerOptions) (env : Env).

Lemma begin_connect_shape mode a reason s :
  tidy s ->
  exists ws es st,
    begin_connect mode a reason s =
      mkSt (refs None None None None st (stopped (manager s))) ∅ ws es (next s)
        (OnStatus st :: out s) /\
    background ws es (next s) /\ describes mode false a st.
Proof.
  intros (ws & es & E & Hb). unfold begin_connect. rewrite E.
  destruct (status (manager s)) as [m st at1 lm lf le dr nr]. destruct s as [[] ? ? ? ? ?].
  destruct (truthy reason); run_assignments; do 3 eexists; (split; [reflexivity |]); done.
Qed.

Lemma enterPolling_lands reason s :
  tidy s -> stopped (manager s) = false -> Forall well_formed_event (out s) ->
  lands 0 (enterPolling env reason s).
Proof.
  intros (ws & es & E & Hb) Hs Ho. unfold enterPolling. rewrite E, Hs.
  destruct (status (manager s)) as [m st at1 lm lf le dr nr]. destruct s as [[] ? ? ? n o].
  cbn in Hb, Ho, Hs |- *. run_assignments. split; [| done].
  refine (phase_polling _ ws es (S n) _ n _ _ _ _ _ _).
  - eapply background_mono; [done | lia].
  - apply log_ok_report. by constructor.
  - lia.
  - done.
  - done.
Qed.

Lemma openEventSource_lands a s st ws es n o :
  s = mkSt (refs None None None None st false) ∅ ws es n (OnStatus st :: o) ->
  background ws es n -> Forall well_formed_event o ->
  describes sse false a st -> attempt_ok sse a ->
  lands (2 * rung sse a) (openEventSource options env a s).
Proof.
  intros -> Hb Ho Hst Ha. unfold openEventSource.
  assert (forall reason, lands (2 * rung sse a) (enterPolling env reason
    (mkSt (refs None None None None st false) ∅ ws es n (OnStatus st :: o)))) as Hpoll.
  { intros reason. destruct (enterPolling_lands reason
      (mkSt (refs None None None None st false) ∅ ws es n (OnStatus st :: o))) as [Hp Hr].
    - by apply (tidy_shape st false None None None None).
    - done.
    - by constructor.
    - split; [done |]. unfold rung, attempt_ok, attempt_limit, SSE_ATTEMPT_LIMIT in *. lia. }
  destruct (negb has_EventSource); [apply Hpoll |].
  destruct (negb (opt_truthy (sseUrl options))); [apply Hpoll |].
  destruct (background_fresh ws es n n Hb) as [_ Hn]; [lia |]. run_assignments. split.
  - refine (phase_source st ws es (S n) _ None n a false _ _ _ _ _ _ _ _); auto;
      [eapply background_mono; [done | lia] | by apply log_ok_report | done |].
    split; [by intros [? ?] | done].
  - unfold rank. cbn. rewrite lookup_insert_eq. cbn. lia.
Qed.

Lemma connect_sse_lands a reason s :
  tidy s -> stopped (manager s) = false -> Forall well_formed_event (out s) ->
  attempt_ok sse a ->
  lands (2 * rung sse a) (connect_sse options env a reason s).
Proof.
  intros Ht Hs Ho Ha. unfold connect_sse. rewrite Hs.
  destruct (begin_connect_shape sse a reason s Ht) as (ws & es & st & E & Hb & Hst).
  rewrite Hs in E. by eapply openEventSource_lands.
Qed.

(** After a failure the manager holds no channel and no retry. *)
Lemma scheduleRetry_lands mode a reason st p ws es n o :
  valid_env env -> background ws es n -> Forall well_formed_event o -> probe_below p n ->
  attempt_ok mode a -> 0 < a ->
  lands (2 * rung mode a + 1)
    (scheduleRetry env mode a reason
       (mkSt (refs None p None None st false) (probe_timers p) ws es n o)).
Proof.
  intros [Hr _] Hb Ho Hp Ha Ha0. destruct st as [m st at1 lm lf le dr nr].
  unfold scheduleRetry. run_assignments. split.
  - refine (phase_retry _ ws es (S n) _ p n mode a reason _ _ _ _ _ _ _ _).
    + eapply background_mono; [done | lia].
    + by apply log_ok_report.
    + done.
    + lia.
    + done.
    + done.
    + right. split; [done |]. destruct mode; cbn; by apply getBackoffDelay_bounds.
  - unfold rank. cbn. rewrite lookup_insert_eq. lia.
Qed.

Lemma handleRealtimeFailure_lands mode a reason st p ws es n o :
  valid_env env -> background ws es n -> Forall well_formed_event o -> probe_below p n ->
  attempt_ok mode a ->
  lands (2 * rung mode a - 1)
    (handleRealtimeFailure options env mode a reason
       (mkSt (refs None p None None st false) (probe_timers p) ws es n o)).
Proof.
  intros He Hb Ho Hp Ha. destruct st as [m st at1 lm lf le dr nr].
  set (st' := TransportStatus.mk m st at1 lm (iso_of_time (now env)) reason dr nr).
  set (s1 := mkSt (refs None p None None st' false) (probe_timers p) ws es n o).
  assert (tidy s1) as Ht by (by apply (tidy_shape st' false None p None None)).
  assert (forall k s, lands k s -> k <= 2 * rung mode a - 1 -> lands (2 * rung mode a - 1) s)
    as Hweak by (intros k s [Hph Hk] Hle; split; [done | lia]).
  unfold attempt_ok, attempt_limit, rung, WEBSOCKET_ATTEMPT_LIMIT, SSE_ATTEMPT_LIMIT in *.
  unfold handleRealtimeFailure.
  change (set_lastError reason (set_lastFailureAt (iso_of_time (now env))
    (mkSt (refs None p None None (TransportStatus.mk m st at1 lm lf le dr nr) false)
       (probe_timers p) ws es n o))) with s1.
  destruct mode; cbn [stopped manager refs].
  - unfold WEBSOCKET_ATTEMPT_LIMIT. destruct (Z.ltb_spec (a + 1) 3).
    + eapply Hweak; [apply scheduleRetry_lands; try done; ladder |]. ladder.
    + destruct (_ && _).
      * eapply Hweak; [apply connect_sse_lands; try done; ladder |]. ladder.
      * eapply Hweak; [by apply enterPolling_lands |]. ladder.
  - unfold SSE_ATTEMPT_LIMIT. destruct (Z.ltb_spec (a + 1) 2).
    + eapply Hweak; [apply scheduleRetry_lands; try done; ladder |]. ladder.
    + eapply Hweak; [by apply enterPolling_lands |]. ladder.
Qed.

Lemma lands_weaken k k' s : lands k s -> k <= k' -> lands k' s.
Proof. intros [Hp Hk] Hle. split; [done | lia]. Qed.

Lemma openWebSocket_lands a st ws es n o :
  valid_env env -> background ws es n -> Forall well_formed_event o ->
  describes websocket false a st -> attempt_ok websocket a ->
  lands (2 * rung websocket a)
    (openWebSocket options env a
       (mkSt (refs None None None None st false) ∅ ws es n (OnStatus st :: o))).
Proof.
  intros He Hb Ho Hst Ha. unfold openWebSocket.
  destruct (negb _).
  { eapply lands_weaken; [apply enterPolling_lands |]; [| done | by constructor | ladder].
    by apply (tidy_shape st false None None None None). }
  destruct (ws_constructor_throws env).
  { eapply lands_weaken;
      [apply (handleRealtimeFailure_lands websocket a _ st None) | ladder]; try done.
    by constructor. }
  destruct (background_fresh ws es n n Hb) as [Hn _]; [lia |]. run_assignments. split.
  - refine (phase_socket st ws es (S n) _ n a false _ _ _ _ _ _); auto;
      [eapply background_mono; [done | lia] | by apply log_ok_report].
  - unfold rank. cbn. rewrite lookup_insert_eq. cbn. lia.
Qed.

Lemma connect_lands mode a reason s :
  valid_env env -> tidy s -> stopped (manager s) = false ->
  Forall well_formed_event (out s) -> attempt_ok mode a ->
  lands (2 * rung mode a) (connect options env mode a reason s).
Proof.
  intros He Ht Hs Ho Ha. unfold connect. rewrite Hs.
  destruct (begin_connect_shape mode a reason s Ht) as (ws & es & st & -> & Hb & Hst).
  rewrite Hs. destruct mode; [by apply openWebSocket_lands | by eapply openEventSource_lands].
Qed.

Lemma run_task_lands t s :
  valid_env env -> stopped (manager s) = false -> Forall well_formed_event (out s) ->
  match t with
  | RetryTask m a _ => attempt_ok m a /\ tidy (set_retryTimer None s)
  | ProbeTask _ => tidy (set_nextRetryAt "" (set_probeTimer None s))
  end ->
  lands (match t with RetryTask m a _ => 2 * rung m a | _ => 2 * rung websocket 0 end)
    (run_task options env t s).
Proof.
  intros He Hs Ho. destruct t as [m a r | r]; cbn [run_task].
  - intros [Ha Ht]. by apply connect_lands.
  - intros Ht. apply connect_lands; done || ladder.
Qed.
End Lands.

(** ** Preservation *)

Lemma phase_log s : phase s -> log_ok (status (manager s)) (out s).
Proof. intros []; try done. split; [by right | constructor]. Qed.

(** Every phase is an instance of the shape [tidy_shape] is about. *)
Lemma phase_shape s :
  phase s ->
  exists r p sock src ws es,
    s = mkSt (refs (fst <$> r) p (fst <$> sock) (fst <$> src) (status (manager s))
                (stopped (manager s)))
          (retry_timers r (probe_timers p)) (with_current sock ws) (with_current src es)
          (next s) (out s) /\
    background ws es (next s) /\ below sock (next s) /\ below src (next s) /\
    (forall i x j y, r = Some (i, x) -> p = Some (j, y) -> i <> j).
Proof.
  intros [].
  - exists None, None, None, None, ∅, ∅. split; [done |]. split; [apply background_empty | done].
  - by exists None, None, None, None, ws, es.
  - exists (Some (id, (RetryTask m a r, d))), p, None, None, ws, es. split; [done |].
    do 3 (split; [done |]). intros i x j y [= <- <-] ->. unfold probe_below in *. lia.
  - by exists None, None, (Some (id, mkSocket (channel_ready open) (Some a) open false)), None, ws, es.
  - by exists None, p, None, (Some (id, mkSource (channel_ready open) (Some a))), ws, es.
  - by exists None, (Some (id, r)), None, None, ws, es.
Qed.

(** Changing the status or [stopped], or clearing the timers, keeps a phase
    tidy. *)
Lemma phase_tidy s f b : phase s -> tidy (set_stopped b (set_status f s)).
Proof.
  intros (r & p & sock & src & ws & es & -> & Hb & Hs & He & Hne)%phase_shape.
  by apply (tidy_shape _ b r p sock src ws es).
Qed.

Lemma phase_clear_tidy s f : phase s -> tidy (set_status f (clearTimers s)).
Proof.
  intros (r & p & sock & src & ws & es & -> & Hb & Hs & He & Hne)%phase_shape.
  rewrite clearTimers_shape by done.
  by apply (tidy_shape _ _ None None sock src ws es).
Qed.

Lemma phase_clear_fields s :
  phase s ->
  stopped (manager (clearTimers s)) = stopped (manager s) /\ out (clearTimers s) = out s.
Proof.
  intros (r & p & sock & src & ws & es & -> & Hb & Hs & He & Hne)%phase_shape.
  by rewrite clearTimers_shape.
Qed.

Lemma retryNow_tidy s :
  phase s ->
  tidy (set_nextRetryAt "" (set_lastError "" (set_degradedReason "" (clearTimers s)))).
Proof.
  intros Hp.
  exact (phase_clear_tidy s (fun st =>
    (fun '(TransportStatus.mk a b c d e f g _) => TransportStatus.mk a b c d e f g "")
    ((fun '(TransportStatus.mk a b c d e _ g h) => TransportStatus.mk a b c d e "" g h)
    ((fun '(TransportStatus.mk a b c d e f _ h) => TransportStatus.mk a b c d e f "" h) st)))
    Hp).
Qed.

Lemma clearTimers_next s : phase s -> next (clearTimers s) = next s.
Proof.
  intros (r & p & sock & src & ws & es & -> & Hb & Hs & He & Hne)%phase_shape.
  by rewrite clearTimers_shape.
Qed.

Lemma rank_bounds s : phase s -> 0 <= rank s <= 11.
Proof.
  intros [| |st ws es n o p id m a r d _ _ _ _ _ Ha _|st ws es n o id a open _ _ _ _ Ha _
    |st ws es n o p id a open _ _ _ _ _ _ Ha _|]; try done.
  - unfold rank. cbn. rewrite lookup_insert_eq. destruct m; ladder.
  - rewrite (rank_socket _ _ _ _ _ _ _ a) by done. ladder.
  - rewrite (rank_source _ _ _ _ _ _ _ a) by done. ladder.
Qed.

Section Preservation.
Context `{UrlApi} `{Browser} (options : LiveTransportManagerOptions) (env : Env).
Hypothesis Henv : valid_env env.

Lemma stop_phase nextState s :
  phase s -> nextState <> conn_live -> phase (stop nextState s).
Proof.
  intros Hp Hn. destruct (phase_tidy s (fun st => st) true Hp) as (ws & es & E & Hb).
  destruct (phase_log s Hp) as [_ Ho].
  unfold stop. replace (set_status (fun st => st) s) with s in E by (by destruct s as [[] ? ? ? ? ?]).
  rewrite E. destruct s as [[[m st at1 lm lf le dr nr] ? ? ? ? ?] ? ? ? n o].
  cbn in Hb, Ho. run_assignments. apply phase_stopped; [done | by apply log_ok_report | done].
Qed.

Lemma start_phase s : phase s -> polite Start s -> phase (start s).
Proof.
  assert (forall st ws es n o b, background ws es n -> log_ok st o ->
    TransportStatus.state st <> conn_live ->
    phase (start (mkSt (refs None None None None st b) ∅ ws es n o))) as Hstart.
  { intros st ws es n o b Hb Ho Hst. unfold start.
    change (clearTimers (set_stopped false (mkSt (refs None None None None st b) ∅ ws es n o)))
      with (mkSt (refs None None None None st false) ∅ ws es n o).
    run_assignments.
    refine (phase_retry st ws es (S n) o None n websocket 0 "" 0 _ _ _ _ _ _ _);
      [eapply background_mono; [done | lia] | done | done | lia | done | ladder | by left]. }
  intros Hp [Hs | ->].
  - destruct Hp; try discriminate Hs. by apply Hstart.
  - apply (Hstart initial_status); [apply background_empty | | done].
    split; [by right | constructor].
Qed.

Lemma retryNow_lands s :
  phase s -> stopped (manager s) = false ->
  lands (2 * rung websocket 0) (retryNow options env s).
Proof.
  intros Hp Hs. destruct (phase_clear_fields s Hp) as [Hcs Hco].
  destruct (phase_log s Hp) as [_ Ho]. unfold retryNow. rewrite Hs.
  apply connect_lands; try done.
  - by apply retryNow_tidy.
  - cbn. by rewrite Hcs.
  - cbn. by rewrite Hco.
Qed.

Lemma probe_timers_lookup p id x :
  probe_timers p !! id = Some x ->
  exists reason, p = Some (id, reason) /\ x = (ProbeTask reason, REALTIME_PROBE_DELAY_MS).
Proof.
  destruct p as [[j r]|]; cbn; [| by rewrite lookup_empty].
  rewrite lookup_singleton_Some. naive_solver.
Qed.

Lemma probe_timers_fresh p id : probe_below p id -> probe_timers p !! id = None.
Proof.
  destruct p as [[j r]|]; cbn; intros Hp; [| by rewrite lookup_empty].
  rewrite lookup_singleton_ne; [done | lia].
Qed.

Definition task_rank (t : task) : Z :=
  match t with RetryTask m a _ => 2 * rung m a | ProbeTask _ => 2 * rung websocket 0 end.

Lemma fire_timer_lands s id t d :
  phase s -> timers s !! id = Some (t, d) ->
  lands (task_rank t) (run_task options env t (clearTimeout id s)).
Proof.
  intros Hp Ht. destruct (phase_log s Hp) as [_ Ho].
  destruct Hp as [|st ws es n o|st ws es n o p i m a r d' Hb Hl Hst Hi Hpi Ha Hd
    |st ws es n o i a open|st ws es n o p i a open Hb Hl Hei Hi Hpi Hpo Ha Hd
    |st ws es n o i r Hb Hl Hi]; cbn in Ht.
  1,2,4: by rewrite lookup_empty in Ht.
  - apply lookup_insert_Some in Ht as [[<- [= <- <-]] | [Hne Ht]].
    + apply run_task_lands; try done. split; [done |].
      unfold clearTimeout, set_timers. cbn [timers manager sockets sources next out].
      rewrite delete_insert_id by (by apply probe_timers_fresh).
      by apply (tidy_shape st false None p None None).
    + apply probe_timers_lookup in Ht as (reason & -> & [= -> ->]).
      apply run_task_lands; try done.
      unfold clearTimeout, set_timers. cbn [timers manager sockets sources next out].
      cbn [probe_timers]. rewrite delete_insert_ne by done. rewrite delete_singleton_eq.
      by apply (tidy_shape _ false (Some (i, (RetryTask m a r, d'))) None None None).
  - apply probe_timers_lookup in Ht as (reason & -> & [= -> ->]).
    apply run_task_lands; try done.
    unfold clearTimeout, set_timers. cbn [timers manager sockets sources next out].
    cbn [probe_timers]. rewrite delete_singleton_eq.
    by apply (tidy_shape _ false None None None (Some (i, _))).
  - apply (probe_timers_lookup (Some (i, r))) in Ht as (reason & [= -> ->] & [= -> ->]).
    apply run_task_lands; try done.
    unfold clearTimeout, set_timers. cbn [timers manager sockets sources next out].
    cbn [probe_timers]. rewrite delete_singleton_eq.
    by apply (tidy_shape _ false None None None None).
Qed.

(** ** Events of sockets *)

Lemma log_ok_event st o e : log_ok st o -> well_formed_event e -> e = OnMalformedMessage ->
  log_ok st (e :: o).
Proof.
  intros [Hc Ho] He ->. split; [| by constructor]. by destruct Hc as [? | [? ?]]; [left | right].
Qed.

Lemma parsed_event_well_formed data v :
  parseTransportEvent data = Some v -> well_formed_event (OnEvent v).
Proof.
  unfold parseTransportEvent. destruct (json_parse _) as [[]|]; try done.
  destruct (get_prop fields "kind") eqn:E; try done. intros [= <-]. cbn. eauto.
Qed.

(** A received message changes the date of the last message at most. *)
Lemma receive_shape data st r p sock src T ws es n o :
  log_ok st o ->
  exists st' o',
    receive env data (mkSt (refs r p sock src st false) T ws es n o) =
      mkSt (refs r p sock src st' false) T ws es n o' /\
    log_ok st' o' /\
    (forall m open a, describes m open a st -> describes m open a st').
Proof.
  intros Hl. unfold receive. destruct (parseTransportEvent data) as [v|] eqn:Ev.
  - destruct st as [m st at1 lm lf le dr nr]. run_assignments.
    do 2 eexists. split; [reflexivity |]. split; [| done].
    apply log_ok_report. constructor; [by eapply parsed_event_well_formed | by destruct Hl].
  - do 2 eexists. split; [reflexivity |]. split; [by apply log_ok_event | done].
Qed.

(** Replacing an abandoned socket by an abandoned socket. *)
Lemma phase_set_abandoned s id w w' :
  phase s -> sockets s !! id = Some w -> socket (manager s) <> Some id ->
  (abandoned w -> abandoned w') ->
  abandoned w /\ phase (set_sockets (<[id := w']> (sockets s)) s).
Proof.
  intros Hp Hw Hne Hab.
  assert (forall ws es n, background ws es n -> ws !! id = Some w ->
    abandoned w /\ background (<[id := w']> ws) es n) as Hbg.
  { intros ws es n Hb Hws. destruct (background_sockets _ _ _ Hb id w Hws) as [Hid Ha].
    split; [done |]. apply background_socket; auto. }
  destruct Hp as [|st ws es n o Hb|st ws es n o p i m a r d Hb|st ws es n o i a open Hb Hl Hi
    |st ws es n o p i a open Hb|st ws es n o i r Hb]; cbn in Hw, Hne.
  - by rewrite lookup_empty in Hw.
  - destruct (Hbg _ _ _ Hb Hw) as [Ha Hb']. split; [done |]. by apply phase_stopped.
  - destruct (Hbg _ _ _ Hb Hw) as [Ha Hb']. split; [done |]. by apply phase_retry.
  - assert (i <> id) as Hii by congruence. rewrite lookup_insert_ne in Hw by done.
    destruct (Hbg _ _ _ Hb Hw) as [Ha Hb']. split; [done |].
    cbn. rewrite insert_insert_ne by done. apply phase_socket; try done.
    by rewrite lookup_insert_ne.
  - destruct (Hbg _ _ _ Hb Hw) as [Ha Hb']. split; [done |]. by apply phase_source.
  - destruct (Hbg _ _ _ Hb Hw) as [Ha Hb']. split; [done |]. by apply phase_polling.
Qed.

Lemma alter_lookup {A} (f : A -> A) (m : gmap nat A) i x :
  m !! i = Some x -> alter f i m = <[i := f x]> m.
Proof.
  intros Hx. apply map_eq. intros j. destruct (decide (i = j)) as [<- | Hne].
  - by rewrite lookup_alter_eq, Hx, lookup_insert_eq.
  - by rewrite lookup_alter_ne, lookup_insert_ne.
Qed.

(** The socket an event is about, if any. *)
Definition socket_of (a : action) : option nat :=
  match a with
  | SocketOpen id | SocketMessage id _ | SocketError id | SocketClose id _ _ => Some id
  | _ => None
  end.

Definition source_of (a : action) : option nat :=
  match a with
  | SourceOpen id | SourceMessage id _ | SourceError id _ => Some id
  | _ => None
  end.

(** An event of a socket the manager let go touches that socket only. *)
Lemma stale_socket_event s id a s' :
  phase s -> socket_of a = Some id -> socket (manager s) <> Some id ->
  perform options env a s = Some s' ->
  exists m, s' = set_sockets m s /\ phase s'.
Proof.
  intros Hp Ha Hne Hs'.
  assert (exists w, sockets s !! id = Some w) as [w Hw].
  { destruct a; try discriminate Ha; cbn in Ha; injection Ha as ->; cbn in Hs';
      (destruct (sockets s !! id) as [w|]; [eauto | discriminate]). }
  assert (forall w', (abandoned w -> abandoned w') ->
    abandoned w /\ phase (set_sockets (<[id := w']> (sockets s)) s)) as Hab
    by (intros w'; by apply phase_set_abandoned).
  destruct (Hab w (fun H => H)) as [Hw' _].
  assert (s = set_sockets (<[id := w]> (sockets s)) s) as Hs
    by (rewrite insert_id by done; by destruct s).
  destruct a; try discriminate Ha; cbn in Ha; injection Ha as ->; cbn in Hs'; rewrite Hw in Hs';
    cbn in Hs'; destruct (decide _) as [Hr | Hr]; try discriminate Hs'.
  - assert (handlers w = None /\ close_on_open w = true) as [Hh Hc].
    { destruct Hw' as [? | [? [? | [_ ?]]]]; [congruence | congruence | done]. }
    rewrite Hh in Hs'. cbn in Hs'. injection Hs' as <-. unfold close_if_abandoned.
    rewrite (alter_lookup _ _ _ _ Hw).
    rewrite (alter_lookup _ _ _ (set_readyState OPEN w)) by apply lookup_insert_eq.
    cbn [sockets set_sockets]. rewrite insert_insert_eq. cbn [close_on_open set_readyState].
    rewrite Hc. eexists. split; [reflexivity |].
    apply (Hab (socket_close (set_readyState OPEN w))). intros _. right. cbn. auto.
  - destruct Hw' as [? | [_ [? | [? _]]]]; congruence.
  - assert (handlers w = None) as Hh by (by destruct Hw' as [? | [? _]]).
    rewrite Hh in Hs'. cbn in Hs'. injection Hs' as <-.
    exists (<[id := w]> (sockets s)). by split.
  - assert (handlers w = None) as Hh by (by destruct Hw' as [? | [? _]]).
    rewrite Hh in Hs'. cbn in Hs'. injection Hs' as <-.
    rewrite (alter_lookup _ _ _ _ Hw). eexists. split; [reflexivity |].
    apply (Hab (set_readyState CLOSED w)). intros _. by left.
Qed.

(** An event of the current socket. *)
Lemma current_socket_event s id a s' :
  phase s -> socket_of a = Some id -> socket (manager s) = Some id ->
  perform options env a s = Some s' ->
  phase s' /\ (match a with SocketClose _ _ _ => rank s' < rank s | _ => True end).
Proof.
  intros Hp Ha Hcur Hs'.
  destruct Hp as [| | |st ws es n o i at0 open Hb Hl Hi Hn Hat Hd| |]; try discriminate Hcur.
  cbn in Hcur. injection Hcur as ->.
  destruct a; try discriminate Ha; cbn in Ha; injection Ha as ->; cbn in Hs';
    rewrite lookup_insert_eq in Hs'; cbn in Hs'; destruct (decide _) as [Hr | Hr];
    try discriminate Hs'; injection Hs' as <-.
  - split; [| done]. destruct open; [discriminate Hr |].
    destruct st as [m st at1 lm lf le dr nr]. unfold socket_onopen, socket_current.
    cbn [set_sockets manager refs socket stopped]. rewrite bool_decide_true by done.
    cbn [negb andb]. unfold close_if_abandoned. run_assignments.
    rewrite !alter_insert_eq. cbn.
    apply (phase_socket _ ws es n _ id at0 true); try done. apply log_ok_report. by destruct Hl.
  - split; [| done]. unfold socket_onmessage, socket_current.
    cbn [manager refs socket stopped]. rewrite bool_decide_true by done. cbn [negb andb].
    destruct (receive_shape data st None None (Some id) None ∅
      (<[id := mkSocket (channel_ready open) (Some at0) open false]> ws) es n o Hl)
      as (st' & o' & E & Hl' & Hd').
    rewrite E. apply phase_socket; auto.
  - split; [| done]. unfold socket_onerror, socket_current.
    cbn [manager refs socket stopped]. rewrite bool_decide_true by done. cbn [negb andb].
    destruct st as [m st at1 lm lf le dr nr]. run_assignments.
    apply phase_socket; try done. apply log_ok_report. by destruct Hl.
  - unfold socket_onclose, socket_current.
    cbn [set_sockets manager refs socket stopped]. rewrite bool_decide_true by done.
    cbn [negb andb]. rewrite alter_insert_eq.
    match goal with |- phase (handleRealtimeFailure _ _ _ _ ?r _) /\ _ =>
      destruct (handleRealtimeFailure_lands options env websocket at0 r st None
        (<[id := mkSocket CLOSED (Some at0) open false]> ws) es n o) as [Hph Hrk] end; try done.
    + apply background_socket; [done | done | by left].
    + by destruct Hl.
    + split; [exact Hph |]. rewrite (rank_socket _ _ _ _ _ _ _ at0) by done.
      eapply Z.le_lt_trans; [exact Hrk | lia].
Qed.

(** ** Events of sources *)

Lemma source_event s id a s' :
  phase s -> source_of a = Some id -> perform options env a s = Some s' ->
  eventSource (manager s) = Some id /\ phase s' /\
  (match a with SourceError _ _ => rank s' < rank s | _ => True end).
Proof.
  intros Hp Ha Hs'.
  assert (exists e, sources s !! id = Some e /\ sourceState e <> CLOSED) as (e & He & Hopen).
  { destruct a; try discriminate Ha; cbn in Ha; injection Ha as ->; cbn in Hs';
      (destruct (sources s !! id) as [e|]; [| discriminate]); exists e; (split; [done |]);
      cbn in Hs'; destruct (decide _); congruence. }
  assert (forall ws es n, background ws es n -> es !! id = Some e -> False) as Hstale.
  { intros ws es n Hb Hes. by destruct (background_sources _ _ _ Hb id e Hes). }
  destruct Hp as [|st ws es n o Hb|st ws es n o p i m ? r d Hb|st ws es n o i ? open Hb
    |st ws es n o p i at0 open Hb Hl Hi Hn Hpb Hpo Hat Hd|st ws es n o i r Hb];
    cbn in He;
    try (exfalso; solve [by rewrite lookup_empty in He | eapply Hstale; eassumption]).
  apply lookup_insert_Some in He as [[-> <-] | [_ He]]; [| exfalso; eapply Hstale; eassumption].
  split; [done |].
  destruct a; try discriminate Ha; cbn in Ha; injection Ha as ->; cbn in Hs';
    rewrite lookup_insert_eq in Hs'; cbn in Hs'; destruct (decide _) as [Hr | Hr];
    try discriminate Hs'; injection Hs' as <-.
  - split; [| done]. destruct open; [discriminate Hr |].
    assert (p = None) as -> by (destruct p; [| done]; destruct Hpo as [Hpo _]; by discriminate Hpo).
    destruct st as [m st at1 lm lf le dr nr]. unfold source_onopen, source_current.
    cbn [set_sources manager refs eventSource stopped]. rewrite bool_decide_true by done.
    cbn [negb andb]. rewrite alter_insert_eq. cbn [fmap option_fmap option_map]. run_assignments.
    refine (phase_source _ ws es (S n) _ (Some (n, _)) id at0 true _ _ _ _ _ _ _ _); try done.
    + eapply background_mono; [done | lia].
    + apply log_ok_report. constructor; [done |]. by destruct Hl.
    + lia.
    + cbn. lia.
  - split; [| done]. unfold source_onmessage, source_current.
    cbn [manager refs eventSource stopped]. rewrite bool_decide_true by done. cbn [negb andb].
    destruct (receive_shape data st None p None (Some id) (probe_timers p) ws
      (<[id := mkSource (channel_ready open) (Some at0)]> es) n o Hl)
      as (st' & o' & E & Hl' & Hd'). rewrite E. apply phase_source; auto.
  - unfold source_onerror, source_current.
    cbn [set_sources manager refs eventSource stopped]. rewrite bool_decide_true by done.
    cbn [negb andb].
    match goal with |- phase (handleRealtimeFailure _ _ _ _ _ ?X) /\ _ =>
      replace X with (mkSt (refs None p None None st false) (probe_timers p) ws
        (<[id := mkSource CLOSED (Some at0)]> es) n o)
        by (run_assignments; by rewrite !alter_insert_eq) end.
    destruct (handleRealtimeFailure_lands options env sse at0 "SSE stream disconnected." st p
      ws (<[id := mkSource CLOSED (Some at0)]> es) n o) as [Hph Hrk]; try done.
    + by apply background_source.
    + by destruct Hl.
    + split; [exact Hph |]. rewrite (rank_source _ _ _ _ _ _ _ at0) by done.
      eapply Z.le_lt_trans; [exact Hrk | lia].
Qed.
End Preservation.

(** ** Reachable states *)

Section Reachable.
Context `{UrlApi} `{Browser} (options : LiveTransportManagerOptions).

(** The attempt at the end of which the manager goes one rung down. *)
Definition is_failure (a : action) (s : St) : Prop :=
  match a with
  | SocketClose id _ _ => socket (manager s) = Some id
  | SourceError id _ => eventSource (manager s) = Some id
  | FireTimer id => retryTimer (manager s) = Some id
  | _ => False
  end.

Lemma socket_event_phase env a s s' id :
  valid_env env -> phase s -> perform options env a s = Some s' -> socket_of a = Some id ->
  phase s' /\ (is_failure a s -> rank s' < rank s).
Proof.
  intros He Hp Hs' Ha. destruct (decide (socket (manager s) = Some id)) as [Hc | Hc].
  - destruct (current_socket_event options env He s id a s' Hp Ha Hc Hs') as [Hph Hrk].
    split; [exact Hph |]. destruct a; try discriminate Ha; cbn; try done.
  - destruct (stale_socket_event options env s id a s' Hp Ha Hc Hs') as (_ & _ & Hph).
    split; [exact Hph |]. destruct a; try discriminate Ha; cbn; try done.
    cbn in Ha. congruence.
Qed.

Lemma perform_phase env a s s' :
  valid_env env -> phase s -> polite a s -> perform options env a s = Some s' ->
  phase s' /\ (is_failure a s -> rank s' < rank s).
Proof.
  intros He Hp Hpol Hs'. destruct a as [|nextState| |id|id|id data|id|id code reason|id|id data|id fatal].
  - injection Hs' as <-. split; [by apply start_phase | done].
  - injection Hs' as <-. split; [by apply stop_phase | done].
  - injection Hs' as <-. split; [| done]. unfold retryNow at 1.
    destruct (stopped (manager s)) eqn:Es; [done |].
    pose proof (retryNow_lands options env He s Hp Es) as [Hl _].
    unfold retryNow in Hl. by rewrite Es in Hl.
  - cbn in Hs'. destruct (timers s !! id) as [[t d]|] eqn:Et; [| discriminate].
    injection Hs' as <-.
    destruct (fire_timer_lands options env He s id t d Hp Et) as [Hph Hrk].
    split; [exact Hph |]. intros Hf. cbn in Hf.
    destruct Hp; try discriminate Hf. cbn in Hf. injection Hf as ->. cbn in Et.
    rewrite lookup_insert_eq in Et. injection Et as <- <-. unfold rank at 2. cbn.
    rewrite lookup_insert_eq. cbn in Hrk. lia.
  - by eapply socket_event_phase.
  - by eapply socket_event_phase.
  - by eapply socket_event_phase.
  - by eapply socket_event_phase.
  - destruct (source_event options env He s id (SourceOpen id) s' Hp eq_refl Hs') as (_ & ? & ?). by split.
  - destruct (source_event options env He s id (SourceMessage id data) s' Hp eq_refl Hs') as (_ & ? & ?). by split.
  - destruct (source_event options env He s id (SourceError id fatal) s' Hp eq_refl Hs') as (_ & ? & ?). by split.
Qed.

Lemma reachable_phase s : reachable options s -> phase s.
Proof.
  unfold reachable. intros Hr. pattern s. revert s Hr. apply rtc_ind_r; [constructor |].
  intros y z _ [env a s1 s2 He Hpol Hs] Hy. by eapply perform_phase.
Qed.

(** A run whose every action the owner may take leads to a reachable state. *)
Fixpoint polite_run (l : list (Env * action)) (s : St) : Prop :=
  match l with
  | [] => True
  | (env, a) :: l' =>
      valid_env env /\ polite a s /\
      match perform options env a s with Some s' => polite_run l' s' | None => True end
  end.

Lemma run_reachable l s s' :
  reachable options s -> polite_run l s -> run options l s = Some s' -> reachable options s'.
Proof.
  revert s. induction l as [|[env a] l IH]; intros s Hr Hp Hs'; cbn in *; [congruence |].
  destruct Hp as (He & Hpol & Hrest). destruct (perform options env a s) as [s1|] eqn:E; [| done].
  eapply IH; [| exact Hrest | exact Hs']. eapply rtc_r; [exact Hr |]. by econstructor.
Qed.
End Reachable.

(** * Properties *)

Section Properties.
Context `{UrlApi} `{Browser} (options : LiveTransportManagerOptions).

Lemma background_not_open ws es n id w :
  background ws es n -> ws !! id = Some w -> readyState w <> OPEN /\
  (readyState w = CONNECTING -> close_on_open w = true /\ handlers w = None).
Proof.
  intros Hb Hw. destruct (background_sockets _ _ _ Hb id w Hw) as [_ [Hc | [Hh [Hc | [Hc Ho]]]]];
    rewrite Hc; done.
Qed.

(** C9: no connection and no timer leaks. In every reachable state an armed
    timer is one the manager can cancel, at most one channel is open or being
    opened, and it is the manager's current one; a socket given up while
    connecting is detached and will be closed as soon as it opens; a stopped
    manager has no channel and no timer at all. *)
Theorem transport_no_leak s :
  reachable options s ->
  (forall id, is_Some (timers s !! id) ->
     retryTimer (manager s) = Some id \/ probeTimer (manager s) = Some id) /\
  (forall id w, sockets s !! id = Some w -> socket (manager s) <> Some id ->
     readyState w <> OPEN /\
     (readyState w = CONNECTING -> close_on_open w = true /\ handlers w = None)) /\
  (forall id e, sources s !! id = Some e -> eventSource (manager s) <> Some id ->
     sourceState e = CLOSED) /\
  (socket (manager s) = None \/ eventSource (manager s) = None) /\
  (stopped (manager s) = true ->
     timers s = ∅ /\ socket (manager s) = None /\ eventSource (manager s) = None).
Proof.
  intros Hr. pose proof (reachable_phase options s Hr) as Hp.
  assert (forall p id, is_Some (probe_timers p !! id) -> fst <$> p = Some id) as Hprobe.
  { intros p id [x Hx]. by apply probe_timers_lookup in Hx as (reason & -> & _). }
  assert (forall id, is_Some ((∅ : gmap nat (task * Z)) !! id) -> False) as Hnone
    by (intros id [x Hx]; by rewrite lookup_empty in Hx).
  destruct Hp as [|st ws es n o Hb|st ws es n o p i m a r d Hb|st ws es n o i a open Hb Hl Hi
    |st ws es n o p i a open Hb|st ws es n o i r Hb]; cbn.
  - naive_solver.
  - split; [| split; [| split; [| split]]].
    + intros id Hid. by destruct (Hnone id).
    + intros id w Hw _. by eapply background_not_open.
    + intros id e He _. by destruct (background_sources _ _ _ Hb id e He).
    + by left.
    + done.
  - split; [| split; [| split; [| split]]].
    + intros id [x Hx]. apply lookup_insert_Some in Hx as [[-> _] | [_ Hx]]; [by left |].
      right. apply Hprobe. eauto.
    + intros id w Hw _. by eapply background_not_open.
    + intros id e He _. by destruct (background_sources _ _ _ Hb id e He).
    + by left.
    + done.
  - split; [| split; [| split; [| split]]].
    + intros id Hid. by destruct (Hnone id).
    + intros id w Hw Hne. rewrite lookup_insert_ne in Hw by congruence.
      by eapply background_not_open.
    + intros id e He _. by destruct (background_sources _ _ _ Hb id e He).
    + by right.
    + done.
  - split; [| split; [| split; [| split]]].
    + intros id Hid. right. by apply Hprobe.
    + intros id w Hw _. by eapply background_not_open.
    + intros id e He Hne. rewrite lookup_insert_ne in He by congruence.
      by destruct (background_sources _ _ _ Hb id e He).
    + by left.
    + done.
  - split; [| split; [| split; [| split]]].
    + intros id Hid. right. by apply (Hprobe (Some (i, r))).
    + intros id w Hw _. by eapply background_not_open.
    + intros id e He _. by destruct (background_sources _ _ _ Hb id e He).
    + by left.
    + done.
Qed.

(** C10: the status is the truth, and the owner knows it. In every reachable
    state the last status reported is the current one, and a manager that is not
    stopped says it is live exactly when its current channel is open, naming the
    kind of that channel. *)
Theorem transport_status_truth s :
  reachable options s ->
  (last_status (out s) = Some (status (manager s)) \/
   last_status (out s) = None /\ status (manager s) = initial_status) /\
  (stopped (manager s) = false ->
   (TransportStatus.state (status (manager s)) = conn_live <->
    (exists id w, socket (manager s) = Some id /\ sockets s !! id = Some w /\ readyState w = OPEN) \/
    (exists id e, eventSource (manager s) = Some id /\ sources s !! id = Some e /\
                  sourceState e = OPEN)) /\
   (is_Some (socket (manager s)) ->
      TransportStatus.mode (status (manager s)) = mode_websocket) /\
   (is_Some (eventSource (manager s)) ->
      TransportStatus.mode (status (manager s)) = mode_sse)).
Proof.
  intros Hr. pose proof (reachable_phase options s Hr) as Hp.
  split; [by destruct (phase_log s Hp) |]. intros Hs.
  destruct Hp as [|st ws es n o Hb|st ws es n o p i m a r d Hb Hl Hst|st ws es n o i a open Hb Hl Hi Hn Ha Hd
    |st ws es n o p i a open Hb Hl Hi Hn Hpb Hpo Ha Hd|st ws es n o i r Hb Hl Hi Hm Hst]; cbn in *; try done.
  - split; [| split; by intros [? ?]]. naive_solver.
  - split; [| split; by intros [? ?]]. naive_solver.
  - destruct Hd as (Hm & Hst & _). rewrite Hst, Hm. split; [| by split; [| intros [? ?]]]. split.
    + intros Hlive. left. exists i. rewrite lookup_insert_eq. eexists. split; [done |].
      split; [reflexivity |]. by destruct open.
    + intros [(id & w & [= <-] & Hw & Ho) | (id & e & ? & _)]; [| done].
      rewrite lookup_insert_eq in Hw. injection Hw as <-. by destruct open.
  - destruct Hd as (Hm & Hst & _). rewrite Hst, Hm. split; [| split; [by intros [? ?] | done]]. split.
    + intros Hlive. right. exists i. rewrite lookup_insert_eq. eexists. split; [done |].
      split; [reflexivity |]. by destruct open.
    + intros [(id & w & ? & _) | (id & e & [= <-] & He & Ho)]; [done |].
      rewrite lookup_insert_eq in He. injection He as <-. by destruct open.
  - rewrite Hst. split; [| split; by intros [? ?]]. naive_solver.
Qed.

(** C11: the manager never gets stuck. In every reachable state it is new,
    or stopped, or holds a channel whose end the browser will report, or has a
    timer armed; and an armed retry respects the limits: at most three WebSocket
    and two SSE attempts, a delay between the exponential backoff and its cap,
    and a probe after ninety seconds. *)
Theorem transport_never_stuck s :
  reachable options s ->
  (s = initial \/ stopped (manager s) = true \/
   (exists id w, socket (manager s) = Some id /\ sockets s !! id = Some w /\
      handlers w <> None /\ readyState w ∈ [CONNECTING; OPEN]) \/
   (exists id e, eventSource (manager s) = Some id /\ sources s !! id = Some e /\
      sourceHandlers e <> None /\ sourceState e ∈ [CONNECTING; OPEN]) \/
   (exists id x, timers s !! id = Some x)) /\
  (forall id, retryTimer (manager s) = Some id ->
     exists m a r d, timers s !! id = Some (RetryTask m a r, d) /\
       attempt_ok m a /\ retry_delay_ok m a d) /\
  (forall id, probeTimer (manager s) = Some id ->
     exists r, timers s !! id = Some (ProbeTask r, REALTIME_PROBE_DELAY_MS)).
Proof.
  intros Hr. pose proof (reachable_phase options s Hr) as Hp.
  assert (forall p id, fst <$> p = Some id ->
    exists r, probe_timers p !! id = Some (ProbeTask r, REALTIME_PROBE_DELAY_MS)) as Hprobe.
  { intros [[j r]|] id; [| done]. intros [= <-]. exists r. apply lookup_singleton_eq. }
  destruct Hp as [|st ws es n o Hb|st ws es n o p i m a r d Hb Hl Hst Hi Hpi Ha Hd|st ws es n o i a open Hb
    |st ws es n o p i a open Hb|st ws es n o i r Hb]; cbn.
  - split; [by left | done].
  - split; [by right; left | done].
  - split; [| split].
    + do 4 right. exists i. rewrite lookup_insert_eq. eauto.
    + intros id [= <-]. rewrite lookup_insert_eq. by exists m, a, r, d.
    + intros id Hid. destruct (Hprobe p id Hid) as [r' Hr']. exists r'.
      rewrite lookup_insert_ne; [done |]. intros <-.
      by rewrite probe_timers_fresh in Hr'.
  - split; [| done]. do 2 right. left. exists i. rewrite lookup_insert_eq. eexists.
    split; [done |]. split; [reflexivity |]. split; [done |]. destruct open; set_solver.
  - split; [| by split; [| intros id; apply Hprobe]]. do 3 right. left. exists i.
    rewrite lookup_insert_eq. eexists.
    split; [done |]. split; [reflexivity |]. split; [done |]. destruct open; set_solver.
  - split; [| by split; [| intros id; apply (Hprobe (Some (i, r)))]].
    do 4 right. exists i. rewrite lookup_singleton_eq. eauto.
Qed.

(** A step in which the current channel fails, or the armed retry is made. *)
Inductive failing : St -> St -> Prop :=
  | failing_step env a s s' :
      valid_env env -> is_failure a s -> perform options env a s = Some s' -> failing s s'.

(** C12: the fallback ladder ends in polling. Whatever fails, in whatever
    environment, at most eleven failing steps can follow each other (three
    WebSocket attempts with their retries, then two SSE attempts), and a manager
    at work that cannot fail any further is polling with its probe armed. *)
Theorem transport_ladder s k s' :
  reachable options s -> nsteps failing k s s' ->
  Z.of_nat k <= 11 /\ reachable options s' /\
  (stopped (manager s') = false -> s' <> initial ->
   (exists s'', failing s' s'') \/
   TransportStatus.state (status (manager s')) = conn_polling /\
   exists id r, probeTimer (manager s') = Some id /\
     timers s' !! id = Some (ProbeTask r, REALTIME_PROBE_DELAY_MS)).
Proof.
  intros Hr Hk.
  assert (Z.of_nat k + rank s' <= rank s /\ reachable options s') as [Hrank Hr'].
  { induction Hk as [x|k x y z Hstep _ IH]; [split; [lia | done] |].
    destruct Hstep as [env a x y He Hf Hxy].
    pose proof (reachable_phase options x Hr) as Hp.
    assert (polite a x) as Hpol by (by destruct a).
    destruct (perform_phase options env a x y He Hp Hpol Hxy) as [_ Hlt].
    specialize (Hlt Hf). destruct IH as [IH Hz]; [| split; [lia | done]].
    eapply rtc_r; [exact Hr |]. by econstructor. }
  pose proof (reachable_phase options s Hr) as Hp.
  pose proof (reachable_phase options s' Hr') as Hp'.
  pose proof (rank_bounds s Hp). pose proof (rank_bounds s' Hp').
  split; [lia |]. split; [done |]. intros Hs' Hne.
  set (env := mkEnv 0 (num_of_Z 0) false).
  assert (valid_env env) as He by (by split).
  assert (forall a s'', is_failure a s' -> perform options env a s' = Some s'' ->
    exists s'', failing s' s'') as Hfail by (intros a s'' Hf Hs; exists s''; by econstructor).
  destruct Hp'; try done.
  - left. eapply (Hfail (FireTimer id)); [done |]. cbn. by rewrite lookup_insert_eq.
  - left. eapply (Hfail (SocketClose id 0 "")); [done |]. cbn. rewrite lookup_insert_eq. cbn.
    by destruct open.
  - left. eapply (Hfail (SourceError id true)); [done |]. cbn. rewrite lookup_insert_eq. cbn.
    by destruct open.
  - right. split; [done |]. exists id, r. split; [done |]. apply lookup_singleton_eq.
Qed.

(** C13: after [stop] the manager is silent: until it is started again no
    event of an old socket or source calls the owner back, changes the manager or
    arms a timer, and [retryNow] does nothing. *)
Theorem transport_silent_after_stop env a s s' :
  reachable options s -> stopped (manager s) = true ->
  match a with Start | Stop _ => False | _ => True end ->
  perform options env a s = Some s' ->
  manager s' = manager s /\ out s' = out s /\ timers s' = timers s.
Proof.
  intros Hr Hs Ha Hs'. pose proof (reachable_phase options s Hr) as Hp.
  destruct (socket_of a) as [id|] eqn:Ea.
  { assert (socket (manager s) <> Some id) as Hne by (by destruct Hp).
    by destruct (stale_socket_event options env s id a s' Hp Ea Hne Hs') as (m & -> & _). }
  destruct (source_of a) as [id|] eqn:Eb.
  { exfalso. destruct Hp as [|st ws es n o Hb| | | |]; try discriminate Hs.
    destruct a; try discriminate Eb; cbn in Eb, Hs'; injection Eb as ->;
      (destruct (es !! id) as [e|] eqn:Ee; [| discriminate Hs']);
      pose proof (background_sources _ _ _ Hb id e Ee) as [_ Hc]; cbn in Hs';
      rewrite Hc in Hs'; by destruct (decide _). }
  destruct a; try done; cbn in Hs'.
  - injection Hs' as <-. unfold retryNow. by rewrite Hs.
  - destruct Hp; try discriminate Hs. cbn in Hs'. discriminate Hs'.
Qed.

(** A socket the manager replaced is inert: whatever it still reports,
    only the browser's record of that socket changes. *)
Theorem transport_stale_socket_inert env a id s s' :
  reachable options s -> socket_of a = Some id -> socket (manager s) <> Some id ->
  perform options env a s = Some s' ->
  exists m, s' = set_sockets m s.
Proof.
  intros Hr Ha Hne Hs'. pose proof (reachable_phase options s Hr) as Hp.
  destruct (stale_socket_event options env s id a s' Hp Ha Hne Hs') as (m & -> & _). by exists m.
Qed.

(** [retryNow] restarts from the top: unless the manager is stopped,
    the old channel and timers are gone, and when the WebSocket can be created it
    is the only channel, connecting on attempt zero, with a clean status. *)
Theorem transport_retryNow env s :
  reachable options s -> valid_env env -> stopped (manager s) = false ->
  opt_truthy (buildSocketUrl (Some (baseUrl options)) (token options)) = true ->
  ws_constructor_throws env = false ->
  let s' := retryNow options env s in
  timers s' = ∅ /\ eventSource (manager s') = None /\
  socket (manager s') = Some (next s) /\
  sockets s' !! next s = Some (mkSocket CONNECTING (Some 0) false false) /\
  TransportStatus.mode (status (manager s')) = mode_websocket /\
  TransportStatus.state (status (manager s')) = conn_connecting /\
  TransportStatus.attempt (status (manager s')) = 0 /\
  TransportStatus.lastError (status (manager s')) = "" /\
  TransportStatus.nextRetryAt (status (manager s')) = "" /\
  TransportStatus.degradedReason (status (manager s')) = "Manual reconnect requested.".
Proof.
  intros Hr He Hs Hurl Hthrow. pose proof (reachable_phase options s Hr) as Hp.
  destruct (retryNow_tidy s Hp) as (ws & es & E & Hb).
  destruct (phase_clear_fields s Hp) as [Hcs _]. pose proof (clearTimers_next s Hp) as Hn.
  unfold retryNow. rewrite Hs. unfold connect.
  change (stopped (manager (set_nextRetryAt "" (set_lastError "" (set_degradedReason ""
    (clearTimers s)))))) with (stopped (manager (clearTimers s))) in *.
  rewrite Hcs, Hs in *. unfold begin_connect. rewrite E. unfold openWebSocket. rewrite Hurl, Hthrow.
  change (next (set_nextRetryAt "" (set_lastError "" (set_degradedReason "" (clearTimers s)))))
    with (next (clearTimers s)) in *.
  rewrite Hn. destruct (clearTimers s) as [[[m st at1 lm lf le dr nr] ? ? ? ? ?] ? ? ? ? ?].
  run_assignments. cbn [truthy negb String.eqb]. repeat split; try done. apply lookup_insert_eq.
Qed.

(** Only well-formed events reach the owner: every event delivered in a
    reachable state is a JSON object with a string [kind], whatever the wire
    carried. *)
Theorem transport_events_well_formed s v :
  reachable options s -> OnEvent v ∈ out s ->
  exists fs kind, v = VObj fs /\ get_prop fs "kind" = VStr kind.
Proof.
  intros Hr Hv. destruct (phase_log s (reachable_phase options s Hr)) as [_ Ho].
  rewrite Forall_forall in Ho. exact (Ho _ Hv).
Qed.

(** A socket keeps the attempt it was opened with. When a socket opened
    on the last attempt closes, however long it was live, no WebSocket retry
    follows: the manager holds no socket and goes to SSE or polling at once,
    although its attempt counter was reset when the socket opened. *)
Theorem transport_last_attempt_not_reset env s id w code reason s' :
  reachable options s -> valid_env env ->
  socket (manager s) = Some id -> sockets s !! id = Some w -> handlers w = Some 2 ->
  perform options env (SocketClose id code reason) s = Some s' ->
  socket (manager s') = None /\
  (forall i a r d, timers s' !! i = Some (RetryTask websocket a r, d) -> False) /\
  (readyState w = OPEN -> TransportStatus.attempt (status (manager s)) = 0).
Proof.
  intros Hr He Hcur Hw Hh Hs'. pose proof (reachable_phase options s Hr) as Hp.
  destruct (perform_phase options env (SocketClose id code reason) s s' He Hp I Hs') as [Hp' Hlt].
  specialize (Hlt Hcur).
  assert (rank s = 6 /\ (readyState w = OPEN -> TransportStatus.attempt (status (manager s)) = 0))
    as [Hrank Hatt].
  { destruct Hp as [| | |st ws es n o i a open Hb Hl Hi Hn Ha (_ & _ & Hd)| |]; try discriminate Hcur.
    cbn in Hcur, Hw. injection Hcur as ->. rewrite lookup_insert_eq in Hw. injection Hw as <-.
    cbn in Hh. injection Hh as ->. rewrite (rank_socket _ _ _ _ _ _ _ 2) by done.
    split; [done |]. cbn. intros Ho. rewrite Hd. by destruct open. }
  rewrite Hrank in Hlt. clear Hr Hcur Hw Hs' Hrank Hp.
  split; [| split; [| exact Hatt]].
  - destruct Hp' as [| | |st ws es n o i a open _ _ _ _ Ha _| |]; try done.
    rewrite (rank_socket _ _ _ _ _ _ _ a) in Hlt by done. ladder.
  - intros i a r d Ht.
    destruct Hp' as [| |st ws es n o p i' m a' r' d' _ _ _ _ _ Ha _|st ws es n o i' a' open
      |st ws es n o p i' a' open|st ws es n o i' r']; cbn in Ht;
      try (by rewrite lookup_empty in Ht).
    + apply lookup_insert_Some in Ht as [[-> [= -> -> -> ->]] | [_ Ht]].
      * unfold rank in Hlt. cbn in Hlt. rewrite lookup_insert_eq in Hlt. ladder.
      * apply probe_timers_lookup in Ht as (? & _ & ?). discriminate.
    + apply probe_timers_lookup in Ht as (? & _ & ?). discriminate.
    + apply (probe_timers_lookup (Some (i', r'))) in Ht as (? & _ & ?). discriminate.
Qed.
End Properties.

(** ** Only start and stop say whether the manager runs *)

Section Running.
Context `{UrlApi} `{Browser} (options : LiveTransportManagerOptions) (env : Env).

Notation halted s := (stopped (manager s)).

Lemma halted_clearTimers s : halted (clearTimers s) = halted s.
Proof.
  unfold clearTimers. by destruct (retryTimer (manager s)), (probeTimer (manager s)) eqn:E; cbn; rewrite ?E.
Qed.

Lemma halted_closeCurrent s : halted (closeCurrent s) = halted s.
Proof.
  unfold closeCurrent. by destruct (socket (manager s)), (eventSource (manager s)) eqn:E; cbn; rewrite ?E.
Qed.

Lemma halted_scheduleProbe t d s : halted (scheduleProbe env t d s) = halted s.
Proof. unfold scheduleProbe. by destruct (halted s) eqn:E; cbn; rewrite ?E. Qed.

Lemma halted_scheduleRetry m a r s : halted (scheduleRetry env m a r s) = halted s.
Proof. done. Qed.

Lemma halted_enterPolling r s : halted (enterPolling env r s) = halted s.
Proof.
  unfold enterPolling. rewrite halted_scheduleProbe. cbn.
  by rewrite halted_closeCurrent, halted_clearTimers.
Qed.

Lemma halted_openEventSource a s : halted (openEventSource options env a s) = halted s.
Proof.
  unfold openEventSource. destruct (negb has_EventSource); [apply halted_enterPolling |].
  destruct (negb _); [apply halted_enterPolling | done].
Qed.

Lemma halted_begin_connect m a r s : halted (begin_connect m a r s) = halted s.
Proof.
  unfold begin_connect. destruct (truthy r); cbn; by rewrite halted_closeCurrent, halted_clearTimers.
Qed.

Lemma halted_connect_sse a r s : halted (connect_sse options env a r s) = halted s.
Proof.
  unfold connect_sse. destruct (halted s) eqn:E; [done |].
  by rewrite halted_openEventSource, halted_begin_connect.
Qed.

Lemma halted_failure m a r s : halted (handleRealtimeFailure options env m a r s) = halted s.
Proof.
  unfold handleRealtimeFailure. destruct (halted s) eqn:E; [done |]. destruct m.
  - destruct (_ <? _); [done |]. destruct (_ && _);
      [by rewrite halted_connect_sse | by rewrite halted_enterPolling].
  - destruct (_ <? _); [done | by rewrite halted_enterPolling].
Qed.

Lemma halted_openWebSocket a s : halted (openWebSocket options env a s) = halted s.
Proof.
  unfold openWebSocket. destruct (negb _); [apply halted_enterPolling |].
  destruct (ws_constructor_throws env); [apply halted_failure | done].
Qed.

Lemma halted_connect m a r s : halted (connect options env m a r s) = halted s.
Proof.
  unfold connect. destruct (halted s) eqn:E; [done |].
  destruct m; rewrite ?halted_openWebSocket, ?halted_openEventSource; by rewrite halted_begin_connect.
Qed.

Lemma halted_retryNow s : halted (retryNow options env s) = halted s.
Proof.
  unfold retryNow. destruct (halted s) eqn:E; [done |]. rewrite halted_connect. cbn.
  by rewrite halted_clearTimers.
Qed.

Lemma halted_receive d s : halted (receive env d s) = halted s.
Proof. unfold receive. by destruct (parseTransportEvent d). Qed.

Lemma halted_socket_onopen id s : halted (socket_onopen id s) = halted s.
Proof. unfold socket_onopen. by destruct (negb _). Qed.

Lemma halted_socket_onmessage id d s : halted (socket_onmessage env id d s) = halted s.
Proof. unfold socket_onmessage. destruct (negb _); [done | apply halted_receive]. Qed.

Lemma halted_socket_onerror id s : halted (socket_onerror id s) = halted s.
Proof. unfold socket_onerror. by destruct (negb _). Qed.

Lemma halted_socket_onclose id a b c r s :
  halted (socket_onclose options env id a b c r s) = halted s.
Proof. unfold socket_onclose. destruct (negb _); [done |]. by rewrite halted_failure. Qed.

Lemma halted_source_onopen id s : halted (source_onopen env id s) = halted s.
Proof. unfold source_onopen. destruct (negb _); [done |]. by rewrite halted_scheduleProbe. Qed.

Lemma halted_source_onmessage id d s : halted (source_onmessage env id d s) = halted s.
Proof. unfold source_onmessage. destruct (negb _); [done | apply halted_receive]. Qed.

Lemma halted_source_onerror id a s : halted (source_onerror options env id a s) = halted s.
Proof. unfold source_onerror. destruct (negb _); [done |]. by rewrite halted_failure. Qed.

Lemma halted_run_task t s : halted (run_task options env t s) = halted s.
Proof. destruct t; cbn; by rewrite halted_connect. Qed.

Lemma halted_attached h k s : (forall a s, halted (k a s) = halted s) -> halted (attached h k s) = halted s.
Proof. destruct h; cbn; auto. Qed.

(** Every action but the owner's start and stop. *)
Lemma perform_halted a s s' :
  match a with Start | Stop _ => False | _ => True end ->
  perform options env a s = Some s' -> halted s' = halted s.
Proof.
  intros Ha E. destruct a; try done; cbn in E.
  - injection E as <-. apply halted_retryNow.
  - destruct (timers s !! id) as [[t d] |]; [| done]. injection E as <-. by rewrite halted_run_task.
  - destruct (sockets s !! id); [| done]. cbn in E. destruct (decide _); [| done]. injection E as <-.
    cbn. rewrite halted_attached; [done | intros; apply halted_socket_onopen].
  - destruct (sockets s !! id); [| done]. cbn in E. destruct (decide _); [| done]. injection E as <-.
    rewrite halted_attached; [done | intros; apply halted_socket_onmessage].
  - destruct (sockets s !! id); [| done]. cbn in E. destruct (decide _); [| done]. injection E as <-.
    rewrite halted_attached; [done | intros; apply halted_socket_onerror].
  - destruct (sockets s !! id); [| done]. cbn in E. destruct (decide _); [| done]. injection E as <-.
    rewrite halted_attached; [done | intros; apply halted_socket_onclose].
  - destruct (sources s !! id); [| done]. cbn in E. destruct (decide _); [| done]. injection E as <-.
    rewrite halted_attached; [done | intros; apply halted_source_onopen].
  - destruct (sources s !! id); [| done]. cbn in E. destruct (decide _); [| done]. injection E as <-.
    rewrite halted_attached; [done | intros; apply halted_source_onmessage].
  - destruct (sources s !! id); [| done]. cbn in E. destruct (decide _); [| done]. injection E as <-.
    rewrite halted_attached; [done | intros; apply halted_source_onerror].
Qed.

Lemma stop_halted st s : halted (stop st s) = true.
Proof. unfold stop. cbn. by rewrite halted_closeCurrent, halted_clearTimers. Qed.

Lemma start_running s : halted (start s) = false.
Proof. unfold start. cbn. by rewrite halted_clearTimers. Qed.
End Running.

(** * Witnesses *)

Definition sample_browser : Browser := {| has_EventSource := true; decode_buffer := fun _ => "" |}.
#[local] Existing Instance sample_browser.

Definition sample_options : LiveTransportManagerOptions :=
  {| baseUrl := "https://jobs.example"; token := "" |}.

Definition sample_env : Env := mkEnv 1773345600000 (num_of_string "0.5") false.

Lemma sample_env_valid : valid_env sample_env.
Proof. split; vm_compute; reflexivity. Qed.

(** The state a run ends in. *)
Definition sample_state (l : list action) : St :=
  match run sample_options (List.map (pair sample_env) l) initial with
  | Some s => s
  | None => initial
  end.

Definition no_owner_call (a : action) : bool :=
  match a with Start | Stop _ => false | _ => true end.

Lemma polite_events l s :
  forallb no_owner_call l = true ->
  polite_run sample_options (List.map (pair sample_env) l) s.
Proof.
  revert s. induction l as [|a l IH]; intros s Hl; [done |]. cbn in Hl. prop_bools.
  cbn [List.map polite_run]. split; [exact sample_env_valid |]. split; [by destruct a |].
  destruct (perform _ _ _ _); [by apply IH | done].
Qed.

(** A started manager and events only. *)
Lemma sample_reachable l :
  forallb no_owner_call l = true -> reachable sample_options (sample_state (Start :: l)).
Proof.
  intros Hl. unfold sample_state. cbn [List.map].
  destruct (run sample_options ((sample_env, Start) :: List.map (pair sample_env) l) initial)
    as [s|] eqn:E; [| apply rtc_refl].
  eapply run_reachable; [apply rtc_refl | | exact E].
  split; [exact sample_env_valid |]. split; [by right |]. cbn [perform]. by apply polite_events.
Qed.

(** A WebSocket connects, opens, delivers an event. *)
Definition live_run : list action :=
  [FireTimer 0; SocketOpen 1;
   SocketMessage 1 (WireText (of_chars (chars "{" ++ quote_chars "kind" ++ chars ":" ++
     quote_chars "job.updated" ++ chars "}")))].

(** Two sockets fail; the third attempt opens. *)
Definition third_attempt_run : list action :=
  [FireTimer 0; SocketClose 1 1006 ""; FireTimer 2; SocketClose 3 1006 ""; FireTimer 4;
   SocketOpen 5].

Definition live_state : St := sample_state (Start :: live_run).
Definition third_state : St := sample_state (Start :: third_attempt_run).

Lemma live_reachable : reachable sample_options live_state.
Proof. by apply sample_reachable. Qed.

Lemma third_reachable : reachable sample_options third_state.
Proof. by apply sample_reachable. Qed.

(** The live manager, stopped; the live manager, asked to reconnect. *)
Definition stopped_state : St := stop conn_paused live_state.
Definition retried_state : St := sample_state (Start :: live_run ++ [RetryNow]).

(** The live manager after its socket closed abnormally: a retry is armed. *)
Definition failed_state : St := sample_state (Start :: live_run ++ [SocketClose 1 1006 ""]).

Lemma stopped_reachable : reachable sample_options stopped_state.
Proof.
  eapply rtc_r; [exact live_reachable |].
  by apply (step_perform _ sample_env (Stop conn_paused)); [exact sample_env_valid | |].
Qed.

Lemma retried_reachable : reachable sample_options retried_state.
Proof. by apply sample_reachable. Qed.

Lemma failed_reachable : reachable sample_options failed_state.
Proof. by apply sample_reachable. Qed.

Lemma transport_no_leak_witness :
  socket (manager live_state) = Some 1%nat /\
  (socket (manager live_state) = None \/ eventSource (manager live_state) = None).
Proof.
  split; [vm_compute; reflexivity |].
  exact (proj1 (proj2 (proj2 (proj2 (transport_no_leak sample_options live_state live_reachable))))).
Defined.

Lemma transport_status_truth_witness :
  TransportStatus.state (status (manager live_state)) = conn_live /\
  (is_Some (socket (manager live_state)) ->
     TransportStatus.mode (status (manager live_state)) = mode_websocket).
Proof.
  split; [vm_compute; reflexivity |].
  apply (transport_status_truth sample_options live_state live_reachable).
  vm_compute. reflexivity.
Defined.

Lemma transport_never_stuck_witness :
  exists id m a r d,
    retryTimer (manager failed_state) = Some id /\
    timers failed_state !! id = Some (RetryTask m a r, d) /\
    attempt_ok m a /\ retry_delay_ok m a d.
Proof.
  destruct (retryTimer (manager failed_state)) as [id|] eqn:E; [| vm_compute in E; discriminate].
  destruct (proj1 (proj2 (transport_never_stuck sample_options failed_state failed_reachable)) id E)
    as (m & a & r & d & Hok).
  exists id, m, a, r, d. split; [reflexivity | exact Hok].
Defined.

Lemma transport_ladder_witness :
  (exists s, perform sample_options sample_env (SocketClose 1 1006 "") live_state = Some s /\
     Z.of_nat 1 <= 11 /\ reachable sample_options s).
Proof.
  destruct (perform sample_options sample_env (SocketClose 1 1006 "") live_state) as [s|] eqn:E;
    [| vm_compute in E; discriminate].
  exists s. split; [reflexivity |].
  destruct (transport_ladder sample_options live_state 1 s live_reachable) as (H1 & H2 & _).
  - eapply nsteps_l; [| apply nsteps_O].
    apply (failing_step _ sample_env (SocketClose 1 1006 "")); [exact sample_env_valid | | exact E].
    vm_compute. reflexivity.
  - split; assumption.
Defined.

Lemma transport_silent_after_stop_witness :
  exists s,
    perform sample_options sample_env (SocketClose 1 1000 "") stopped_state = Some s /\
    manager s = manager stopped_state /\ out s = out stopped_state.
Proof.
  destruct (perform sample_options sample_env (SocketClose 1 1000 "") stopped_state) as [s|] eqn:E;
    [| vm_compute in E; discriminate].
  exists s. split; [reflexivity |].
  destruct (transport_silent_after_stop sample_options sample_env (SocketClose 1 1000 "")
    stopped_state s stopped_reachable ltac:(vm_compute; reflexivity) I E) as (H1 & H2 & _).
  split; assumption.
Defined.

Lemma transport_stale_socket_inert_witness :
  exists s m,
    perform sample_options sample_env (SocketClose 1 1000 "") retried_state = Some s /\
    s = set_sockets m retried_state.
Proof.
  destruct (perform sample_options sample_env (SocketClose 1 1000 "") retried_state) as [s|] eqn:E;
    [| vm_compute in E; discriminate].
  destruct (transport_stale_socket_inert sample_options sample_env (SocketClose 1 1000 "") 1
    retried_state s retried_reachable eq_refl ltac:(vm_compute; discriminate) E) as [m Hm].
  exists s, m. split; [reflexivity | exact Hm].
Defined.

Lemma transport_retryNow_witness :
  TransportStatus.degradedReason
    (status (manager (retryNow sample_options sample_env live_state))) =
  "Manual reconnect requested.".
Proof.
  apply (transport_retryNow sample_options sample_env live_state live_reachable sample_env_valid);
    vm_compute; reflexivity.
Defined.

Lemma transport_events_well_formed_witness :
  exists fs kind, VObj [("kind", VStr "job.updated")] = VObj fs /\ get_prop fs "kind" = VStr kind.
Proof.
  apply (transport_events_well_formed sample_options live_state _ live_reachable).
  apply list_elem_of_In, (List.nth_error_In _ 1). vm_compute. reflexivity.
Defined.

Lemma transport_last_attempt_not_reset_witness :
  exists s,
    perform sample_options sample_env (SocketClose 5 1001 "") third_state = Some s /\
    socket (manager s) = None.
Proof.
  destruct (perform sample_options sample_env (SocketClose 5 1001 "") third_state) as [s|] eqn:E;
    [| vm_compute in E; discriminate].
  exists s. split; [reflexivity |].
  apply (transport_last_attempt_not_reset sample_options sample_env third_state 5
    (mkSocket OPEN (Some 2) true false) 1001 "" s third_reachable sample_env_valid);
    [vm_compute; reflexivity | vm_compute; reflexivity | reflexivity | exact E].
Defined.
