(* ===== verification/Settings.v ===== *)
(** Configuration and persisted settings: [src/lib/runtime-config.ts],
    [src/api/config.ts], [src/hooks/usePersistentState.ts],
    [src/hooks/useQueryParamState.ts], and the settings that
    [src/components/OpsConsole.tsx] persists through them. *)

From stdpp Require Import base list strings gmap sets.
From Stdlib Require Import ZArith Lia Bool.
From S2P Require Import Prelude JsString JsNum JsValue JsonFacts Models ApiRoutes Safe Urls LiveRefresh.

#[local] Open Scope Z_scope.

(** * Runtime configuration *)

Section Config.
Context `{UrlApi}.

(** [import.meta.env]: variables that are not set are undefined. *)
Context (env : string -> jsval).

Definition getEnvValue (key : string) : string := safeTrim (env key).

Definition opt_string (o : option string) : string := opt_or_else o "".

(** [parsed.toString().replace(/\/$/, "")] *)
Definition deriveWebSocketUrl (apiBaseUrl : string) : string :=
  match normalizeBaseUrl (VStr apiBaseUrl) with
  | None => ""
  | Some normalizedApiBaseUrl =>
      if negb (truthy normalizedApiBaseUrl) then ""
      else
        match url_new normalizedApiBaseUrl with
        | None => ""
        | Some parsed =>
            if String.eqb (url_protocol parsed) "http:" then
              strip_one_slash (url_href (url_set_protocol "ws:" parsed))
            else if String.eqb (url_protocol parsed) "https:" then
              strip_one_slash (url_href (url_set_protocol "wss:" parsed))
            else ""
        end
  end.

Definition resolveApiUrlFromEnv : string :=
  opt_string (normalizeBaseUrl (VStr
    (or_else (getEnvValue "NEXT_PUBLIC_API_URL")
       (or_else (getEnvValue "VITE_API_URL") (getEnvValue "VITE_API_BASE_URL"))))).

Definition resolveWsUrlFromEnv : string :=
  opt_string (normalizeBaseUrl (VStr
    (or_else (getEnvValue "NEXT_PUBLIC_WS_URL")
       (or_else (getEnvValue "VITE_WS_URL") (getEnvValue "VITE_WS_BASE_URL"))))).

Definition resolveDefaultApiBaseUrl : string := resolveApiUrlFromEnv.

Definition resolveDefaultRealtimeBaseUrl (apiBaseUrl : option string) : string :=
  let explicitWsBaseUrl := resolveWsUrlFromEnv in
  if truthy explicitWsBaseUrl then
    or_else (deriveWebSocketUrl explicitWsBaseUrl) explicitWsBaseUrl
  else
    let resolvedApiBaseUrl :=
      opt_or_else (normalizeBaseUrl (VStr (trim (opt_default apiBaseUrl "")))) resolveApiUrlFromEnv in
    deriveWebSocketUrl resolvedApiBaseUrl.

Definition resolveDefaultAdminToken : string :=
  or_else
    (trim (or_else (getEnvValue "VITE_ADMIN_TOKEN") (getEnvValue "NEXT_PUBLIC_ADMIN_TOKEN")))
    "dev-admin-token".

(** ** [src/api/config.ts] *)

Definition LOCAL_HOSTS : list string := ["localhost"; "127.0.0.1"; "::1"].

Definition resolveExplicitApiBaseUrl : option string :=
  normalizeBaseUrl (VStr
    (or_else (getEnvValue "NEXT_PUBLIC_API_URL") (getEnvValue "VITE_API_BASE_URL"))).

Definition resolveExplicitWsBaseUrl : option string :=
  normalizeBaseUrl (VStr
    (or_else (getEnvValue "NEXT_PUBLIC_WS_URL") (getEnvValue "VITE_WS_BASE_URL"))).

(** [hostname] is the page's, when there is a window. *)
Definition API_BASE_URL (dev : bool) (hostname : option string) : string :=
  if opt_truthy resolveExplicitApiBaseUrl then opt_string resolveExplicitApiBaseUrl
  else if negb dev then ""
  else
    match hostname with
    | None => ""
    | Some name =>
        if existsb (String.eqb (to_lower (trim name))) LOCAL_HOSTS then "http://localhost:8080"
        else ""
    end.

Definition WS_BASE_URL (dev : bool) (hostname : option string) : string :=
  opt_or_else resolveExplicitWsBaseUrl (API_BASE_URL dev hostname).
End Config.

(** * usePersistentState *)

Section PersistentState.
Context {T : Type} (deserialize : string -> result T) (serialize : T -> result string).

(** The initial state. *)
Definition restore (st : storage) (key : string) (fallback : T) : T :=
  let stored := readStoredValue st key "" in
  if negb (truthy stored) then fallback
  else match deserialize stored with Ok value => value | Throw _ => fallback end.

(** The effect that runs when the value changes. *)
Definition persist (st : storage) (key : string) (value : T) : storage :=
  match serialize value with
  | Ok text => writeStoredValue st key (VStr text)
  | Throw _ => st
  end.
End PersistentState.

(** * useQueryParamState *)

(** [url.searchParams.get] and [url.searchParams.delete]. *)
Class UrlParams `{UrlApi} := {
  url_params_get : string -> URL -> option string;
  url_params_delete : string -> URL -> URL
}.

Section QueryParam.
Context `{UrlParams}.

(** [href] is [window.location.href], when there is a window. *)
Definition readQueryParam (href : option string) (key fallback : string) : string :=
  match href with
  | None => fallback
  | Some href =>
      match url_new href with
      | Some url => or_else (trim (opt_default (url_params_get key url) "")) fallback
      | None => fallback
      end
  end.

(** The URL the effect of [useQueryParamState] installs, if any. *)
Definition writeQueryParam (href : option string) (key value : string) : option string :=
  href ← href;
  url ← url_new href;
  let next := trim value in
  Some (url_href (if truthy next then url_params_set key next url else url_params_delete key url)).
End QueryParam.

(** * The settings of the console *)

Definition deserialize_flag (raw : string) : result bool := Ok (negb (String.eqb raw "false")).
Definition serialize_flag (value : bool) : result string := Ok (if value then "true" else "false").

Definition deserialize_poll (raw : string) : result PollingPreset :=
  let value := num_of_string raw in
  match List.find (fun preset => num_eqb (num_of_Z (snd preset)) value) POLLING_PRESETS with
  | Some preset => Ok (snd preset)
  | None => Ok 15000
  end.
Definition serialize_poll (value : PollingPreset) : result string := Ok (num_to_string (num_of_Z value)).

(** Without options the raw text is the value. *)
Definition deserialize_text (raw : string) : result string := Ok raw.
Definition serialize_text (value : string) : result string := Ok value.

Record ConsoleSettings := {
  environment : string;
  baseUrlInput : string;
  token : string;
  liveMode : bool;
  liveUpdates : bool;
  pollIntervalMs : PollingPreset
}.

(** The settings when the console mounts. *)
Definition restoreSettings (defaultBaseUrl defaultToken : string) (st : storage) : ConsoleSettings :=
  {| environment := restore deserialize_text st STORAGE_KEYS.environment "Demo Sandbox";
     baseUrlInput := restore deserialize_text st STORAGE_KEYS.baseUrl defaultBaseUrl;
     token := restore deserialize_text st STORAGE_KEYS.token defaultToken;
     liveMode := restore deserialize_flag st STORAGE_KEYS.liveMode true;
     liveUpdates := restore deserialize_flag st STORAGE_KEYS.liveUpdates true;
     pollIntervalMs := restore deserialize_poll st STORAGE_KEYS.pollIntervalMs 15000 |}.

(** The six effects that persist them. *)
Definition persistSettings (st : storage) (s : ConsoleSettings) : storage :=
  let st := persist serialize_text st STORAGE_KEYS.environment (environment s) in
  let st := persist serialize_text st STORAGE_KEYS.baseUrl (baseUrlInput s) in
  let st := persist serialize_text st STORAGE_KEYS.token (token s) in
  let st := persist serialize_flag st STORAGE_KEYS.liveMode (liveMode s) in
  let st := persist serialize_flag st STORAGE_KEYS.liveUpdates (liveUpdates s) in
  persist serialize_poll st STORAGE_KEYS.pollIntervalMs (pollIntervalMs s).

(** The tab the console shows for the one the URL names. *)
Definition tab_key (t : TabKey) : string :=
  match t with
  | tab_overview => "overview" | tab_jobs => "jobs" | tab_queues => "queues"
  | tab_workers => "workers" | tab_schedules => "schedules" | tab_dead_letter => "dead-letter"
  | tab_workflows => "workflows" | tab_metrics => "metrics" | tab_events => "events"
  end.

Definition tabKey (selectedTab : string) : string :=
  if existsb (fun tab => String.eqb (tab_key (fst tab)) selectedTab) TABS then selectedTab
  else "overview".

(** * Lemmas *)

Definition presets : list PollingPreset := List.map snd POLLING_PRESETS.

(** A text that storage keeps: trimmed and not empty. *)
Definition storable (s : string) : Prop := trim s = s /\ s <> "".

Lemma restore_ext {T} (d : string -> result T) st st' key fallback :
  readStoredValue st key "" = readStoredValue st' key "" ->
  restore d st key fallback = restore d st' key fallback.
Proof. intros E. unfold restore. by rewrite E. Qed.

Lemma persist_other {T} (ser : T -> result string) st key key' value :
  key <> key' ->
  readStoredValue (persist ser st key value) key' "" = readStoredValue st key' "".
Proof.
  intros Hk. unfold persist. destruct (ser value); [| done].
  unfold writeStoredValue, readStoredValue. destruct st as [| |items full]; try done.
  destruct (truthy _); [destruct full; [done |] |]; cbn.
  - by rewrite lookup_insert_ne.
  - by rewrite lookup_delete_ne.
Qed.

(** Storage that accepts writes. *)
Definition usable (st : storage) : Prop := exists items, st = Store items false.

Lemma restore_persist {T} (d : string -> result T) (ser : T -> result string) st key value text
    fallback :
  usable st -> ser value = Ok text -> storable text -> d text = Ok value ->
  restore d (persist ser st key value) key fallback = value.
Proof.
  intros [items ->] Hs [Ht Hne] Hd. apply truthy_true in Hne. unfold restore, persist. rewrite Hs.
  unfold writeStoredValue, readStoredValue. cbn [asString]. rewrite Hne, lookup_insert_eq.
  cbn [opt_default]. rewrite Ht. unfold or_else. rewrite !Hne. cbn [negb]. by rewrite Hd.
Qed.

Lemma persist_usable {T} (ser : T -> result string) st key value :
  usable st -> usable (persist ser st key value).
Proof.
  intros [items ->]. unfold usable, persist. destruct (ser value) as [text |]; [| eauto].
  cbn. destruct (truthy text); eauto.
Qed.

Lemma preset_roundtrip p :
  p ∈ presets -> exists text, serialize_poll p = Ok text /\ storable text /\ deserialize_poll text = Ok p.
Proof.
  intros Hp. assert (p = 0 \/ p = 5000 \/ p = 15000 \/ p = 30000) as H by (unfold presets in Hp; set_solver).
  destruct H as [-> | [-> | [-> | ->]]]; eexists; (split; [vm_compute; reflexivity |]);
    (split; [split; vm_compute; congruence | vm_compute; reflexivity]).
Qed.

Lemma flag_roundtrip (b : bool) :
  exists text, serialize_flag b = Ok text /\ storable text /\ deserialize_flag text = Ok b.
Proof.
  destruct b; eexists; (split; [reflexivity |]); (split; [by split; vm_compute | reflexivity]).
Qed.

Lemma poll_valid st key : restore deserialize_poll st key 15000 ∈ presets.
Proof.
  assert (15000 ∈ presets) as Hd by (unfold presets; set_solver).
  unfold restore, deserialize_poll. destruct (negb _); [done |].
  match goal with |- context [List.find ?f ?l] => destruct (List.find f l) as [preset |] eqn:E end;
    [| done].
  apply List.find_some in E as [Hin _]. unfold presets.
  apply list_elem_of_In. by apply List.in_map.
Qed.

(** Read the setting of [key] through the effects that write other keys. *)
Ltac read_setting :=
  repeat (erewrite restore_ext; [| apply persist_other; discriminate]).

(** * Properties *)

(** What comes back of a text: it trimmed, or the default when that is empty. *)
Definition kept (text fallback : string) : string :=
  if decide (trim text = "") then fallback else trim text.

Lemma restore_persist_text st key text fallback :
  usable st ->
  restore deserialize_text (persist serialize_text st key text) key fallback = kept text fallback.
Proof.
  intros [items ->]. unfold restore, persist, serialize_text, deserialize_text, kept.
  unfold writeStoredValue, readStoredValue. cbn [asString]. destruct (truthy text) eqn:Et.
  - rewrite lookup_insert_eq. cbn [opt_default]. unfold or_else.
    destruct (decide (trim text = "")) as [-> | Hne]; [done |].
    apply truthy_true in Hne. by rewrite !Hne.
  - rewrite lookup_delete_eq. apply truthy_false in Et as ->. done.
Qed.

(** C34: settings survive a reload, up to blank texts. Where storage accepts writes
    and the interval is a preset, which every restored one is whatever storage
    holds, the settings that come back are the ones persisted, except that the
    texts are trimmed, and that a text that was emptied or left blank comes back as
    its default. So trimmed settings without an empty text are restored exactly. *)
Theorem settings_roundtrip defaultBaseUrl defaultToken st s :
  usable st -> pollIntervalMs s ∈ presets ->
  restoreSettings defaultBaseUrl defaultToken (persistSettings st s) =
    {| environment := kept (environment s) "Demo Sandbox";
       baseUrlInput := kept (baseUrlInput s) defaultBaseUrl;
       token := kept (token s) defaultToken;
       liveMode := liveMode s; liveUpdates := liveUpdates s; pollIntervalMs := pollIntervalMs s |} /\
  (storable (environment s) -> storable (baseUrlInput s) -> storable (token s) ->
   restoreSettings defaultBaseUrl defaultToken (persistSettings st s) = s) /\
  (forall st', pollIntervalMs (restoreSettings defaultBaseUrl defaultToken st') ∈ presets).
Proof.
  intros Hst Hp.
  destruct (flag_roundtrip (liveMode s)) as (t1 & ? & ? & ?).
  destruct (flag_roundtrip (liveUpdates s)) as (t2 & ? & ? & ?).
  destruct (preset_roundtrip _ Hp) as (t3 & ? & ? & ?).
  assert (restoreSettings defaultBaseUrl defaultToken (persistSettings st s) =
    {| environment := kept (environment s) "Demo Sandbox";
       baseUrlInput := kept (baseUrlInput s) defaultBaseUrl;
       token := kept (token s) defaultToken;
       liveMode := liveMode s; liveUpdates := liveUpdates s; pollIntervalMs := pollIntervalMs s |}) as E.
  { unfold restoreSettings, persistSettings. f_equal; read_setting;
      first [apply restore_persist_text | eapply restore_persist; try eassumption];
      by repeat apply persist_usable. }
  split_and!; [exact E | | intros; apply poll_valid].
  intros [He He'] [Hb Hb'] [Ht Ht']. rewrite E. unfold kept. rewrite He, Hb, Ht, !decide_False by done.
  by destruct s.
Qed.

Lemma settings_roundtrip_witness :
  let s := {| environment := " Production"; baseUrlInput := "https://jobs.example"; token := "";
              liveMode := false; liveUpdates := true; pollIntervalMs := 5000 |} in
  restoreSettings "" "dev-admin-token" (persistSettings (Store ∅ false) s) =
    {| environment := "Production"; baseUrlInput := "https://jobs.example"; token := "dev-admin-token";
       liveMode := false; liveUpdates := true; pollIntervalMs := 5000 |}.
Proof.
  apply (settings_roundtrip "" "dev-admin-token" (Store ∅ false)
    {| environment := " Production"; baseUrlInput := "https://jobs.example"; token := "";
       liveMode := false; liveUpdates := true; pollIntervalMs := 5000 |}); [by exists ∅ |].
  unfold presets. set_solver.
Defined.

(** An operator who clears the token finds the default one after a reload. *)
Example cleared_token_returns :
  token (restoreSettings "" "dev-admin-token" (persistSettings (Store ∅ false)
    {| environment := "Production"; baseUrlInput := "https://jobs.example"; token := "";
       liveMode := true; liveUpdates := true; pollIntervalMs := 5000 |})) = "dev-admin-token".
Proof. vm_compute. reflexivity. Qed.

(** The query parameter of a page round-trips under the documented behaviour of
    [URL]: a URL's text parses to it, and [get] reads what [set] and [delete]
    left. *)
Lemma query_param_roundtrip `{UrlParams} href u key value fallback :
  url_new href = Some u ->
  (forall w, url_new (url_href w) = Some w) ->
  (forall k v w, url_params_get k (url_params_set k v w) = Some v) ->
  (forall k w, url_params_get k (url_params_delete k w) = None) ->
  exists href',
    writeQueryParam (Some href) key value = Some href' /\
    readQueryParam (Some href') key fallback = or_else (trim (trim value)) fallback.
Proof.
  intros Hu Hparse Hset Hdel. unfold writeQueryParam. cbn [mbind option_bind]. rewrite Hu.
  eexists. split; [reflexivity |]. unfold readQueryParam. rewrite Hparse.
  destruct (truthy (trim value)) eqn:E.
  - by rewrite Hset.
  - rewrite Hdel. apply truthy_false in E. by rewrite E.
Qed.
