(* ===== verification/DashboardConfig.v ===== *)
(** [dashboard/src/lib/runtime-config.ts]: where the second copy of the dashboard
    finds the API. It is the file in which the copies differ; the configuration of
    the first copy is in Settings.v. *)

From stdpp Require Import base list strings.
From Stdlib Require Import ZArith Lia Bool Ascii.
From S2P Require Import Prelude JsString JsValue ApiRoutes Safe Urls Settings.

Section Config.
(** [import.meta.env]: a variable that is not set is [None]; [PROD] is apart. *)
Context (env : string -> option string) (PROD : bool).

(** [value.replace(/\/+$/, "")] *)
Definition trimTrailingSlash (value : string) : string := strip_trailing_slashes value.

Definition apiBase : string := trimTrailingSlash (opt_or_else (env "VITE_API_URL") "").
Definition explicitWsBase : string := trimTrailingSlash (opt_or_else (env "VITE_WS_URL") "").
Definition adminToken : string := trim (opt_or_else (env "VITE_ADMIN_TOKEN") "").

(** Whether the start-up warns that the URL is missing. *)
Definition warns : bool := PROD && negb (truthy apiBase).

Definition API_BASE_URL : string := or_else apiBase (if PROD then "" else "http://localhost:8080").

(** [s.replace(/^p/, q)] *)
Definition replace_prefix (p q s : string) : string :=
  if starts_with p s then q +:+ slice_from (String.length p) s else s.

Definition WS_BASE_URL : string :=
  or_else explicitWsBase
    (replace_prefix "http://" "ws://" (replace_prefix "https://" "wss://" API_BASE_URL)).

Definition with_slash (path : string) : string :=
  if starts_with "/" path then path else "/" +:+ path.

Definition apiUrl (path : string) : string := API_BASE_URL +:+ with_slash path.
Definition wsUrl (path : string) : string := WS_BASE_URL +:+ with_slash path.

Definition resolveDefaultApiUrl : string := API_BASE_URL.
Definition resolveDefaultRealtimeUrl : string := WS_BASE_URL.
Definition resolveDefaultApiBaseUrl : string := API_BASE_URL.
Definition resolveDefaultRealtimeBaseUrl : string := WS_BASE_URL.
Definition resolveDefaultAdminToken : string := adminToken.
End Config.

(** * Lemmas *)

(** No slash at the end. *)
Definition bare (s : string) : Prop := forall l, chars s <> l ++ ["/"%char].

Lemma strip_trailing_bare s : bare (strip_trailing_slashes s).
Proof.
  intros l E. unfold strip_trailing_slashes in E. rewrite chars_of_chars in E.
  by apply drop_while_end_snoc in E.
Qed.

Lemma starts_with_app p s : starts_with p (p +:+ s) = true.
Proof.
  unfold starts_with. induction p as [| c p IH]; [by destruct s |].
  change (String c p +:+ s) with (String c (p +:+ s)). cbn.
  destruct (ascii_dec c c); [exact IH | congruence].
Qed.

Lemma slice_from_app p s : slice_from (String.length p) (p +:+ s) = s.
Proof.
  unfold slice_from. rewrite chars_app.
  assert (String.length p = length (chars p)) as ->
    by (clear; induction p as [| c p IH]; cbn; [done | by f_equal]).
  by rewrite drop_app_length, of_chars_chars.
Qed.

Lemma replace_prefix_hit p q s : replace_prefix p q (p +:+ s) = q +:+ s.
Proof. unfold replace_prefix. by rewrite starts_with_app, slice_from_app. Qed.

Lemma with_slash_spec path :
  exists rest, with_slash path = "/" +:+ rest /\ (path = "/" +:+ rest \/ path = rest).
Proof.
  unfold with_slash. destruct (starts_with "/" path) eqn:E; [| exists path; split; [done | by right]].
  destruct path as [| c path]; [discriminate E |].
  change ((if ascii_dec "/" c then String.prefix "" path else false) = true) in E.
  destruct (ascii_dec "/" c) as [<- | Hn]; [| discriminate E]. exists path. split; [done | by left].
Qed.

(** * Properties *)

(** The addresses of the second dashboard. Neither base ends in a slash and an
    address is its base, one slash and the path; a configured API URL is used
    whatever the build, and without one a development build talks to the local
    API while a production build has no base and warns; a configured realtime URL
    is used, and without one the realtime base is the API base with its protocol
    turned from http to ws and from https to wss. *)
Theorem dashboard_addresses env PROD :
  bare (API_BASE_URL env PROD) /\
  (forall path, exists rest,
     apiUrl env PROD path = API_BASE_URL env PROD +:+ "/" +:+ rest /\
     wsUrl env PROD path = WS_BASE_URL env PROD +:+ "/" +:+ rest /\
     (path = "/" +:+ rest \/ path = rest)) /\
  (truthy (apiBase env) = true -> API_BASE_URL env PROD = apiBase env /\ warns env PROD = false) /\
  (truthy (apiBase env) = false ->
     API_BASE_URL env PROD = (if PROD then "" else "http://localhost:8080") /\ warns env PROD = PROD) /\
  (truthy (explicitWsBase env) = true -> WS_BASE_URL env PROD = explicitWsBase env) /\
  (truthy (explicitWsBase env) = false ->
     (forall host, API_BASE_URL env PROD = "http://" +:+ host -> WS_BASE_URL env PROD = "ws://" +:+ host) /\
     (forall host, API_BASE_URL env PROD = "https://" +:+ host -> WS_BASE_URL env PROD = "wss://" +:+ host)).
Proof.
  unfold warns. split_and!.
  - unfold API_BASE_URL, or_else. destruct (truthy _); [apply strip_trailing_bare |].
    intros l E. destruct PROD; [by destruct l |].
    apply (f_equal (@last ascii)) in E. rewrite last_snoc in E. by vm_compute in E.
  - intros path. destruct (with_slash_spec path) as (rest & E & Hp). exists rest.
    unfold apiUrl, wsUrl. by rewrite E.
  - unfold API_BASE_URL, or_else. intros ->. by rewrite andb_false_r.
  - unfold API_BASE_URL, or_else. intros ->. by rewrite andb_true_r.
  - unfold WS_BASE_URL, or_else. by intros ->.
  - unfold WS_BASE_URL, or_else. intros ->. split; intros host ->.
    + by rewrite <- (replace_prefix_hit "http://" "ws://" host).
    + by rewrite replace_prefix_hit.
Qed.

(** * Samples *)

(** The variable the deployment guide asks for, and no other. *)
Definition next_public (key : string) : option string :=
  if String.eqb key "NEXT_PUBLIC_API_URL" then Some "https://api.example" else None.

(** The second copy does not read it. *)
Lemma next_public_unread : API_BASE_URL next_public true = "" /\ warns next_public true = true.
Proof. done. Qed.

Definition railway (key : string) : option string :=
  if String.eqb key "VITE_API_URL" then Some "https://api.example//" else None.

Lemma dashboard_addresses_witness :
  WS_BASE_URL railway true = "wss://api.example" /\
  API_BASE_URL (fun _ => None) true = "".
Proof.
  destruct (dashboard_addresses railway true) as (_ & _ & _ & _ & _ & Hws).
  destruct (dashboard_addresses (fun _ => None) true) as (_ & _ & _ & Hno & _).
  split; [| exact (proj1 (Hno eq_refl))].
  destruct (Hws eq_refl) as [_ Hs]. exact (Hs "api.example" eq_refl).
Defined.
