(* ===== verification/ToastQueue.v ===== *)
(** [src/hooks/useToastQueue.ts]: the queue of notifications, with its keys,
    cooldowns and dismissal timers.

    The four refs of the hook and the toasts it shows are one record, with the
    browser's armed timeouts; [setToasts] updates are applied at once, since
    only the rendering reads them. A toast's id is an input of the call: the
    source draws it at random. *)

From stdpp Require Import base list strings gmap relations.
From Stdlib Require Import ZArith Lia Bool.
From S2P Require Import Prelude JsString Models.

#[local] Open Scope Z_scope.

Record ToastInput := {
  tone : ToastTone;
  title : string;
  description : option string;
  key : option string;
  cooldownMs : option Z;
  durationMs : option Z
}.

Definition tone_name (t : ToastTone) : string :=
  match t with
  | tone_info => "info" | tone_success => "success"
  | tone_warning => "warning" | tone_danger => "danger"
  end.

Record Queue := mkQueue {
  toasts : list Toast;
  (** toast id to timeout handle *)
  timers : gmap string nat;
  (** key to the id of the toast that has it *)
  activeKeys : gmap string string;
  keyById : gmap string string;
  lastShownAt : gmap string Z;
  (** the browser's timeouts: handle to the id to dismiss and the delay *)
  armed : gmap nat (string * Z);
  handle : nat
}.

Definition useToastQueue : Queue := mkQueue [] ∅ ∅ ∅ ∅ ∅ 1.

Definition dismissToast (toastId : string) (q : Queue) : Queue :=
  let q :=
    match timers q !! toastId with
    | Some timer =>
        mkQueue (toasts q) (delete toastId (timers q)) (activeKeys q) (keyById q) (lastShownAt q)
          (delete timer (armed q)) (handle q)
    | None => q
    end in
  let q :=
    match keyById q !! toastId with
    | Some key =>
        if truthy key then
          mkQueue (toasts q) (timers q) (delete key (activeKeys q)) (delete toastId (keyById q))
            (lastShownAt q) (armed q) (handle q)
        else q
    | None => q
    end in
  mkQueue (List.filter (fun toast => negb (String.eqb (Toast.id toast) toastId)) (toasts q))
    (timers q) (activeKeys q) (keyById q) (lastShownAt q) (armed q) (handle q).

Definition toast_key (toast : ToastInput) : string :=
  default
    (tone_name (tone toast) +:+ ":" +:+ title toast +:+ ":" +:+ opt_default (description toast) "")
    (key toast).

(** [lastShownAt.current\[key\] && now - lastShownAt.current\[key\] < cooldownMs] *)
Definition cooling (q : Queue) (key : string) (now cooldownMs : Z) : bool :=
  match lastShownAt q !! key with
  | Some last => negb (last =? 0) && (now - last <? cooldownMs)
  | None => false
  end.

(** The id returned, null being [None], and the new queue. *)
Definition enqueueToast (now : Z) (id : string) (toast : ToastInput) (q : Queue)
  : option string * Queue :=
  let key := toast_key toast in
  let activeId := opt_default (activeKeys q !! key) "" in
  if truthy activeId then (Some activeId, q)
  else if cooling q key now (default 10000 (cooldownMs toast)) then (None, q)
  else
    let nextToast :=
      {| Toast.id := id; Toast.title := title toast; Toast.description := description toast;
         Toast.tone := tone toast |} in
    (Some id,
     mkQueue (take 5 (nextToast :: toasts q))
       (<[id := handle q]> (timers q)) (<[key := id]> (activeKeys q)) (<[id := key]> (keyById q))
       (<[key := now]> (lastShownAt q))
       (<[handle q := (id, default 4200 (durationMs toast))]> (armed q)) (S (handle q))).

(** A timeout fires: the browser drops it and runs [dismissToast]. *)
Definition fire (timer : nat) (q : Queue) : option Queue :=
  match armed q !! timer with
  | Some (id, _) =>
      Some (dismissToast id
        (mkQueue (toasts q) (timers q) (activeKeys q) (keyById q) (lastShownAt q)
           (delete timer (armed q)) (handle q)))
  | None => None
  end.

(** The cleanup when the component unmounts. *)
Definition unmount (q : Queue) : Queue :=
  mkQueue (toasts q) (timers q) (activeKeys q) (keyById q) (lastShownAt q)
    (foldr delete (armed q) (map_to_list (timers q)).*2) (handle q).

(** Calls and timeouts, in any order. Ids drawn at random are not empty and
    are not in use. *)
Inductive step : Queue -> Queue -> Prop :=
  | step_enqueue q now id toast :
      id <> "" -> keyById q !! id = None -> toast_key toast <> "" ->
      step q (snd (enqueueToast now id toast q))
  | step_dismiss q id : step q (dismissToast id q)
  | step_fire q timer q' : fire timer q = Some q' -> step q q'.

Definition reachable : Queue -> Prop := rtc step useToastQueue.

(** * Invariant *)

Definition shown (q : Queue) (id : string) : Prop := id ∈ Toast.id <$> toasts q.

Record queue_ok (q : Queue) : Prop := {
  ok_keys : forall key id, activeKeys q !! key = Some id <-> keyById q !! id = Some key;
  ok_names : forall key id, activeKeys q !! key = Some id -> key <> "" /\ id <> "";
  ok_timers : forall id, is_Some (timers q !! id) <-> is_Some (keyById q !! id);
  ok_armed : forall timer id, timers q !! id = Some timer <-> exists d, armed q !! timer = Some (id, d);
  ok_handles : forall timer, is_Some (armed q !! timer) -> (timer < handle q)%nat;
  ok_shown : forall id, shown q id -> is_Some (keyById q !! id);
  ok_distinct : NoDup (Toast.id <$> toasts q);
  ok_five : (length (toasts q) <= 5)%nat
}.

Lemma initial_ok : queue_ok useToastQueue.
Proof.
  split; unfold shown, useToastQueue;
    cbn [toasts timers activeKeys keyById armed handle fmap list_fmap length];
    setoid_rewrite lookup_empty || idtac.
  - naive_solver.
  - naive_solver.
  - intros id. by split; intros [? ?].
  - naive_solver.
  - by intros t [? ?].
  - intros id H. by apply elem_of_nil in H.
  - constructor.
  - lia.
Qed.

(** Dismissing a toast that is not active changes nothing. *)
Lemma dismiss_inactive id q :
  queue_ok q -> keyById q !! id = None -> dismissToast id q = q.
Proof.
  intros Hq Hid. unfold dismissToast.
  assert (timers q !! id = None) as ->.
  { destruct (timers q !! id) as [t |] eqn:E; [| done].
    assert (is_Some (keyById q !! id)) as [? ?] by (apply (ok_timers q Hq); eauto). congruence. }
  rewrite Hid.
  assert (List.filter (fun toast => negb (String.eqb (Toast.id toast) id)) (toasts q) = toasts q) as ->.
  { apply filter_all. intros x Hx. apply negb_true_iff, String.eqb_neq.
    intros <-. assert (is_Some (keyById q !! Toast.id x)) as [? ?]; [| congruence].
    apply (ok_shown q Hq). by apply list_elem_of_fmap_2. }
  by destruct q.
Qed.

(** An active toast has a key and an armed timer, which dismissal drops. *)
Lemma dismiss_active id q key :
  queue_ok q -> keyById q !! id = Some key ->
  exists timer,
    timers q !! id = Some timer /\ activeKeys q !! key = Some id /\
    dismissToast id q =
      mkQueue (List.filter (fun toast => negb (String.eqb (Toast.id toast) id)) (toasts q))
        (delete id (timers q)) (delete key (activeKeys q)) (delete id (keyById q))
        (lastShownAt q) (delete timer (armed q)) (handle q).
Proof.
  intros Hq Hid. assert (activeKeys q !! key = Some id) as Hk by by apply (ok_keys q Hq).
  destruct (ok_names q Hq key id Hk) as [Hne _].
  assert (is_Some (timers q !! id)) as [timer Ht] by (apply (ok_timers q Hq); eauto).
  exists timer. split_and!; [done | done |]. unfold dismissToast. rewrite Ht. cbn. rewrite Hid.
  by destruct key.
Qed.

Lemma filter_ids id (l : list Toast) x :
  x ∈ Toast.id <$> List.filter (fun toast => negb (String.eqb (Toast.id toast) id)) l ->
  x ∈ Toast.id <$> l /\ x <> id.
Proof.
  intros (t & -> & Ht)%list_elem_of_fmap. apply list_elem_of_In, List.filter_In in Ht as [Ht Hn].
  split; [by apply list_elem_of_fmap_2, list_elem_of_In |].
  by apply negb_true_iff, String.eqb_neq in Hn.
Qed.

Lemma filter_ids_distinct id (l : list Toast) :
  NoDup (Toast.id <$> l) ->
  NoDup (Toast.id <$> List.filter (fun toast => negb (String.eqb (Toast.id toast) id)) l).
Proof.
  induction l as [| t l IH]; [done |]. cbn. intros [Hn Hd]%NoDup_cons.
  destruct (String.eqb (Toast.id t) id); cbn; [by apply IH |].
  apply NoDup_cons. split; [| by apply IH]. by intros [? _]%filter_ids.
Qed.

Lemma dismiss_ok id q : queue_ok q -> queue_ok (dismissToast id q).
Proof.
  intros Hq. destruct (keyById q !! id) as [key |] eqn:Hid; [| by rewrite dismiss_inactive].
  destruct (dismiss_active id q key Hq Hid) as (timer & Ht & Hk & ->).
  destruct Hq as [H1 H2 H3 H4 H5 H6 H7 H8]. split; unfold shown; cbn.
  - intros key' id'. rewrite !lookup_delete_Some, <- H1. naive_solver.
  - intros key' id' [_ H]%lookup_delete_Some. by apply H2 in H.
  - intros id'. destruct (decide (id' = id)) as [-> | Hn];
      [rewrite !lookup_delete_eq; by split; intros [? ?] | by rewrite !lookup_delete_ne].
  - intros t id'. rewrite lookup_delete_Some, H4. split.
    + intros [Hn [d Hd]]. exists d. apply lookup_delete_Some. split; [| done].
      intros <-. apply Hn. apply H4 in Ht as [d' ?]. congruence.
    + intros (d & [Hn Hd]%lookup_delete_Some). split; [| by exists d].
      intros <-. apply Hn. assert (timers q !! id = Some t) by (apply H4; eauto). congruence.
  - intros t [x [_ Hx]%lookup_delete_Some]. eauto.
  - intros id' [Hs Hn]%filter_ids. rewrite lookup_delete_ne by done. by apply H6.
  - by apply filter_ids_distinct.
  - pose proof (List.filter_length_le (fun toast => negb (String.eqb (Toast.id toast) id)) (toasts q)). lia.
Qed.

Lemma fire_dismiss timer q q' :
  queue_ok q -> fire timer q = Some q' ->
  exists id d, armed q !! timer = Some (id, d) /\ q' = dismissToast id q.
Proof.
  intros Hq. unfold fire. destruct (armed q !! timer) as [[id d] |] eqn:E; [| done].
  intros [= <-]. exists id, d. split; [done |].
  assert (timers q !! id = Some timer) as Ht by (apply (ok_armed q Hq); eauto).
  unfold dismissToast. cbn. rewrite Ht. cbn. by rewrite delete_delete_eq.
Qed.

Lemma take_ids n (l : list Toast) x : x ∈ Toast.id <$> take n l -> x ∈ Toast.id <$> l.
Proof. intros H. rewrite <- (take_drop n l), fmap_app. apply elem_of_app. by left. Qed.

Lemma take_distinct {A} n (l : list A) : NoDup l -> NoDup (take n l).
Proof. rewrite <- (take_drop n l) at 1. by intros [? _]%NoDup_app. Qed.

Lemma enqueue_ok now id toast q :
  queue_ok q -> id <> "" -> keyById q !! id = None -> toast_key toast <> "" ->
  queue_ok (snd (enqueueToast now id toast q)).
Proof.
  intros Hq Hne Hid Hkey. unfold enqueueToast.
  destruct (truthy (opt_default (activeKeys q !! toast_key toast) "")) eqn:EA; [done |].
  destruct (cooling q _ now _); [done |]. cbn [snd].
  assert (activeKeys q !! toast_key toast = None) as HA.
  { destruct (activeKeys q !! toast_key toast) as [a |] eqn:E; [| done].
    apply (ok_names q Hq) in E as [_ ?]. by destruct a. }
  pose proof (fun i => proj1 (ok_timers q Hq i)) as HT.
  destruct Hq as [H1 H2 H3 H4 H5 H6 H7 H8]. split; unfold shown; cbn [toasts timers activeKeys keyById armed handle].
  - intros key' id'. rewrite !lookup_insert_Some, H1. split; [| naive_solver].
    intros [[<- <-] | [Hn Hk]]; [by left |]. right. split; [| done]. intros <-. congruence.
  - intros key' id' [[<- <-] | [_ H]]%lookup_insert_Some; [done | by apply H2 in H].
  - intros id'. rewrite !lookup_insert_is_Some, H3. naive_solver.
  - intros t id'. rewrite lookup_insert_Some. setoid_rewrite lookup_insert_Some. rewrite H4. split.
    + intros [[<- <-] | [Hn [d Hd]]]; [eexists; by left |]. exists d. right. split; [| done].
      intros <-. assert (handle q < handle q)%nat by eauto. lia.
    + intros (d & [[<- [= <- _]] | [Hn Hd]]); [by left |]. right. split; [| by exists d].
      intros <-. assert (is_Some (timers q !! id)) as [? ?]%HT by (eexists; apply H4; eauto). congruence.
  - intros t [x [[<- _] | [_ Hx]]%lookup_insert_Some]; [lia |].
    assert (t < handle q)%nat by eauto. lia.
  - intros id' Hs%take_ids. cbn in Hs. apply elem_of_cons in Hs as [-> | Hs].
    + rewrite lookup_insert_eq. eauto.
    + apply lookup_insert_is_Some. destruct (decide (id = id')); [by left | right; eauto].
  - rewrite fmap_take. apply take_distinct. cbn. apply NoDup_cons. split; [| done].
    intros [? ?]%H6. congruence.
  - rewrite length_take. lia.
Qed.

Lemma queue_reachable_ok q : reachable q -> queue_ok q.
Proof.
  revert q. apply rtc_ind_r; [apply initial_ok |]. intros q q' _ Hs Hq. inversion Hs; subst.
  - by apply enqueue_ok.
  - by apply dismiss_ok.
  - apply fire_dismiss in H as (id & d & _ & ->); [by apply dismiss_ok | done].
Qed.

Lemma lookup_foldr_delete (m : gmap nat (string * Z)) (l : list nat) t :
  foldr delete m l !! t = if decide (t ∈ l) then None else m !! t.
Proof.
  induction l as [| x l IH]; [by rewrite decide_False by apply not_elem_of_nil |]. cbn.
  destruct (decide (t = x)) as [-> | Hn].
  - rewrite lookup_delete_eq. by rewrite decide_True by left.
  - rewrite lookup_delete_ne, IH by done. apply decide_ext. rewrite elem_of_cons. naive_solver.
Qed.

(** A toast left over when the queue is unmounted has no timer. *)
Lemma unmount_armed q : queue_ok q -> armed (unmount q) = ∅.
Proof.
  intros Hq. apply map_eq. intros t. rewrite lookup_empty. cbn. rewrite lookup_foldr_delete.
  destruct (decide _) as [| Hn]; [done |].
  destruct (armed q !! t) as [[id d] |] eqn:E; [| done]. exfalso. apply Hn.
  assert (timers q !! id = Some t) as Ht by (apply (ok_armed q Hq); eauto).
  apply list_elem_of_fmap. exists (id, t). split; [done |]. by apply elem_of_map_to_list.
Qed.

(** * Properties *)

(** C33: notifications are bounded, distinct and temporary. In every reachable
    queue at most five toasts are shown, no two with one id; two toasts that are
    active have different keys; every toast shown has one armed timer, and when
    that timer fires the toast is gone; and unmounting leaves no timer. *)
Theorem toast_queue_sound q :
  reachable q ->
  (length (toasts q) <= 5)%nat /\ NoDup (Toast.id <$> toasts q) /\
  (forall id1 id2 key, keyById q !! id1 = Some key -> keyById q !! id2 = Some key -> id1 = id2) /\
  (forall id, shown q id ->
     exists timer d,
       armed q !! timer = Some (id, d) /\
       fire timer q = Some (dismissToast id q) /\ ~ shown (dismissToast id q) id) /\
  armed (unmount q) = ∅.
Proof.
  intros Hq%queue_reachable_ok. split_and!; [apply Hq | apply Hq | | | by apply unmount_armed].
  - intros id1 id2 key H1%(ok_keys q Hq) H2%(ok_keys q Hq). congruence.
  - intros id Hs. apply (ok_shown q Hq) in Hs as [key Hk].
    destruct (dismiss_active id q key Hq Hk) as (timer & Ht & _ & E).
    assert (exists d, armed q !! timer = Some (id, d)) as [d Ha] by by apply (ok_armed q Hq).
    exists timer, d. split_and!; [done | |].
    + assert (is_Some (fire timer q)) as [q' Hf] by (unfold fire; rewrite Ha; eauto).
      rewrite Hf. apply fire_dismiss in Hf as (id' & d' & Ha' & ->); [| done]. congruence.
    + rewrite E. unfold shown. cbn. by intros [_ ?]%filter_ids.
Qed.

(** A notification is shown exactly when its key is neither active nor
    cooling down: an active key returns the toast that has it, a cooling key
    returns null, both leaving the queue alone, and otherwise the new toast comes
    first and its key cools down from now on. *)
Theorem enqueueToast_cases q now id toast :
  reachable q -> id <> "" ->
  let key := toast_key toast in
  let '(returned, q') := enqueueToast now id toast q in
  (forall active, activeKeys q !! key = Some active -> returned = Some active /\ q' = q) /\
  (activeKeys q !! key = None ->
     if cooling q key now (default 10000 (cooldownMs toast)) then returned = None /\ q' = q
     else returned = Some id /\ Toast.id <$> head (toasts q') = Some id /\
          activeKeys q' !! key = Some id /\
          forall later, now <> 0 -> later - now < default 10000 (cooldownMs toast) ->
            cooling q' key later (default 10000 (cooldownMs toast)) = true).
Proof.
  intros Hq%queue_reachable_ok Hne key. unfold enqueueToast. fold key.
  destruct (activeKeys q !! key) as [a |] eqn:EA; cbn [opt_default].
  - destruct (ok_names q Hq _ _ EA) as [_ Ha]. destruct a; [done |]. cbn.
    split; [by intros ? [= <-] | done].
  - cbn. destruct (cooling q key now _) eqn:EC; [done |]. split; [done |]. intros _. cbn.
    split_and!; [done | done | by rewrite lookup_insert_eq |].
    intros later H0 Hl. unfold cooling. cbn. rewrite lookup_insert_eq.
    apply andb_true_iff. split; [by apply negb_true_iff, Z.eqb_neq | by apply Z.ltb_lt].
Qed.

(** * Examples *)

Definition plain_toast (n : string) : ToastInput :=
  {| tone := tone_info; title := n; description := None; key := None;
     cooldownMs := None; durationMs := None |}.

Definition enqueue_all (l : list string) : Queue :=
  foldl (fun q n => snd (enqueueToast 1000 n (plain_toast n) q)) useToastQueue l.

Lemma two_reachable : reachable (enqueue_all ["a"; "b"]).
Proof.
  eapply rtc_l; [by apply (step_enqueue _ 1000 "a" (plain_toast "a")) |].
  eapply rtc_l; [by apply (step_enqueue _ 1000 "b" (plain_toast "b")) |]. apply rtc_refl.
Qed.

Lemma toast_queue_sound_witness :
  Toast.id <$> toasts (enqueue_all ["a"; "b"]) = ["b"; "a"] /\
  exists timer d, armed (enqueue_all ["a"; "b"]) !! timer = Some ("a", d).
Proof.
  split; [vm_compute; reflexivity |].
  destruct (toast_queue_sound _ two_reachable) as (_ & _ & _ & H & _).
  destruct (H "a") as (timer & d & Ha & _).
  - unfold shown. apply (bool_decide_unpack _). vm_compute. exact I.
  - exists timer, d. exact Ha.
Defined.

Lemma enqueueToast_cases_witness :
  enqueueToast 1500 "c" (plain_toast "a") (enqueue_all ["a"; "b"]) =
  (Some "a", enqueue_all ["a"; "b"]).
Proof.
  pose proof (enqueueToast_cases _ 1500 "c" (plain_toast "a") two_reachable ltac:(discriminate)) as H.
  destruct (enqueueToast 1500 "c" (plain_toast "a") (enqueue_all ["a"; "b"])) as [r q'].
  destruct H as [H _]. destruct (H "a") as [-> ->]; [vm_compute |]; reflexivity.
Defined.

(** A sixth toast pushes the first off the screen while its key stays active:
    asking for it again is answered with a toast that is not shown. *)
Example hidden_toast_keeps_its_key :
  let q := enqueue_all ["a"; "b"; "c"; "d"; "e"; "f"] in
  Toast.id <$> toasts q = ["f"; "e"; "d"; "c"; "b"] /\
  enqueueToast 1500 "g" (plain_toast "a") q = (Some "a", q).
Proof. vm_compute. split; reflexivity. Qed.
