(* ===== verification/ApiParsers.v ===== *)
(** [src/lib/api-parsers.ts]: the guards between the JSON of an API response and
    the records of the data model.

    A parser returns the value it was given, under a TypeScript cast, or throws
    an [Error]; the cast is the identity, so a parser is a function from values
    to values that may throw. *)

From stdpp Require Import base list strings.
From Stdlib Require Import ZArith Lia Bool.
From S2P Require Import Prelude JsString JsNum JsValue Models.

#[local] Open Scope js_scope.

(** * Guards *)

Definition malformed {A : Type} (label : string) : result A :=
  Throw (PlainError (label +:+ " response was malformed.")).

Definition asRecord (value : jsval) (label : string) : result (list (string * jsval)) :=
  match value with
  | VObj record => Ok record
  | _ => malformed label
  end.

Definition asArray (value : jsval) (label : string) : result (list jsval) :=
  match value with
  | VArr l => Ok l
  | _ => malformed label
  end.

Definition requireString (value : jsval) (label : string) : result unit :=
  match value with
  | VStr s => if Nat.eqb (String.length s) 0 then malformed label else Ok tt
  | _ => malformed label
  end.

(** * Parsers *)

Definition parseDashboardSnapshot (value : jsval) : result jsval :=
  let! record := asRecord value "Dashboard snapshot" in
  let! _ := asRecord (get_prop record "overview") "Dashboard overview" in
  let! _ := asRecord (get_prop record "metrics") "Dashboard metrics" in
  let! _ := asRecord (get_prop record "trend") "Dashboard trend" in
  Ok value.

Definition parseJob (value : jsval) : result jsval :=
  let! record := asRecord value "Job" in
  let! _ := requireString (get_prop record "id") "Job id" in
  let! _ := requireString (get_prop record "type") "Job type" in
  let! _ := requireString (get_prop record "queue") "Job queue" in
  let! _ := requireString (get_prop record "state") "Job state" in
  Ok value.

Definition parseJobs (value : jsval) : result jsval :=
  let! items := asArray value "Jobs" in
  let! jobs := result_map parseJob items in
  Ok (VArr jobs).

Definition parseSchedule (value : jsval) : result jsval :=
  let! record := asRecord value "Schedule" in
  let! _ := requireString (get_prop record "id") "Schedule id" in
  let! _ := requireString (get_prop record "name") "Schedule name" in
  let! _ := requireString (get_prop record "cronExpression") "Schedule cron expression" in
  Ok value.

Definition parseSchedules (value : jsval) : result jsval :=
  let! items := asArray value "Schedules" in
  let! schedules := result_map parseSchedule items in
  Ok (VArr schedules).

Definition parseWorkerStatus (value : jsval) : result jsval :=
  let! record := asRecord value "Worker status" in
  let! _ := requireString (get_prop record "workerId") "Worker id" in
  let! _ := requireString (get_prop record "hostname") "Worker hostname" in
  match get_prop record "queues" with
  | VArr _ => Ok value
  | _ => Throw (PlainError "Worker queues response was malformed.")
  end.

Definition parseWorkerStatuses (value : jsval) : result jsval :=
  let! items := asArray value "Workers" in
  let! statuses := result_map parseWorkerStatus items in
  Ok (VArr statuses).

Definition parseJobInspection (value : jsval) : result jsval :=
  let! record := asRecord value "Job inspection" in
  let! _ := parseJob (get_prop record "job") in
  let! _ := asArray (get_prop record "attempts") "Job inspection attempts" in
  let! _ := asArray (get_prop record "events") "Job inspection events" in
  let! _ := asRecord (get_prop record "graph") "Job inspection graph" in
  Ok value.

Definition parseEnqueueResult (value : jsval) : result jsval :=
  let! record := asRecord value "Enqueue result" in
  let! _ := parseJob (get_prop record "job") in
  match get_prop record "duplicateSuppressed" with
  | VBool _ => Ok value
  | _ => Throw (PlainError "Enqueue result duplicateSuppressed flag was malformed.")
  end.

Definition parseUnknownArray (value : jsval) (label : string) : result jsval :=
  let! items := asArray value label in
  Ok (VArr items).

(** * What the parsers accept *)

Definition is_object (v : jsval) : Prop := exists fs, v = VObj fs.
Definition is_array (v : jsval) : Prop := exists l, v = VArr l.
Definition is_text (v : jsval) : Prop := exists s, v = VStr s /\ s <> "".

(** An object whose properties [keys] are non-empty strings. *)
Definition has_texts (keys : list string) (v : jsval) : Prop :=
  exists fs, v = VObj fs /\ Forall (fun k => is_text (get_prop fs k)) keys.

Definition job_keys : list string := ["id"; "type"; "queue"; "state"].

Definition job_shaped : jsval -> Prop := has_texts job_keys.
Definition schedule_shaped : jsval -> Prop := has_texts ["id"; "name"; "cronExpression"].
Definition worker_shaped (v : jsval) : Prop :=
  exists fs, v = VObj fs /\ has_texts ["workerId"; "hostname"] v /\ is_array (get_prop fs "queues").
Definition snapshot_shaped (v : jsval) : Prop :=
  exists fs, v = VObj fs /\
    Forall (fun k => is_object (get_prop fs k)) ["overview"; "metrics"; "trend"].
Definition inspection_shaped (v : jsval) : Prop :=
  exists fs, v = VObj fs /\ job_shaped (get_prop fs "job") /\
    is_array (get_prop fs "attempts") /\ is_array (get_prop fs "events") /\
    is_object (get_prop fs "graph").
Definition enqueue_shaped (v : jsval) : Prop :=
  exists fs, v = VObj fs /\ job_shaped (get_prop fs "job") /\
    exists b, get_prop fs "duplicateSuppressed" = VBool b.

(** [accepts parse shape]: the parser returns exactly the values of the shape,
    unchanged, and throws an [Error] on every other value. *)
Definition accepts (parse : jsval -> result jsval) (shape : jsval -> Prop) : Prop :=
  forall v,
    (shape v /\ parse v = Ok v) \/ (~ shape v /\ exists msg, parse v = Throw (PlainError msg)).

Definition array_of (shape : jsval -> Prop) (v : jsval) : Prop :=
  exists l, v = VArr l /\ Forall shape l.

(** * Lemmas *)

Lemma asRecord_cases v label :
  (exists fs, v = VObj fs /\ asRecord v label = Ok fs) \/
  (~ is_object v /\ asRecord v label = malformed label).
Proof. destruct v; try (right; split; [intros [? [=]] | done]). left; eauto. Qed.

Lemma asArray_cases v label :
  (exists l, v = VArr l /\ asArray v label = Ok l) \/
  (~ is_array v /\ asArray v label = malformed label).
Proof. destruct v; try (right; split; [intros [? [=]] | done]). left; eauto. Qed.

Lemma requireString_cases v label :
  (is_text v /\ requireString v label = Ok tt) \/
  (~ is_text v /\ requireString v label = malformed label).
Proof.
  destruct v; try (right; split; [intros (? & [=] & _) | done]).
  destruct s; [right; split; [by intros (? & [= <-] & ?) | done] |].
  left. split; [by eexists | done].
Qed.

(** Follow a parser through its guards; a failed guard contradicts the shape. *)
Ltac through_guards :=
  repeat match goal with
    | |- context [asRecord ?v ?l] =>
        let fs := fresh "fs" in let E := fresh "E" in
        destruct (asRecord_cases v l) as [(fs & E & ->) | [E ->]]; cbn [result_bind]
    | |- context [asArray ?v ?l] =>
        let xs := fresh "xs" in let E := fresh "E" in
        destruct (asArray_cases v l) as [(xs & E & ->) | [E ->]]; cbn [result_bind]
    | |- context [requireString ?v ?l] =>
        let E := fresh "E" in
        destruct (requireString_cases v l) as [[E ->] | [E ->]]; cbn [result_bind]
    end.

Ltac shapes :=
  unfold job_shaped, schedule_shaped, worker_shaped, snapshot_shaped, inspection_shaped,
    enqueue_shaped, has_texts, job_keys, is_object, is_array in *.

(** Close a branch of a parser: the guards passed give the shape, and the one
    that failed refutes it. *)
Ltac close_guards :=
  subst; shapes;
  first
    [ left; split; [| done];
      repeat first [ eassumption | eexists; eassumption | apply Forall_nil | apply Forall_cons; split
                   | eexists; split; [done |] | split ]
    | right; split;
      [ intros HS;
        repeat match goal with
          | H : exists _, _ |- _ => destruct H
          | H : _ /\ _ |- _ => destruct H
          | H : VObj _ = VObj _ |- _ => injection H as <-
          | H : Forall _ (_ :: _) |- _ => apply Forall_cons in H
          end; first [congruence | naive_solver]
      | eexists; reflexivity ] ].

Lemma parseJob_accepts : accepts parseJob job_shaped.
Proof. intros v. unfold parseJob. through_guards; close_guards. Qed.

Lemma parseSchedule_accepts : accepts parseSchedule schedule_shaped.
Proof. intros v. unfold parseSchedule. through_guards; close_guards. Qed.

Lemma parseDashboardSnapshot_accepts : accepts parseDashboardSnapshot snapshot_shaped.
Proof.
  intros v. unfold parseDashboardSnapshot. through_guards; close_guards.
Qed.

Lemma parseWorkerStatus_accepts : accepts parseWorkerStatus worker_shaped.
Proof.
  intros v. unfold parseWorkerStatus. through_guards; try close_guards.
  destruct (get_prop fs "queues") eqn:EQ; close_guards.
Qed.

Lemma parseJobInspection_accepts : accepts parseJobInspection inspection_shaped.
Proof.
  intros v. unfold parseJobInspection. through_guards; try close_guards;
    (destruct (parseJob_accepts (get_prop fs "job")) as [[HJ ->] | [HJ [msg ->]]];
     cbn [result_bind]; close_guards).
Qed.

Lemma parseEnqueueResult_accepts : accepts parseEnqueueResult enqueue_shaped.
Proof.
  intros v. unfold parseEnqueueResult. through_guards; try close_guards.
  destruct (parseJob_accepts (get_prop fs "job")) as [[HJ ->] | [HJ [msg ->]]]; cbn [result_bind];
    [| close_guards].
  destruct (get_prop fs "duplicateSuppressed") eqn:EQ; close_guards.
Qed.

(** A parser applied to each element of an array. *)
Lemma map_accepts parse shape (label : string) :
  accepts parse shape ->
  accepts (fun v => let! items := asArray v label in
                    let! parsed := result_map parse items in
                    Ok (VArr parsed))
    (array_of shape).
Proof.
  intros HP v.
  destruct (asArray_cases v label) as [(l & -> & ->) | [Hn ->]]; cbn [result_bind].
  2: { right. split; [| by eexists]. intros (l & -> & _). apply Hn. by exists l. }
  assert ((Forall shape l /\ result_map parse l = Ok l) \/
          (~ Forall shape l /\ exists msg, result_map parse l = Throw (PlainError msg)))
    as [[HF ->] | [HF [msg ->]]]; cbn [result_bind].
  - induction l as [| x l IH]; [by left |]. cbn [result_map]. rewrite Forall_cons.
    destruct (HP x) as [[Hx ->] | [Hx [msg ->]]]; cbn [result_bind];
      [| right; split; [tauto | by eexists]].
    destruct IH as [[HF ->] | [HF [msg ->]]]; cbn [result_bind];
      [by left | right; split; [tauto | by eexists]].
  - left. split; [by exists l | done].
  - right. split; [| by eexists]. by intros (? & [= <-] & ?).
Qed.

(** * Properties *)

(** C32: the guards of the API layer are exact. Each parser returns the value it
    was given, unchanged, exactly when the value has the shape the parser asks
    for, and throws an [Error] with a message on every other value; a list is
    accepted exactly when it is an array of accepted elements. *)
Theorem parsers_exact :
  accepts parseDashboardSnapshot snapshot_shaped /\
  accepts parseJobs (array_of job_shaped) /\
  accepts parseSchedules (array_of schedule_shaped) /\
  accepts parseWorkerStatuses (array_of worker_shaped) /\
  accepts parseJobInspection inspection_shaped /\
  accepts parseEnqueueResult enqueue_shaped.
Proof.
  split_and!.
  - apply parseDashboardSnapshot_accepts.
  - apply map_accepts, parseJob_accepts.
  - apply map_accepts, parseSchedule_accepts.
  - apply map_accepts, parseWorkerStatus_accepts.
  - apply parseJobInspection_accepts.
  - apply parseEnqueueResult_accepts.
Qed.

(** The record of a job passes the parser when the four strings it asks for
    are not empty. *)
Lemma job_record_shaped (job : Job) :
  Job.id job <> "" -> Job.type job <> "" -> Job.queue job <> "" ->
  state_name (Job.state job) <> "" ->
  job_shaped (Job.to_value job).
Proof.
  intros. eexists. split; [reflexivity |]. unfold job_keys.
  rewrite !Forall_cons, Forall_nil.
  split_and!; [..| done]; (eexists; split; [reflexivity | done]).
Qed.
