(* ===== verification/RequestClient.v ===== *)
(** [src/lib/request-client.ts]: one HTTP request with its timeout, its abort
    bindings and the classification of its outcome.

    [begin] is [requestJson] up to the [await] of [fetch]; [step] is one event
    of a request under way: its timer fires, the caller's signal aborts, the
    fetch settles, the body settles. The two handlers [on_fetch] and [on_text]
    are the code between the awaits. *)

From stdpp Require Import base list strings relations.
From Stdlib Require Import ZArith Lia Bool.
From S2P Require Import Prelude JsString JsNum JsValue ApiRoutes Safe.

#[local] Open Scope Z_scope.
#[local] Open Scope js_scope.

(** * Errors *)

Inductive RequestErrorKind :=
  | kind_aborted | kind_auth | kind_config | kind_empty
  | kind_network | kind_parse | kind_server | kind_timeout.

#[export] Instance request_error_kind_eq_dec : EqDecision RequestErrorKind.
Proof. solve_decision. Defined.

Record RequestError := mkRequestError {
  message : string;
  kind : RequestErrorKind;
  status : Z;
  retriable : bool
}.

(** [new RequestError(message, { kind, status, retriable })] *)
Definition newRequestError (message : string) (kind : RequestErrorKind) (status : option Z)
    (retriable : option bool) : RequestError :=
  mkRequestError message kind
    (default 0 status)
    (default (negb (bool_decide (kind ∈ [kind_auth; kind_config; kind_parse]))) retriable).

(** What a promise rejects with, as far as the code tells values apart. *)
Inductive rejection :=
  | RequestErr (e : RequestError)
  | DomException (name message : string)
  | JsError (name message : string)
  | OtherReason (v : jsval).

(** The value as [formatRequestError] sees it: a [RequestError] and, in
    browsers, a [DOMException] are instances of [Error]. *)
Definition rejection_thrown (r : rejection) : thrown :=
  match r with
  | RequestErr e => ThrownError "Error" (message e)
  | DomException name message => ThrownError name message
  | JsError name message => ThrownError name message
  | OtherReason v => ThrownOther v
  end.

Definition exn_message (e : exn) : string :=
  match e with RangeError m | TypeError m | SyntaxError m | PlainError m => m end.

Definition exn_rejection (e : exn) : rejection :=
  match e with
  | RangeError m => JsError "RangeError" m
  | TypeError m => JsError "TypeError" m
  | SyntaxError m => JsError "SyntaxError" m
  | PlainError m => JsError "Error" m
  end.

(** * The platform *)

(** The [Headers] class: construction and [set] throw a [TypeError] on names
    and values that HTTP does not allow. *)
Class HeadersApi := {
  Headers : Type;
  headers_new : list (string * string) -> result Headers;
  headers_has : string -> Headers -> bool;
  headers_set : string -> string -> Headers -> result Headers
}.

(** [RequestInit] without the signal, which the run of the request holds. *)
Record RequestInit := {
  method : string;
  init_headers : list (string * string);
  body : string
}.

Record RequestJsonOptions := {
  baseUrl : option string;
  path : string;
  token : option string;
  init : RequestInit;
  timeoutMs : Z;
  parser : option (jsval -> result jsval);
  allowEmpty : bool
}.

Definition default_timeoutMs : Z := 10000.

(** A response's status; [response.ok] is a status from 200 to 299. *)
Definition response_ok (status : Z) : bool := (200 <=? status) && (status <=? 299).

(** * A request under way *)

Inductive Outcome :=
  | Resolved (v : jsval)
  | Rejected (r : rejection).

Inductive Phase :=
  | Fetching
  | Reading (response_status : Z)
  | Settled (outcome : Outcome).

Record Run := mkRun {
  phase : Phase;
  (** the timeout is armed *)
  timer : bool;
  (** [onAbort] listens to the caller's signal *)
  listener : bool;
  (** [controller.signal.reason], when the controller is aborted *)
  aborted : option rejection;
  abortReason : option rejection;
  timedOut : bool
}.

Definition set_phase (p : Phase) (r : Run) : Run :=
  mkRun p (timer r) (listener r) (aborted r) (abortReason r) (timedOut r).
Definition set_timer (b : bool) (r : Run) : Run :=
  mkRun (phase r) b (listener r) (aborted r) (abortReason r) (timedOut r).
Definition set_listener (b : bool) (r : Run) : Run :=
  mkRun (phase r) (timer r) b (aborted r) (abortReason r) (timedOut r).

(** [reason instanceof DOMException && reason.name === "TimeoutError"] *)
Definition is_timeout (reason : rejection) : bool :=
  match reason with
  | DomException name _ => String.eqb name "TimeoutError"
  | _ => false
  end.

Definition timeout_reason : rejection := DomException "TimeoutError" "Request timed out".

(** The [abort] of [bindAbortSignals]: the first reason wins. *)
Definition abort (reason : rejection) (r : Run) : Run :=
  match aborted r with
  | Some _ => r
  | None => mkRun (phase r) (timer r) (listener r) (Some reason) (Some reason) (is_timeout reason)
  end.

(** The caller's signal when the request starts. *)
Inductive Signal :=
  | no_signal
  | pending_signal
  | aborted_signal (reason : rejection).

Definition bindAbortSignals (signal : Signal) : Run :=
  let r := mkRun Fetching true false None None false in
  match signal with
  | no_signal => r
  | aborted_signal reason => abort reason r
  | pending_signal => set_listener true r
  end.

Definition nullish (r : rejection) : bool :=
  match r with OtherReason VNull | OtherReason VUndefined => true | _ => false end.

(** [abortReason ?? controller.signal.reason]; [None] is undefined. *)
Definition getAbortReason (r : Run) : option rejection :=
  match abortReason r with
  | Some reason => if nullish reason then aborted r else Some reason
  | None => aborted r
  end.

Definition didTimeout (r : Run) : bool := timedOut r.

Definition release (r : Run) : Run := set_listener false (set_timer false r).

(** * Classification *)

Definition classifyFetchError (error : rejection) (binding : Run) : RequestError :=
  let timeout := newRequestError "Request timed out before the API responded." kind_timeout None None in
  let cancelled := newRequestError "Request was cancelled." kind_aborted None None in
  match error with
  | RequestErr e => e
  | _ =>
      if didTimeout binding ||
         match getAbortReason binding with Some reason => is_timeout reason | None => false end
      then timeout
      else
        match error with
        | DomException name _ =>
            if String.eqb name "AbortError" then cancelled
            else if String.eqb name "TimeoutError" then timeout
            else newRequestError "Network request failed before a response was received."
                   kind_network None None
        | JsError "AbortError" _ => cancelled
        | _ => newRequestError "Network request failed before a response was received."
                 kind_network None None
        end
  end.

Definition parseBody (bodyText : string) : jsval :=
  let trimmed := trim bodyText in
  if negb (truthy trimmed) then VNull
  else match json_parse trimmed with Some v => v | None => VStr bodyText end.

(** ["error" in body] for an object read from JSON. *)
Definition has_prop (fields : list (string * jsval)) (k : string) : bool :=
  existsb (fun kv => String.eqb (fst kv) k) fields.

Definition error_message (body : jsval) (bodyText : string) : string :=
  match body with
  | VObj fs =>
      if has_prop fs "error" then safeTrim (get_prop fs "error") else safeTrim (VStr bodyText)
  | _ => safeTrim (VStr bodyText)
  end.

Definition buildResponseError (status : Z) (body : jsval) (bodyText : string) : RequestError :=
  let message := error_message body bodyText in
  if (status =? 401) || (status =? 403) then
    newRequestError (or_else message "Authentication failed for the dashboard API.") kind_auth
      (Some status) (Some false)
  else
    newRequestError (or_else message ("Request failed with " +:+ dec status +:+ ".")) kind_server
      (Some status) None.

(** * requestJson *)

Section Client.
Context `{UrlApi} `{HeadersApi}.

Inductive Started :=
  (** the promise rejects before [fetch] is called *)
  | NotSent (reason : rejection)
  (** the arguments of [fetch], and the run that waits for it *)
  | Sent (url : string) (headers : Headers) (init : RequestInit) (run : Run).

Definition request_headers (options : RequestJsonOptions) : result Headers :=
  let! headers := headers_new (init_headers (init options)) in
  let! headers :=
    if truthy (body (init options)) && negb (headers_has "Content-Type" headers)
    then headers_set "Content-Type" "application/json" headers else Ok headers in
  let trimmedToken := trim (opt_default (token options) "") in
  if truthy trimmedToken then headers_set "Authorization" ("Bearer " +:+ trimmedToken) headers
  else Ok headers.

Definition config_error : RequestError :=
  newRequestError "Enter a valid API base URL to resume live data." kind_config None (Some false).

(** [requestJson] up to the call of [fetch]. *)
Definition begin (options : RequestJsonOptions) (signal : Signal) : Started :=
  match buildApiUrl (baseUrl options) (path options) with
  | None => NotSent (RequestErr config_error)
  | Some url =>
      if negb (truthy url) then NotSent (RequestErr config_error)
      else
        match request_headers options with
        | Throw e => NotSent (exn_rejection e)
        | Ok headers => Sent url headers (init options) (bindAbortSignals signal)
        end
  end.
End Client.

Section Answer.
Context (options : RequestJsonOptions).

Definition settle (o : Outcome) (r : Run) : Run := set_phase (Settled o) r.

(** After the body is read: the value, or the error. *)
Definition respond (status : Z) (bodyText : string) : Outcome :=
  let body := parseBody bodyText in
  if negb (response_ok status) then Rejected (RequestErr (buildResponseError status body bodyText))
  else if negb (truthy bodyText) then
    if allowEmpty options then Resolved VNull
    else Rejected (RequestErr
           (newRequestError ("The " +:+ path options +:+ " response was empty.") kind_empty
              (Some status) None))
  else
    match parser options with
    | None => Resolved body
    | Some parse =>
        match parse body with
        | Ok v => Resolved v
        | Throw e =>
            Rejected (RequestErr
              (newRequestError (exn_message e) kind_parse (Some status) (Some false)))
        end
    end.

(** [fetch] settles. *)
Definition on_fetch (settled : rejection + Z) (r : Run) : Run :=
  match settled with
  | inl error => settle (Rejected (RequestErr (classifyFetchError error (release r)))) (release r)
  | inr status => set_phase (Reading status) r
  end.

(** [response.text()] settles. *)
Definition on_text (status : Z) (settled : rejection + string) (r : Run) : Run :=
  match settled with
  | inl error => settle (Rejected (RequestErr (classifyFetchError error (release r)))) (release r)
  | inr bodyText => settle (respond status bodyText) (release r)
  end.

(** * Events *)

(** The platform rejects a pending [fetch] or body with the reason of the
    abort, and settles neither otherwise once the controller is aborted. *)
Definition platform_rejects (error : rejection) (r : Run) : Prop :=
  match aborted r with Some reason => error = reason | None => True end.

Inductive step : Run -> Run -> Prop :=
  | step_timeout r :
      timer r = true -> step r (abort timeout_reason (set_timer false r))
  | step_signal r reason :
      listener r = true -> step r (abort reason (set_listener false r))
  | step_fetch_error r error :
      phase r = Fetching -> platform_rejects error r -> step r (on_fetch (inl error) r)
  | step_fetch_response r status :
      phase r = Fetching -> aborted r = None -> step r (on_fetch (inr status) r)
  | step_text_error r status error :
      phase r = Reading status -> platform_rejects error r ->
      step r (on_text status (inl error) r)
  | step_text r status bodyText :
      phase r = Reading status -> aborted r = None ->
      step r (on_text status (inr bodyText) r).

Definition reachable (signal : Signal) : Run -> Prop := rtc step (bindAbortSignals signal).
End Answer.

(** * Lemmas *)

Definition settled (r : Run) : bool :=
  match phase r with Settled _ => true | _ => false end.

Definition b2n (b : bool) : nat := if b then 1 else 0.

(** How many events can still happen. *)
Definition remaining (r : Run) : nat :=
  (match phase r with Fetching => 2 | Reading _ => 1 | Settled _ => 0 end) +
  b2n (timer r) + b2n (listener r).

(** The kind of the error that reports an abort. *)
Definition abort_kind (reason : rejection) : RequestErrorKind :=
  match reason with
  | RequestErr e => kind e
  | DomException name _ =>
      if String.eqb name "TimeoutError" then kind_timeout
      else if String.eqb name "AbortError" then kind_aborted else kind_network
  | JsError name _ => if String.eqb name "AbortError" then kind_aborted else kind_network
  | OtherReason _ => kind_network
  end.

(** The state of a run started on [signal]. *)
Record run_ok (signal : Signal) (r : Run) : Prop := {
  ok_released : settled r = true -> timer r = false /\ listener r = false;
  ok_armed : settled r = false -> timer r = true \/ is_Some (aborted r);
  ok_listener : listener r = true -> signal = pending_signal;
  ok_listening : settled r = false -> signal = pending_signal ->
    listener r = true \/ is_Some (aborted r);
  ok_reason : abortReason r = aborted r;
  ok_timedOut : timedOut r = match aborted r with Some reason => is_timeout reason | None => false end;
  ok_aborted : forall reason o, aborted r = Some reason -> phase r = Settled o ->
    exists e, o = Rejected (RequestErr e) /\ kind e = abort_kind reason
}.

Lemma getAbortReason_eq r : abortReason r = aborted r -> getAbortReason r = aborted r.
Proof. intros E. unfold getAbortReason. rewrite E. by destruct (aborted r) as [x |]; [destruct (nullish x) |]. Qed.

Lemma classify_abort reason r :
  aborted r = Some reason -> abortReason r = aborted r -> timedOut r = is_timeout reason ->
  kind (classifyFetchError reason r) = abort_kind reason.
Proof.
  intros HA HR HT. unfold classifyFetchError, didTimeout.
  rewrite getAbortReason_eq by done. rewrite HA, HT.
  destruct reason as [e | name m | name m | v]; cbn [is_timeout]; try done.
  - rewrite orb_diag. cbn [abort_kind]. by destruct (String.eqb name "TimeoutError"), (String.eqb name "AbortError").
  - cbn [orb abort_kind]. destruct (String.eqb_spec name "AbortError") as [-> | Hn]; [done |].
    repeat (case_match; subst; try done).
Qed.

Lemma bind_ok signal : run_ok signal (bindAbortSignals signal).
Proof. destruct signal; split; cbn; try done; eauto. Qed.

Lemma unsettled signal r :
  run_ok signal r -> timer r = true \/ listener r = true -> settled r = false.
Proof.
  intros [H1 _ _ _ _ _ _] H. destruct (settled r); [| done].
  destruct (H1 eq_refl) as [E1 E2]. rewrite E1, E2 in H. by destruct H.
Qed.

(** Aborting a request that has not settled; [b] and [l] say what is left of
    its timer and listener. *)
Lemma abort_ok signal reason b l r :
  run_ok signal r -> settled r = false -> (l = true -> signal = pending_signal) ->
  run_ok signal (abort reason (set_listener l (set_timer b r))).
Proof.
  intros [_ H2 H3 H4 H5 H6 H7] Hun Hl. unfold settled in *.
  unfold abort; cbn. destruct (aborted r) eqn:EA; split; unfold settled; cbn; rewrite ?EA; try done;
    try (by rewrite Hun); eauto.
  all: intros x o _ HP; by rewrite HP in Hun.
Qed.

(** A request that settles by a rejection. *)
Lemma rejected_ok signal error r :
  run_ok signal r -> platform_rejects error r ->
  run_ok signal
    (settle (Rejected (RequestErr (classifyFetchError error (release r)))) (release r)).
Proof.
  intros [_ H2 H3 H4 H5 H6 H7] HP. split; unfold settled; cbn; try done.
  intros reason o HA [= <-]. eexists. split; [reflexivity |].
  unfold platform_rejects in HP. rewrite HA in HP, H6. subst error.
  apply classify_abort; cbn; congruence.
Qed.

Section RunFacts.
Context (options : RequestJsonOptions) (signal : Signal).

Lemma step_ok r r' : run_ok signal r -> step options r r' -> run_ok signal r'.
Proof.
  intros HR Hs. pose proof HR as [H1 H2 H3 H4 H5 H6 H7]. inversion Hs; subst; clear Hs.
  - replace (set_timer false r) with (set_listener (listener r) (set_timer false r))
      by (by destruct r).
    apply abort_ok; eauto using unsettled.
  - replace (set_listener false r) with (set_listener false (set_timer (timer r) r))
      by (by destruct r).
    apply abort_ok; eauto using unsettled.
  - by apply rejected_ok.
  - split; unfold settled in *; cbn; rewrite ?H in *; try done; eauto.
  - by apply rejected_ok.
  - split; unfold settled in *; cbn; rewrite ?H in *; try done; eauto.
    intros reason o HA. congruence.
Qed.

Lemma run_reachable_ok r : reachable options signal r -> run_ok signal r.
Proof.
  revert r. apply rtc_ind_r; [apply bind_ok | intros; eapply step_ok; eassumption].
Qed.

Lemma step_remaining r r' : step options r r' -> (remaining r' < remaining r)%nat.
Proof.
  intros Hs. destruct r as [p b l a ar t]. inversion Hs; subst; clear Hs; cbn in *; subst;
    unfold remaining, abort; cbn; try destruct a; cbn; lia.
Qed.

Lemma nsteps_remaining n r r' : nsteps (step options) n r r' -> (n <= remaining r)%nat.
Proof.
  induction 1 as [a | k a b c Hab _ IH]; [lia |]. apply step_remaining in Hab. lia.
Qed.
End RunFacts.

(** * Properties *)

(** C30: a request holds nothing once it has settled and always settles. In
    every reachable state a settled request has cleared its timer and left the
    caller's signal; a pending one still listens to a signal that can abort and
    either has its timer armed or is aborted already, so it can go on; and no
    run has more than four events. *)
Theorem request_settles options signal r :
  reachable options signal r ->
  (settled r = true -> timer r = false /\ listener r = false) /\
  (settled r = false ->
     (timer r = true \/ is_Some (aborted r)) /\
     (signal = pending_signal -> listener r = true \/ is_Some (aborted r)) /\
     exists r', step options r r') /\
  (forall n r', nsteps (step options) n r r' -> (n <= 4)%nat).
Proof.
  intros HR. apply run_reachable_ok in HR as Hok. split_and!.
  - apply Hok.
  - intros Hun. split_and!; [by apply Hok | by apply (ok_listening _ _ Hok) |].
    destruct (phase r) eqn:EP; unfold settled in Hun; rewrite EP in Hun; try done.
    + eexists. apply (step_fetch_error options r (default (JsError "" "") (aborted r)) EP).
      unfold platform_rejects. by destruct (aborted r).
    + eexists. eapply (step_text_error options r response_status (default (JsError "" "") (aborted r)) EP).
      unfold platform_rejects. by destruct (aborted r).
  - intros n r' Hn.
    apply nsteps_remaining in Hn. unfold remaining in Hn.
    destruct (phase r), (timer r), (listener r); cbn in Hn; lia.
Qed.

(** How an abort is reported. When a request settles after its controller
    was aborted, it rejects with a [RequestError] whose kind is the reason's:
    timeout for a [TimeoutError], the request's own timer included, aborted for
    an [AbortError], network for any other reason; and the flag [timedOut] says
    exactly whether the first reason was a timeout. *)
Theorem request_abort_reported options signal r reason :
  reachable options signal r -> aborted r = Some reason ->
  (forall o, phase r = Settled o ->
     exists e, o = Rejected (RequestErr e) /\ kind e = abort_kind reason) /\
  (timedOut r = true <-> exists msg, reason = DomException "TimeoutError" msg).
Proof.
  intros HR HA. apply run_reachable_ok in HR as Hok. split.
  - intros o HP. by apply (ok_aborted _ _ Hok reason).
  - rewrite (ok_timedOut _ _ Hok), HA. unfold is_timeout.
    destruct reason; try (split; [done | intros [? [=]]]).
    rewrite String.eqb_eq. split; [intros ->; eauto | by intros [? [= -> _]]].
Qed.

(** C31: how a response is reported. A value comes only from a status in the
    200s: null for an empty body where that is allowed, the body's JSON, or what
    the parser makes of it. Every other response rejects with a [RequestError]
    of the response's status, of kind auth exactly for 401 and 403, server for
    the other statuses outside the 200s, and empty or parse inside them; auth
    and parse errors are the ones not to be retried. *)
Theorem response_reported options code text :
  match respond options code text with
  | Resolved v =>
      response_ok code = true /\
      ((text = "" /\ allowEmpty options = true /\ v = VNull) \/
       (text <> "" /\
        match parser options with
        | None => v = parseBody text
        | Some parse => parse (parseBody text) = Ok v
        end))
  | Rejected r =>
      exists e, r = RequestErr e /\ status e = code /\
        (retriable e = false <-> kind e = kind_auth \/ kind e = kind_parse) /\
        (kind e = kind_auth <-> code = 401 \/ code = 403) /\
        (kind e = kind_server <-> response_ok code = false /\ code <> 401 /\ code <> 403) /\
        (kind e = kind_empty <-> response_ok code = true /\ text = "" /\ allowEmpty options = false) /\
        (kind e = kind_parse <-> response_ok code = true /\ text <> "" /\
           exists parse x, parser options = Some parse /\ parse (parseBody text) = Throw x)
  end.
Proof.
  unfold respond. destruct (response_ok code) eqn:EO; cbn [negb].
  - assert (code <> 401 /\ code <> 403) as [H1 H2]
      by (unfold response_ok in EO; prop_bools; lia).
    destruct (truthy text) eqn:ET; cbn [negb].
    + assert (text <> "") as Hne by (intros ->; discriminate ET).
      destruct (parser options) as [parse |] eqn:EP; [| by split; [| right]].
      destruct (parse (parseBody text)) as [v | x] eqn:EV; [by split; [| right] |].
      eexists. split; [reflexivity |]. cbn. naive_solver.
    + assert (text = "") as -> by (destruct text; [done | discriminate ET]).
      destruct (allowEmpty options); [by split; [| left] |].
      eexists. split; [reflexivity |]. cbn. naive_solver.
  - eexists. split; [reflexivity |]. unfold buildResponseError.
    destruct ((code =? 401) || (code =? 403)) eqn:EA; cbn.
    + assert (code = 401 \/ code = 403) as HA by lia.
      clear EA. split_and!; intuition (congruence || lia || eauto).
    + assert (code <> 401 /\ code <> 403) as [H1 H2] by lia.
      clear EA. split_and!; intuition (congruence || lia || eauto).
      vm_compute in H. discriminate H.
Qed.

(** * A request that times out *)

Definition sample_options : RequestJsonOptions :=
  {| baseUrl := Some "https://jobs.example"; path := API_ROUTES.dashboardSnapshot;
     token := None; init := {| method := "GET"; init_headers := []; body := "" |};
     timeoutMs := default_timeoutMs; parser := None; allowEmpty := false |}.

(** The timer fires while the body is read. *)
Definition timed_out_run : Run :=
  on_text sample_options 200 (inl timeout_reason)
    (abort timeout_reason (set_timer false (on_fetch (inr 200) (bindAbortSignals pending_signal)))).

Lemma timed_out_reachable : reachable sample_options pending_signal timed_out_run.
Proof.
  eapply rtc_l; [by apply (step_fetch_response _ _ 200) |].
  eapply rtc_l; [by apply step_timeout |].
  eapply rtc_l; [by apply (step_text_error _ _ 200 timeout_reason) | apply rtc_refl].
Qed.

Lemma request_settles_witness :
  settled timed_out_run = true /\ timer timed_out_run = false /\ listener timed_out_run = false.
Proof.
  split; [reflexivity |].
  by apply (request_settles sample_options pending_signal timed_out_run timed_out_reachable).
Defined.

Lemma request_abort_reported_witness :
  exists e, phase timed_out_run = Settled (Rejected (RequestErr e)) /\ kind e = kind_timeout.
Proof.
  destruct (proj1 (request_abort_reported sample_options pending_signal timed_out_run timeout_reason
                     timed_out_reachable eq_refl) _ eq_refl) as (e & He & Hk).
  exists e. split; [| exact Hk]. by rewrite <- He.
Defined.
