(* ===== verification/RequestPool.v ===== *)
(** The requests of [src/hooks/useDashboardLiveData.ts]: its [requestJson], which
    shares one request between the callers that ask for the same key, and the
    [AbortController]s the callers cancel them with.

    A request is a run of RequestClient.v under a key. The promise of a request
    settles when its run does; [drain] is the continuation that then runs, the
    [finally] of [requestJson]. *)

From stdpp Require Import base list strings gmap relations.
From Stdlib Require Import ZArith Lia Bool.
From S2P Require Import Prelude JsString JsNum JsValue ApiRoutes Safe Urls RequestClient.

#[local] Open Scope Z_scope.

Record Request := mkRequest {
  key : string;
  options : RequestJsonOptions;
  (** the controller whose signal was passed *)
  signal : option nat;
  run : Run;
  drained : bool
}.

Record Pool := mkPool {
  requests : gmap nat Request;
  requestMap : gmap string nat;
  (** whether each controller was aborted *)
  controllers : gmap nat bool;
  fresh : nat
}.

Definition no_requests : Pool := mkPool ∅ ∅ ∅ 0.

(** [controller.abort()] without a reason. *)
Definition abort_error : rejection := DomException "AbortError" "signal is aborted without reason".

(** [new AbortController()] *)
Definition newController (p : Pool) : nat * Pool :=
  (fresh p, mkPool (requests p) (requestMap p) (<[fresh p := false]> (controllers p)) (S (fresh p))).

Definition signal_aborted (p : Pool) (c : nat) : bool := default false (controllers p !! c).

(** A request whose run has advanced. *)
Definition set_run (r : Run) (q : Request) : Request :=
  mkRequest (key q) (options q) (signal q) r (drained q).
Definition set_drained (q : Request) : Request :=
  mkRequest (key q) (options q) (signal q) (run q) true.

(** The signal's listeners run when its controller aborts. *)
Definition hear_abort (c : nat) (q : Request) : Request :=
  if decide (signal q = Some c) then
    if listener (run q) then set_run (abort abort_error (set_listener false (run q))) q else q
  else q.

Definition abortController (c : nat) (p : Pool) : Pool :=
  if signal_aborted p c then p
  else
    mkPool (hear_abort c <$> requests p) (requestMap p) (<[c := true]> (controllers p)) (fresh p).

Definition signal_of (p : Pool) (c : option nat) : Signal :=
  match c with
  | None => no_signal
  | Some c => if signal_aborted p c then aborted_signal abort_error else pending_signal
  end.

(** The run of a request that rejects before it is sent. *)
Definition unsent (reason : rejection) : Run :=
  mkRun (Settled (Rejected reason)) false false None None false.

Section Pool.
Context `{UrlApi} `{HeadersApi}.

Definition dedupeKey (requestKey : option string) (options : RequestJsonOptions) : string :=
  default (method (init options) +:+ ":" +:+ path options +:+ ":" +:+ body (init options)) requestKey.

(** The run [performRequestJson] starts. *)
Definition start_run (options : RequestJsonOptions) (signal : Signal) : Run :=
  match begin options signal with
  | NotSent reason => unsent reason
  | Sent _ _ _ run => run
  end.

(** [requestJson]: the request whose promise the caller awaits. *)
Definition requestJson (options : RequestJsonOptions) (controller : option nat)
    (requestKey : option string) (p : Pool) : nat * Pool :=
  let key := dedupeKey requestKey options in
  match requestMap p !! key with
  | Some existing => (existing, p)
  | None =>
      let request := mkRequest key options controller (start_run options (signal_of p controller)) false in
      (fresh p,
       mkPool (<[fresh p := request]> (requests p)) (<[key := fresh p]> (requestMap p))
         (controllers p) (S (fresh p)))
  end.
End Pool.

(** What happens to a request from outside; a rejection of an aborted request
    carries the reason of the abort. *)
Inductive NetEvent :=
  | TimerFires
  | FetchRejects (error : rejection)
  | FetchResolves (status : Z)
  | TextRejects (error : rejection)
  | TextResolves (text : string).

Definition run_event (options : RequestJsonOptions) (e : NetEvent) (r : Run) : option Run :=
  match e, phase r with
  | TimerFires, _ => if timer r then Some (abort timeout_reason (set_timer false r)) else None
  | FetchRejects error, Fetching => Some (on_fetch (inl (default error (aborted r))) r)
  | FetchResolves status, Fetching =>
      match aborted r with None => Some (on_fetch (inr status) r) | Some _ => None end
  | TextRejects error, Reading status =>
      Some (on_text options status (inl (default error (aborted r))) r)
  | TextResolves text, Reading status =>
      match aborted r with None => Some (on_text options status (inr text) r) | Some _ => None end
  | _, _ => None
  end.

Definition net_event (id : nat) (e : NetEvent) (p : Pool) : option Pool :=
  q ← requests p !! id;
  r ← run_event (options q) e (run q);
  Some (mkPool (<[id := set_run r q]> (requests p)) (requestMap p) (controllers p) (fresh p)).

(** How a settled request ended. *)
Definition outcome (p : Pool) (id : nat) : option Outcome :=
  q ← requests p !! id;
  match phase (run q) with Settled o => Some o | _ => None end.

(** The [finally] of [requestJson], once the promise has settled. *)
Definition drain (id : nat) (p : Pool) : option Pool :=
  q ← requests p !! id;
  if negb (drained q) && settled (run q) then
    Some (mkPool (<[id := set_drained q]> (requests p)) (delete (key q) (requestMap p))
            (controllers p) (fresh p))
  else None.

(** * Steps of the pool *)

Section Steps.
Context `{UrlApi} `{HeadersApi}.

(** The hook and the network act on the pool in any order. *)
Inductive pool_step : Pool -> Pool -> Prop :=
  | pool_new p : pool_step p (snd (newController p))
  | pool_abort p c : is_Some (controllers p !! c) -> pool_step p (abortController c p)
  | pool_request p options controller requestKey :
      (forall c, controller = Some c -> is_Some (controllers p !! c)) ->
      pool_step p (snd (requestJson options controller requestKey p))
  | pool_net p id e p' : net_event id e p = Some p' -> pool_step p p'
  | pool_drain p id p' : drain id p = Some p' -> pool_step p p'.

Definition pool_reachable : Pool -> Prop := rtc pool_step no_requests.
End Steps.

(** * Invariant *)

(** A request is aborted by its owner or by its timer. *)
Definition own_reason (r : Run) : Prop :=
  forall reason, aborted r = Some reason -> reason = abort_error \/ reason = timeout_reason.

(** A request's run is one of RequestClient.v, and its owner's abort reaches it. *)
Record request_ok (p : Pool) (q : Request) : Prop := {
  req_run : exists sig, run_ok sig (run q) /\
    (is_Some (signal q) ->
       sig = pending_signal \/ is_Some (aborted (run q)) \/ settled (run q) = true);
  req_reason : own_reason (run q);
  req_drained : drained q = true -> settled (run q) = true;
  req_controller : forall c, signal q = Some c -> is_Some (controllers p !! c);
  req_abort : forall c, signal q = Some c -> signal_aborted p c = true ->
    settled (run q) = true \/ is_Some (aborted (run q))
}.

Record pool_ok (p : Pool) : Prop := {
  ok_map : forall k r,
    requestMap p !! k = Some r <->
    exists q, requests p !! r = Some q /\ key q = k /\ drained q = false;
  ok_request : forall r q, requests p !! r = Some q -> request_ok p q;
  ok_fresh : forall r, is_Some (requests p !! r) \/ is_Some (controllers p !! r) -> (r < fresh p)%nat
}.

Lemma no_requests_ok : pool_ok no_requests.
Proof.
  split; cbn [requests requestMap controllers fresh no_requests].
  - intros k r. rewrite lookup_empty. setoid_rewrite lookup_empty. naive_solver.
  - intros r q. by rewrite lookup_empty.
  - intros r. rewrite !lookup_empty. by intros [[? ?] | [? ?]].
Qed.

Lemma run_event_step o e r r' : run_event o e r = Some r' -> RequestClient.step o r r'.
Proof.
  unfold run_event. destruct e, (phase r) eqn:EP; try done;
    repeat case_match; try done; intros [= <-]; econstructor; try done;
    unfold platform_rejects; by destruct (aborted r).
Qed.

Lemma step_aborted o r r' :
  RequestClient.step o r r' -> is_Some (aborted r) -> is_Some (aborted r').
Proof.
  intros Hs Ha. inversion Hs; subst; unfold abort; cbn; try done;
    destruct (aborted r) eqn:E; cbn; rewrite ?E; eauto.
Qed.

Lemma settled_stuck o sig r r' :
  run_ok sig r -> settled r = true -> ~ RequestClient.step o r r'.
Proof.
  intros Hr Hset Hs. destruct (RequestClient.ok_released _ _ Hr Hset).
  unfold settled in Hset. inversion Hs; subst; try congruence;
    match goal with E : phase r = _ |- _ => by rewrite E in Hset end.
Qed.

Lemma unsent_ok reason : run_ok no_signal (unsent reason).
Proof. split; cbn; naive_solver. Qed.

Lemma abort_own_reason reason r :
  reason = abort_error \/ reason = timeout_reason -> own_reason r -> own_reason (abort reason r).
Proof.
  intros Hreason Hr x. unfold abort. destruct (aborted r) eqn:E; [apply Hr |].
  cbn. by intros [= <-].
Qed.

Lemma run_event_own_reason o e r r' : own_reason r -> run_event o e r = Some r' -> own_reason r'.
Proof.
  intros Hr. unfold run_event. destruct e, (phase r); try done; repeat case_match; try done;
    intros [= <-]; try exact Hr; (apply abort_own_reason; [by right | exact Hr]).
Qed.

Lemma run_step_ok p q o r' :
  request_ok p q -> RequestClient.step o (run q) r' -> own_reason r' ->
  request_ok p (set_run r' q).
Proof.
  intros [(sig & Hr & Hsig) Hown Hd Hc Ha] Hs Hown'.
  assert (settled (run q) = false) as Hun.
  { destruct (settled (run q)) eqn:E; [| done]. by apply (settled_stuck o sig (run q) r') in Hs. }
  split; cbn.
  - exists sig. split; [by eapply step_ok |]. intros Hsg. destruct (Hsig Hsg) as [? | [? | ?]];
      [by left | right; left; by eapply step_aborted | congruence].
  - done.
  - intros E. apply Hd in E. congruence.
  - done.
  - intros c Hsg Hab. destruct (Ha c Hsg Hab) as [? | ?]; [congruence |].
    right. by eapply step_aborted.
Qed.

(** The controllers grow and are only ever aborted. *)
Lemma request_ok_controllers p p' q :
  request_ok p q -> controllers p' = controllers p -> request_ok p' q.
Proof. intros [? ? ? ? ?] E. unfold signal_aborted in *. split; unfold signal_aborted; by rewrite ?E. Qed.

Section Preservation.
Context `{UrlApi} `{HeadersApi}.

Lemma newController_ok p : pool_ok p -> pool_ok (snd (newController p)).
Proof.
  intros [H1 H2 H3]. split; cbn; [done | |].
  - intros r q Hq. apply H2 in Hq as [Hr Hown Hd Hc Ha]. split; [done | done | done | |]; cbn.
    + intros c Hs. apply lookup_insert_is_Some. destruct (decide (fresh p = c)); [by left | right; eauto].
    + intros c Hs. assert (fresh p <> c) as Hn.
      { intros <-. assert (fresh p < fresh p)%nat by (apply H3; right; eauto). lia. }
      unfold signal_aborted; cbn. rewrite lookup_insert_ne by done. by apply Ha.
  - intros r [Hr | Hr].
    + assert (r < fresh p)%nat by eauto. lia.
    + apply lookup_insert_is_Some in Hr as [<- | [_ Hr]]; [lia |].
      assert (r < fresh p)%nat by eauto. lia.
Qed.

Lemma hear_ok p q :
  request_ok p q -> listener (run q) = true ->
  request_ok p (set_run (abort abort_error (set_listener false (run q))) q).
Proof.
  intros Hq HL. eapply run_step_ok; [done | by apply (step_signal (options q) (run q) abort_error) |].
  apply abort_own_reason; [by left | apply Hq].
Qed.

Lemma hear_abort_ok p c q :
  request_ok p q -> is_Some (controllers p !! c) ->
  request_ok (abortController c p) (hear_abort c q).
Proof.
  intros Hq Hc. unfold abortController. destruct (signal_aborted p c) eqn:EC.
  - unfold hear_abort. destruct (decide (signal q = Some c)); [| done].
    destruct (listener (run q)) eqn:EL; [| done].
    by apply hear_ok.
  - assert (request_ok p (hear_abort c q)) as [Hr Hown Hd Hcs Ha].
    { unfold hear_abort. destruct (decide (signal q = Some c)); [| done].
      destruct (listener (run q)) eqn:EL; [| done]. by apply hear_ok. }
    split; [done | done | done | |]; cbn.
    + intros c' Hs. apply lookup_insert_is_Some. destruct (decide (c = c')); [by left | right; eauto].
    + intros c' Hs Hab. destruct (decide (c = c')) as [<- | Hn].
      2: { apply (Ha c'); [done |]. unfold signal_aborted in *. cbn in Hab.
           by rewrite lookup_insert_ne in Hab. }
      unfold hear_abort in *. destruct (decide (signal q = Some c)) as [Hsq | Hsq]; [| congruence].
      destruct Hq as [(sig & Hrun & Hsig) _ _ _ _].
      destruct (listener (run q)) eqn:EL.
      * right. unfold abort, set_run; cbn. destruct (aborted (run q)) eqn:EA; cbn; rewrite ?EA; eauto.
      * destruct (Hsig ltac:(by rewrite Hsq)) as [-> | [? | ?]]; [| by right | by left].
        destruct (settled (run q)) eqn:ES; [by left |]. right.
        destruct (ok_listening _ _ Hrun ES eq_refl); [congruence | done].
Qed.

Lemma hear_abort_fields c q :
  key (hear_abort c q) = key q /\ drained (hear_abort c q) = drained q.
Proof. unfold hear_abort. repeat case_match; done. Qed.

Lemma abortController_ok p c :
  pool_ok p -> is_Some (controllers p !! c) -> pool_ok (abortController c p).
Proof.
  intros [H1 H2 H3] Hc. pose proof (fun q Hq => hear_abort_ok p c q Hq Hc) as HA.
  unfold abortController in *. destruct (signal_aborted p c) eqn:EC; [done |].
  split; cbn [requests requestMap controllers fresh].
  - intros k r. rewrite H1, lookup_fmap. split.
    + intros (q & Hq & Hk & Hd). rewrite Hq. destruct (hear_abort_fields c q) as [Ek Ed].
      exists (hear_abort c q). split; [done |]. by rewrite Ek, Ed.
    + intros (q' & Hq' & Hk & Hd). apply fmap_Some in Hq' as (q & Hq & ->).
      destruct (hear_abort_fields c q) as [Ek Ed]. exists q. by rewrite <- Ek, <- Ed.
  - intros r q'. rewrite lookup_fmap. intros (q & Hq & ->)%fmap_Some. apply HA. by eapply H2.
  - intros r [Hr | Hr]; apply H3.
    + left. rewrite lookup_fmap in Hr. by apply fmap_is_Some in Hr.
    + right. apply lookup_insert_is_Some in Hr as [<- | [_ ?]]; done.
Qed.

Lemma start_run_ok p options c :
  (forall i, c = Some i -> is_Some (controllers p !! i)) ->
  request_ok p (mkRequest (dedupeKey None options) options c
                  (start_run options (signal_of p c)) false).
Proof.
  intros Hc. unfold start_run.
  assert (forall reason, request_ok p (mkRequest (dedupeKey None options) options c (unsent reason) false))
    as Hunsent.
  { intros reason. split; cbn; [| done | done | done | by left].
    exists no_signal. split; [apply unsent_ok | by right; right]. }
  unfold begin. destruct (buildApiUrl _ _) as [url |]; [| apply Hunsent].
  destruct (negb (truthy url)); [apply Hunsent |].
  destruct (request_headers options) as [h | e]; [| apply Hunsent].
  split; cbn; [| | done | done |].
  - exists (signal_of p c). split; [apply bind_ok |]. intros [i Hi]. rewrite Hi in *. cbn.
    destruct (signal_aborted p i); [right; left; by eexists | by left].
  - intros reason. destruct c as [i |]; cbn; [destruct (signal_aborted p i) |]; cbn; try done.
    intros [= <-]. by left.
  - intros i -> Hi. right. cbn. rewrite Hi. by eexists.
Qed.

Lemma requestJson_ok p options c k :
  pool_ok p -> (forall i, c = Some i -> is_Some (controllers p !! i)) ->
  pool_ok (snd (requestJson options c k p)).
Proof.
  intros [H1 H2 H3] Hc. unfold requestJson.
  destruct (requestMap p !! dedupeKey k options) as [e |] eqn:EK; [done |]. cbn [snd].
  assert (requests p !! fresh p = None) as Hfresh.
  { destruct (requests p !! fresh p) eqn:E; [| done].
    assert (fresh p < fresh p)%nat by (apply H3; left; eauto). lia. }
  split; cbn [requests requestMap controllers fresh].
  - intros k' r. rewrite lookup_insert_Some, H1. setoid_rewrite lookup_insert_Some. split.
    + intros [[<- <-] | [Hn (q & Hq & Hk & Hd)]]; [eexists; split; [by left | done] |].
      exists q. split; [right; split; [congruence | done] | done].
    + intros (q & [[<- <-] | [Hn Hq]] & Hk & Hd); [by left |]. right.
      split; [| by exists q]. intros <-. assert (requestMap p !! key q = Some r) by (apply H1; eauto).
      congruence.
  - intros r q [[<- <-] | [Hn Hq]]%lookup_insert_Some.
    + pose proof (start_run_ok p options c Hc) as [? ? ? ? ?].
      by split.
    + by eapply (request_ok_controllers p); [eapply H2 |].
  - intros r [Hr | Hr]; [apply lookup_insert_is_Some in Hr as [<- | [_ Hr]]; [lia |] |];
      (assert (r < fresh p)%nat by eauto; lia).
Qed.

Lemma net_event_ok p id e p' : pool_ok p -> net_event id e p = Some p' -> pool_ok p'.
Proof.
  intros [H1 H2 H3]. unfold net_event.
  destruct (requests p !! id) as [q |] eqn:EQ; [| done]. cbn.
  destruct (run_event _ e _) as [r' |] eqn:ER; [| done]. cbn. intros [= <-].
  assert (request_ok p (set_run r' q)) as Hq'
    by (eapply run_step_ok;
          [by eapply H2 | by eapply run_event_step | eapply run_event_own_reason; [by eapply H2 | done]]).
  split; cbn [requests requestMap controllers fresh].
  - intros k r. rewrite H1. setoid_rewrite lookup_insert_Some. split.
    + intros (x & Hx & Hk & Hd). destruct (decide (id = r)) as [<- | Hn]; [| by exists x; auto].
      exists (set_run r' q). split; [by left |]. by simplify_eq.
    + intros (x & [[<- <-] | [Hn Hx]] & Hk & Hd); [by exists q | by exists x].
  - intros r x [[<- <-] | [Hn Hx]]%lookup_insert_Some.
    + by eapply (request_ok_controllers p).
    + by eapply (request_ok_controllers p); [eapply H2 |].
  - intros r [Hr | Hr]; apply H3; [| by right]. left.
    apply lookup_insert_is_Some in Hr as [<- | [_ ?]]; eauto.
Qed.

Lemma drain_ok p id p' : pool_ok p -> drain id p = Some p' -> pool_ok p'.
Proof.
  intros [H1 H2 H3]. unfold drain.
  destruct (requests p !! id) as [q |] eqn:EQ; [| done]. cbn.
  destruct (negb (drained q) && settled (run q)) eqn:EC; [| done]. intros [= <-].
  apply andb_true_iff in EC as [ED%negb_true_iff ES].
  assert (requestMap p !! key q = Some id) as Hmap by (apply H1; eauto).
  split; cbn [requests requestMap controllers fresh].
  - intros k r. rewrite lookup_delete_Some, H1. setoid_rewrite lookup_insert_Some. split.
    + intros [Hn (x & Hx & Hk & Hd)]. exists x. split; [| done]. right. split; [| done].
      intros <-. congruence.
    + intros (x & [[<- <-] | [Hn Hx]] & Hk & Hd); [done |]. split; [| by exists x].
      intros <-. assert (requestMap p !! key x = Some r) as Hr by (apply H1; eauto). congruence.
  - intros r x [[<- <-] | [Hn Hx]]%lookup_insert_Some.
    + destruct (H2 _ _ EQ) as [? ? ? ? ?]. by split.
    + by eapply (request_ok_controllers p); [eapply H2 |].
  - intros r [Hr | Hr]; apply H3; [| by right]. left.
    apply lookup_insert_is_Some in Hr as [<- | [_ ?]]; eauto.
Qed.

Lemma pool_step_ok p p' : pool_ok p -> pool_step p p' -> pool_ok p'.
Proof.
  intros Hp Hs. inversion Hs; subst.
  - by apply newController_ok.
  - by apply abortController_ok.
  - by apply requestJson_ok.
  - by eapply net_event_ok.
  - by eapply drain_ok.
Qed.

Lemma pool_reachable_ok p : pool_reachable p -> pool_ok p.
Proof.
  revert p. apply rtc_ind_r; [apply no_requests_ok | intros; eapply pool_step_ok; eassumption].
Qed.
End Preservation.

Lemma in_flight_shared `{UrlApi} `{HeadersApi} p r q options controller :
  pool_ok p -> requests p !! r = Some q -> drained q = false ->
  requestJson options controller (Some (key q)) p = (r, p).
Proof.
  intros [H1 _ _] Hq Hd. unfold requestJson.
  change (dedupeKey (Some (key q)) options) with (key q).
  assert (requestMap p !! key q = Some r) as -> by (apply H1; eauto). done.
Qed.

(** ** Handled requests *)

(** A request that was handled stays as it was, none is handled, and each keeps
    its key. *)
Definition keeps_requests (p p' : Pool) : Prop :=
  forall id q, requests p !! id = Some q ->
    exists q', requests p' !! id = Some q' /\ drained q' = drained q /\ (drained q = true -> q' = q) /\
      key q' = key q.

#[export] Instance keeps_requests_preorder : PreOrder keeps_requests.
Proof.
  split; [intros p id q Hq; by exists q |]. intros p1 p2 p3 H12 H23 id q Hq.
  destruct (H12 id q Hq) as (q2 & Hq2 & E2 & K2 & Y2).
  destruct (H23 id q2 Hq2) as (q3 & Hq3 & E3 & K3 & Y3).
  exists q3. split_and!; [done | congruence | | congruence].
  intros E. rewrite K3 by congruence. by apply K2.
Qed.

Lemma keeps_new p : keeps_requests p (snd (newController p)).
Proof. intros id q Hq. by exists q. Qed.

Lemma keeps_abort p c : pool_ok p -> keeps_requests p (abortController c p).
Proof.
  intros Hp id q Hq. unfold abortController. destruct (signal_aborted p c); [by exists q |].
  exists (hear_abort c q). cbn [requests]. rewrite lookup_fmap, Hq. split; [done |].
  destruct (hear_abort_fields c q) as [Ek Ed]. split_and!; [done | | done]. intros Hd.
  destruct (ok_request p Hp id q Hq) as [(sig & Hr & _) _ Hset _ _].
  unfold hear_abort. destruct (decide _); [| done].
  by destruct (RequestClient.ok_released _ _ Hr (Hset Hd)) as [_ ->].
Qed.

Lemma keeps_request `{UrlApi} `{HeadersApi} p options c k :
  pool_ok p -> keeps_requests p (snd (requestJson options c k p)).
Proof.
  intros Hp id q Hq. unfold requestJson. destruct (requestMap p !! _); [by exists q |].
  exists q. split; [| done]. cbn. rewrite lookup_insert_ne; [done |]. intros <-.
  assert (fresh p < fresh p)%nat by (apply (ok_fresh p Hp); left; eauto). lia.
Qed.

Lemma keeps_net p id e p' : pool_ok p -> net_event id e p = Some p' -> keeps_requests p p'.
Proof.
  intros Hp. unfold net_event. destruct (requests p !! id) as [q |] eqn:Eq; [| done]. cbn.
  destruct (run_event _ e _) as [r' |] eqn:Er; [| done]. intros [= <-] id' q' Hq'. cbn.
  destruct (decide (id = id')) as [<- | Hne]; [| exists q'; by rewrite lookup_insert_ne].
  exists (set_run r' q). rewrite lookup_insert_eq. simplify_eq. split_and!; [done | done | | done].
  intros Hd.
  destruct (ok_request p Hp id q Eq) as [(sig & Hr & _) _ Hset _ _].
  exfalso. eapply (settled_stuck (options q) sig (run q)); [exact Hr | by apply Hset |].
  by eapply run_event_step.
Qed.

(** What a caller is given was not handled. *)
Lemma given_unhandled `{UrlApi} `{HeadersApi} p options c k r p' :
  pool_ok p -> requestJson options c k p = (r, p') ->
  exists q, requests p' !! r = Some q /\ drained q = false.
Proof.
  intros Hp. unfold requestJson. destruct (requestMap p !! _) as [e |] eqn:E; intros [= <- <-].
  - apply (ok_map p Hp) in E as (q & Hq & _ & Hd). by exists q.
  - cbn. rewrite lookup_insert_eq. by eexists.
Qed.

(** * Properties *)

(** C29: requests are single-flight. In every reachable pool the map holds
    exactly the requests whose promise has not been handled, so no two of them
    share a key, and asking for a key that is in flight starts nothing and gives
    the request that has it. *)
Theorem pool_single_flight `{UrlApi} `{HeadersApi} p :
  pool_reachable p ->
  (forall r1 r2 q1 q2,
     requests p !! r1 = Some q1 -> requests p !! r2 = Some q2 ->
     drained q1 = false -> drained q2 = false -> key q1 = key q2 -> r1 = r2) /\
  (forall r q options controller,
     requests p !! r = Some q -> drained q = false ->
     requestJson options controller (Some (key q)) p = (r, p)).
Proof.
  intros Hp%pool_reachable_ok. pose proof (ok_map p Hp) as H1. split.
  - intros r1 r2 q1 q2 Hq1 Hq2 Hd1 Hd2 Hk.
    assert (requestMap p !! key q1 = Some r1) by (apply H1; eauto).
    assert (requestMap p !! key q1 = Some r2) by (apply H1; exists q2; eauto). congruence.
  - intros. by apply in_flight_shared.
Qed.

(** A caller that joins a request whose owner has been cancelled gets the
    cancellation. In every reachable pool, a request under way whose controller
    was aborted is aborted too; it is what every caller that asks for its key is
    given until it is handled, and when it settles it rejects with a
    [RequestError] of kind aborted, or timeout when its timer was first. *)
Theorem pool_join_cancelled `{UrlApi} `{HeadersApi} p r q c :
  pool_reachable p -> requests p !! r = Some q -> signal q = Some c ->
  signal_aborted p c = true -> settled (run q) = false ->
  (forall options controller, requestJson options controller (Some (key q)) p = (r, p)) /\
  forall e p' o, net_event r e p = Some p' -> outcome p' r = Some o ->
    exists err, o = Rejected (RequestErr err) /\ (kind err = kind_aborted \/ kind err = kind_timeout).
Proof.
  intros Hp Hq Hs Hc Hun. apply pool_reachable_ok in Hp as Hok.
  destruct (ok_request p Hok r q Hq) as [(sig & Hr & _) Hown Hd _ Ha].
  assert (drained q = false) as Hdr by (destruct (drained q); [rewrite Hd in Hun; done | done]).
  split.
  { intros. by eapply in_flight_shared. }
  destruct (Ha c Hs Hc) as [? | [reason Hreason]]; [congruence |].
  intros e p' o He Ho. unfold net_event in He. rewrite Hq in He. cbn in He.
  destruct (run_event (options q) e (run q)) as [r' |] eqn:ER; [| done]. cbn in He.
  injection He as <-. unfold outcome in Ho. cbn in Ho. rewrite lookup_insert_eq in Ho. cbn in Ho.
  destruct (phase r') eqn:EP; try done. injection Ho as ->.
  apply run_event_own_reason in ER as Hown'; [| done].
  apply run_event_step in ER. assert (run_ok sig r') as Hr' by by eapply step_ok.
  assert (is_Some (aborted r')) as [x Hx] by (eapply step_aborted; eauto).
  destruct (RequestClient.ok_aborted _ _ Hr' x o Hx EP) as (err & -> & HK).
  exists err. split; [done |]. rewrite HK. destruct (Hown' x Hx) as [-> | ->]; [by left | by right].
Qed.

(** * A cancelled refresh *)

(** Headers that allow everything. *)
#[export] Instance simple_headers : HeadersApi := {|
  Headers := list (string * string);
  headers_new l := Ok l;
  headers_has k h := existsb (fun kv => String.eqb (fst kv) k) h;
  headers_set k v h := Ok ((k, v) :: h)
|}.

(** A request under key jobs, and the pool after its controller aborts. *)
Definition requested_pool : Pool :=
  snd (requestJson RequestClient.sample_options (Some 0%nat) (Some "jobs")
         (snd (newController no_requests))).
Definition cancelled_pool : Pool := abortController 0 requested_pool.

Lemma requested_reachable : pool_reachable requested_pool.
Proof.
  eapply rtc_l; [apply (pool_new no_requests) |].
  eapply rtc_l; [| apply rtc_refl].
  apply (pool_request _ RequestClient.sample_options (Some 0%nat) (Some "jobs")).
  intros c [= <-]. by eexists.
Qed.

Lemma cancelled_reachable : pool_reachable cancelled_pool.
Proof.
  eapply rtc_r; [exact requested_reachable |]. apply pool_abort. by eexists.
Qed.

Lemma pool_single_flight_witness :
  exists q, requests requested_pool !! 1%nat = Some q /\
    requestJson RequestClient.sample_options None (Some (key q)) requested_pool =
      (1%nat, requested_pool).
Proof.
  destruct (requests requested_pool !! 1%nat) as [q |] eqn:E; [| vm_compute in E; discriminate].
  exists q. split; [reflexivity |].
  apply (proj2 (pool_single_flight requested_pool requested_reachable) 1%nat q); [exact E |].
  vm_compute in E. injection E as <-. reflexivity.
Defined.

Lemma pool_join_cancelled_witness :
  exists p' o err,
    net_event 1 (FetchRejects abort_error) cancelled_pool = Some p' /\ outcome p' 1 = Some o /\
    o = Rejected (RequestErr err) /\ (kind err = kind_aborted \/ kind err = kind_timeout).
Proof.
  destruct (requests cancelled_pool !! 1%nat) as [q |] eqn:Eq; [| vm_compute in Eq; discriminate].
  destruct (net_event 1 (FetchRejects abort_error) cancelled_pool) as [p' |] eqn:Ep;
    [| vm_compute in Ep; discriminate].
  destruct (outcome p' 1) as [o |] eqn:Eo;
    [| vm_compute in Ep; injection Ep as <-; vm_compute in Eo; discriminate].
  exists p', o.
  destruct (proj2 (pool_join_cancelled cancelled_pool 1%nat q 0%nat cancelled_reachable Eq
    ltac:(vm_compute in Eq; injection Eq as <-; reflexivity) ltac:(vm_compute; reflexivity)
    ltac:(vm_compute in Eq; injection Eq as <-; reflexivity)) _ p' o Ep Eo) as (err & He & Hk).
  exists err. split; [reflexivity |]. split; [exact Eo |]. split; assumption.
Defined.
