(* ===== verification/ConsoleState.v ===== *)
(** [src/lib/console-data.ts]: the console's data and the operations on it,
    except the demo data set, which is in [DemoData].

    [now] is the clock reading of one call; [ids] are the values that successive
    calls of [createToastId] return. *)

From stdpp Require Import base list strings gmap sorting.
From Stdlib Require Import ZArith Lia Bool Ascii.
From S2P Require Import Prelude JsString JsNum JsDate JsSort JsValue Models Safe LiveRefresh.

#[local] Open Scope Z_scope.

(** * Empty data *)

Definition no_latency : LatencySummary := LatencySummary.mk (num_of_Z 0) (num_of_Z 0) (num_of_Z 0).

Definition empty_leader : SchedulerLeaderStatus :=
  {| SchedulerLeaderStatus.schedulerId := None; SchedulerLeaderStatus.token := None;
     SchedulerLeaderStatus.isLeaderHealthy := None; SchedulerLeaderStatus.acquiredAt := None;
     SchedulerLeaderStatus.lastHeartbeatAt := None; SchedulerLeaderStatus.leaseExpiresAt := None |}.

Definition no_queue_lengths : gmap string num :=
  <["critical" := num_of_Z 0]> (<["default" := num_of_Z 0]> (<["low" := num_of_Z 0]> ∅)).

Definition empty_overview : Overview :=
  {| Overview.totalJobs := num_of_Z 0; Overview.queuedJobs := num_of_Z 0;
     Overview.blockedJobs := num_of_Z 0; Overview.throttledJobs := num_of_Z 0;
     Overview.activeJobs := num_of_Z 0; Overview.failedJobs := num_of_Z 0;
     Overview.retryingJobs := num_of_Z 0; Overview.completedJobs := num_of_Z 0;
     Overview.scheduledJobs := num_of_Z 0; Overview.canceledJobs := num_of_Z 0;
     Overview.queueLengths := no_queue_lengths; Overview.averageExecMs := num_of_Z 0;
     Overview.lastUpdatedAt := ""; Overview.activeWorkers := num_of_Z 0;
     Overview.delayedBacklog := num_of_Z 0 |}.

Definition createEmptySnapshot : DashboardSnapshot :=
  {| DashboardSnapshot.overview := empty_overview;
     DashboardSnapshot.metrics :=
       {| Metrics.jobsPerSecond := num_of_Z 0; Metrics.retryRate := num_of_Z 0;
          Metrics.deadLetterRate := num_of_Z 0; Metrics.executionLatency := no_latency;
          Metrics.queueLatency := no_latency; Metrics.maxWorkerHeartbeatAgeMs := num_of_Z 0 |};
     DashboardSnapshot.trend := Trend.mk [] [] [] [] [];
     DashboardSnapshot.workers := [];
     DashboardSnapshot.deadLetters := [];
     DashboardSnapshot.blockedJobs := [];
     DashboardSnapshot.throttledJobs := [];
     DashboardSnapshot.rateLimits := [];
     DashboardSnapshot.leader := empty_leader |}.

Definition createEmptyConsoleData (source : DataSource) : ConsoleData :=
  {| ConsoleData.snapshot := createEmptySnapshot; ConsoleData.jobs := [];
     ConsoleData.schedules := []; ConsoleData.events := []; ConsoleData.workerStatuses := [];
     ConsoleData.inspections := ∅; ConsoleData.queueControls := ∅;
     ConsoleData.workerControls := ∅; ConsoleData.lastHydratedAt := "";
     ConsoleData.source := source |}.

(** * Summary of the jobs *)

(** The counters of [summarizeJobs]; counts are exact numbers, kept as [Z] and
    handed over as numbers. A queue called like a property of
    [Object.prototype] is outside the model. *)
Record Counts := {
  queuedJobs : Z;
  blockedJobs : Z;
  throttledJobs : Z;
  activeJobs : Z;
  failedJobs : Z;
  retryingJobs : Z;
  completedJobs : Z;
  scheduledJobs : Z;
  canceledJobs : Z;
  queueLengths : gmap string Z;
  delayedBacklog : Z
}.

Definition no_counts : Counts :=
  {| queuedJobs := 0; blockedJobs := 0; throttledJobs := 0; activeJobs := 0; failedJobs := 0;
     retryingJobs := 0; completedJobs := 0; scheduledJobs := 0; canceledJobs := 0;
     queueLengths := list_to_map (List.map (fun queue => (queue, 0)) QUEUES);
     delayedBacklog := 0 |}.

Definition b2z (b : bool) : Z := if b then 1 else 0.

Definition in_state (s : JobState) (job : Job) : bool := state_eqb (Job.state job) s.

(** [\["queued", "retrying", "scheduled"\].includes(job.state)] *)
Definition waiting (job : Job) : bool :=
  existsb (state_eqb (Job.state job)) [queued; retrying; scheduled].

Definition delayed (job : Job) : bool := in_state scheduled job || in_state retrying job.

(** The body of the loop. *)
Definition count_job (c : Counts) (job : Job) : Counts :=
  let bump (s : JobState) (n : Z) := n + b2z (in_state s job) in
  {| queueLengths :=
       <[Job.queue job := default 0 (queueLengths c !! Job.queue job) + b2z (waiting job)]>
         (queueLengths c);
     queuedJobs := bump queued (queuedJobs c);
     blockedJobs := bump blocked (blockedJobs c);
     throttledJobs := bump throttled (throttledJobs c);
     activeJobs := bump active (activeJobs c);
     failedJobs := bump failed (failedJobs c);
     retryingJobs := bump retrying (retryingJobs c);
     completedJobs := bump completed (completedJobs c);
     scheduledJobs := bump scheduled (scheduledJobs c);
     canceledJobs := bump canceled (canceledJobs c);
     delayedBacklog := delayedBacklog c + b2z (delayed job) |}.

Definition average_exec (jobs : list Job) : num :=
  let done := List.filter (fun job => num_gt (Job.executionMs job) (num_of_Z 0)) jobs in
  match done with
  | [] => num_of_Z 0
  | _ =>
      num_div (foldl (fun total job => num_add total (Job.executionMs job)) (num_of_Z 0) done)
        (num_of_nat (length done))
  end.

(** [{ ...overview, ...summarizeJobs(jobs, workers, rateLimits), lastUpdatedAt }]:
    the summary has every other property of an overview. *)
Definition summarizeJobs (jobs : list Job) (workers : list WorkerLeaseHealth)
    (rateLimits : list RateLimitStatus) (lastUpdatedAt : string) : Overview :=
  let c := foldl count_job no_counts jobs in
  let throttled_total :=
    if existsb RateLimitStatus.throttled rateLimits
    then Z.max (throttledJobs c) (Z.of_nat (count (in_state throttled) jobs))
    else throttledJobs c in
  {| Overview.totalJobs := num_of_nat (length jobs);
     Overview.queuedJobs := num_of_Z (queuedJobs c);
     Overview.blockedJobs := num_of_Z (blockedJobs c);
     Overview.throttledJobs := num_of_Z throttled_total;
     Overview.activeJobs := num_of_Z (activeJobs c);
     Overview.failedJobs := num_of_Z (failedJobs c);
     Overview.retryingJobs := num_of_Z (retryingJobs c);
     Overview.completedJobs := num_of_Z (completedJobs c);
     Overview.scheduledJobs := num_of_Z (scheduledJobs c);
     Overview.canceledJobs := num_of_Z (canceledJobs c);
     Overview.queueLengths := num_of_Z <$> queueLengths c;
     Overview.averageExecMs := average_exec jobs;
     Overview.lastUpdatedAt := lastUpdatedAt;
     Overview.activeWorkers := num_of_nat (length workers);
     Overview.delayedBacklog := num_of_Z (delayedBacklog c) |}.

(** * Reconciliation *)

Section Console.
Context `{DateHost}.

Definition job_time (job : Job) : option Z := date_parse (Job.updatedAt job).
Definition schedule_time (schedule : Schedule) : option Z := date_parse (Schedule.nextRunAt schedule).
Definition event_time (event : SystemEvent) : option Z := date_parse (SystemEvent.timestamp event).
Definition dead_letter_time (item : DeadLetter) : option Z := date_parse (DeadLetter.failedAt item).

Definition compare_heartbeat (left right : WorkerLeaseHealth) : comparison :=
  compare_diff (WorkerLeaseHealth.heartbeatAgeMs left) (WorkerLeaseHealth.heartbeatAgeMs right).

Definition sortEvents (events : list SystemEvent) : list SystemEvent :=
  take 60 (sort_by (newest_first event_time) events).

Definition reconcileConsoleData (now : Z) (data : ConsoleData) : ConsoleData :=
  let snapshot := ConsoleData.snapshot data in
  let sortedJobs := sort_by (newest_first job_time) (ConsoleData.jobs data) in
  let sortedSchedules := sort_by (oldest_first schedule_time) (ConsoleData.schedules data) in
  let sortedEvents := sortEvents (ConsoleData.events data) in
  let lastUpdatedAt :=
    or_else (Overview.lastUpdatedAt (DashboardSnapshot.overview snapshot))
      (or_else (ConsoleData.lastHydratedAt data) (iso_of_time now)) in
  {| ConsoleData.snapshot :=
       {| DashboardSnapshot.overview :=
            summarizeJobs sortedJobs (DashboardSnapshot.workers snapshot)
              (DashboardSnapshot.rateLimits snapshot) lastUpdatedAt;
          DashboardSnapshot.metrics := DashboardSnapshot.metrics snapshot;
          DashboardSnapshot.trend := DashboardSnapshot.trend snapshot;
          DashboardSnapshot.workers :=
            sort_by compare_heartbeat (DashboardSnapshot.workers snapshot);
          DashboardSnapshot.deadLetters :=
            sort_by (newest_first dead_letter_time) (DashboardSnapshot.deadLetters snapshot);
          DashboardSnapshot.blockedJobs := take 16 (List.filter (in_state blocked) sortedJobs);
          DashboardSnapshot.throttledJobs := take 16 (List.filter (in_state throttled) sortedJobs);
          DashboardSnapshot.rateLimits := DashboardSnapshot.rateLimits snapshot;
          DashboardSnapshot.leader := DashboardSnapshot.leader snapshot |};
     ConsoleData.jobs := sortedJobs;
     ConsoleData.schedules := sortedSchedules;
     ConsoleData.events := sortedEvents;
     ConsoleData.workerStatuses := ConsoleData.workerStatuses data;
     ConsoleData.inspections := ConsoleData.inspections data;
     ConsoleData.queueControls := ConsoleData.queueControls data;
     ConsoleData.workerControls := ConsoleData.workerControls data;
     ConsoleData.lastHydratedAt := ConsoleData.lastHydratedAt data;
     ConsoleData.source := ConsoleData.source data |}.

Record HydrationInput := {
  input_snapshot : DashboardSnapshot;
  input_jobs : list Job;
  input_schedules : list Schedule;
  input_workerStatuses : list WorkerStatus;
  input_events : option (list SystemEvent)
}.

Definition createConsoleDataFromApi (now : Z) (input : HydrationInput) : ConsoleData :=
  reconcileConsoleData now
    {| ConsoleData.snapshot := input_snapshot input;
       ConsoleData.jobs := input_jobs input;
       ConsoleData.schedules := input_schedules input;
       ConsoleData.events := default [] (input_events input);
       ConsoleData.workerStatuses := input_workerStatuses input;
       ConsoleData.inspections := ∅;
       ConsoleData.queueControls := ∅;
       ConsoleData.workerControls := ∅;
       ConsoleData.lastHydratedAt := iso_of_time now;
       ConsoleData.source := source_live |}.

(** ** Copies with some properties replaced *)

Definition set_jobs (jobs : list Job) (data : ConsoleData) : ConsoleData :=
  let '(ConsoleData.mk s _ c e w i q k h o) := data in ConsoleData.mk s jobs c e w i q k h o.
Definition set_events (events : list SystemEvent) (data : ConsoleData) : ConsoleData :=
  let '(ConsoleData.mk s j c _ w i q k h o) := data in ConsoleData.mk s j c events w i q k h o.
Definition set_inspections (m : gmap string JobInspection) (data : ConsoleData) : ConsoleData :=
  let '(ConsoleData.mk s j c e w _ q k h o) := data in ConsoleData.mk s j c e w m q k h o.
Definition set_snapshot (snapshot : DashboardSnapshot) (data : ConsoleData) : ConsoleData :=
  let '(ConsoleData.mk _ j c e w i q k h o) := data in ConsoleData.mk snapshot j c e w i q k h o.
Definition set_deadLetters (l : list DeadLetter) (snapshot : DashboardSnapshot)
  : DashboardSnapshot :=
  let '(DashboardSnapshot.mk o m t w _ b h r l0) := snapshot in
  DashboardSnapshot.mk o m t w l b h r l0.

(** ** Inspections, dead letters, controls *)

Definition upsertInspection (data : ConsoleData) (inspection : JobInspection) : ConsoleData :=
  set_inspections
    (<[Job.id (JobInspection.job inspection) := inspection]> (ConsoleData.inspections data)) data.

(** [null] when the job is unknown. *)
Definition getInspection (data : ConsoleData) (jobId : string) : result (option JobInspection) :=
  match ConsoleData.inspections data !! jobId with
  | Some existing => Ok (Some existing)
  | None =>
      match List.find (fun candidate => String.eqb (Job.id candidate) jobId)
              (ConsoleData.jobs data) with
      | Some job => result_bind (createInspectionFallback job (ConsoleData.jobs data))
                      (fun i => Ok (Some i))
      | None => Ok None
      end
  end.

(** [{ ...current, ...next }] *)
Definition mergeQueueControls (current next : gmap string QueueControl)
  : gmap string QueueControl := next ∪ current.

Definition findDeadLetter (data : ConsoleData) (jobId : string) : option DeadLetter :=
  List.find (fun item => String.eqb (DeadLetter.jobId item) jobId)
    (DashboardSnapshot.deadLetters (ConsoleData.snapshot data)).

Definition removeDeadLetters (now : Z) (data : ConsoleData) (jobIds : list string) : ConsoleData :=
  let snapshot := ConsoleData.snapshot data in
  reconcileConsoleData now
    (set_snapshot
       (set_deadLetters
          (List.filter
             (fun item => negb (existsb (String.eqb (DeadLetter.jobId item)) jobIds))
             (DashboardSnapshot.deadLetters snapshot))
          snapshot)
       data).

(** ** Events *)

(** The loop: [seen] and [merged] grow together. *)
Fixpoint merge_events (seen : gset string) (merged events : list SystemEvent)
  : list SystemEvent :=
  match events with
  | [] => merged
  | event :: events' =>
      let fingerprint := createEventFingerprint event in
      if decide (fingerprint ∈ seen) then merge_events seen merged events'
      else merge_events ({[fingerprint]} ∪ seen) (merged ++ [event]) events'
  end.

(** [changed] is whether the loop pushed anything. *)
Definition appendEvents (data : ConsoleData) (events : list SystemEvent) : ConsoleData :=
  match events with
  | [] => data
  | _ =>
      let seen := list_to_set (List.map createEventFingerprint (ConsoleData.events data)) in
      let merged := merge_events seen (ConsoleData.events data) events in
      if Nat.eqb (length merged) (length (ConsoleData.events data)) then data
      else set_events (sortEvents merged) data
  end.

Definition appendEvent (data : ConsoleData) (event : SystemEvent) : ConsoleData :=
  appendEvents data [event].

(** ** Jobs *)

Definition has_id (id : string) (candidate : Job) : bool := String.eqb (Job.id candidate) id.

Definition replaceJob (now : Z) (data : ConsoleData) (job : Job) : ConsoleData :=
  let jobs := ConsoleData.jobs data in
  let nextJobs :=
    if existsb (has_id (Job.id job)) jobs
    then List.map (fun candidate => if has_id (Job.id job) candidate then job else candidate) jobs
    else job :: jobs in
  reconcileConsoleData now (set_jobs nextJobs data).

(** A job as the seeded workflow creates it. *)
Definition seeded_job (now : Z) (id type : string) (payload : jsval) (priority : Z)
    (state : JobState) (workflowId : string) (parentJobId dependencyPolicy blockedReason : option string)
  : Job :=
  {| Job.id := id; Job.type := type; Job.queue := "default"; Job.tenantId := "tenant-a";
     Job.payload := payload; Job.priority := num_of_Z priority; Job.attempts := num_of_Z 0;
     Job.maxAttempts := num_of_Z 5; Job.state := state; Job.schemaVersion := num_of_Z 1;
     Job.idempotencyKey := None; Job.workflowId := Some workflowId;
     Job.parentJobId := parentJobId; Job.dependencyPolicy := dependencyPolicy;
     Job.blockedReason := blockedReason; Job.createdAt := iso_of_time now;
     Job.updatedAt := iso_of_time now; Job.runAt := iso_of_time now; Job.startedAt := None;
     Job.finishedAt := None; Job.lastHeartbeatAt := None; Job.leaseExpiresAt := None;
     Job.throttleUntil := None; Job.lastError := None; Job.result := VUndefined;
     Job.workerId := None; Job.leaseToken := None; Job.timeoutSeconds := num_of_Z 45;
     Job.cancelRequested := false; Job.executionMs := num_of_Z 0 |}.

(** [ids 0] is the workflow's, [ids 1] the root's, the next three the children's. *)
Definition workflow_jobs (now : Z) (ids : nat -> string) : list Job :=
  let workflowId := "wf-" +:+ ids 0%nat in
  let rootId := ids 1%nat in
  let rootJob :=
    seeded_job now rootId "file.ingest"
      (VObj [("fileId", VStr workflowId); ("source", VStr "s3://demo/new-asset.png");
             ("durationMs", VNum (num_of_Z 300))])
      6 queued workflowId None None None in
  let child (n : nat) (size : string) :=
    seeded_job now (ids n) "image.thumbnail"
      (VObj [("fileId", VStr workflowId); ("size", VStr size); ("durationMs", VNum (num_of_Z 250))])
      5 blocked workflowId (Some rootId) (Some "block") (Some "waiting on root ingest") in
  [rootJob; child 2%nat "sm"; child 3%nat "md"; child 4%nat "lg"].

Definition addLocalWorkflowJobs (now : Z) (ids : nat -> string) (data : ConsoleData) : ConsoleData :=
  let event :=
    makeSystemEvent now "workflow.seeded"
      {| p_kind := None; p_jobId := None; p_queue := None; p_workerId := None; p_state := None;
         p_message := Some ("seeded wf-" +:+ ids 0%nat); p_timestamp := None |} in
  reconcileConsoleData now
    (set_events (event :: ConsoleData.events data)
       (set_jobs (workflow_jobs now ids ++ ConsoleData.jobs data) data)).

(** The node has no dependency lists here, unlike [fallback_node]. *)
Definition graph_node (candidate : Job) : DependencyNode :=
  {| DependencyNode.jobId := Job.id candidate;
     DependencyNode.type := Job.type candidate;
     DependencyNode.state := Job.state candidate;
     DependencyNode.queue := Job.queue candidate;
     DependencyNode.parentJobId := Job.parentJobId candidate;
     DependencyNode.workflowId := Job.workflowId candidate;
     DependencyNode.blockedReason := Job.blockedReason candidate;
     DependencyNode.dependencyPolicy := None;
     DependencyNode.dependsOn := None;
     DependencyNode.dependents := None |}.

Definition createInspectionGraphForWorkflow (job : Job) (jobs : list Job) : DependencyGraph :=
  {| DependencyGraph.rootJobId := Job.id job;
     DependencyGraph.nodes :=
       match List.map graph_node (List.filter (same_workflow job) jobs) with
       | [] => [single_node job]
       | nodes => nodes
       end |}.
End Console.

(** * Reuse of unchanged values *)

(** [sameValue] of two values given by what they are for JavaScript. *)
Definition sameValue (left right : jsval) : bool :=
  bool_decide (stableSerialize left = stableSerialize right).

Definition reuseValue {A : Type} (to_value : A -> jsval) (previous next : A) : A :=
  if sameValue (to_value previous) (to_value next) then previous else next.

Section Reuse.
Context {A : Type} (to_value : A -> jsval) (getKey : A -> string).

(** [new Map(previous.map(...))]: the last entry of a key wins. *)
Definition by_key (previous : list A) : gmap string A :=
  foldl (fun m item => <[getKey item := item]> m) ∅ previous.

(** What [existing && sameValue(existing, item)] finds. *)
Definition reusable (previous : gmap string A) (item : A) : option A :=
  match previous !! getKey item with
  | Some existing => if sameValue (to_value existing) (to_value item) then Some existing else None
  | None => None
  end.

(** The array [previous] itself is returned when nothing changed. *)
Definition reuseList (previous next : list A) : list A :=
  let previousByKey := by_key previous in
  let changed :=
    negb (Nat.eqb (length previous) (length next)) ||
    existsb (fun item => negb (bool_decide (is_Some (reusable previousByKey item)))) next in
  let resolved := List.map (fun item => default item (reusable previousByKey item)) next in
  if changed then resolved else previous.
End Reuse.

Definition queue_lengths_value (m : gmap string num) : jsval := map_value VNum m.

Definition stabilizeTrend (previous next : Trend) : Trend :=
  let points (f : Trend -> list MetricsPoint) :=
    reuseList MetricsPoint.to_value MetricsPoint.timestamp (f previous) (f next) in
  reuseValue Trend.to_value previous
    {| Trend.throughput := points Trend.throughput;
       Trend.executionP95Ms := points Trend.executionP95Ms;
       Trend.queueLatencyP95Ms := points Trend.queueLatencyP95Ms;
       Trend.retryRate := points Trend.retryRate;
       Trend.deadLetterRate := points Trend.deadLetterRate |}.

Definition set_queueLengths (m : gmap string num) (o : Overview) : Overview :=
  let '(Overview.mk a b c d e f g h i j _ l k n p) := o in
  Overview.mk a b c d e f g h i j m l k n p.

Definition stabilizeOverview (previous next : Overview) : Overview :=
  reuseValue Overview.to_value previous
    (set_queueLengths
       (reuseValue queue_lengths_value (Overview.queueLengths previous) (Overview.queueLengths next))
       next).

Definition stabilizeSnapshot (previous next : DashboardSnapshot) : DashboardSnapshot :=
  reuseValue DashboardSnapshot.to_value previous
    {| DashboardSnapshot.overview :=
         stabilizeOverview (DashboardSnapshot.overview previous) (DashboardSnapshot.overview next);
       DashboardSnapshot.metrics :=
         reuseValue Metrics.to_value (DashboardSnapshot.metrics previous)
           (DashboardSnapshot.metrics next);
       DashboardSnapshot.trend :=
         stabilizeTrend (DashboardSnapshot.trend previous) (DashboardSnapshot.trend next);
       DashboardSnapshot.workers :=
         reuseList WorkerLeaseHealth.to_value WorkerLeaseHealth.workerId
           (DashboardSnapshot.workers previous) (DashboardSnapshot.workers next);
       DashboardSnapshot.deadLetters :=
         reuseList DeadLetter.to_value DeadLetter.jobId
           (DashboardSnapshot.deadLetters previous) (DashboardSnapshot.deadLetters next);
       DashboardSnapshot.blockedJobs :=
         reuseList Job.to_value Job.id
           (DashboardSnapshot.blockedJobs previous) (DashboardSnapshot.blockedJobs next);
       DashboardSnapshot.throttledJobs :=
         reuseList Job.to_value Job.id
           (DashboardSnapshot.throttledJobs previous) (DashboardSnapshot.throttledJobs next);
       DashboardSnapshot.rateLimits :=
         reuseList RateLimitStatus.to_value (fun item => RateLimitPolicy.id (RateLimitStatus.policy item))
           (DashboardSnapshot.rateLimits previous) (DashboardSnapshot.rateLimits next);
       DashboardSnapshot.leader :=
         reuseValue SchedulerLeaderStatus.to_value (DashboardSnapshot.leader previous)
           (DashboardSnapshot.leader next) |}.

Definition stabilizeConsoleData (previous next : ConsoleData) : ConsoleData :=
  {| ConsoleData.snapshot :=
       stabilizeSnapshot (ConsoleData.snapshot previous) (ConsoleData.snapshot next);
     ConsoleData.jobs :=
       reuseList Job.to_value Job.id (ConsoleData.jobs previous) (ConsoleData.jobs next);
     ConsoleData.schedules :=
       reuseList Schedule.to_value Schedule.id (ConsoleData.schedules previous)
         (ConsoleData.schedules next);
     ConsoleData.events :=
       reuseList SystemEvent.to_value createEventFingerprint (ConsoleData.events previous)
         (ConsoleData.events next);
     ConsoleData.workerStatuses :=
       reuseList WorkerStatus.to_value WorkerStatus.workerId (ConsoleData.workerStatuses previous)
         (ConsoleData.workerStatuses next);
     ConsoleData.inspections := ConsoleData.inspections next;
     ConsoleData.queueControls := ConsoleData.queueControls next;
     ConsoleData.workerControls := ConsoleData.workerControls next;
     ConsoleData.lastHydratedAt := ConsoleData.lastHydratedAt next;
     ConsoleData.source := ConsoleData.source next |}.

(** * Lemmas *)

(** ** Counting *)

(** A counter that each job raises by the value of a test counts the jobs that
    pass it. *)
Lemma fold_counter (f : Counts -> Z) (p : Job -> bool) :
  (forall c job, f (count_job c job) = f c + b2z (p job)) ->
  forall jobs c, f (foldl count_job c jobs) = f c + Z.of_nat (count p jobs).
Proof.
  intros Hf jobs. induction jobs as [|job jobs IH]; intros c; [cbn; lia |].
  cbn [foldl]. rewrite IH, Hf, count_cons. destruct (p job); cbn [b2z]; lia.
Qed.

Lemma count_or {A} (p q : A -> bool) l :
  (forall x, p x && q x = false) ->
  count (fun x => p x || q x) l = (count p l + count q l)%nat.
Proof.
  intros Hpq. induction l as [|x l IH]; [done |]. rewrite !count_cons, IH.
  specialize (Hpq x). destruct (p x), (q x); cbn [orb andb] in Hpq |- *; try discriminate Hpq; lia.
Qed.

Definition waiting_in (queue : string) (job : Job) : bool :=
  String.eqb (Job.queue job) queue && waiting job.

Lemma queue_counter queue jobs c :
  default 0 (queueLengths (foldl count_job c jobs) !! queue) =
  default 0 (queueLengths c !! queue) + Z.of_nat (count (waiting_in queue) jobs).
Proof.
  apply (fold_counter (fun c => default 0 (queueLengths c !! queue))). intros c' job.
  unfold waiting_in. cbn [queueLengths count_job].
  destruct (String.eqb_spec (Job.queue job) queue) as [-> | Hne].
  - by rewrite lookup_insert_eq.
  - rewrite lookup_insert_ne by done. cbn. lia.
Qed.

Lemma queue_known queue jobs c :
  is_Some (queueLengths (foldl count_job c jobs) !! queue) <->
  is_Some (queueLengths c !! queue) \/ Exists (fun job => Job.queue job = queue) jobs.
Proof.
  revert c. induction jobs as [|job jobs IH]; intros c; cbn [foldl].
  - rewrite Exists_nil. tauto.
  - rewrite IH, Exists_cons. cbn [queueLengths count_job].
    destruct (decide (Job.queue job = queue)) as [-> | Hne].
    + rewrite lookup_insert_eq. naive_solver.
    + rewrite lookup_insert_ne by done. naive_solver.
Qed.

(** The states the console knows, by name. *)
Definition known_states : list JobState :=
  [queued; blocked; throttled; active; failed; retrying; completed; scheduled; canceled].

Definition known_state (job : Job) : bool := existsb (state_eqb (Job.state job)) known_states.

Lemma eqb_sum (n : string) (l : list string) :
  NoDup l -> sum_list (List.map (fun x => if String.eqb n x then 1 else 0)%nat l) =
             (if existsb (String.eqb n) l then 1 else 0)%nat.
Proof.
  induction 1 as [|x l Hx _ IH]; [done |]. cbn. rewrite IH.
  destruct (String.eqb_spec n x) as [-> | Hne]; [| done].
  destruct (existsb (String.eqb x) l) eqn:E; [| done].
  apply existsb_exists in E as (y & Hy & ->%String.eqb_eq). by apply list_elem_of_In in Hy.
Qed.

(** Every job of a known state is in exactly one of them. *)
Lemma state_partition jobs :
  sum_list (List.map (fun s => count (in_state s) jobs) known_states) = count known_state jobs.
Proof.
  induction jobs as [|job jobs IH]; [done |]. rewrite count_cons, <- IH.
  assert (sum_list (List.map (fun s => if in_state s job then 1 else 0)%nat known_states) =
          (if known_state job then 1 else 0)%nat) as Hjob.
  { pose proof (eqb_sum (state_name (Job.state job)) (List.map state_name known_states)) as E.
    rewrite List.map_map in E. apply E. apply (bool_decide_unpack _). by vm_compute. }
  rewrite <- Hjob. clear. induction known_states as [|s l IH]; [done |].
  cbn [List.map sum_list]. rewrite count_cons. cbn in *. lia.
Qed.

(** ** Sorting *)

(** Times at which everything the console sorts happens. *)
Record dated_data `{DateHost} (data : ConsoleData) : Prop := {
  dated_jobs : Forall (fun job => is_Some (job_time job)) (ConsoleData.jobs data);
  dated_schedules : Forall (fun s => is_Some (schedule_time s)) (ConsoleData.schedules data);
  dated_events : Forall (fun e => is_Some (event_time e)) (ConsoleData.events data);
  dated_deadLetters : Forall (fun d => is_Some (dead_letter_time d))
    (DashboardSnapshot.deadLetters (ConsoleData.snapshot data))
}.

(** Heartbeat ages that are whole milliseconds. *)
Definition whole_heartbeat (w : WorkerLeaseHealth) : Prop :=
  exists z, 0 <= z < 2 ^ 53 /\ WorkerLeaseHealth.heartbeatAgeMs w = num_of_Z z.

#[export] Instance compare_heartbeat_consistent : Consistent compare_heartbeat whole_heartbeat.
Proof.
  assert (forall x y a b, 0 <= a < 2 ^ 53 -> 0 <= b < 2 ^ 53 ->
    WorkerLeaseHealth.heartbeatAgeMs x = num_of_Z a ->
    WorkerLeaseHealth.heartbeatAgeMs y = num_of_Z b -> compare_heartbeat x y = (a ?= b)) as Hcmp.
  { intros x y a b Ha Hb Hx Hy. unfold compare_heartbeat. rewrite Hx, Hy.
    apply compare_diff_int; unfold safe_int; lia. }
  split.
  - intros x y (a & Ha & Hx) (b & Hb & Hy).
    rewrite (Hcmp x y a b), (Hcmp y x b a) by done. apply Z.compare_antisym.
  - intros x y z (a & Ha & Hx) (b & Hb & Hy) (c & Hc & Hz). unfold before.
    rewrite (Hcmp x y a b), (Hcmp y z b c), (Hcmp x z a c) by done.
    rewrite !Z.compare_le_iff. lia.
Qed.

Section Lemmas.
Context `{DateHost}.

Lemma StronglySorted_take {A} (R : A -> A -> Prop) n l :
  StronglySorted R l -> StronglySorted R (take n l).
Proof.
  intros Hs. revert n. induction Hs as [|x l Hs IH Hx]; intros [|n]; cbn; try constructor; auto.
  by apply Forall_take.
Qed.

Lemma sortEvents_idem events :
  Forall (fun e => is_Some (event_time e)) events -> sortEvents (sortEvents events) = sortEvents events.
Proof.
  intros He. unfold sortEvents at 1.
  rewrite sort_by_sorted_id.
  - unfold sortEvents. by rewrite take_take.
  - apply StronglySorted_take. by apply (sort_by_sorted _ (fun e => is_Some (event_time e))).
Qed.

Lemma iso_truthy t : truthy (iso_of_time t) = true.
Proof.
  apply truthy_true. unfold iso_of_time. destruct (civil_of_days _) as [[y m] d].
  intros E. apply (f_equal chars) in E. rewrite chars_of_chars in E.
  by destruct (iso_year y).
Qed.

Lemma or_else_truthy a b : truthy b = true -> truthy (or_else a b) = true.
Proof. intros Hb. unfold or_else. by destruct (truthy a) eqn:E. Qed.

Lemma or_else_id a b : truthy a = true -> or_else a b = a.
Proof. unfold or_else. by intros ->. Qed.
Lemma reconcile_twice now now' data :
  dated_data data ->
  Forall whole_heartbeat (DashboardSnapshot.workers (ConsoleData.snapshot data)) ->
  reconcileConsoleData now' (reconcileConsoleData now data) = reconcileConsoleData now data.
Proof.
  intros [Hj Hs He Hd] Hw. unfold reconcileConsoleData at 1.
  cbn [reconcileConsoleData ConsoleData.snapshot ConsoleData.jobs ConsoleData.schedules
    ConsoleData.events ConsoleData.workerStatuses ConsoleData.inspections ConsoleData.queueControls
    ConsoleData.workerControls ConsoleData.lastHydratedAt ConsoleData.source
    DashboardSnapshot.overview DashboardSnapshot.metrics DashboardSnapshot.trend
    DashboardSnapshot.workers DashboardSnapshot.deadLetters DashboardSnapshot.rateLimits
    DashboardSnapshot.leader Overview.lastUpdatedAt summarizeJobs].
  rewrite (sort_by_idem (newest_first job_time) (fun j => is_Some (job_time j))) by done.
  rewrite (sort_by_idem (oldest_first schedule_time) (fun s => is_Some (schedule_time s))) by done.
  rewrite (sort_by_idem (newest_first dead_letter_time) (fun d => is_Some (dead_letter_time d))) by done.
  rewrite (sort_by_idem compare_heartbeat whole_heartbeat) by done.
  rewrite sortEvents_idem by done.
  rewrite (or_else_id (or_else (Overview.lastUpdatedAt _) _))
    by (apply or_else_truthy, or_else_truthy, iso_truthy).
  unfold reconcileConsoleData, summarizeJobs. by rewrite (length_sort_by compare_heartbeat).
Qed.
End Lemmas.

Lemma no_queue_counts queue :
  queueLengths no_counts !! queue = if decide (queue ∈ QUEUES) then Some 0 else None.
Proof.
  cbn [queueLengths no_counts QUEUES List.map list_to_map foldr uncurry fst snd].
  destruct (decide (queue ∈ QUEUES)) as [Hin | Hin]; unfold QUEUES in Hin.
  - rewrite !elem_of_cons in Hin. destruct Hin as [-> | [-> | [-> | Hin]]]; [done.. |].
    by apply elem_of_nil in Hin.
  - cbn. rewrite !lookup_insert_ne by set_solver. done.
Qed.

Lemma queue_lengths_spec jobs queue :
  queueLengths (foldl count_job no_counts jobs) !! queue =
  if decide (queue ∈ QUEUES \/ Exists (fun job => Job.queue job = queue) jobs)
  then Some (Z.of_nat (count (waiting_in queue) jobs)) else None.
Proof.
  pose proof (queue_counter queue jobs no_counts) as Hq.
  pose proof (queue_known queue jobs no_counts) as Hk. rewrite no_queue_counts in Hq, Hk.
  replace (default 0 (if decide (queue ∈ QUEUES) then Some 0 else None)) with 0 in Hq
    by (by destruct (decide _)).
  destruct (queueLengths _ !! queue) as [z|].
  - rewrite decide_True; [cbn in Hq; by rewrite Hq |].
    destruct (proj1 Hk) as [Hy | Hy]; [eauto | left | by right].
    destruct (decide (queue ∈ QUEUES)); [done | by destruct Hy].
  - rewrite decide_False; [done |]. intros Hy.
    destruct (proj2 Hk) as [? ?]; [| done]. destruct Hy as [Hy | Hy]; [left | by right].
    rewrite decide_True by done. eauto.
Qed.

(** ** Lookup of jobs *)

Lemma find_perm_nodup {A} (key : A -> string) id (l l' : list A) :
  NoDup (List.map key l) -> l ≡ₚ l' ->
  List.find (fun x => String.eqb (key x) id) l = List.find (fun x => String.eqb (key x) id) l'.
Proof.
  intros Hn Hp. assert (NoDup (List.map key l')) as Hn' by (by rewrite <- Hp).
  assert (forall k, NoDup (List.map key k) -> forall x,
    List.find (fun x => String.eqb (key x) id) k = Some x <-> x ∈ k /\ key x = id) as Hfind.
  { intros k. induction k as [|y k IH]; intros Hk x; [cbn; set_solver |].
    cbn in Hk. apply NoDup_cons in Hk as [Hy Hk]. cbn.
    destruct (String.eqb_spec (key y) id) as [Hid | Hid].
    - split; [intros [= ->]; set_solver |]. intros [Hx Hxid].
      apply elem_of_cons in Hx as [-> | Hx]; [done |]. destruct Hy.
      apply list_elem_of_In, in_map_iff. exists x. split; [congruence | by apply list_elem_of_In].
    - rewrite IH by done. set_solver. }
  apply option_eq. intros x. rewrite (Hfind l Hn), (Hfind l' Hn'). by rewrite Hp.
Qed.

(** ** Merging events *)

Lemma merge_events_spec events seen merged :
  exists fresh,
    merge_events seen merged events = merged ++ fresh /\
    fresh `sublist_of` events /\
    NoDup (List.map createEventFingerprint fresh) /\
    Forall (fun e => createEventFingerprint e ∉ seen) fresh /\
    Forall (fun e => createEventFingerprint e ∈ seen \/
                     In (createEventFingerprint e) (List.map createEventFingerprint fresh)) events.
Proof.
  revert seen merged. induction events as [|e events IH]; intros seen merged; cbn [merge_events].
  - exists []. rewrite app_nil_r. repeat split; constructor.
  - destruct (decide (createEventFingerprint e ∈ seen)) as [Hin | Hin].
    + destruct (IH seen merged) as (fresh & -> & Hsub & Hn & Hf & Ha).
      exists fresh. split; [done |]. split; [by constructor |]. repeat split; try done.
      constructor; [by left | done].
    + destruct (IH ({[createEventFingerprint e]} ∪ seen) (merged ++ [e]))
        as (fresh & -> & Hsub & Hn & Hf & Ha).
      exists (e :: fresh). rewrite <- app_assoc. split; [done |]. split; [by constructor |].
      rewrite Forall_forall in Hf, Ha. split; [| split].
      * cbn. constructor; [| done]. rewrite list_elem_of_In, in_map_iff.
        intros (x & Hx & Hin'). apply (Hf x); [by apply list_elem_of_In | set_solver].
      * constructor; [done |]. apply Forall_forall. intros x Hx. specialize (Hf x Hx). set_solver.
      * constructor; [by right; left |]. apply Forall_forall. intros x Hx.
        destruct (Ha x Hx) as [Hs | Hs]; [| by right; right].
        apply elem_of_union in Hs as [->%elem_of_singleton | Hs]; [by right; left | by left].
Qed.

(** ** Reuse *)

Section Reuse_lemmas.
Context {A : Type} (to_value : A -> jsval) (getKey : A -> string).

Lemma by_key_snoc l x : by_key getKey (l ++ [x]) = <[getKey x := x]> (by_key getKey l).
Proof. unfold by_key. by rewrite foldl_app. Qed.

Lemma by_key_elem l k x : by_key getKey l !! k = Some x -> x ∈ l /\ getKey x = k.
Proof.
  induction l as [|y l IH] using rev_ind; [done |].
  rewrite by_key_snoc, lookup_insert_Some. intros [[<- <-] | [_ Hx]]; [set_solver |].
  apply IH in Hx. set_solver.
Qed.

Lemma by_key_nodup l x :
  NoDup (List.map getKey l) -> x ∈ l -> by_key getKey l !! getKey x = Some x.
Proof.
  induction l as [|y l IH] using rev_ind; [set_solver |].
  rewrite List.map_app, by_key_snoc. cbn. intros (Hn & Hd & _)%NoDup_app Hx.
  apply elem_of_app in Hx as [Hx | ->%list_elem_of_singleton]; [| by rewrite lookup_insert_eq].
  rewrite lookup_insert_ne; [by apply IH |]. intros E.
  apply (Hd (getKey x)); [| rewrite E; by left].
  apply list_elem_of_In, in_map_iff. exists x. by rewrite <- list_elem_of_In.
Qed.

Lemma sameValue_refl v : sameValue v v = true.
Proof. by apply bool_decide_eq_true. Qed.

Lemma reusable_spec previous item x :
  reusable to_value getKey (by_key getKey previous) item = Some x ->
  x ∈ previous /\ getKey x = getKey item /\ sameValue (to_value x) (to_value item) = true.
Proof.
  unfold reusable. destruct (by_key getKey previous !! getKey item) as [y|] eqn:E; [| done].
  destruct (sameValue _ _) eqn:Es; [| done]. intros [= <-]. by apply by_key_elem in E as [? ?].
Qed.

(** The array that a position-by-position reuse gives. *)
Definition resolve (previous : list A) (item : A) : A :=
  default item (reusable to_value getKey (by_key getKey previous) item).

Lemma resolve_spec previous item :
  let x := resolve previous item in
  (x = item \/ x ∈ previous) /\ getKey x = getKey item /\
  sameValue (to_value x) (to_value item) = true.
Proof.
  cbn zeta. unfold resolve. destruct (reusable _ _ _ _) as [x|] eqn:E; cbn.
  - apply reusable_spec in E as (? & ? & ?). auto.
  - split; [by left |]. split; [done | apply sameValue_refl].
Qed.

Lemma reuseList_cases previous next :
  reuseList to_value getKey previous next = List.map (resolve previous) next \/
  reuseList to_value getKey previous next = previous /\ length previous = length next /\
  Forall (fun item => resolve previous item ∈ previous) next.
Proof.
  unfold reuseList. destruct (_ || _) eqn:E; [by left |]. right. split; [done |].
  apply orb_false_iff in E as [El Ee]. apply negb_false_iff, Nat.eqb_eq in El.
  split; [done |]. apply Forall_forall. intros item Hitem. unfold resolve.
  destruct (reusable _ _ _ item) as [x|] eqn:Ex; [by apply reusable_spec in Ex as [? _] |].
  exfalso. assert (existsb (fun item => negb (bool_decide (is_Some
    (reusable to_value getKey (by_key getKey previous) item)))) next = true); [| congruence].
  apply existsb_exists. exists item. split; [by apply list_elem_of_In |]. rewrite Ex.
  apply negb_true_iff, bool_decide_eq_false. by intros [? ?].
Qed.

Lemma reuseList_perm previous next :
  NoDup (List.map getKey next) ->
  reuseList to_value getKey previous next ≡ₚ List.map (resolve previous) next.
Proof.
  intros Hn. destruct (reuseList_cases previous next) as [-> | (-> & Hlen & Hin)]; [done |].
  assert (List.map getKey (List.map (resolve previous) next) = List.map getKey next) as Hk.
  { rewrite List.map_map. apply List.map_ext. intros item.
    by destruct (resolve_spec previous item) as (_ & ? & _). }
  rewrite <- Hk in Hn. apply NoDup_fmap_1 in Hn.
  symmetry. apply submseteq_length_Permutation.
  - apply NoDup_submseteq; [done |]. intros x Hx. rewrite Forall_forall in Hin.
    apply list_elem_of_In, in_map_iff in Hx as (item & <- & Hi).
    by apply Hin, list_elem_of_In.
  - rewrite length_map. lia.
Qed.
End Reuse_lemmas.

(** The jobs after [replaceJob] found the id. *)
Definition update_job (job : Job) (jobs : list Job) : list Job :=
  List.map (fun candidate => if has_id (Job.id job) candidate then job else candidate) jobs.

Lemma find_update id job jobs :
  existsb (has_id (Job.id job)) jobs = true ->
  List.find (has_id id) (update_job job jobs) =
  (if String.eqb (Job.id job) id then Some job else List.find (has_id id) jobs).
Proof.
  unfold update_job, has_id. intros Hex. destruct (String.eqb_spec (Job.id job) id) as [<- | Hne].
  - induction jobs as [|c jobs IH]; [done |]. cbn in *.
    destruct (String.eqb_spec (Job.id c) (Job.id job)) as [Hc | Hc].
    + by rewrite String.eqb_refl.
    + rewrite (proj2 (String.eqb_neq _ _) Hc). by apply IH.
  - clear Hex. induction jobs as [|c jobs IH]; [done |]. cbn in *.
    destruct (String.eqb_spec (Job.id c) (Job.id job)) as [Hc | Hc].
    + rewrite Hc, !(proj2 (String.eqb_neq _ _) Hne). exact IH.
    + by rewrite IH.
Qed.

(** * Properties *)

Section Properties.
Context `{DateHost}.

(** C18: after reconciliation the overview counts the jobs: every counter is
    the number of jobs in its state, the states partition the jobs of known
    state, the backlog is the scheduled and retrying ones, and the length of a
    queue is the number of its waiting jobs, for the default queues and every
    queue a job is in. *)
Theorem reconcile_overview now data :
  let o := DashboardSnapshot.overview (ConsoleData.snapshot (reconcileConsoleData now data)) in
  let jobs := ConsoleData.jobs data in
  let n s := num_of_nat (count (in_state s) jobs) in
  Overview.totalJobs o = num_of_nat (length jobs) /\
  Overview.queuedJobs o = n queued /\ Overview.blockedJobs o = n blocked /\
  Overview.throttledJobs o = n throttled /\ Overview.activeJobs o = n active /\
  Overview.failedJobs o = n failed /\ Overview.retryingJobs o = n retrying /\
  Overview.completedJobs o = n completed /\ Overview.scheduledJobs o = n scheduled /\
  Overview.canceledJobs o = n canceled /\
  Overview.delayedBacklog o =
    num_of_nat (count (in_state scheduled) jobs + count (in_state retrying) jobs) /\
  (forall queue, Overview.queueLengths o !! queue =
     if decide (queue ∈ QUEUES \/ Exists (fun job => Job.queue job = queue) jobs)
     then Some (num_of_nat (count (waiting_in queue) jobs)) else None) /\
  sum_list (List.map (fun s => count (in_state s) jobs) known_states) = count known_state jobs.
Proof.
  cbn zeta. cbn [reconcileConsoleData ConsoleData.snapshot DashboardSnapshot.overview].
  set (jobs' := sort_by (newest_first job_time) (ConsoleData.jobs data)).
  assert (jobs' ≡ₚ ConsoleData.jobs data) as Hp by apply sort_by_perm.
  assert (forall (f : Counts -> Z) p, (forall c job, f (count_job c job) = f c + b2z (p job)) ->
    f no_counts = 0 ->
    num_of_Z (f (foldl count_job no_counts jobs')) = num_of_nat (count p (ConsoleData.jobs data)))
    as Hcount.
  { intros f p Hf H0. rewrite (fold_counter f p Hf), H0, (count_perm p _ _ Hp). done. }
  cbn [summarizeJobs Overview.totalJobs Overview.queuedJobs Overview.blockedJobs
       Overview.throttledJobs Overview.activeJobs Overview.failedJobs Overview.retryingJobs
       Overview.completedJobs Overview.scheduledJobs Overview.canceledJobs
       Overview.delayedBacklog Overview.queueLengths].
  split; [unfold num_of_nat; by rewrite Hp |].
  do 2 (split; [by apply Hcount |]). split.
  { assert (throttledJobs (foldl count_job no_counts jobs') =
            Z.of_nat (count (in_state throttled) jobs')) as E
      by (by rewrite (fold_counter throttledJobs (in_state throttled))).
    destruct (existsb _ _); [rewrite E, Z.max_id, <- E |]; by apply Hcount. }
  do 6 (split; [by apply Hcount |]). split; [| split; [| apply state_partition]].
  - rewrite <- count_or; [by apply Hcount |].
    intros job. unfold in_state, state_eqb. destruct (String.eqb_spec (state_name (Job.state job))
      (state_name scheduled)) as [-> | ]; done.
  - intros queue. rewrite lookup_fmap.
    rewrite queue_lengths_spec, (count_perm _ _ _ Hp).
    destruct (decide _) as [Hy | Hn], (decide _) as [Hy' | Hn']; cbn; try done;
      exfalso; rewrite Hp in *; tauto.
Qed.

(** [l] is in the order of [rank], where it is known. *)
Definition descending {A} (rank : A -> option Z) (l : list A) : Prop :=
  StronglySorted (fun x y => forall a b, rank x = Some a -> rank y = Some b -> b <= a) l.

Definition ascending {A} (rank : A -> option Z) (l : list A) : Prop :=
  StronglySorted (fun x y => forall a b, rank x = Some a -> rank y = Some b -> a <= b) l.

Lemma StronglySorted_weaken {A} (R R' : A -> A -> Prop) l :
  (forall x y, R x y -> R' x y) -> StronglySorted R l -> StronglySorted R' l.
Proof.
  intros HR. induction 1 as [| x l _ IH Hx]; constructor; [done |].
  eapply List.Forall_impl; [| exact Hx]. cbn. eauto.
Qed.

Lemma sort_newest {A} (time : A -> option Z) l :
  Forall (fun x => is_Some (time x)) l -> descending time (sort_by (newest_first time) l).
Proof.
  intros Hl. eapply StronglySorted_weaken; [| by apply (sort_by_sorted _ (fun x => is_Some (time x)))].
  intros x y Hxy a b Ha Hb. by apply (newest_first_before time x y a b).
Qed.

Lemma sort_oldest {A} (time : A -> option Z) l :
  Forall (fun x => is_Some (time x)) l -> ascending time (sort_by (oldest_first time) l).
Proof.
  intros Hl. eapply StronglySorted_weaken; [| by apply (sort_by_sorted _ (fun x => is_Some (time x)))].
  intros x y Hxy a b Ha Hb. unfold before, oldest_first in Hxy. rewrite Ha, Hb in Hxy.
  by apply Z.compare_le_iff.
Qed.

(** The age of a heartbeat that is a whole number of milliseconds. *)
Definition heartbeat_is (w : WorkerLeaseHealth) (z : Z) : Prop :=
  0 <= z < 2 ^ 53 /\ WorkerLeaseHealth.heartbeatAgeMs w = num_of_Z z.

Lemma sort_heartbeats l :
  Forall (fun w => exists z, heartbeat_is w z) l ->
  StronglySorted (fun w w' => forall z z', heartbeat_is w z -> heartbeat_is w' z' -> z <= z')
    (sort_by compare_heartbeat l).
Proof.
  intros Hl. eapply StronglySorted_weaken; [| by apply (sort_by_sorted _ whole_heartbeat)].
  intros x y Hxy a b [Ha Ea] [Hb Eb]. unfold before, compare_heartbeat in Hxy. rewrite Ea, Eb in Hxy.
  rewrite compare_diff_int in Hxy by (unfold safe_int; lia). by apply Z.compare_le_iff.
Qed.

(** What a cut of a sorted list drops ranks after what it keeps. *)
Lemma descending_cut {A} (rank : A -> option Z) n l x y a b :
  descending rank l -> x ∈ take n l -> y ∈ drop n l -> rank x = Some a -> rank y = Some b -> b <= a.
Proof.
  unfold descending. rewrite <- (take_drop n l) at 1. intros Hs Hx Hy Ha Hb.
  by apply (StronglySorted_app_1_elem_of _ _ _ _ _ Hs Hx Hy).
Qed.

(** C19: reconciliation only reorders and cuts. Jobs, schedules, dead letters and
    workers are permutations of the given ones; where their dates are valid, jobs
    come by last update and dead letters by failure, newest first, and schedules by
    next run, earliest first; workers come by the age of their heartbeat. Of the
    events the sixty newest are kept, newest first, or all when there are no more.
    The blocked and the throttled jobs shown are the first sixteen of the sorted
    jobs in those states. *)
Theorem reconcile_lists now data :
  let data' := reconcileConsoleData now data in
  let snapshot := ConsoleData.snapshot data in
  let snapshot' := ConsoleData.snapshot data' in
  ConsoleData.jobs data' ≡ₚ ConsoleData.jobs data /\
  ConsoleData.schedules data' ≡ₚ ConsoleData.schedules data /\
  DashboardSnapshot.deadLetters snapshot' ≡ₚ DashboardSnapshot.deadLetters snapshot /\
  DashboardSnapshot.workers snapshot' ≡ₚ DashboardSnapshot.workers snapshot /\
  DashboardSnapshot.blockedJobs snapshot' =
    take 16 (List.filter (in_state blocked) (ConsoleData.jobs data')) /\
  DashboardSnapshot.throttledJobs snapshot' =
    take 16 (List.filter (in_state throttled) (ConsoleData.jobs data')) /\
  length (ConsoleData.events data') = Nat.min 60 (length (ConsoleData.events data)) /\
  (dated_data data ->
     descending (fun job => date_parse (Job.updatedAt job)) (ConsoleData.jobs data') /\
     descending (fun d => date_parse (DeadLetter.failedAt d)) (DashboardSnapshot.deadLetters snapshot') /\
     ascending (fun s => date_parse (Schedule.nextRunAt s)) (ConsoleData.schedules data') /\
     descending (fun e => date_parse (SystemEvent.timestamp e)) (ConsoleData.events data') /\
     exists dropped,
       ConsoleData.events data ≡ₚ ConsoleData.events data' ++ dropped /\
       forall e d te td, e ∈ ConsoleData.events data' -> d ∈ dropped ->
         date_parse (SystemEvent.timestamp e) = Some te ->
         date_parse (SystemEvent.timestamp d) = Some td -> td <= te) /\
  (Forall (fun w => exists z, heartbeat_is w z) (DashboardSnapshot.workers snapshot) ->
   StronglySorted (fun w w' => forall z z', heartbeat_is w z -> heartbeat_is w' z' -> z <= z')
     (DashboardSnapshot.workers snapshot')).
Proof.
  cbn zeta. cbn [reconcileConsoleData ConsoleData.jobs ConsoleData.schedules ConsoleData.snapshot
    DashboardSnapshot.deadLetters DashboardSnapshot.workers ConsoleData.events
    DashboardSnapshot.blockedJobs DashboardSnapshot.throttledJobs].
  do 4 (split; [apply sort_by_perm |]). do 2 (split; [done |]).
  split; [unfold sortEvents; by rewrite length_take, length_sort_by |].
  split; [| apply sort_heartbeats]. intros [Hj Hs He Hd].
  split; [by apply sort_newest |]. split; [by apply sort_newest |]. split; [by apply sort_oldest |].
  pose proof (sort_newest event_time _ He) as Hsort. unfold sortEvents.
  set (sorted := sort_by _ (ConsoleData.events data)) in *.
  split; [by apply StronglySorted_take |].
  exists (drop 60 sorted). split; [rewrite take_drop; symmetry; apply sort_by_perm |].
  intros e d te td Hin Hdrop. by apply (descending_cut event_time 60 sorted).
Qed.

(** Reconciling twice is reconciling once: data that went through the
    pipeline is stable under it, whatever the clock says. *)
Theorem reconcile_idempotent now now' data :
  dated_data data ->
  Forall whole_heartbeat (DashboardSnapshot.workers (ConsoleData.snapshot data)) ->
  reconcileConsoleData now' (reconcileConsoleData now data) = reconcileConsoleData now data.
Proof. apply reconcile_twice. Qed.

(** C20: new events join the feed once: the events appended are those whose
    fingerprint is new, each fingerprint once, in order; the feed is then the
    newest sixty of all, without repeated fingerprints if it had none; when
    nothing is new the data itself is returned. *)
Theorem appendEvents_fresh data events :
  exists fresh,
    fresh `sublist_of` events /\
    NoDup (List.map createEventFingerprint fresh) /\
    Forall (fun e => ~ In (createEventFingerprint e)
                       (List.map createEventFingerprint (ConsoleData.events data))) fresh /\
    Forall (fun e => In (createEventFingerprint e)
                       (List.map createEventFingerprint (ConsoleData.events data ++ fresh))) events /\
    appendEvents data events =
      (if decide (fresh = []) then data
       else set_events (sortEvents (ConsoleData.events data ++ fresh)) data) /\
    (NoDup (List.map createEventFingerprint (ConsoleData.events data)) ->
     NoDup (List.map createEventFingerprint (ConsoleData.events (appendEvents data events)))).
Proof.
  set (seen := list_to_set (C := gset string)
    (List.map createEventFingerprint (ConsoleData.events data))).
  destruct (merge_events_spec events seen (ConsoleData.events data))
    as (fresh & Hm & Hsub & Hn & Hf & Ha). exists fresh.
  assert (forall k, k ∈ seen <-> In k (List.map createEventFingerprint (ConsoleData.events data)))
    as Hseen by (intros k; unfold seen; by rewrite elem_of_list_to_set, list_elem_of_In).
  setoid_rewrite Hseen in Hf. setoid_rewrite Hseen in Ha.
  assert (appendEvents data events =
    (if decide (fresh = []) then data
     else set_events (sortEvents (ConsoleData.events data ++ fresh)) data)) as Heq.
  { unfold appendEvents. fold seen. destruct events as [|e events].
    - apply sublist_nil_r in Hsub as ->. by rewrite decide_True.
    - rewrite Hm, length_app. destruct (decide (fresh = [])) as [-> | Hne].
      + by rewrite Nat.add_0_r, Nat.eqb_refl.
      + destruct fresh as [|f fresh]; [done |].
        rewrite (proj2 (Nat.eqb_neq _ _)) by (cbn; lia). done. }
  split; [done |]. split; [done |]. split; [done |]. split; [| split; [exact Heq |]].
  - eapply Forall_impl; [exact Ha |]. intros e. by rewrite List.map_app, in_app_iff.
  - intros Hd. rewrite Heq. destruct (decide (fresh = [])) as [_ | _]; [done |].
    destruct data as [? ? ? feed ? ? ? ? ? ?]. cbn [ConsoleData.events set_events] in *.
    assert (NoDup (List.map createEventFingerprint (feed ++ fresh))) as Hall.
    { rewrite List.map_app. apply NoDup_app. split; [done |]. split; [| done].
      intros k Hk Hk'. apply list_elem_of_In, in_map_iff in Hk' as (e & <- & He).
      rewrite List.Forall_forall in Hf. apply (Hf e He). by apply list_elem_of_In. }
    assert (NoDup (List.map createEventFingerprint
      (sort_by (newest_first event_time) (feed ++ fresh)))) as Hsorted by (by rewrite sort_by_perm).
    unfold sortEvents. eapply sublist_NoDup; [exact Hsorted |].
    rewrite <- firstn_map. apply sublist_take.
Qed.

(** [replaceJob] is an update by id: with distinct job ids, looking up
    the id of the job gives the new job, every other id gives what it gave
    before, and the ids stay distinct. *)
Theorem replaceJob_update now data job id :
  NoDup (List.map Job.id (ConsoleData.jobs data)) ->
  let jobs' := ConsoleData.jobs (replaceJob now data job) in
  NoDup (List.map Job.id jobs') /\
  List.find (has_id id) jobs' =
    (if String.eqb (Job.id job) id then Some job
     else List.find (has_id id) (ConsoleData.jobs data)).
Proof.
  intros Hn. cbn zeta. unfold replaceJob. destruct data as [sn jobs sc ev ws ins qc wc lh so].
  cbn [ConsoleData.jobs set_jobs reconcileConsoleData] in *.
  set (next := if existsb (has_id (Job.id job)) jobs then _ else _).
  assert (NoDup (List.map Job.id next) /\
    List.find (has_id id) next =
      (if String.eqb (Job.id job) id then Some job else List.find (has_id id) jobs)) as [Hnext Hf].
  { subst next. destruct (existsb _ jobs) eqn:E.
    - assert (List.map Job.id (List.map (fun c => if has_id (Job.id job) c then job else c) jobs) =
              List.map Job.id jobs) as Hids.
      { rewrite List.map_map. apply List.map_ext. intros c. unfold has_id.
        by destruct (String.eqb_spec (Job.id c) (Job.id job)). }
      rewrite Hids. split; [done |]. by apply find_update.
    - split; [| done]. cbn. constructor; [| done]. rewrite list_elem_of_In, in_map_iff.
      intros (c & Hc & Hin). assert (existsb (has_id (Job.id job)) jobs = true); [| congruence].
      apply existsb_exists. exists c. split; [done |]. by apply String.eqb_eq. }
  split; [by rewrite sort_by_perm |]. rewrite <- Hf.
  apply (find_perm_nodup Job.id); [by rewrite sort_by_perm | apply sort_by_perm].
Qed.

(** Removed dead letters are gone and no other is touched; jobs, events
    and inspections are those of a plain reconciliation. *)
Theorem removeDeadLetters_spec now data jobIds id :
  NoDup (List.map DeadLetter.jobId (DashboardSnapshot.deadLetters (ConsoleData.snapshot data))) ->
  let data' := removeDeadLetters now data jobIds in
  findDeadLetter data' id =
    (if existsb (String.eqb id) jobIds then None else findDeadLetter data id) /\
  ConsoleData.jobs data' = ConsoleData.jobs (reconcileConsoleData now data) /\
  ConsoleData.inspections data' = ConsoleData.inspections data.
Proof.
  intros Hn. cbn zeta. destruct data as [sn jobs sc ev ws ins qc wc lh so].
  destruct sn as [ov me tr wk dl bl th rl le].
  unfold removeDeadLetters, findDeadLetter.
  cbn [ConsoleData.snapshot ConsoleData.jobs ConsoleData.inspections reconcileConsoleData
    set_snapshot set_deadLetters DashboardSnapshot.deadLetters] in *.
  split; [| done].
  set (keep := List.filter _ dl).
  assert (NoDup (List.map DeadLetter.jobId keep)) as Hk.
  { subst keep. clear -Hn. induction dl as [|d dl IH]; [done |]. cbn in *.
    apply NoDup_cons in Hn as [Hd Hn]. destruct (negb _); [| auto]. cbn. constructor; [| auto].
    rewrite list_elem_of_In, in_map_iff in *. intros (x & Hx & Hin). apply Hd.
    exists x. split; [done |]. by apply filter_In in Hin as [? _]. }
  rewrite (find_perm_nodup DeadLetter.jobId id _ keep); [| by rewrite sort_by_perm | apply sort_by_perm].
  subst keep. clear -Hn. induction dl as [|d dl IH]; [by destruct (existsb _ _) |].
  cbn in Hn. apply NoDup_cons in Hn as [_ Hn]. specialize (IH Hn). cbn.
  destruct (existsb (String.eqb (DeadLetter.jobId d)) jobIds) eqn:E; cbn [negb List.find].
  - rewrite IH. destruct (String.eqb_spec (DeadLetter.jobId d) id) as [<- | ]; [| done].
    by rewrite E.
  - destruct (String.eqb_spec (DeadLetter.jobId d) id) as [<- | ]; [by rewrite E | done].
Qed.

(** An inspection that was stored is the one shown; an unknown job has
    none; other ids are not affected. *)
Theorem getInspection_upsert data inspection id :
  (id = Job.id (JobInspection.job inspection) ->
     getInspection (upsertInspection data inspection) id = Ok (Some inspection)) /\
  (id <> Job.id (JobInspection.job inspection) ->
     getInspection (upsertInspection data inspection) id = getInspection data id) /\
  (ConsoleData.inspections data !! id = None ->
   Forall (fun job => Job.id job <> id) (ConsoleData.jobs data) ->
   getInspection data id = Ok None).
Proof.
  unfold getInspection, upsertInspection. destruct data as [sn jobs sc ev ws ins qc wc lh so].
  cbn [set_inspections ConsoleData.inspections ConsoleData.jobs]. split; [| split].
  - intros ->. by rewrite lookup_insert_eq.
  - intros Hne. by rewrite lookup_insert_ne.
  - intros -> Hj. destruct (List.find _ jobs) as [job|] eqn:E; [| done]. exfalso.
    apply find_some in E as [Hin Hid%String.eqb_eq]. rewrite List.Forall_forall in Hj.
    by apply (Hj job).
Qed.

(** The seeded workflow is complete: the four jobs join the console, the
    root queued and the three children blocked on it, all in one workflow, and
    the totals grow by four; with fresh ids the job ids stay distinct. *)
Theorem addLocalWorkflowJobs_spec now ids data :
  let data' := addLocalWorkflowJobs now ids data in
  ConsoleData.jobs data' ≡ₚ workflow_jobs now ids ++ ConsoleData.jobs data /\
  (exists root, root ∈ ConsoleData.jobs data' /\ Job.state root = queued /\
     Job.parentJobId root = None /\
     count (fun job => bool_decide (Job.parentJobId job = Some (Job.id root)) &&
                       in_state blocked job && same_workflow root job)
       (workflow_jobs now ids) = 3%nat) /\
  Overview.totalJobs (DashboardSnapshot.overview (ConsoleData.snapshot data')) =
    num_of_nat (4 + length (ConsoleData.jobs data)) /\
  (NoDup (List.map Job.id (ConsoleData.jobs data)) ->
   NoDup [ids 1%nat; ids 2%nat; ids 3%nat; ids 4%nat] ->
   Forall (fun job => Job.id job ∉ [ids 1%nat; ids 2%nat; ids 3%nat; ids 4%nat])
     (ConsoleData.jobs data) ->
   NoDup (List.map Job.id (ConsoleData.jobs data'))).
Proof.
  cbn zeta. destruct data as [sn jobs sc ev ws ins qc wc lh so].
  unfold addLocalWorkflowJobs.
  cbn [set_events set_jobs ConsoleData.events ConsoleData.jobs ConsoleData.snapshot
    reconcileConsoleData DashboardSnapshot.overview summarizeJobs Overview.totalJobs].
  assert (sort_by (newest_first job_time) (workflow_jobs now ids ++ jobs) ≡ₚ
          workflow_jobs now ids ++ jobs) as Hp by apply sort_by_perm.
  split; [exact Hp |]. split; [| split].
  - eexists. split; [rewrite Hp; left |]. split; [done |]. split; [done |].
    unfold workflow_jobs. rewrite !count_cons.
    cbn [seeded_job Job.parentJobId Job.id Job.state in_state].
    rewrite !(bool_decide_eq_true_2 (Some (ids 1%nat) = Some (ids 1%nat))) by done.
    rewrite (bool_decide_eq_false_2 (None = Some (ids 1%nat))) by done.
    unfold same_workflow. cbn [seeded_job Job.workflowId].
    assert (truthy ("wf-" +:+ ids 0%nat) = true) as ->.
    { apply truthy_true. intros E%(f_equal chars). by rewrite chars_app in E. }
    by rewrite String.eqb_refl.
  - rewrite length_sort_by, length_app. done.
  - intros Hn Hi Hf. rewrite Hp, List.map_app. apply NoDup_app. split; [exact Hi |].
    split; [| done]. intros k Hk Hk'. apply list_elem_of_In, in_map_iff in Hk' as (j & <- & Hj).
    rewrite List.Forall_forall in Hf. by apply (Hf j Hj).
Qed.
End Properties.

Section Reuse_properties.
Context {A : Type} (to_value : A -> jsval) (getKey : A -> string).

(** C21: reusing old values never changes what is shown, up to the order, and
    keeps every old value that can be kept. When the keys of either list are
    distinct and its values data that JSON can write, the result is a rearrangement of a list
    that agrees with the next one element by element: where a previous element has
    the same key and holds the same data, whatever the order of its fields, that
    element itself, and the next one otherwise. The previous list itself is
    returned exactly when nothing changed: when both are equally long and each
    element of the next one is held by the previous one. *)
Theorem reuseList_sound previous next :
  NoDup (List.map getKey previous) -> NoDup (List.map getKey next) ->
  Forall (fun x => record_value (to_value x)) previous ->
  Forall (fun x => record_value (to_value x)) next ->
  let held x item := x ∈ previous /\ getKey x = getKey item /\
    same_data (json_data (to_value x)) (json_data (to_value item)) in
  (exists l,
     reuseList to_value getKey previous next ≡ₚ l /\
     Forall2 (fun x item => held x item \/ x = item /\ forall y, ~ held y item) l next) /\
  (length previous = length next -> (forall item, item ∈ next -> exists x, held x item) ->
   reuseList to_value getKey previous next = previous) /\
  ((length previous <> length next \/ exists item, item ∈ next /\ forall x, ~ held x item) ->
   Forall2 (fun x item => held x item \/ x = item /\ forall y, ~ held y item)
     (reuseList to_value getKey previous next) next).
Proof.
  intros Hp Hn Hpp Hpn held.
  assert (forall item x, item ∈ next ->
    reusable to_value getKey (by_key getKey previous) item = Some x <-> held x item) as Hr.
  { intros item x Hitem. rewrite Forall_forall in Hpp, Hpn. split.
    - intros (H1 & H2 & H3%bool_decide_eq_true)%reusable_spec. split_and!; [done | done |].
      apply stable_same_record; auto.
    - intros (H1 & H2 & H3). unfold reusable. rewrite <- H2, by_key_nodup by done.
      unfold sameValue. by rewrite bool_decide_eq_true_2 by (apply stable_same_record; auto). }
  assert (Forall2 (fun x item => held x item \/ x = item /\ forall y, ~ held y item)
    (List.map (resolve to_value getKey previous) next) next) as Hf.
  { assert (forall item, item ∈ next -> let x := resolve to_value getKey previous item in
      held x item \/ x = item /\ forall y, ~ held y item) as H.
    { intros item Hitem. cbn zeta. unfold resolve.
      destruct (reusable to_value getKey (by_key getKey previous) item) as [x |] eqn:E; cbn [default].
      - left. by apply Hr.
      - right. split; [done |]. intros y Hy%Hr; [congruence | done]. }
    clear - H. induction next as [| item next IH]; constructor; [apply H; by left |].
    apply IH. intros x Hx. apply H. by right. }
  split_and!.
  - eexists. by split; [apply reuseList_perm |].
  - intros Hlen Hall. unfold reuseList. rewrite Hlen, Nat.eqb_refl. cbn [negb orb].
    destruct (existsb _ next) eqn:E; [| done]. exfalso.
    apply existsb_exists in E as (item & Hin%list_elem_of_In & E).
    apply negb_true_iff, bool_decide_eq_false in E. apply E.
    destruct (Hall item Hin) as [x Hx]. exists x. by apply Hr.
  - intros Hc. unfold reuseList. cbn zeta. rewrite (proj2 (orb_true_iff _ _)); [exact Hf |].
    destruct Hc as [Hlen | (item & Hin & Hno)]; [left; by apply negb_true_iff, Nat.eqb_neq | right].
    apply existsb_exists. exists item. split; [by apply list_elem_of_In |].
    apply negb_true_iff, bool_decide_eq_false. intros [x Hx%Hr]; [by apply (Hno x) | done].
Qed.

(** A list that was only reordered is not updated: when the next list is
    a permutation of the previous one, with distinct keys, the previous list is
    returned, in its old order. *)
Theorem reuseList_ignores_order previous next :
  NoDup (List.map getKey previous) -> next ≡ₚ previous ->
  reuseList to_value getKey previous next = previous.
Proof.
  intros Hn Hp.
  unfold reuseList. rewrite <- (Permutation_length Hp), Nat.eqb_refl. cbn [negb orb].
  destruct (existsb _ next) eqn:E; [| done]. exfalso.
  apply existsb_exists in E as (item & Hin & E). apply negb_true_iff, bool_decide_eq_false in E.
  apply E. unfold reusable. rewrite by_key_nodup.
  - rewrite sameValue_refl. eauto.
  - done.
  - rewrite <- Hp. by apply list_elem_of_In.
Qed.
End Reuse_properties.

(** * Witnesses *)

#[local] Existing Instance utc_host.

Definition sample_data : ConsoleData :=
  set_jobs [sample_job] (createEmptyConsoleData source_demo).

Lemma sample_dated : dated_data sample_data.
Proof. split; repeat constructor; vm_compute; discriminate || (eexists; reflexivity). Qed.

(** Sixty-one events, oldest first, and two workers in the wrong order. *)
Definition crowded_data : ConsoleData :=
  let event n := SystemEvent.mk "job" None None None None None (iso_of_time (Z.of_nat n)) in
  let worker name age := WorkerLeaseHealth.mk name name "alive" [] "" (num_of_Z age)
    (num_of_Z 0) (num_of_Z 0) None "" "" None in
  let snapshot := ConsoleData.snapshot sample_data in
  set_events (List.map event (seq 0 61))
    (set_snapshot (DashboardSnapshot.mk (DashboardSnapshot.overview snapshot)
       (DashboardSnapshot.metrics snapshot) (DashboardSnapshot.trend snapshot)
       [worker "late" 900; worker "early" 100] (DashboardSnapshot.deadLetters snapshot)
       (DashboardSnapshot.blockedJobs snapshot) (DashboardSnapshot.throttledJobs snapshot)
       (DashboardSnapshot.rateLimits snapshot) (DashboardSnapshot.leader snapshot)) sample_data).

Lemma reconcile_lists_witness :
  length (ConsoleData.events (reconcileConsoleData 0 crowded_data)) = 60%nat /\
  descending (fun e => date_parse (SystemEvent.timestamp e))
    (ConsoleData.events (reconcileConsoleData 0 crowded_data)) /\
  StronglySorted (fun w w' => forall z z', heartbeat_is w z -> heartbeat_is w' z' -> z <= z')
    (DashboardSnapshot.workers (ConsoleData.snapshot (reconcileConsoleData 0 crowded_data))).
Proof.
  destruct (reconcile_lists 0 crowded_data) as (_ & _ & _ & _ & _ & _ & Hlen & Hdated & Hbeats).
  split; [by rewrite Hlen |]. split.
  - apply Hdated. destruct sample_dated as [Hj Hs _ Hd]. split; [done | done | | done].
    apply Forall_map, Forall_forall. intros n Hn%elem_of_seq. exists (Z.of_nat n).
    apply date_parse_iso. unfold max_time. lia.
  - apply Hbeats. apply Forall_cons. split; [exists 900; split; [lia | reflexivity] |].
    apply Forall_singleton. exists 100. split; [lia | reflexivity].
Defined.

Lemma reconcile_idempotent_witness :
  reconcileConsoleData 1 (reconcileConsoleData 0 sample_data) = reconcileConsoleData 0 sample_data.
Proof. apply (reconcile_idempotent 0 1 sample_data sample_dated). constructor. Defined.

Lemma replaceJob_update_witness :
  List.find (has_id "job-1") (ConsoleData.jobs (replaceJob 0 sample_data sample_job)) =
  Some sample_job.
Proof.
  refine (proj2 (replaceJob_update 0 sample_data sample_job "job-1" _)).
  apply (bool_decide_unpack _). vm_compute. exact I.
Defined.

Lemma removeDeadLetters_spec_witness :
  findDeadLetter (removeDeadLetters 0 sample_data ["job-1"]) "job-1" = None.
Proof. exact (proj1 (removeDeadLetters_spec 0 sample_data ["job-1"] "job-1" (NoDup_nil_2))). Defined.

Definition sample_points : list MetricsPoint :=
  [MetricsPoint.mk "t1" (num_of_Z 1); MetricsPoint.mk "t2" (num_of_Z 2)].

Definition later_points : list MetricsPoint :=
  [MetricsPoint.mk "t1" (num_of_Z 1); MetricsPoint.mk "t2" (num_of_Z 3)].

Lemma reuseList_sound_witness :
  reuseList MetricsPoint.to_value MetricsPoint.timestamp sample_points later_points <> sample_points /\
  exists l,
    reuseList MetricsPoint.to_value MetricsPoint.timestamp sample_points later_points ≡ₚ l /\
    Forall2 (fun x item =>
      (x ∈ sample_points /\ MetricsPoint.timestamp x = MetricsPoint.timestamp item /\
       same_data (json_data (MetricsPoint.to_value x)) (json_data (MetricsPoint.to_value item))) \/
      x = item /\ forall y, ~ (y ∈ sample_points /\ MetricsPoint.timestamp y = MetricsPoint.timestamp item /\
                              same_data (json_data (MetricsPoint.to_value y)) (json_data (MetricsPoint.to_value item))))
      l later_points.
Proof.
  split; [vm_compute; discriminate |].
  apply (reuseList_sound MetricsPoint.to_value MetricsPoint.timestamp sample_points later_points).
  1,2: apply (bool_decide_unpack _); vm_compute; exact I.
  all: repeat constructor; try discriminate; apply (bool_decide_unpack _); vm_compute; exact I.
Defined.

Lemma reuseList_ignores_order_witness :
  reuseList MetricsPoint.to_value MetricsPoint.timestamp sample_points (rev sample_points) =
  sample_points.
Proof.
  apply (reuseList_ignores_order MetricsPoint.to_value MetricsPoint.timestamp).
  - apply (bool_decide_unpack _). vm_compute. exact I.
  - apply Permutation_swap.
Defined.
