(* ===== verification/DemoData.v ===== *)
(** The demo data set: [createDemoConsoleData] of [src/lib/console-data.ts].

    [now] is the clock reading, taken to be a valid time whose neighbourhood is
    too; [ids] are the values of the successive calls of [createToastId]. *)

From stdpp Require Import base list strings gmap sorting.
From Stdlib Require Import ZArith Lia Bool Ascii.
From S2P Require Import Prelude JsString JsNum JsDate JsSort JsValue Models Safe LiveRefresh.
From S2P Require Import ConsoleState.

#[local] Open Scope Z_scope.

(** * Identifiers and dates *)

Definition workflowId (ids : nat -> string) : string := "wf-" +:+ ids 0%nat.
Definition rootJobId (ids : nat -> string) : string := ids 1%nat.
Definition ingestId (ids : nat -> string) : string := ids 2%nat.
Definition thumbSmId (ids : nat -> string) : string := ids 3%nat.
Definition thumbMdId (ids : nat -> string) : string := ids 4%nat.
Definition aggregateId (ids : nat -> string) : string := ids 5%nat.
Definition deadJobId (ids : nat -> string) : string := ids 6%nat.
Definition retryJobId (ids : nat -> string) : string := ids 7%nat.
Definition throttledJobId (ids : nat -> string) : string := ids 8%nat.
Definition scheduledJobId (ids : nat -> string) : string := ids 9%nat.
Definition activeJobId (ids : nat -> string) : string := ids 10%nat.
Definition idempotentJobId (ids : nat -> string) : string := ids 11%nat.

Definition minutesAgo (now minutes : Z) : string := iso_of_time (now - minutes * 60000).
Definition minutesFromNow (now minutes : Z) : string := iso_of_time (now + minutes * 60000).
Definition secondsAgo (now seconds : Z) : string := iso_of_time (now - seconds * 1000).

Section Demo.
Context (now : Z) (ids : nat -> string).

(** * Records *)

Definition demo_job_ingest : Job :=
  {| Job.id := ingestId ids;
     Job.type := "file.ingest";
     Job.queue := "default";
     Job.tenantId := "tenant-a";
     Job.payload := VObj [("fileId", VStr (workflowId ids)); ("source", VStr "s3://incoming/asset.png"); ("durationMs", VNum (num_of_Z 250))];
     Job.priority := num_of_Z 6;
     Job.attempts := num_of_Z 1;
     Job.maxAttempts := num_of_Z 5;
     Job.state := completed;
     Job.schemaVersion := num_of_Z 1;
     Job.idempotencyKey := None;
     Job.workflowId := Some (workflowId ids);
     Job.parentJobId := None;
     Job.dependencyPolicy := None;
     Job.blockedReason := None;
     Job.createdAt := minutesAgo now 38;
     Job.updatedAt := minutesAgo now 35;
     Job.runAt := minutesAgo now 38;
     Job.startedAt := Some (minutesAgo now 37);
     Job.finishedAt := Some (minutesAgo now 35);
     Job.lastHeartbeatAt := None;
     Job.leaseExpiresAt := None;
     Job.throttleUntil := None;
     Job.lastError := None;
     Job.result := VUndefined;
     Job.workerId := None;
     Job.leaseToken := None;
     Job.timeoutSeconds := num_of_Z 45;
     Job.cancelRequested := false;
     Job.executionMs := num_of_Z 1810 |}.

Definition demo_job_thumb_sm : Job :=
  {| Job.id := thumbSmId ids;
     Job.type := "image.thumbnail";
     Job.queue := "default";
     Job.tenantId := "tenant-a";
     Job.payload := VObj [("fileId", VStr (workflowId ids)); ("size", VStr "sm"); ("durationMs", VNum (num_of_Z 210))];
     Job.priority := num_of_Z 5;
     Job.attempts := num_of_Z 1;
     Job.maxAttempts := num_of_Z 5;
     Job.state := active;
     Job.schemaVersion := num_of_Z 1;
     Job.idempotencyKey := None;
     Job.workflowId := Some (workflowId ids);
     Job.parentJobId := Some (rootJobId ids);
     Job.dependencyPolicy := None;
     Job.blockedReason := None;
     Job.createdAt := minutesAgo now 35;
     Job.updatedAt := secondsAgo now 8;
     Job.runAt := minutesAgo now 35;
     Job.startedAt := Some (minutesAgo now 1);
     Job.finishedAt := None;
     Job.lastHeartbeatAt := Some (secondsAgo now 4);
     Job.leaseExpiresAt := Some (secondsAgo now (-22));
     Job.throttleUntil := None;
     Job.lastError := None;
     Job.result := VUndefined;
     Job.workerId := Some "worker-a";
     Job.leaseToken := Some "lease-thumb-sm";
     Job.timeoutSeconds := num_of_Z 60;
     Job.cancelRequested := false;
     Job.executionMs := num_of_Z 0 |}.

Definition demo_job_thumb_md : Job :=
  {| Job.id := thumbMdId ids;
     Job.type := "image.thumbnail";
     Job.queue := "default";
     Job.tenantId := "tenant-a";
     Job.payload := VObj [("fileId", VStr (workflowId ids)); ("size", VStr "md"); ("durationMs", VNum (num_of_Z 250))];
     Job.priority := num_of_Z 5;
     Job.attempts := num_of_Z 0;
     Job.maxAttempts := num_of_Z 5;
     Job.state := blocked;
     Job.schemaVersion := num_of_Z 1;
     Job.idempotencyKey := None;
     Job.workflowId := Some (workflowId ids);
     Job.parentJobId := Some (rootJobId ids);
     Job.dependencyPolicy := Some "block";
     Job.blockedReason := Some "waiting on metadata.aggregate to fan-in";
     Job.createdAt := minutesAgo now 35;
     Job.updatedAt := minutesAgo now 2;
     Job.runAt := minutesAgo now 35;
     Job.startedAt := None;
     Job.finishedAt := None;
     Job.lastHeartbeatAt := None;
     Job.leaseExpiresAt := None;
     Job.throttleUntil := None;
     Job.lastError := None;
     Job.result := VUndefined;
     Job.workerId := None;
     Job.leaseToken := None;
     Job.timeoutSeconds := num_of_Z 60;
     Job.cancelRequested := false;
     Job.executionMs := num_of_Z 0 |}.

Definition demo_job_aggregate : Job :=
  {| Job.id := aggregateId ids;
     Job.type := "metadata.aggregate";
     Job.queue := "critical";
     Job.tenantId := "tenant-a";
     Job.payload := VObj [("fileId", VStr (workflowId ids)); ("durationMs", VNum (num_of_Z 320))];
     Job.priority := num_of_Z 8;
     Job.attempts := num_of_Z 2;
     Job.maxAttempts := num_of_Z 5;
     Job.state := retrying;
     Job.schemaVersion := num_of_Z 1;
     Job.idempotencyKey := None;
     Job.workflowId := Some (workflowId ids);
     Job.parentJobId := Some (rootJobId ids);
     Job.dependencyPolicy := None;
     Job.blockedReason := None;
     Job.createdAt := minutesAgo now 29;
     Job.updatedAt := minutesAgo now 1;
     Job.runAt := minutesFromNow now 3;
     Job.startedAt := None;
     Job.finishedAt := None;
     Job.lastHeartbeatAt := None;
     Job.leaseExpiresAt := None;
     Job.throttleUntil := None;
     Job.lastError := Some "downstream metadata store timed out";
     Job.result := VUndefined;
     Job.workerId := None;
     Job.leaseToken := None;
     Job.timeoutSeconds := num_of_Z 90;
     Job.cancelRequested := false;
     Job.executionMs := num_of_Z 4200 |}.

Definition demo_job_dead : Job :=
  {| Job.id := deadJobId ids;
     Job.type := "webhook.dispatch";
     Job.queue := "critical";
     Job.tenantId := "tenant-b";
     Job.payload := VObj [("destination", VStr "https://api.vendor.dev/hooks"); ("durationMs", VNum (num_of_Z 900))];
     Job.priority := num_of_Z 9;
     Job.attempts := num_of_Z 5;
     Job.maxAttempts := num_of_Z 5;
     Job.state := failed;
     Job.schemaVersion := num_of_Z 1;
     Job.idempotencyKey := None;
     Job.workflowId := None;
     Job.parentJobId := None;
     Job.dependencyPolicy := None;
     Job.blockedReason := None;
     Job.createdAt := minutesAgo now 72;
     Job.updatedAt := minutesAgo now 12;
     Job.runAt := minutesAgo now 72;
     Job.startedAt := Some (minutesAgo now 15);
     Job.finishedAt := Some (minutesAgo now 12);
     Job.lastHeartbeatAt := None;
     Job.leaseExpiresAt := None;
     Job.throttleUntil := None;
     Job.lastError := Some "remote 500 after 3 lease recoveries";
     Job.result := VUndefined;
     Job.workerId := Some "worker-b";
     Job.leaseToken := None;
     Job.timeoutSeconds := num_of_Z 45;
     Job.cancelRequested := false;
     Job.executionMs := num_of_Z 7920 |}.

Definition demo_job_retry : Job :=
  {| Job.id := retryJobId ids;
     Job.type := "report.generate";
     Job.queue := "default";
     Job.tenantId := "tenant-a";
     Job.payload := VObj [("reportId", VStr "rpt-883"); ("range", VStr "30d")];
     Job.priority := num_of_Z 3;
     Job.attempts := num_of_Z 2;
     Job.maxAttempts := num_of_Z 5;
     Job.state := queued;
     Job.schemaVersion := num_of_Z 1;
     Job.idempotencyKey := None;
     Job.workflowId := None;
     Job.parentJobId := None;
     Job.dependencyPolicy := None;
     Job.blockedReason := None;
     Job.createdAt := minutesAgo now 8;
     Job.updatedAt := minutesAgo now 1;
     Job.runAt := minutesAgo now 1;
     Job.startedAt := None;
     Job.finishedAt := None;
     Job.lastHeartbeatAt := None;
     Job.leaseExpiresAt := None;
     Job.throttleUntil := None;
     Job.lastError := None;
     Job.result := VUndefined;
     Job.workerId := None;
     Job.leaseToken := None;
     Job.timeoutSeconds := num_of_Z 180;
     Job.cancelRequested := false;
     Job.executionMs := num_of_Z 0 |}.

Definition demo_job_throttled : Job :=
  {| Job.id := throttledJobId ids;
     Job.type := "email.send";
     Job.queue := "critical";
     Job.tenantId := "tenant-a";
     Job.payload := VObj [("recipient", VStr "ops@tenant-a.dev"); ("campaign", VStr "digest")];
     Job.priority := num_of_Z 7;
     Job.attempts := num_of_Z 1;
     Job.maxAttempts := num_of_Z 5;
     Job.state := throttled;
     Job.schemaVersion := num_of_Z 1;
     Job.idempotencyKey := Some "daily-digest:tenant-a";
     Job.workflowId := None;
     Job.parentJobId := None;
     Job.dependencyPolicy := None;
     Job.blockedReason := None;
     Job.createdAt := minutesAgo now 3;
     Job.updatedAt := minutesAgo now 1;
     Job.runAt := minutesAgo now 3;
     Job.startedAt := None;
     Job.finishedAt := None;
     Job.lastHeartbeatAt := None;
     Job.leaseExpiresAt := None;
     Job.throttleUntil := Some (minutesFromNow now 6);
     Job.lastError := Some "rate-limited by tenant-a-rate";
     Job.result := VUndefined;
     Job.workerId := None;
     Job.leaseToken := None;
     Job.timeoutSeconds := num_of_Z 30;
     Job.cancelRequested := false;
     Job.executionMs := num_of_Z 0 |}.

Definition demo_job_scheduled : Job :=
  {| Job.id := scheduledJobId ids;
     Job.type := "cleanup.run";
     Job.queue := "low";
     Job.tenantId := "tenant-platform";
     Job.payload := VObj [("resource", VStr "blob-cache"); ("dryRun", VBool false)];
     Job.priority := num_of_Z 1;
     Job.attempts := num_of_Z 0;
     Job.maxAttempts := num_of_Z 3;
     Job.state := scheduled;
     Job.schemaVersion := num_of_Z 1;
     Job.idempotencyKey := None;
     Job.workflowId := None;
     Job.parentJobId := None;
     Job.dependencyPolicy := None;
     Job.blockedReason := None;
     Job.createdAt := minutesAgo now 6;
     Job.updatedAt := minutesAgo now 5;
     Job.runAt := minutesFromNow now 24;
     Job.startedAt := None;
     Job.finishedAt := None;
     Job.lastHeartbeatAt := None;
     Job.leaseExpiresAt := None;
     Job.throttleUntil := None;
     Job.lastError := None;
     Job.result := VUndefined;
     Job.workerId := None;
     Job.leaseToken := None;
     Job.timeoutSeconds := num_of_Z 120;
     Job.cancelRequested := false;
     Job.executionMs := num_of_Z 0 |}.

Definition demo_job_active : Job :=
  {| Job.id := activeJobId ids;
     Job.type := "user.notify";
     Job.queue := "critical";
     Job.tenantId := "tenant-enterprise";
     Job.payload := VObj [("userId", VStr "user-92"); ("channel", VStr "sms")];
     Job.priority := num_of_Z 9;
     Job.attempts := num_of_Z 1;
     Job.maxAttempts := num_of_Z 4;
     Job.state := active;
     Job.schemaVersion := num_of_Z 1;
     Job.idempotencyKey := None;
     Job.workflowId := None;
     Job.parentJobId := None;
     Job.dependencyPolicy := None;
     Job.blockedReason := None;
     Job.createdAt := minutesAgo now 2;
     Job.updatedAt := secondsAgo now 3;
     Job.runAt := minutesAgo now 2;
     Job.startedAt := Some (secondsAgo now 47);
     Job.finishedAt := None;
     Job.lastHeartbeatAt := Some (secondsAgo now 3);
     Job.leaseExpiresAt := Some (secondsAgo now (-18));
     Job.throttleUntil := None;
     Job.lastError := None;
     Job.result := VUndefined;
     Job.workerId := Some "worker-c";
     Job.leaseToken := Some "lease-notify-1";
     Job.timeoutSeconds := num_of_Z 25;
     Job.cancelRequested := false;
     Job.executionMs := num_of_Z 0 |}.

Definition demo_job_idempotent : Job :=
  {| Job.id := idempotentJobId ids;
     Job.type := "email.send";
     Job.queue := "default";
     Job.tenantId := "tenant-a";
     Job.payload := VObj [("recipient", VStr "finance@tenant-a.dev"); ("template", VStr "invoice-ready")];
     Job.priority := num_of_Z 4;
     Job.attempts := num_of_Z 1;
     Job.maxAttempts := num_of_Z 5;
     Job.state := completed;
     Job.schemaVersion := num_of_Z 1;
     Job.idempotencyKey := Some "invoice-ready:2026-03-12:42";
     Job.workflowId := None;
     Job.parentJobId := None;
     Job.dependencyPolicy := None;
     Job.blockedReason := None;
     Job.createdAt := minutesAgo now 19;
     Job.updatedAt := minutesAgo now 17;
     Job.runAt := minutesAgo now 19;
     Job.startedAt := Some (minutesAgo now 18);
     Job.finishedAt := Some (minutesAgo now 17);
     Job.lastHeartbeatAt := None;
     Job.leaseExpiresAt := None;
     Job.throttleUntil := None;
     Job.lastError := None;
     Job.result := VUndefined;
     Job.workerId := Some "worker-a";
     Job.leaseToken := None;
     Job.timeoutSeconds := num_of_Z 30;
     Job.cancelRequested := false;
     Job.executionMs := num_of_Z 860 |}.

Definition demo_jobs : list Job :=
  [demo_job_ingest; demo_job_thumb_sm; demo_job_thumb_md; demo_job_aggregate; demo_job_dead; demo_job_retry; demo_job_throttled; demo_job_scheduled; demo_job_active; demo_job_idempotent].

(** [jobs.find((job) => job.id === id)!]: the job is there for the ids it is
    asked for. *)
Definition the_job (id : string) : Job := default demo_job_dead (List.find (has_id id) demo_jobs).

Definition demo_deadLetter : DeadLetter :=
  {| DeadLetter.jobId := deadJobId ids;
     DeadLetter.queue := "critical";
     DeadLetter.workerId := "worker-b";
     DeadLetter.errorType := Some "remote_error";
     DeadLetter.errorMessage := "remote 500 after 3 lease recoveries";
     DeadLetter.stackTrace := Some ("POST /hooks => 500" +:+ newline +:+ "lease recovered twice before final failure");
     DeadLetter.failedAt := minutesAgo now 12;
     DeadLetter.lastAttempt := num_of_Z 5;
     DeadLetter.replayCount := num_of_Z 2;
     DeadLetter.lastReplayedAt := Some (minutesAgo now 26);
     DeadLetter.job := List.find (has_id (deadJobId ids)) demo_jobs;
     DeadLetter.attempts := Some [{| JobAttempt.id := num_of_Z 51;
         JobAttempt.jobId := deadJobId ids;
         JobAttempt.attempt := num_of_Z 5;
         JobAttempt.workerId := "worker-b";
         JobAttempt.leaseToken := Some "lease-webhook-5";
         JobAttempt.status := "failed";
         JobAttempt.errorType := Some "remote_error";
         JobAttempt.errorMessage := Some "remote 500";
         JobAttempt.stackTrace := None;
         JobAttempt.leaseExpired := true;
         JobAttempt.startedAt := minutesAgo now 16;
         JobAttempt.finishedAt := Some (minutesAgo now 12) |};
     {| JobAttempt.id := num_of_Z 48;
         JobAttempt.jobId := deadJobId ids;
         JobAttempt.attempt := num_of_Z 4;
         JobAttempt.workerId := "worker-b";
         JobAttempt.leaseToken := Some "lease-webhook-4";
         JobAttempt.status := "failed";
         JobAttempt.errorType := Some "timeout";
         JobAttempt.errorMessage := Some "worker lost lease heartbeat";
         JobAttempt.stackTrace := None;
         JobAttempt.leaseExpired := true;
         JobAttempt.startedAt := minutesAgo now 30;
         JobAttempt.finishedAt := Some (minutesAgo now 27) |}] |}.

Definition demo_workerLeaseHealth : list WorkerLeaseHealth :=
  [{| WorkerLeaseHealth.workerId := "worker-a";
      WorkerLeaseHealth.hostname := "ops-eu-1";
      WorkerLeaseHealth.status := "healthy";
      WorkerLeaseHealth.queues := ["critical"; "default"];
      WorkerLeaseHealth.lastSeenAt := secondsAgo now 2;
      WorkerLeaseHealth.heartbeatAgeMs := num_of_Z 2400;
      WorkerLeaseHealth.activeLeaseCount := num_of_Z 1;
      WorkerLeaseHealth.oldestLeaseAgeMs := num_of_Z 44000;
      WorkerLeaseHealth.oldestLeaseJobId := Some (thumbSmId ids);
      WorkerLeaseHealth.version := "2026.03.12";
      WorkerLeaseHealth.startedAt := minutesAgo now 180;
      WorkerLeaseHealth.leaseExpiresAt := Some (secondsAgo now (-20)) |};
   {| WorkerLeaseHealth.workerId := "worker-b";
      WorkerLeaseHealth.hostname := "ops-us-2";
      WorkerLeaseHealth.status := "healthy";
      WorkerLeaseHealth.queues := ["critical"];
      WorkerLeaseHealth.lastSeenAt := secondsAgo now 5;
      WorkerLeaseHealth.heartbeatAgeMs := num_of_Z 5100;
      WorkerLeaseHealth.activeLeaseCount := num_of_Z 0;
      WorkerLeaseHealth.oldestLeaseAgeMs := num_of_Z 0;
      WorkerLeaseHealth.oldestLeaseJobId := None;
      WorkerLeaseHealth.version := "2026.03.12";
      WorkerLeaseHealth.startedAt := minutesAgo now 95;
      WorkerLeaseHealth.leaseExpiresAt := None |};
   {| WorkerLeaseHealth.workerId := "worker-c";
      WorkerLeaseHealth.hostname := "ops-us-3";
      WorkerLeaseHealth.status := "healthy";
      WorkerLeaseHealth.queues := ["critical"; "default"; "low"];
      WorkerLeaseHealth.lastSeenAt := secondsAgo now 3;
      WorkerLeaseHealth.heartbeatAgeMs := num_of_Z 3100;
      WorkerLeaseHealth.activeLeaseCount := num_of_Z 1;
      WorkerLeaseHealth.oldestLeaseAgeMs := num_of_Z 47000;
      WorkerLeaseHealth.oldestLeaseJobId := Some (activeJobId ids);
      WorkerLeaseHealth.version := "2026.03.12";
      WorkerLeaseHealth.startedAt := minutesAgo now 61;
      WorkerLeaseHealth.leaseExpiresAt := Some (secondsAgo now (-18)) |}].

Definition demo_workerStatuses : list WorkerStatus :=
  [{| WorkerStatus.workerId := "worker-a";
      WorkerStatus.hostname := "ops-eu-1";
      WorkerStatus.queues := ["critical"; "default"];
      WorkerStatus.concurrency := num_of_Z 24;
      WorkerStatus.status := "healthy";
      WorkerStatus.startedAt := minutesAgo now 180;
      WorkerStatus.lastSeenAt := secondsAgo now 2;
      WorkerStatus.version := "2026.03.12" |};
   {| WorkerStatus.workerId := "worker-b";
      WorkerStatus.hostname := "ops-us-2";
      WorkerStatus.queues := ["critical"];
      WorkerStatus.concurrency := num_of_Z 12;
      WorkerStatus.status := "healthy";
      WorkerStatus.startedAt := minutesAgo now 95;
      WorkerStatus.lastSeenAt := secondsAgo now 5;
      WorkerStatus.version := "2026.03.12" |};
   {| WorkerStatus.workerId := "worker-c";
      WorkerStatus.hostname := "ops-us-3";
      WorkerStatus.queues := ["critical"; "default"; "low"];
      WorkerStatus.concurrency := num_of_Z 32;
      WorkerStatus.status := "healthy";
      WorkerStatus.startedAt := minutesAgo now 61;
      WorkerStatus.lastSeenAt := secondsAgo now 3;
      WorkerStatus.version := "2026.03.12" |}].

Definition demo_rateLimits : list RateLimitStatus :=
  [{| RateLimitStatus.policy := {| RateLimitPolicy.id := ids 12%nat;
         RateLimitPolicy.name := "tenant-a-rate";
         RateLimitPolicy.scope := "tenant";
         RateLimitPolicy.scopeValue := Some "tenant-a";
         RateLimitPolicy.mode := "rate";
         RateLimitPolicy.limit := num_of_Z 100;
         RateLimitPolicy.windowSeconds := num_of_Z 60;
         RateLimitPolicy.burst := num_of_Z 0;
         RateLimitPolicy.enabled := true;
         RateLimitPolicy.createdAt := minutesAgo now 240;
         RateLimitPolicy.updatedAt := minutesAgo now 11 |};
      RateLimitStatus.activeCount := num_of_Z 0;
      RateLimitStatus.recentCount := num_of_Z 96;
      RateLimitStatus.throttled := true |};
   {| RateLimitStatus.policy := {| RateLimitPolicy.id := ids 13%nat;
         RateLimitPolicy.name := "critical-concurrency";
         RateLimitPolicy.scope := "queue";
         RateLimitPolicy.scopeValue := Some "critical";
         RateLimitPolicy.mode := "concurrency";
         RateLimitPolicy.limit := num_of_Z 12;
         RateLimitPolicy.windowSeconds := num_of_Z 30;
         RateLimitPolicy.burst := num_of_Z 0;
         RateLimitPolicy.enabled := true;
         RateLimitPolicy.createdAt := minutesAgo now 240;
         RateLimitPolicy.updatedAt := minutesAgo now 9 |};
      RateLimitStatus.activeCount := num_of_Z 10;
      RateLimitStatus.recentCount := num_of_Z 0;
      RateLimitStatus.throttled := false |}].

Definition demo_schedules : list Schedule :=
  [{| Schedule.id := ids 14%nat;
      Schedule.name := "daily-finance-digest";
      Schedule.cronExpression := "0 6 * * *";
      Schedule.queue := "critical";
      Schedule.type := "email.send";
      Schedule.payload := VObj [("recipient", VStr "finance@tenant-a.dev"); ("template", VStr "daily-digest")];
      Schedule.priority := num_of_Z 7;
      Schedule.maxAttempts := num_of_Z 5;
      Schedule.timeoutSeconds := num_of_Z 30;
      Schedule.enabled := true;
      Schedule.timezone := "UTC";
      Schedule.nextRunAt := minutesFromNow now 110;
      Schedule.lastRunAt := Some (minutesAgo now 1330);
      Schedule.createdAt := minutesAgo now 640;
      Schedule.updatedAt := minutesAgo now 40 |};
   {| Schedule.id := ids 15%nat;
      Schedule.name := "thumbnail-backfill";
      Schedule.cronExpression := "*/15 * * * *";
      Schedule.queue := "default";
      Schedule.type := "metadata.aggregate";
      Schedule.payload := VObj [("source", VStr "backfill"); ("durationMs", VNum (num_of_Z 400))];
      Schedule.priority := num_of_Z 4;
      Schedule.maxAttempts := num_of_Z 4;
      Schedule.timeoutSeconds := num_of_Z 90;
      Schedule.enabled := false;
      Schedule.timezone := "UTC";
      Schedule.nextRunAt := minutesFromNow now 15;
      Schedule.lastRunAt := Some (minutesAgo now 21);
      Schedule.createdAt := minutesAgo now 210;
      Schedule.updatedAt := minutesAgo now 21 |}].

Definition demo_inspection_dead : JobInspection :=
  {| JobInspection.job := the_job (deadJobId ids);
     JobInspection.attempts := default [] (DeadLetter.attempts demo_deadLetter);
     JobInspection.events := [{| JobEvent.jobId := deadJobId ids;
         JobEvent.type := "job.enqueued";
         JobEvent.message := "job accepted into critical";
         JobEvent.metadata := VUndefined;
         JobEvent.occurredAt := minutesAgo now 72 |};
     {| JobEvent.jobId := deadJobId ids;
         JobEvent.type := "job.started";
         JobEvent.message := "worker-b acquired lease-webhook-4";
         JobEvent.metadata := VUndefined;
         JobEvent.occurredAt := minutesAgo now 30 |};
     {| JobEvent.jobId := deadJobId ids;
         JobEvent.type := "job.orphan_recovered";
         JobEvent.message := "scheduler reclaimed stale lease after heartbeat expiry";
         JobEvent.metadata := VUndefined;
         JobEvent.occurredAt := minutesAgo now 27 |};
     {| JobEvent.jobId := deadJobId ids;
         JobEvent.type := "job.started";
         JobEvent.message := "worker-b replayed recovered job with lease-webhook-5";
         JobEvent.metadata := VUndefined;
         JobEvent.occurredAt := minutesAgo now 16 |};
     {| JobEvent.jobId := deadJobId ids;
         JobEvent.type := "job.failed";
         JobEvent.message := "remote 500 after 3 lease recoveries";
         JobEvent.metadata := VUndefined;
         JobEvent.occurredAt := minutesAgo now 12 |}];
     JobInspection.graph := {| DependencyGraph.rootJobId := deadJobId ids;
         DependencyGraph.nodes := [{| DependencyNode.jobId := deadJobId ids;
         DependencyNode.type := "webhook.dispatch";
         DependencyNode.state := failed;
         DependencyNode.queue := "critical";
         DependencyNode.parentJobId := None;
         DependencyNode.workflowId := None;
         DependencyNode.blockedReason := None;
         DependencyNode.dependencyPolicy := None;
         DependencyNode.dependsOn := None;
         DependencyNode.dependents := None |}] |};
     JobInspection.idempotency := None;
     JobInspection.deadLetter := Some demo_deadLetter |}.

Definition demo_inspection_thumb_sm : JobInspection :=
  {| JobInspection.job := the_job (thumbSmId ids);
     JobInspection.attempts := [{| JobAttempt.id := num_of_Z 61;
         JobAttempt.jobId := thumbSmId ids;
         JobAttempt.attempt := num_of_Z 1;
         JobAttempt.workerId := "worker-a";
         JobAttempt.leaseToken := Some "lease-thumb-sm";
         JobAttempt.status := "active";
         JobAttempt.errorType := None;
         JobAttempt.errorMessage := None;
         JobAttempt.stackTrace := None;
         JobAttempt.leaseExpired := false;
         JobAttempt.startedAt := minutesAgo now 1;
         JobAttempt.finishedAt := None |}];
     JobInspection.events := [{| JobEvent.jobId := thumbSmId ids;
         JobEvent.type := "job.enqueued";
         JobEvent.message := "fan-out branch released after file.ingest";
         JobEvent.metadata := VUndefined;
         JobEvent.occurredAt := minutesAgo now 35 |};
     {| JobEvent.jobId := thumbSmId ids;
         JobEvent.type := "job.started";
         JobEvent.message := "lease owned by worker-a";
         JobEvent.metadata := VUndefined;
         JobEvent.occurredAt := minutesAgo now 1 |};
     {| JobEvent.jobId := thumbSmId ids;
         JobEvent.type := "job.heartbeat";
         JobEvent.message := "lease renewal healthy";
         JobEvent.metadata := VUndefined;
         JobEvent.occurredAt := secondsAgo now 4 |}];
     JobInspection.graph := {| DependencyGraph.rootJobId := ingestId ids;
         DependencyGraph.nodes := [{| DependencyNode.jobId := ingestId ids;
         DependencyNode.type := "file.ingest";
         DependencyNode.state := completed;
         DependencyNode.queue := "default";
         DependencyNode.parentJobId := None;
         DependencyNode.workflowId := Some (workflowId ids);
         DependencyNode.blockedReason := None;
         DependencyNode.dependencyPolicy := None;
         DependencyNode.dependsOn := None;
         DependencyNode.dependents := None |};
     {| DependencyNode.jobId := thumbSmId ids;
         DependencyNode.type := "image.thumbnail";
         DependencyNode.state := active;
         DependencyNode.queue := "default";
         DependencyNode.parentJobId := Some (ingestId ids);
         DependencyNode.workflowId := Some (workflowId ids);
         DependencyNode.blockedReason := None;
         DependencyNode.dependencyPolicy := None;
         DependencyNode.dependsOn := Some [(ingestId ids)];
         DependencyNode.dependents := Some [(aggregateId ids)] |};
     {| DependencyNode.jobId := thumbMdId ids;
         DependencyNode.type := "image.thumbnail";
         DependencyNode.state := blocked;
         DependencyNode.queue := "default";
         DependencyNode.parentJobId := Some (ingestId ids);
         DependencyNode.workflowId := Some (workflowId ids);
         DependencyNode.blockedReason := None;
         DependencyNode.dependencyPolicy := None;
         DependencyNode.dependsOn := Some [(ingestId ids)];
         DependencyNode.dependents := Some [(aggregateId ids)] |};
     {| DependencyNode.jobId := aggregateId ids;
         DependencyNode.type := "metadata.aggregate";
         DependencyNode.state := retrying;
         DependencyNode.queue := "critical";
         DependencyNode.parentJobId := Some (ingestId ids);
         DependencyNode.workflowId := Some (workflowId ids);
         DependencyNode.blockedReason := None;
         DependencyNode.dependencyPolicy := None;
         DependencyNode.dependsOn := Some [(thumbSmId ids); (thumbMdId ids)];
         DependencyNode.dependents := Some [] |}] |};
     JobInspection.idempotency := None;
     JobInspection.deadLetter := None |}.

Definition demo_inspection_idempotent : JobInspection :=
  {| JobInspection.job := the_job (idempotentJobId ids);
     JobInspection.attempts := [{| JobAttempt.id := num_of_Z 71;
         JobAttempt.jobId := idempotentJobId ids;
         JobAttempt.attempt := num_of_Z 1;
         JobAttempt.workerId := "worker-a";
         JobAttempt.leaseToken := None;
         JobAttempt.status := "completed";
         JobAttempt.errorType := None;
         JobAttempt.errorMessage := None;
         JobAttempt.stackTrace := None;
         JobAttempt.leaseExpired := false;
         JobAttempt.startedAt := minutesAgo now 18;
         JobAttempt.finishedAt := Some (minutesAgo now 17) |}];
     JobInspection.events := [{| JobEvent.jobId := idempotentJobId ids;
         JobEvent.type := "job.enqueued";
         JobEvent.message := "job accepted into default";
         JobEvent.metadata := VUndefined;
         JobEvent.occurredAt := minutesAgo now 19 |};
     {| JobEvent.jobId := idempotentJobId ids;
         JobEvent.type := "job.completed";
         JobEvent.message := "notification delivered";
         JobEvent.metadata := VUndefined;
         JobEvent.occurredAt := minutesAgo now 17 |};
     {| JobEvent.jobId := idempotentJobId ids;
         JobEvent.type := "job.duplicate_suppressed";
         JobEvent.message := "duplicate submission suppressed for invoice-ready:2026-03-12:42";
         JobEvent.metadata := VUndefined;
         JobEvent.occurredAt := minutesAgo now 16 |}];
     JobInspection.graph := {| DependencyGraph.rootJobId := idempotentJobId ids;
         DependencyGraph.nodes := [{| DependencyNode.jobId := idempotentJobId ids;
         DependencyNode.type := "email.send";
         DependencyNode.state := completed;
         DependencyNode.queue := "default";
         DependencyNode.parentJobId := None;
         DependencyNode.workflowId := None;
         DependencyNode.blockedReason := None;
         DependencyNode.dependencyPolicy := None;
         DependencyNode.dependsOn := None;
         DependencyNode.dependents := None |}] |};
     JobInspection.idempotency := Some {| IdempotencyRecord.scope := "tenant-a:email.send:invoice-ready:2026-03-12:42";
         IdempotencyRecord.tenantId := "tenant-a";
         IdempotencyRecord.jobType := "email.send";
         IdempotencyRecord.idempotencyKey := "invoice-ready:2026-03-12:42";
         IdempotencyRecord.jobId := idempotentJobId ids;
         IdempotencyRecord.status := "completed";
         IdempotencyRecord.outcome := VUndefined;
         IdempotencyRecord.firstSeenAt := minutesAgo now 19;
         IdempotencyRecord.updatedAt := minutesAgo now 16;
         IdempotencyRecord.expiresAt := (minutesAgo now (-6)) |};
     JobInspection.deadLetter := None |}.

Definition demo_inspections : gmap string JobInspection :=
  <[(idempotentJobId ids) := demo_inspection_idempotent]> (<[(thumbSmId ids) := demo_inspection_thumb_sm]> (<[(deadJobId ids) := demo_inspection_dead]> ∅)).

(** * Trends, snapshot, events *)

(** Point [index] of a series, twelve points five minutes apart. *)
Definition trend_point (value : Z -> num) (index : nat) : MetricsPoint :=
  MetricsPoint.mk (minutesAgo now (55 - Z.of_nat index * 5)) (value (Z.of_nat index)).

Definition trend_series (value : Z -> num) : list MetricsPoint :=
  List.map (trend_point value) (seq 0 12).

Definition demo_trend : Trend :=
  let z := num_of_Z in
  {| Trend.throughput :=
       trend_series (fun i =>
         num_add (num_add (z 24) (num_mul (z i) (num_of_string "1.8"))) (z (i mod 3)));
     Trend.executionP95Ms := trend_series (fun i => z (980 + i * 16));
     Trend.queueLatencyP95Ms := trend_series (fun i => z (420 + i * 11));
     Trend.retryRate :=
       trend_series (fun i => num_add (num_of_string "1.1") (num_mul (z i) (num_of_string "0.09")));
     Trend.deadLetterRate :=
       trend_series (fun i =>
         num_add (num_of_string "0.18") (num_mul (z (i mod 4)) (num_of_string "0.05"))) |}.

Definition latency (p50 p95 p99 : Z) : LatencySummary :=
  LatencySummary.mk (num_of_Z p50) (num_of_Z p95) (num_of_Z p99).

(** [Math.max(...ages)] *)
Definition max_of (l : list num) : num := foldl num_max (infinity true) l.

Definition demo_metrics : Metrics :=
  {| Metrics.jobsPerSecond := num_of_string "31.7";
     Metrics.retryRate := num_of_string "1.62";
     Metrics.deadLetterRate := num_of_string "0.36";
     Metrics.executionLatency := latency 420 1180 4210;
     Metrics.queueLatency := latency 78 560 2100;
     Metrics.maxWorkerHeartbeatAgeMs :=
       max_of (List.map WorkerLeaseHealth.heartbeatAgeMs demo_workerLeaseHealth) |}.

Definition demo_overview : Overview :=
  let '(Overview.mk a b c d e f g h i j ql _ _ _ _) := empty_overview in
  Overview.mk a b c d e f g h i j ql (num_of_Z 1285) (iso_of_time now)
    (num_of_nat (length demo_workerStatuses)) (num_of_Z 4).

Definition demo_leader : SchedulerLeaderStatus :=
  {| SchedulerLeaderStatus.schedulerId := Some "scheduler-a";
     SchedulerLeaderStatus.token := None;
     SchedulerLeaderStatus.isLeaderHealthy := Some true;
     SchedulerLeaderStatus.acquiredAt := Some (minutesAgo now 140);
     SchedulerLeaderStatus.lastHeartbeatAt := Some (secondsAgo now 2);
     SchedulerLeaderStatus.leaseExpiresAt := Some (secondsAgo now (-14)) |}.

Definition demo_snapshot : DashboardSnapshot :=
  {| DashboardSnapshot.overview := demo_overview;
     DashboardSnapshot.metrics := demo_metrics;
     DashboardSnapshot.trend := demo_trend;
     DashboardSnapshot.workers := demo_workerLeaseHealth;
     DashboardSnapshot.deadLetters := [demo_deadLetter];
     DashboardSnapshot.blockedJobs := [];
     DashboardSnapshot.throttledJobs := [];
     DashboardSnapshot.rateLimits := demo_rateLimits;
     DashboardSnapshot.leader := demo_leader |}.

Definition demo_event (kind : string) (jobId queue workerId : option string)
    (state : option JobState) (message timestamp : string) : SystemEvent :=
  makeSystemEvent now kind
    {| p_kind := None; p_jobId := jobId; p_queue := queue; p_workerId := workerId;
       p_state := state; p_message := Some message; p_timestamp := Some timestamp |}.

Definition demo_events : list SystemEvent :=
  [demo_event "scheduler.failover" None None None None
     "scheduler-b yielded leadership after lease renewal lag" (minutesAgo now 16);
   demo_event "job.recovered_failed" (Some (deadJobId ids)) (Some "critical") None (Some failed)
     "orphaned lease recovered and job moved to dead letter" (minutesAgo now 12);
   demo_event "job.throttled" (Some (throttledJobId ids)) (Some "critical") None (Some throttled)
     "tenant-a-rate temporarily saturated" (minutesAgo now 1);
   demo_event "job.started" (Some (activeJobId ids)) (Some "critical") (Some "worker-c")
     (Some active) "lease claimed by worker-c" (secondsAgo now 47)].

Definition createDemoConsoleData `{DateHost} : ConsoleData :=
  reconcileConsoleData now
    {| ConsoleData.snapshot := demo_snapshot;
       ConsoleData.jobs := demo_jobs;
       ConsoleData.schedules := demo_schedules;
       ConsoleData.events := demo_events;
       ConsoleData.workerStatuses := demo_workerStatuses;
       ConsoleData.inspections := demo_inspections;
       ConsoleData.queueControls := ∅;
       ConsoleData.workerControls := ∅;
       ConsoleData.lastHydratedAt := iso_of_time now;
       ConsoleData.source := source_demo |}.
End Demo.

(** * Lemmas *)

(** A clock that leaves room for the offsets of the data set (about a day). *)
Definition demo_clock (now : Z) : Prop := - max_time + 100000000 <= now <= max_time - 100000000.

Section Dates.
Context `{DateHost} (now : Z) (Hnow : demo_clock now).

Lemma date_minutesAgo m :
  - 1600 <= m <= 1600 -> date_parse (minutesAgo now m) = Some (now - m * 60000).
Proof. intros Hm. apply date_parse_iso. unfold demo_clock in Hnow. lia. Qed.

Lemma date_minutesFromNow m :
  - 1600 <= m <= 1600 -> date_parse (minutesFromNow now m) = Some (now + m * 60000).
Proof. intros Hm. apply date_parse_iso. unfold demo_clock in Hnow. lia. Qed.

Lemma date_secondsAgo m :
  - 1600 <= m <= 1600 -> date_parse (secondsAgo now m) = Some (now - m * 1000).
Proof. intros Hm. apply date_parse_iso. unfold demo_clock in Hnow. lia. Qed.
End Dates.

(** Prove that a literal list of such dates is valid. *)
Ltac demo_dates Hnow :=
  repeat (apply List.Forall_cons;
    [match goal with
     | |- is_Some (date_parse (minutesAgo _ _)) => eexists; apply (date_minutesAgo _ Hnow); lia
     | |- is_Some (date_parse (minutesFromNow _ _)) => eexists; apply (date_minutesFromNow _ Hnow); lia
     | |- is_Some (date_parse (secondsAgo _ _)) => eexists; apply (date_secondsAgo _ Hnow); lia
     end |]); apply List.Forall_nil.

Lemma demo_dated `{DateHost} now ids (Hnow : demo_clock now) :
  Forall (fun s => is_Some (date_parse s)) (List.map Job.updatedAt (demo_jobs now ids)) /\
  Forall (fun s => is_Some (date_parse s)) (List.map Schedule.nextRunAt (demo_schedules now ids)) /\
  Forall (fun s => is_Some (date_parse s)) (List.map SystemEvent.timestamp (demo_events now ids)) /\
  Forall (fun s => is_Some (date_parse s))
    (List.map DeadLetter.failedAt [demo_deadLetter now ids]).
Proof.
  split; [| split; [| split]];
    cbn [demo_jobs demo_schedules demo_events demo_event demo_deadLetter List.map Job.updatedAt
      Schedule.nextRunAt SystemEvent.timestamp DeadLetter.failedAt makeSystemEvent p_timestamp opt_default
      demo_job_ingest demo_job_thumb_sm demo_job_thumb_md demo_job_aggregate demo_job_dead
      demo_job_retry demo_job_throttled demo_job_scheduled demo_job_active demo_job_idempotent];
    demo_dates Hnow.
Qed.

Lemma demo_job_ids ids : List.map Job.id (demo_jobs 0 ids) =
  List.map (fun k => ids k) [2; 3; 4; 5; 6; 7; 8; 9; 10; 11]%nat.
Proof. done. Qed.

Lemma demo_ids_nodup (ids : nat -> string) :
  NoDup (List.map ids (seq 0 12)) ->
  NoDup (List.map (fun k => ids k) [2; 3; 4; 5; 6; 7; 8; 9; 10; 11]%nat).
Proof. cbn. intros Hn. by do 2 (apply NoDup_cons in Hn as [_ Hn]). Qed.

Lemma the_job_id now ids id :
  id ∈ List.map Job.id (demo_jobs now ids) -> Job.id (the_job now ids id) = id.
Proof.
  intros Hin. unfold the_job. destruct (List.find _ _) as [job|] eqn:E; cbn.
  - by apply find_some in E as [_ Hid%String.eqb_eq].
  - exfalso. apply list_elem_of_In, in_map_iff in Hin as (job & <- & Hj).
    pose proof (find_none _ _ E job Hj) as Hn. unfold has_id in Hn. by rewrite String.eqb_refl in Hn.
Qed.

(** * Properties *)

(** The demo data set is consistent: it is a fixed point of the
    reconciliation, its job ids are distinct, its overview counts its ten jobs,
    and every prepared inspection is filed under the id of its own job. *)
Theorem demo_consistent `{DateHost} now now' (ids : nat -> string) :
  demo_clock now -> NoDup (List.map ids (seq 0 12)) ->
  let data := createDemoConsoleData now ids in
  reconcileConsoleData now' data = data /\
  NoDup (List.map Job.id (ConsoleData.jobs data)) /\
  Overview.totalJobs (DashboardSnapshot.overview (ConsoleData.snapshot data)) = num_of_Z 10 /\
  map_Forall (fun id inspection => Job.id (JobInspection.job inspection) = id)
    (ConsoleData.inspections data).
Proof.
  intros Hnow Hids. cbn zeta. split; [| split; [| split]].
  - apply reconcile_twice.
    + destruct (demo_dated now ids Hnow) as (Hj & Hs & He & Hd).
      rewrite List.Forall_map in Hj, Hs, He, Hd. by split.
    + repeat (apply List.Forall_cons; [eexists; split; [| reflexivity]; lia |]).
      apply List.Forall_nil.
  - unfold createDemoConsoleData. cbn [reconcileConsoleData ConsoleData.jobs].
    rewrite sort_by_perm. by apply demo_ids_nodup.
  - cbn [createDemoConsoleData reconcileConsoleData ConsoleData.snapshot ConsoleData.jobs
      DashboardSnapshot.overview summarizeJobs Overview.totalJobs]. by rewrite length_sort_by.
  - apply demo_ids_nodup in Hids.
    change (map_Forall (fun id inspection => Job.id (JobInspection.job inspection) = id)
      (demo_inspections now ids)).
    unfold demo_inspections.
    do 3 (apply map_Forall_insert_2;
      [cbn [JobInspection.job demo_inspection_dead demo_inspection_thumb_sm
         demo_inspection_idempotent]; apply the_job_id; cbn; set_solver |]).
    apply map_Forall_empty.
Qed.

(** The parent of the demo workflow does not exist: three demo jobs name
    a parent job whose id no demo job has. *)
Theorem demo_parent_missing `{DateHost} now (ids : nat -> string) :
  NoDup (List.map ids (seq 0 12)) ->
  let jobs := ConsoleData.jobs (createDemoConsoleData now ids) in
  count (fun job => bool_decide (Job.parentJobId job = Some (rootJobId ids))) jobs = 3%nat /\
  List.find (has_id (rootJobId ids)) jobs = None.
Proof.
  intros Hids. cbn zeta. unfold createDemoConsoleData. cbn [reconcileConsoleData ConsoleData.jobs].
  split.
  - rewrite (count_perm _ _ _ (sort_by_perm _ _)). unfold demo_jobs. rewrite !count_cons.
    cbn [demo_job_ingest demo_job_thumb_sm demo_job_thumb_md demo_job_aggregate demo_job_dead
      demo_job_retry demo_job_throttled demo_job_scheduled demo_job_active demo_job_idempotent
      Job.parentJobId].
    rewrite !(bool_decide_eq_true_2 (Some (rootJobId ids) = Some (rootJobId ids))) by done.
    by rewrite !(bool_decide_eq_false_2 (None = Some (rootJobId ids))) by done.
  - destruct (List.find _ _) as [job|] eqn:E; [| done]. exfalso.
    apply find_some in E as [Hin Hid%String.eqb_eq]. apply list_elem_of_In in Hin.
    rewrite sort_by_perm in Hin. cbn in Hids.
    apply NoDup_cons in Hids as [_ Hids]. apply NoDup_cons in Hids as [Hroot _]. apply Hroot.
    change (ids 1%nat ∈ List.map Job.id (demo_jobs now ids)).
    apply list_elem_of_In, in_map_iff. exists job. split; [exact Hid | by apply list_elem_of_In].
Qed.

(** * Witnesses *)

Definition demo_ids (n : nat) : string := dec (Z.of_nat n).

Lemma demo_ids_distinct : NoDup (List.map demo_ids (seq 0 12)).
Proof. apply (bool_decide_unpack _). vm_compute. exact I. Qed.

Lemma demo_consistent_witness :
  let data := createDemoConsoleData (H := utc_host) 1773345600000 demo_ids in
  reconcileConsoleData (H := utc_host) 0 data = data.
Proof.
  apply (demo_consistent (H := utc_host) 1773345600000 0 demo_ids); [| exact demo_ids_distinct].
  unfold demo_clock, max_time. lia.
Defined.

Lemma demo_parent_missing_witness :
  List.find (has_id (rootJobId demo_ids))
    (ConsoleData.jobs (createDemoConsoleData (H := utc_host) 1773345600000 demo_ids)) = None.
Proof. apply (demo_parent_missing (H := utc_host) 1773345600000 demo_ids demo_ids_distinct). Defined.
