(* ===== verification/LiveState.v ===== *)
(** The state of [src/hooks/useDashboardLiveData.ts]: its props, its React state,
    its refs, and what it has under way - refreshes, inspections, polling loops,
    timeouts, requests and transport managers.

    Each record has a setter for each of its fields. *)

From stdpp Require Import base list strings gmap.
From Stdlib Require Import ZArith Bool.
From S2P Require Import Prelude JsString JsValue Models.
From S2P Require Import LiveTransport RequestPool ToastQueue ConsoleState.

(** * Props and state *)

(** The options of the hook, with the two base URLs it derives from them. *)
Module Props.
Record Props := mk {
  resolvedBaseUrl : option string;
  resolvedRealtimeBaseUrl : option string;
  token : string;
  liveMode : bool;
  liveUpdates : bool;
  pollIntervalMs : PollingPreset;
  selectedJobId : string
}.
End Props.
Notation Props := Props.Props.

Record InspectionMeta := { busy : bool; error : string; lastUpdatedAt : string }.

(** The React state. *)
Module Hook.
Record Hook := mk {
  consoleData : ConsoleData;
  inspectionCache : gmap string JobInspection;
  inspectionMeta : gmap string InspectionMeta;
  loading : bool;
  isRefreshing : bool;
  globalError : string;
  lastAttemptAt : string;
  lastSuccessfulAt : string;
  lastFetchAt : string;
  degradedSince : string;
  consecutiveFailures : Z;
  currentPollDelayMs : Z;
  isVisible : bool;
  transportStatus : TransportStatus
}.

Definition set_consoleData (x : ConsoleData) (r : Hook) : Hook :=
    mk x (inspectionCache r) (inspectionMeta r) (loading r) (isRefreshing r) (globalError r)
    (lastAttemptAt r) (lastSuccessfulAt r) (lastFetchAt r) (degradedSince r)
    (consecutiveFailures r) (currentPollDelayMs r) (isVisible r) (transportStatus r).
Definition set_inspectionCache (x : gmap string JobInspection) (r : Hook) : Hook :=
    mk (consoleData r) x (inspectionMeta r) (loading r) (isRefreshing r) (globalError r)
    (lastAttemptAt r) (lastSuccessfulAt r) (lastFetchAt r) (degradedSince r)
    (consecutiveFailures r) (currentPollDelayMs r) (isVisible r) (transportStatus r).
Definition set_inspectionMeta (x : gmap string InspectionMeta) (r : Hook) : Hook :=
    mk (consoleData r) (inspectionCache r) x (loading r) (isRefreshing r) (globalError r)
    (lastAttemptAt r) (lastSuccessfulAt r) (lastFetchAt r) (degradedSince r)
    (consecutiveFailures r) (currentPollDelayMs r) (isVisible r) (transportStatus r).
Definition set_loading (x : bool) (r : Hook) : Hook :=
    mk (consoleData r) (inspectionCache r) (inspectionMeta r) x (isRefreshing r) (globalError r)
    (lastAttemptAt r) (lastSuccessfulAt r) (lastFetchAt r) (degradedSince r)
    (consecutiveFailures r) (currentPollDelayMs r) (isVisible r) (transportStatus r).
Definition set_isRefreshing (x : bool) (r : Hook) : Hook :=
    mk (consoleData r) (inspectionCache r) (inspectionMeta r) (loading r) x (globalError r)
    (lastAttemptAt r) (lastSuccessfulAt r) (lastFetchAt r) (degradedSince r)
    (consecutiveFailures r) (currentPollDelayMs r) (isVisible r) (transportStatus r).
Definition set_globalError (x : string) (r : Hook) : Hook :=
    mk (consoleData r) (inspectionCache r) (inspectionMeta r) (loading r) (isRefreshing r) x
    (lastAttemptAt r) (lastSuccessfulAt r) (lastFetchAt r) (degradedSince r)
    (consecutiveFailures r) (currentPollDelayMs r) (isVisible r) (transportStatus r).
Definition set_lastAttemptAt (x : string) (r : Hook) : Hook :=
    mk (consoleData r) (inspectionCache r) (inspectionMeta r) (loading r) (isRefreshing r)
    (globalError r) x (lastSuccessfulAt r) (lastFetchAt r) (degradedSince r)
    (consecutiveFailures r) (currentPollDelayMs r) (isVisible r) (transportStatus r).
Definition set_lastSuccessfulAt (x : string) (r : Hook) : Hook :=
    mk (consoleData r) (inspectionCache r) (inspectionMeta r) (loading r) (isRefreshing r)
    (globalError r) (lastAttemptAt r) x (lastFetchAt r) (degradedSince r) (consecutiveFailures
    r) (currentPollDelayMs r) (isVisible r) (transportStatus r).
Definition set_lastFetchAt (x : string) (r : Hook) : Hook :=
    mk (consoleData r) (inspectionCache r) (inspectionMeta r) (loading r) (isRefreshing r)
    (globalError r) (lastAttemptAt r) (lastSuccessfulAt r) x (degradedSince r)
    (consecutiveFailures r) (currentPollDelayMs r) (isVisible r) (transportStatus r).
Definition set_degradedSince (x : string) (r : Hook) : Hook :=
    mk (consoleData r) (inspectionCache r) (inspectionMeta r) (loading r) (isRefreshing r)
    (globalError r) (lastAttemptAt r) (lastSuccessfulAt r) (lastFetchAt r) x
    (consecutiveFailures r) (currentPollDelayMs r) (isVisible r) (transportStatus r).
Definition set_consecutiveFailures (x : Z) (r : Hook) : Hook :=
    mk (consoleData r) (inspectionCache r) (inspectionMeta r) (loading r) (isRefreshing r)
    (globalError r) (lastAttemptAt r) (lastSuccessfulAt r) (lastFetchAt r) (degradedSince r) x
    (currentPollDelayMs r) (isVisible r) (transportStatus r).
Definition set_currentPollDelayMs (x : Z) (r : Hook) : Hook :=
    mk (consoleData r) (inspectionCache r) (inspectionMeta r) (loading r) (isRefreshing r)
    (globalError r) (lastAttemptAt r) (lastSuccessfulAt r) (lastFetchAt r) (degradedSince r)
    (consecutiveFailures r) x (isVisible r) (transportStatus r).
Definition set_isVisible (x : bool) (r : Hook) : Hook :=
    mk (consoleData r) (inspectionCache r) (inspectionMeta r) (loading r) (isRefreshing r)
    (globalError r) (lastAttemptAt r) (lastSuccessfulAt r) (lastFetchAt r) (degradedSince r)
    (consecutiveFailures r) (currentPollDelayMs r) x (transportStatus r).
Definition set_transportStatus (x : TransportStatus) (r : Hook) : Hook :=
    mk (consoleData r) (inspectionCache r) (inspectionMeta r) (loading r) (isRefreshing r)
    (globalError r) (lastAttemptAt r) (lastSuccessfulAt r) (lastFetchAt r) (degradedSince r)
    (consecutiveFailures r) (currentPollDelayMs r) (isVisible r) x.
End Hook.
Notation Hook := Hook.Hook.

(** The refs; the map of requests is in the pool. *)
Module Refs.
Record Refs := mk {
  consoleDataRef : ConsoleData;
  inspectionCacheRef : gmap string JobInspection;
  selectedJobIdRef : string;
  dataSignatureRef : option string;
  inspectionSignatureRef : gmap string string;
  fetchPromiseRef : option nat;
  fetchControllerRef : option nat;
  inspectionPromiseRef : gmap string nat;
  inspectionControllerRef : gmap string nat;
  refreshDebounceRef : option nat;
  inspectionDebounceRef : gmap string nat;
  pendingEventsRef : list SystemEvent;
  eventFlushTimerRef : option nat;
  transportManagerRef : option nat;
  lastHealthRef : LiveHealth;
  lastTransportModeRef : TransportMode;
  lastSuccessfulAtRef : string;
  consecutiveFailuresRef : Z;
  transportStatusRef : TransportStatus
}.

Definition set_consoleDataRef (x : ConsoleData) (r : Refs) : Refs :=
    mk x (inspectionCacheRef r) (selectedJobIdRef r) (dataSignatureRef r)
    (inspectionSignatureRef r) (fetchPromiseRef r) (fetchControllerRef r) (inspectionPromiseRef
    r) (inspectionControllerRef r) (refreshDebounceRef r) (inspectionDebounceRef r)
    (pendingEventsRef r) (eventFlushTimerRef r) (transportManagerRef r) (lastHealthRef r)
    (lastTransportModeRef r) (lastSuccessfulAtRef r) (consecutiveFailuresRef r)
    (transportStatusRef r).
Definition set_inspectionCacheRef (x : gmap string JobInspection) (r : Refs) : Refs :=
    mk (consoleDataRef r) x (selectedJobIdRef r) (dataSignatureRef r) (inspectionSignatureRef r)
    (fetchPromiseRef r) (fetchControllerRef r) (inspectionPromiseRef r) (inspectionControllerRef
    r) (refreshDebounceRef r) (inspectionDebounceRef r) (pendingEventsRef r) (eventFlushTimerRef
    r) (transportManagerRef r) (lastHealthRef r) (lastTransportModeRef r) (lastSuccessfulAtRef
    r) (consecutiveFailuresRef r) (transportStatusRef r).
Definition set_selectedJobIdRef (x : string) (r : Refs) : Refs :=
    mk (consoleDataRef r) (inspectionCacheRef r) x (dataSignatureRef r) (inspectionSignatureRef
    r) (fetchPromiseRef r) (fetchControllerRef r) (inspectionPromiseRef r)
    (inspectionControllerRef r) (refreshDebounceRef r) (inspectionDebounceRef r)
    (pendingEventsRef r) (eventFlushTimerRef r) (transportManagerRef r) (lastHealthRef r)
    (lastTransportModeRef r) (lastSuccessfulAtRef r) (consecutiveFailuresRef r)
    (transportStatusRef r).
Definition set_dataSignatureRef (x : option string) (r : Refs) : Refs :=
    mk (consoleDataRef r) (inspectionCacheRef r) (selectedJobIdRef r) x (inspectionSignatureRef
    r) (fetchPromiseRef r) (fetchControllerRef r) (inspectionPromiseRef r)
    (inspectionControllerRef r) (refreshDebounceRef r) (inspectionDebounceRef r)
    (pendingEventsRef r) (eventFlushTimerRef r) (transportManagerRef r) (lastHealthRef r)
    (lastTransportModeRef r) (lastSuccessfulAtRef r) (consecutiveFailuresRef r)
    (transportStatusRef r).
Definition set_inspectionSignatureRef (x : gmap string string) (r : Refs) : Refs :=
    mk (consoleDataRef r) (inspectionCacheRef r) (selectedJobIdRef r) (dataSignatureRef r) x
    (fetchPromiseRef r) (fetchControllerRef r) (inspectionPromiseRef r) (inspectionControllerRef
    r) (refreshDebounceRef r) (inspectionDebounceRef r) (pendingEventsRef r) (eventFlushTimerRef
    r) (transportManagerRef r) (lastHealthRef r) (lastTransportModeRef r) (lastSuccessfulAtRef
    r) (consecutiveFailuresRef r) (transportStatusRef r).
Definition set_fetchPromiseRef (x : option nat) (r : Refs) : Refs :=
    mk (consoleDataRef r) (inspectionCacheRef r) (selectedJobIdRef r) (dataSignatureRef r)
    (inspectionSignatureRef r) x (fetchControllerRef r) (inspectionPromiseRef r)
    (inspectionControllerRef r) (refreshDebounceRef r) (inspectionDebounceRef r)
    (pendingEventsRef r) (eventFlushTimerRef r) (transportManagerRef r) (lastHealthRef r)
    (lastTransportModeRef r) (lastSuccessfulAtRef r) (consecutiveFailuresRef r)
    (transportStatusRef r).
Definition set_fetchControllerRef (x : option nat) (r : Refs) : Refs :=
    mk (consoleDataRef r) (inspectionCacheRef r) (selectedJobIdRef r) (dataSignatureRef r)
    (inspectionSignatureRef r) (fetchPromiseRef r) x (inspectionPromiseRef r)
    (inspectionControllerRef r) (refreshDebounceRef r) (inspectionDebounceRef r)
    (pendingEventsRef r) (eventFlushTimerRef r) (transportManagerRef r) (lastHealthRef r)
    (lastTransportModeRef r) (lastSuccessfulAtRef r) (consecutiveFailuresRef r)
    (transportStatusRef r).
Definition set_inspectionPromiseRef (x : gmap string nat) (r : Refs) : Refs :=
    mk (consoleDataRef r) (inspectionCacheRef r) (selectedJobIdRef r) (dataSignatureRef r)
    (inspectionSignatureRef r) (fetchPromiseRef r) (fetchControllerRef r) x
    (inspectionControllerRef r) (refreshDebounceRef r) (inspectionDebounceRef r)
    (pendingEventsRef r) (eventFlushTimerRef r) (transportManagerRef r) (lastHealthRef r)
    (lastTransportModeRef r) (lastSuccessfulAtRef r) (consecutiveFailuresRef r)
    (transportStatusRef r).
Definition set_inspectionControllerRef (x : gmap string nat) (r : Refs) : Refs :=
    mk (consoleDataRef r) (inspectionCacheRef r) (selectedJobIdRef r) (dataSignatureRef r)
    (inspectionSignatureRef r) (fetchPromiseRef r) (fetchControllerRef r) (inspectionPromiseRef
    r) x (refreshDebounceRef r) (inspectionDebounceRef r) (pendingEventsRef r)
    (eventFlushTimerRef r) (transportManagerRef r) (lastHealthRef r) (lastTransportModeRef r)
    (lastSuccessfulAtRef r) (consecutiveFailuresRef r) (transportStatusRef r).
Definition set_refreshDebounceRef (x : option nat) (r : Refs) : Refs :=
    mk (consoleDataRef r) (inspectionCacheRef r) (selectedJobIdRef r) (dataSignatureRef r)
    (inspectionSignatureRef r) (fetchPromiseRef r) (fetchControllerRef r) (inspectionPromiseRef
    r) (inspectionControllerRef r) x (inspectionDebounceRef r) (pendingEventsRef r)
    (eventFlushTimerRef r) (transportManagerRef r) (lastHealthRef r) (lastTransportModeRef r)
    (lastSuccessfulAtRef r) (consecutiveFailuresRef r) (transportStatusRef r).
Definition set_inspectionDebounceRef (x : gmap string nat) (r : Refs) : Refs :=
    mk (consoleDataRef r) (inspectionCacheRef r) (selectedJobIdRef r) (dataSignatureRef r)
    (inspectionSignatureRef r) (fetchPromiseRef r) (fetchControllerRef r) (inspectionPromiseRef
    r) (inspectionControllerRef r) (refreshDebounceRef r) x (pendingEventsRef r)
    (eventFlushTimerRef r) (transportManagerRef r) (lastHealthRef r) (lastTransportModeRef r)
    (lastSuccessfulAtRef r) (consecutiveFailuresRef r) (transportStatusRef r).
Definition set_pendingEventsRef (x : list SystemEvent) (r : Refs) : Refs :=
    mk (consoleDataRef r) (inspectionCacheRef r) (selectedJobIdRef r) (dataSignatureRef r)
    (inspectionSignatureRef r) (fetchPromiseRef r) (fetchControllerRef r) (inspectionPromiseRef
    r) (inspectionControllerRef r) (refreshDebounceRef r) (inspectionDebounceRef r) x
    (eventFlushTimerRef r) (transportManagerRef r) (lastHealthRef r) (lastTransportModeRef r)
    (lastSuccessfulAtRef r) (consecutiveFailuresRef r) (transportStatusRef r).
Definition set_eventFlushTimerRef (x : option nat) (r : Refs) : Refs :=
    mk (consoleDataRef r) (inspectionCacheRef r) (selectedJobIdRef r) (dataSignatureRef r)
    (inspectionSignatureRef r) (fetchPromiseRef r) (fetchControllerRef r) (inspectionPromiseRef
    r) (inspectionControllerRef r) (refreshDebounceRef r) (inspectionDebounceRef r)
    (pendingEventsRef r) x (transportManagerRef r) (lastHealthRef r) (lastTransportModeRef r)
    (lastSuccessfulAtRef r) (consecutiveFailuresRef r) (transportStatusRef r).
Definition set_transportManagerRef (x : option nat) (r : Refs) : Refs :=
    mk (consoleDataRef r) (inspectionCacheRef r) (selectedJobIdRef r) (dataSignatureRef r)
    (inspectionSignatureRef r) (fetchPromiseRef r) (fetchControllerRef r) (inspectionPromiseRef
    r) (inspectionControllerRef r) (refreshDebounceRef r) (inspectionDebounceRef r)
    (pendingEventsRef r) (eventFlushTimerRef r) x (lastHealthRef r) (lastTransportModeRef r)
    (lastSuccessfulAtRef r) (consecutiveFailuresRef r) (transportStatusRef r).
Definition set_lastHealthRef (x : LiveHealth) (r : Refs) : Refs :=
    mk (consoleDataRef r) (inspectionCacheRef r) (selectedJobIdRef r) (dataSignatureRef r)
    (inspectionSignatureRef r) (fetchPromiseRef r) (fetchControllerRef r) (inspectionPromiseRef
    r) (inspectionControllerRef r) (refreshDebounceRef r) (inspectionDebounceRef r)
    (pendingEventsRef r) (eventFlushTimerRef r) (transportManagerRef r) x (lastTransportModeRef
    r) (lastSuccessfulAtRef r) (consecutiveFailuresRef r) (transportStatusRef r).
Definition set_lastTransportModeRef (x : TransportMode) (r : Refs) : Refs :=
    mk (consoleDataRef r) (inspectionCacheRef r) (selectedJobIdRef r) (dataSignatureRef r)
    (inspectionSignatureRef r) (fetchPromiseRef r) (fetchControllerRef r) (inspectionPromiseRef
    r) (inspectionControllerRef r) (refreshDebounceRef r) (inspectionDebounceRef r)
    (pendingEventsRef r) (eventFlushTimerRef r) (transportManagerRef r) (lastHealthRef r) x
    (lastSuccessfulAtRef r) (consecutiveFailuresRef r) (transportStatusRef r).
Definition set_lastSuccessfulAtRef (x : string) (r : Refs) : Refs :=
    mk (consoleDataRef r) (inspectionCacheRef r) (selectedJobIdRef r) (dataSignatureRef r)
    (inspectionSignatureRef r) (fetchPromiseRef r) (fetchControllerRef r) (inspectionPromiseRef
    r) (inspectionControllerRef r) (refreshDebounceRef r) (inspectionDebounceRef r)
    (pendingEventsRef r) (eventFlushTimerRef r) (transportManagerRef r) (lastHealthRef r)
    (lastTransportModeRef r) x (consecutiveFailuresRef r) (transportStatusRef r).
Definition set_consecutiveFailuresRef (x : Z) (r : Refs) : Refs :=
    mk (consoleDataRef r) (inspectionCacheRef r) (selectedJobIdRef r) (dataSignatureRef r)
    (inspectionSignatureRef r) (fetchPromiseRef r) (fetchControllerRef r) (inspectionPromiseRef
    r) (inspectionControllerRef r) (refreshDebounceRef r) (inspectionDebounceRef r)
    (pendingEventsRef r) (eventFlushTimerRef r) (transportManagerRef r) (lastHealthRef r)
    (lastTransportModeRef r) (lastSuccessfulAtRef r) x (transportStatusRef r).
Definition set_transportStatusRef (x : TransportStatus) (r : Refs) : Refs :=
    mk (consoleDataRef r) (inspectionCacheRef r) (selectedJobIdRef r) (dataSignatureRef r)
    (inspectionSignatureRef r) (fetchPromiseRef r) (fetchControllerRef r) (inspectionPromiseRef
    r) (inspectionControllerRef r) (refreshDebounceRef r) (inspectionDebounceRef r)
    (pendingEventsRef r) (eventFlushTimerRef r) (transportManagerRef r) (lastHealthRef r)
    (lastTransportModeRef r) (lastSuccessfulAtRef r) (consecutiveFailuresRef r) x.
End Refs.
Notation Refs := Refs.Refs.

(** * Work under way *)

(** A run of the body of [refreshConsole], waiting for its four requests: the
    snapshot, the jobs, the schedules and the workers. *)
Record RefreshTask := {
  refresh_controller : nat;
  refresh_quiet : bool;
  refresh_waits : nat * nat * nat * nat
}.

(** A run of the body of [refreshInspection], waiting for its request. *)
Record InspectionTask := {
  inspection_job : string;
  inspection_controller : nat;
  previousSignature : option string;
  inspection_wait : nat
}.

(** A run of the polling effect: the variables of its closure. *)
Record Loop := mkLoop {
  cancelled : bool;
  timer : option nat;
  (** the refresh [run] waits for *)
  awaiting : option nat;
  loop_poll : PollingPreset;
  loop_updates : bool
}.

(** Callbacks of [window.setTimeout] and [window.setInterval]. *)
Inductive timeout :=
  | FlushEvents
  | RefreshConsole
  | RefreshInspection (jobId : string)
  | PollAgain (loop : nat)
  | DrawerTick (jobId : string).

(** A transport manager: its options and its state. *)
Definition Manager : Type := LiveTransportManagerOptions * LiveTransport.St.

(** What the cleanups of the effects close over: the manager, the polling loop
    and the interval of their last run, and the [isVisible] of that run. *)
Record Effects := mkEffects {
  effect_manager : option nat;
  effect_visible : bool;
  effect_loop : option nat;
  effect_drawer : option nat
}.

(** The whole. [hook] has every update queued so far, [rendered] is what was
    last rendered; [statusChanged] says that the status was replaced since.
    [notified] are the toasts handed to the owner, the latest first. *)
Module St.
Record St := mk {
  props : Props;
  hook : Hook;
  rendered : Hook;
  statusChanged : bool;
  refs : Refs;
  pool : Pool;
  refreshTasks : list (nat * RefreshTask);
  inspectionTasks : list (nat * InspectionTask);
  loops : gmap nat Loop;
  timers : gmap nat (timeout * Z);
  managers : gmap nat Manager;
  effects : Effects;
  next : nat;
  notified : list ToastInput
}.

Definition set_props (x : Props) (r : St) : St :=
    mk x (hook r) (rendered r) (statusChanged r) (refs r) (pool r) (refreshTasks r)
    (inspectionTasks r) (loops r) (timers r) (managers r) (effects r) (next r) (notified r).
Definition set_hook (x : Hook) (r : St) : St :=
    mk (props r) x (rendered r) (statusChanged r) (refs r) (pool r) (refreshTasks r)
    (inspectionTasks r) (loops r) (timers r) (managers r) (effects r) (next r) (notified r).
Definition set_rendered (x : Hook) (r : St) : St :=
    mk (props r) (hook r) x (statusChanged r) (refs r) (pool r) (refreshTasks r)
    (inspectionTasks r) (loops r) (timers r) (managers r) (effects r) (next r) (notified r).
Definition set_statusChanged (x : bool) (r : St) : St :=
    mk (props r) (hook r) (rendered r) x (refs r) (pool r) (refreshTasks r) (inspectionTasks r)
    (loops r) (timers r) (managers r) (effects r) (next r) (notified r).
Definition set_refs (x : Refs) (r : St) : St :=
    mk (props r) (hook r) (rendered r) (statusChanged r) x (pool r) (refreshTasks r)
    (inspectionTasks r) (loops r) (timers r) (managers r) (effects r) (next r) (notified r).
Definition set_pool (x : Pool) (r : St) : St :=
    mk (props r) (hook r) (rendered r) (statusChanged r) (refs r) x (refreshTasks r)
    (inspectionTasks r) (loops r) (timers r) (managers r) (effects r) (next r) (notified r).
Definition set_refreshTasks (x : list (nat * RefreshTask)) (r : St) : St :=
    mk (props r) (hook r) (rendered r) (statusChanged r) (refs r) (pool r) x (inspectionTasks r)
    (loops r) (timers r) (managers r) (effects r) (next r) (notified r).
Definition set_inspectionTasks (x : list (nat * InspectionTask)) (r : St) : St :=
    mk (props r) (hook r) (rendered r) (statusChanged r) (refs r) (pool r) (refreshTasks r) x
    (loops r) (timers r) (managers r) (effects r) (next r) (notified r).
Definition set_loops (x : gmap nat Loop) (r : St) : St :=
    mk (props r) (hook r) (rendered r) (statusChanged r) (refs r) (pool r) (refreshTasks r)
    (inspectionTasks r) x (timers r) (managers r) (effects r) (next r) (notified r).
Definition set_timers (x : gmap nat (timeout * Z)) (r : St) : St :=
    mk (props r) (hook r) (rendered r) (statusChanged r) (refs r) (pool r) (refreshTasks r)
    (inspectionTasks r) (loops r) x (managers r) (effects r) (next r) (notified r).
Definition set_managers (x : gmap nat Manager) (r : St) : St :=
    mk (props r) (hook r) (rendered r) (statusChanged r) (refs r) (pool r) (refreshTasks r)
    (inspectionTasks r) (loops r) (timers r) x (effects r) (next r) (notified r).
Definition set_effects (x : Effects) (r : St) : St :=
    mk (props r) (hook r) (rendered r) (statusChanged r) (refs r) (pool r) (refreshTasks r)
    (inspectionTasks r) (loops r) (timers r) (managers r) x (next r) (notified r).
Definition set_next (x : nat) (r : St) : St :=
    mk (props r) (hook r) (rendered r) (statusChanged r) (refs r) (pool r) (refreshTasks r)
    (inspectionTasks r) (loops r) (timers r) (managers r) (effects r) x (notified r).
Definition set_notified (x : list ToastInput) (r : St) : St :=
    mk (props r) (hook r) (rendered r) (statusChanged r) (refs r) (pool r) (refreshTasks r)
    (inspectionTasks r) (loops r) (timers r) (managers r) (effects r) (next r) x.
End St.
Notation St := St.St.
