(* ===== verification/LiveData.v ===== *)
(** [src/hooks/useDashboardLiveData.ts]: the data of the console in live mode -
    refreshes, inspections, polling, batched events and the transport.

    Every callback, continuation and effect of the hook is a function on the
    state of LiveState.v; [perform] says which of them React, the browser and the
    owner may run, and [step] is the relation they induce. React is part of that
    environment: a state update applies to [hook] when it is made, [commit]
    renders what has been updated (all of it, or all but the transition of the
    console data) with any new props and runs the effects whose dependencies
    changed, in the order of the source; the effect that depends on the identity
    of the list of jobs runs when the environment says it changed. Continuations
    of a promise run together when the promise is handled. *)

From stdpp Require Import base list strings gmap relations.
From Stdlib Require Import ZArith Lia Bool.
From S2P Require Import Prelude JsString JsNum JsDate JsValue Models ApiRoutes Safe LiveRefresh.
From S2P Require Import LiveTransport ToastQueue ApiParsers RequestClient RequestPool ConsoleState.
From S2P Require Import DemoData LiveState.

#[local] Open Scope Z_scope.

Definition EVENT_BATCH_WINDOW_MS : Z := 180.
Definition CONSOLE_REFRESH_DEBOUNCE_MS : Z := 320.
Definition INSPECTION_REFRESH_DEBOUNCE_MS : Z := 450.
Definition MIN_POLLING_FALLBACK_MS : Z := 15000.

Definition initialTransportStatus : TransportStatus :=
  {| TransportStatus.mode := mode_offline; TransportStatus.state := conn_idle;
     TransportStatus.attempt := 0; TransportStatus.lastMessageAt := "";
     TransportStatus.lastFailureAt := ""; TransportStatus.lastError := "";
     TransportStatus.degradedReason := ""; TransportStatus.nextRetryAt := "" |}.

(** [{ ...initialTransportStatus, mode, state }] *)
Definition status_in (mode : TransportMode) (state : TransportConnectionState) : TransportStatus :=
  {| TransportStatus.mode := mode; TransportStatus.state := state;
     TransportStatus.attempt := 0; TransportStatus.lastMessageAt := "";
     TransportStatus.lastFailureAt := ""; TransportStatus.lastError := "";
     TransportStatus.degradedReason := ""; TransportStatus.nextRetryAt := "" |}.

Definition sameTransportStatus (left right : TransportStatus) : bool :=
  bool_decide (TransportStatus.mode left = TransportStatus.mode right) &&
  bool_decide (TransportStatus.state left = TransportStatus.state right) &&
  (TransportStatus.attempt left =? TransportStatus.attempt right) &&
  String.eqb (TransportStatus.lastMessageAt left) (TransportStatus.lastMessageAt right) &&
  String.eqb (TransportStatus.lastFailureAt left) (TransportStatus.lastFailureAt right) &&
  String.eqb (TransportStatus.lastError left) (TransportStatus.lastError right) &&
  String.eqb (TransportStatus.degradedReason left) (TransportStatus.degradedReason right) &&
  String.eqb (TransportStatus.nextRetryAt left) (TransportStatus.nextRetryAt right).

(** The records that [value as T] claims a parsed value to be. *)
Class ApiView := {
  as_snapshot : jsval -> DashboardSnapshot;
  as_jobs : jsval -> list Job;
  as_schedules : jsval -> list Schedule;
  as_workerStatuses : jsval -> list WorkerStatus;
  as_inspection : jsval -> JobInspection;
  as_event : jsval -> SystemEvent
}.

(** What a callback reads from outside: the clock, the random ids, and what the
    transport manager reads. *)
Record Outside := mkOutside {
  clock : Z;
  ids : nat -> string;
  transport_env : LiveTransport.Env
}.

(** * Updates *)

Definition hook_upd (f : Hook -> Hook) (s : St) : St := St.set_hook (f (St.hook s)) s.
Definition refs_upd (f : Refs -> Refs) (s : St) : St := St.set_refs (f (St.refs s)) s.

Definition setConsoleData (f : ConsoleData -> ConsoleData) (s : St) : St :=
  hook_upd (fun h => Hook.set_consoleData (f (Hook.consoleData h)) h) s.

Definition setInspectionCache (jobId : string) (inspection : JobInspection) (s : St) : St :=
  hook_upd (fun h => Hook.set_inspectionCache (<[jobId := inspection]> (Hook.inspectionCache h)) h) s.

(** [setInspectionMeta] of one job, from what it was. *)
Definition setInspectionMeta (jobId : string) (f : option InspectionMeta -> InspectionMeta)
    (s : St) : St :=
  hook_upd (fun h =>
    let current := Hook.inspectionMeta h in
    Hook.set_inspectionMeta (<[jobId := f (current !! jobId)]> current) h) s.

(** [current\[jobId\]?.lastUpdatedAt || otherwise] *)
Definition updated_or (otherwise : string) (meta : option InspectionMeta) : string :=
  match meta with Some m => or_else (lastUpdatedAt m) otherwise | None => otherwise end.

(** [setTransportStatus] with an updater that makes a new object. *)
Definition setTransportStatus (f : TransportStatus -> TransportStatus) (s : St) : St :=
  St.set_statusChanged true
    (hook_upd (fun h => Hook.set_transportStatus (f (Hook.transportStatus h)) h) s).

Definition setConsecutiveFailures (f : Z -> Z) (s : St) : St :=
  let next := f (Hook.consecutiveFailures (St.hook s)) in
  refs_upd (Refs.set_consecutiveFailuresRef next)
    (hook_upd (Hook.set_consecutiveFailures next) s).

Definition setTimeout (t : timeout) (delay : Z) (s : St) : nat * St :=
  (St.next s,
   St.set_next (S (St.next s)) (St.set_timers (<[St.next s := (t, delay)]> (St.timers s)) s)).

Definition clearTimeout (id : nat) (s : St) : St := St.set_timers (delete id (St.timers s)) s.

Definition clear_timeout (id : option nat) (s : St) : St :=
  match id with Some id => clearTimeout id s | None => s end.

Definition pool_upd (f : Pool -> Pool) (s : St) : St := St.set_pool (f (St.pool s)) s.

Definition abort_controller (c : option nat) (s : St) : St :=
  match c with Some c => pool_upd (abortController c) s | None => s end.

(** [consoleData] with the cache as its inspections. *)
Definition with_cache (data : ConsoleData) (cache : gmap string JobInspection) : ConsoleData :=
  ConsoleState.set_inspections cache data.

(** [updateTransportStatus] *)
Definition updateTransportStatus (nextStatus : TransportStatus) (s : St) : St :=
  let s := refs_upd (Refs.set_transportStatusRef nextStatus) s in
  if sameTransportStatus (Hook.transportStatus (St.hook s)) nextStatus then s
  else setTransportStatus (fun _ => nextStatus) s.

(** * The hook *)

Section Hook.
Context `{UrlApi} `{HeadersApi} `{DateHost} `{Browser} `{ApiView}.

(** [requestJson] with a GET of [path]. *)
Definition get (path key : string) (parser : jsval -> result jsval) (controller : nat) (s : St)
  : nat * St :=
  let options :=
    {| RequestClient.baseUrl := Props.resolvedBaseUrl (St.props s);
       RequestClient.path := path;
       RequestClient.token := Some (Props.token (St.props s));
       init := {| method := "GET"; init_headers := []; body := "" |};
       timeoutMs := default_timeoutMs;
       parser := Some parser;
       allowEmpty := false |} in
  let '(id, pool) := requestJson options (Some controller) (Some key) (St.pool s) in
  (id, St.set_pool pool s).

Definition new_controller (s : St) : nat * St :=
  let '(c, pool) := newController (St.pool s) in (c, St.set_pool pool s).

(** ** Inspections *)

(** An exception is a rejection nobody handles. *)
Definition applyInspectionFallback (jobId : string) (s : St) : result St :=
  result_bind
    (getInspection
       (with_cache (Refs.consoleDataRef (St.refs s)) (Refs.inspectionCacheRef (St.refs s))) jobId)
    (fun fallback =>
       match fallback with
       | None => Ok s
       | Some fallback =>
           let signature := createInspectionSignature fallback in
           let known := Refs.inspectionSignatureRef (St.refs s) in
           if decide (known !! jobId = signature) then Ok s
           else
             let s := refs_upd (Refs.set_inspectionSignatureRef (partial_alter (fun _ => signature) jobId known)) s in
             Ok (setInspectionCache jobId fallback s)
       end).

(** The request of an inspection is under way. *)
Definition start_inspection (jobId : string) (s : St) : St :=
  let s := abort_controller (Refs.inspectionControllerRef (St.refs s) !! jobId) s in
  let '(controller, s) := new_controller s in
  let s := refs_upd (fun r =>
    Refs.set_inspectionControllerRef (<[jobId := controller]> (Refs.inspectionControllerRef r)) r) s in
  let s := setInspectionMeta jobId (fun meta =>
    {| busy := true; error := ""; lastUpdatedAt := updated_or "" meta |}) s in
  let previous := Refs.inspectionSignatureRef (St.refs s) !! jobId in
  let '(request, s) :=
    get (API_ROUTES.jobInspection jobId) ("inspection:" +:+ jobId) parseJobInspection controller s in
  let promise := St.next s in
  let s := St.set_next (S promise) s in
  let s := St.set_inspectionTasks
    (St.inspectionTasks s ++
       [(promise, {| inspection_job := jobId; inspection_controller := controller;
                     previousSignature := previous; inspection_wait := request |})]) s in
  refs_upd (fun r =>
    Refs.set_inspectionPromiseRef (<[jobId := promise]> (Refs.inspectionPromiseRef r)) r) s.

Definition refreshInspection (o : Outside) (jobId : string) (force : bool) (s : St) : St :=
  if negb (truthy jobId) then s
  else if negb (Props.liveMode (St.props s)) ||
          negb (bool_decide (ConsoleData.source (Refs.consoleDataRef (St.refs s)) = source_live)) then
    match applyInspectionFallback jobId s with
    | Throw _ => s
    | Ok s =>
        setInspectionMeta jobId (fun meta =>
          {| busy := false; error := ""; lastUpdatedAt := updated_or (iso_of_time (clock o)) meta |}) s
    end
  else if bool_decide (is_Some (Refs.inspectionPromiseRef (St.refs s) !! jobId)) && negb force then s
  else start_inspection jobId s.

(** The [finally] of an inspection. *)
Definition end_inspection (t : InspectionTask) (s : St) : St :=
  let jobId := inspection_job t in
  let s :=
    if decide (Refs.inspectionControllerRef (St.refs s) !! jobId = Some (inspection_controller t))
    then refs_upd (fun r =>
           Refs.set_inspectionControllerRef (delete jobId (Refs.inspectionControllerRef r)) r) s
    else s in
  refs_upd (fun r => Refs.set_inspectionPromiseRef (delete jobId (Refs.inspectionPromiseRef r)) r) s.

(** The continuation of an inspection once its request has settled. *)
Definition continue_inspection (o : Outside) (t : InspectionTask) (settled : Outcome) (s : St) : St :=
  let jobId := inspection_job t in
  if signal_aborted (St.pool s) (inspection_controller t) then end_inspection t s
  else
    match settled with
    | Resolved v =>
        let inspection := as_inspection v in
        let signature := createInspectionSignature inspection in
        let refreshedAt := iso_of_time (clock o) in
        let s := refs_upd (fun r =>
          Refs.set_inspectionSignatureRef
            (partial_alter (fun _ => signature) jobId (Refs.inspectionSignatureRef r)) r) s in
        let s := if decide (signature = previousSignature t) then s
                 else setInspectionCache jobId inspection s in
        let s := setInspectionMeta jobId (fun _ =>
          {| busy := false; error := ""; lastUpdatedAt := refreshedAt |}) s in
        end_inspection t s
    | Rejected reason =>
        match applyInspectionFallback jobId s with
        | Throw _ => end_inspection t s
        | Ok s =>
            end_inspection t
              (setInspectionMeta jobId (fun meta =>
                 {| busy := false; error := formatRequestError (rejection_thrown reason);
                    lastUpdatedAt := updated_or "" meta |}) s)
        end
    end.

(** ** Refreshes *)

Definition invalid_base_url (quiet : bool) (s : St) : St :=
  let s := hook_upd (Hook.set_loading false) s in
  let s := if quiet then s else hook_upd (Hook.set_isRefreshing false) s in
  let s := hook_upd (Hook.set_currentPollDelayMs 0) s in
  let s := hook_upd (Hook.set_globalError
    "API base URL is invalid. Live data is paused until the connection settings are corrected.") s in
  let s := setTransportStatus (fun current =>
    {| TransportStatus.mode := mode_offline; TransportStatus.state := conn_offline;
       TransportStatus.attempt := TransportStatus.attempt current;
       TransportStatus.lastMessageAt := TransportStatus.lastMessageAt current;
       TransportStatus.lastFailureAt := TransportStatus.lastFailureAt current;
       TransportStatus.lastError := "API base URL is invalid.";
       TransportStatus.degradedReason := "API base URL is invalid.";
       TransportStatus.nextRetryAt := TransportStatus.nextRetryAt current |}) s in
  setConsecutiveFailures (fun current => if current =? 0 then 1 else current) s.

(** The body of a refresh up to the [await] of its four requests; its promise. *)
Definition start_refresh (quiet : bool) (s : St) : nat * St :=
  let s := abort_controller (Refs.fetchControllerRef (St.refs s)) s in
  let '(controller, s) := new_controller s in
  let s := refs_upd (Refs.set_fetchControllerRef (Some controller)) s in
  let s :=
    if negb (truthy (Hook.lastSuccessfulAt (St.rendered s))) then hook_upd (Hook.set_loading true) s
    else if negb quiet then hook_upd (Hook.set_isRefreshing true) s
    else s in
  let '(snapshot, s) :=
    get API_ROUTES.dashboardSnapshot "dashboard-snapshot" parseDashboardSnapshot controller s in
  let '(jobs, s) := get (API_ROUTES.jobsWithLimit 120) "dashboard-jobs" parseJobs controller s in
  let '(schedules, s) := get API_ROUTES.schedules "dashboard-schedules" parseSchedules controller s in
  let '(workers, s) := get API_ROUTES.workers "dashboard-workers" parseWorkerStatuses controller s in
  let promise := St.next s in
  let s := St.set_next (S promise) s in
  let s := St.set_refreshTasks
    (St.refreshTasks s ++
       [(promise, {| refresh_controller := controller; refresh_quiet := quiet;
                     refresh_waits := (snapshot, jobs, schedules, workers) |})]) s in
  (promise, refs_upd (Refs.set_fetchPromiseRef (Some promise)) s).

(** The promise the caller gets, [None] when it is resolved already. *)
Definition refreshConsole (o : Outside) (quiet force : bool) (s : St) : option nat * St :=
  if negb (Props.liveMode (St.props s)) then (None, s)
  else
    let s := if quiet then s else hook_upd (Hook.set_lastAttemptAt (iso_of_time (clock o))) s in
    if negb (opt_truthy (Props.resolvedBaseUrl (St.props s))) then (None, invalid_base_url quiet s)
    else
      match Refs.fetchPromiseRef (St.refs s), force with
      | Some promise, false => (Some promise, s)
      | _, _ => let '(promise, s) := start_refresh quiet s in (Some promise, s)
      end.

(** The data a refresh installs. *)
Definition refreshed_data (now : Z) (snapshot : DashboardSnapshot) (jobs : list Job)
    (schedules : list Schedule) (workerStatuses : list WorkerStatus) (current : ConsoleData)
  : ConsoleData :=
  let next :=
    stabilizeConsoleData current
      (createConsoleDataFromApi now
         {| input_snapshot := snapshot; input_jobs := jobs; input_schedules := schedules;
            input_workerStatuses := workerStatuses;
            input_events :=
              Some (if decide (ConsoleData.source current = source_live)
                    then ConsoleData.events current else []) |}) in
  {| ConsoleData.snapshot := ConsoleData.snapshot next;
     ConsoleData.jobs := ConsoleData.jobs next;
     ConsoleData.schedules := ConsoleData.schedules next;
     ConsoleData.events := ConsoleData.events next;
     ConsoleData.workerStatuses := ConsoleData.workerStatuses next;
     ConsoleData.inspections := ConsoleData.inspections current;
     ConsoleData.queueControls := ConsoleData.queueControls current;
     ConsoleData.workerControls := ConsoleData.workerControls current;
     ConsoleData.lastHydratedAt := ConsoleData.lastHydratedAt next;
     ConsoleData.source := ConsoleData.source next |}.

Definition refresh_succeeded (o : Outside) (snapshot : DashboardSnapshot) (jobs : list Job)
    (schedules : list Schedule) (workerStatuses : list WorkerStatus) (s : St) : St :=
  let nextSignature := createConsolePayloadSignature snapshot jobs schedules workerStatuses in
  let refreshedAt := iso_of_time (clock o) in
  let s :=
    if negb (bool_decide (ConsoleData.source (Refs.consoleDataRef (St.refs s)) = source_live)) ||
       negb (bool_decide (nextSignature = Refs.dataSignatureRef (St.refs s)))
    then
      setConsoleData (refreshed_data (clock o) snapshot jobs schedules workerStatuses)
        (refs_upd (Refs.set_dataSignatureRef nextSignature) s)
    else s in
  let s := refs_upd (Refs.set_lastSuccessfulAtRef refreshedAt) s in
  let s := hook_upd (Hook.set_lastSuccessfulAt refreshedAt) s in
  let s := hook_upd (Hook.set_lastFetchAt refreshedAt) s in
  let s := setConsecutiveFailures (fun _ => 0) s in
  hook_upd (Hook.set_globalError "") s.

Definition refresh_failed (reason : rejection) (s : St) : St :=
  let s := hook_upd (Hook.set_globalError (formatRequestError (rejection_thrown reason))) s in
  setConsecutiveFailures (fun current => current + 1) s.

(** The [finally] of a refresh. *)
Definition end_refresh (t : RefreshTask) (s : St) : St :=
  let s :=
    if decide (Refs.fetchControllerRef (St.refs s) = Some (refresh_controller t))
    then refs_upd (Refs.set_fetchControllerRef None) s else s in
  let s := refs_upd (Refs.set_fetchPromiseRef None) s in
  let s := hook_upd (Hook.set_loading false) s in
  if refresh_quiet t then s else hook_upd (Hook.set_isRefreshing false) s.

(** What [Promise.all] of the four requests gives. *)
Definition continue_refresh (o : Outside) (t : RefreshTask)
    (settled : rejection + (jsval * jsval * jsval * jsval)) (s : St) : St :=
  if signal_aborted (St.pool s) (refresh_controller t) then end_refresh t s
  else
    match settled with
    | inl reason => end_refresh t (refresh_failed reason s)
    | inr (snapshot, jobs, schedules, workers) =>
        end_refresh t
          (refresh_succeeded o (as_snapshot snapshot) (as_jobs jobs) (as_schedules schedules)
             (as_workerStatuses workers) s)
    end.

(** ** Events *)

Definition scheduleConsoleRefresh (s : St) : St :=
  let s := clear_timeout (Refs.refreshDebounceRef (St.refs s)) s in
  let '(id, s) := setTimeout RefreshConsole CONSOLE_REFRESH_DEBOUNCE_MS s in
  refs_upd (Refs.set_refreshDebounceRef (Some id)) s.

Definition flushPendingEvents (s : St) : St :=
  let s :=
    match Refs.eventFlushTimerRef (St.refs s) with
    | Some id => refs_upd (Refs.set_eventFlushTimerRef None) (clearTimeout id s)
    | None => s
    end in
  match Refs.pendingEventsRef (St.refs s) with
  | [] => s
  | queuedEvents =>
      let s := refs_upd (Refs.set_pendingEventsRef []) s in
      let s := setConsoleData (fun current => appendEvents current queuedEvents) s in
      scheduleConsoleRefresh s
  end.

Definition queueLiveEvent (event : SystemEvent) (s : St) : St :=
  let s := refs_upd (fun r => Refs.set_pendingEventsRef (Refs.pendingEventsRef r ++ [event]) r) s in
  match Refs.eventFlushTimerRef (St.refs s) with
  | Some _ => s
  | None =>
      let '(id, s) := setTimeout FlushEvents EVENT_BATCH_WINDOW_MS s in
      refs_upd (Refs.set_eventFlushTimerRef (Some id)) s
  end.

Definition scheduleInspectionRefresh (jobId : string) (s : St) : St :=
  if negb (truthy jobId) then s
  else
    let s := clear_timeout (Refs.inspectionDebounceRef (St.refs s) !! jobId) s in
    let '(id, s) := setTimeout (RefreshInspection jobId) INSPECTION_REFRESH_DEBOUNCE_MS s in
    refs_upd (fun r =>
      Refs.set_inspectionDebounceRef (<[jobId := id]> (Refs.inspectionDebounceRef r)) r) s.

(** ** The transport *)

(** The [onEvent] of the manager. *)
Definition onEvent (event : SystemEvent) (s : St) : St :=
  let s := queueLiveEvent event s in
  let jobId := opt_default (SystemEvent.jobId event) "" in
  if truthy jobId && String.eqb jobId (Refs.selectedJobIdRef (St.refs s))
  then scheduleInspectionRefresh jobId s else s.

Definition onMalformedMessage (o : Outside) (s : St) : St :=
  setTransportStatus (fun current =>
    {| TransportStatus.mode := TransportStatus.mode current;
       TransportStatus.state := TransportStatus.state current;
       TransportStatus.attempt := TransportStatus.attempt current;
       TransportStatus.lastMessageAt := TransportStatus.lastMessageAt current;
       TransportStatus.lastFailureAt := iso_of_time (clock o);
       TransportStatus.lastError := "Ignored a malformed realtime message.";
       TransportStatus.degradedReason := TransportStatus.degradedReason current;
       TransportStatus.nextRetryAt := TransportStatus.nextRetryAt current |}) s.

Definition callback (o : Outside) (c : output) (s : St) : St :=
  match c with
  | OnStatus status => updateTransportStatus status s
  | OnEvent event => onEvent (as_event event) s
  | OnMalformedMessage => onMalformedMessage o s
  end.

(** A call to a manager, or an event of the browser for it: its callbacks run
    in the order it made them. [None]: no such manager, or no such event. *)
Definition manager_action (o : Outside) (id : nat) (a : action) (s : St) : option St :=
  '(options, m) ← St.managers s !! id;
  m' ← LiveTransport.perform options (transport_env o) a m;
  let made := rev (take (length (out m') - length (out m)) (out m')) in
  Some (foldl (fun s c => callback o c s)
          (St.set_managers (<[id := (options, m')]> (St.managers s)) s) made).

(** [transportManagerRef.current?.method()] *)
Definition call_manager (o : Outside) (id : option nat) (a : action) (s : St) : St :=
  match id with
  | Some id => default s (manager_action o id a s)
  | None => s
  end.

Definition manualReconnect (o : Outside) (s : St) : St :=
  if negb (Props.liveMode (St.props s)) then s
  else
    let s := call_manager o (Refs.transportManagerRef (St.refs s)) RetryNow s in
    snd (refreshConsole o true true s).

(** ** Polling *)

Definition update_loop (id : nat) (f : Loop -> Loop) (s : St) : St :=
  St.set_loops (alter f id (St.loops s)) s.

Definition set_timer (t : option nat) (l : Loop) : Loop :=
  mkLoop (cancelled l) t (awaiting l) (loop_poll l) (loop_updates l).
Definition set_awaiting (p : option nat) (l : Loop) : Loop :=
  mkLoop (cancelled l) (timer l) p (loop_poll l) (loop_updates l).
Definition set_cancelled (l : Loop) : Loop :=
  mkLoop true (timer l) (awaiting l) (loop_poll l) (loop_updates l).

Definition using_realtime (l : Loop) (s : St) : bool :=
  loop_updates l &&
  existsb (fun m => bool_decide (TransportStatus.mode (Refs.transportStatusRef (St.refs s)) = m))
    [mode_websocket; mode_sse].

Definition next_delay (l : Loop) (s : St) : option Z :=
  baseDelay ← getNextPollDelay (loop_poll l) (Refs.consecutiveFailuresRef (St.refs s));
  Some (if using_realtime l s then baseDelay else Z.max baseDelay MIN_POLLING_FALLBACK_MS).

Definition scheduleNext (id : nat) (s : St) : St :=
  match St.loops s !! id with
  | None => s
  | Some l =>
      match next_delay l s with
      | None => hook_upd (Hook.set_currentPollDelayMs 0) s
      | Some nextDelay =>
          let s := hook_upd (Hook.set_currentPollDelayMs nextDelay) s in
          let '(timer, s) := setTimeout (PollAgain id) nextDelay s in
          update_loop id (set_timer (Some timer)) s
      end
  end.

(** [run] after its [await]. The effect starts a loop only while visible and
    with a base URL, so those tests of its closure pass. *)
Definition resume_loop (id : nat) (s : St) : St :=
  match St.loops s !! id with
  | None => s
  | Some l =>
      let s := update_loop id (set_awaiting None) s in
      if cancelled l then s else scheduleNext id s
  end.

Definition run_loop (o : Outside) (id : nat) (quiet : bool) (s : St) : St :=
  let '(promise, s) := refreshConsole o quiet false s in
  match promise with
  | Some _ => update_loop id (set_awaiting promise) s
  | None => resume_loop id s
  end.

(** ** Continuations *)

(** The result of a request whose promise was handled. *)
Definition handled (p : Pool) (id : nat) : option Outcome :=
  q ← requests p !! id;
  if drained q then outcome p id else None.

(** [Promise.all]: the first rejection rejects; all resolved resolve. *)
Definition all_settled (p : Pool) (waits : nat * nat * nat * nat)
  : option (rejection + (jsval * jsval * jsval * jsval)) :=
  let '(a, b, c, d) := waits in
  let rejected id := match handled p id with Some (Rejected r) => Some r | _ => None end in
  match rejected a, rejected b, rejected c, rejected d with
  | Some r, _, _, _ | None, Some r, _, _ | None, None, Some r, _ | None, None, None, Some r =>
      Some (inl r)
  | None, None, None, None =>
      match handled p a, handled p b, handled p c, handled p d with
      | Some (Resolved v), Some (Resolved w), Some (Resolved x), Some (Resolved y) =>
          Some (inr (v, w, x, y))
      | _, _, _, _ => None
      end
  end.

Definition without {A : Type} (id : nat) (l : list (nat * A)) : list (nat * A) :=
  List.filter (fun t => negb (Nat.eqb (fst t) id)) l.

Definition awaits (promise : nat) (l : nat * Loop) : bool :=
  bool_decide (awaiting (snd l) = Some promise).

(** The promise of a refresh is resolved: the loops that wait for it go on. *)
Definition resolve_refresh (promise : nat) (s : St) : St :=
  foldl (fun s id => resume_loop id s) s
    (List.map fst (List.filter (awaits promise) (map_to_list (St.loops s)))).

(** Let a refresh continue if its requests allow it. *)
Definition advance_refresh (o : Outside) (s : St) (t : nat * RefreshTask) : St :=
  match all_settled (St.pool s) (refresh_waits (snd t)) with
  | None => s
  | Some settled =>
      let s := St.set_refreshTasks (without (fst t) (St.refreshTasks s)) s in
      resolve_refresh (fst t) (continue_refresh o (snd t) settled s)
  end.

Definition advance_inspection (o : Outside) (s : St) (t : nat * InspectionTask) : St :=
  match handled (St.pool s) (inspection_wait (snd t)) with
  | None => s
  | Some settled =>
      let s := St.set_inspectionTasks (without (fst t) (St.inspectionTasks s)) s in
      continue_inspection o (snd t) settled s
  end.

(** The promise of a request is handled, then the callers that wait for it. *)
Definition handle_request (o : Outside) (id : nat) (s : St) : option St :=
  pool ← RequestPool.drain id (St.pool s);
  let s := St.set_pool pool s in
  let s := foldl (advance_refresh o) s (St.refreshTasks s) in
  Some (foldl (advance_inspection o) s (St.inspectionTasks s)).

(** ** Timeouts *)

Definition fire (o : Outside) (id : nat) (s : St) : option St :=
  '(t, _) ← St.timers s !! id;
  Some
    match t with
    | FlushEvents => flushPendingEvents (clearTimeout id s)
    | RefreshConsole => snd (refreshConsole o true false (clearTimeout id s))
    | RefreshInspection jobId =>
        refreshInspection o jobId false
          (refs_upd (fun r =>
             Refs.set_inspectionDebounceRef (delete jobId (Refs.inspectionDebounceRef r)) r)
             (clearTimeout id s))
    | PollAgain loop => run_loop o loop true (clearTimeout id s)
    | DrawerTick jobId => refreshInspection o jobId false s
    end.

(** ** Values derived from what was rendered *)

Definition transportMode (p : Props) (h : Hook) : TransportMode :=
  let status := Hook.transportStatus h in
  if negb (Props.liveMode p) then mode_demo
  else if negb (opt_truthy (Props.resolvedBaseUrl p)) then mode_offline
  else if Props.liveUpdates p && bool_decide (TransportStatus.mode status = mode_websocket) &&
          bool_decide (TransportStatus.state status = conn_live) then mode_websocket
  else if Props.liveUpdates p && bool_decide (TransportStatus.mode status = mode_sse) &&
          bool_decide (TransportStatus.state status = conn_live) then mode_sse
  else if 0 <? Props.pollIntervalMs p then
    if (0 <? Hook.consecutiveFailures h) && negb (truthy (Hook.lastSuccessfulAt h))
    then mode_offline else mode_polling
  else if 0 <? Hook.consecutiveFailures h then mode_degraded else mode_offline.

Definition liveHealth (p : Props) (h : Hook) : LiveHealth :=
  let succeeded := truthy (Hook.lastSuccessfulAt h) in
  if negb (Props.liveMode p) then health_demo
  else if negb (opt_truthy (Props.resolvedBaseUrl p)) then health_offline
  else if (Props.pollIntervalMs p <=? 0) && negb (Props.liveUpdates p) then health_paused
  else if 0 <? Hook.consecutiveFailures h then
    if succeeded then health_degraded else health_offline
  else if Props.liveUpdates p &&
          bool_decide (TransportStatus.state (Hook.transportStatus h) = conn_connecting) && succeeded
  then health_reconnecting
  else if Props.liveUpdates p && bool_decide (transportMode p h = mode_polling) then health_degraded
  else health_live.

Definition hasLiveData (p : Props) (h : Hook) : bool :=
  Props.liveMode p &&
  bool_decide (ConsoleData.source (Hook.consoleData h) = source_live) &&
  truthy (ConsoleData.lastHydratedAt (Hook.consoleData h)).

Definition stale_health (health : LiveHealth) : bool :=
  match health with
  | health_degraded | health_offline | health_reconnecting => true
  | _ => false
  end.

Definition dataStale (p : Props) (h : Hook) : bool := stale_health (liveHealth p h).

(** The inspection of a job, with the latest version of the job. *)
Definition with_latest_job (cached : JobInspection) (latestJob : Job) : JobInspection :=
  {| JobInspection.job := latestJob;
     JobInspection.attempts := JobInspection.attempts cached;
     JobInspection.events := JobInspection.events cached;
     JobInspection.graph := JobInspection.graph cached;
     JobInspection.idempotency := JobInspection.idempotency cached;
     JobInspection.deadLetter :=
       match JobInspection.deadLetter cached with
       | Some d =>
           match DeadLetter.job d with
           | Some j =>
               if String.eqb (Job.id j) (Job.id latestJob)
               then
                 Some
                   {| DeadLetter.jobId := DeadLetter.jobId d;
                      DeadLetter.queue := DeadLetter.queue d;
                      DeadLetter.workerId := DeadLetter.workerId d;
                      DeadLetter.errorType := DeadLetter.errorType d;
                      DeadLetter.errorMessage := DeadLetter.errorMessage d;
                      DeadLetter.stackTrace := DeadLetter.stackTrace d;
                      DeadLetter.failedAt := DeadLetter.failedAt d;
                      DeadLetter.lastAttempt := DeadLetter.lastAttempt d;
                      DeadLetter.replayCount := DeadLetter.replayCount d;
                      DeadLetter.lastReplayedAt := DeadLetter.lastReplayedAt d;
                      DeadLetter.job := Some latestJob;
                      DeadLetter.attempts := DeadLetter.attempts d |}
               else Some d
           | None => Some d
           end
       | None => None
       end |}.

Definition selectedInspection (p : Props) (h : Hook) : result (option JobInspection) :=
  let selectedJobId := Props.selectedJobId p in
  if negb (truthy selectedJobId) then Ok None
  else
    match Hook.inspectionCache h !! selectedJobId with
    | Some cached =>
        match List.find (has_id selectedJobId) (ConsoleData.jobs (Hook.consoleData h)) with
        | None => Ok (Some cached)
        | Some latestJob => Ok (Some (with_latest_job cached latestJob))
        end
    | None => getInspection (with_cache (Hook.consoleData h) (Hook.inspectionCache h)) selectedJobId
    end.

Definition selectedInspectionMeta (p : Props) (h : Hook) : InspectionMeta :=
  let none := {| busy := false; error := ""; lastUpdatedAt := "" |} in
  if truthy (Props.selectedJobId p)
  then default none (Hook.inspectionMeta h !! Props.selectedJobId p) else none.

(** ** Effects *)

(** Every controller of an inspection under way aborts. *)
Definition abort_inspections (s : St) : St :=
  foldl (fun s c => abort_controller (Some c) s) s
    (List.map snd (map_to_list (Refs.inspectionControllerRef (St.refs s)))).

Definition clear_debounces (s : St) : St :=
  foldl (fun s id => clearTimeout id s) s
    (List.map snd (map_to_list (Refs.inspectionDebounceRef (St.refs s)))).

(** The effect of [liveMode], in parts: the refs, the state, and the pending
    events and timeouts start afresh. *)
Definition reset_refs (s : St) : St :=
  let s := refs_upd (Refs.set_transportManagerRef None) s in
  let s := refs_upd (Refs.set_dataSignatureRef (Some "")) s in
  let s := refs_upd (Refs.set_inspectionSignatureRef ∅) s in
  let s := refs_upd (Refs.set_lastSuccessfulAtRef "") s in
  let s := refs_upd (Refs.set_consecutiveFailuresRef 0) s in
  refs_upd (Refs.set_transportStatusRef
    (if Props.liveMode (St.props s) then initialTransportStatus else status_in mode_demo conn_demo)) s.

Definition reset_state (s : St) : St :=
  let s := hook_upd (Hook.set_currentPollDelayMs 0) s in
  let s := hook_upd (Hook.set_globalError "") s in
  let s := hook_upd (Hook.set_consecutiveFailures 0) s in
  let s := hook_upd (Hook.set_degradedSince "") s in
  let s := hook_upd (Hook.set_lastAttemptAt "") s in
  let s := hook_upd (Hook.set_lastSuccessfulAt "") s in
  let s := hook_upd (Hook.set_lastFetchAt "") s in
  let s := hook_upd (Hook.set_isRefreshing false) s in
  let s := hook_upd (Hook.set_inspectionCache ∅) s in
  hook_upd (Hook.set_inspectionMeta ∅) s.

Definition reset_timeouts (s : St) : St :=
  let s := refs_upd (Refs.set_pendingEventsRef []) s in
  let s :=
    match Refs.refreshDebounceRef (St.refs s) with
    | Some id => refs_upd (Refs.set_refreshDebounceRef None) (clearTimeout id s)
    | None => s
    end in
  let s := refs_upd (Refs.set_inspectionDebounceRef ∅) (clear_debounces s) in
  match Refs.eventFlushTimerRef (St.refs s) with
  | Some id => refs_upd (Refs.set_eventFlushTimerRef None) (clearTimeout id s)
  | None => s
  end.

Definition enter_demo (o : Outside) (s : St) : St :=
  let s := setTransportStatus (fun _ => status_in mode_demo conn_demo) s in
  let s := hook_upd (Hook.set_loading false) s in
  let s := refs_upd (Refs.set_lastHealthRef health_demo) s in
  let s := refs_upd (Refs.set_lastTransportModeRef mode_demo) s in
  setConsoleData (fun current =>
    if decide (ConsoleData.source current = source_demo) then current
    else createDemoConsoleData (clock o) (ids o)) s.

Definition enter_live (s : St) : St :=
  let s := setTransportStatus (fun _ => initialTransportStatus) s in
  let s := hook_upd (Hook.set_loading true) s in
  setConsoleData (fun _ => createEmptyConsoleData source_live) s.

Definition live_mode_effect (o : Outside) (s : St) : St :=
  let liveMode := Props.liveMode (St.props s) in
  let s := abort_controller (Refs.fetchControllerRef (St.refs s)) s in
  let s := abort_inspections s in
  let s := call_manager o (Refs.transportManagerRef (St.refs s))
             (Stop (if liveMode then conn_idle else conn_demo)) s in
  let s := reset_timeouts (reset_state (reset_refs s)) in
  if negb liveMode then enter_demo o s else enter_live s.

Definition paused_or_polling (visible : bool) : TransportConnectionState :=
  if visible then conn_polling else conn_paused.

(** The status while the transport is not used. *)
Definition transport_paused (current : TransportStatus) : TransportStatus :=
  {| TransportStatus.mode := TransportStatus.mode current; TransportStatus.state := conn_paused;
     TransportStatus.attempt := 0; TransportStatus.lastMessageAt := TransportStatus.lastMessageAt current;
     TransportStatus.lastFailureAt := TransportStatus.lastFailureAt current;
     TransportStatus.lastError := TransportStatus.lastError current;
     TransportStatus.degradedReason := TransportStatus.degradedReason current;
     TransportStatus.nextRetryAt := "" |}.

Definition transport_off (pollIntervalMs : Z) (current : TransportStatus) : TransportStatus :=
  {| TransportStatus.mode := if 0 <? pollIntervalMs then mode_polling else mode_offline;
     TransportStatus.state := if 0 <? pollIntervalMs then conn_polling else conn_paused;
     TransportStatus.attempt := 0; TransportStatus.lastMessageAt := TransportStatus.lastMessageAt current;
     TransportStatus.lastFailureAt := TransportStatus.lastFailureAt current;
     TransportStatus.lastError := ""; TransportStatus.degradedReason := "";
     TransportStatus.nextRetryAt := "" |}.

Definition transport_invalid : TransportStatus :=
  {| TransportStatus.mode := mode_offline; TransportStatus.state := conn_offline;
     TransportStatus.attempt := 0; TransportStatus.lastMessageAt := "";
     TransportStatus.lastFailureAt := ""; TransportStatus.lastError := "API base URL is invalid.";
     TransportStatus.degradedReason := "API base URL is invalid."; TransportStatus.nextRetryAt := "" |}.

(** A new manager, started. *)
Definition start_manager (o : Outside) (s : St) : St :=
  let p := St.props s in
  let options :=
    {| LiveTransport.baseUrl :=
         opt_or_else (Props.resolvedRealtimeBaseUrl p) (opt_default (Props.resolvedBaseUrl p) "");
       LiveTransport.token := Props.token p |} in
  let id := St.next s in
  let s := St.set_next (S id) s in
  let s := St.set_managers (<[id := (options, LiveTransport.initial)]> (St.managers s)) s in
  let s := refs_upd (Refs.set_transportManagerRef (Some id)) s in
  let s := call_manager o (Some id) Start s in
  St.set_effects
    (mkEffects (Some id) (Hook.isVisible (St.rendered s)) (effect_loop (St.effects s))
       (effect_drawer (St.effects s))) s.

Definition transport_effect (o : Outside) (s : St) : St :=
  let p := St.props s in
  let visible := Hook.isVisible (St.rendered s) in
  let s := call_manager o (Refs.transportManagerRef (St.refs s)) (Stop (paused_or_polling visible)) s in
  let s := refs_upd (Refs.set_transportManagerRef None) s in
  if negb (Props.liveMode p) then s
  else if negb (opt_truthy (Props.resolvedBaseUrl p)) then setTransportStatus (fun _ => transport_invalid) s
  else if negb visible then setTransportStatus transport_paused s
  else if negb (Props.liveUpdates p) then setTransportStatus (transport_off (Props.pollIntervalMs p)) s
  else start_manager o s.

Definition transport_cleanup (o : Outside) (s : St) : St :=
  match effect_manager (St.effects s) with
  | None => s
  | Some manager =>
      let s := call_manager o (Some manager)
                 (Stop (paused_or_polling (effect_visible (St.effects s)))) s in
      let s :=
        if decide (Refs.transportManagerRef (St.refs s) = Some manager)
        then refs_upd (Refs.set_transportManagerRef None) s else s in
      let e := St.effects s in
      St.set_effects (mkEffects None (effect_visible e) (effect_loop e) (effect_drawer e)) s
  end.

Definition set_effect_loop (l : option nat) (s : St) : St :=
  let e := St.effects s in
  St.set_effects (mkEffects (effect_manager e) (effect_visible e) l (effect_drawer e)) s.
Definition set_effect_drawer (d : option nat) (s : St) : St :=
  let e := St.effects s in
  St.set_effects (mkEffects (effect_manager e) (effect_visible e) (effect_loop e) d) s.

Definition poll_effect (o : Outside) (s : St) : St :=
  let p := St.props s in
  if negb (Props.liveMode p) then s
  else if negb (opt_truthy (Props.resolvedBaseUrl p)) then
    snd (refreshConsole o true false (hook_upd (Hook.set_currentPollDelayMs 0) s))
  else if negb (Hook.isVisible (St.rendered s)) then hook_upd (Hook.set_currentPollDelayMs 0) s
  else
    let id := St.next s in
    let s := St.set_next (S id) s in
    let s := St.set_loops
      (<[id := mkLoop false None None (Props.pollIntervalMs p) (Props.liveUpdates p)]> (St.loops s)) s in
    let s := set_effect_loop (Some id) s in
    run_loop o id (truthy (Refs.lastSuccessfulAtRef (St.refs s))) s.

Definition poll_cleanup (s : St) : St :=
  match effect_loop (St.effects s) with
  | None => s
  | Some id =>
      let timer := match St.loops s !! id with Some l => timer l | None => None end in
      set_effect_loop None (clear_timeout timer (update_loop id set_cancelled s))
  end.

Definition select_effect (o : Outside) (s : St) : St :=
  let selectedJobId := Props.selectedJobId (St.props s) in
  if negb (truthy selectedJobId) then s else refreshInspection o selectedJobId false s.

Definition drawer_effect (s : St) : St :=
  let p := St.props s in
  if negb (truthy (Props.selectedJobId p)) || negb (Props.liveMode p) ||
     negb (Hook.isVisible (St.rendered s)) then s
  else
    let refreshInterval := getDrawerRefreshInterval (Props.pollIntervalMs p) in
    if refreshInterval <=? 0 then s
    else
      let '(timer, s) := setTimeout (DrawerTick (Props.selectedJobId p)) refreshInterval s in
      set_effect_drawer (Some timer) s.

Definition drawer_cleanup (s : St) : St :=
  match effect_drawer (St.effects s) with
  | None => s
  | Some timer => set_effect_drawer None (clearTimeout timer s)
  end.

(** The effect that keeps the cached inspection's job up to date. *)
Definition cache_effect (s : St) : St :=
  let selectedJobId := Props.selectedJobId (St.props s) in
  if negb (truthy selectedJobId) then s
  else
    match Hook.inspectionCache (St.hook s) !! selectedJobId,
          List.find (has_id selectedJobId) (ConsoleData.jobs (Hook.consoleData (St.rendered s))) with
    | Some existing, Some latestJob =>
        let job := JobInspection.job existing in
        if String.eqb (Job.updatedAt job) (Job.updatedAt latestJob) &&
           state_eqb (Job.state job) (Job.state latestJob) then s
        else setInspectionCache selectedJobId (with_latest_job existing latestJob) s
    | _, _ => s
    end.

Definition degraded_effect (o : Outside) (s : St) : St :=
  let h := St.rendered s in
  if stale_health (liveHealth (St.props s) h) then
    hook_upd (fun latest =>
      Hook.set_degradedSince
        (or_else (Hook.degradedSince latest)
           (or_else (TransportStatus.lastFailureAt (Hook.transportStatus h)) (iso_of_time (clock o))))
        latest) s
  else hook_upd (Hook.set_degradedSince "") s.

Definition recovered_toast (mode : TransportMode) : ToastInput :=
  {| tone := tone_success; title := "Realtime transport recovered";
     description := Some (formatTransportMode mode +:+
       " is healthy again and the dashboard kept its last good data.");
     ToastQueue.key := Some "live-recovered"; cooldownMs := Some 10000; durationMs := None |}.

Definition recovered_effect (s : St) : St :=
  let p := St.props s in
  let h := St.rendered s in
  let mode := transportMode p h in
  let health := liveHealth p h in
  let previousHealth := Refs.lastHealthRef (St.refs s) in
  let previousMode := Refs.lastTransportModeRef (St.refs s) in
  let recovered :=
    stale_health previousHealth &&
    existsb (fun m => bool_decide (mode = m)) [mode_websocket; mode_sse] &&
    bool_decide (health = health_live) && truthy (Hook.lastSuccessfulAt h) in
  let s :=
    if recovered && (negb (bool_decide (previousMode = mode)) || negb (bool_decide (previousHealth = health)))
    then St.set_notified (recovered_toast mode :: St.notified s) s else s in
  refs_upd (Refs.set_lastTransportModeRef mode) (refs_upd (Refs.set_lastHealthRef health) s).

Definition unmount_effect (o : Outside) (s : St) : St :=
  let s := abort_controller (Refs.fetchControllerRef (St.refs s)) s in
  let s := abort_inspections s in
  let s := clear_timeout (Refs.refreshDebounceRef (St.refs s)) s in
  let s := clear_debounces s in
  let s := clear_timeout (Refs.eventFlushTimerRef (St.refs s)) s in
  call_manager o (Refs.transportManagerRef (St.refs s)) (Stop conn_paused) s.

(** ** Rendering *)

(** The effects that copy rendered state to refs; those of the last success,
    the failures and the status run when they changed. *)
Definition ref_effects (old new : Hook) (status_changed : bool) (s : St) : St :=
  let s := refs_upd (Refs.set_consoleDataRef (Hook.consoleData new)) s in
  let s := refs_upd (Refs.set_inspectionCacheRef (Hook.inspectionCache new)) s in
  let s := refs_upd (Refs.set_selectedJobIdRef (Props.selectedJobId (St.props s))) s in
  let s := if String.eqb (Hook.lastSuccessfulAt old) (Hook.lastSuccessfulAt new) then s
           else refs_upd (Refs.set_lastSuccessfulAtRef (Hook.lastSuccessfulAt new)) s in
  let s := if Hook.consecutiveFailures old =? Hook.consecutiveFailures new then s
           else refs_upd (Refs.set_consecutiveFailuresRef (Hook.consecutiveFailures new)) s in
  if status_changed then refs_upd (Refs.set_transportStatusRef (Hook.transportStatus new)) s else s.

(** Which effects are due after a render, from their dependencies. *)
Record Due := {
  due_live_mode : bool;
  due_transport : bool;
  due_poll : bool;
  due_select : bool;
  due_drawer : bool;
  due_cache : bool;
  due_degraded : bool;
  due_recovered : bool
}.

Definition changed {A : Type} `{EqDecision A} (a b : A) : bool := negb (bool_decide (a = b)).

Definition due (p p' : Props) (h h' : Hook) (jobs_changed : bool) : Due :=
  let visible := changed (Hook.isVisible h) (Hook.isVisible h') in
  let live := changed (Props.liveMode p) (Props.liveMode p') in
  let updates := changed (Props.liveUpdates p) (Props.liveUpdates p') in
  let interval := changed (Props.pollIntervalMs p : Z) (Props.pollIntervalMs p') in
  let base := changed (Props.resolvedBaseUrl p) (Props.resolvedBaseUrl p') in
  let realtime := changed (Props.resolvedRealtimeBaseUrl p) (Props.resolvedRealtimeBaseUrl p') in
  let credentials := changed (Props.token p) (Props.token p') in
  let selected := changed (Props.selectedJobId p) (Props.selectedJobId p') in
  let status := Hook.transportStatus h in
  let status' := Hook.transportStatus h' in
  let health := changed (liveHealth p h) (liveHealth p' h') in
  {| due_live_mode := live;
     due_transport := visible || live || updates || interval || base || realtime || credentials;
     due_poll := visible || live || updates || interval || base ||
       changed (TransportStatus.mode status) (TransportStatus.mode status');
     due_select := selected;
     due_drawer := visible || live || interval || selected;
     due_cache := selected || jobs_changed;
     due_degraded := health ||
       changed (TransportStatus.lastFailureAt status) (TransportStatus.lastFailureAt status');
     due_recovered := health || changed (transportMode p h) (transportMode p' h') ||
       changed (Hook.lastSuccessfulAt h) (Hook.lastSuccessfulAt h') |}.

Definition when (b : bool) (f : St -> St) (s : St) : St := if b then f s else s.

(** The cleanups of the effects that are due, then the effects. *)
Definition run_effects (o : Outside) (d : Due) (s : St) : St :=
  let s := when (due_transport d) (transport_cleanup o) s in
  let s := when (due_poll d) poll_cleanup s in
  let s := when (due_drawer d) drawer_cleanup s in
  let s := when (due_live_mode d) (live_mode_effect o) s in
  let s := when (due_transport d) (transport_effect o) s in
  let s := when (due_poll d) (poll_effect o) s in
  let s := when (due_select d) (select_effect o) s in
  let s := when (due_drawer d) drawer_effect s in
  let s := when (due_cache d) cache_effect s in
  let s := when (due_degraded d) (degraded_effect o) s in
  when (due_recovered d) recovered_effect s.

(** A render: with [transition] the updates of the console data are in it,
    without it they are left for a later one. *)
Definition commit (o : Outside) (p' : Props) (transition jobs_changed : bool) (s : St) : St :=
  let p := St.props s in
  let h := St.rendered s in
  let h' := if transition then St.hook s
            else Hook.set_consoleData (Hook.consoleData h) (St.hook s) in
  let status_changed := St.statusChanged s in
  let s := St.set_statusChanged false (St.set_rendered h' (St.set_props p' s)) in
  let s := ref_effects h h' status_changed s in
  run_effects o (due p p' h h' jobs_changed) s.

(** * The machine *)

Definition initial_hook (o : Outside) (p : Props) (visible : bool) : Hook :=
  {| Hook.consoleData :=
       if Props.liveMode p then createEmptyConsoleData source_live
       else createDemoConsoleData (clock o) (ids o);
     Hook.inspectionCache := ∅; Hook.inspectionMeta := ∅; Hook.loading := true;
     Hook.isRefreshing := false; Hook.globalError := ""; Hook.lastAttemptAt := "";
     Hook.lastSuccessfulAt := ""; Hook.lastFetchAt := ""; Hook.degradedSince := "";
     Hook.consecutiveFailures := 0; Hook.currentPollDelayMs := 0; Hook.isVisible := visible;
     Hook.transportStatus := initialTransportStatus |}.

Definition initial_refs (p : Props) (h : Hook) : Refs :=
  {| Refs.consoleDataRef := Hook.consoleData h; Refs.inspectionCacheRef := ∅;
     Refs.selectedJobIdRef := Props.selectedJobId p; Refs.dataSignatureRef := Some "";
     Refs.inspectionSignatureRef := ∅; Refs.fetchPromiseRef := None;
     Refs.fetchControllerRef := None; Refs.inspectionPromiseRef := ∅;
     Refs.inspectionControllerRef := ∅; Refs.refreshDebounceRef := None;
     Refs.inspectionDebounceRef := ∅; Refs.pendingEventsRef := [];
     Refs.eventFlushTimerRef := None; Refs.transportManagerRef := None;
     Refs.lastHealthRef := health_demo; Refs.lastTransportModeRef := mode_demo;
     Refs.lastSuccessfulAtRef := ""; Refs.consecutiveFailuresRef := 0;
     Refs.transportStatusRef := initialTransportStatus |}.

(** The first render. Handles are positive. *)
Definition useDashboardLiveData (o : Outside) (p : Props) (visible : bool) : St :=
  let h := initial_hook o p visible in
  {| St.props := p; St.hook := h; St.rendered := h; St.statusChanged := false;
     St.refs := initial_refs p h; St.pool := no_requests; St.refreshTasks := [];
     St.inspectionTasks := []; St.loops := ∅; St.timers := ∅; St.managers := ∅;
     St.effects := mkEffects None false None None; St.next := 1; St.notified := [] |}.

Definition all_due : Due :=
  {| due_live_mode := true; due_transport := true; due_poll := true; due_select := true;
     due_drawer := true; due_cache := true; due_degraded := true; due_recovered := true |}.

(** Every effect runs once the component is mounted. *)
Definition mount (o : Outside) (p : Props) (visible : bool) : St :=
  run_effects o all_due (useDashboardLiveData o p visible).

Inductive hook_action :=
  (** React renders *)
  | Commit (p : Props) (transition jobs_changed : bool)
  (** the page is shown or hidden *)
  | VisibilityChange (visible : bool)
  (** a timeout fires *)
  | FireTimeout (id : nat)
  (** the network, and the continuations of a settled request *)
  | Network (id : nat) (e : NetEvent)
  | HandleRequest (id : nat)
  (** an event of the browser for a transport manager *)
  | ManagerEvent (id : nat) (a : action)
  (** calls of the owner *)
  | ManualReconnect
  | RefreshConsoleCall (quiet force : bool)
  | UpdateData (f : ConsoleData -> ConsoleData)
  | OwnerRequest (options : RequestJsonOptions).

(** The actions of a manager that the browser causes. *)
Definition browser_event (a : action) : bool :=
  match a with Start | Stop _ | RetryNow => false | _ => true end.

Definition perform (o : Outside) (a : hook_action) (s : St) : option St :=
  match a with
  | Commit p transition jobs_changed => Some (commit o p transition jobs_changed s)
  | VisibilityChange visible => Some (hook_upd (Hook.set_isVisible visible) s)
  | FireTimeout id => fire o id s
  | Network id e => pool ← net_event id e (St.pool s); Some (St.set_pool pool s)
  | HandleRequest id => handle_request o id s
  | ManagerEvent id a => if browser_event a then manager_action o id a s else None
  | ManualReconnect => Some (manualReconnect o s)
  | RefreshConsoleCall quiet force => Some (snd (refreshConsole o quiet force s))
  | UpdateData f => Some (setConsoleData f s)
  | OwnerRequest options => Some (pool_upd (fun p => snd (requestJson options None None p)) s)
  end.

(** The interval is one of the presets. *)
Definition valid_props (p : Props) : Prop := Props.pollIntervalMs p ∈ [0; 5000; 15000; 30000].

Definition valid_action (a : hook_action) : Prop :=
  match a with Commit p _ _ => valid_props p | _ => True end.

Inductive hook_step : St -> St -> Prop :=
  | hook_step_perform o a s s' :
      valid_env (transport_env o) -> valid_action a -> perform o a s = Some s' -> hook_step s s'.

Inductive hook_reachable : St -> Prop :=
  | hook_mounted o p visible :
      valid_env (transport_env o) -> valid_props p -> hook_reachable (mount o p visible)
  | hook_stepped s s' : hook_reachable s -> hook_step s s' -> hook_reachable s'.
End Hook.
