(* ===== verification/LiveTasks.v ===== *)
(** The refreshes and inspections that the live data of LiveData.v has under way.

    [tasks_of] is the invariant of this view of the state: each has an
    AbortController of its own, and one that is not aborted is the latest.
    Most callbacks leave the view alone, which [keeps_tasks] says; the others
    start or finish one refresh or inspection. *)

From stdpp Require Import base list strings gmap relations.
From Stdlib Require Import ZArith Lia Bool.
From S2P Require Import Prelude JsString JsNum JsDate JsValue Models ApiRoutes Safe LiveRefresh.
From S2P Require Import LiveTransport ToastQueue ApiParsers RequestClient RequestPool ConsoleState.
From S2P Require Import Urls DemoData LiveState LiveData.

#[local] Open Scope Z_scope.

Section Hook.
Context `{UrlApi} `{HeadersApi} `{DateHost} `{Browser} `{ApiView}.

(** * Refreshes and inspections *)

(** The owners of the work under way. [fc] and [ic] are the controllers of the
    latest refresh and of the latest inspection of each job. *)
Record tasks_ok (p : Pool) (rs : list (nat * RefreshTask)) (ins : list (nat * InspectionTask))
    (fc : option nat) (ic : gmap string nat) (n : nat) : Prop := {
  t_pool : pool_reachable p;
  t_fetch : forall c, fc = Some c -> is_Some (controllers p !! c);
  t_inspect : forall j c, ic !! j = Some c -> is_Some (controllers p !! c);
  t_refresh : forall i t, (i, t) ∈ rs ->
    is_Some (controllers p !! refresh_controller t) /\
    (signal_aborted p (refresh_controller t) = true \/ fc = Some (refresh_controller t));
  t_inspection : forall i t, (i, t) ∈ ins ->
    is_Some (controllers p !! inspection_controller t) /\
    (signal_aborted p (inspection_controller t) = true \/
     ic !! inspection_job t = Some (inspection_controller t));
  t_refreshes : NoDup ((fun t => refresh_controller (snd t)) <$> rs);
  t_inspections : NoDup ((fun t => inspection_controller (snd t)) <$> ins);
  t_refresh_ids : NoDup rs.*1 /\ Forall (fun t => (fst t < n)%nat) rs;
  t_inspection_ids : NoDup ins.*1 /\ Forall (fun t => (fst t < n)%nat) ins
}.

Definition under_way (s : St) : Prop :=
  tasks_ok (St.pool s) (St.refreshTasks s) (St.inspectionTasks s)
    (Refs.fetchControllerRef (St.refs s)) (Refs.inspectionControllerRef (St.refs s)) (St.next s) /\
  forall p, Refs.fetchPromiseRef (St.refs s) = Some p -> p ∈ (St.refreshTasks s).*1.

(** A request that was made and whose promise has not been handled. *)
Definition waiting (p : Pool) (r : nat) : Prop :=
  exists q, requests p !! r = Some q /\ drained q = false.

Definition made (p : Pool) (waits : nat * nat * nat * nat) : Prop :=
  let '(a, b, c, d) := waits in Forall (fun r => is_Some (requests p !! r)) [a; b; c; d].

(** What is under way waits for a request. *)
Record waits_ok (p : Pool) (rs : list (nat * RefreshTask)) (ins : list (nat * InspectionTask))
  : Prop := {
  w_made : forall i t, (i, t) ∈ rs -> made p (refresh_waits t);
  w_refresh : forall i t, (i, t) ∈ rs -> all_settled p (refresh_waits t) = None;
  w_inspection_made : forall i t, (i, t) ∈ ins -> is_Some (requests p !! inspection_wait t);
  w_inspection : forall i t, (i, t) ∈ ins -> handled p (inspection_wait t) = None
}.

Definition tasks_of (s : St) : Prop :=
  under_way s /\ waits_ok (St.pool s) (St.refreshTasks s) (St.inspectionTasks s).

Lemma handled_keeps p p' r :
  keeps_requests p p' -> is_Some (requests p !! r) ->
  is_Some (requests p' !! r) /\ handled p' r = handled p r.
Proof.
  intros Hk [q Hq]. destruct (Hk r q Hq) as (q' & Hq' & Ed & Es & _). split; [by exists q' |].
  unfold handled, outcome. rewrite Hq, Hq'. cbn. rewrite Ed.
  destruct (drained q); [by rewrite Es | done].
Qed.

Lemma made_keeps p p' w :
  keeps_requests p p' -> made p w -> made p' w /\ all_settled p' w = all_settled p w.
Proof.
  intros Hk. destruct w as [[[a b] c] d]. unfold made, all_settled.
  rewrite !Forall_cons. intros (Ha & Hb & Hc & Hd & _).
  destruct (handled_keeps p p' a Hk Ha) as [Ha' ->], (handled_keeps p p' b Hk Hb) as [Hb' ->],
    (handled_keeps p p' c Hk Hc) as [Hc' ->], (handled_keeps p p' d Hk Hd) as [Hd' ->].
  split; [auto | done].
Qed.

Lemma waits_ok_pool p p' rs ins :
  waits_ok p rs ins -> keeps_requests p p' -> waits_ok p' rs ins.
Proof.
  intros [Hm Hr Him Hi] Hk. split; intros i t Ht.
  - apply (made_keeps p p' _ Hk (Hm i t Ht)).
  - rewrite (proj2 (made_keeps p p' _ Hk (Hm i t Ht))). eauto.
  - apply (handled_keeps p p' _ Hk (Him i t Ht)).
  - rewrite (proj2 (handled_keeps p p' _ Hk (Him i t Ht))). eauto.
Qed.

Lemma waiting_handled p r : waiting p r -> is_Some (requests p !! r) /\ handled p r = None.
Proof. intros (q & Hq & Hd). unfold handled. rewrite Hq. cbn. rewrite Hd. eauto. Qed.

Lemma waiting_keeps p p' r : keeps_requests p p' -> waiting p r -> waiting p' r.
Proof. intros Hk (q & Hq & Hd). destruct (Hk r q Hq) as (q' & Hq' & Ed & _). exists q'. by rewrite Ed. Qed.

(** ** The pool only grows *)

Lemma requestJson_step p options c k :
  (forall i, c = Some i -> is_Some (controllers p !! i)) ->
  rtc pool_step p (snd (requestJson options c k p)).
Proof. intros Hc. by apply rtc_once, pool_request. Qed.

Lemma pool_step_controllers p p' c :
  pool_step p p' -> is_Some (controllers p !! c) -> is_Some (controllers p' !! c).
Proof.
  intros Hs Hc. destruct Hs as [p | p c0 Hc0 | p o c0 k Hk | p id e p' E | p id p' E]; cbn.
  - apply lookup_insert_is_Some. destruct (decide (fresh p = c)); [by left | right; by split].
  - unfold abortController. case_match; [done |]. cbn. apply lookup_insert_is_Some.
    destruct (decide (c0 = c)); [by left | right; by split].
  - unfold requestJson. by case_match.
  - unfold net_event in E. by simplify_option_eq.
  - unfold drain in E. simplify_option_eq. case_match; by simplify_eq.
Qed.

Lemma pool_step_aborted p p' c :
  pool_reachable p -> pool_step p p' -> signal_aborted p c = true -> signal_aborted p' c = true.
Proof.
  intros Hp Hs Hc. unfold signal_aborted in *.
  destruct Hs as [p | p c0 Hc0 | p o c0 k Hk | p id e p' E | p id p' E]; cbn.
  - destruct (decide (fresh p = c)) as [<- | Hn]; [| by rewrite lookup_insert_ne].
    assert (controllers p !! fresh p = None) as E.
    { destruct (controllers p !! fresh p) eqn:E; [| done].
      assert (fresh p < fresh p)%nat by (apply (ok_fresh p (pool_reachable_ok p Hp)); right; eauto).
      lia. }
    by rewrite E in Hc.
  - unfold abortController. case_match; [done |]. cbn.
    destruct (decide (c0 = c)) as [<- | Hn]; [by rewrite lookup_insert_eq | by rewrite lookup_insert_ne].
  - unfold requestJson. by case_match.
  - unfold net_event in E. by simplify_option_eq.
  - unfold drain in E. simplify_option_eq. case_match; by simplify_eq.
Qed.

Lemma pool_steps p p' :
  pool_reachable p -> rtc pool_step p p' ->
  pool_reachable p' /\
  (forall c, is_Some (controllers p !! c) -> is_Some (controllers p' !! c)) /\
  (forall c, signal_aborted p c = true -> signal_aborted p' c = true).
Proof.
  intros Hp Hs. revert Hp. induction Hs as [p | p p1 p2 H1s H2s IH]; intros Hp; [done |].
  assert (pool_reachable p1) as Hp1 by by eapply rtc_r.
  destruct (IH Hp1) as (Ha & Hb & Hc). split_and!; [done | |].
  - intros c Hcc. apply Hb. by eapply pool_step_controllers.
  - intros c Hcc. apply Hc. exact (pool_step_aborted p p1 c Hp H1s Hcc).
Qed.

Lemma tasks_ok_pool p p' rs ins fc ic n :
  tasks_ok p rs ins fc ic n -> rtc pool_step p p' -> tasks_ok p' rs ins fc ic n.
Proof.
  intros [Hp Hf Hi Hr Hin H1' H2' H3' H4'] Hs.
  destruct (pool_steps p p' Hp Hs) as (Hp' & Hc & Ha).
  split; eauto.
  - intros i t Ht. destruct (Hr i t Ht) as [? [?|?]]; (split; [by apply Hc |]); [left; by apply Ha | by right].
  - intros i t Ht. destruct (Hin i t Ht) as [? [?|?]]; (split; [by apply Hc |]); [left; by apply Ha | by right].
Qed.

Lemma tasks_ok_next p rs ins fc ic n n' :
  tasks_ok p rs ins fc ic n -> (n <= n')%nat -> tasks_ok p rs ins fc ic n'.
Proof.
  intros [? ? ? ? ? ? ? [? Hr] [? Hi]] Hn. split; try done; (split; [done |]).
  - eapply Forall_impl; [exact Hr |]. cbn. lia.
  - eapply Forall_impl; [exact Hi |]. cbn. lia.
Qed.

(** ** Callbacks that leave the work under way alone *)

Record keeps_tasks (s s' : St) : Prop := {
  kt_pool : St.pool s' = St.pool s;
  kt_refreshes : St.refreshTasks s' = St.refreshTasks s;
  kt_inspections : St.inspectionTasks s' = St.inspectionTasks s;
  kt_fetch : Refs.fetchControllerRef (St.refs s') = Refs.fetchControllerRef (St.refs s);
  kt_inspect : Refs.inspectionControllerRef (St.refs s') = Refs.inspectionControllerRef (St.refs s);
  kt_promise : Refs.fetchPromiseRef (St.refs s') = Refs.fetchPromiseRef (St.refs s);
  kt_next : (St.next s <= St.next s')%nat
}.

#[export] Instance keeps_tasks_preorder : PreOrder keeps_tasks.
Proof.
  split; [by intros s |]. intros s1 s2 s3 [] []. split; try congruence. lia.
Qed.

Lemma tasks_of_keeps s s' : tasks_of s -> keeps_tasks s s' -> tasks_of s'.
Proof.
  intros [[Hs Hp] Hw] [E1 E2 E3 E4 E5 E6 E7]. unfold tasks_of, under_way.
  rewrite E1, E2, E3, E4, E5, E6. split_and!; [by eapply tasks_ok_next | done | done].
Qed.

(** An update of other fields. *)
Ltac keeps := split; cbn; (reflexivity || lia).

Lemma kt_hook f s : keeps_tasks s (hook_upd f s).
Proof. keeps. Qed.

Lemma kt_foldl {A} (f : St -> A -> St) l s :
  (forall s a, keeps_tasks s (f s a)) -> keeps_tasks s (foldl f s l).
Proof.
  intros Hf. revert s. induction l as [| a l IH]; intros s; [reflexivity |]. cbn.
  etransitivity; [apply Hf | apply IH].
Qed.

Lemma kt_status f s : keeps_tasks s (setTransportStatus f s).
Proof. keeps. Qed.

Lemma kt_clear id s : keeps_tasks s (clear_timeout id s).
Proof. destruct id; keeps. Qed.

Lemma kt_updateTransportStatus st s : keeps_tasks s (updateTransportStatus st s).
Proof. unfold updateTransportStatus. case_match; keeps. Qed.

Lemma kt_scheduleConsoleRefresh s : keeps_tasks s (scheduleConsoleRefresh s).
Proof.
  unfold scheduleConsoleRefresh. etransitivity; [apply (kt_clear (Refs.refreshDebounceRef (St.refs s))) |].
  keeps.
Qed.

Lemma kt_flushPendingEvents s : keeps_tasks s (flushPendingEvents s).
Proof.
  unfold flushPendingEvents.
  repeat case_match; try keeps; (etransitivity; [| apply kt_scheduleConsoleRefresh]; keeps).
Qed.

Lemma kt_queueLiveEvent e s : keeps_tasks s (queueLiveEvent e s).
Proof. unfold queueLiveEvent. case_match; keeps. Qed.

Lemma kt_scheduleInspectionRefresh j s : keeps_tasks s (scheduleInspectionRefresh j s).
Proof.
  unfold scheduleInspectionRefresh. case_match; [reflexivity |].
  etransitivity; [apply (kt_clear (Refs.inspectionDebounceRef (St.refs s) !! j)) |]. keeps.
Qed.

Lemma kt_callback o c s : keeps_tasks s (callback o c s).
Proof.
  destruct c; cbn [callback].
  - apply kt_updateTransportStatus.
  - unfold onEvent. case_match; [| apply kt_queueLiveEvent].
    etransitivity; [apply kt_queueLiveEvent | apply kt_scheduleInspectionRefresh].
  - keeps.
Qed.

Lemma kt_manager_action o id a s s' : manager_action o id a s = Some s' -> keeps_tasks s s'.
Proof.
  unfold manager_action. destruct (St.managers s !! id) as [[options m] |]; [| done]. cbn.
  destruct (LiveTransport.perform _ _ _ _) as [m' |]; [| done]. cbn. intros [= <-].
  etransitivity; [| apply kt_foldl; intros; apply kt_callback]. keeps.
Qed.

Lemma kt_call_manager o id a s : keeps_tasks s (call_manager o id a s).
Proof.
  destruct id as [id |]; [| reflexivity]. cbn.
  destruct (manager_action o id a s) eqn:E; cbn; [by eapply kt_manager_action | reflexivity].
Qed.

Lemma kt_scheduleNext id s : keeps_tasks s (scheduleNext id s).
Proof.
  unfold scheduleNext. destruct (St.loops s !! id) as [l |]; [| reflexivity].
  destruct (next_delay l s); keeps.
Qed.

Lemma kt_resume_loop id s : keeps_tasks s (resume_loop id s).
Proof.
  unfold resume_loop. repeat case_match; try keeps.
  etransitivity; [| apply kt_scheduleNext]. keeps.
Qed.

Lemma kt_resolve_refresh p s : keeps_tasks s (resolve_refresh p s).
Proof. apply kt_foldl. intros. apply kt_resume_loop. Qed.

Lemma kt_applyInspectionFallback j s s' :
  applyInspectionFallback j s = Ok s' -> keeps_tasks s s'.
Proof.
  unfold applyInspectionFallback. intros E. apply result_bind_ok in E as ([i |] & _ & E).
  - destruct (decide _); injection E as <-; [reflexivity | keeps].
  - by injection E as <-.
Qed.

Lemma kt_invalid_base_url q s : keeps_tasks s (invalid_base_url q s).
Proof. unfold invalid_base_url. case_match; keeps. Qed.

(** ** Starting work *)

Lemma abort_tasks id s :
  tasks_of s -> (forall c, id = Some c -> is_Some (controllers (St.pool s) !! c)) ->
  tasks_of (abort_controller id s).
Proof.
  intros [[Hs Hp] Hw] Hc. destruct id as [c |]; [| done].
  split; [split; [| done] |].
  - eapply tasks_ok_pool; [exact Hs |]. apply rtc_once, pool_abort. by apply Hc.
  - eapply waits_ok_pool; [exact Hw |]. apply keeps_abort, pool_reachable_ok, Hs.
Qed.

(** [get] changes the pool only; [c] can be used again. *)
Definition got (c : nat) (s s' : St) : Prop :=
  s' = St.set_pool (St.pool s') s /\ rtc pool_step (St.pool s) (St.pool s') /\
  pool_reachable (St.pool s') /\ is_Some (controllers (St.pool s') !! c) /\
  keeps_requests (St.pool s) (St.pool s') /\ controllers (St.pool s') = controllers (St.pool s).

Lemma requestJson_controllers options c k p :
  controllers (snd (requestJson options c k p)) = controllers p.
Proof. unfold requestJson. by case_match. Qed.

Lemma get_got path k f c s0 s id s' :
  got c s0 s -> get path k f c s = (id, s') ->
  got c s0 s' /\ waiting (St.pool s') id /\ keeps_requests (St.pool s) (St.pool s').
Proof.
  unfold get. intros (E0 & Hs & Hp & Hc & Hk & Ec) E.
  destruct (requestJson _ _ _ _) as [r q] eqn:ER in E. injection E as <- <-.
  assert (rtc pool_step (St.pool s) q) as Hq.
  { change q with (snd (r, q)). rewrite <- ER. apply requestJson_step. by intros i [= <-]. }
  destruct (pool_steps _ _ Hp Hq) as (Hp' & Hc' & _). apply pool_reachable_ok in Hp as Hok.
  assert (keeps_requests (St.pool s) q) as Hkq.
  { change q with (snd (r, q)). rewrite <- ER. by apply keeps_request. }
  assert (controllers q = controllers (St.pool s)) as Ecq
    by (change q with (snd (r, q)); rewrite <- ER; apply requestJson_controllers).
  cbn. split_and!; [| by eapply given_unhandled | done]. split_and!; cbn.
  - rewrite E0. done.
  - by etransitivity.
  - done.
  - by apply Hc'.
  - by etransitivity.
  - congruence.
Qed.

Lemma snoc_NoDup {A B} (f : A -> B) (l : list A) (x : A) :
  NoDup (f <$> l) -> (forall y, y ∈ l -> f y <> f x) -> NoDup (f <$> l ++ [x]).
Proof.
  intros Hd Hx. rewrite fmap_app. apply NoDup_app. split_and!; [done | | apply NoDup_singleton].
  intros b Hb Hb'. apply list_elem_of_fmap in Hb as (y & -> & Hy).
  apply list_elem_of_singleton in Hb'. by apply (Hx y).
Qed.

Lemma snoc_ids {A} (l : list (nat * A)) n (t : A) :
  NoDup l.*1 /\ Forall (fun t => (fst t < n)%nat) l ->
  NoDup (l ++ [(n, t)]).*1 /\ Forall (fun t => (fst t < S n)%nat) (l ++ [(n, t)]).
Proof.
  intros [Hd Hlt]. split.
  - apply snoc_NoDup; [done |]. intros y Hy. rewrite Forall_forall in Hlt.
    specialize (Hlt y Hy). cbn. lia.
  - apply Forall_app. split; [eapply Forall_impl; [exact Hlt | cbn; lia] | repeat constructor].
Qed.

(** A fresh controller is nobody's. *)
Lemma fresh_controller p :
  pool_reachable p ->
  is_Some (controllers (snd (newController p)) !! fresh p) /\
  forall c, is_Some (controllers p !! c) -> c <> fresh p.
Proof.
  intros Hp. split; [cbn; by rewrite lookup_insert_eq |].
  intros c Hc ->. assert (fresh p < fresh p)%nat; [| lia].
  apply (ok_fresh p (pool_reachable_ok p Hp)). by right.
Qed.

Lemma add_refresh p p' rs ins fc ic n t :
  tasks_ok p rs ins fc ic n ->
  (forall c, fc = Some c -> signal_aborted p c = true) ->
  refresh_controller t = fresh p -> rtc pool_step (snd (newController p)) p' ->
  tasks_ok p' (rs ++ [(n, t)]) ins (Some (fresh p)) ic (S n).
Proof.
  intros Hok Hfc Ht Hs. pose proof (t_pool _ _ _ _ _ _ Hok) as Hp.
  destruct (fresh_controller p Hp) as [Hc Hfresh].
  assert (rtc pool_step p p') as Hs' by (eapply rtc_l; [apply pool_new | exact Hs]).
  pose proof (tasks_ok_pool _ _ _ _ _ _ _ Hok Hs') as [Hp' _ Hi Hr Hin Hnr Hni Hrefreshes Hinspections].
  assert (is_Some (controllers p' !! fresh p)) as Hc'.
  { eapply (pool_steps (snd (newController p))); [eapply rtc_r; [exact Hp | apply pool_new] | done | done]. }
  assert (forall c, signal_aborted p c = true -> signal_aborted p' c = true) as Ha
    by by apply pool_steps.
  split; try done.
  - by intros c [= <-].
  - intros i u [Hu | Hu]%elem_of_app.
    + destruct (Hr i u Hu) as [? [?|Hf]]; (split; [done |]); left; [done |]. apply Ha. by apply Hfc.
    + apply list_elem_of_singleton in Hu as [= -> ->]. rewrite Ht. auto.
  - apply snoc_NoDup; [done |]. intros [i u] Hu. cbn. rewrite Ht. apply Hfresh.
    by eapply (t_refresh _ _ _ _ _ _ Hok).
  - by apply snoc_ids.
  - split; [apply Hinspections |]. eapply Forall_impl; [exact (proj2 Hinspections) | cbn; lia].
Qed.

Lemma add_inspection p p' rs ins fc ic n j t :
  tasks_ok p rs ins fc ic n ->
  (forall c, ic !! j = Some c -> signal_aborted p c = true) ->
  inspection_job t = j -> inspection_controller t = fresh p ->
  rtc pool_step (snd (newController p)) p' ->
  tasks_ok p' rs (ins ++ [(n, t)]) fc (<[j := fresh p]> ic) (S n).
Proof.
  intros Hok Hic Hj Ht Hs. pose proof (t_pool _ _ _ _ _ _ Hok) as Hp.
  destruct (fresh_controller p Hp) as [Hc Hfresh].
  assert (rtc pool_step p p') as Hs' by (eapply rtc_l; [apply pool_new | exact Hs]).
  pose proof (tasks_ok_pool _ _ _ _ _ _ _ Hok Hs') as [Hp' Hf Hi Hr Hin Hnr Hni Hrefreshes Hinspections].
  assert (is_Some (controllers p' !! fresh p)) as Hc'.
  { eapply (pool_steps (snd (newController p))); [eapply rtc_r; [exact Hp | apply pool_new] | done | done]. }
  assert (forall c, signal_aborted p c = true -> signal_aborted p' c = true) as Ha
    by by apply pool_steps.
  split; try done.
  - intros j' c [[_ <-] | [_ ?]]%lookup_insert_Some; eauto.
  - intros i u [Hu | Hu]%elem_of_app.
    + destruct (Hin i u Hu) as [? [?|Hf']]; (split; [done |]); [by left |].
      destruct (decide (inspection_job u = j)) as [E | Hn].
      * left. apply Ha, Hic. by rewrite <- E.
      * right. by rewrite lookup_insert_ne.
    + apply list_elem_of_singleton in Hu as [= -> ->]. rewrite Ht, Hj, lookup_insert_eq. auto.
  - apply snoc_NoDup; [done |]. intros [i u] Hu. cbn. rewrite Ht. apply Hfresh.
    by eapply (t_inspection _ _ _ _ _ _ Hok).
  - split; [apply Hrefreshes |]. eapply Forall_impl; [exact (proj2 Hrefreshes) | cbn; lia].
  - by apply snoc_ids.
Qed.

Lemma abort_aborted c p : signal_aborted (abortController c p) c = true.
Proof.
  unfold abortController. destruct (signal_aborted p c) eqn:E; [done |].
  unfold signal_aborted. cbn. by rewrite lookup_insert_eq.
Qed.

Lemma abort_aborted_opt fc s c :
  fc = Some c -> signal_aborted (St.pool (abort_controller fc s)) c = true.
Proof. intros ->. apply abort_aborted. Qed.

Lemma new_controller_eq s :
  new_controller s = (fresh (St.pool s), St.set_pool (snd (newController (St.pool s))) s).
Proof. done. Qed.

Lemma waits_add_refresh p rs ins n t :
  waits_ok p rs ins ->
  (let '(a, b, c, d) := refresh_waits t in Forall (waiting p) [a; b; c; d]) ->
  waits_ok p (rs ++ [(n, t)]) ins.
Proof.
  intros [Hm Hr Him Hi] Ht.
  assert (made p (refresh_waits t) /\ all_settled p (refresh_waits t) = None) as [Hm' Hs'].
  { destruct (refresh_waits t) as [[[a b] c] d]. rewrite !Forall_cons in Ht.
    destruct Ht as ([Ha Ea]%waiting_handled & [Hb Eb]%waiting_handled & [Hc Ec]%waiting_handled &
      [Hd Ed]%waiting_handled & _).
    split; [by repeat constructor |]. unfold all_settled. by rewrite Ea, Eb, Ec, Ed. }
  split; [| | done | done]; intros i u [Hu | Hu]%elem_of_app; eauto;
    by apply list_elem_of_singleton in Hu as [= -> ->].
Qed.

Lemma waits_add_inspection p rs ins n t :
  waits_ok p rs ins -> waiting p (inspection_wait t) -> waits_ok p rs (ins ++ [(n, t)]).
Proof.
  intros [Hm Hr Him Hi] [Ht Et]%waiting_handled.
  split; [done | done | |]; intros i u [Hu | Hu]%elem_of_app; eauto;
    by apply list_elem_of_singleton in Hu as [= -> ->].
Qed.

(** [s2] has a fresh controller [c] after [s1]. *)
Lemma got_start s1 s2 c :
  pool_reachable (St.pool s1) -> c = fresh (St.pool s1) ->
  St.pool s2 = snd (newController (St.pool s1)) -> got c s2 s2.
Proof.
  intros Hp -> Ep. split_and!; [by destruct s2 | done | | | done | done].
  - rewrite Ep. eapply rtc_r; [exact Hp | apply pool_new].
  - rewrite Ep. by apply fresh_controller.
Qed.

(** A refresh began, under the controller [c], with the requests [w]. *)
Record begins_refresh (quiet : bool) (s s' : St) (c : nat) (w : nat * nat * nat * nat) : Prop := {
  br_pool : rtc pool_step (snd (newController (St.pool s))) (St.pool s');
  br_requests : keeps_requests (St.pool s) (St.pool s');
  br_controller : c = fresh (St.pool s);
  br_controllers : controllers (St.pool s') = controllers (snd (newController (St.pool s)));
  br_waits : let '(a, b, d, e) := w in Forall (waiting (St.pool s')) [a; b; d; e];
  br_refreshes : St.refreshTasks s' = St.refreshTasks s ++
    [(St.next s, {| refresh_controller := c; refresh_quiet := quiet; refresh_waits := w |})];
  br_inspections : St.inspectionTasks s' = St.inspectionTasks s;
  br_next : St.next s' = S (St.next s);
  br_fetch : Refs.fetchControllerRef (St.refs s') = Some c;
  br_inspect : Refs.inspectionControllerRef (St.refs s') = Refs.inspectionControllerRef (St.refs s);
  br_promise : Refs.fetchPromiseRef (St.refs s') = Some (St.next s);
  br_props : St.props s' = St.props s;
  br_notified : St.notified s' = St.notified s
}.

Lemma start_refresh_begins q s :
  let s1 := abort_controller (Refs.fetchControllerRef (St.refs s)) s in
  pool_reachable (St.pool s1) ->
  exists c w, begins_refresh q s1 (snd (start_refresh q s)) c w.
Proof.
  cbn zeta. unfold start_refresh. set (s1 := abort_controller _ s). intros Hp.
  rewrite new_controller_eq. cbn zeta beta iota.
  set (s2 := if negb _ then _ else _).
  assert (St.pool s2 = snd (newController (St.pool s1)) /\ St.refreshTasks s2 = St.refreshTasks s1 /\
          St.inspectionTasks s2 = St.inspectionTasks s1 /\ St.next s2 = St.next s1 /\
          Refs.fetchControllerRef (St.refs s2) = Some (fresh (St.pool s1)) /\
          Refs.inspectionControllerRef (St.refs s2) = Refs.inspectionControllerRef (St.refs s1) /\
          St.props s2 = St.props s1 /\ St.notified s2 = St.notified s1)
    as (Ep & Er & Ei & En & Ef & Ec & Epr & Eno) by (unfold s2; repeat case_match; done).
  clearbody s2. set (c := fresh (St.pool s1)).
  assert (got c s2 s2) as G2 by (apply (got_start s1); [exact Hp | done | exact Ep]).
  destruct (get API_ROUTES.dashboardSnapshot _ _ _ s2) as [a s3] eqn:E3.
  eapply get_got in E3 as (G3 & Wa & _); [| exact G2].
  destruct (get _ _ _ _ s3) as [b s4] eqn:E4. eapply get_got in E4 as (G4 & Wb & K4); [| exact G3].
  destruct (get _ _ _ _ s4) as [d s5] eqn:E5. eapply get_got in E5 as (G5 & Wd & K5); [| exact G4].
  destruct (get _ _ _ _ s5) as [e s6] eqn:E6.
  eapply get_got in E6 as ((E & G & _ & _ & K & EC) & We & K6); [| exact G5].
  assert (Forall (waiting (St.pool s6)) [a; b; d; e]) as W.
  { repeat apply Forall_cons_2; [| | | exact We | constructor]; eauto using waiting_keeps. }
  clear - Ep Er Ei En Ef Ec Epr Eno E G K EC W. rewrite E. clear E.
  set (p6 := St.pool s6) in *. clearbody p6. exists c, (a, b, d, e).
  rewrite Ep in G, K, EC. assert (keeps_requests (St.pool s1) p6) as K1.
  { etransitivity; [apply keeps_new | exact K]. }
  assert (c = fresh (St.pool s1)) as Efr by done. clearbody c.
  rewrite <- Efr in Ef. split; try (cbn; rewrite ?Er, ?Ei, ?En, ?Ef, ?Ec, ?Epr, ?Eno; done).
Qed.

Lemma abort_fetch_tasks s :
  tasks_of s -> tasks_of (abort_controller (Refs.fetchControllerRef (St.refs s)) s).
Proof. intros Hs. apply abort_tasks; [done |]. intros c Hc. by eapply t_fetch; [apply Hs |]. Qed.

Lemma start_refresh_tasks q s : tasks_of s -> tasks_of (snd (start_refresh q s)).
Proof.
  intros Hs. pose proof (abort_fetch_tasks s Hs) as [[H1s H1p] H1w].
  destruct (start_refresh_begins q s (t_pool _ _ _ _ _ _ H1s)) as (c & w & [B1 B2 -> _ B4 B5 B6 B7 B8 B9 B10 _ _]).
  set (s1 := abort_controller (Refs.fetchControllerRef (St.refs s)) s) in *.
  assert (forall c, Refs.fetchControllerRef (St.refs s1) = Some c ->
                    signal_aborted (St.pool s1) c = true) as Hfc.
  { intros c Hc. unfold s1 in *. destruct (Refs.fetchControllerRef (St.refs s)) eqn:E; cbn in Hc;
      rewrite E in Hc; [injection Hc as ->; by apply abort_aborted_opt | done]. }
  set (s' := snd (start_refresh q s)) in *. clearbody s'.
  split; [split |]; rewrite ?B5, ?B6, ?B7, ?B8, ?B9, ?B10.
  - by eapply add_refresh.
  - intros p [= <-]. rewrite fmap_app. apply elem_of_app. right. by left.
  - apply waits_add_refresh; [by eapply waits_ok_pool | exact B4].
Qed.

Lemma refreshConsole_tasks o q f s : tasks_of s -> tasks_of (snd (refreshConsole o q f s)).
Proof.
  intros Hs. unfold refreshConsole. destruct (negb (Props.liveMode (St.props s))); [done |].
  set (s' := if q then s else _).
  assert (tasks_of s') as Hs' by (unfold s'; destruct q; [done | by eapply tasks_of_keeps; [| apply kt_hook]]).
  clearbody s'. destruct (negb (opt_truthy _)).
  { cbn. eapply tasks_of_keeps; [exact Hs' | apply kt_invalid_base_url]. }
  pose proof (start_refresh_tasks q s' Hs') as HR.
  destruct (Refs.fetchPromiseRef (St.refs s')), f; try done;
    destruct (start_refresh q s') as [pr s'']; exact HR.
Qed.

Lemma start_inspection_tasks j s : tasks_of s -> tasks_of (start_inspection j s).
Proof.
  intros Hs. unfold start_inspection.
  set (s1 := abort_controller (Refs.inspectionControllerRef (St.refs s) !! j) s).
  assert (tasks_of s1) as [[H1s H1p] H1w].
  { apply abort_tasks; [done |]. intros c Hc. by eapply t_inspect; [apply Hs |]. }
  assert (forall c, Refs.inspectionControllerRef (St.refs s1) !! j = Some c ->
                    signal_aborted (St.pool s1) c = true) as Hic.
  { intros c Hc. apply abort_aborted_opt. rewrite <- Hc. unfold s1, abort_controller. by case_match. }
  rewrite new_controller_eq. cbn zeta beta iota.
  match goal with |- context [get ?p ?k ?f ?c ?x] => set (s2 := x) end.
  assert (St.pool s2 = snd (newController (St.pool s1)) /\ St.refreshTasks s2 = St.refreshTasks s1 /\
          St.inspectionTasks s2 = St.inspectionTasks s1 /\ St.next s2 = St.next s1 /\
          Refs.fetchControllerRef (St.refs s2) = Refs.fetchControllerRef (St.refs s1) /\
          Refs.fetchPromiseRef (St.refs s2) = Refs.fetchPromiseRef (St.refs s1) /\
          Refs.inspectionControllerRef (St.refs s2) =
            <[j := fresh (St.pool s1)]> (Refs.inspectionControllerRef (St.refs s1)))
    as (Ep & Er & Ei & En & Ef & Epr & Ec) by done.
  clearbody s2. set (c := fresh (St.pool s1)).
  assert (got c s2 s2) as G2 by (apply (got_start s1); [apply H1s | done | exact Ep]).
  destruct (get _ _ _ _ s2) as [a s3] eqn:E3.
  eapply get_got in E3 as ((E & G & _ & _ & K & _) & W & _); [| exact G2].
  clear - H1s H1p H1w Hic Ep Er Ei En Ef Epr Ec E G K W. rewrite E. clear E.
  set (p3 := St.pool s3) in *. clearbody p3.
  split; [split |]; cbn; rewrite ?Er, ?Ei, ?En, ?Ef, ?Epr, ?Ec.
  - eapply (add_inspection (St.pool s1)); [exact H1s | exact Hic | done | done |]. by rewrite <- Ep.
  - exact H1p.
  - apply waits_add_inspection; [| exact W]. eapply waits_ok_pool; [exact H1w |].
    etransitivity; [apply keeps_new |]. by rewrite <- Ep.
Qed.

Lemma refreshInspection_tasks o j f s : tasks_of s -> tasks_of (refreshInspection o j f s).
Proof.
  intros Hs. unfold refreshInspection. destruct (negb (truthy j)); [done |].
  destruct (_ || _).
  - destruct (applyInspectionFallback j s) as [s' |] eqn:E; [| done].
    eapply tasks_of_keeps; [exact Hs |]. etransitivity; [by eapply kt_applyInspectionFallback | apply kt_hook].
  - destruct (_ && _); [done | by apply start_inspection_tasks].
Qed.

(** ** Finishing work *)

Lemma without_spec {A} i (l : list (nat * A)) x : x ∈ without i l <-> x ∈ l /\ fst x <> i.
Proof.
  unfold without. rewrite list_elem_of_In, List.filter_In, <- list_elem_of_In.
  by rewrite negb_true_iff, Nat.eqb_neq.
Qed.

Lemma without_sublist {A} i (l : list (nat * A)) : sublist (without i l) l.
Proof.
  unfold without. induction l as [| x l IH]; cbn; [constructor |].
  destruct (negb _); by constructor.
Qed.

Lemma without_NoDup {A B} (f : nat * A -> B) i l : NoDup (f <$> l) -> NoDup (f <$> without i l).
Proof. intros Hd. eapply sublist_NoDup; [exact Hd |]. apply fmap_sublist, without_sublist. Qed.

Lemma without_ids {A} i (l : list (nat * A)) n :
  NoDup l.*1 /\ Forall (fun t => (fst t < n)%nat) l ->
  NoDup (without i l).*1 /\ Forall (fun t => (fst t < n)%nat) (without i l).
Proof.
  intros [Hd Hlt]. split; [by apply without_NoDup |].
  rewrite Forall_forall in *. intros x [Hx _]%without_spec. by apply Hlt.
Qed.

(** Two entries of a list of distinct values are one. *)
Lemma NoDup_fmap_eq {A B} (f : A -> B) l x y :
  NoDup (f <$> l) -> x ∈ l -> y ∈ l -> f x = f y -> x = y.
Proof.
  intros Hd Hx Hy E. apply list_elem_of_lookup in Hx as [i Hi], Hy as [j Hj].
  assert (i = j) as ->.
  { eapply NoDup_lookup; [exact Hd | by rewrite list_lookup_fmap, Hi |].
    by rewrite list_lookup_fmap, Hj, E. }
  congruence.
Qed.

Lemma finish_refresh p rs ins fc ic n i t :
  tasks_ok p rs ins fc ic n -> (i, t) ∈ rs ->
  tasks_ok p (without i rs) ins
    (if decide (fc = Some (refresh_controller t)) then None else fc) ic n.
Proof.
  intros [Hp Hf Hi Hr Hin Hnr Hni Hrefreshes Hinspections] Ht. split; try done.
  - intros c. destruct (decide _); [done | apply Hf].
  - intros k u [Hu Hne]%without_spec. destruct (Hr k u Hu) as [Hc [Ha | Hfc]]; (split; [done |]);
      [by left |].
    destruct (decide _) as [E | E]; [| by right]. exfalso. apply Hne.
    assert ((k, u) = (i, t)) as [= -> ->]; [| done].
    eapply (NoDup_fmap_eq (fun t => refresh_controller (snd t))); [exact Hnr | done | done |].
    cbn. congruence.
  - by apply without_NoDup.
  - by apply without_ids.
Qed.

Lemma finish_inspection p rs ins fc ic n i t :
  tasks_ok p rs ins fc ic n -> (i, t) ∈ ins ->
  tasks_ok p rs (without i ins) fc
    (if decide (ic !! inspection_job t = Some (inspection_controller t))
     then delete (inspection_job t) ic else ic) n.
Proof.
  intros [Hp Hf Hi Hr Hin Hnr Hni Hrefreshes Hinspections] Ht. split; try done.
  - intros j c. destruct (decide _); [| apply Hi]. intros [_ ?]%lookup_delete_Some. eauto.
  - intros k u [Hu Hne]%without_spec. destruct (Hin k u Hu) as [Hc [Ha | Hic]]; (split; [done |]);
      [by left |].
    destruct (decide _) as [E | E]; [| by right].
    destruct (decide (inspection_job u = inspection_job t)) as [Ej | Hj].
    + exfalso. apply Hne. assert ((k, u) = (i, t)) as [= -> ->]; [| done].
      eapply (NoDup_fmap_eq (fun t => inspection_controller (snd t))); [exact Hni | done | done |].
      cbn. congruence.
    + right. by rewrite lookup_delete_ne.
  - by apply without_NoDup.
  - by apply without_ids.
Qed.

(** What a task that ends leaves of the view. *)
Record ends_refresh (t : RefreshTask) (s s' : St) : Prop := {
  er_pool : St.pool s' = St.pool s;
  er_refreshes : St.refreshTasks s' = St.refreshTasks s;
  er_inspections : St.inspectionTasks s' = St.inspectionTasks s;
  er_fetch : Refs.fetchControllerRef (St.refs s') =
    if decide (Refs.fetchControllerRef (St.refs s) = Some (refresh_controller t)) then None
    else Refs.fetchControllerRef (St.refs s);
  er_inspect : Refs.inspectionControllerRef (St.refs s') = Refs.inspectionControllerRef (St.refs s);
  er_promise : Refs.fetchPromiseRef (St.refs s') = None;
  er_next : (St.next s <= St.next s')%nat
}.

Lemma end_refresh_ends t s : ends_refresh t s (end_refresh t s).
Proof. unfold end_refresh. destruct (decide _) as [E|E], (refresh_quiet t); split; cbn; by rewrite ?decide_True, ?decide_False by done. Qed.

Lemma ends_after_keeps t s s' s'' : keeps_tasks s s' -> ends_refresh t s' s'' -> ends_refresh t s s''.
Proof.
  intros [A1 A2 A3 A4 A5 A6 A7] [B1 B2 B3 B4 B5 B6 B7]. rewrite A1, A2, A3, A4, A5 in *.
  split; try congruence. lia.
Qed.

Lemma ends_then_keeps t s s' s'' : ends_refresh t s s' -> keeps_tasks s' s'' -> ends_refresh t s s''.
Proof. intros [] []. split; try congruence. lia. Qed.

Lemma kt_refresh_succeeded o a b c d s : keeps_tasks s (refresh_succeeded o a b c d s).
Proof. unfold refresh_succeeded. destruct (_ || _); keeps. Qed.

Lemma continue_refresh_ends o t settled s : ends_refresh t s (continue_refresh o t settled s).
Proof.
  unfold continue_refresh. destruct (signal_aborted _ _); [apply end_refresh_ends |].
  destruct settled as [reason | [[[a b] c] d]];
    (eapply ends_after_keeps; [| apply end_refresh_ends]); [keeps | apply kt_refresh_succeeded].
Qed.

(** Handling the promise of a request: [l] are the refreshes yet to be looked
    at; those passed over wait for another request. *)
Definition passed_over (l : list (nat * RefreshTask)) (s : St) : Prop :=
  forall u, u ∈ St.refreshTasks s -> u ∈ l \/ all_settled (St.pool s) (refresh_waits (snd u)) = None.

Lemma advance_refresh_tasks o s t l :
  under_way s -> t ∈ St.refreshTasks s -> passed_over (t :: l) s ->
  let s' := advance_refresh o s t in
  under_way s' /\ passed_over l s' /\ St.pool s' = St.pool s /\
  St.inspectionTasks s' = St.inspectionTasks s /\
  (forall u, u ∈ St.refreshTasks s' -> u ∈ St.refreshTasks s) /\
  (forall u, u ∈ St.refreshTasks s -> fst u <> fst t -> u ∈ St.refreshTasks s').
Proof.
  destruct t as [i t]. intros [Hs Hp] Ht Hl. unfold advance_refresh. cbn [fst snd].
  destruct (all_settled _ _) as [settled |] eqn:Eset.
  2: { cbn zeta. split_and!; [done | | done | done | done | done]. intros u Hu.
       destruct (Hl u Hu) as [[-> | Hu']%elem_of_cons | E]; [by right | by left | by right]. }
  set (s1 := St.set_refreshTasks _ s).
  assert (ends_refresh t s1 (resolve_refresh i (continue_refresh o t settled s1)))
    as [E1 E2 E3 E4 E5 E6 E7].
  { eapply ends_then_keeps; [apply continue_refresh_ends | apply kt_resolve_refresh]. }
  cbn zeta. split_and!; [split | | exact E1 | exact E3 | |].
  - rewrite E1, E2, E3, E4, E5. eapply tasks_ok_next; [| exact E7]. by apply finish_refresh.
  - by rewrite E6.
  - intros u Hu. rewrite E1. rewrite E2 in Hu. apply without_spec in Hu as [Hu Hne].
    destruct (Hl u Hu) as [[-> | Hu']%elem_of_cons | E]; [done | by left | by right].
  - intros u Hu. rewrite E2 in Hu. by apply without_spec in Hu as [? _].
  - intros u Hu Hne. rewrite E2. by apply without_spec.
Qed.

Lemma advance_refreshes_tasks o l s :
  under_way s -> (forall t, t ∈ l -> t ∈ St.refreshTasks s) -> NoDup l.*1 -> passed_over l s ->
  let s' := foldl (advance_refresh o) s l in
  under_way s' /\ passed_over [] s' /\ St.pool s' = St.pool s /\
  St.inspectionTasks s' = St.inspectionTasks s /\
  (forall u, u ∈ St.refreshTasks s' -> u ∈ St.refreshTasks s).
Proof.
  revert s. induction l as [| t l IH]; intros s Hs Hin Hd Hl; [done |]. cbn in *.
  apply NoDup_cons in Hd as [Hn Hd].
  destruct (advance_refresh_tasks o s t l) as (Hs' & Hl' & Ep & Ei & Hsub & Hin');
    [done | apply Hin; by left | done |].
  destruct (IH (advance_refresh o s t)) as (H1s & H2s & H3s & H4s & H5s); [done | | done | done |].
  - intros u Hu. apply Hin'; [apply Hin; by right |].
    intros E. apply Hn. rewrite <- E. by apply list_elem_of_fmap_2.
  - split_and!; [done | done | congruence | congruence | eauto].
Qed.

(** The same for inspections. *)
Record ends_inspection (t : InspectionTask) (s s' : St) : Prop := {
  ei_pool : St.pool s' = St.pool s;
  ei_refreshes : St.refreshTasks s' = St.refreshTasks s;
  ei_inspections : St.inspectionTasks s' = St.inspectionTasks s;
  ei_fetch : Refs.fetchControllerRef (St.refs s') = Refs.fetchControllerRef (St.refs s);
  ei_inspect : Refs.inspectionControllerRef (St.refs s') =
    let ic := Refs.inspectionControllerRef (St.refs s) in
    if decide (ic !! inspection_job t = Some (inspection_controller t))
    then delete (inspection_job t) ic else ic;
  ei_promise : Refs.fetchPromiseRef (St.refs s') = Refs.fetchPromiseRef (St.refs s);
  ei_next : (St.next s <= St.next s')%nat
}.

Lemma end_inspection_ends t s s' : keeps_tasks s s' -> ends_inspection t s (end_inspection t s').
Proof.
  intros [A1 A2 A3 A4 A5 A6 A7]. unfold end_inspection. cbn zeta. rewrite A5.
  destruct (decide _) as [E | E]; split; cbn; rewrite ?decide_True, ?decide_False by done;
    (done || congruence).
Qed.

Lemma continue_inspection_ends o t settled s : ends_inspection t s (continue_inspection o t settled s).
Proof.
  unfold continue_inspection. destruct (signal_aborted _ _); [by apply end_inspection_ends |].
  destruct settled as [v | reason].
  - apply end_inspection_ends. destruct (decide _); keeps.
  - destruct (applyInspectionFallback _ s) as [s' |] eqn:E; [| by apply end_inspection_ends].
    apply end_inspection_ends. etransitivity; [by eapply kt_applyInspectionFallback | keeps].
Qed.

Definition inspections_passed_over (l : list (nat * InspectionTask)) (s : St) : Prop :=
  forall u, u ∈ St.inspectionTasks s -> u ∈ l \/ handled (St.pool s) (inspection_wait (snd u)) = None.

Lemma advance_inspection_tasks o s t l :
  under_way s -> t ∈ St.inspectionTasks s -> inspections_passed_over (t :: l) s ->
  let s' := advance_inspection o s t in
  under_way s' /\ inspections_passed_over l s' /\ St.pool s' = St.pool s /\
  St.refreshTasks s' = St.refreshTasks s /\
  (forall u, u ∈ St.inspectionTasks s' -> u ∈ St.inspectionTasks s) /\
  (forall u, u ∈ St.inspectionTasks s -> fst u <> fst t -> u ∈ St.inspectionTasks s').
Proof.
  destruct t as [i t]. intros [Hs Hp] Ht Hl. unfold advance_inspection. cbn [fst snd].
  destruct (handled _ _) as [settled |] eqn:Eset.
  2: { cbn zeta. split_and!; [done | | done | done | done | done]. intros u Hu.
       destruct (Hl u Hu) as [[-> | Hu']%elem_of_cons | E]; [by right | by left | by right]. }
  set (s1 := St.set_inspectionTasks _ s).
  destruct (continue_inspection_ends o t settled s1) as [E1 E2 E3 E4 E5 E6 E7].
  cbn zeta. split_and!; [split | | exact E1 | exact E2 | |].
  - rewrite E1, E2, E3, E4, E5. eapply tasks_ok_next; [| exact E7]. by apply finish_inspection.
  - rewrite E6, E2. exact Hp.
  - intros u Hu. rewrite E1. rewrite E3 in Hu. apply without_spec in Hu as [Hu Hne].
    destruct (Hl u Hu) as [[-> | Hu']%elem_of_cons | E]; [done | by left | by right].
  - intros u Hu. rewrite E3 in Hu. by apply without_spec in Hu as [? _].
  - intros u Hu Hne. rewrite E3. by apply without_spec.
Qed.

Lemma advance_inspections_tasks o l s :
  under_way s -> (forall t, t ∈ l -> t ∈ St.inspectionTasks s) -> NoDup l.*1 ->
  inspections_passed_over l s ->
  let s' := foldl (advance_inspection o) s l in
  under_way s' /\ inspections_passed_over [] s' /\ St.pool s' = St.pool s /\
  St.refreshTasks s' = St.refreshTasks s /\
  (forall u, u ∈ St.inspectionTasks s' -> u ∈ St.inspectionTasks s).
Proof.
  revert s. induction l as [| t l IH]; intros s Hs Hin Hd Hl; [done |]. cbn in *.
  apply NoDup_cons in Hd as [Hn Hd].
  destruct (advance_inspection_tasks o s t l) as (Hs' & Hl' & Ep & Er & Hsub & Hin');
    [done | apply Hin; by left | done |].
  destruct (IH (advance_inspection o s t)) as (H1s & H2s & H3s & H4s & H5s); [done | | done | done |].
  - intros u Hu. apply Hin'; [apply Hin; by right |].
    intros E. apply Hn. rewrite <- E. by apply list_elem_of_fmap_2.
  - split_and!; [done | done | congruence | congruence | eauto].
Qed.

Lemma pool_tasks s p :
  tasks_of s -> rtc pool_step (St.pool s) p -> keeps_requests (St.pool s) p ->
  tasks_of (St.set_pool p s).
Proof.
  intros [[Hs Hp] Hw] Hst Hk. split; [split; [by eapply tasks_ok_pool | done] |].
  by eapply waits_ok_pool.
Qed.

Lemma drain_made id p p' r : RequestPool.drain id p = Some p' -> is_Some (requests p !! r) ->
  is_Some (requests p' !! r).
Proof.
  unfold RequestPool.drain. intros E Hr. destruct (requests p !! id) as [q |]; [| done]. cbn in E.
  destruct (_ && _); [| done]. injection E as <-. cbn. apply lookup_insert_is_Some.
  destruct (decide (id = r)); [by left | by right].
Qed.

Lemma handle_request_tasks o id s s' : tasks_of s -> handle_request o id s = Some s' -> tasks_of s'.
Proof.
  intros [[Hs Hp] [Hm _ Him _]]. unfold handle_request.
  destruct (RequestPool.drain id (St.pool s)) as [p |] eqn:E; [| done]. cbn. intros [= <-].
  set (s1 := St.set_pool p s).
  assert (under_way s1) as H1s.
  { split; [| done]. eapply tasks_ok_pool; [exact Hs |]. by eapply rtc_once, pool_drain. }
  destruct (advance_refreshes_tasks o (St.refreshTasks s1) s1)
    as (H2s & H2l & E2p & E2i & H2sub); [done | done | apply H1s | by left |].
  set (s2 := foldl (advance_refresh o) s1 (St.refreshTasks s1)) in *.
  destruct (advance_inspections_tasks o (St.inspectionTasks s2) s2)
    as (H3s & H3l & E3p & E3r & H3sub); [done | done | apply H2s | by left |].
  set (s3 := foldl (advance_inspection o) s2 (St.inspectionTasks s2)) in *.
  change (tasks_of s3). split; [exact H3s |]. rewrite E3p, E3r. split; intros i t Ht.
  - rewrite E2p. apply H2sub, Hm in Ht. unfold made in *. destruct (refresh_waits t) as [[[a b] c] d].
    eapply Forall_impl; [exact Ht |]. intros r. by apply (drain_made id).
  - destruct (H2l (i, t) Ht) as [Hn | Hn]; [by apply elem_of_nil in Hn | exact Hn].
  - rewrite E2p. apply H3sub in Ht. rewrite E2i in Ht. eapply drain_made; [exact E |]. by eapply Him.
  - destruct (H3l (i, t) Ht) as [Hn | Hn]; [by apply elem_of_nil in Hn |]. by rewrite E3p in Hn.
Qed.

(** ** Loops, timeouts and effects *)

Lemma kt_then s s' : keeps_tasks s s' -> tasks_of s -> tasks_of s'.
Proof. intros Hk Hs. by eapply tasks_of_keeps. Qed.

Lemma run_loop_tasks o id q s : tasks_of s -> tasks_of (run_loop o id q s).
Proof.
  intros Hs. unfold run_loop. pose proof (refreshConsole_tasks o q false s Hs) as HR.
  destruct (refreshConsole o q false s) as [[p |] s']; cbn in HR; eapply kt_then; [| exact HR | | exact HR].
  - keeps.
  - apply kt_resume_loop.
Qed.

Lemma fire_tasks o id s s' : tasks_of s -> fire o id s = Some s' -> tasks_of s'.
Proof.
  intros Hs. unfold fire. destruct (St.timers s !! id) as [[t d] |]; [| done]. cbn.
  intros E. injection E as <-. destruct t.
  - eapply kt_then; [apply kt_flushPendingEvents | exact Hs].
  - by apply refreshConsole_tasks.
  - by apply refreshInspection_tasks.
  - by apply run_loop_tasks.
  - by apply refreshInspection_tasks.
Qed.

Lemma abort_all_tasks l s :
  tasks_of s -> Forall (fun c => is_Some (controllers (St.pool s) !! c)) l ->
  tasks_of (foldl (fun s c => abort_controller (Some c) s) s l).
Proof.
  revert s. induction l as [| c l IH]; intros s Hs Hl; [done |]. cbn.
  apply Forall_cons in Hl as [Hc Hl]. apply IH.
  - apply (abort_tasks (Some c)); [done |]. by intros ? [= <-].
  - eapply Forall_impl; [exact Hl |]. intros x Hx.
    by eapply pool_step_controllers; [apply pool_abort |].
Qed.

Lemma abort_inspections_tasks s : tasks_of s -> tasks_of (abort_inspections s).
Proof.
  intros Hs. apply abort_all_tasks; [done |]. apply Forall_forall. intros c Hc.
  change (List.map snd ?l) with (l.*2) in Hc.
  apply list_elem_of_fmap in Hc as ([j c'] & -> & Hj%elem_of_map_to_list).
  by eapply t_inspect; [apply Hs |].
Qed.

Lemma kt_clear_debounces s : keeps_tasks s (clear_debounces s).
Proof. apply kt_foldl. intros. keeps. Qed.

Lemma kt_start_manager o s : keeps_tasks s (start_manager o s).
Proof.
  unfold start_manager. match goal with |- context [call_manager o (Some ?i) Start ?x] =>
    assert (keeps_tasks s (call_manager o (Some i) Start x)) as Hk
      by (etransitivity; [| apply kt_call_manager]; keeps) end.
  etransitivity; [exact Hk | keeps].
Qed.

Lemma kt_transport_effect o s : keeps_tasks s (transport_effect o s).
Proof.
  unfold transport_effect.
  assert (forall i a, keeps_tasks s (refs_upd (Refs.set_transportManagerRef None) (call_manager o i a s)))
    as Hk by (intros; etransitivity; [apply kt_call_manager | keeps]).
  repeat destruct (negb _); (etransitivity; [apply Hk |]); try apply kt_status; [reflexivity |].
  apply kt_start_manager.
Qed.

Lemma kt_transport_cleanup o s : keeps_tasks s (transport_cleanup o s).
Proof.
  unfold transport_cleanup. destruct (effect_manager _) as [m |]; [| reflexivity].
  etransitivity; [apply (kt_call_manager o (Some m)) |]. cbn zeta.
  destruct (decide _); keeps.
Qed.

Lemma kt_poll_cleanup s : keeps_tasks s (poll_cleanup s).
Proof.
  unfold poll_cleanup. destruct (effect_loop _) as [id |]; [| reflexivity]. cbn zeta.
  etransitivity; [| keeps]. etransitivity; [| apply kt_clear]. keeps.
Qed.

Lemma kt_drawer_effect s : keeps_tasks s (drawer_effect s).
Proof. unfold drawer_effect. destruct (_ || _); [reflexivity |]. destruct (_ <=? 0); keeps. Qed.

Lemma kt_drawer_cleanup s : keeps_tasks s (drawer_cleanup s).
Proof. unfold drawer_cleanup. case_match; keeps. Qed.

Lemma kt_cache_effect s : keeps_tasks s (cache_effect s).
Proof. unfold cache_effect. repeat case_match; keeps. Qed.

Lemma kt_degraded_effect o s : keeps_tasks s (degraded_effect o s).
Proof. unfold degraded_effect. case_match; keeps. Qed.

Lemma kt_recovered_effect s : keeps_tasks s (recovered_effect s).
Proof. unfold recovered_effect. cbn zeta. destruct (_ && _); keeps. Qed.

Lemma kt_ref_effects old new b s : keeps_tasks s (ref_effects old new b s).
Proof. unfold ref_effects. destruct (String.eqb _ _), (_ =? _), b; keeps. Qed.

Lemma kt_reset_timeouts s : keeps_tasks s (reset_timeouts s).
Proof.
  unfold reset_timeouts. cbn zeta.
  set (s1 := match Refs.refreshDebounceRef _ with Some _ => _ | None => _ end).
  assert (keeps_tasks s s1) as H1s by (unfold s1; case_match; keeps). clearbody s1.
  assert (keeps_tasks s1 (refs_upd (Refs.set_inspectionDebounceRef ∅) (clear_debounces s1))) as H2s
    by (etransitivity; [apply kt_clear_debounces | keeps]).
  etransitivity; [exact H1s |]. etransitivity; [exact H2s |]. case_match; keeps.
Qed.

Lemma kt_refs f s :
  (forall r, Refs.fetchControllerRef (f r) = Refs.fetchControllerRef r /\
             Refs.inspectionControllerRef (f r) = Refs.inspectionControllerRef r /\
             Refs.fetchPromiseRef (f r) = Refs.fetchPromiseRef r) ->
  keeps_tasks s (refs_upd f s).
Proof. intros Hf. destruct (Hf (St.refs s)) as (? & ? & ?). by split. Qed.

(** A chain of updates, one at a time. *)
Ltac keeps_chain :=
  cbn zeta;
  repeat (etransitivity;
    [| first [apply kt_hook | apply kt_status | apply kt_refs; by repeat split]]);
  reflexivity.

Lemma kt_reset_state s : keeps_tasks s (reset_state s).
Proof. unfold reset_state. keeps_chain. Qed.

Lemma kt_reset_refs s : keeps_tasks s (reset_refs s).
Proof. unfold reset_refs. keeps_chain. Qed.

Lemma kt_enter o s : keeps_tasks s (enter_demo o s) /\ keeps_tasks s (enter_live s).
Proof. unfold enter_demo, enter_live, setConsoleData. split; keeps_chain. Qed.

Lemma live_mode_effect_tasks o s : tasks_of s -> tasks_of (live_mode_effect o s).
Proof.
  intros Hs%abort_fetch_tasks%abort_inspections_tasks. unfold live_mode_effect. cbn zeta.
  set (s1 := abort_inspections _) in *. clearbody s1.
  set (s2 := call_manager _ _ _ s1). assert (keeps_tasks s1 s2) as H2s by apply kt_call_manager.
  clearbody s2. set (s3 := reset_timeouts _).
  assert (keeps_tasks s2 s3) as H3s.
  { etransitivity; [apply kt_reset_refs |]. etransitivity; [apply kt_reset_state |].
    apply kt_reset_timeouts. }
  clearbody s3. eapply kt_then; [| exact Hs]. etransitivity; [exact H2s |].
  etransitivity; [exact H3s |]. destruct (negb _); apply (kt_enter o).
Qed.

Lemma poll_effect_tasks o s : tasks_of s -> tasks_of (poll_effect o s).
Proof.
  intros Hs. unfold poll_effect.
  destruct (negb (Props.liveMode _)); [done |].
  destruct (negb (opt_truthy _)); [apply refreshConsole_tasks; eapply kt_then; [keeps | exact Hs] |].
  destruct (negb (Hook.isVisible _)); [eapply kt_then; [keeps | exact Hs] |].
  apply run_loop_tasks. eapply kt_then; [| exact Hs]. keeps.
Qed.

Lemma select_effect_tasks o s : tasks_of s -> tasks_of (select_effect o s).
Proof. intros Hs. unfold select_effect. case_match; [done | by apply refreshInspection_tasks]. Qed.

Lemma when_tasks b f s : (tasks_of s -> tasks_of (f s)) -> tasks_of s -> tasks_of (when b f s).
Proof. unfold when. destruct b; auto. Qed.

Lemma run_effects_tasks o d s : tasks_of s -> tasks_of (run_effects o d s).
Proof.
  intros Hs. unfold run_effects. cbn zeta.
  repeat (apply when_tasks;
    [first [apply kt_then;
              first [apply kt_recovered_effect | apply kt_degraded_effect | apply kt_cache_effect
                    | apply kt_drawer_effect | apply kt_transport_effect | apply kt_drawer_cleanup
                    | apply kt_poll_cleanup | apply kt_transport_cleanup]
           | apply select_effect_tasks | apply poll_effect_tasks | apply live_mode_effect_tasks] |]).
  exact Hs.
Qed.

Lemma initial_tasks o p v : tasks_of (useDashboardLiveData o p v).
Proof.
  split; [split; [| done] |].
  - split; cbn; try done; try (intros i t Ht; by apply elem_of_nil in Ht);
      try (split; constructor); try constructor.
  - split; intros i t Ht; by apply elem_of_nil in Ht.
Qed.

Lemma hook_step_tasks s s' : tasks_of s -> hook_step s s' -> tasks_of s'.
Proof.
  intros Hs Hst. destruct Hst as [o a s s' _ _ E]. destruct a; cbn [perform] in E.
  - injection E as <-. apply run_effects_tasks. eapply kt_then; [apply kt_ref_effects |].
    eapply kt_then; [| exact Hs]. keeps.
  - injection E as <-. eapply kt_then; [| exact Hs]. keeps.
  - by eapply fire_tasks.
  - destruct (net_event id e (St.pool s)) as [q |] eqn:EN; [| done]. injection E as <-.
    apply pool_tasks; [done | by eapply rtc_once, pool_net |].
    eapply keeps_net; [| exact EN]. apply pool_reachable_ok, Hs.
  - by eapply handle_request_tasks.
  - destruct (browser_event a); [| done]. eapply kt_then; [by eapply kt_manager_action | exact Hs].
  - injection E as <-. unfold manualReconnect. destruct (negb _); [done |].
    apply refreshConsole_tasks. eapply kt_then; [apply kt_call_manager | exact Hs].
  - injection E as <-. by apply refreshConsole_tasks.
  - injection E as <-. eapply kt_then; [| exact Hs]. keeps.
  - injection E as <-. apply (pool_tasks s); [done | by apply requestJson_step |].
    apply keeps_request, pool_reachable_ok, Hs.
Qed.

Lemma reachable_tasks s : hook_reachable s -> tasks_of s.
Proof.
  induction 1 as [o p v | s s' _ IH Hs]; [apply run_effects_tasks, initial_tasks |].
  by eapply hook_step_tasks.
Qed.

(** ** What the owners of the work can rely on *)

(** A refresh, an inspection under way that nobody aborted. *)
Definition live_refresh (s : St) (i : nat) (t : RefreshTask) : Prop :=
  (i, t) ∈ St.refreshTasks s /\ signal_aborted (St.pool s) (refresh_controller t) = false.
Definition live_inspection (s : St) (i : nat) (t : InspectionTask) : Prop :=
  (i, t) ∈ St.inspectionTasks s /\ signal_aborted (St.pool s) (inspection_controller t) = false.

Lemma same_refresh s i t i' t' :
  tasks_of s -> (i, t) ∈ St.refreshTasks s -> (i', t') ∈ St.refreshTasks s ->
  refresh_controller t = refresh_controller t' -> (i, t) = (i', t').
Proof.
  intros Hs Ht Ht' E.
  by apply (NoDup_fmap_eq (fun t => refresh_controller (snd t)) _ _ _ (t_refreshes _ _ _ _ _ _ (proj1 (proj1 Hs)))).
Qed.

Lemma same_inspection s i t i' t' :
  tasks_of s -> (i, t) ∈ St.inspectionTasks s -> (i', t') ∈ St.inspectionTasks s ->
  inspection_controller t = inspection_controller t' -> (i, t) = (i', t').
Proof.
  intros Hs Ht Ht' E.
  by apply (NoDup_fmap_eq (fun t => inspection_controller (snd t)) _ _ _ (t_inspections _ _ _ _ _ _ (proj1 (proj1 Hs)))).
Qed.

(** C35: Refreshes are exclusive. However refreshes and inspections are started,
    forced and settled, at most one refresh under way has not been aborted, and
    it is the one [fetchControllerRef] can abort; at most one inspection of each
    job under way has not been aborted, and it is the one
    [inspectionControllerRef] can abort. The continuation of an aborted one
    leaves the data, the cached inspections and the report of failures as they
    were, whatever its requests gave. *)
Theorem live_refresh_exclusive s :
  hook_reachable s ->
  (forall i t i' t',
     live_refresh s i t -> live_refresh s i' t' ->
     Refs.fetchControllerRef (St.refs s) = Some (refresh_controller t) /\ (i, t) = (i', t')) /\
  (forall i t i' t',
     live_inspection s i t -> live_inspection s i' t' -> inspection_job t = inspection_job t' ->
     Refs.inspectionControllerRef (St.refs s) !! inspection_job t = Some (inspection_controller t) /\
     (i, t) = (i', t')) /\
  (forall o t settled, signal_aborted (St.pool s) (refresh_controller t) = true ->
     let s' := continue_refresh o t settled s in
     Hook.consoleData (St.hook s') = Hook.consoleData (St.hook s) /\
     Hook.consecutiveFailures (St.hook s') = Hook.consecutiveFailures (St.hook s) /\
     Hook.globalError (St.hook s') = Hook.globalError (St.hook s)) /\
  (forall o t settled, signal_aborted (St.pool s) (inspection_controller t) = true ->
     let s' := continue_inspection o t settled s in
     Hook.inspectionCache (St.hook s') = Hook.inspectionCache (St.hook s) /\
     Hook.inspectionMeta (St.hook s') = Hook.inspectionMeta (St.hook s)).
Proof.
  intros Hs%reachable_tasks. split_and!.
  - intros i t i' t' [Ht Ha] [Ht' Ha'].
    destruct (t_refresh _ _ _ _ _ _ (proj1 (proj1 Hs)) _ _ Ht) as [_ [E | E]]; [congruence |].
    destruct (t_refresh _ _ _ _ _ _ (proj1 (proj1 Hs)) _ _ Ht') as [_ [E' | E']]; [congruence |].
    split; [done |]. apply (same_refresh s); [done | done | done | congruence].
  - intros i t i' t' [Ht Ha] [Ht' Ha'] Ej.
    destruct (t_inspection _ _ _ _ _ _ (proj1 (proj1 Hs)) _ _ Ht) as [_ [E | E]]; [congruence |].
    destruct (t_inspection _ _ _ _ _ _ (proj1 (proj1 Hs)) _ _ Ht') as [_ [E' | E']]; [congruence |].
    split; [done |]. rewrite <- Ej in E'. apply (same_inspection s); [done | done | done | congruence].
  - intros o t settled Ha. cbn. unfold continue_refresh, end_refresh. rewrite Ha. cbn zeta.
    by destruct (decide _), (refresh_quiet t).
  - intros o t settled Ha. cbn. unfold continue_inspection, end_inspection. rewrite Ha. cbn zeta.
    by destruct (decide _).
Qed.
End Hook.

(** * Runs *)

Section Runs.
Context `{UrlApi} `{HeadersApi} `{DateHost} `{Browser} `{ApiView}.

(** A list of actions, each with what it reads from outside. *)
Fixpoint hook_run (l : list (Outside * hook_action)) (s : St) : option St :=
  match l with
  | [] => Some s
  | (o, a) :: l' => s' ← perform o a s; hook_run l' s'
  end.

Lemma hook_run_reachable l s s' :
  hook_reachable s ->
  Forall (fun '(o, a) => valid_env (transport_env o) /\ valid_action a) l ->
  hook_run l s = Some s' -> hook_reachable s'.
Proof.
  revert s. induction l as [| [o a] l IH]; intros s Hs Hl E; [by injection E as <- |].
  cbn in E. destruct (perform o a s) as [s1 |] eqn:E1; [| done]. cbn in E.
  apply Forall_cons in Hl as [[Hv Ha] Hl]. apply (IH s1); [| done | done].
  eapply hook_stepped; [exact Hs |]. by eapply hook_step_perform.
Qed.
End Runs.

(** * A sample *)

Module Sample.
#[export] Existing Instance sample_browser.
#[export] Existing Instance utc_host.

Definition no_inspection : JobInspection :=
  {| JobInspection.job := Safe.sample_job; JobInspection.attempts := [];
     JobInspection.events := []; JobInspection.graph := DependencyGraph.mk "" [];
     JobInspection.idempotency := None; JobInspection.deadLetter := None |}.

#[export] Instance sample_view : ApiView := {|
  as_snapshot _ := createEmptySnapshot;
  as_jobs _ := [];
  as_schedules _ := [];
  as_workerStatuses _ := [];
  as_inspection _ := no_inspection;
  as_event _ := SystemEvent.mk "job.succeeded" None None None None None ""
|}.

(** Live mode, live updates, polling every fifteen seconds. *)
Definition live_props : Props :=
  Props.mk (Some "https://jobs.example") None "t" true true 15000 "job-1".

(** 2026-03-12T20:00:00.000Z *)
Definition at_start : Outside := mkOutside 1773345600000 (fun _ => "") sample_env.

Definition mounted : St := mount at_start live_props true.

Definition after (l : list hook_action) : St :=
  default mounted (hook_run (map (fun a => (at_start, a)) l) mounted).

Lemma at_start_valid : valid_env (transport_env at_start).
Proof. by split; vm_compute. Qed.

Lemma live_props_valid : valid_props live_props.
Proof. unfold valid_props. cbn. set_solver. Qed.

Lemma mounted_reachable : hook_reachable mounted.
Proof. apply hook_mounted; [apply at_start_valid | apply live_props_valid]. Qed.

Lemma after_reachable l : Forall valid_action l -> hook_reachable (after l).
Proof.
  intros Hl. unfold after. destruct (hook_run _ mounted) as [s |] eqn:E; [| apply mounted_reachable].
  eapply hook_run_reachable; [apply mounted_reachable | | exact E].
  apply Forall_map. eapply Forall_impl; [exact Hl |]. intros a Ha. cbn.
  split; [apply at_start_valid | exact Ha].
Qed.

(** The first refresh, and a forced one that supersedes it. *)
Definition superseded : St := after [ManualReconnect].

Lemma superseded_tasks :
  length (St.refreshTasks superseded) = 2%nat /\
  map (fun t => signal_aborted (St.pool superseded) (refresh_controller (snd t)))
    (St.refreshTasks superseded) = [true; false] /\
  length (St.inspectionTasks superseded) = 1%nat.
Proof. by vm_compute. Qed.
End Sample.
Import Sample.

Lemma superseded_reachable : hook_reachable superseded.
Proof. apply after_reachable. by repeat constructor. Qed.

Lemma live_refresh_exclusive_witness :
  length (St.refreshTasks superseded) = 2%nat /\
  forall i t i' t',
    live_refresh superseded i t -> live_refresh superseded i' t' ->
    Refs.fetchControllerRef (St.refs superseded) = Some (refresh_controller t) /\
    (i, t) = (i', t').
Proof.
  split; [apply superseded_tasks |].
  destruct (live_refresh_exclusive superseded superseded_reachable) as (HE & _).
  exact HE.
Defined.
