(* ===== verification/LiveManagers.v ===== *)
(** The transport managers that the live data of LiveData.v makes.

    [managers_of] is the invariant of this view of the state - every manager but
    the current one is stopped - and [settled] says that the current one is the
    one the settings ask for. [keeps_managers] says that a callback leaves the
    view alone, [preserves] that it breaks neither. *)

From stdpp Require Import base list strings gmap relations.
From Stdlib Require Import ZArith Lia Bool.
From S2P Require Import Prelude JsString JsNum JsDate JsValue Models ApiRoutes Safe LiveRefresh.
From S2P Require Import LiveTransport ToastQueue ApiParsers RequestClient RequestPool ConsoleState.
From S2P Require Import Urls DemoData LiveState LiveData LiveTasks.

#[local] Open Scope Z_scope.

Section Hook.
Context `{UrlApi} `{HeadersApi} `{DateHost} `{Browser} `{ApiView}.

(** * Transport managers *)

Definition manager_stopped (m : Manager) : bool := stopped (manager (snd m)).

(** Every manager but the current one is stopped; the current one runs. *)
Record managers_ok (ms : gmap nat Manager) (current : option nat) (n : nat) : Prop := {
  mg_reachable : forall id m, ms !! id = Some m -> LiveTransport.reachable (fst m) (snd m);
  mg_stopped : forall id m, ms !! id = Some m -> current <> Some id -> manager_stopped m = true;
  mg_current : forall id, current = Some id ->
    exists m, ms !! id = Some m /\ manager_stopped m = false;
  mg_ids : forall id, is_Some (ms !! id) -> (id < n)%nat
}.

Definition managers_of (s : St) : Prop :=
  managers_ok (St.managers s) (Refs.transportManagerRef (St.refs s)) (St.next s).

Record keeps_managers (s s' : St) : Prop := {
  km_managers : St.managers s' = St.managers s;
  km_current : Refs.transportManagerRef (St.refs s') = Refs.transportManagerRef (St.refs s);
  km_props : St.props s' = St.props s;
  km_rendered : St.rendered s' = St.rendered s;
  km_next : (St.next s <= St.next s')%nat
}.

#[local] Instance keeps_managers_preorder : PreOrder keeps_managers.
Proof.
  split; [by intros s |]. intros s1 s2 s3 [] []. split; try congruence. lia.
Qed.

Lemma managers_ok_next ms c n n' : managers_ok ms c n -> (n <= n')%nat -> managers_ok ms c n'.
Proof. intros [? ? ? Hi] Hn. split; try done. intros id Hid. specialize (Hi id Hid). lia. Qed.

Lemma managers_of_keeps s s' : managers_of s -> keeps_managers s s' -> managers_of s'.
Proof.
  intros Hs [E1 E2 E3 E4 E5]. unfold managers_of in *. rewrite E1, E2. by eapply managers_ok_next.
Qed.

Lemma km_hook f s : keeps_managers s (hook_upd f s).
Proof. by split. Qed.

Lemma km_refs f s :
  (forall r, Refs.transportManagerRef (f r) = Refs.transportManagerRef r) ->
  keeps_managers s (refs_upd f s).
Proof. intros Hf. by split; [| cbn; rewrite Hf | | |]. Qed.

Lemma km_status f s : keeps_managers s (setTransportStatus f s).
Proof. by split. Qed.

Lemma km_clearTimeout id s : keeps_managers s (clearTimeout id s).
Proof. by split. Qed.

Lemma km_clear id s : keeps_managers s (clear_timeout id s).
Proof. destruct id; [apply km_clearTimeout | reflexivity]. Qed.

Lemma km_setTimeout t d s : keeps_managers s (snd (setTimeout t d s)).
Proof. split; cbn; try done. lia. Qed.

Lemma km_pool p s : keeps_managers s (St.set_pool p s).
Proof. by split. Qed.

Lemma km_loops l s : keeps_managers s (St.set_loops l s).
Proof. by split. Qed.

Lemma km_effects e s : keeps_managers s (St.set_effects e s).
Proof. by split. Qed.

Lemma km_tasks l s : keeps_managers s (St.set_refreshTasks l s).
Proof. by split. Qed.

Lemma km_inspections l s : keeps_managers s (St.set_inspectionTasks l s).
Proof. by split. Qed.

Lemma km_notified l s : keeps_managers s (St.set_notified l s).
Proof. by split. Qed.

Lemma km_bump s : keeps_managers s (St.set_next (S (St.next s)) s).
Proof. split; cbn; try done. lia. Qed.

Lemma km_abort c s : keeps_managers s (abort_controller c s).
Proof. destruct c; [apply km_pool | reflexivity]. Qed.

Lemma km_foldl {A} (f : St -> A -> St) l s :
  (forall s a, keeps_managers s (f s a)) -> keeps_managers s (foldl f s l).
Proof.
  intros Hf. revert s. induction l as [| a l IH]; intros s; [reflexivity |]. cbn.
  etransitivity; [apply Hf | apply IH].
Qed.

Create HintDb managers.
#[local] Hint Resolve km_hook km_status km_clearTimeout km_clear km_setTimeout km_pool km_loops
  km_effects km_tasks km_inspections km_notified km_bump km_abort : managers.

(** One update at a time, the last one first. *)
Ltac km_chain :=
  cbn zeta;
  repeat first
    [ reflexivity
    | etransitivity; [| first [solve [auto with managers] | apply km_refs; done]] ].

Lemma km_updateTransportStatus st s : keeps_managers s (updateTransportStatus st s).
Proof. unfold updateTransportStatus. cbn zeta. destruct (sameTransportStatus _ _); km_chain. Qed.

Lemma km_scheduleConsoleRefresh s : keeps_managers s (scheduleConsoleRefresh s).
Proof.
  unfold scheduleConsoleRefresh. etransitivity; [apply (km_clear (Refs.refreshDebounceRef (St.refs s))) |].
  etransitivity; [apply (km_setTimeout RefreshConsole CONSOLE_REFRESH_DEBOUNCE_MS) | by apply km_refs].
Qed.

Lemma km_queueLiveEvent e s : keeps_managers s (queueLiveEvent e s).
Proof.
  unfold queueLiveEvent. etransitivity; [by apply (km_refs (fun r =>
    Refs.set_pendingEventsRef (Refs.pendingEventsRef r ++ [e]) r)) |].
  cbn zeta. case_match; [reflexivity |].
  etransitivity; [apply (km_setTimeout FlushEvents EVENT_BATCH_WINDOW_MS) | by apply km_refs].
Qed.

Lemma km_flushPendingEvents s : keeps_managers s (flushPendingEvents s).
Proof.
  unfold flushPendingEvents. cbn zeta. set (s1 := match Refs.eventFlushTimerRef _ with Some _ => _ | None => _ end).
  assert (keeps_managers s s1) as H1s by (unfold s1; case_match; km_chain). clearbody s1.
  etransitivity; [exact H1s |]. case_match; [reflexivity |].
  etransitivity; [| apply km_scheduleConsoleRefresh]. unfold setConsoleData. km_chain.
Qed.

Lemma km_scheduleInspectionRefresh j s : keeps_managers s (scheduleInspectionRefresh j s).
Proof.
  unfold scheduleInspectionRefresh. case_match; [reflexivity |].
  etransitivity; [apply (km_clear (Refs.inspectionDebounceRef (St.refs s) !! j)) |].
  etransitivity; [apply (km_setTimeout (RefreshInspection j) INSPECTION_REFRESH_DEBOUNCE_MS) | by apply km_refs].
Qed.

Lemma km_callback o c s : keeps_managers s (callback o c s).
Proof.
  destruct c; cbn [callback]; [apply km_updateTransportStatus | | apply km_status].
  unfold onEvent. case_match; [| apply km_queueLiveEvent].
  etransitivity; [apply km_queueLiveEvent | apply km_scheduleInspectionRefresh].
Qed.

Lemma km_update_loop id f s : keeps_managers s (update_loop id f s).
Proof. by split. Qed.

Lemma km_scheduleNext id s : keeps_managers s (scheduleNext id s).
Proof.
  unfold scheduleNext. destruct (St.loops s !! id) as [l |]; [| reflexivity].
  destruct (next_delay l s) as [d |]; [| apply km_hook]. cbn zeta.
  etransitivity; [apply (km_hook (Hook.set_currentPollDelayMs d)) |].
  etransitivity; [apply (km_setTimeout (PollAgain id) d) | apply km_update_loop].
Qed.

Lemma km_resume_loop id s : keeps_managers s (resume_loop id s).
Proof.
  unfold resume_loop. destruct (St.loops s !! id) as [l |]; [| reflexivity]. cbn zeta.
  etransitivity; [apply (km_update_loop id (set_awaiting None)) |].
  destruct (cancelled l); [reflexivity | apply km_scheduleNext].
Qed.

Lemma km_resolve_refresh p s : keeps_managers s (resolve_refresh p s).
Proof. apply km_foldl. intros. apply km_resume_loop. Qed.

Lemma km_applyInspectionFallback j s s' :
  applyInspectionFallback j s = Ok s' -> keeps_managers s s'.
Proof.
  unfold applyInspectionFallback. intros E. apply result_bind_ok in E as ([i |] & _ & E);
    [| by injection E as <-].
  cbn zeta in E. destruct (decide _); injection E as <-; [reflexivity |]. unfold setInspectionCache. km_chain.
Qed.

Lemma km_failures f s : keeps_managers s (setConsecutiveFailures f s).
Proof. unfold setConsecutiveFailures. km_chain. Qed.

Lemma km_meta j f s : keeps_managers s (setInspectionMeta j f s).
Proof. apply km_hook. Qed.

Lemma km_cache j i s : keeps_managers s (setInspectionCache j i s).
Proof. apply km_hook. Qed.

Lemma km_data f s : keeps_managers s (setConsoleData f s).
Proof. apply km_hook. Qed.

#[local] Hint Resolve km_update_loop km_failures km_meta km_cache km_data : managers.

Lemma km_invalid_base_url q s : keeps_managers s (invalid_base_url q s).
Proof. unfold invalid_base_url. cbn zeta. destruct q; km_chain. Qed.

Lemma km_get p k f c s0 s i s' : keeps_managers s0 s -> get p k f c s = (i, s') -> keeps_managers s0 s'.
Proof.
  unfold get. intros Hk E. destruct (requestJson _ _ _ _) in E. injection E as <- <-.
  etransitivity; [exact Hk | apply km_pool].
Qed.

Lemma km_start_refresh q s : keeps_managers s (snd (start_refresh q s)).
Proof.
  unfold start_refresh. rewrite new_controller_eq. cbn zeta beta iota.
  match goal with |- context [get API_ROUTES.dashboardSnapshot _ _ _ ?x] => set (s1 := x) end.
  assert (keeps_managers s s1) as H1s.
  { unfold s1. repeat destruct (negb _); km_chain. }
  clearbody s1. destruct (get _ _ _ _ s1) as [a s2] eqn:E2. eapply km_get in E2; [| exact H1s].
  destruct (get _ _ _ _ s2) as [b s3] eqn:E3. eapply km_get in E3; [| exact E2].
  destruct (get _ _ _ _ s3) as [c s4] eqn:E4. eapply km_get in E4; [| exact E3].
  destruct (get _ _ _ _ s4) as [d s5] eqn:E5. eapply km_get in E5; [| exact E4].
  cbn [snd]. etransitivity; [exact E5 |]. km_chain.
Qed.

Lemma km_refreshConsole o q f s : keeps_managers s (snd (refreshConsole o q f s)).
Proof.
  unfold refreshConsole. destruct (negb (Props.liveMode _)); [reflexivity |]. cbn zeta.
  set (s1 := if q then s else _).
  assert (keeps_managers s s1) as H1s by (unfold s1; destruct q; km_chain). clearbody s1.
  etransitivity; [exact H1s |]. destruct (negb (opt_truthy _)); [apply km_invalid_base_url |].
  pose proof (km_start_refresh q s1) as HR. destruct (start_refresh q s1) as [i s2].
  destruct (Refs.fetchPromiseRef _), f; try exact HR; reflexivity.
Qed.

Lemma km_start_inspection j s : keeps_managers s (start_inspection j s).
Proof.
  unfold start_inspection. rewrite new_controller_eq. cbn zeta beta iota.
  match goal with |- context [get _ _ _ _ ?x] => set (s1 := x) end.
  assert (keeps_managers s s1) as H1s by (unfold s1; km_chain).
  clearbody s1. destruct (get _ _ _ _ s1) as [a s2] eqn:E2. eapply km_get in E2; [| exact H1s].
  etransitivity; [exact E2 |]. km_chain.
Qed.

Lemma km_refreshInspection o j f s : keeps_managers s (refreshInspection o j f s).
Proof.
  unfold refreshInspection. destruct (negb (truthy j)); [reflexivity |]. destruct (_ || _).
  - destruct (applyInspectionFallback j s) as [s1 |] eqn:E; [| reflexivity].
    apply km_applyInspectionFallback in E. etransitivity; [exact E | apply km_meta].
  - destruct (_ && _); [reflexivity | apply km_start_inspection].
Qed.

Lemma km_run_loop o id q s : keeps_managers s (run_loop o id q s).
Proof.
  unfold run_loop. pose proof (km_refreshConsole o q false s) as HR.
  destruct (refreshConsole o q false s) as [[p |] s1]; (etransitivity; [exact HR |]);
    [apply km_update_loop | apply km_resume_loop].
Qed.

Lemma km_refresh_succeeded o a b c d s : keeps_managers s (refresh_succeeded o a b c d s).
Proof. unfold refresh_succeeded. cbn zeta. destruct (_ || _); km_chain. Qed.

Lemma km_end_refresh t s : keeps_managers s (end_refresh t s).
Proof. unfold end_refresh. cbn zeta. destruct (decide _), (refresh_quiet t); km_chain. Qed.

Lemma km_continue_refresh o t settled s : keeps_managers s (continue_refresh o t settled s).
Proof.
  unfold continue_refresh. destruct (signal_aborted _ _); [apply km_end_refresh |].
  destruct settled as [reason | [[[a b] c] d]]; (etransitivity; [| apply km_end_refresh]);
    [unfold refresh_failed; km_chain | apply km_refresh_succeeded].
Qed.

Lemma km_end_inspection t s : keeps_managers s (end_inspection t s).
Proof. unfold end_inspection. cbn zeta. destruct (decide _); km_chain. Qed.

Lemma km_continue_inspection o t settled s : keeps_managers s (continue_inspection o t settled s).
Proof.
  unfold continue_inspection. cbn zeta. destruct (signal_aborted _ _); [apply km_end_inspection |].
  destruct settled as [v | reason].
  - etransitivity; [| apply km_end_inspection]. destruct (decide _); km_chain.
  - destruct (applyInspectionFallback _ s) as [s1 |] eqn:E; [| apply km_end_inspection].
    apply km_applyInspectionFallback in E. etransitivity; [exact E |].
    etransitivity; [apply km_meta | apply km_end_inspection].
Qed.

Lemma km_handle_request o id s s' : handle_request o id s = Some s' -> keeps_managers s s'.
Proof.
  unfold handle_request. destruct (RequestPool.drain id _) as [p |]; [| done]. cbn. intros [= <-].
  etransitivity; [apply (km_pool p) |].
  etransitivity; [apply (km_foldl (advance_refresh o)) | apply (km_foldl (advance_inspection o))].
  - intros s1 [i t]. unfold advance_refresh. destruct (all_settled _ _); [| reflexivity]. cbn zeta.
    etransitivity; [apply km_tasks |]. etransitivity; [apply km_continue_refresh | apply km_resolve_refresh].
  - intros s1 [i t]. unfold advance_inspection. destruct (handled _ _); [| reflexivity]. cbn zeta.
    etransitivity; [apply km_inspections | apply km_continue_inspection].
Qed.

Lemma km_fire o id s s' : fire o id s = Some s' -> keeps_managers s s'.
Proof.
  unfold fire. destruct (St.timers s !! id) as [[t d] |]; [| done]. cbn. intros E. injection E as <-.
  destruct t; cbn zeta.
  - etransitivity; [apply km_clearTimeout | apply km_flushPendingEvents].
  - etransitivity; [apply km_clearTimeout | apply km_refreshConsole].
  - etransitivity; [| apply km_refreshInspection]. km_chain.
  - etransitivity; [apply km_clearTimeout | apply km_run_loop].
  - apply km_refreshInspection.
Qed.

Lemma km_abort_inspections s : keeps_managers s (abort_inspections s).
Proof. apply km_foldl. intros. apply km_abort. Qed.

Lemma km_clear_debounces s : keeps_managers s (clear_debounces s).
Proof. apply km_foldl. intros. apply km_clearTimeout. Qed.

#[local] Hint Resolve km_abort_inspections km_clear_debounces : managers.

Lemma km_poll_effect o s : keeps_managers s (poll_effect o s).
Proof.
  unfold poll_effect. destruct (negb (Props.liveMode _)); [reflexivity |].
  destruct (negb (opt_truthy _)).
  { etransitivity; [apply (km_hook (Hook.set_currentPollDelayMs 0)) | apply km_refreshConsole]. }
  destruct (negb (Hook.isVisible _)); [apply km_hook |]. cbn zeta.
  etransitivity; [| apply km_run_loop]. unfold set_effect_loop. km_chain.
Qed.

Lemma km_poll_cleanup s : keeps_managers s (poll_cleanup s).
Proof.
  unfold poll_cleanup. destruct (effect_loop _); [| reflexivity]. unfold set_effect_loop. km_chain.
Qed.

Lemma km_select_effect o s : keeps_managers s (select_effect o s).
Proof. unfold select_effect. destruct (negb _); [reflexivity | apply km_refreshInspection]. Qed.

Lemma km_drawer_effect s : keeps_managers s (drawer_effect s).
Proof.
  unfold drawer_effect, set_effect_drawer. destruct (_ || _); [reflexivity |].
  destruct (_ <=? 0); [reflexivity |]. cbn zeta.
  etransitivity; [apply km_setTimeout | apply km_effects].
Qed.

Lemma km_drawer_cleanup s : keeps_managers s (drawer_cleanup s).
Proof. unfold drawer_cleanup, set_effect_drawer. destruct (effect_drawer _); km_chain. Qed.

Lemma km_cache_effect s : keeps_managers s (cache_effect s).
Proof. unfold cache_effect. repeat case_match; km_chain. Qed.

Lemma km_degraded_effect o s : keeps_managers s (degraded_effect o s).
Proof. unfold degraded_effect. case_match; km_chain. Qed.

Lemma km_recovered_effect s : keeps_managers s (recovered_effect s).
Proof. unfold recovered_effect. cbn zeta. destruct (_ && _); km_chain. Qed.

Lemma km_ref_effects old new b s : keeps_managers s (ref_effects old new b s).
Proof. unfold ref_effects. cbn zeta. destruct (String.eqb _ _), (_ =? _), b; km_chain. Qed.

Lemma km_reset_timeouts s : keeps_managers s (reset_timeouts s).
Proof.
  unfold reset_timeouts. cbn zeta.
  set (s1 := match Refs.refreshDebounceRef _ with Some _ => _ | None => _ end).
  assert (keeps_managers s s1) as H1s by (unfold s1; case_match; km_chain). clearbody s1.
  etransitivity; [exact H1s |].
  etransitivity; [| case_match; km_chain].
  etransitivity; [apply km_clear_debounces | by apply km_refs].
Qed.

Lemma km_reset_state s : keeps_managers s (reset_state s).
Proof. unfold reset_state. km_chain. Qed.

Lemma km_enter_demo o s : keeps_managers s (enter_demo o s).
Proof. unfold enter_demo. km_chain. Qed.

Lemma km_enter_live s : keeps_managers s (enter_live s).
Proof. unfold enter_live. km_chain. Qed.

(** ** Calls of a manager *)

Lemma managers_update (ms : gmap nat Manager) c n id opts m m' :
  managers_ok ms c n -> ms !! id = Some (opts, m) -> LiveTransport.step opts m m' ->
  stopped (manager m') = stopped (manager m) ->
  managers_ok (<[id := (opts, m')]> ms) c n.
Proof.
  intros [Hr Hs Hc Hi] Hm Hst E. split.
  - intros id' mm [[<- <-] | [_ ?]]%lookup_insert_Some; [| eauto].
    eapply rtc_r; [exact (Hr _ _ Hm) | exact Hst].
  - intros id' mm [[<- <-] | [_ ?]]%lookup_insert_Some Hne; [| eauto].
    unfold manager_stopped. cbn. rewrite E. exact (Hs _ _ Hm Hne).
  - intros id' Hid. destruct (Hc _ Hid) as (mm & Hmm & Hrun).
    destruct (decide (id = id')) as [<- | Hne].
    + pose proof (eq_trans (eq_sym Hmm) Hm) as [= ->]. eexists. rewrite lookup_insert_eq.
      split; [done |]. unfold manager_stopped in *. cbn in *. congruence.
    + eexists. by rewrite lookup_insert_ne.
  - intros id' [mm [[<- <-] | [_ ?]]%lookup_insert_Some]; apply Hi; eauto.
Qed.

Lemma managers_stop (ms : gmap nat Manager) c n id opts m m' :
  managers_ok ms c n -> ms !! id = Some (opts, m) -> LiveTransport.step opts m m' ->
  stopped (manager m') = true ->
  managers_ok (<[id := (opts, m')]> ms) (if decide (c = Some id) then None else c) n.
Proof.
  intros [Hr Hs Hc Hi] Hm Hst E. split.
  - intros id' mm [[<- <-] | [_ ?]]%lookup_insert_Some; [| eauto].
    eapply rtc_r; [exact (Hr _ _ Hm) | exact Hst].
  - intros id' mm [[<- <-] | [Hn Hl]]%lookup_insert_Some Hne; [done |].
    apply (Hs _ _ Hl). intros ->. destruct (decide _); [by simplify_eq | by apply Hne].
  - intros id'. destruct (decide _) as [-> | Hne]; [done |]. intros Hid.
    destruct (Hc _ Hid) as (mm & ?). exists mm. by rewrite lookup_insert_ne by congruence.
  - intros id' [mm [[<- <-] | [_ ?]]%lookup_insert_Some]; apply Hi; eauto.
Qed.

(** A manager that has just been made and started. *)
Lemma managers_start (ms : gmap nat Manager) n opts m :
  managers_ok ms None n -> LiveTransport.step opts LiveTransport.initial m ->
  stopped (manager m) = false ->
  managers_ok (<[n := (opts, m)]> ms) (Some n) (S n).
Proof.
  intros [Hr Hs Hc Hi] Hst E. split.
  - intros id mm [[<- <-] | [_ ?]]%lookup_insert_Some; [| eauto]. eapply rtc_l; [exact Hst | apply rtc_refl].
  - intros id mm [[<- <-] | [_ ?]]%lookup_insert_Some Hne; [done | by eapply Hs].
  - intros id [= <-]. eexists. by rewrite lookup_insert_eq.
  - intros id [mm [[<- <-] | [_ ?]]%lookup_insert_Some]; [lia |].
    assert (id < n)%nat by eauto. lia.
Qed.

(** What a call leaves alone: everything but the manager it is for. *)
Lemma manager_action_spec o id a s s' :
  manager_action o id a s = Some s' ->
  exists opts m m',
    St.managers s !! id = Some (opts, m) /\
    LiveTransport.perform opts (transport_env o) a m = Some m' /\
    keeps_managers (St.set_managers (<[id := (opts, m')]> (St.managers s)) s) s'.
Proof.
  unfold manager_action. destruct (St.managers s !! id) as [[opts m] |] eqn:Em; [| done]. cbn.
  destruct (LiveTransport.perform _ _ _ _) as [m' |] eqn:Ep; [| done]. cbn. intros [= <-].
  exists opts, m, m'. split_and!; [done | done |]. apply km_foldl. intros. apply km_callback.
Qed.

Lemma manager_action_defined o id a s opts m m' :
  St.managers s !! id = Some (opts, m) -> LiveTransport.perform opts (transport_env o) a m = Some m' ->
  manager_action o id a s <> None.
Proof.
  intros Hm Hp. unfold manager_action. destruct (St.managers s !! id) as [[opts' mm] |]; [| done].
  injection Hm as -> ->. cbn. by rewrite Hp.
Qed.

(** The owner's other calls and the browser's events stop and start nothing. *)
Definition ordinary (a : action) : Prop :=
  match a with Start | Stop _ => False | _ => True end.

Lemma ordinary_step opts o a m m' :
  valid_env (transport_env o) -> ordinary a ->
  LiveTransport.perform opts (transport_env o) a m = Some m' ->
  LiveTransport.step opts m m' /\ stopped (manager m') = stopped (manager m).
Proof.
  intros Hv Ha E. split.
  - apply (step_perform opts (transport_env o) a); [done | by destruct a | done].
  - by eapply perform_halted.
Qed.

(** [managers_of] with [current] in place of the ref. *)
Definition managers_with (current : option nat) (s : St) : Prop :=
  managers_ok (St.managers s) current (St.next s).

Lemma stop_call o id st s c :
  valid_env (transport_env o) -> st <> conn_live -> managers_with c s ->
  managers_with (if decide (c = Some id) then None else c) (call_manager o (Some id) (Stop st) s).
Proof.
  intros Hv Hst Hs. cbn. destruct (manager_action o id (Stop st) s) as [s' |] eqn:E; cbn.
  - apply manager_action_spec in E as (opts & m & m' & Hm & Ep & [E1 _ _ _ E5]). cbn in Ep.
    injection Ep as <-. unfold managers_with. rewrite E1. eapply managers_ok_next; [| exact E5].
    eapply managers_stop; [exact Hs | exact Hm | | apply stop_halted].
    by apply (step_perform opts (transport_env o) (Stop st)).
  - destruct (decide _) as [-> | _]; [| done]. exfalso.
    destruct (mg_current _ _ _ Hs id eq_refl) as ([opts m] & Hm & _).
    revert E. by eapply manager_action_defined.
Qed.

Lemma stop_current o st s :
  valid_env (transport_env o) -> st <> conn_live -> managers_of s ->
  managers_with None (call_manager o (Refs.transportManagerRef (St.refs s)) (Stop st) s).
Proof.
  intros Hv Hst Hs. destruct (Refs.transportManagerRef (St.refs s)) as [id |] eqn:E.
  - pose proof (stop_call o id st s (Some id) Hv Hst) as HS. rewrite decide_True in HS by done.
    apply HS. unfold managers_with. rewrite <- E. exact Hs.
  - unfold managers_with. cbn. rewrite <- E. exact Hs.
Qed.

(** ** The manager the settings ask for *)

(** The options of the manager that runs, if one is to run: in live mode, with
    a base URL and live updates, while the page is visible. *)
Definition wanted_manager (p : Props) (h : Hook) : option LiveTransportManagerOptions :=
  if Props.liveMode p && opt_truthy (Props.resolvedBaseUrl p) && Hook.isVisible h &&
     Props.liveUpdates p
  then Some
    {| LiveTransport.baseUrl :=
         opt_or_else (Props.resolvedRealtimeBaseUrl p) (opt_default (Props.resolvedBaseUrl p) "");
       LiveTransport.token := Props.token p |}
  else None.

Definition settled (s : St) : Prop :=
  match wanted_manager (St.props s) (St.rendered s) with
  | None => Refs.transportManagerRef (St.refs s) = None
  | Some opts => exists id m,
      Refs.transportManagerRef (St.refs s) = Some id /\ St.managers s !! id = Some (opts, m)
  end.

(** [s'] is as sound as [s]. *)
Definition preserves (s s' : St) : Prop :=
  managers_of s -> managers_of s' /\ (settled s -> settled s').

#[local] Instance preserves_preorder : PreOrder preserves.
Proof.
  split; [by intros s |]. intros s1 s2 s3 H12 H23 H1s.
  destruct (H12 H1s) as [H2s H12']. destruct (H23 H2s) as [H3s H23']. auto.
Qed.

Lemma keeps_preserves s s' : keeps_managers s s' -> preserves s s'.
Proof.
  intros Hk Hs. split; [by eapply managers_of_keeps |]. destruct Hk as [E1 E2 E3 E4 _].
  unfold settled. by rewrite E1, E2, E3, E4.
Qed.

Lemma ordinary_preserves o id a s s' :
  valid_env (transport_env o) -> ordinary a -> manager_action o id a s = Some s' -> preserves s s'.
Proof.
  intros Hv Ha E Hs. apply manager_action_spec in E as (opts & m & m' & Hm & Ep & Hk).
  destruct (ordinary_step opts o a m m' Hv Ha Ep) as [Hst Hstop].
  apply keeps_preserves in Hk. destruct Hk as [Hok Hset]; [by eapply managers_update |].
  split; [done |]. intros Hse. apply Hset. revert Hse. unfold settled. cbn.
  destruct (wanted_manager _ _) as [w |]; [| done]. intros (id' & mm & Hid & Hl).
  destruct (decide (id = id')) as [<- | Hne].
  - simplify_eq. exists id, m'. by rewrite lookup_insert_eq.
  - exists id', mm. by rewrite lookup_insert_ne.
Qed.

Lemma call_preserves o id a s :
  valid_env (transport_env o) -> ordinary a -> preserves s (call_manager o id a s).
Proof.
  intros Hv Ha. destruct id as [id |]; [| reflexivity]. cbn.
  destruct (manager_action o id a s) eqn:E; cbn; [by eapply ordinary_preserves | reflexivity].
Qed.

(** ** The effects that stop and start managers *)

Lemma start_manager_settles o s :
  valid_env (transport_env o) -> managers_with None s ->
  managers_of (start_manager o s) /\
  exists id m, Refs.transportManagerRef (St.refs (start_manager o s)) = Some id /\
    St.managers (start_manager o s) !! id =
      Some ({| LiveTransport.baseUrl :=
                 opt_or_else (Props.resolvedRealtimeBaseUrl (St.props s))
                   (opt_default (Props.resolvedBaseUrl (St.props s)) "");
               LiveTransport.token := Props.token (St.props s) |}, m).
Proof.
  intros Hv Hs. unfold start_manager. cbn zeta. set (opts := LiveTransport.Build_LiveTransportManagerOptions _ _).
  match goal with |- context [call_manager o (Some ?i) Start ?x] => set (s1 := x); set (id := i) end.
  destruct (manager_action o id Start s1) as [s2 |] eqn:E.
  - cbn. rewrite E. cbn.
    apply manager_action_spec in E as (opts' & m & m' & Hm & Ep & [E1 E2 E3 E4 E5]).
    cbn in Hm, Ep, E1, E2, E5. rewrite lookup_insert_eq in Hm. simplify_eq.
    rewrite insert_insert_eq in E1. unfold managers_of. cbn. rewrite E1, E2. split.
    + eapply managers_ok_next; [| exact E5].
      apply managers_start; [exact Hs | | apply start_running].
      apply (step_perform _ (transport_env o) Start); [done | by right | done].
    + exists id, (start LiveTransport.initial). by rewrite lookup_insert_eq.
  - exfalso. revert E. apply (manager_action_defined o id Start s1 opts LiveTransport.initial
      (start LiveTransport.initial)); [| done]. apply lookup_insert_eq.
Qed.

Lemma call_kept o id a s :
  St.props (call_manager o id a s) = St.props s /\
  St.rendered (call_manager o id a s) = St.rendered s /\
  Refs.transportManagerRef (St.refs (call_manager o id a s)) = Refs.transportManagerRef (St.refs s).
Proof.
  destruct id as [id |]; [| done]. cbn. destruct (manager_action o id a s) eqn:E; cbn; [| done].
  apply manager_action_spec in E as (? & ? & ? & _ & _ & []). auto.
Qed.

Lemma wanted_none p h :
  negb (Props.liveMode p) = true \/ negb (opt_truthy (Props.resolvedBaseUrl p)) = true \/
  negb (Hook.isVisible h) = true \/ negb (Props.liveUpdates p) = true ->
  wanted_manager p h = None.
Proof.
  intros Hn. unfold wanted_manager.
  destruct (Props.liveMode p), (opt_truthy _), (Hook.isVisible h), (Props.liveUpdates p); try done;
    naive_solver.
Qed.

Lemma transport_effect_settles o s :
  valid_env (transport_env o) -> managers_of s ->
  managers_of (transport_effect o s) /\ settled (transport_effect o s).
Proof.
  intros Hv Hs. unfold transport_effect. cbn zeta.
  set (st := paused_or_polling (Hook.isVisible (St.rendered s))).
  assert (st <> conn_live) as Hst by (unfold st; by destruct (Hook.isVisible _)). clearbody st.
  pose proof (stop_current o st s Hv Hst Hs) as HN.
  destruct (call_kept o (Refs.transportManagerRef (St.refs s)) (Stop st) s) as (Ep & Er & _).
  set (s1 := refs_upd (Refs.set_transportManagerRef None) _).
  assert (managers_of s1) as H1s by exact HN.
  assert (Refs.transportManagerRef (St.refs s1) = None) as Hn by done.
  change (St.props s1 = St.props s) in Ep. change (St.rendered s1 = St.rendered s) in Er.
  clearbody s1. rewrite <- Ep, <- Er. unfold settled.
  destruct (negb (Props.liveMode _)) eqn:E1; [rewrite wanted_none by auto; auto |].
  destruct (negb (opt_truthy _)) eqn:E2; [split; [exact H1s |]; cbn; rewrite wanted_none by auto; auto |].
  destruct (negb (Hook.isVisible _)) eqn:E3; [split; [exact H1s |]; cbn; rewrite wanted_none by auto; auto |].
  destruct (negb (Props.liveUpdates _)) eqn:E4; [split; [exact H1s |]; cbn; rewrite wanted_none by auto; auto |].
  destruct (start_manager_settles o s1 Hv) as [HS HE]; [unfold managers_with; by rewrite <- Hn |].
  split; [exact HS |]. unfold start_manager at 1 2. cbn -[call_manager start_manager].
  match goal with |- context [call_manager o (Some ?i) Start ?x] =>
    destruct (call_kept o (Some i) Start x) as (-> & -> & _) end.
  cbn -[start_manager]. unfold wanted_manager.
  apply negb_false_iff in E1, E2, E3, E4. rewrite E1, E2, E3, E4. exact HE.
Qed.

Lemma transport_cleanup_managers o s :
  valid_env (transport_env o) -> managers_of s -> managers_of (transport_cleanup o s).
Proof.
  intros Hv Hs. unfold transport_cleanup. destruct (effect_manager _) as [id |]; [| done]. cbn zeta.
  set (st := paused_or_polling _).
  assert (st <> conn_live) as Hst by (unfold st; by destruct (effect_visible _)). clearbody st.
  pose proof (stop_call o id st s _ Hv Hst Hs) as HN.
  destruct (call_kept o (Some id) (Stop st) s) as (_ & _ & <-) in HN.
  destruct (decide _); exact HN.
Qed.

Lemma live_mode_effect_managers o s :
  valid_env (transport_env o) -> managers_of s -> managers_of (live_mode_effect o s).
Proof.
  intros Hv Hs. unfold live_mode_effect. cbn zeta.
  set (st := if Props.liveMode _ then conn_idle else conn_demo).
  assert (st <> conn_live) as Hst by (unfold st; by destruct (Props.liveMode _)). clearbody st.
  set (s1 := abort_inspections _). assert (managers_of s1) as H1s.
  { eapply managers_of_keeps; [exact Hs |]. unfold s1. km_chain. }
  clearbody s1. pose proof (stop_current o st s1 Hv Hst H1s) as HN. set (s2 := call_manager _ _ _ s1) in *.
  clearbody s2. eapply managers_of_keeps with (reset_refs s2).
  - unfold reset_refs. eapply managers_of_keeps with (refs_upd (Refs.set_transportManagerRef None) s2);
      [exact HN | km_chain].
  - etransitivity; [apply km_reset_state |]. etransitivity; [apply km_reset_timeouts |].
    destruct (negb _); [apply km_enter_demo | apply km_enter_live].
Qed.

(** ** Renders *)

Lemma when_preserves b f s : (forall s, preserves s (f s)) -> preserves s (when b f s).
Proof. intros Hf. destruct b; [apply Hf | reflexivity]. Qed.

Lemma when_managers b f s :
  (forall s, managers_of s -> managers_of (f s)) -> managers_of s -> managers_of (when b f s).
Proof. intros Hf Hs. destruct b; [by apply Hf | done]. Qed.

(** The effects after the transport's. *)
Lemma later_effects o d s :
  preserves s
    (when (due_recovered d) recovered_effect
    (when (due_degraded d) (degraded_effect o)
    (when (due_cache d) cache_effect
    (when (due_drawer d) drawer_effect
    (when (due_select d) (select_effect o)
    (when (due_poll d) (poll_effect o) s)))))).
Proof.
  repeat (etransitivity; [| apply when_preserves; intros; apply keeps_preserves;
    first [apply km_recovered_effect | apply km_degraded_effect | apply km_cache_effect
          | apply km_drawer_effect | apply km_select_effect | apply km_poll_effect]]).
  reflexivity.
Qed.

Lemma run_effects_due o d s :
  valid_env (transport_env o) -> due_transport d = true -> managers_of s ->
  managers_of (run_effects o d s) /\ settled (run_effects o d s).
Proof.
  intros Hv Hd Hs. unfold run_effects. cbn zeta. rewrite Hd.
  set (s1 := when (due_live_mode d) _ _). assert (managers_of s1) as H1s.
  { unfold s1. apply when_managers; [intros; by apply live_mode_effect_managers |].
    apply when_managers; [intros x Hx; eapply managers_of_keeps; [exact Hx | apply km_drawer_cleanup] |].
    apply when_managers; [intros x Hx; eapply managers_of_keeps; [exact Hx | apply km_poll_cleanup] |].
    by apply transport_cleanup_managers. }
  clearbody s1. destruct (transport_effect_settles o s1 Hv H1s) as [H2s Hset].
  destruct (later_effects o d (when true (transport_effect o) s1) H2s) as [H3s Hset']. auto.
Qed.

Lemma run_effects_idle o d s :
  due_transport d = false -> due_live_mode d = false -> preserves s (run_effects o d s).
Proof.
  intros Hd Hl. unfold run_effects. cbn zeta. rewrite Hd, Hl.
  etransitivity; [| apply later_effects]. unfold when at 1 2 5.
  etransitivity; apply when_preserves; intros; apply keeps_preserves;
    [apply km_poll_cleanup | apply km_drawer_cleanup].
Qed.

Lemma changed_false {A} `{EqDecision A} (a b : A) : changed a b = false <-> a = b.
Proof. unfold changed. rewrite negb_false_iff. apply bool_decide_eq_true. Qed.

(** A render that does not run the transport effect asks for the same. *)
Lemma not_due p p' h h' j :
  due_transport (due p p' h h' j) = false ->
  due_live_mode (due p p' h h' j) = false /\ wanted_manager p' h' = wanted_manager p h.
Proof.
  cbn. rewrite !orb_false_iff, !changed_false. intros ((((((E1 & E2) & E3) & E4) & E5) & E6) & E7).
  split; [done |]. unfold wanted_manager. by rewrite E1, E2, E3, E5, E6, E7.
Qed.

Lemma commit_settles o p tr j s :
  valid_env (transport_env o) -> managers_of s -> settled s ->
  managers_of (commit o p tr j s) /\ settled (commit o p tr j s).
Proof.
  intros Hv Hs Hset. unfold commit. cbn zeta. set (h' := if tr then _ else _).
  set (s1 := ref_effects _ _ _ _).
  assert (keeps_managers (St.set_rendered h' (St.set_props p s)) s1) as Hk.
  { unfold s1. etransitivity; [| apply km_ref_effects]. by split. }
  assert (managers_of s1) as H1s by (eapply managers_of_keeps; [| exact Hk]; exact Hs).
  destruct (due_transport (due (St.props s) p (St.rendered s) h' j)) eqn:E;
    [by apply run_effects_due |].
  destruct (not_due _ _ _ _ _ E) as [El Ew].
  destruct (run_effects_idle o _ s1 E El H1s) as [H2s Hset2]. split; [exact H2s |]. apply Hset2.
  destruct Hk as [E1 E2 E3 E4 _]. unfold settled. rewrite E1, E2, E3, E4. cbn. by rewrite Ew.
Qed.

Lemma hook_step_settles s s' :
  managers_of s -> settled s -> hook_step s s' -> managers_of s' /\ settled s'.
Proof.
  intros Hs Hset Hst. destruct Hst as [o a s s' Hv _ E].
  assert (forall s', preserves s s' -> managers_of s' /\ settled s') as HP.
  { intros x Hx. destruct (Hx Hs). auto. }
  destruct a; cbn [perform] in E.
  - injection E as <-. by apply commit_settles.
  - injection E as <-. apply HP, keeps_preserves, km_hook.
  - apply HP, keeps_preserves. by eapply km_fire.
  - destruct (net_event id e (St.pool s)) as [q |]; [| done]. injection E as <-.
    apply HP, keeps_preserves, km_pool.
  - apply HP, keeps_preserves. by eapply km_handle_request.
  - destruct (browser_event a) eqn:Ea; [| done]. apply HP.
    apply (ordinary_preserves o id a); [exact Hv | by destruct a | exact E].
  - injection E as <-. apply HP. unfold manualReconnect. destruct (negb _); [reflexivity |].
    etransitivity; [| apply keeps_preserves, km_refreshConsole]. by apply call_preserves.
  - injection E as <-. apply HP, keeps_preserves, km_refreshConsole.
  - injection E as <-. apply HP, keeps_preserves, km_data.
  - injection E as <-. apply HP, keeps_preserves, km_pool.
Qed.

Lemma initial_managers o p v : managers_of (useDashboardLiveData o p v).
Proof. split; [done | done | done |]. by intros id [m Hm]. Qed.

Lemma reachable_settles s : hook_reachable s -> managers_of s /\ settled s.
Proof.
  induction 1 as [o p v Hv _ | s s' _ [IH1 IH2] Hst]; [| by eapply hook_step_settles].
  apply run_effects_due; [done | done | apply initial_managers].
Qed.

(** C36: The transport follows the settings. In every reachable state, after any
    sequence of renders with any props, page changes, events and reconnections,
    a manager runs exactly when the last render asked for one - live mode, a base
    URL, live updates, a visible page - it is the current one, it has the URL
    and the token of that render, and every other manager ever made is stopped. *)
Theorem transport_follows_settings s :
  hook_reachable s ->
  match wanted_manager (St.props s) (St.rendered s) with
  | None =>
      Refs.transportManagerRef (St.refs s) = None /\
      forall id m, St.managers s !! id = Some m -> manager_stopped m = true
  | Some opts =>
      exists id m,
        Refs.transportManagerRef (St.refs s) = Some id /\
        St.managers s !! id = Some (opts, m) /\ manager_stopped (opts, m) = false /\
        forall id' m', St.managers s !! id' = Some m' -> id' <> id -> manager_stopped m' = true
  end.
Proof.
  intros [Hs Hset]%reachable_settles. unfold settled in Hset.
  destruct (wanted_manager _ _) as [opts |].
  - destruct Hset as (id & m & Hid & Hm). exists id, m.
    destruct (mg_current _ _ _ Hs id Hid) as (m' & Hm' & Hrun).
    pose proof (eq_trans (eq_sym Hm') Hm) as [= ->]. split_and!; [done | done | done |].
    intros id' m' Hl Hne. eapply (mg_stopped _ _ _ Hs); [exact Hl |]. rewrite Hid. by intros [= ->].
  - split; [done |]. intros id m Hm. eapply (mg_stopped _ _ _ Hs); [exact Hm |]. by rewrite Hset.
Qed.
End Hook.

(** A manager runs, then the page is hidden and shown again. *)
Import LiveTasks.Sample.

Definition shown_again : St :=
  after [VisibilityChange false; Commit live_props true false;
         VisibilityChange true; Commit live_props true false].

Lemma shown_again_reachable : hook_reachable shown_again.
Proof. apply after_reachable. repeat constructor; apply live_props_valid. Qed.

Lemma transport_follows_settings_witness :
  map (fun '(id, m) => (id, manager_stopped m)) (map_to_list (St.managers shown_again)) =
    [(6%nat, false); (1%nat, true)] /\
  match wanted_manager (St.props shown_again) (St.rendered shown_again) with
  | None => False
  | Some _ => exists id, Refs.transportManagerRef (St.refs shown_again) = Some id
  end.
Proof.
  split; [by vm_compute |].
  pose proof (transport_follows_settings shown_again shown_again_reachable) as Hf.
  destruct (wanted_manager _ _) as [opts |] eqn:E; [| by vm_compute in E].
  destruct Hf as (id & _ & Hid & _). by exists id.
Defined.
