(* ===== verification/LiveTimeouts.v ===== *)
(** The timeouts that the live data of LiveData.v arms, and its polling loop.

    Each armed timeout has a holder - a ref, a polling loop or an effect - that
    can clear it. [clock_ok] is the invariant of this view of the state: queued
    events have their flush armed, and the polling loop of the last run of the
    polling effect waits for a refresh under way, has its timeout armed, or has
    no interval. [keeps_clock] says that a callback leaves the view alone. *)

From stdpp Require Import base list strings gmap relations.
From Stdlib Require Import ZArith Lia Bool.
From S2P Require Import Prelude JsString JsNum JsDate JsValue Models ApiRoutes Safe LiveRefresh.
From S2P Require Import LiveTransport ToastQueue ApiParsers RequestClient RequestPool ConsoleState.
From S2P Require Import Urls DemoData LiveState LiveData LiveTasks LiveManagers.

#[local] Open Scope Z_scope.

(** * Holders *)

Inductive holder :=
  | Flush
  | Debounce
  | Inspect (jobId : string)
  | Polling (loop : nat)
  | Drawer.

#[export] Instance holder_eq_dec : EqDecision holder.
Proof. solve_decision. Defined.

Definition holder_of (t : timeout) : holder :=
  match t with
  | FlushEvents => Flush
  | RefreshConsole => Debounce
  | RefreshInspection jobId => Inspect jobId
  | PollAgain loop => Polling loop
  | DrawerTick _ => Drawer
  end.

Definition held (s : St) (h : holder) : option nat :=
  match h with
  | Flush => Refs.eventFlushTimerRef (St.refs s)
  | Debounce => Refs.refreshDebounceRef (St.refs s)
  | Inspect jobId => Refs.inspectionDebounceRef (St.refs s) !! jobId
  | Polling loop => l ← St.loops s !! loop; timer l
  | Drawer => effect_drawer (St.effects s)
  end.

(** The holders that let go of a timeout once it is not armed. *)
Definition lets_go (h : holder) : bool :=
  match h with Flush | Drawer => true | _ => false end.

Definition refresh_ids (s : St) : list nat := (St.refreshTasks s).*1.

(** What keeps a polling loop going. *)
Definition goes_on (s : St) (id : nat) (l : Loop) : Prop :=
  match awaiting l with
  | Some p => True
  | None =>
      loop_poll l <= 0 \/
      exists t d, timer l = Some t /\ St.timers s !! t = Some (PollAgain id, d)
  end.

(** [busy] is a loop that is running, [gone] a refresh that has just ended. *)
Record clock_ok (busy gone : option nat) (s : St) : Prop := {
  ck_lt : forall h id, held s h = Some id -> (id < St.next s)%nat;
  ck_inj : forall h h' id, held s h = Some id -> held s h' = Some id -> h = h';
  ck_owned : forall id t d, St.timers s !! id = Some (t, d) -> held s (holder_of t) = Some id;
  ck_armed : forall h id, lets_go h = true -> held s h = Some id -> is_Some (St.timers s !! id);
  ck_events : Refs.pendingEventsRef (St.refs s) <> [] -> is_Some (held s Flush);
  ck_loops : forall id, is_Some (St.loops s !! id) -> (id < St.next s)%nat;
  ck_current : forall id l, St.loops s !! id = Some l -> cancelled l = false ->
    effect_loop (St.effects s) = Some id;
  ck_effect : forall id, effect_loop (St.effects s) = Some id ->
    exists l, St.loops s !! id = Some l /\ cancelled l = false /\ (busy = Some id \/ goes_on s id l);
  ck_idle : forall t id d, St.timers s !! t = Some (PollAgain id, d) ->
    busy <> Some id /\ 5000 <= d <= 60000 /\
    exists l, St.loops s !! id = Some l /\ cancelled l = false /\ awaiting l = None;
  ck_await : forall id l p, St.loops s !! id = Some l -> awaiting l = Some p ->
    p ∈ refresh_ids s \/ gone = Some p;
  ck_poll : forall id l, St.loops s !! id = Some l -> loop_poll l ∈ [0; 5000; 15000; 30000]
}.

(** * Callbacks that leave the clock alone *)

Record keeps_clock (s s' : St) : Prop := {
  kc_timers : St.timers s' = St.timers s;
  kc_flush : Refs.eventFlushTimerRef (St.refs s') = Refs.eventFlushTimerRef (St.refs s);
  kc_debounce : Refs.refreshDebounceRef (St.refs s') = Refs.refreshDebounceRef (St.refs s);
  kc_inspect : Refs.inspectionDebounceRef (St.refs s') = Refs.inspectionDebounceRef (St.refs s);
  kc_pending : Refs.pendingEventsRef (St.refs s') = Refs.pendingEventsRef (St.refs s);
  kc_loops : St.loops s' = St.loops s;
  kc_effect_loop : effect_loop (St.effects s') = effect_loop (St.effects s);
  kc_effect_drawer : effect_drawer (St.effects s') = effect_drawer (St.effects s);
  kc_tasks : forall p, p ∈ refresh_ids s -> p ∈ refresh_ids s';
  kc_props : St.props s' = St.props s;
  kc_rendered : St.rendered s' = St.rendered s;
  kc_next : (St.next s <= St.next s')%nat
}.

#[export] Instance keeps_clock_preorder : PreOrder keeps_clock.
Proof.
  split; [by intros s; split |]. intros s1 s2 s3 [] []. split; try congruence; [auto | lia].
Qed.

Lemma kc_held s s' h : keeps_clock s s' -> held s' h = held s h.
Proof. intros []. destruct h; cbn; congruence. Qed.

Lemma kc_goes_on s s' id l : keeps_clock s s' -> goes_on s id l -> goes_on s' id l.
Proof. intros [E _ _ _ _ _ _ _ _ _ _ _]. unfold goes_on. by rewrite E. Qed.

Lemma clock_keeps b g s s' : clock_ok b g s -> keeps_clock s s' -> clock_ok b g s'.
Proof.
  intros [H1 H2 H3 H4 H5 H6 H7 H8 H9 H10 H11] Hk.
  pose proof (fun h => kc_held s s' h Hk) as EH. pose proof (fun id l => kc_goes_on s s' id l Hk) as EG.
  destruct Hk as [E1 E2 E3 E4 E5 E6 E7 E8 E9 _ _ E12].
  split.
  - intros h id. rewrite EH. intros Hh%H1. lia.
  - intros h h' id. rewrite !EH. apply H2.
  - intros id t d. rewrite E1, EH. apply H3.
  - intros h id. rewrite E1, EH. apply H4.
  - rewrite E5, EH. apply H5.
  - intros id. rewrite E6. intros Hl%H6. lia.
  - intros id l. rewrite E6, E7. apply H7.
  - intros id. rewrite E6, E7. intros (l & Hl & Hc & [Hb | Hg])%H8; exists l; auto.
  - intros t id d. rewrite E1, E6. apply H9.
  - intros id l p. rewrite E6. intros Hl Ha. destruct (H10 id l p Hl Ha); auto.
  - intros id l. rewrite E6. apply H11.
Qed.

(** * Arming and clearing *)

Definition cleared (x : option nat) (tm : gmap nat (timeout * Z)) : gmap nat (timeout * Z) :=
  match x with Some id => delete id tm | None => tm end.

Lemma cleared_Some x tm id v : cleared x tm !! id = Some v -> tm !! id = Some v /\ x <> Some id.
Proof.
  destruct x as [i |]; cbn; [| done]. intros [Hn Hl]%lookup_delete_Some. split; [done |]. congruence.
Qed.

Lemma cleared_other x tm id : x <> Some id -> cleared x tm !! id = tm !! id.
Proof. destruct x as [i |]; cbn; [| done]. intros Hn. rewrite lookup_delete_ne; congruence. Qed.

(** [s'] is [s] but for the timeout of [h], which is not a polling loop: what
    was armed is cleared, and [x] is held instead. *)
Record reholds (h : holder) (x : option nat) (s s' : St) : Prop := {
  rh_held : forall h', held s' h' = if decide (h' = h) then x else held s h';
  rh_loops : St.loops s' = St.loops s;
  rh_effect_loop : effect_loop (St.effects s') = effect_loop (St.effects s);
  rh_tasks : refresh_ids s' = refresh_ids s;
  rh_polling : forall l, h <> Polling l
}.

Section Rehold.
Context (b g : option nat) (s : St) (Hs : clock_ok b g s).

(** A loop's timeout is not cleared with that of another holder. *)
Lemma goes_on_cleared h id l (tm : gmap nat (timeout * Z)) :
  (forall l, h <> Polling l) ->
  (forall t d, cleared (held s h) (St.timers s) !! t = Some (PollAgain id, d) ->
               tm !! t = Some (PollAgain id, d)) ->
  goes_on s id l ->
  match awaiting l with
  | Some _ => True
  | None => loop_poll l <= 0 \/ exists t d, timer l = Some t /\ tm !! t = Some (PollAgain id, d)
  end.
Proof.
  intros Hh Htm. unfold goes_on. destruct (awaiting l); [done |].
  intros [? | (t & d & Ht & Hl)]; [by left | right]. exists t, d. split; [done |]. apply Htm.
  rewrite cleared_other; [done |]. intros E. apply (Hh id).
  eapply (ck_inj _ _ _ Hs); [exact E |]. exact (ck_owned _ _ _ Hs _ _ _ Hl).
Qed.

(** The timeouts of some holders, none a polling loop, are cleared. *)
Record drops (P : holder -> bool) (s' : St) : Prop := {
  dr_held : forall h, held s' h = if P h then None else held s h;
  dr_timers : forall id t d,
    St.timers s' !! id = Some (t, d) <-> St.timers s !! id = Some (t, d) /\ P (holder_of t) = false;
  dr_polling : forall l, P (Polling l) = false;
  dr_loops : St.loops s' = St.loops s;
  dr_effect_loop : effect_loop (St.effects s') = effect_loop (St.effects s);
  dr_tasks : refresh_ids s' = refresh_ids s;
  dr_next : (St.next s <= St.next s')%nat
}.

Lemma drops_ok P s' :
  drops P s' -> (Refs.pendingEventsRef (St.refs s') <> [] -> is_Some (held s' Flush)) ->
  clock_ok b g s'.
Proof.
  intros [R1 Rt R5 R2 R3 R4 Hn] Hp. destruct Hs as [H1 H2 H3 H4 H5 H6 H7 H8 H9 H10 H11].
  assert (forall h' id, held s' h' = Some id -> held s h' = Some id /\ P h' = false) as Hheld.
  { intros h' id. rewrite R1. by destruct (P h'). }
  split.
  - intros h' id [Hh _]%Hheld. apply H1 in Hh. lia.
  - intros h1 h2 id [Hh1 _]%Hheld [Hh2 _]%Hheld. eauto.
  - intros id t d [Hl HP]%Rt. rewrite R1, HP. eauto.
  - intros h' id Hg [Hh HP]%Hheld. destruct (H4 h' id Hg Hh) as [[t d] Hl].
    exists (t, d). apply Rt. split; [done |]. apply H3 in Hl as Ho. by rewrite <- (H2 _ _ _ Hh Ho).
  - exact Hp.
  - intros id. rewrite R2. intros Hl%H6. lia.
  - intros id l. rewrite R2, R3. apply H7.
  - intros id. rewrite R2, R3. intros (l & Hl & Hc & [Hb | Hg])%H8; exists l; [by auto |].
    split_and!; [done | done | right]. revert Hg. unfold goes_on. destruct (awaiting l); [done |].
    intros [? | (t & d & Ht & Htm)]; [by left | right]. exists t, d. split; [done |].
    apply Rt. split; [done |]. apply R5.
  - intros t id d [Hl _]%Rt. rewrite R2. by apply H9 in Hl.
  - intros id l p. rewrite R2, R4. apply H10.
  - intros id l. rewrite R2. apply H11.
Qed.

Lemma drop_ok h s' :
  reholds h None s s' -> St.timers s' = cleared (held s h) (St.timers s) ->
  (St.next s <= St.next s')%nat ->
  (Refs.pendingEventsRef (St.refs s') <> [] -> is_Some (held s' Flush)) ->
  clock_ok b g s'.
Proof.
  intros [R1 R2 R3 R4 R5] Et Hn Hp. apply (drops_ok (fun h' => bool_decide (h' = h))); [| exact Hp].
  split; try done.
  - intros h'. rewrite R1. by case_decide; case_bool_decide.
  - intros id t d. rewrite Et, bool_decide_eq_false. split.
    + intros [Hl Hne]%cleared_Some. split; [done |]. intros <-. apply Hne.
      exact (ck_owned _ _ _ Hs _ _ _ Hl).
    + intros [Hl Hne]. rewrite cleared_other; [done |]. intros E. apply Hne.
      eapply (ck_inj _ _ _ Hs); [exact (ck_owned _ _ _ Hs _ _ _ Hl) | done].
  - intros l. apply bool_decide_eq_false. intros E. by apply (R5 l).
Qed.

Lemma put_ok h t d s' :
  reholds h (Some (St.next s)) s s' -> holder_of t = h ->
  St.timers s' = <[St.next s := (t, d)]> (cleared (held s h) (St.timers s)) ->
  St.next s' = S (St.next s) ->
  (Refs.pendingEventsRef (St.refs s') <> [] -> is_Some (held s' Flush)) ->
  clock_ok b g s'.
Proof.
  intros [R1 R2 R3 R4 R5] Eh Et Hn Hp. destruct Hs as [H1 H2 H3 H4 H5 H6 H7 H8 H9 H10 H11].
  assert (forall h' id, held s' h' = Some id ->
            (h' = h /\ id = St.next s) \/ (h' <> h /\ held s h' = Some id /\ (id < St.next s)%nat)) as Hheld.
  { intros h' id. rewrite R1. destruct (decide (h' = h)) as [-> | Hne]; [intros [= <-]; auto |].
    intros Hh. right. split_and!; eauto. }
  split.
  - intros h' id [[_ ->] | (_ & _ & Hlt)]%Hheld; lia.
  - intros h1 h2 id [[-> E] | (Hn1 & Hh1 & L1)]%Hheld [[-> E2] | (Hn2 & Hh2 & L2)]%Hheld;
      [done | lia | lia | eauto].
  - intros id t' d'. rewrite Et, R1. intros [[<- [= <- <-]] | [Hne Hl]]%lookup_insert_Some;
      [by rewrite decide_True |].
    apply cleared_Some in Hl as [Hl Hx]. apply H3 in Hl.
    destruct (decide _) as [E | _]; [| done]. by rewrite <- E in Hx.
  - intros h' id Hg [[-> ->] | (Hne & Hh & Hlt)]%Hheld; rewrite Et.
    + by rewrite lookup_insert_eq.
    + rewrite lookup_insert_ne by lia. rewrite cleared_other; [eauto |]. intros E. apply Hne. eauto.
  - exact Hp.
  - intros id. rewrite R2. intros Hl%H6. lia.
  - intros id l. rewrite R2, R3. apply H7.
  - intros id. rewrite R2, R3. intros (l & Hl & Hc & [Hb | Hg])%H8; exists l; [by auto |].
    split_and!; [done | done | right]. eapply goes_on_cleared; [exact R5 | | exact Hg].
    intros t' d' Hl'. rewrite Et, lookup_insert_ne; [done |]. intros <-.
    apply cleared_Some in Hl' as [Hl'%H3%H1 _]. lia.
  - intros t' id d'. rewrite Et, R2. intros [[<- [= -> <-]] | [Hne Hl]]%lookup_insert_Some.
    + by destruct (R5 id).
    + apply cleared_Some in Hl as [Hl _]. by apply H9 in Hl.
  - intros id l p. rewrite R2, R4. apply H10.
  - intros id l. rewrite R2. apply H11.
Qed.

(** A timeout fires whose holder keeps its number: a debounced refresh, or the
    timeout of a polling loop, which then runs. *)
Lemma fired_ok id t d :
  St.timers s !! id = Some (t, d) -> lets_go (holder_of t) = false ->
  clock_ok (match t with PollAgain l => Some l | _ => b end) g (clearTimeout id s).
Proof.
  intros Hid Hg. destruct Hs as [H1 H2 H3 H4 H5 H6 H7 H8 H9 H10 H11].
  assert (forall t' u d', delete id (St.timers s) !! t' = Some (u, d') ->
            St.timers s !! t' = Some (u, d') /\ t' <> id /\ holder_of u <> holder_of t) as Hrest.
  { intros t' u d' [Hne Hl]%lookup_delete_Some. split_and!; [done | done |]. intros E.
    apply Hne. apply H3 in Hid as E1. apply H3 in Hl as E2. rewrite E in E2. congruence. }
  split; cbn.
  - exact H1.
  - exact H2.
  - intros id' t' d' (Hl & _)%Hrest. eauto.
  - intros h id' Hgo Hh. rewrite lookup_delete_ne; [eauto |]. intros <-.
    apply H3 in Hid. rewrite (H2 _ _ _ Hid Hh) in Hg. congruence.
  - exact H5.
  - exact H6.
  - exact H7.
  - intros l Hl. apply H8 in Hl as HE. destruct HE as (lp & Hlp & Hc & Hor). exists lp.
    split_and!; [done | done |].
    destruct (decide (holder_of t = Polling l)) as [E | Hn]; [left; destruct t; by simplify_eq/= |].
    assert (b = Some l \/ goes_on (clearTimeout id s) l lp) as [-> | Hgo].
    { destruct Hor as [? | Hor]; [by left | right]. revert Hor. unfold goes_on.
      destruct (awaiting lp); [done |]. intros [? | (t' & d' & Ht' & Hl')]; [by left | right].
      exists t', d'. split; [done |]. cbn. rewrite lookup_delete_ne; [done |]. intros <-.
      apply Hn. rewrite Hid in Hl'. by injection Hl' as -> ->. }
    + destruct t; try by left. right. destruct (H9 _ _ _ Hid) as (_ & _ & lp' & Hlp' & Hc' & _).
      exfalso. apply Hn. cbn. pose proof (H7 _ _ Hlp' Hc'). congruence.
    + by right.
  - intros t' l d' (Hl & Hne & Hho)%Hrest. destruct (H9 _ _ _ Hl) as (Hb & Hd & lp & Hlp & Hc & Ha).
    split_and!; [| lia | lia | by exists lp].
    destruct t; try done. cbn in Hho. congruence.
  - exact H10.
  - exact H11.
Qed.
End Rehold.

(** * Polling loops *)

Lemma next_delay_range l s d :
  loop_poll l ∈ [0; 5000; 15000; 30000] -> next_delay l s = Some d -> 5000 <= d <= 60000.
Proof.
  intros Hp. unfold next_delay, getNextPollDelay, MIN_POLLING_FALLBACK_MS.
  assert (loop_poll l = 0 \/ loop_poll l = 5000 \/ loop_poll l = 15000 \/ loop_poll l = 30000) as Hc
    by set_solver.
  destruct (Z.leb_spec (loop_poll l) 0); [done |].
  set (f := Refs.consecutiveFailuresRef (St.refs s)). destruct (Z.leb_spec f 0) as [Hf | Hf]; cbn.
  - intros [= <-]. destruct (using_realtime l s); lia.
  - pose proof (Z.pow_pos_nonneg 2 f). intros [= <-]. destruct (using_realtime l s); lia.
Qed.

Lemma next_delay_none l s : next_delay l s = None -> loop_poll l <= 0.
Proof.
  unfold next_delay, getNextPollDelay. destruct (Z.leb_spec (loop_poll l) 0); [done |].
  by destruct (_ <=? 0).
Qed.

Section Loops.
Context (b g : option nat) (s : St) (Hs : clock_ok b g s) (id : nat) (l : Loop).
Context (Hid : St.loops s !! id = Some l) (Hb : b = None \/ b = Some id).
Context (Hidle : forall t d, St.timers s !! t <> Some (PollAgain id, d)).

(** A loop other than [id] is not the one that runs. *)
Lemma other_goes_on s' id' l' :
  effect_loop (St.effects s) = Some id' -> id' <> id -> b = Some id' \/ goes_on s id' l' ->
  (forall t d, St.timers s !! t = Some (PollAgain id', d) -> St.timers s' !! t = Some (PollAgain id', d)) ->
  goes_on s' id' l'.
Proof.
  intros He Hne [-> | Hg] Ht; [destruct Hb; by simplify_eq |]. revert Hg. unfold goes_on.
  destruct (awaiting l'); [done |]. intros [? | (t & d & Htm & Hl)]; [by left | right]. eauto.
Qed.

(** The loop waits for nothing any more, and ends. *)
Lemma ends_ok s' :
  St.loops s' = <[id := set_awaiting None l]> (St.loops s) ->
  keeps_clock (St.set_loops (St.loops s') s) s' ->
  cancelled l = true \/ loop_poll l <= 0 -> clock_ok None g s'.
Proof.
  intros El Hk Hend. eapply clock_keeps; [| exact Hk]. clear Hk. rewrite El. clear El s'.
  destruct Hs as [H1 H2 H3 H4 H5 H6 H7 H8 H9 H10 H11].
  assert (forall h, held (St.set_loops (<[id := set_awaiting None l]> (St.loops s)) s) h = held s h) as EH.
  { intros []; cbn; try done. destruct (decide (id = loop)) as [<- | Hne];
      [by rewrite lookup_insert_eq, Hid | by rewrite lookup_insert_ne]. }
  split; cbn -[held].
  - intros h t. rewrite EH. apply H1.
  - intros h h' t. rewrite !EH. apply H2.
  - intros t u d. rewrite EH. apply H3.
  - intros h t. rewrite EH. apply H4.
  - rewrite EH. apply H5.
  - intros t [<- | [_ Hl]]%lookup_insert_is_Some; apply H6; [by rewrite Hid | done].
  - intros t u [[<- <-] | [_ Hl]]%lookup_insert_Some Hc; [| eauto]. cbn in Hc. eauto.
  - intros t Ht. apply H8 in Ht as HE. destruct HE as (u & Hu & Hc & Hor).
    destruct (decide (id = t)) as [<- | Hne].
    + exists (set_awaiting None l). rewrite lookup_insert_eq. assert (u = l) as -> by congruence.
      split_and!; [done | done | right]. unfold goes_on. cbn. left. destruct Hend; [congruence | done].
    + exists u. rewrite lookup_insert_ne by done. split_and!; [done | done | right].
      apply (other_goes_on _ t u); auto.
  - intros t u d Ht. destruct (H9 t u d Ht) as (_ & Hd & lp & Hlp & Hc & Ha).
    split_and!; [done | lia | lia |]. exists lp. rewrite lookup_insert_ne; [done |].
    intros <-. by apply (Hidle t d).
  - intros t u p [[<- <-] | [_ Hl]]%lookup_insert_Some; [done | eauto].
  - intros t u [[<- <-] | [_ Hl]]%lookup_insert_Some; [cbn; eauto | eauto].
Qed.

(** The loop waits for nothing any more, and arms its timeout. *)
Lemma again_ok s' d :
  cancelled l = false -> 5000 <= d <= 60000 ->
  St.loops s' = <[id := set_timer (Some (St.next s)) (set_awaiting None l)]> (St.loops s) ->
  St.timers s' = <[St.next s := (PollAgain id, d)]> (St.timers s) ->
  St.next s' = S (St.next s) ->
  keeps_clock (St.set_next (St.next s') (St.set_timers (St.timers s') (St.set_loops (St.loops s') s))) s' ->
  clock_ok None g s'.
Proof.
  intros Hrun Hd El Et En Hk. eapply clock_keeps; [| exact Hk]. clear Hk. rewrite El, Et, En.
  clear El Et En s'. destruct Hs as [H1 H2 H3 H4 H5 H6 H7 H8 H9 H10 H11].
  set (l' := set_timer _ _). set (s' := St.set_next _ _).
  assert (forall h t, held s' h = Some t ->
            (h = Polling id /\ t = St.next s) \/ (h <> Polling id /\ held s h = Some t /\ (t < St.next s)%nat))
    as Hheld.
  { intros h t Ht. destruct (decide (h = Polling id)) as [-> | Hne].
    - left. cbn in Ht. rewrite lookup_insert_eq in Ht. cbn in Ht. split; congruence.
    - right. assert (held s h = Some t) as Hh.
      { destruct h; try exact Ht. cbn in *. rewrite lookup_insert_ne in Ht; congruence. }
      split_and!; eauto. }
  assert (held s' (Polling id) = Some (St.next s)) as Hme by (cbn; by rewrite lookup_insert_eq).
  assert (forall h, h <> Polling id -> held s' h = held s h) as Hother.
  { intros [] Hne; try done. cbn. rewrite lookup_insert_ne; congruence. }
  split; cbn -[held].
  - intros h t [[_ ->] | (_ & _ & Hlt)]%Hheld; lia.
  - intros h1 h2 t [[-> E] | (Hn1 & Hh1 & L1)]%Hheld [[-> E2] | (Hn2 & Hh2 & L2)]%Hheld;
      [done | lia | lia | eauto].
  - intros t u d' [[<- [= <- <-]] | [Hne Hl]]%lookup_insert_Some; [exact Hme |].
    rewrite Hother; [eauto |]. intros E. destruct u; try done. injection E as ->. by apply (Hidle t d').
  - intros h t Hg [[-> _] | (_ & Hh & Hlt)]%Hheld; [done |]. rewrite lookup_insert_ne by lia. eauto.
  - rewrite Hother by done. apply H5.
  - intros t [<- | [_ Hl]]%lookup_insert_is_Some.
    + assert (id < St.next s)%nat by (apply H6; by rewrite Hid). lia.
    + apply H6 in Hl. lia.
  - intros t u [[<- <-] | [_ Hl]]%lookup_insert_Some Hc; eauto.
  - intros t Ht. apply H8 in Ht as HE. destruct HE as (u & Hu & Hc & Hor).
    destruct (decide (id = t)) as [<- | Hne].
    + exists l'. rewrite lookup_insert_eq. split_and!; [done | done | right]. unfold goes_on. cbn. right.
      exists (St.next s), d. by rewrite lookup_insert_eq.
    + exists u. rewrite lookup_insert_ne by done. split_and!; [done | done | right].
      apply (other_goes_on _ t u); [done | done | done |]. intros t' d' Hl. cbn.
      rewrite lookup_insert_ne; [done |]. intros <-. apply H3, H1 in Hl. lia.
  - intros t u d' [[<- [= <- <-]] | [Hne Hl]]%lookup_insert_Some.
    + split_and!; [done | lia | lia |]. exists l'. by rewrite lookup_insert_eq.
    + destruct (H9 _ _ _ Hl) as (_ & Hd' & lp & Hlp & Hc & Ha). split_and!; [done | lia | lia |].
      exists lp. rewrite lookup_insert_ne; [done |]. intros <-. by apply (Hidle t d').
  - intros t u p [[<- <-] | [_ Hl]]%lookup_insert_Some; [done | eauto].
  - intros t u [[<- <-] | [_ Hl]]%lookup_insert_Some; [cbn; eauto | eauto].
Qed.

Lemma resume_ok : clock_ok None g (resume_loop id s).
Proof.
  unfold resume_loop. rewrite Hid. cbn zeta.
  assert (St.loops (update_loop id (set_awaiting None) s) = <[id := set_awaiting None l]> (St.loops s)) as El.
  { cbn. by rewrite alter_alt, Hid. }
  destruct (cancelled l) eqn:Ec.
  { apply ends_ok; [exact El | by split | by left]. }
  unfold scheduleNext. rewrite El, lookup_insert_eq.
  destruct (next_delay _ _) as [d |] eqn:Ed.
  - apply next_delay_range in Ed; [| cbn; by eapply (ck_poll _ _ _ Hs)]. cbn zeta.
    apply (again_ok _ d); [done | done | | done | done | by split].
    change (alter (set_timer (Some (St.next s))) id (St.loops (update_loop id (set_awaiting None) s)) =
      <[id := set_timer (Some (St.next s)) (set_awaiting None l)]> (St.loops s)).
    by rewrite El, alter_insert_eq.
  - apply ends_ok; [exact El | by split |]. right. by apply next_delay_none in Ed.
Qed.

(** The loop waits for a refresh under way. *)
Lemma waits_ok p :
  p ∈ refresh_ids s -> b = Some id -> cancelled l = false ->
  clock_ok None g (update_loop id (set_awaiting (Some p)) s).
Proof.
  intros Hp Eb Hrun. destruct Hs as [H1 H2 H3 H4 H5 H6 H7 H8 H9 H10 H11].
  assert (St.loops (update_loop id (set_awaiting (Some p)) s) = <[id := set_awaiting (Some p) l]> (St.loops s))
    as El.
  { cbn. by rewrite alter_alt, Hid. }
  set (s' := update_loop _ _ _) in *.
  assert (forall h, held s' h = held s h) as EH.
  { intros []; try done. cbn [held]. rewrite El. destruct (decide (id = loop)) as [<- | Hne];
      [by rewrite lookup_insert_eq, Hid | by rewrite lookup_insert_ne]. }
  split; rewrite ?El; cbn -[held].
  - intros h t. rewrite EH. apply H1.
  - intros h h' t. rewrite !EH. apply H2.
  - intros t u d. rewrite EH. apply H3.
  - intros h t. rewrite EH. apply H4.
  - rewrite EH. apply H5.
  - intros t [<- | [_ Hl]]%lookup_insert_is_Some; apply H6; [by rewrite Hid | done].
  - intros t u [[<- <-] | [_ Hl]]%lookup_insert_Some Hc; eauto.
  - intros t Ht. apply H8 in Ht as HE. destruct HE as (u & Hu & Hc & Hor).
    destruct (decide (id = t)) as [<- | Hne].
    + exists (set_awaiting (Some p) l). rewrite lookup_insert_eq. split_and!; [done | done | by right].
    + exists u. rewrite lookup_insert_ne by done. split_and!; [done | done | right].
      apply (other_goes_on _ t u); auto.
  - intros t u d Ht. destruct (H9 t u d Ht) as (_ & Hd & lp & Hlp & Hc & Ha).
    split_and!; [done | lia | lia |]. exists lp. rewrite lookup_insert_ne; [done |].
    intros <-. by apply (Hidle t d).
  - intros t u p' [[<- <-] | [_ Hl]]%lookup_insert_Some; [intros [= <-]; by left | eauto].
  - intros t u [[<- <-] | [_ Hl]]%lookup_insert_Some; [cbn; eauto | eauto].
Qed.
End Loops.

Section Hook.
Context `{UrlApi} `{HeadersApi} `{DateHost} `{Browser} `{ApiView}.

(** * Callbacks that leave the clock alone *)

Lemma kc_hook f s : keeps_clock s (hook_upd f s).
Proof. by split. Qed.

Lemma kc_status f s : keeps_clock s (setTransportStatus f s).
Proof. by split. Qed.

Lemma kc_refs f s :
  (forall r, Refs.eventFlushTimerRef (f r) = Refs.eventFlushTimerRef r /\
             Refs.refreshDebounceRef (f r) = Refs.refreshDebounceRef r /\
             Refs.inspectionDebounceRef (f r) = Refs.inspectionDebounceRef r /\
             Refs.pendingEventsRef (f r) = Refs.pendingEventsRef r) ->
  keeps_clock s (refs_upd f s).
Proof. intros Hf. destruct (Hf (St.refs s)) as (? & ? & ? & ?). by split. Qed.

Lemma kc_pool p s : keeps_clock s (St.set_pool p s).
Proof. by split. Qed.

Lemma kc_managers m s : keeps_clock s (St.set_managers m s).
Proof. by split. Qed.

Lemma kc_inspections l s : keeps_clock s (St.set_inspectionTasks l s).
Proof. by split. Qed.

Lemma kc_notified l s : keeps_clock s (St.set_notified l s).
Proof. by split. Qed.

Lemma kc_bump s : keeps_clock s (St.set_next (S (St.next s)) s).
Proof. split; cbn; try done. lia. Qed.

Lemma kc_abort c s : keeps_clock s (abort_controller c s).
Proof. destruct c; [apply kc_pool | reflexivity]. Qed.

Lemma kc_add_refresh t s : keeps_clock s (St.set_refreshTasks (St.refreshTasks s ++ [t]) s).
Proof.
  split; cbn; try done. intros p. unfold refresh_ids. cbn. rewrite fmap_app. intros Hp.
  apply elem_of_app. by left.
Qed.

Lemma kc_failures f s : keeps_clock s (setConsecutiveFailures f s).
Proof. by split. Qed.

Lemma kc_meta j f s : keeps_clock s (setInspectionMeta j f s).
Proof. by split. Qed.

Lemma kc_cache j i s : keeps_clock s (setInspectionCache j i s).
Proof. by split. Qed.

Lemma kc_data f s : keeps_clock s (setConsoleData f s).
Proof. by split. Qed.

Create HintDb clock.
#[local] Hint Resolve kc_hook kc_status kc_pool kc_managers kc_inspections kc_notified kc_bump
  kc_abort kc_add_refresh kc_failures kc_meta kc_cache kc_data : clock.

(** One update at a time, the last one first. *)
Ltac kc_chain :=
  cbn zeta;
  repeat first
    [ reflexivity
    | etransitivity; [| first [solve [auto with clock] | apply kc_refs; by repeat split]] ].

Lemma kc_foldl {A} (f : St -> A -> St) l s :
  (forall s a, keeps_clock s (f s a)) -> keeps_clock s (foldl f s l).
Proof.
  intros Hf. revert s. induction l as [| a l IH]; intros s; [reflexivity |]. cbn.
  etransitivity; [apply Hf | apply IH].
Qed.

Lemma kc_updateTransportStatus st s : keeps_clock s (updateTransportStatus st s).
Proof. unfold updateTransportStatus. cbn zeta. destruct (sameTransportStatus _ _); kc_chain. Qed.

Lemma kc_applyInspectionFallback j s s' : applyInspectionFallback j s = Ok s' -> keeps_clock s s'.
Proof.
  unfold applyInspectionFallback. intros E. apply result_bind_ok in E as ([i |] & _ & E);
    [| by injection E as <-].
  cbn zeta in E. destruct (decide _); injection E as <-; [reflexivity |]. kc_chain.
Qed.

Lemma kc_invalid_base_url q s : keeps_clock s (invalid_base_url q s).
Proof. unfold invalid_base_url. cbn zeta. destruct q; kc_chain. Qed.

Lemma kc_get p k f c s0 s i s' : keeps_clock s0 s -> get p k f c s = (i, s') -> keeps_clock s0 s'.
Proof.
  unfold get. intros Hk E. destruct (requestJson _ _ _ _) in E. injection E as <- <-.
  etransitivity; [exact Hk | apply kc_pool].
Qed.

Lemma kc_start_refresh q s : keeps_clock s (snd (start_refresh q s)).
Proof.
  unfold start_refresh. rewrite new_controller_eq. cbn zeta beta iota.
  match goal with |- context [get API_ROUTES.dashboardSnapshot _ _ _ ?x] => set (s1 := x) end.
  assert (keeps_clock s s1) as H1s by (unfold s1; repeat destruct (negb _); kc_chain).
  clearbody s1. destruct (get _ _ _ _ s1) as [a s2] eqn:E2. eapply kc_get in E2; [| exact H1s].
  destruct (get _ _ _ _ s2) as [b s3] eqn:E3. eapply kc_get in E3; [| exact E2].
  destruct (get _ _ _ _ s3) as [c s4] eqn:E4. eapply kc_get in E4; [| exact E3].
  destruct (get _ _ _ _ s4) as [d s5] eqn:E5. eapply kc_get in E5; [| exact E4].
  cbn [snd]. etransitivity; [exact E5 |].
  match goal with |- keeps_clock s5 (refs_upd _ ?x) => etransitivity; [| by apply (kc_refs _ x)] end.
  etransitivity; [apply kc_bump |]. apply (kc_add_refresh _ (St.set_next (S (St.next s5)) s5)).
Qed.

(** The promise it gives is that of a refresh under way. *)
Lemma start_refresh_id q s :
  fst (start_refresh q s) ∈ refresh_ids (snd (start_refresh q s)).
Proof.
  unfold start_refresh. rewrite new_controller_eq. cbn zeta beta iota.
  destruct (get _ _ _ _ _) as [a s2], (get _ _ _ _ s2) as [b s3], (get _ _ _ _ s3) as [c s4],
    (get _ _ _ _ s4) as [d s5].
  unfold refresh_ids. cbn. rewrite fmap_app. apply elem_of_app. right. by left.
Qed.

Lemma kc_refreshConsole o q f s : keeps_clock s (snd (refreshConsole o q f s)).
Proof.
  unfold refreshConsole. destruct (negb (Props.liveMode _)); [reflexivity |]. cbn zeta.
  set (s1 := if q then s else _).
  assert (keeps_clock s s1) as H1s by (unfold s1; destruct q; kc_chain). clearbody s1.
  etransitivity; [exact H1s |]. destruct (negb (opt_truthy _)); [apply kc_invalid_base_url |].
  pose proof (kc_start_refresh q s1) as HR. destruct (start_refresh q s1) as [i s2].
  destruct (Refs.fetchPromiseRef _), f; try exact HR; reflexivity.
Qed.

Lemma refreshConsole_id o q f s p :
  tasks_of s -> fst (refreshConsole o q f s) = Some p -> p ∈ refresh_ids (snd (refreshConsole o q f s)).
Proof.
  intros Hs. unfold refreshConsole. destruct (negb (Props.liveMode _)); [done |]. cbn zeta.
  set (s1 := if q then s else _).
  assert (tasks_of s1) as [[_ H1p] _].
  { unfold s1. destruct q; [done |]. eapply tasks_of_keeps; [exact Hs | apply kt_hook]. }
  clearbody s1. destruct (negb (opt_truthy _)); [done |].
  pose proof (start_refresh_id q s1) as HR. destruct (start_refresh q s1) as [i s2].
  destruct (Refs.fetchPromiseRef (St.refs s1)) as [i' |] eqn:E, f; cbn in *; intros [= <-]; auto.
Qed.

Lemma kc_start_inspection j s : keeps_clock s (start_inspection j s).
Proof.
  unfold start_inspection. rewrite new_controller_eq. cbn zeta beta iota.
  match goal with |- context [get _ _ _ _ ?x] => set (s1 := x) end.
  assert (keeps_clock s s1) as H1s by (unfold s1; kc_chain).
  clearbody s1. destruct (get _ _ _ _ s1) as [a s2] eqn:E2. eapply kc_get in E2; [| exact H1s].
  etransitivity; [exact E2 |]. kc_chain.
Qed.

Lemma kc_refreshInspection o j f s : keeps_clock s (refreshInspection o j f s).
Proof.
  unfold refreshInspection. destruct (negb (truthy j)); [reflexivity |]. destruct (_ || _).
  - destruct (applyInspectionFallback j s) as [s1 |] eqn:E; [| reflexivity].
    apply kc_applyInspectionFallback in E. etransitivity; [exact E | apply kc_meta].
  - destruct (_ && _); [reflexivity | apply kc_start_inspection].
Qed.

Lemma kc_refresh_succeeded o a b c d s : keeps_clock s (refresh_succeeded o a b c d s).
Proof. unfold refresh_succeeded. cbn zeta. destruct (_ || _); kc_chain. Qed.

Lemma kc_end_refresh t s : keeps_clock s (end_refresh t s).
Proof. unfold end_refresh. cbn zeta. destruct (decide _), (refresh_quiet t); kc_chain. Qed.

Lemma kc_continue_refresh o t settled s : keeps_clock s (continue_refresh o t settled s).
Proof.
  unfold continue_refresh. destruct (signal_aborted _ _); [apply kc_end_refresh |].
  destruct settled as [reason | [[[a b] c] d]]; (etransitivity; [| apply kc_end_refresh]);
    [unfold refresh_failed; kc_chain | apply kc_refresh_succeeded].
Qed.

Lemma kc_end_inspection t s : keeps_clock s (end_inspection t s).
Proof. unfold end_inspection. cbn zeta. destruct (decide _); kc_chain. Qed.

Lemma kc_continue_inspection o t settled s : keeps_clock s (continue_inspection o t settled s).
Proof.
  unfold continue_inspection. cbn zeta. destruct (signal_aborted _ _); [apply kc_end_inspection |].
  destruct settled as [v | reason].
  - etransitivity; [| apply kc_end_inspection]. destruct (decide _); kc_chain.
  - destruct (applyInspectionFallback _ s) as [s1 |] eqn:E; [| apply kc_end_inspection].
    apply kc_applyInspectionFallback in E. etransitivity; [exact E |].
    etransitivity; [apply kc_meta | apply kc_end_inspection].
Qed.

Lemma kc_abort_inspections s : keeps_clock s (abort_inspections s).
Proof. apply kc_foldl. intros. apply kc_abort. Qed.

Lemma kc_cache_effect s : keeps_clock s (cache_effect s).
Proof. unfold cache_effect. repeat case_match; kc_chain. Qed.

Lemma kc_degraded_effect o s : keeps_clock s (degraded_effect o s).
Proof. unfold degraded_effect. case_match; kc_chain. Qed.

Lemma kc_recovered_effect s : keeps_clock s (recovered_effect s).
Proof. unfold recovered_effect. cbn zeta. destruct (_ && _); kc_chain. Qed.

Lemma kc_ref_effects old new b s : keeps_clock s (ref_effects old new b s).
Proof. unfold ref_effects. cbn zeta. destruct (String.eqb _ _), (_ =? _), b; kc_chain. Qed.

Lemma kc_reset_state s : keeps_clock s (reset_state s).
Proof. unfold reset_state. kc_chain. Qed.

Lemma kc_reset_refs s : keeps_clock s (reset_refs s).
Proof. unfold reset_refs. kc_chain. Qed.

Lemma kc_enter_demo o s : keeps_clock s (enter_demo o s).
Proof. unfold enter_demo. kc_chain. Qed.

Lemma kc_enter_live s : keeps_clock s (enter_live s).
Proof. unfold enter_live. kc_chain. Qed.

(** * Callbacks that arm and clear timeouts *)

Lemma clear_timeout_timers x s : St.timers (clear_timeout x s) = cleared x (St.timers s).
Proof. by destruct x. Qed.

Lemma pending_ok b g s p :
  clock_ok b g s -> (p <> [] -> is_Some (held s Flush)) ->
  clock_ok b g (refs_upd (Refs.set_pendingEventsRef p) s).
Proof. intros [H1s H2s H3s H4s H5s H6s H7s H8s H9s H10s H11s] Hp. by split. Qed.

(** Holders other than the one that changes. *)
Ltac rehold :=
  split; cbn; try done;
  intros []; cbn; repeat case_decide; simplify_eq/=; try done;
  rewrite ?lookup_insert_eq, ?lookup_delete_eq, ?lookup_insert_ne, ?lookup_delete_ne by congruence;
  congruence.

Lemma queueLiveEvent_ok b g e s : clock_ok b g s -> clock_ok b g (queueLiveEvent e s).
Proof.
  intros Hs. unfold queueLiveEvent. cbn zeta. set (p := Refs.pendingEventsRef (St.refs s) ++ [e]).
  change (refs_upd _ s) with (refs_upd (Refs.set_pendingEventsRef p) s). cbn [St.refs refs_upd St.set_refs].
  destruct (Refs.eventFlushTimerRef (Refs.set_pendingEventsRef p (St.refs s))) as [id |] eqn:E; cbn in E.
  - apply pending_ok; [done |]. intros _. cbn. rewrite E. eauto.
  - eapply (put_ok _ _ _ Hs Flush FlushEvents); [rehold | done | | done | cbn; eauto].
    cbn. by rewrite E.
Qed.

Lemma scheduleConsoleRefresh_ok b g s : clock_ok b g s -> clock_ok b g (scheduleConsoleRefresh s).
Proof.
  intros Hs. unfold scheduleConsoleRefresh. cbn zeta.
  eapply (put_ok _ _ _ Hs Debounce RefreshConsole).
  - destruct (Refs.refreshDebounceRef (St.refs s)); rehold.
  - done.
  - cbn. destruct (Refs.refreshDebounceRef (St.refs s)); done.
  - by destruct (Refs.refreshDebounceRef (St.refs s)).
  - intros Hp. destruct (Refs.refreshDebounceRef (St.refs s)); exact (ck_events _ _ _ Hs Hp).
Qed.

Lemma scheduleInspectionRefresh_ok b g j s :
  clock_ok b g s -> clock_ok b g (scheduleInspectionRefresh j s).
Proof.
  intros Hs. unfold scheduleInspectionRefresh. destruct (negb (truthy j)); [done |]. cbn zeta.
  eapply (put_ok _ _ _ Hs (Inspect j) (RefreshInspection j)).
  - destruct (Refs.inspectionDebounceRef (St.refs s) !! j); rehold.
  - done.
  - cbn. destruct (Refs.inspectionDebounceRef (St.refs s) !! j); done.
  - by destruct (Refs.inspectionDebounceRef (St.refs s) !! j).
  - intros Hp. destruct (Refs.inspectionDebounceRef (St.refs s) !! j); exact (ck_events _ _ _ Hs Hp).
Qed.

Lemma flush_fires_ok id d s :
  clock_ok None None s -> St.timers s !! id = Some (FlushEvents, d) ->
  clock_ok None None (flushPendingEvents (clearTimeout id s)).
Proof.
  intros Hs Hid. apply (ck_owned _ _ _ Hs) in Hid as Hf. cbn in Hf.
  unfold flushPendingEvents. cbn [clearTimeout St.refs St.set_timers]. rewrite Hf. cbn zeta.
  cbn [clearTimeout St.refs St.set_timers refs_upd St.set_refs Refs.set_eventFlushTimerRef Refs.pendingEventsRef].
  assert (forall p, (p <> [] -> False) ->
    clock_ok None None (refs_upd (Refs.set_pendingEventsRef p)
      (refs_upd (Refs.set_eventFlushTimerRef None) (clearTimeout id (clearTimeout id s))))) as HD.
  { intros p Hp. apply (drop_ok _ _ _ Hs Flush); [rehold | | done | by intros ?%Hp].
    cbn. rewrite Hf. cbn. apply delete_id. apply lookup_delete_eq. }
  destruct (Refs.pendingEventsRef (St.refs s)) as [| e es] eqn:Ep.
  - specialize (HD [] ltac:(done)). destruct HD as [H1s H2s H3s H4s H5s H6s H7s H8s H9s H10s H11s].
    by split.
  - apply scheduleConsoleRefresh_ok. eapply clock_keeps; [apply (HD []); done | apply kc_data].
Qed.

Lemma onEvent_ok b g e s : clock_ok b g s -> clock_ok b g (onEvent e s).
Proof.
  intros Hs. unfold onEvent. cbn zeta. case_match; [apply scheduleInspectionRefresh_ok |];
    by apply queueLiveEvent_ok.
Qed.

Lemma callback_ok b g o c s : clock_ok b g s -> clock_ok b g (callback o c s).
Proof.
  intros Hs. destruct c; cbn [callback].
  - eapply clock_keeps; [exact Hs | apply kc_updateTransportStatus].
  - by apply onEvent_ok.
  - eapply clock_keeps; [exact Hs | apply kc_status].
Qed.

Lemma callbacks_ok b g o l s :
  clock_ok b g s -> clock_ok b g (foldl (fun s c => callback o c s) s l).
Proof.
  revert s. induction l as [| c l IH]; intros s Hs; [done |]. cbn. apply IH. by apply callback_ok.
Qed.

Lemma manager_action_clock b g o id a s s' :
  clock_ok b g s -> manager_action o id a s = Some s' -> clock_ok b g s'.
Proof.
  intros Hs. unfold manager_action. destruct (St.managers s !! id) as [[opts m] |]; [| done]. cbn.
  destruct (LiveTransport.perform _ _ _ _) as [m' |]; [| done]. cbn. intros [= <-].
  apply callbacks_ok. eapply clock_keeps; [exact Hs | apply kc_managers].
Qed.

Lemma call_manager_clock b g o id a s : clock_ok b g s -> clock_ok b g (call_manager o id a s).
Proof.
  intros Hs. destruct id as [id |]; [| done]. cbn.
  destruct (manager_action o id a s) eqn:E; cbn; [by eapply manager_action_clock | done].
Qed.

(** ** The reset of the live-mode effect *)

Lemma clear_debounces_timers s :
  forall id v, St.timers (clear_debounces s) !! id = Some v <->
    St.timers s !! id = Some v /\ forall j, Refs.inspectionDebounceRef (St.refs s) !! j <> Some id.
Proof.
  unfold clear_debounces. set (l := List.map snd _).
  assert (forall id, id ∈ l <-> exists j, Refs.inspectionDebounceRef (St.refs s) !! j = Some id) as Hl.
  { intros id. unfold l. change (List.map snd ?l) with (l.*2). rewrite list_elem_of_fmap. split.
    - intros ([j i] & -> & Hj%elem_of_map_to_list). by exists j.
    - intros [j Hj]. exists (j, id). split; [done |]. by apply elem_of_map_to_list. }
  intros id v. assert (forall s', St.timers (foldl (fun s id => clearTimeout id s) s' l) !! id = Some v <->
    St.timers s' !! id = Some v /\ id ∉ l) as Hf.
  { clear Hl. induction l as [| i l IH]; intros s'; cbn; [set_solver |]. rewrite IH. cbn.
    rewrite lookup_delete_Some. set_solver. }
  rewrite Hf. split; intros [Hv Hn]; (split; [done |]).
  - intros j Hj. apply Hn, Hl. by exists j.
  - intros [j Hj]%Hl. by apply (Hn j).
Qed.

Lemma clear_debounces_rest s :
  clear_debounces s = St.set_timers (St.timers (clear_debounces s)) s.
Proof.
  unfold clear_debounces. generalize (List.map snd (map_to_list (Refs.inspectionDebounceRef (St.refs s)))).
  intros l. revert s. induction l as [| i l IH]; intros s; [by destruct s |]. cbn. by rewrite IH.
Qed.

Lemma clear_inspects_ok b g s :
  clock_ok b g s -> clock_ok b g (refs_upd (Refs.set_inspectionDebounceRef ∅) (clear_debounces s)).
Proof.
  intros Hs. pose proof (clear_debounces_timers s) as Ht. rewrite clear_debounces_rest.
  set (tm := St.timers (clear_debounces s)) in *. clearbody tm.
  apply (drops_ok _ _ _ Hs (fun h => match h with Inspect _ => true | _ => false end)).
  - split; cbn; try done; [by intros [] |]. intros id t d. rewrite Ht. split.
    + intros [Hl Hn]. split; [done |]. apply (ck_owned _ _ _ Hs) in Hl as Ho.
      destruct t; try done. cbn in Ho. by destruct (Hn jobId).
    + intros [Hl Hk]. split; [done |]. intros j Hj. apply (ck_owned _ _ _ Hs) in Hl as Ho.
      assert (holder_of t = Inspect j) as E by (eapply (ck_inj _ _ _ Hs); [exact Ho | exact Hj]).
      by rewrite E in Hk.
  - exact (ck_events _ _ _ Hs).
Qed.

Lemma reset_timeouts_ok s : clock_ok None None s -> clock_ok None None (reset_timeouts s).
Proof.
  intros Hs. unfold reset_timeouts. cbn zeta.
  set (s1 := refs_upd (Refs.set_pendingEventsRef []) s).
  assert (clock_ok None None s1) as H1s by (by apply pending_ok).
  assert (Refs.pendingEventsRef (St.refs s1) = []) as P1 by done. clearbody s1.
  set (s2 := match Refs.refreshDebounceRef _ with Some _ => _ | None => _ end).
  assert (clock_ok None None s2 /\ Refs.pendingEventsRef (St.refs s2) = []) as [H2s P2].
  { unfold s2. destruct (Refs.refreshDebounceRef (St.refs s1)) as [id |] eqn:E; [| done].
    split; [| exact P1]. apply (drop_ok _ _ _ H1s Debounce); [rehold | cbn; by rewrite E | done |].
    cbn. by rewrite P1. }
  clearbody s2. set (s3 := refs_upd _ (clear_debounces s2)).
  assert (clock_ok None None s3) as H3s by by apply clear_inspects_ok.
  assert (Refs.pendingEventsRef (St.refs s3) = []) as P3.
  { unfold s3. by rewrite clear_debounces_rest. }
  clearbody s3. destruct (Refs.eventFlushTimerRef (St.refs s3)) as [id |] eqn:E; [| done].
  apply (drop_ok _ _ _ H3s Flush); [rehold | cbn; by rewrite E | done |]. cbn. by rewrite P3.
Qed.

(** ** Polling loops *)

(** What resuming a loop does to the loops. *)
Lemma resume_loops id s :
  (forall id', id' <> id -> St.loops (resume_loop id s) !! id' = St.loops s !! id') /\
  (forall l, St.loops s !! id = Some l -> exists l', St.loops (resume_loop id s) !! id = Some l' /\
     awaiting l' = None /\ loop_poll l' = loop_poll l /\ loop_updates l' = loop_updates l).
Proof.
  unfold resume_loop. destruct (St.loops s !! id) as [l |] eqn:El; [| done]. cbn zeta.
  assert (St.loops (update_loop id (set_awaiting None) s) = <[id := set_awaiting None l]> (St.loops s)) as E1
    by (cbn; by rewrite alter_alt, El).
  assert (forall id' (x : Loop), id' <> id -> <[id := x]> (St.loops s) !! id' = St.loops s !! id') as Hne
    by (intros; by rewrite lookup_insert_ne).
  set (s1 := update_loop id (set_awaiting None) s) in *. destruct (cancelled l).
  { rewrite E1. split; [eauto |]. intros ? [= <-]. eexists. by rewrite lookup_insert_eq. }
  unfold scheduleNext. rewrite E1, lookup_insert_eq. destruct (next_delay _ _) as [d |].
  - match goal with |- (forall id', _ -> St.loops ?x !! id' = _) /\ _ =>
      assert (St.loops x = <[id := set_timer (Some (St.next s1)) (set_awaiting None l)]> (St.loops s)) as -> end.
    { change (alter (set_timer (Some (St.next s1))) id (St.loops s1) =
        <[id := set_timer (Some (St.next s1)) (set_awaiting None l)]> (St.loops s)).
      by rewrite E1, alter_insert_eq. }
    split; [eauto |]. intros ? [= <-]. eexists. by rewrite lookup_insert_eq.
  - change (St.loops (hook_upd (Hook.set_currentPollDelayMs 0) s1)) with (St.loops s1). rewrite E1.
    split; [eauto |]. intros ? [= <-]. eexists. by rewrite lookup_insert_eq.
Qed.

Lemma resolve_list_ok p l s :
  NoDup l -> clock_ok None (Some p) s ->
  (forall id, id ∈ l <-> exists lp, St.loops s !! id = Some lp /\ awaiting lp = Some p) ->
  clock_ok None None (foldl (fun s id => resume_loop id s) s l).
Proof.
  revert s. induction l as [| id l IH]; intros s Hd Hs Hl; cbn.
  - destruct Hs as [H1s H2s H3s H4s H5s H6s H7s H8s H9s H10s H11s]. split; try done.
    intros id lp p' Hlp Ha. destruct (H10s id lp p' Hlp Ha) as [? | [= ->]]; [by left |].
    exfalso. eapply elem_of_nil, Hl. eauto.
  - apply NoDup_cons in Hd as [Hn Hd]. destruct (proj1 (Hl id)) as (lp & Hlp & Ha); [by left |].
    destruct (resume_loops id s) as [Hother Hme]. apply IH; [done | |].
    + eapply (resume_ok _ _ _ Hs id lp); [done | by left |]. intros t d Ht.
      destruct (ck_idle _ _ _ Hs _ _ _ Ht) as (_ & _ & lp' & Hlp' & _ & Ha'). congruence.
    + intros id'. destruct (decide (id' = id)) as [-> | Hne].
      * split; [done |]. intros (lp' & Hlp' & Ha'). destruct (Hme lp Hlp) as (lp2 & E2 & E2a & _).
        congruence.
      * rewrite Hother by done. rewrite <- Hl, elem_of_cons. naive_solver.
Qed.

Lemma resolve_ok p s : clock_ok None (Some p) s -> clock_ok None None (resolve_refresh p s).
Proof.
  intros Hs. apply (resolve_list_ok p); [| exact Hs |].
  - change (List.map fst ?l) with (l.*1). eapply sublist_NoDup; [apply (NoDup_fst_map_to_list (St.loops s)) |].
    apply fmap_sublist. induction (map_to_list (St.loops s)) as [| x l IH]; cbn; [constructor |].
    destruct (awaits p x); by constructor.
  - intros id. change (List.map fst ?l) with (l.*1). rewrite list_elem_of_fmap. split.
    + intros ([id' lp] & -> & Hi). apply list_elem_of_In, List.filter_In in Hi as [Hi Ha].
      apply list_elem_of_In, elem_of_map_to_list in Hi. apply bool_decide_eq_true in Ha. by exists lp.
    + intros (lp & Hlp & Ha). exists (id, lp). split; [done |]. apply list_elem_of_In, List.filter_In.
      split; [by apply list_elem_of_In, elem_of_map_to_list |]. by apply bool_decide_eq_true.
Qed.

(** A refresh is no longer under way: loops that waited for it are resumed. *)
Lemma gone_ok i s :
  clock_ok None None s ->
  clock_ok None (Some i) (St.set_refreshTasks (without i (St.refreshTasks s)) s).
Proof.
  intros [H1s H2s H3s H4s H5s H6s H7s H8s H9s H10s H11s]. split; try done.
  intros id l p Hl Ha. destruct (H10s id l p Hl Ha) as [Hp | ?]; [| done].
  destruct (decide (i = p)) as [-> | Hne]; [by right | left]. unfold refresh_ids in *. cbn.
  apply list_elem_of_fmap in Hp as ([p' t] & -> & Ht). apply list_elem_of_fmap. exists (p', t).
  split; [done |]. apply without_spec. by split.
Qed.

Lemma advance_refresh_ok o s t : clock_ok None None s -> clock_ok None None (advance_refresh o s t).
Proof.
  intros Hs. unfold advance_refresh. destruct (all_settled _ _); [| done]. cbn zeta.
  apply resolve_ok. eapply clock_keeps; [by apply gone_ok | apply kc_continue_refresh].
Qed.

Lemma handle_request_ok o id s s' :
  clock_ok None None s -> handle_request o id s = Some s' -> clock_ok None None s'.
Proof.
  intros Hs. unfold handle_request. destruct (RequestPool.drain id _) as [p |]; [| done]. cbn.
  intros [= <-]. set (s1 := St.set_pool p s).
  assert (clock_ok None None s1) as H1s by (eapply clock_keeps; [exact Hs | apply kc_pool]). clearbody s1.
  assert (forall l s, clock_ok None None s -> clock_ok None None (foldl (advance_refresh o) s l)) as HF.
  { intros l. induction l as [| t l IH]; intros x Hx; [done |]. cbn. apply IH. by apply advance_refresh_ok. }
  eapply clock_keeps; [by apply HF |]. apply kc_foldl. intros x [i t]. unfold advance_inspection.
  destruct (handled _ _); [| reflexivity]. cbn zeta.
  etransitivity; [apply kc_inspections | apply kc_continue_inspection].
Qed.

Lemma run_loop_ok o id q s l :
  tasks_of s -> clock_ok (Some id) None s -> St.loops s !! id = Some l -> cancelled l = false ->
  clock_ok None None (run_loop o id q s).
Proof.
  intros Ht Hs Hl Hc. unfold run_loop.
  pose proof (kc_refreshConsole o q false s) as Hk. pose proof (refreshConsole_id o q false s) as Hid.
  destruct (refreshConsole o q false s) as [pr s1]. cbn [fst snd] in *.
  assert (clock_ok (Some id) None s1) as H1s by by eapply clock_keeps.
  assert (St.loops s1 !! id = Some l) as H1l by by rewrite (kc_loops _ _ Hk).
  assert (forall t d, St.timers s1 !! t <> Some (PollAgain id, d)) as Hidle.
  { intros t d E. by apply (ck_idle _ _ _ H1s) in E as [E _]. }
  destruct pr as [p |].
  - eapply (waits_ok _ _ _ H1s id l); eauto.
  - eapply (resume_ok _ _ _ H1s id l); eauto.
Qed.

Lemma fire_ok o id s s' :
  tasks_of s -> clock_ok None None s -> fire o id s = Some s' -> clock_ok None None s'.
Proof.
  intros Hta Hs. unfold fire. destruct (St.timers s !! id) as [[t d] |] eqn:Et; [| done]. cbn.
  intros E. injection E as <-. destruct t.
  - by eapply flush_fires_ok.
  - eapply clock_keeps; [| apply kc_refreshConsole]. by apply (fired_ok _ _ _ Hs id RefreshConsole d).
  - eapply clock_keeps; [| apply kc_refreshInspection]. apply (ck_owned _ _ _ Hs) in Et as Ho. cbn in Ho.
    apply (drop_ok _ _ _ Hs (Inspect jobId)); [rehold | cbn; by rewrite Ho | done | exact (ck_events _ _ _ Hs)].
  - destruct (ck_idle _ _ _ Hs _ _ _ Et) as (_ & _ & l & Hl & Hc & _).
    apply (run_loop_ok o loop true _ l); [| | exact Hl | exact Hc].
    + eapply tasks_of_keeps; [exact Hta |]. apply (kt_clear (Some id)).
    + exact (fired_ok _ _ _ Hs id (PollAgain loop) d Et eq_refl).
  - eapply clock_keeps; [exact Hs | apply kc_refreshInspection].
Qed.

(** ** Effects that arm and clear *)

(** The effect makes a loop, which runs. *)
Lemma create_ok s poll updates :
  clock_ok None None s -> effect_loop (St.effects s) = None -> poll ∈ [0; 5000; 15000; 30000] ->
  clock_ok (Some (St.next s)) None
    (set_effect_loop (Some (St.next s))
       (St.set_loops (<[St.next s := mkLoop false None None poll updates]> (St.loops s))
          (St.set_next (S (St.next s)) s))).
Proof.
  intros Hs He Hp. destruct Hs as [H1s H2s H3s H4s H5s H6s H7s H8s H9s H10s H11s].
  set (s' := set_effect_loop _ _).
  assert (St.loops s !! St.next s = None) as Hnew.
  { destruct (St.loops s !! St.next s) eqn:E; [| done].
    assert (St.next s < St.next s)%nat by eauto. lia. }
  assert (forall h, held s' h = held s h) as EH.
  { intros []; try done. cbn. destruct (decide (St.next s = loop)) as [<- | Hne];
      [by rewrite lookup_insert_eq, Hnew | by rewrite lookup_insert_ne]. }
  split; cbn -[held].
  - intros h t. rewrite EH. intros Hh%H1s. lia.
  - intros h h' t. rewrite !EH. apply H2s.
  - intros t u d. rewrite EH. apply H3s.
  - intros h t. rewrite EH. apply H4s.
  - rewrite EH. apply H5s.
  - intros t [<- | [_ Hl%H6s]]%lookup_insert_is_Some; lia.
  - intros t u [[<- <-] | [_ Hl]]%lookup_insert_Some Hc; [done |]. pose proof (H7s _ _ Hl Hc). congruence.
  - intros t [= <-]. eexists. rewrite lookup_insert_eq. split_and!; [done | done | by left].
  - intros t u d Ht. destruct (H9s t u d Ht) as (_ & Hd & lp & Hlp & Hc & Ha).
    pose proof (H7s _ _ Hlp Hc). congruence.
  - intros t u p [[<- <-] | [_ Hl]]%lookup_insert_Some; [done | eauto].
  - intros t u [[<- <-] | [_ Hl]]%lookup_insert_Some; [exact Hp | eauto].
Qed.

Lemma poll_cleanup_ok s : clock_ok None None s -> clock_ok None None (poll_cleanup s).
Proof.
  intros Hs. unfold poll_cleanup. destruct (effect_loop (St.effects s)) as [id |] eqn:Ee; [| done].
  destruct Hs as [H1s H2s H3s H4s H5s H6s H7s H8s H9s H10s H11s].
  destruct (H8s id Ee) as (l & Hl & Hc & _). rewrite Hl. cbn zeta.
  assert (St.loops (update_loop id set_cancelled s) = <[id := set_cancelled l]> (St.loops s)) as El
    by (cbn; by rewrite alter_alt, Hl).
  set (s' := set_effect_loop None _).
  assert (St.loops s' = <[id := set_cancelled l]> (St.loops s)) as El'.
  { rewrite <- El. unfold s'. by destruct (timer l). }
  assert (St.timers s' = cleared (timer l) (St.timers s)) as Et by (unfold s'; by destruct (timer l)).
  assert (St.next s' = St.next s /\ St.refs s' = St.refs s /\ refresh_ids s' = refresh_ids s /\
          St.effects s' = mkEffects (effect_manager (St.effects s)) (effect_visible (St.effects s)) None
                            (effect_drawer (St.effects s))) as (En & Er & Ei & Eff)
    by (unfold s'; by destruct (timer l)).
  clearbody s'.
  assert (forall h, held s' h = held s h) as EH.
  { intros []; cbn; rewrite ?Er, ?Eff, ?El'; try done.
    destruct (decide (id = loop)) as [<- | Hne];
      [by rewrite lookup_insert_eq, Hl | by rewrite lookup_insert_ne]. }
  assert (held s (Polling id) = timer l) as Hme by (cbn; by rewrite Hl).
  split; rewrite ?En, ?Er, ?Ei, ?El', ?Et, ?Eff; cbn -[held].
  - intros h t. rewrite EH. apply H1s.
  - intros h h' t. rewrite !EH. apply H2s.
  - intros t u d [Hu _]%cleared_Some. rewrite EH. eauto.
  - intros h t Hg. rewrite EH. intros Hh. rewrite cleared_other; [eauto |].
    rewrite <- Hme. intros E. by rewrite (H2s _ _ _ Hh E) in Hg.
  - rewrite EH. apply H5s.
  - intros t [<- | [_ Ht]]%lookup_insert_is_Some; eauto.
  - intros t u [[<- <-] | [Hne Ht]]%lookup_insert_Some Hu; [done |]. pose proof (H7s _ _ Ht Hu). congruence.
  - done.
  - intros t u d [Hu Hx]%cleared_Some. destruct (H9s t u d Hu) as (_ & Hd & lp & Hlp & Hlc & Ha).
    exfalso. pose proof (H7s _ _ Hlp Hlc). apply H3s in Hu. cbn in Hu. rewrite Hlp in Hu. cbn in Hu.
    congruence.
  - intros t u p [[<- <-] | [_ Ht]]%lookup_insert_Some; [cbn; eauto | eauto].
  - intros t u [[<- <-] | [_ Ht]]%lookup_insert_Some; [cbn; eauto | eauto].
Qed.

Lemma drawer_cleanup_ok s : clock_ok None None s -> clock_ok None None (drawer_cleanup s).
Proof.
  intros Hs. unfold drawer_cleanup. destruct (effect_drawer (St.effects s)) as [id |] eqn:E; [| done].
  apply (drop_ok _ _ _ Hs Drawer); [rehold | cbn; by rewrite E | done | exact (ck_events _ _ _ Hs)].
Qed.

Lemma drawer_effect_ok s :
  clock_ok None None s -> effect_drawer (St.effects s) = None -> clock_ok None None (drawer_effect s).
Proof.
  intros Hs E. unfold drawer_effect. destruct (_ || _); [done |]. destruct (_ <=? 0); [done |]. cbn zeta.
  eapply (put_ok _ _ _ Hs Drawer (DrawerTick (Props.selectedJobId (St.props s)))); [rehold | done | | done |].
  - cbn. by rewrite E.
  - exact (ck_events _ _ _ Hs).
Qed.

(** * The loop the settings ask for *)

(** In live mode, with a base URL, while the page is visible. *)
Definition polls (p : Props) (h : Hook) : bool :=
  Props.liveMode p && opt_truthy (Props.resolvedBaseUrl p) && Hook.isVisible h.

Definition loop_settled (s : St) : Prop :=
  if polls (St.props s) (St.rendered s)
  then exists id l,
    effect_loop (St.effects s) = Some id /\ St.loops s !! id = Some l /\
    loop_poll l = Props.pollIntervalMs (St.props s) /\ loop_updates l = Props.liveUpdates (St.props s)
  else effect_loop (St.effects s) = None.

Record keeps_loop (s s' : St) : Prop := {
  kl_effect_loop : effect_loop (St.effects s') = effect_loop (St.effects s);
  kl_effect_drawer : effect_drawer (St.effects s') = effect_drawer (St.effects s);
  kl_props : St.props s' = St.props s;
  kl_rendered : St.rendered s' = St.rendered s;
  kl_loops : forall id l, St.loops s !! id = Some l -> exists l', St.loops s' !! id = Some l' /\
    loop_poll l' = loop_poll l /\ loop_updates l' = loop_updates l
}.

#[local] Instance keeps_loop_preorder : PreOrder keeps_loop.
Proof.
  split; [intros s; split; eauto |]. intros s1 s2 s3 [? ? ? ? H12] [? ? ? ? H23].
  split; try congruence. intros id l Hl. destruct (H12 id l Hl) as (l2 & Hl2 & ? & ?).
  destruct (H23 id l2 Hl2) as (l3 & Hl3 & ? & ?). exists l3. split_and!; congruence.
Qed.

Lemma kl_settled s s' : loop_settled s -> keeps_loop s s' -> loop_settled s'.
Proof.
  unfold loop_settled. intros Hs [E1 _ E3 E4 Hl]. rewrite E1, E3, E4.
  destruct (polls _ _); [| done]. destruct Hs as (id & l & He & Hid & Hp & Hu).
  destruct (Hl id l Hid) as (l' & Hid' & ? & ?). exists id, l'. split_and!; congruence.
Qed.

Lemma kl_clock s s' : keeps_clock s s' -> keeps_loop s s'.
Proof. intros [_ _ _ _ _ E1 E2 E3 _ E4 E5 _]. split; try done. rewrite E1. eauto. Qed.

(** Only the loops, the effects, the props and what was rendered matter. *)
Lemma kl_same s s' :
  St.loops s' = St.loops s -> St.effects s' = St.effects s -> St.props s' = St.props s ->
  St.rendered s' = St.rendered s -> keeps_loop s s'.
Proof. intros E1 E2 E3 E4. split; try congruence. rewrite E1. eauto. Qed.

Lemma kl_foldl {A} (f : St -> A -> St) l s :
  (forall s a, keeps_loop s (f s a)) -> keeps_loop s (foldl f s l).
Proof.
  intros Hf. revert s. induction l as [| a l IH]; intros s; [reflexivity |]. cbn.
  etransitivity; [apply Hf | apply IH].
Qed.

Lemma kl_scheduleConsoleRefresh s : keeps_loop s (scheduleConsoleRefresh s).
Proof. unfold scheduleConsoleRefresh. by apply kl_same; cbn; destruct (Refs.refreshDebounceRef _). Qed.

Lemma kl_queueLiveEvent e s : keeps_loop s (queueLiveEvent e s).
Proof. unfold queueLiveEvent. cbn zeta. case_match; by apply kl_same. Qed.

Lemma kl_scheduleInspectionRefresh j s : keeps_loop s (scheduleInspectionRefresh j s).
Proof.
  unfold scheduleInspectionRefresh. destruct (negb _); [reflexivity |].
  by apply kl_same; cbn; destruct (Refs.inspectionDebounceRef _ !! j).
Qed.

Lemma kl_flushPendingEvents s : keeps_loop s (flushPendingEvents s).
Proof.
  unfold flushPendingEvents. cbn zeta.
  set (s1 := match Refs.eventFlushTimerRef _ with Some _ => _ | None => _ end).
  assert (keeps_loop s s1) as H1s by (unfold s1; case_match; by apply kl_same). clearbody s1.
  etransitivity; [exact H1s |]. destruct (Refs.pendingEventsRef (St.refs s1)); [reflexivity |].
  etransitivity; [| apply kl_scheduleConsoleRefresh]. by apply kl_same.
Qed.

Lemma kl_callback o c s : keeps_loop s (callback o c s).
Proof.
  destruct c; cbn [callback]; [apply kl_clock, kc_updateTransportStatus | | by apply kl_same].
  unfold onEvent. cbn zeta. case_match; [| apply kl_queueLiveEvent].
  etransitivity; [apply kl_queueLiveEvent | apply kl_scheduleInspectionRefresh].
Qed.

Lemma kl_manager_action o id a s s' : manager_action o id a s = Some s' -> keeps_loop s s'.
Proof.
  unfold manager_action. destruct (St.managers s !! id) as [[opts m] |]; [| done]. cbn.
  destruct (LiveTransport.perform _ _ _ _) as [m' |]; [| done]. cbn. intros [= <-].
  etransitivity; [| apply kl_foldl; intros; apply kl_callback]. by apply kl_same.
Qed.

Lemma kl_call_manager o id a s : keeps_loop s (call_manager o id a s).
Proof.
  destruct id as [id |]; [| reflexivity]. cbn.
  destruct (manager_action o id a s) eqn:E; cbn; [by eapply kl_manager_action | reflexivity].
Qed.

Lemma kl_update_loop id f s :
  (forall l, loop_poll (f l) = loop_poll l /\ loop_updates (f l) = loop_updates l) ->
  keeps_loop s (update_loop id f s).
Proof.
  intros Hf. split; try done. intros id' l Hl. cbn. destruct (decide (id = id')) as [<- | Hne].
  - exists (f l). rewrite lookup_alter_eq, Hl. split; [done | apply Hf].
  - exists l. by rewrite lookup_alter_ne.
Qed.

Lemma kl_resume_loop id s : keeps_loop s (resume_loop id s).
Proof.
  unfold resume_loop. destruct (St.loops s !! id) as [l |]; [| reflexivity]. cbn zeta.
  set (s1 := update_loop id (set_awaiting None) s).
  assert (keeps_loop s s1) as H1s by by apply kl_update_loop. clearbody s1.
  etransitivity; [exact H1s |]. destruct (cancelled l); [reflexivity |].
  unfold scheduleNext. destruct (St.loops s1 !! id); [| reflexivity].
  destruct (next_delay _ _); [| by apply kl_same]. cbn zeta.
  etransitivity; [| by apply kl_update_loop]. by apply kl_same.
Qed.

Lemma kl_run_loop o id q s : keeps_loop s (run_loop o id q s).
Proof.
  unfold run_loop. pose proof (kc_refreshConsole o q false s) as HR%kl_clock.
  destruct (refreshConsole o q false s) as [[p |] s1]; (etransitivity; [exact HR |]);
    [by apply kl_update_loop | apply kl_resume_loop].
Qed.

Lemma kl_handle_request o id s s' : handle_request o id s = Some s' -> keeps_loop s s'.
Proof.
  unfold handle_request. destruct (RequestPool.drain id _) as [p |]; [| done]. cbn. intros [= <-].
  etransitivity; [by apply (kl_same s (St.set_pool p s)) |].
  etransitivity; [apply (kl_foldl (advance_refresh o)) | apply (kl_foldl (advance_inspection o))].
  - intros x [i t]. unfold advance_refresh. destruct (all_settled _ _) as [settled |]; [| reflexivity]. cbn zeta.
    etransitivity; [by apply (kl_same x (St.set_refreshTasks (without i (St.refreshTasks x)) x)) |].
    etransitivity; [apply kl_clock, (kc_continue_refresh o t settled) |].
    apply kl_foldl. intros. apply kl_resume_loop.
  - intros x [i t]. unfold advance_inspection. destruct (handled _ _); [| reflexivity]. cbn zeta.
    apply kl_clock. etransitivity; [apply kc_inspections | apply kc_continue_inspection].
Qed.

Lemma kl_fire o id s s' : fire o id s = Some s' -> keeps_loop s s'.
Proof.
  unfold fire. destruct (St.timers s !! id) as [[t d] |]; [| done]. cbn. intros E. injection E as <-.
  assert (keeps_loop s (clearTimeout id s)) as Hc by by apply kl_same.
  destruct t; cbn zeta.
  - etransitivity; [exact Hc | apply kl_flushPendingEvents].
  - etransitivity; [exact Hc | apply kl_clock, kc_refreshConsole].
  - etransitivity; [| apply kl_clock, kc_refreshInspection]. by apply kl_same.
  - etransitivity; [exact Hc | apply kl_run_loop].
  - apply kl_clock, kc_refreshInspection.
Qed.

Lemma kl_reset_timeouts s : keeps_loop s (reset_timeouts s).
Proof.
  unfold reset_timeouts. cbn zeta. set (s1 := match Refs.refreshDebounceRef _ with Some _ => _ | None => _ end).
  assert (keeps_loop s s1) as H1s by (unfold s1; case_match; by apply kl_same). clearbody s1.
  etransitivity; [exact H1s |]. rewrite clear_debounces_rest. case_match; by apply kl_same.
Qed.

Lemma kl_live_mode_effect o s : keeps_loop s (live_mode_effect o s).
Proof.
  unfold live_mode_effect. cbn zeta. set (s1 := abort_inspections _).
  assert (keeps_loop s s1) as H1s.
  { apply kl_clock. unfold s1. etransitivity; [apply kc_abort | apply kc_abort_inspections]. }
  clearbody s1. etransitivity; [exact H1s |]. etransitivity; [apply kl_call_manager |].
  etransitivity; [apply kl_clock, kc_reset_refs |]. etransitivity; [apply kl_clock, kc_reset_state |].
  etransitivity; [apply kl_reset_timeouts |].
  destruct (negb _); apply kl_clock; [apply kc_enter_demo | apply kc_enter_live].
Qed.

Lemma kl_start_manager o s : keeps_loop s (start_manager o s).
Proof.
  unfold start_manager. cbn zeta. match goal with |- context [call_manager o (Some ?i) Start ?x] =>
    pose proof (kl_call_manager o (Some i) Start x) as Hk; set (s2 := call_manager o (Some i) Start x) in * end.
  clearbody s2. etransitivity; [etransitivity; [| exact Hk]; by apply kl_same | by split; eauto].
Qed.

Lemma kl_transport_effect o s : keeps_loop s (transport_effect o s).
Proof.
  unfold transport_effect. cbn zeta.
  set (s1 := refs_upd (Refs.set_transportManagerRef None) _).
  assert (keeps_loop s s1) as Hk by (etransitivity; [apply kl_call_manager | by apply kl_same]).
  clearbody s1. repeat destruct (negb _); (etransitivity; [exact Hk |]); try reflexivity;
    first [apply kl_start_manager | by apply kl_same].
Qed.

Lemma kl_transport_cleanup o s : keeps_loop s (transport_cleanup o s).
Proof.
  unfold transport_cleanup. destruct (effect_manager _) as [m |]; [| reflexivity].
  etransitivity; [apply (kl_call_manager o (Some m)) |]. cbn zeta. destruct (decide _); by split; eauto.
Qed.

(** * Every reachable state *)

Definition sound (s : St) : Prop :=
  tasks_of s /\ clock_ok None None s /\ valid_props (St.props s).

(** [s'] is as sound as [s], with the same loop. *)
Definition ticks (s s' : St) : Prop := sound s -> sound s' /\ keeps_loop s s'.

#[local] Instance ticks_preorder : PreOrder ticks.
Proof.
  split; [by intros s Hs |]. intros s1 s2 s3 H12 H23 H1s.
  destruct (H12 H1s) as [H2s K12]. destruct (H23 H2s) as [H3s K23]. split; [done |].
  by etransitivity.
Qed.

Lemma ticks_intro s s' :
  (tasks_of s -> tasks_of s') -> (clock_ok None None s -> clock_ok None None s') ->
  keeps_loop s s' -> ticks s s'.
Proof.
  intros Ht Hc Hk (H1s & H2s & H3s). split; [split_and!; auto | done]. by rewrite (kl_props _ _ Hk).
Qed.

Lemma ticks_keeps s s' : (tasks_of s -> tasks_of s') -> keeps_clock s s' -> ticks s s'.
Proof.
  intros Ht Hk. apply ticks_intro; [done | | by apply kl_clock]. intros Hs. by eapply clock_keeps.
Qed.

Lemma when_ticks b f s : (forall s, ticks s (f s)) -> ticks s (when b f s).
Proof. intros Hf. destruct b; [apply Hf | reflexivity]. Qed.

Lemma reset_ticks o s : ticks s (live_mode_effect o s).
Proof.
  apply ticks_intro; [apply live_mode_effect_tasks | | apply kl_live_mode_effect].
  intros Hs. unfold live_mode_effect. cbn zeta.
  set (s1 := reset_timeouts _). assert (clock_ok None None s1) as H1s.
  { unfold s1. apply reset_timeouts_ok. eapply clock_keeps; [| apply kc_reset_state].
    eapply clock_keeps; [| apply kc_reset_refs]. apply call_manager_clock.
    eapply clock_keeps; [| apply kc_abort_inspections]. eapply clock_keeps; [exact Hs | apply kc_abort]. }
  clearbody s1. eapply clock_keeps; [exact H1s |].
  destruct (negb _); [apply kc_enter_demo | apply kc_enter_live].
Qed.

Lemma transport_ticks o s : ticks s (transport_effect o s) /\ ticks s (transport_cleanup o s).
Proof.
  split; apply ticks_intro.
  - apply kt_then, kt_transport_effect.
  - intros Hs. unfold transport_effect. cbn zeta.
    assert (forall i a, clock_ok None None (refs_upd (Refs.set_transportManagerRef None) (call_manager o i a s)))
      as Hk.
    { intros i a. eapply clock_keeps; [by apply call_manager_clock |]. by apply kc_refs; repeat split. }
    repeat destruct (negb _); try apply Hk; try (eapply clock_keeps; [apply Hk | apply kc_status]).
    unfold start_manager. cbn zeta. set (s1 := refs_upd (Refs.set_transportManagerRef None) _).
    assert (clock_ok None None s1) as H1s by apply Hk. clearbody s1.
    match goal with |- context [call_manager o (Some ?i) Start ?x] =>
      assert (clock_ok None None (call_manager o (Some i) Start x)) as H2s end.
    { apply call_manager_clock. eapply clock_keeps; [exact H1s |]. etransitivity; [apply kc_bump |].
      etransitivity; [apply kc_managers | by apply kc_refs; repeat split]. }
    eapply clock_keeps; [exact H2s | by split].
  - apply kl_transport_effect.
  - apply kt_then, kt_transport_cleanup.
  - intros Hs. unfold transport_cleanup. destruct (effect_manager _) as [m |]; [| done]. cbn zeta.
    assert (forall a, clock_ok None None (call_manager o (Some m) a s)) as Hk
      by (intros; by apply call_manager_clock).
    eapply clock_keeps; [apply Hk |]. destruct (decide _); by split.
  - apply kl_transport_cleanup.
Qed.

(** The polling effect, after its cleanup. *)
Lemma poll_effect_settles o s :
  sound s -> effect_loop (St.effects s) = None ->
  sound (poll_effect o s) /\ loop_settled (poll_effect o s) /\
  effect_drawer (St.effects (poll_effect o s)) = effect_drawer (St.effects s).
Proof.
  intros (Ht & Hc & Hp) He. pose proof (poll_effect_tasks o s Ht) as Ht'. revert Ht'.
  unfold poll_effect. cbn zeta.
  assert (forall s', tasks_of s' -> keeps_clock s s' -> polls (St.props s) (St.rendered s) = false ->
    sound s' /\ loop_settled s' /\ effect_drawer (St.effects s') = effect_drawer (St.effects s)) as Hoff.
  { intros s' Hts Hk Hpo. split; [| split].
    - split_and!; [exact Hts | by eapply clock_keeps | by rewrite (kc_props _ _ Hk)].
    - eapply kl_settled; [| by apply kl_clock]. unfold loop_settled. by rewrite Hpo.
    - apply Hk. }
  unfold polls in Hoff.
  destruct (Props.liveMode (St.props s)) eqn:E1; cbn [negb]; [| intros Ht'; by apply Hoff].
  destruct (opt_truthy _) eqn:E2; cbn [negb].
  2: { intros Ht'. apply Hoff; [done | | done].
       etransitivity; [apply (kc_hook (Hook.set_currentPollDelayMs 0)) | apply kc_refreshConsole]. }
  destruct (Hook.isVisible _) eqn:E3; cbn [negb]; [| intros Ht'; apply Hoff; [done | apply kc_hook | done]].
  clear Hoff. pose proof (create_ok s (Props.pollIntervalMs (St.props s)) (Props.liveUpdates (St.props s))
    Hc He Hp) as Hnew.
  match goal with |- tasks_of (run_loop o ?i ?q ?x) -> _ => set (s1 := x) in *; set (id := i) in *;
    set (quiet := q) end.
  change (clock_ok (Some id) None s1) in Hnew. intros Ht'.
  pose proof (kl_run_loop o id quiet s1) as Hk.
  assert (tasks_of s1) as Ht1.
  { eapply tasks_of_keeps; [exact Ht |]. split; cbn; try done. lia. }
  split; [split_and! | split].
  - exact Ht'.
  - eapply (run_loop_ok o id quiet s1); [exact Ht1 | exact Hnew | apply lookup_insert_eq | done].
  - change (valid_props (St.props (run_loop o id quiet s1))). by rewrite (kl_props _ _ Hk).
  - eapply kl_settled; [| exact Hk]. unfold loop_settled, polls. cbn. rewrite E1, E2, E3. cbn.
    eexists id, _. rewrite lookup_insert_eq. by split_and!.
  - change (effect_drawer (St.effects (run_loop o id quiet s1)) = effect_drawer (St.effects s)).
    by rewrite (kl_effect_drawer _ _ Hk).
Qed.

Lemma later_ticks o d s :
  ticks s
    (when (due_recovered d) recovered_effect
    (when (due_degraded d) (degraded_effect o)
    (when (due_cache d) cache_effect s))).
Proof.
  repeat (etransitivity; [| apply when_ticks; intros; apply ticks_keeps]).
  - reflexivity.
  - apply kt_then, kt_cache_effect.
  - apply kc_cache_effect.
  - apply kt_then, kt_degraded_effect.
  - apply kc_degraded_effect.
  - apply kt_then, kt_recovered_effect.
  - apply kc_recovered_effect.
Qed.

Lemma select_ticks o s : ticks s (select_effect o s).
Proof.
  apply ticks_keeps; [apply select_effect_tasks |]. unfold select_effect.
  destruct (negb _); [reflexivity | apply kc_refreshInspection].
Qed.

Lemma poll_cleanup_sound s :
  sound s ->
  sound (poll_cleanup s) /\ effect_loop (St.effects (poll_cleanup s)) = None.
Proof.
  intros (Ht & Hc & Hp). split; [split_and! |].
  - eapply kt_then; [apply kt_poll_cleanup | exact Ht].
  - by apply poll_cleanup_ok.
  - unfold poll_cleanup. destruct (effect_loop _); [| done]. cbn zeta. by destruct (St.loops s !! _) as [[? [|] ? ? ?] |].
  - unfold poll_cleanup. by destruct (effect_loop (St.effects s)) eqn:E.
Qed.

(** An update of the drawer's interval. *)
Lemma drawer_sound f s :
  (forall s, keeps_tasks s (f s)) -> (sound s -> clock_ok None None (f s)) ->
  St.loops (f s) = St.loops s -> effect_loop (St.effects (f s)) = effect_loop (St.effects s) ->
  St.props (f s) = St.props s -> St.rendered (f s) = St.rendered s ->
  sound s -> sound (f s) /\ (loop_settled s -> loop_settled (f s)).
Proof.
  intros Hk Hf E1 E2 E3 E4 Hs. split.
  - split_and!; [eapply kt_then; [apply Hk | apply Hs] | by apply Hf | rewrite E3; apply Hs].
  - unfold loop_settled. by rewrite E1, E2, E3, E4.
Qed.

Lemma drawer_cleanup_sound s :
  sound s ->
  sound (drawer_cleanup s) /\ (loop_settled s -> loop_settled (drawer_cleanup s)) /\
  effect_drawer (St.effects (drawer_cleanup s)) = None /\
  effect_loop (St.effects (drawer_cleanup s)) = effect_loop (St.effects s).
Proof.
  intros Hs. destruct (drawer_sound drawer_cleanup s) as [H1s H2s]; [apply kt_drawer_cleanup | | | | | | done |].
  - intros (_ & Hc & _). by apply drawer_cleanup_ok.
  - unfold drawer_cleanup. by destruct (effect_drawer _).
  - unfold drawer_cleanup. by destruct (effect_drawer _).
  - unfold drawer_cleanup. by destruct (effect_drawer _).
  - unfold drawer_cleanup. by destruct (effect_drawer _).
  - unfold drawer_cleanup in *. destruct (effect_drawer (St.effects s)) eqn:E; auto.
Qed.

Lemma drawer_effect_sound s :
  sound s -> effect_drawer (St.effects s) = None ->
  sound (drawer_effect s) /\ (loop_settled s -> loop_settled (drawer_effect s)).
Proof.
  intros Hs He. apply (drawer_sound drawer_effect); [apply kt_drawer_effect | | | | | | done].
  - intros (_ & Hc & _). by apply drawer_effect_ok.
  - unfold drawer_effect. destruct (_ || _); [done |]. by destruct (_ <=? 0).
  - unfold drawer_effect. destruct (_ || _); [done |]. by destruct (_ <=? 0).
  - unfold drawer_effect. destruct (_ || _); [done |]. by destruct (_ <=? 0).
  - unfold drawer_effect. destruct (_ || _); [done |]. by destruct (_ <=? 0).
Qed.

Lemma run_effects_sound o d s :
  sound s -> (due_poll d = false -> loop_settled s) ->
  sound (run_effects o d s) /\ loop_settled (run_effects o d s).
Proof.
  intros Hs Hset. unfold run_effects. cbn zeta.
  set (s1 := when (due_transport d) (transport_cleanup o) s).
  assert (sound s1 /\ keeps_loop s s1) as [H1s K1] by (apply when_ticks; [apply transport_ticks | done]).
  assert (due_poll d = false -> loop_settled s1) as Hset1 by (intros; eapply kl_settled; eauto).
  clearbody s1. clear s Hs Hset K1.
  set (s2 := when (due_poll d) poll_cleanup s1).
  assert (sound s2 /\ if due_poll d then effect_loop (St.effects s2) = None else loop_settled s2)
    as [H2s Hset2].
  { unfold s2. destruct (due_poll d); [by apply poll_cleanup_sound | auto]. }
  clearbody s2. clear s1 H1s Hset1.
  set (s3 := when (due_drawer d) drawer_cleanup s2).
  assert (sound s3 /\ (if due_poll d then effect_loop (St.effects s3) = None else loop_settled s3) /\
          (due_drawer d = true -> effect_drawer (St.effects s3) = None)) as (H3s & Hset3 & Hdr3).
  { unfold s3. destruct (due_drawer d); [| by split_and!].
    destruct (drawer_cleanup_sound s2 H2s) as (HA & HB & HC & HD). cbn. rewrite HD.
    split_and!; [done | destruct (due_poll d); auto | done]. }
  clearbody s3. clear s2 H2s Hset2.
  set (s5 := when (due_transport d) (transport_effect o) _).
  assert (ticks s3 s5) as Ht5.
  { unfold s5. etransitivity; [| apply when_ticks, (fun s => proj1 (transport_ticks o s))].
    apply when_ticks, reset_ticks. }
  destruct (Ht5 H3s) as [H5s K5]. clearbody s5.
  assert (if due_poll d then effect_loop (St.effects s5) = None else loop_settled s5) as Hset5.
  { destruct (due_poll d); [by rewrite (kl_effect_loop _ _ K5) | by eapply kl_settled]. }
  assert (due_drawer d = true -> effect_drawer (St.effects s5) = None) as Hdr5
    by (rewrite (kl_effect_drawer _ _ K5); exact Hdr3).
  clear s3 Ht5 H3s K5 Hset3 Hdr3.
  set (s6 := when (due_poll d) (poll_effect o) s5).
  assert (sound s6 /\ loop_settled s6 /\ effect_drawer (St.effects s6) = effect_drawer (St.effects s5))
    as (H6s & Hset6 & Hdr6).
  { unfold s6. destruct (due_poll d); [by apply poll_effect_settles | by split_and!]. }
  rewrite <- Hdr6 in Hdr5. clearbody s6. clear s5 H5s Hset5 Hdr6.
  set (s7 := when (due_select d) (select_effect o) s6).
  assert (ticks s6 s7) as Ht7 by apply when_ticks, select_ticks.
  destruct (Ht7 H6s) as [H7s K7]. apply (kl_settled _ _ Hset6) in K7 as Hset7.
  rewrite <- (kl_effect_drawer _ _ K7) in Hdr5. clearbody s7. clear s6 H6s Hset6 Ht7 K7.
  set (s8 := when (due_drawer d) drawer_effect s7).
  assert (sound s8 /\ loop_settled s8) as [H8s Hset8].
  { unfold s8. destruct (due_drawer d); [| done].
    destruct (drawer_effect_sound s7 H7s (Hdr5 eq_refl)) as [HA HB]. auto. }
  clearbody s8. destruct (later_ticks o d s8 H8s) as [H9s K9]. split; [done |]. by eapply kl_settled.
Qed.

Lemma poll_not_due p p' h h' j :
  due_poll (due p p' h h' j) = false ->
  polls p' h' = polls p h /\ Props.pollIntervalMs p' = Props.pollIntervalMs p /\
  Props.liveUpdates p' = Props.liveUpdates p.
Proof.
  cbn. rewrite !orb_false_iff, !changed_false.
  intros (((((E1 & E2) & E3) & E4) & E5) & _). unfold polls. by rewrite E1, E2, E5.
Qed.

Lemma commit_sound o p tr j s :
  sound s -> loop_settled s -> valid_props p ->
  sound (commit o p tr j s) /\ loop_settled (commit o p tr j s).
Proof.
  intros (Ht & Hc & _) Hset Hp. unfold commit. cbn zeta. set (h' := if tr then _ else _).
  set (s1 := ref_effects _ _ _ _).
  set (s0 := St.set_statusChanged false (St.set_rendered h' (St.set_props p s))) in *.
  assert (keeps_clock s0 s1) as Hk by apply kc_ref_effects.
  apply run_effects_sound.
  - split_and!.
    + eapply kt_then; [apply kt_ref_effects |]. eapply kt_then; [| exact Ht]. by split.
    + eapply clock_keeps; [| exact Hk]. by destruct Hc.
    + rewrite (kc_props _ _ Hk). exact Hp.
  - intros E. destruct (poll_not_due _ _ _ _ _ E) as (E1 & E2 & E3).
    eapply kl_settled; [| by apply kl_clock]. revert Hset. unfold loop_settled. cbn. by rewrite E1, E2, E3.
Qed.

Lemma hook_step_sound s s' :
  sound s -> loop_settled s -> hook_step s s' -> sound s' /\ loop_settled s'.
Proof.
  intros Hs Hset Hst. assert (tasks_of s') as Ht' by (eapply hook_step_tasks; [apply Hs | done]).
  destruct Hst as [o a s s' Hv Ha E].
  assert (forall s', tasks_of s' -> (clock_ok None None s -> clock_ok None None s') -> keeps_loop s s' ->
    sound s' /\ loop_settled s') as HP.
  { intros x H1x H2x Hk. split; [| by eapply kl_settled].
    split_and!; [done | apply H2x, Hs | rewrite (kl_props _ _ Hk); apply Hs]. }
  assert (forall s', tasks_of s' -> keeps_clock s s' -> sound s' /\ loop_settled s') as HK.
  { intros x H1x Hk. apply HP; [done | | by apply kl_clock]. intros Hc. by eapply clock_keeps. }
  destruct a; cbn [perform] in E.
  - injection E as <-. by apply commit_sound.
  - injection E as <-. by apply HK, kc_hook.
  - apply HP; [done | | by eapply kl_fire]. intros Hc. eapply fire_ok; [apply Hs | exact Hc | exact E].
  - destruct (net_event id e (St.pool s)) as [q |]; [| done]. injection E as <-. by apply HK, kc_pool.
  - apply HP; [done | | by eapply kl_handle_request]. intros Hc. by eapply handle_request_ok.
  - destruct (browser_event a); [| done]. apply HP; [done | | by eapply kl_manager_action].
    intros Hc. by eapply manager_action_clock.
  - injection E as <-. revert Ht'. unfold manualReconnect. destruct (negb _); [intros _; by split |]. cbn zeta.
    intros Ht'. apply HP; [done | |].
    + intros Hc. eapply clock_keeps; [by apply call_manager_clock | apply kc_refreshConsole].
    + etransitivity; [apply kl_call_manager | apply kl_clock, kc_refreshConsole].
  - injection E as <-. by apply HK, kc_refreshConsole.
  - injection E as <-. by apply HK, kc_data.
  - injection E as <-. by apply HK, kc_pool.
Qed.

Lemma initial_clock o p v : clock_ok None None (useDashboardLiveData o p v).
Proof.
  split; cbn; try done.
  - by intros [].
  - by intros [].
  - by intros [].
  - by intros id [? ?].
Qed.

Lemma reachable_sound s : hook_reachable s -> sound s /\ loop_settled s.
Proof.
  induction 1 as [o p v Hv Hp | s s' _ [IH1 IH2] Hst]; [| by eapply hook_step_sound].
  apply run_effects_sound; [| done]. split_and!; [apply initial_tasks | apply initial_clock | exact Hp].
Qed.

(** * What the console can rely on *)

(** What a refresh under way waits for has not been answered. *)
Lemma unanswered p waits :
  all_settled p waits = None ->
  let '(a, b, c, d) := waits in exists r, r ∈ [a; b; c; d] /\ handled p r = None.
Proof.
  destruct waits as [[[a b] c] d]. unfold all_settled. intros E.
  destruct (handled p a) as [[? | ?] |] eqn:Ea; [| done | exists a; set_solver].
  destruct (handled p b) as [[? | ?] |] eqn:Eb; [| done | exists b; set_solver].
  destruct (handled p c) as [[? | ?] |] eqn:Ec; [| done | exists c; set_solver].
  destruct (handled p d) as [[? | ?] |] eqn:Ed; [| done | exists d; set_solver]. done.
Qed.

(** C37: Polling never stalls. In every reachable state, when the last render was
    in live mode with a base URL on a visible page, the polling loop of the
    current interval and live-updates setting is either waiting for a refresh
    that is under way and has a request not yet answered, or has its next run
    armed, five to sixty seconds ahead, unless the interval is zero; otherwise no
    run is armed. At most one run is armed in all. *)
Theorem polling_never_stalls s :
  hook_reachable s ->
  (if polls (St.props s) (St.rendered s) then
     exists id l,
       effect_loop (St.effects s) = Some id /\ St.loops s !! id = Some l /\ cancelled l = false /\
       loop_poll l = Props.pollIntervalMs (St.props s) /\
       loop_updates l = Props.liveUpdates (St.props s) /\
       match awaiting l with
       | Some p => exists t a b c d r,
           (p, t) ∈ St.refreshTasks s /\ refresh_waits t = (a, b, c, d) /\
           r ∈ [a; b; c; d] /\ handled (St.pool s) r = None
       | None =>
           Props.pollIntervalMs (St.props s) = 0 \/
           exists t delay, timer l = Some t /\ St.timers s !! t = Some (PollAgain id, delay) /\
             5000 <= delay <= 60000
       end
   else forall t id delay, St.timers s !! t <> Some (PollAgain id, delay)) /\
  (forall t id d t' id' d',
     St.timers s !! t = Some (PollAgain id, d) -> St.timers s !! t' = Some (PollAgain id', d') ->
     t = t').
Proof.
  intros [(Ht & Hc & Hp) Hset]%reachable_sound.
  assert (forall t id d, St.timers s !! t = Some (PollAgain id, d) ->
            effect_loop (St.effects s) = Some id /\ held s (Polling id) = Some t) as Harmed.
  { intros t id d E. destruct (ck_idle _ _ _ Hc _ _ _ E) as (_ & _ & l & Hl & Hrun & _).
    split; [exact (ck_current _ _ _ Hc _ _ Hl Hrun) | exact (ck_owned _ _ _ Hc _ _ _ E)]. }
  split.
  2: { intros t id d t' id' d' [E1 E2]%Harmed [E1' E2']%Harmed. congruence. }
  unfold loop_settled in Hset. destruct (polls _ _).
  2: { intros t id d [E _]%Harmed. congruence. }
  destruct Hset as (id & l & He & Hl & Epoll & Eupd). exists id, l.
  destruct (ck_effect _ _ _ Hc id He) as (l' & Hl' & Hrun & [? | Hgo]); [done |].
  assert (l' = l) as -> by congruence. split_and!; [done | done | done | done | done |].
  unfold goes_on in Hgo. destruct (awaiting l) as [p |] eqn:Ea.
  - destruct (ck_await _ _ _ Hc id l p Hl Ea) as [Hin | ?]; [| done].
    apply list_elem_of_fmap in Hin as ([p' t] & -> & Hin). exists t.
    pose proof (unanswered _ _ (w_refresh _ _ _ (proj2 Ht) _ _ Hin)) as Hu.
    destruct (refresh_waits t) as [[[a b] c] d]. destruct Hu as (r & Hr & Hh).
    by exists a, b, c, d, r.
  - destruct Hgo as [Hz | (t & d & Htm & Hd)].
    + left. rewrite <- Epoll. pose proof (ck_poll _ _ _ Hc id l Hl) as Hin.
      rewrite !elem_of_cons, elem_of_nil in Hin. lia.
    + right. exists t, d. destruct (ck_idle _ _ _ Hc _ _ _ Hd) as (_ & Hr & _).
      exact (conj Htm (conj Hd Hr)).
Qed.

(** C38: Live events are not lost and no timeout is leaked. In every reachable
    state a realtime event goes to the end of the queue; while the queue is not
    empty its flush is armed, and when the flush fires the queued events, in
    their order, are appended to the console data, the queue is emptied, and a
    refresh is armed. Every armed timeout is held by exactly one ref, loop or
    effect, whose cleanup clears it. *)
Theorem live_events_not_lost s :
  hook_reachable s ->
  (forall e, Refs.pendingEventsRef (St.refs (onEvent e s)) = Refs.pendingEventsRef (St.refs s) ++ [e]) /\
  (Refs.pendingEventsRef (St.refs s) <> [] ->
   exists id, Refs.eventFlushTimerRef (St.refs s) = Some id /\
     (exists d, St.timers s !! id = Some (FlushEvents, d)) /\
     forall o, exists s', perform o (FireTimeout id) s = Some s' /\
       Hook.consoleData (St.hook s') =
         appendEvents (Hook.consoleData (St.hook s)) (Refs.pendingEventsRef (St.refs s)) /\
       Refs.pendingEventsRef (St.refs s') = [] /\
       exists id', Refs.refreshDebounceRef (St.refs s') = Some id' /\
         St.timers s' !! id' = Some (RefreshConsole, CONSOLE_REFRESH_DEBOUNCE_MS)) /\
  (forall id t d, St.timers s !! id = Some (t, d) ->
     forall h, held s h = Some id <-> h = holder_of t).
Proof.
  intros [(_ & Hc & _) _]%reachable_sound. split_and!.
  - intros e. assert (Refs.pendingEventsRef (St.refs (queueLiveEvent e s)) =
      Refs.pendingEventsRef (St.refs s) ++ [e]) as E by (unfold queueLiveEvent; cbn zeta; by case_match).
    unfold onEvent. cbn zeta. case_match; [| exact E]. unfold scheduleInspectionRefresh.
    destruct (negb _); [exact E |]. cbn. by destruct (Refs.inspectionDebounceRef _ !! _).
  - intros Hp. destruct (ck_events _ _ _ Hc Hp) as [id Hid]. exists id. split; [exact Hid |].
    destruct (ck_armed _ _ _ Hc Flush id eq_refl Hid) as [[t d] Hl].
    assert (t = FlushEvents) as ->.
    { pose proof (ck_inj _ _ _ Hc _ _ _ (ck_owned _ _ _ Hc _ _ _ Hl) Hid) as E. by destruct t. }
    split; [by exists d |]. intros o. cbn [perform]. unfold fire. rewrite Hl. cbn.
    eexists. split; [done |]. cbn in Hid. unfold flushPendingEvents. cbn. rewrite Hid. cbn.
    destruct (Refs.pendingEventsRef (St.refs s)) as [| e es] eqn:Ep; [done |].
    unfold scheduleConsoleRefresh. cbn zeta.
    destruct (Refs.refreshDebounceRef _); (split_and!; [done | done |]); eexists;
      (split; [reflexivity | apply lookup_insert_eq]).
  - intros id t d Hl h. split; [| intros ->; exact (ck_owned _ _ _ Hc _ _ _ Hl)]. intros Hh.
    exact (ck_inj _ _ _ Hc _ _ _ Hh (ck_owned _ _ _ Hc _ _ _ Hl)).
Qed.
End Hook.

Import LiveTasks.Sample.

(** The first refresh fails: the second is thirty seconds ahead. *)
Definition failed_once : St :=
  after [Network 1 (FetchRejects (JsError "TypeError" "Failed to fetch")); HandleRequest 1].

Lemma failed_once_reachable : hook_reachable failed_once.
Proof. apply after_reachable. by repeat constructor. Qed.

Lemma polling_never_stalls_witness :
  polls (St.props failed_once) (St.rendered failed_once) = true /\
  List.map (fun '(_, (t, d)) => (match t with PollAgain l => Some l | _ => None end, d))
    (map_to_list (St.timers failed_once)) = [(Some 2%nat, 30000); (None, 30000)] /\
  exists id, effect_loop (St.effects failed_once) = Some id.
Proof.
  split_and!; [by vm_compute | by vm_compute |].
  pose proof (polling_never_stalls failed_once failed_once_reachable) as [Hp _].
  destruct (polls _ _) eqn:E; [| by vm_compute in E].
  destruct Hp as (id & l & He & _). by exists id.
Defined.

(** The manager's socket opens and delivers two events. *)
Definition with_events : St :=
  let text := WireText (of_chars (chars "{" ++ quote_chars "kind" ++ chars ":" ++
                quote_chars "job.updated" ++ chars "}")) in
  after [ManagerEvent 1 (FireTimer 0); ManagerEvent 1 (SocketOpen 1);
         ManagerEvent 1 (SocketMessage 1 text); ManagerEvent 1 (SocketMessage 1 text)].

Lemma with_events_reachable : hook_reachable with_events.
Proof. apply after_reachable. by repeat constructor. Qed.

Lemma live_events_not_lost_witness :
  length (Refs.pendingEventsRef (St.refs with_events)) = 2%nat /\
  exists id, Refs.eventFlushTimerRef (St.refs with_events) = Some id.
Proof.
  split; [by vm_compute |].
  pose proof (live_events_not_lost with_events with_events_reachable) as (_ & He & _).
  destruct He as (id & Hid & _); [by vm_compute |]. by exists id.
Defined.
