(* ===== verification/LiveProperties.v ===== *)
(** What the live data of LiveData.v reports: what a refresh does to the data and
    to the account of failures, and how the health and the transport mode that
    the console shows follow from the state. *)

From stdpp Require Import base list strings gmap relations.
From Stdlib Require Import ZArith Lia Bool.
From S2P Require Import Prelude JsString JsNum JsSort JsDate JsValue Models ApiRoutes Safe LiveRefresh.
From S2P Require Import LiveTransport ToastQueue ApiParsers RequestClient RequestPool ConsoleState.
From S2P Require Import Urls DemoData LiveState LiveData LiveTasks.

#[local] Open Scope Z_scope.

(** * Health *)

(** What [resolveLiveHealth] of LiveRefresh.v is given: the channel is connected
    when it is not connecting, and there is data once a refresh has succeeded. *)
Definition health_input (p : Props) (h : Hook) : HealthInput :=
  {| LiveRefresh.liveMode := Props.liveMode p;
     LiveRefresh.pollIntervalMs := Props.pollIntervalMs p;
     LiveRefresh.liveUpdates := Props.liveUpdates p;
     LiveRefresh.hasLiveData := truthy (Hook.lastSuccessfulAt h);
     LiveRefresh.resolvedBaseUrl := Props.resolvedBaseUrl p;
     LiveRefresh.consecutiveFailures := Hook.consecutiveFailures h;
     socketConnected :=
       negb (bool_decide (TransportStatus.state (Hook.transportStatus h) = conn_connecting));
     socketDesired := Props.liveUpdates p |}.

(** A realtime mode is shown for a live channel only. *)
Lemma mode_live p h m :
  m = mode_websocket \/ m = mode_sse ->
  transportMode p h = m <->
    Props.liveMode p = true /\ opt_truthy (Props.resolvedBaseUrl p) = true /\
    Props.liveUpdates p = true /\ TransportStatus.mode (Hook.transportStatus h) = m /\
    TransportStatus.state (Hook.transportStatus h) = conn_live.
Proof.
  unfold transportMode. cbn zeta. intros Hm.
  destruct (Props.liveMode p), (opt_truthy _); cbn [negb]; try (naive_solver congruence).
  set (mode := TransportStatus.mode _). set (state := TransportStatus.state _).
  destruct (Props.liveUpdates p) eqn:EU; cbn [andb].
  2: { split; [repeat case_match; naive_solver | naive_solver]. }
  destruct (bool_decide (state = conn_live)) eqn:Es.
  - apply bool_decide_eq_true in Es. rewrite !andb_true_r.
    repeat case_bool_decide; [naive_solver congruence | naive_solver congruence |].
    split; [repeat case_match; naive_solver | naive_solver].
  - apply bool_decide_eq_false in Es. rewrite !andb_false_r.
    split; [repeat case_match; naive_solver | naive_solver].
Qed.

(** The channel of the status is live. *)
Definition channel_live (h : Hook) : Prop :=
  TransportStatus.state (Hook.transportStatus h) = conn_live /\
  (TransportStatus.mode (Hook.transportStatus h) = mode_websocket \/
   TransportStatus.mode (Hook.transportStatus h) = mode_sse).

#[local] Instance channel_live_dec h : Decision (channel_live h).
Proof. unfold channel_live. apply _. Defined.

(** Without a failure, only polling can stand in for a channel. *)
Lemma mode_polling_iff p h :
  Props.liveMode p = true -> opt_truthy (Props.resolvedBaseUrl p) = true ->
  Props.liveUpdates p = true -> Hook.consecutiveFailures h <= 0 ->
  transportMode p h = mode_polling <-> ~ channel_live h /\ 0 < Props.pollIntervalMs p.
Proof.
  intros Hm Hb Hu Hf. unfold transportMode, channel_live. cbn zeta. rewrite Hm, Hb, Hu. cbn [negb andb].
  rewrite (proj2 (Z.ltb_ge _ _) Hf). cbn [andb].
  destruct (Z.ltb_spec 0 (Props.pollIntervalMs p)); repeat case_bool_decide; cbn;
    (split; [naive_solver congruence || (intros; naive_solver lia) | naive_solver lia]).
Qed.

(** C40: The health shown refines [resolveLiveHealth], the rule of live-refresh.ts:
    it is what that rule gives, except that it is degraded rather than live when
    live updates are wanted and only polling works. So the console says live
    exactly in live mode, with a base URL, no failure since the last success, and:
    without live updates, while it polls; with live updates and polling, while a
    WebSocket or event source is live; with live updates and polling paused, also
    without any such channel, unless a console that had data is connecting. A mode
    of websocket or sse is shown exactly for such a live channel. *)
Theorem live_health_refines p h :
  liveHealth p h =
    (let health := resolveLiveHealth (health_input p h) in
     if bool_decide (health = health_live) && Props.liveUpdates p &&
        bool_decide (transportMode p h = mode_polling)
     then health_degraded else health) /\
  (liveHealth p h = health_live <->
   Props.liveMode p = true /\ opt_truthy (Props.resolvedBaseUrl p) = true /\
   Hook.consecutiveFailures h <= 0 /\
   (if Props.liveUpdates p then
      channel_live h \/
      Props.pollIntervalMs p <= 0 /\
      (TransportStatus.state (Hook.transportStatus h) = conn_connecting -> Hook.lastSuccessfulAt h = "")
    else 0 < Props.pollIntervalMs p)) /\
  (forall m, m = mode_websocket \/ m = mode_sse ->
   transportMode p h = m <->
     Props.liveMode p = true /\ opt_truthy (Props.resolvedBaseUrl p) = true /\
     Props.liveUpdates p = true /\ TransportStatus.mode (Hook.transportStatus h) = m /\
     TransportStatus.state (Hook.transportStatus h) = conn_live).
Proof.
  split_and!; [| | intros m Hm; by apply mode_live].
  - unfold liveHealth, resolveLiveHealth. cbn. destruct (Props.liveMode p), (opt_truthy _),
      (Props.liveUpdates p), (_ <=? 0), (0 <? _), (truthy _),
      (bool_decide (TransportStatus.state (Hook.transportStatus h) = conn_connecting)),
      (bool_decide (transportMode p h = mode_polling)); done.
  - unfold liveHealth. cbn zeta.
    destruct (Props.liveMode p) eqn:Hm; [| naive_solver]. cbn [negb].
    destruct (opt_truthy (Props.resolvedBaseUrl p)) eqn:Hb; [| naive_solver]. cbn [negb].
    destruct (Z.ltb_spec 0 (Hook.consecutiveFailures h)) as [Hf | Hf].
    { destruct (_ && _); [| destruct (truthy (Hook.lastSuccessfulAt h))]; naive_solver lia. }
    destruct (Props.liveUpdates p) eqn:Hu; cbn [negb andb].
    2: { rewrite andb_true_r. destruct (Z.leb_spec (Props.pollIntervalMs p) 0); naive_solver lia. }
    rewrite andb_false_r. pose proof (mode_polling_iff p h Hm Hb Hu Hf) as Hpoll.
    assert (forall c : Prop, channel_live h \/ Props.pollIntervalMs p <= 0 /\ c <->
      transportMode p h <> mode_polling /\ (channel_live h \/ c)) as Hmode.
    { intros c. rewrite Hpoll. destruct (decide (channel_live h)); [tauto |].
      rewrite <- Z.nlt_ge. tauto. }
    rewrite Hmode. clear Hmode Hpoll.
    destruct (bool_decide_reflect (TransportStatus.state (Hook.transportStatus h) = conn_connecting))
      as [Hc | Hc]; cbn [andb].
    + assert (~ channel_live h) as Hn by (intros [Hl _]; congruence).
      destruct (truthy (Hook.lastSuccessfulAt h)) eqn:Et.
      * apply truthy_true in Et. split; [done | tauto].
      * apply truthy_false in Et. case_bool_decide; (split; [done || tauto | tauto]).
    + case_bool_decide; (split; [done || tauto | tauto]).
Qed.

(** * Refreshes *)

Section Hook.
Context `{UrlApi} `{HeadersApi} `{DateHost} `{Browser} `{ApiView}.

(** The data shown agree with an answer of the API: they are, up to their order,
    its items or previous ones with the same id and the same data. *)
Definition agrees {A : Type} (to_value : A -> jsval) (id : A -> string) (shown answer : list A) : Prop :=
  exists l, shown ≡ₚ l /\
    Forall2 (fun x item => id x = id item /\ sameValue (to_value x) (to_value item) = true) l answer.

Lemma reuse_agrees {A : Type} (to_value : A -> jsval) (id : A -> string) previous next answer :
  next ≡ₚ answer -> NoDup (List.map id answer) ->
  agrees to_value id (reuseList to_value id previous next) answer.
Proof.
  intros Hp Hd. exists (List.map (resolve to_value id previous) answer). split.
  - rewrite reuseList_perm; [by apply Permutation_map |].
    eapply NoDup_Permutation_proper; [by apply Permutation_map | exact Hd].
  - clear. induction answer as [| item answer IH]; constructor; [| exact IH].
    by destruct (resolve_spec to_value id previous item) as (_ & ? & ?).
Qed.

Lemma refreshed_agrees now snapshot jobs schedules workers current :
  let data := refreshed_data now snapshot jobs schedules workers current in
  (NoDup (List.map Job.id jobs) -> agrees Job.to_value Job.id (ConsoleData.jobs data) jobs) /\
  (NoDup (List.map Schedule.id schedules) ->
   agrees Schedule.to_value Schedule.id (ConsoleData.schedules data) schedules) /\
  (NoDup (List.map WorkerStatus.workerId workers) ->
   agrees WorkerStatus.to_value WorkerStatus.workerId (ConsoleData.workerStatuses data) workers) /\
  ConsoleData.source data = source_live /\
  ConsoleData.queueControls data = ConsoleData.queueControls current /\
  ConsoleData.workerControls data = ConsoleData.workerControls current.
Proof.
  cbn. split_and!; try done; intros Hd; apply reuse_agrees; try exact Hd;
    [apply sort_by_perm | apply sort_by_perm | done].
Qed.

Lemma failures_set f s :
  Hook.consecutiveFailures (St.hook (setConsecutiveFailures f s)) =
    f (Hook.consecutiveFailures (St.hook s)) /\
  Refs.consecutiveFailuresRef (St.refs (setConsecutiveFailures f s)) =
    f (Hook.consecutiveFailures (St.hook s)).
Proof. done. Qed.

(** C39: The outcome of a refresh. When the requests of the latest refresh have
    settled, the hook is ready for the next one: no controller and no promise is
    kept and nothing loads. If one failed, the data and the time of the last
    success stay, the error is reported and one more failure is counted. If all
    succeeded, the failures and the error are cleared and the time is recorded;
    and unless live data with the same signature are shown already, the jobs,
    schedules and workers shown become those of the answer, while the queue and
    worker controls of the operator stay. *)
Theorem refresh_outcome o s i t settled :
  hook_reachable s -> (i, t) ∈ St.refreshTasks s ->
  signal_aborted (St.pool s) (refresh_controller t) = false ->
  let s' := continue_refresh o t settled s in
  let h := St.hook s in
  let h' := St.hook s' in
  Refs.fetchControllerRef (St.refs s') = None /\ Refs.fetchPromiseRef (St.refs s') = None /\
  Hook.loading h' = false /\
  Refs.consecutiveFailuresRef (St.refs s') = Hook.consecutiveFailures h' /\
  match settled with
  | inl reason =>
      Hook.consoleData h' = Hook.consoleData h /\ Hook.lastSuccessfulAt h' = Hook.lastSuccessfulAt h /\
      Hook.globalError h' = formatRequestError (rejection_thrown reason) /\
      Hook.consecutiveFailures h' = Hook.consecutiveFailures h + 1
  | inr (snapshot, jobs, schedules, workers) =>
      let jobs := as_jobs jobs in
      let schedules := as_schedules schedules in
      let workers := as_workerStatuses workers in
      let signature := createConsolePayloadSignature (as_snapshot snapshot) jobs schedules workers in
      let data := Hook.consoleData h' in
      Hook.globalError h' = "" /\ Hook.consecutiveFailures h' = 0 /\
      Hook.lastSuccessfulAt h' = iso_of_time (clock o) /\
      Refs.lastSuccessfulAtRef (St.refs s') = iso_of_time (clock o) /\
      Refs.dataSignatureRef (St.refs s') = signature /\
      (ConsoleData.source (Refs.consoleDataRef (St.refs s)) = source_live ->
       signature = Refs.dataSignatureRef (St.refs s) -> data = Hook.consoleData h) /\
      (ConsoleData.source (Refs.consoleDataRef (St.refs s)) <> source_live \/
       signature <> Refs.dataSignatureRef (St.refs s) ->
       NoDup (List.map Job.id jobs) -> NoDup (List.map Schedule.id schedules) ->
       NoDup (List.map WorkerStatus.workerId workers) ->
       agrees Job.to_value Job.id (ConsoleData.jobs data) jobs /\
       agrees Schedule.to_value Schedule.id (ConsoleData.schedules data) schedules /\
       agrees WorkerStatus.to_value WorkerStatus.workerId (ConsoleData.workerStatuses data) workers /\
       ConsoleData.source data = source_live /\
       ConsoleData.queueControls data = ConsoleData.queueControls (Hook.consoleData h) /\
       ConsoleData.workerControls data = ConsoleData.workerControls (Hook.consoleData h))
  end.
Proof.
  intros [[Hs _] _]%reachable_tasks Ht Ha. cbn zeta.
  destruct (t_refresh _ _ _ _ _ _ Hs _ _ Ht) as [_ [E | Hfc]]; [congruence |].
  unfold continue_refresh. rewrite Ha.
  assert (forall x, Refs.fetchControllerRef (St.refs x) = Some (refresh_controller t) ->
    let s' := end_refresh t x in
    Refs.fetchControllerRef (St.refs s') = None /\ Refs.fetchPromiseRef (St.refs s') = None /\
    Hook.loading (St.hook s') = false) as Hend.
  { intros x Hx. unfold end_refresh. rewrite decide_True by done. by destruct (refresh_quiet t). }
  assert (forall x, let s' := end_refresh t x in
    Hook.consoleData (St.hook s') = Hook.consoleData (St.hook x) /\
    Hook.lastSuccessfulAt (St.hook s') = Hook.lastSuccessfulAt (St.hook x) /\
    Hook.globalError (St.hook s') = Hook.globalError (St.hook x) /\
    Hook.consecutiveFailures (St.hook s') = Hook.consecutiveFailures (St.hook x) /\
    Refs.consecutiveFailuresRef (St.refs s') = Refs.consecutiveFailuresRef (St.refs x) /\
    Refs.lastSuccessfulAtRef (St.refs s') = Refs.lastSuccessfulAtRef (St.refs x) /\
    Refs.dataSignatureRef (St.refs s') = Refs.dataSignatureRef (St.refs x)) as Hkeep.
  { intros x. unfold end_refresh. cbn zeta. by destruct (decide _), (refresh_quiet t). }
  destruct settled as [reason | [[[a b] c] d]].
  - destruct (Hend (refresh_failed reason s) Hfc) as (-> & -> & ->).
    destruct (Hkeep (refresh_failed reason s)) as (-> & -> & -> & -> & -> & _). by split_and!.
  - set (s1 := refresh_succeeded o _ _ _ _ s).
    assert (Refs.fetchControllerRef (St.refs s1) = Some (refresh_controller t)) as H1s
      by (unfold s1, refresh_succeeded; cbn zeta; by destruct (_ || _)).
    destruct (Hend s1 H1s) as (-> & -> & ->). destruct (Hkeep s1) as (-> & -> & -> & -> & -> & -> & ->).
    unfold s1, refresh_succeeded. cbn zeta. clear.
    destruct (bool_decide (ConsoleData.source _ = _)) eqn:E1; cbn [negb orb].
    + apply bool_decide_eq_true in E1. destruct (bool_decide (_ = Refs.dataSignatureRef _)) eqn:E2; cbn [negb].
      * apply bool_decide_eq_true in E2. split_and!; try done. by intros [? | ?].
      * apply bool_decide_eq_false in E2. split_and!; try done. intros _ Hj Hsc Hw.
        destruct (refreshed_agrees (clock o) (as_snapshot a) (as_jobs b) (as_schedules c)
          (as_workerStatuses d) (Hook.consoleData (St.hook s))) as (HA & HB & HC & HD). by split_and!; auto.
    + apply bool_decide_eq_false in E1. split_and!; try done. intros _ Hj Hsc Hw.
      destruct (refreshed_agrees (clock o) (as_snapshot a) (as_jobs b) (as_schedules c)
        (as_workerStatuses d) (Hook.consoleData (St.hook s))) as (HA & HB & HC & HD). by split_and!; auto.
Qed.
End Hook.

(** * Samples *)

Import LiveTasks.Sample.

Definition first_refresh : nat * RefreshTask :=
  default (0%nat, {| refresh_controller := 0; refresh_quiet := true; refresh_waits := (0, 0, 0, 0)%nat |})
    (head (St.refreshTasks mounted)).

Lemma refresh_outcome_witness :
  St.refreshTasks mounted = [first_refresh] /\
  let s' := continue_refresh at_start (snd first_refresh) (inl abort_error) mounted in
  Refs.fetchControllerRef (St.refs s') = None /\
  Hook.consecutiveFailures (St.hook s') = Hook.consecutiveFailures (St.hook mounted) + 1.
Proof.
  assert (St.refreshTasks mounted = [first_refresh]) as E by by vm_compute.
  split; [exact E |].
  destruct (refresh_outcome at_start mounted (fst first_refresh) (snd first_refresh) (inl abort_error)
    mounted_reachable) as (Hc & _ & _ & _ & _ & _ & _ & Hf).
  - rewrite E. rewrite <- surjective_pairing. by left.
  - by vm_compute.
  - by split.
Defined.

(** A refresh that is forced while another is under way aborts it, and then asks
    for the same requests: it is given the aborted ones, fails with them, and
    reports a cancellation that nobody asked for. *)
Lemma forced_refresh_cancelled :
  let s := after [ManualReconnect; Network 1 (FetchRejects abort_error); HandleRequest 1] in
  Hook.globalError (St.hook mounted) = "" /\ Hook.consecutiveFailures (St.hook mounted) = 0 /\
  Hook.globalError (St.hook s) = "Request was cancelled." /\
  Hook.consecutiveFailures (St.hook s) = 1 /\ St.refreshTasks s = [].
Proof. by vm_compute. Qed.

(** With polling paused the console says live from its first render on, before any
    request was answered or any channel was opened. *)
Example live_without_channel :
  let p := Props.mk (Some "https://jobs.example") None "t" true true 0 "" in
  let h := St.rendered (mount at_start p true) in
  liveHealth p h = health_live /\ Hook.lastSuccessfulAt h = "" /\
  TransportStatus.state (Hook.transportStatus h) <> conn_live.
Proof. vm_compute. split_and!; [done | done | discriminate]. Qed.
