(* ===== verification/Unmount.v ===== *)
(** The end of [src/hooks/useDashboardLiveData.ts]: what is left of the live data
    when its component unmounts, and what may still happen to it then.

    The cleanups of the effects run in the order of the effects. [quiet] says that
    they left nothing that acts by itself; the promises of the hook's own requests,
    and browser events for objects that were closed, keep it so. The requests of the
    console's actions are not aborted: a late answer updates the data and begins a
    refresh, and [rests] says what is still true then. *)

From stdpp Require Import base list strings gmap relations.
From Stdlib Require Import ZArith Lia Bool.
From S2P Require Import Prelude JsString JsNum JsDate JsValue Models ApiRoutes Safe LiveRefresh.
From S2P Require Import LiveTransport ToastQueue ApiParsers RequestClient RequestPool ConsoleState.
From S2P Require Import Urls DemoData LiveState LiveData LiveTasks LiveManagers LiveTimeouts.

#[local] Open Scope Z_scope.

Section Unmount.
Context `{UrlApi} `{HeadersApi} `{DateHost} `{Browser} `{ApiView}.

(** React runs the cleanup of each effect. *)
Definition unmount (o : Outside) (s : St) : St :=
  unmount_effect o (drawer_cleanup (poll_cleanup (transport_cleanup o s))).

(** What may still happen: timeouts, the network, and browser events; and, with
    [answers], what the answer to an action of the console does, whose request no
    one aborts: it updates the data and calls [refreshConsole({ quiet: true, force:
    true })]. (React ignores the state updates of what it has unmounted; nobody
    sees them here.) *)
Definition late_event (answers : bool) (e : hook_action) : bool :=
  match e with
  | FireTimeout _ | Network _ _ | HandleRequest _ | ManagerEvent _ _ => true
  | UpdateData _ => answers
  | RefreshConsoleCall quiet force => answers && quiet && force
  | _ => false
  end.

Inductive late_step (answers : bool) : St -> St -> Prop :=
  | late_step_perform o e s s' :
      valid_env (transport_env o) -> late_event answers e = true -> perform o e s = Some s' ->
      late_step answers s s'.

(** * Nothing acts by itself *)

Record quiet (s : St) : Prop := {
  q_timers : St.timers s = ∅;
  q_loops : forall id l, St.loops s !! id = Some l -> cancelled l = true;
  q_managers : managers_with None s;
  q_tasks : tasks_of s;
  q_refreshes : forall i t, (i, t) ∈ St.refreshTasks s ->
    signal_aborted (St.pool s) (refresh_controller t) = true;
  q_inspections : forall i t, (i, t) ∈ St.inspectionTasks s ->
    signal_aborted (St.pool s) (inspection_controller t) = true
}.

(** ** The parts of [unmount_effect] *)

Lemma abort_all_eq l s :
  foldl (fun s c => abort_controller (Some c) s) s l =
  St.set_pool (foldl (fun p c => abortController c p) (St.pool s) l) s.
Proof. revert s. induction l as [| c l IH]; intros s; cbn; [by destruct s | by rewrite IH]. Qed.

Lemma clear_all_eq l s :
  foldl (fun s id => clearTimeout id s) s l =
  St.set_timers (foldl (fun m id => delete id m) (St.timers s) l) s.
Proof. revert s. induction l as [| c l IH]; intros s; cbn; [by destruct s | by rewrite IH]. Qed.

Lemma delete_all_Some {A} (m : gmap nat A) l i x :
  foldl (fun m id => delete id m) m l !! i = Some x -> m !! i = Some x /\ i ∉ l.
Proof.
  revert m. induction l as [| k l IH]; intros m; cbn; [set_solver |].
  intros [[Hne Hi]%lookup_delete_Some Hl]%IH. set_solver.
Qed.

(** Every controller of a list aborts. *)
Lemma abort_all_aborted l p c :
  c ∈ l \/ signal_aborted p c = true -> signal_aborted (foldl (fun p c => abortController c p) p l) c = true.
Proof.
  revert p. induction l as [| k l IH]; intros p; cbn; [set_solver |]. intros Hc. apply IH.
  destruct (decide (k = c)) as [-> | Hne]; [right; apply abort_aborted |].
  destruct Hc as [[? | ?]%elem_of_cons | Hc]; [done | by left | right].
  unfold abortController. destruct (signal_aborted p k); [done |]. unfold signal_aborted in *. cbn.
  by rewrite lookup_insert_ne.
Qed.

Lemma abort_aborted_or fc s c :
  signal_aborted (St.pool s) c = true \/ fc = Some c ->
  signal_aborted (St.pool (abort_controller fc s)) c = true.
Proof.
  destruct fc as [c' |]; [| naive_solver]. intros Hc. apply (abort_all_aborted [c']).
  destruct Hc as [Hc | [= ->]]; [by right | left; by apply list_elem_of_singleton].
Qed.

(** ** Stopping a manager *)

(** What a call that only reports statuses leaves alone. *)
Record same_work (s s' : St) : Prop := {
  sw_timers : St.timers s' = St.timers s;
  sw_loops : St.loops s' = St.loops s;
  sw_pool : St.pool s' = St.pool s;
  sw_refreshes : St.refreshTasks s' = St.refreshTasks s;
  sw_inspections : St.inspectionTasks s' = St.inspectionTasks s
}.

#[local] Instance same_work_preorder : PreOrder same_work.
Proof. split; [by intros s |]. intros s1 s2 s3 [] []. split; congruence. Qed.

Lemma stop_reports state m : exists st, out (stop state m) = OnStatus st :: out m.
Proof.
  unfold stop. cbn zeta. unfold emitStatus at 1, emit at 1. cbn [out].
  eexists. f_equal. unfold clearTimers, closeCurrent.
  destruct (retryTimer _); cbn; destruct (probeTimer _); cbn; destruct (socket _); cbn;
    by destruct (eventSource _).
Qed.

Lemma stop_same_work o id state s : same_work s (call_manager o id (Stop state) s).
Proof.
  destruct id as [id |]; [| reflexivity]. cbn. unfold manager_action.
  destruct (St.managers s !! id) as [[opts m] |]; [| reflexivity]. cbn [mbind option_bind].
  cbn [LiveTransport.perform]. destruct (stop_reports state m) as [st E].
  cbn [mbind option_bind default]. rewrite E. cbn [length].
  replace (S (length (out m)) - length (out m))%nat with 1%nat by lia. rewrite firstn_cons, firstn_O.
  cbn. unfold updateTransportStatus. case_match; by split.
Qed.

(** ** The cleanups of the effects *)

(** After them no polling loop runs, and only refs hold timeouts. *)
Record cleaned_up (s : St) : Prop := {
  cu_sound : sound s;
  cu_managers : managers_of s;
  cu_loop : effect_loop (St.effects s) = None;
  cu_drawer : effect_drawer (St.effects s) = None
}.

Lemma cleanups_done o s :
  valid_env (transport_env o) -> hook_reachable s ->
  cleaned_up (drawer_cleanup (poll_cleanup (transport_cleanup o s))).
Proof.
  intros Hv Hr. destruct (reachable_sound s Hr) as [Hs _]. destruct (reachable_settles s Hr) as [Hm _].
  apply (proj2 (transport_ticks o s)) in Hs as [Hs _].
  apply (transport_cleanup_managers o s Hv) in Hm. set (s1 := transport_cleanup o s) in *. clearbody s1.
  destruct (poll_cleanup_sound s1 Hs) as [H2s El].
  destruct (drawer_cleanup_sound _ H2s) as (H3s & _ & Ed & E).
  split; [exact H3s | | by rewrite E | exact Ed].
  eapply managers_of_keeps; [| apply km_drawer_cleanup].
  eapply managers_of_keeps; [exact Hm | apply km_poll_cleanup].
Qed.

Lemma cleaned_loops s id l : cleaned_up s -> St.loops s !! id = Some l -> cancelled l = true.
Proof.
  intros [(_ & Hc & _) _ El _] Hl. destruct (cancelled l) eqn:E; [done |].
  pose proof (ck_current _ _ _ Hc _ _ Hl E). congruence.
Qed.

(** A timeout that is still armed is held by a ref. *)
Lemma cleaned_timers s id t d :
  cleaned_up s -> St.timers s !! id = Some (t, d) ->
  Refs.eventFlushTimerRef (St.refs s) = Some id \/ Refs.refreshDebounceRef (St.refs s) = Some id \/
  exists j, Refs.inspectionDebounceRef (St.refs s) !! j = Some id.
Proof.
  intros Hs Hid. pose proof Hs as [(_ & Hc & _) _ El Ed].
  pose proof (ck_owned _ _ _ Hc _ _ _ Hid) as Ho. destruct t; cbn in Ho; [auto | auto | eauto | |].
  - destruct (ck_idle _ _ _ Hc _ _ _ Hid) as (_ & _ & l & Hl & Hrun & _).
    pose proof (cleaned_loops s _ _ Hs Hl). congruence.
  - congruence.
Qed.

(** ** The effect of unmounting *)

(** What it aborts and clears, before the manager is stopped. *)
Lemma unmount_effect_eq o s :
  let abort l p := foldl (fun p c => abortController c p) p l in
  exists p tm,
    unmount_effect o s =
      call_manager o (Refs.transportManagerRef (St.refs s)) (Stop conn_paused)
        (St.set_timers tm (St.set_pool p s)) /\
    p = abort ((map_to_list (Refs.inspectionControllerRef (St.refs s))).*2)
          (St.pool (abort_controller (Refs.fetchControllerRef (St.refs s)) s)) /\
    (forall id v, tm !! id = Some v ->
       St.timers s !! id = Some v /\ Refs.eventFlushTimerRef (St.refs s) <> Some id /\
       Refs.refreshDebounceRef (St.refs s) <> Some id /\
       forall j, Refs.inspectionDebounceRef (St.refs s) !! j <> Some id).
Proof.
  cbn zeta. unfold unmount_effect, abort_inspections, clear_debounces. cbn zeta.
  rewrite !abort_all_eq, !clear_all_eq.
  eexists _, (cleared (Refs.eventFlushTimerRef (St.refs s)) (foldl (fun m id => delete id m)
    (cleared (Refs.refreshDebounceRef (St.refs s)) (St.timers s))
    ((map_to_list (Refs.inspectionDebounceRef (St.refs s))).*2))).
  split; [| split; [reflexivity |]].
  - destruct s as [p h rd sc r pl rt it lo tm mg ef nx no]. cbn.
    destruct (Refs.fetchControllerRef r); cbn;
      (destruct (Refs.refreshDebounceRef r); cbn; (by destruct (Refs.eventFlushTimerRef r))).
  - intros id v [[[Hl Hd]%cleared_Some Hj]%delete_all_Some Hf]%cleared_Some.
    split_and!; [done | done | done |]. intros j E. apply Hj. apply list_elem_of_fmap.
    exists (j, id). split; [done |]. by apply elem_of_map_to_list.
Qed.

Lemma unmount_effect_tasks o s : tasks_of s -> tasks_of (unmount_effect o s).
Proof.
  intros Hs. unfold unmount_effect. cbn zeta. set (s1 := abort_inspections _).
  assert (tasks_of s1) as H1s by (apply abort_inspections_tasks, abort_fetch_tasks, Hs). clearbody s1.
  eapply kt_then; [apply kt_call_manager |]. eapply kt_then; [apply kt_clear |].
  eapply kt_then; [apply kt_clear_debounces |]. by eapply kt_then; [apply kt_clear |].
Qed.

Lemma unmount_effect_managers o s :
  valid_env (transport_env o) -> managers_of s -> managers_with None (unmount_effect o s).
Proof.
  intros Hv Hm. destruct (unmount_effect_eq o s) as (p & tm & -> & _).
  by apply (stop_current o conn_paused (St.set_timers tm (St.set_pool p s))).
Qed.

Lemma unmount_is_quiet o s :
  valid_env (transport_env o) -> hook_reachable s -> quiet (unmount o s).
Proof.
  intros Hv Hr. unfold unmount. pose proof (cleanups_done o s Hv Hr) as Hs.
  set (s1 := drawer_cleanup _) in *. clearbody s1.
  pose proof (unmount_effect_tasks o s1 (proj1 (cu_sound _ Hs))) as Ht.
  pose proof (unmount_effect_managers o s1 Hv (cu_managers _ Hs)) as Hm.
  destruct (unmount_effect_eq o s1) as (p & tm & E & Ep & Htm).
  destruct (stop_same_work o (Refs.transportManagerRef (St.refs s1)) conn_paused
    (St.set_timers tm (St.set_pool p s1))) as [W1 W2 W3 W4 W5].
  rewrite E in *. split; [| | exact Hm | exact Ht | |].
  - rewrite W1. apply map_eq. intros id. rewrite lookup_empty.
    destruct (tm !! id) as [[t d] |] eqn:El; [| done]. exfalso.
    destruct (Htm id _ El) as (Hl & Hf & Hd & Hj).
    destruct (cleaned_timers s1 id t d Hs Hl) as [? | [? | (j & ?)]]; [done | done | by apply (Hj j)].
  - rewrite W2. intros id l Hl. by eapply cleaned_loops.
  - rewrite W4, W3. cbn. intros i t Hi.
    destruct (t_refresh _ _ _ _ _ _ (proj1 (proj1 (proj1 (cu_sound _ Hs)))) i t Hi) as [_ Ha].
    rewrite Ep. apply abort_all_aborted. right. by apply abort_aborted_or.
  - rewrite W5, W3. cbn. intros i t Hi.
    destruct (t_inspection _ _ _ _ _ _ (proj1 (proj1 (proj1 (cu_sound _ Hs)))) i t Hi) as [_ [Ha | Hj]];
      rewrite Ep; apply abort_all_aborted.
    + right. apply abort_aborted_or; by left.
    + left. apply list_elem_of_fmap. eexists (_, _). split; [done |]. by apply elem_of_map_to_list.
Qed.

(** * Nothing starts again *)

(** From [s] to [s'] work only ends: nothing is armed, requested, notified or shown. *)
Record winds_down (s s' : St) : Prop := {
  wd_timers : St.timers s' = St.timers s;
  wd_made : forall r, is_Some (requests (St.pool s') !! r) -> is_Some (requests (St.pool s) !! r);
  wd_notified : St.notified s' = St.notified s;
  wd_data : Hook.consoleData (St.hook s') = Hook.consoleData (St.hook s);
  wd_refreshes : forall t, t ∈ St.refreshTasks s' -> t ∈ St.refreshTasks s;
  wd_inspections : forall t, t ∈ St.inspectionTasks s' -> t ∈ St.inspectionTasks s;
  wd_loops : (forall id l, St.loops s !! id = Some l -> cancelled l = true) ->
    forall id l, St.loops s' !! id = Some l -> cancelled l = true
}.

#[local] Instance winds_down_preorder : PreOrder winds_down.
Proof. split; [by intros s |]. intros s1 s2 s3 [] []. split; eauto; congruence. Qed.

Ltac winds := split; cbn; (done || auto).

(** A cancelled loop that is resumed does nothing. *)
Lemma resume_winds_down id s :
  (forall id l, St.loops s !! id = Some l -> cancelled l = true) ->
  winds_down s (resume_loop id s) /\ St.pool (resume_loop id s) = St.pool s.
Proof.
  intros Hc. unfold resume_loop. destruct (St.loops s !! id) as [l |] eqn:El; [| done].
  rewrite (Hc _ _ El). split; [| done]. winds. intros _ id' l'. rewrite alter_alt, El.
  intros [[<- <-] | [_ ?]]%lookup_insert_Some; [exact (Hc _ _ El) | by eapply Hc].
Qed.

Lemma resume_all_winds_down l s :
  (forall id l, St.loops s !! id = Some l -> cancelled l = true) ->
  winds_down s (foldl (fun s id => resume_loop id s) s l) /\
  St.pool (foldl (fun s id => resume_loop id s) s l) = St.pool s.
Proof.
  revert s. induction l as [| id l IH]; intros s Hc; [done |]. cbn.
  destruct (resume_winds_down id s Hc) as [Hw Ep]. destruct (IH _ (wd_loops _ _ Hw Hc)) as [Hw' Ep'].
  split; [by etransitivity | congruence].
Qed.

Lemma end_refresh_winds_down t s : winds_down s (end_refresh t s) /\ St.pool (end_refresh t s) = St.pool s.
Proof.
  split; [| apply end_refresh_ends]. unfold end_refresh.
  destruct (decide _), (refresh_quiet t); winds.
Qed.

Lemma end_inspection_winds_down t s :
  winds_down s (end_inspection t s) /\ St.pool (end_inspection t s) = St.pool s.
Proof. unfold end_inspection. cbn zeta. destruct (decide _); (split; [winds | done]). Qed.

Lemma without_winds_down i s :
  winds_down s (St.set_refreshTasks (without i (St.refreshTasks s)) s) /\
  winds_down s (St.set_inspectionTasks (without i (St.inspectionTasks s)) s).
Proof. split; winds; by intros t [? _]%without_spec. Qed.

(** An aborted refresh or inspection only ends. *)
Lemma advance_refresh_winds_down o s t :
  (forall id l, St.loops s !! id = Some l -> cancelled l = true) ->
  signal_aborted (St.pool s) (refresh_controller (snd t)) = true ->
  winds_down s (advance_refresh o s t) /\ St.pool (advance_refresh o s t) = St.pool s.
Proof.
  intros Hc Ha. unfold advance_refresh. destruct (all_settled _ _) as [settled |]; [| done]. cbn zeta.
  pose proof (proj1 (without_winds_down (fst t) s)) as H1s.
  assert (St.pool (St.set_refreshTasks (without (fst t) (St.refreshTasks s)) s) = St.pool s) as E1 by done.
  set (s1 := St.set_refreshTasks _ s) in *. clearbody s1. unfold continue_refresh. rewrite E1, Ha.
  destruct (end_refresh_winds_down (snd t) s1) as [H2s E2]. set (s2 := end_refresh _ s1) in *. clearbody s2.
  destruct (resume_all_winds_down
    (List.map fst (List.filter (awaits (fst t)) (map_to_list (St.loops s2)))) s2) as [H3s E3].
  { apply (wd_loops _ _ H2s), (wd_loops _ _ H1s), Hc. }
  split; [| unfold resolve_refresh; congruence]. etransitivity; [exact H1s |].
  etransitivity; [exact H2s | exact H3s].
Qed.

Lemma advance_inspection_winds_down o s t :
  signal_aborted (St.pool s) (inspection_controller (snd t)) = true ->
  winds_down s (advance_inspection o s t) /\ St.pool (advance_inspection o s t) = St.pool s.
Proof.
  intros Ha. unfold advance_inspection. destruct (handled _ _) as [settled |]; [| done]. cbn zeta.
  pose proof (proj2 (without_winds_down (fst t) s)) as H1s.
  assert (St.pool (St.set_inspectionTasks (without (fst t) (St.inspectionTasks s)) s) = St.pool s) as E1
    by done.
  set (s1 := St.set_inspectionTasks _ s) in *. clearbody s1. unfold continue_inspection. rewrite E1, Ha.
  destruct (end_inspection_winds_down (snd t) s1) as [H2s E2].
  split; [by etransitivity | congruence].
Qed.

(** One after the other. *)
Lemma foldl_winds_down {A} (f : St -> A -> St) (l : list A) (P : Pool -> A -> Prop) s :
  (forall s x, (forall id l, St.loops s !! id = Some l -> cancelled l = true) -> P (St.pool s) x ->
     winds_down s (f s x) /\ St.pool (f s x) = St.pool s) ->
  (forall id l, St.loops s !! id = Some l -> cancelled l = true) ->
  (forall x, x ∈ l -> P (St.pool s) x) ->
  winds_down s (foldl f s l) /\ St.pool (foldl f s l) = St.pool s.
Proof.
  intros Hf. revert s. induction l as [| x l IH]; intros s Hc Hl; [done |]. cbn.
  destruct (Hf s x Hc (Hl x ltac:(by left))) as [Hw Ep].
  destruct (IH (f s x)) as [Hw' Ep'].
  - by apply (wd_loops _ _ Hw).
  - intros y Hy. rewrite Ep. apply Hl. by right.
  - split; [by etransitivity | congruence].
Qed.

(** ** The late events *)

(** Handling or advancing a request makes none, and takes no abort back. *)
Lemma late_pool s p :
  tasks_of s -> pool_step (St.pool s) p ->
  (forall r, is_Some (requests p !! r) -> is_Some (requests (St.pool s) !! r)) ->
  winds_down s (St.set_pool p s) /\
  forall c, signal_aborted (St.pool s) c = true -> signal_aborted p c = true.
Proof.
  intros Ht Hp Hr. split; [winds |]. intros c.
  apply (pool_step_aborted _ _ _ (t_pool _ _ _ _ _ _ (proj1 (proj1 Ht))) Hp).
Qed.

Lemma handle_request_winds_down o id s s' :
  quiet s -> handle_request o id s = Some s' ->
  winds_down s s' /\ forall c, signal_aborted (St.pool s) c = true -> signal_aborted (St.pool s') c = true.
Proof.
  intros Hq. unfold handle_request. destruct (RequestPool.drain id (St.pool s)) as [p |] eqn:E; [| done].
  cbn. intros [= <-]. destruct (late_pool s p (q_tasks _ Hq)) as [H1s Ha1].
  { by eapply pool_drain. }
  { intros r. unfold RequestPool.drain in E. simplify_option_eq. case_match; simplify_eq. cbn.
    intros [<- | [_ ?]]%lookup_insert_is_Some; eauto. }
  set (s1 := St.set_pool p s) in *.
  assert (forall i l, St.loops s1 !! i = Some l -> cancelled l = true) as Hc by apply (q_loops _ Hq).
  destruct (foldl_winds_down (advance_refresh o) (St.refreshTasks s1)
    (fun q t => signal_aborted q (refresh_controller (snd t)) = true) s1) as [H2s E2].
  { intros. by apply advance_refresh_winds_down. }
  { exact Hc. }
  { intros [i t] Hi. apply Ha1. by apply (q_refreshes _ Hq i). }
  set (s2 := foldl (advance_refresh o) s1 _) in *.
  destruct (foldl_winds_down (advance_inspection o) (St.inspectionTasks s2)
    (fun q t => signal_aborted q (inspection_controller (snd t)) = true) s2) as [H3s E3].
  { intros. by apply advance_inspection_winds_down. }
  { exact (wd_loops _ _ H2s Hc). }
  { intros [i t] Hi%(wd_inspections _ _ H2s). rewrite E2. apply Ha1. by apply (q_inspections _ Hq i). }
  split; [etransitivity; [exact H1s | by etransitivity] |]. intros c Hcc. rewrite E3, E2. by apply Ha1.
Qed.

(** A stopped manager is told of what happens to objects it has closed. *)
Lemma manager_event_winds_down o id a s s' :
  managers_with None s -> browser_event a = true -> manager_action o id a s = Some s' ->
  winds_down s s' /\ St.pool s' = St.pool s /\ (St.next s <= St.next s')%nat.
Proof.
  intros Hq Hb. unfold manager_action. destruct (St.managers s !! id) as [[opts m] |] eqn:Em; [| done].
  cbn [mbind option_bind]. destruct (LiveTransport.perform _ _ _ _) as [m' |] eqn:Ep; [| done].
  cbn [mbind option_bind]. intros [= <-].
  destruct (transport_silent_after_stop opts (transport_env o) a m m') as (_ & Eo & _).
  { exact (mg_reachable _ _ _ Hq _ _ Em). }
  { by apply (mg_stopped _ _ _ Hq _ _ Em). }
  { by destruct a. }
  { exact Ep. }
  rewrite Eo, Nat.sub_diag, firstn_O. cbn. split; [winds | done].
Qed.

Lemma late_step_inv answers s s' :
  late_step answers s s' ->
  exists o e, valid_env (transport_env o) /\ late_event answers e = true /\ perform o e s = Some s'.
Proof. intros [o e]. eauto. Qed.

Lemma late_step_winds_down s s' :
  quiet s -> late_step false s s' ->
  winds_down s s' /\ forall c, signal_aborted (St.pool s) c = true -> signal_aborted (St.pool s') c = true.
Proof.
  intros Hq (o & e & Hv & He & E)%late_step_inv. destruct e; try done; cbn [perform] in E.
  - unfold fire in E. by rewrite (q_timers _ Hq), lookup_empty in E.
  - destruct (net_event id e (St.pool s)) as [p |] eqn:Ep; [| done]. injection E as <-.
    apply (late_pool s p (q_tasks _ Hq)); [by eapply pool_net |].
    intros r. unfold net_event in Ep. simplify_option_eq. cbn.
    intros [<- | [_ ?]]%lookup_insert_is_Some; eauto.
  - by eapply handle_request_winds_down.
  - destruct (browser_event a) eqn:Hb; [| done].
    destruct (manager_event_winds_down o id a s s' (q_managers _ Hq) Hb E) as (Hw & -> & _). done.
Qed.

Lemma late_step_managers answers s s' :
  St.timers s = ∅ -> managers_with None s -> late_step answers s s' -> managers_with None s'.
Proof.
  intros Ht Hm (o & e & Hv & He & E)%late_step_inv.
  assert (forall x, keeps_managers s x -> managers_with None x) as Hk.
  { intros x [E1 _ _ _ En]. unfold managers_with. rewrite E1. by eapply managers_ok_next. }
  destruct e; try done; cbn [perform] in E.
  - unfold fire in E. by rewrite Ht, lookup_empty in E.
  - destruct (net_event _ _ _); [| done]. injection E as <-. by apply Hk, km_pool.
  - by eapply Hk, km_handle_request.
  - destruct (browser_event a) eqn:Hb; [| done].
    apply manager_action_spec in E as (opts & m & m' & Hm' & Ep & [E1 _ _ _ En]).
    unfold managers_with. rewrite E1. eapply managers_ok_next; [| exact En].
    destruct (ordinary_step opts o a m m' Hv) as [Hst Hs]; [by destruct a | exact Ep |].
    by eapply managers_update.
  - injection E as <-. apply Hk, km_refreshConsole.
  - injection E as <-. apply Hk, km_data.
Qed.

Lemma late_step_tasks answers s s' : tasks_of s -> late_step answers s s' -> tasks_of s'.
Proof.
  intros Ht (o & e & Hv & He & E)%late_step_inv. apply (hook_step_tasks s); [exact Ht |].
  apply (hook_step_perform o e); [done | by destruct e | done].
Qed.

Lemma late_step_quiet s s' : quiet s -> late_step false s s' -> quiet s'.
Proof.
  intros Hq Hst. destruct (late_step_winds_down s s' Hq Hst) as [[W1 _ _ _ W5 W6 W7] Ha]. split.
  - by rewrite W1, (q_timers _ Hq).
  - apply W7, (q_loops _ Hq).
  - by eapply late_step_managers; [apply (q_timers _ Hq) | apply (q_managers _ Hq) |].
  - by eapply late_step_tasks; [apply (q_tasks _ Hq) |].
  - intros i t Hi%W5. apply Ha. by apply (q_refreshes _ Hq i).
  - intros i t Hi%W6. apply Ha. by apply (q_inspections _ Hq i).
Qed.

Lemma late_steps_wind_down s s' : quiet s -> rtc (late_step false) s s' -> winds_down s s'.
Proof.
  intros Hq Hst. induction Hst as [s | s s1 s' H1s _ IH]; [done |].
  etransitivity; [by apply (late_step_winds_down s s1 Hq H1s) |]. apply IH. by eapply late_step_quiet.
Qed.

(** ** The late answers of actions *)

(** Nothing comes to act by itself: no timeout is armed, no inspection starts, and
    a refresh that is new was asked for after [s]. *)
Record rests (s s' : St) : Prop := {
  rs_timers : St.timers s' = St.timers s;
  rs_refreshes : forall i t, (i, t) ∈ St.refreshTasks s' ->
    (i, t) ∈ St.refreshTasks s \/ (St.next s <= i)%nat;
  rs_inspections : forall t, t ∈ St.inspectionTasks s' -> t ∈ St.inspectionTasks s;
  rs_aborted : forall c, signal_aborted (St.pool s) c = true -> signal_aborted (St.pool s') c = true;
  rs_next : (St.next s <= St.next s')%nat;
  rs_loops : (forall id l, St.loops s !! id = Some l -> cancelled l = true) ->
    forall id l, St.loops s' !! id = Some l -> cancelled l = true
}.

#[local] Instance rests_preorder : PreOrder rests.
Proof.
  split; [intros s; split; auto |]. intros s1 s2 s3 [A1 A2 A3 A4 A5 A6] [B1 B2 B3 B4 B5 B6].
  split; [congruence | | eauto | eauto | lia | eauto].
  intros i t [Hi%A2 | Hi]%B2; [naive_solver | right; lia].
Qed.

Lemma rests_pool s p :
  tasks_of s -> pool_step (St.pool s) p -> rests s (St.set_pool p s).
Proof.
  intros Ht Hp. split; cbn; auto. intros c.
  apply (pool_step_aborted _ _ _ (t_pool _ _ _ _ _ _ (proj1 (proj1 Ht))) Hp).
Qed.

Lemma rests_clock s s' :
  keeps_clock s s' -> St.inspectionTasks s' = St.inspectionTasks s ->
  (forall i t, (i, t) ∈ St.refreshTasks s' -> (i, t) ∈ St.refreshTasks s \/ (St.next s <= i)%nat) ->
  (forall c, signal_aborted (St.pool s) c = true -> signal_aborted (St.pool s') c = true) ->
  rests s s'.
Proof.
  intros Hk Ei Hr Ha. split; [apply (kc_timers _ _ Hk) | exact Hr | by rewrite Ei | exact Ha
    | apply (kc_next _ _ Hk) | by rewrite (kc_loops _ _ Hk)].
Qed.

Lemma rests_resume_all l s :
  (forall id l, St.loops s !! id = Some l -> cancelled l = true) ->
  rests s (foldl (fun s id => resume_loop id s) s l).
Proof.
  intros Hc. destruct (resume_all_winds_down l s Hc) as [[W1 _ _ _ W5 W6 W7] Ep].
  assert (keeps_tasks s (foldl (fun s id => resume_loop id s) s l)) as Hk
    by (apply kt_foldl; intros; apply kt_resume_loop).
  split; [exact W1 | auto | exact W6 | by rewrite Ep | apply (kt_next _ _ Hk) | exact W7].
Qed.

Lemma advance_refresh_rests o s t :
  (forall id l, St.loops s !! id = Some l -> cancelled l = true) -> rests s (advance_refresh o s t).
Proof.
  intros Hc. unfold advance_refresh. destruct (all_settled _ _) as [settled |]; [| done]. cbn zeta.
  assert (rests s (St.set_refreshTasks (without (fst t) (St.refreshTasks s)) s)) as H1s.
  { split; cbn; auto. intros i u [? _]%without_spec. by left. }
  set (s1 := St.set_refreshTasks _ s) in *. clearbody s1.
  assert (rests s1 (continue_refresh o (snd t) settled s1)) as H2s.
  { destruct (continue_refresh_ends o (snd t) settled s1) as [E1 E2 E3 _ _ _ _].
    apply rests_clock; [apply kc_continue_refresh | exact E3 | rewrite E2; auto | by rewrite E1]. }
  set (s2 := continue_refresh _ _ _ s1) in *. clearbody s2.
  etransitivity; [exact H1s |]. etransitivity; [exact H2s |]. unfold resolve_refresh.
  apply rests_resume_all, (rs_loops _ _ H2s), (rs_loops _ _ H1s), Hc.
Qed.

Lemma advance_inspection_rests o s t : rests s (advance_inspection o s t).
Proof.
  unfold advance_inspection. destruct (handled _ _) as [settled |]; [| done]. cbn zeta.
  assert (rests s (St.set_inspectionTasks (without (fst t) (St.inspectionTasks s)) s)) as H1s.
  { split; cbn; auto. by intros u [? _]%without_spec. }
  set (s1 := St.set_inspectionTasks _ s) in *. clearbody s1. etransitivity; [exact H1s |].
  destruct (continue_inspection_ends o (snd t) settled s1) as [E1 E2 E3 _ _ _ _].
  apply rests_clock; [apply kc_continue_inspection | exact E3 | rewrite E2; auto | by rewrite E1].
Qed.

Lemma foldl_rests {A} (f : St -> A -> St) l s :
  (forall s x, (forall id l, St.loops s !! id = Some l -> cancelled l = true) -> rests s (f s x)) ->
  (forall id l, St.loops s !! id = Some l -> cancelled l = true) -> rests s (foldl f s l).
Proof.
  intros Hf. revert s. induction l as [| x l IH]; intros s Hc; [done |]. cbn.
  etransitivity; [by apply Hf |]. apply IH, (rs_loops _ _ (Hf s x Hc)), Hc.
Qed.

Lemma handle_request_rests o id s s' :
  tasks_of s -> (forall id l, St.loops s !! id = Some l -> cancelled l = true) ->
  handle_request o id s = Some s' -> rests s s'.
Proof.
  intros Ht Hc. unfold handle_request. destruct (RequestPool.drain id (St.pool s)) as [p |] eqn:E; [| done].
  cbn. intros [= <-].
  assert (rests s (St.set_pool p s)) as H1s by (apply rests_pool; [done | by eapply pool_drain]).
  set (s1 := St.set_pool p s) in *.
  pose proof (foldl_rests (advance_refresh o) (St.refreshTasks s1) s1 (fun s t => advance_refresh_rests o s t)
    (rs_loops _ _ H1s Hc)) as H2s.
  etransitivity; [exact H1s |]. etransitivity; [exact H2s |].
  apply foldl_rests; [intros; apply advance_inspection_rests |].
  apply (rs_loops _ _ H2s), (rs_loops _ _ H1s), Hc.
Qed.

Lemma refreshConsole_rests o q f s : tasks_of s -> rests s (snd (refreshConsole o q f s)).
Proof.
  intros Ht. unfold refreshConsole. destruct (negb (Props.liveMode (St.props s))); [done |].
  set (s0 := if q then s else _). assert (rests s s0 /\ tasks_of s0) as [H0s H0t].
  { unfold s0. destruct q; [done |]. split; [split; auto | by eapply tasks_of_keeps; [| apply kt_hook]]. }
  etransitivity; [exact H0s |]. clear - H0t. clearbody s0. destruct (negb (opt_truthy _)).
  { cbn [snd]. destruct (kt_invalid_base_url q s0) as [E1 E2 E3 _ _ _ _].
    apply rests_clock; [apply kc_invalid_base_url | exact E3 | rewrite E2; auto | by rewrite E1]. }
  assert (rests s0 (snd (start_refresh q s0))) as Hr.
  { pose proof (abort_fetch_tasks s0 H0t) as H1t.
    destruct (start_refresh_begins q s0 (t_pool _ _ _ _ _ _ (proj1 (proj1 H1t))))
      as (c & w & [B1 _ _ _ _ B6 B7 _ _ _ _ _ _]).
    assert (rests s0 (abort_controller (Refs.fetchControllerRef (St.refs s0)) s0)) as H1s.
    { destruct (Refs.fetchControllerRef (St.refs s0)) as [k |] eqn:Ek; [| done].
      apply rests_pool; [done |]. apply pool_abort. eapply t_fetch; [apply H0t | exact Ek]. }
    assert (St.next (abort_controller (Refs.fetchControllerRef (St.refs s0)) s0) = St.next s0 /\
            St.refreshTasks (abort_controller (Refs.fetchControllerRef (St.refs s0)) s0) = St.refreshTasks s0 /\
            St.inspectionTasks (abort_controller (Refs.fetchControllerRef (St.refs s0)) s0) =
              St.inspectionTasks s0) as (En & Er & Ei) by (by destruct (Refs.fetchControllerRef (St.refs s0))).
    apply rests_clock; [apply kc_start_refresh | by rewrite B7, Ei | |].
    - intros i t. rewrite B6, Er, En. intros [Hi | Hi]%elem_of_app; [by left | right].
      apply list_elem_of_singleton in Hi as [= -> _]. done.
    - intros k Hk%(rs_aborted _ _ H1s).
      pose proof (t_pool _ _ _ _ _ _ (proj1 (proj1 H1t))) as Hp.
      apply (pool_steps _ _ Hp (rtc_l _ _ _ _ (pool_new _) B1)), Hk. }
  destruct (Refs.fetchPromiseRef (St.refs s0)), f; try done; by destruct (start_refresh q s0).
Qed.

Lemma late_step_rests answers s s' :
  St.timers s = ∅ -> (forall id l, St.loops s !! id = Some l -> cancelled l = true) ->
  managers_with None s -> tasks_of s -> late_step answers s s' -> rests s s'.
Proof.
  intros Hti Hc Hm Ht (o & e & Hv & He & E)%late_step_inv. destruct e; try done; cbn [perform] in E.
  - unfold fire in E. by rewrite Hti, lookup_empty in E.
  - destruct (net_event id e (St.pool s)) as [p |] eqn:Ep; [| done]. injection E as <-.
    apply rests_pool; [done | by eapply pool_net].
  - by eapply handle_request_rests.
  - destruct (browser_event a) eqn:Hb; [| done].
    destruct (manager_event_winds_down o id a s s' Hm Hb E) as ([W1 _ _ _ W5 W6 W7] & Ep & En).
    split; auto. by rewrite Ep.
  - injection E as <-. by apply refreshConsole_rests.
  - injection E as <-. destruct (kc_data f s). split; cbn; auto.
Qed.

Lemma late_steps_rest answers s s' :
  quiet s -> rtc (late_step answers) s s' -> rests s s' /\ managers_with None s'.
Proof.
  intros [H1q H2q H3q H4q _ _] Hst. induction Hst as [s | s s1 s' H1s _ IH]; [done |].
  pose proof (late_step_rests answers s s1 H1q H2q H3q H4q H1s) as Hr.
  destruct IH as [Hr' Hm].
  - by rewrite (rs_timers _ _ Hr).
  - by apply (rs_loops _ _ Hr).
  - by eapply late_step_managers.
  - by eapply late_step_tasks.
  - split; [by etransitivity | exact Hm].
Qed.

(** C8: Unmounting leaves nothing behind that acts by itself. From any reachable
    state, once the cleanups of the effects have run, and whatever answers and
    browser events come in afterwards, no timeout of the hook is armed, no polling
    loop goes on, every transport manager is stopped, no inspection starts, and the
    refreshes and inspections that were under way are aborted. Requests of actions
    are not aborted: as long as none of them is answered nothing is requested or
    notified and the data do not change; an answer can start refreshes, and these
    are the only ones that are not aborted. *)
Theorem unmount_leaves_nothing o s s' :
  hook_reachable s -> valid_env (transport_env o) ->
  let s0 := unmount o s in
  (rtc (late_step true) s0 s' ->
   St.timers s' = ∅ /\
   (forall id l, St.loops s' !! id = Some l -> cancelled l = true) /\
   (forall id m, St.managers s' !! id = Some m -> manager_stopped m = true) /\
   (forall i t, (i, t) ∈ St.refreshTasks s0 -> signal_aborted (St.pool s') (refresh_controller t) = true) /\
   (forall i t, (i, t) ∈ St.refreshTasks s' ->
      (i, t) ∈ St.refreshTasks s0 \/ (St.next s0 <= i)%nat) /\
   (forall i t, (i, t) ∈ St.inspectionTasks s' ->
      (i, t) ∈ St.inspectionTasks s0 /\ signal_aborted (St.pool s') (inspection_controller t) = true)) /\
  (rtc (late_step false) s0 s' ->
   (forall t, t ∈ St.refreshTasks s' -> t ∈ St.refreshTasks s0) /\
   (forall r, is_Some (requests (St.pool s') !! r) -> is_Some (requests (St.pool s0) !! r)) /\
   St.notified s' = St.notified s0 /\
   Hook.consoleData (St.hook s') = Hook.consoleData (St.hook s0)).
Proof.
  intros Hr Hv. cbn zeta. pose proof (unmount_is_quiet o s Hv Hr) as Hq. split; intros Hst.
  - destruct (late_steps_rest true _ _ Hq Hst) as [[R1 R2 R3 R4 _ R6] Hm].
    destruct Hq as [H1q H2q _ _ H4q H5q]. split_and!; try done.
    + by rewrite R1.
    + by apply R6.
    + intros id m Hid. by eapply (mg_stopped _ _ _ Hm id).
    + intros i t Hi. apply R4. by apply (H4q i).
    + intros i t Hi%R3. split; [done |]. apply R4. by apply (H5q i).
  - destruct (late_steps_wind_down _ _ Hq Hst). split_and!; auto.
Qed.
End Unmount.

(** A component that unmounts while its first refresh, an inspection, a polling
    loop and a manager are under way; a request is then answered, and so is the
    request of an action. *)
Import LiveTasks.Sample.

Definition left_behind : St := unmount at_start superseded.

Definition rejected_late : St :=
  default left_behind (perform at_start (Network 1 (FetchRejects abort_error)) left_behind).

Definition answered_late : St :=
  default left_behind (perform at_start (HandleRequest 1) rejected_late).

Definition refreshed_late : St :=
  default left_behind (perform at_start (RefreshConsoleCall true true) answered_late).

Lemma answered_late_steps answers : rtc (late_step answers) left_behind answered_late.
Proof.
  eapply rtc_l; [| apply rtc_once].
  - apply (late_step_perform answers at_start (Network 1 (FetchRejects abort_error)) _ rejected_late);
      [apply at_start_valid | done |]. apply is_some_default. by vm_compute.
  - apply (late_step_perform answers at_start (HandleRequest 1)); [apply at_start_valid | done |].
    apply is_some_default. by vm_compute.
Qed.

(** The late refresh has made its requests under a controller that stays open. *)
Lemma unmount_leaves_nothing_witness :
  length (St.refreshTasks superseded) = 2%nat /\ size (St.timers superseded) = 1%nat /\
  length (St.refreshTasks answered_late) = 0%nat /\
  Hook.consoleData (St.hook answered_late) = Hook.consoleData (St.hook left_behind) /\
  List.map (fun t => signal_aborted (St.pool refreshed_late) (refresh_controller (snd t)))
    (St.refreshTasks refreshed_late) = [false] /\
  St.timers refreshed_late = ∅.
Proof.
  destruct (unmount_leaves_nothing at_start superseded answered_late superseded_reachable at_start_valid)
    as [_ Hno]. destruct (Hno (answered_late_steps false)) as (_ & _ & _ & Hd).
  destruct (unmount_leaves_nothing at_start superseded refreshed_late superseded_reachable at_start_valid)
    as [Hyes _]. destruct Hyes as [Ht _].
  - eapply rtc_r; [apply answered_late_steps |].
    apply (late_step_perform true at_start (RefreshConsoleCall true true));
      [apply at_start_valid | done |]. apply is_some_default. by vm_compute.
  - split_and!; [vm_compute; reflexivity | vm_compute; reflexivity | vm_compute; reflexivity | exact Hd
      | vm_compute; reflexivity | exact Ht].
Defined.
