(* ===== verification/ConsoleViews.v ===== *)
(** What [src/components/OpsConsole.tsx] derives from the console data for its
    sections: the summaries of queues and workers, the filtered and sorted lists,
    and the texts of the status strip. *)

From stdpp Require Import base list strings gmap sorting.
From Stdlib Require Import ZArith Lia Bool Ascii.
From S2P Require Import Prelude JsString JsNum JsDate JsSort JsValue Models Safe ConsoleState.

#[local] Open Scope Z_scope.

(** * Records of the views *)

Module QueueView.
Record QueueView := mk {
  queueName : string;
  control : option QueueControl;
  activeJobs : num;
  queuedJobs : num;
  backlog : num;
  throttled : num;
  blocked : num;
  deadLetters : num;
  saturation : num;
  policies : list RateLimitStatus
}.
End QueueView.
Notation QueueView := QueueView.QueueView.

(** [{ ...health, ... }]: [version] is the status's when there is one. *)
Module WorkerView.
Record WorkerView := mk {
  health : WorkerLeaseHealth;
  concurrency : num;
  version : string;
  effectiveStatus : string;
  throughput : num;
  saturation : num
}.
End WorkerView.
Notation WorkerView := WorkerView.WorkerView.

(** * Summaries *)

(** The counters of one queue; exact numbers, kept as [Z]. *)
Record QueueCounts := mkQueueCounts {
  q_active : Z;
  q_queued : Z;
  q_throttled : Z;
  q_blocked : Z;
  q_completed : Z
}.

Definition no_queue_counts : QueueCounts := mkQueueCounts 0 0 0 0 0.

Definition count_in_queue (job : Job) (q : QueueCounts) : QueueCounts :=
  mkQueueCounts
    (q_active q + b2z (in_state active job))
    (q_queued q + b2z (waiting job))
    (q_throttled q + b2z (in_state throttled job))
    (q_blocked q + b2z (in_state blocked job))
    (q_completed q + b2z (in_state completed job)).

Record QueueJobSummary := mkQueueJobSummary {
  byQueue : gmap string QueueCounts;
  completedByWorker : gmap string Z
}.

(** The body of the loop: a job of a queue that is not one of [QUEUES] is not
    counted there. *)
Definition summarize_job (s : QueueJobSummary) (job : Job) : QueueJobSummary :=
  mkQueueJobSummary
    (alter (count_in_queue job) (Job.queue job) (byQueue s))
    (match Job.workerId job with
     | Some workerId =>
         if truthy workerId && in_state completed job
         then <[workerId := default 0 (completedByWorker s !! workerId) + 1]> (completedByWorker s)
         else completedByWorker s
     | None => completedByWorker s
     end).

Definition queueJobSummary (jobs : list Job) : QueueJobSummary :=
  foldl summarize_job
    (mkQueueJobSummary (list_to_map (List.map (fun q => (q, no_queue_counts)) QUEUES)) ∅) jobs.

Definition deadLetterCountsByQueue (deadLetters : list DeadLetter) : gmap string Z :=
  foldl (fun result item =>
    <[DeadLetter.queue item := default 0 (result !! DeadLetter.queue item) + 1]> result)
    ∅ deadLetters.

Definition queuePoliciesByQueue (rateLimits : list RateLimitStatus)
  : gmap string (list RateLimitStatus) :=
  foldl (fun result item =>
    let policy := RateLimitStatus.policy item in
    let scopeValue := opt_default (RateLimitPolicy.scopeValue policy) "" in
    if String.eqb (RateLimitPolicy.scope policy) "queue" && truthy scopeValue
    then <[scopeValue := default [] (result !! scopeValue) ++ [item]]> result
    else result) ∅ rateLimits.

Definition workerStatusesById (statuses : list WorkerStatus) : gmap string WorkerStatus :=
  foldl (fun result item => <[WorkerStatus.workerId item := item]> result) ∅ statuses.

(** * Queues and workers *)

Definition queue_saturation (policies : list RateLimitStatus) (activeJobs : Z) : num :=
  num_min (num_of_Z 100)
    (match policies with
     | first :: _ =>
         num_mul
           (num_div (RateLimitStatus.activeCount first)
              (num_max (RateLimitPolicy.limit (RateLimitStatus.policy first)) (num_of_Z 1)))
           (num_of_Z 100)
     | [] => num_mul (num_of_Z activeJobs) (num_of_Z 16)
     end).

Definition queue_view (data : ConsoleData) (queueName : string) : QueueView :=
  let snapshot := ConsoleData.snapshot data in
  let summary := byQueue (queueJobSummary (ConsoleData.jobs data)) !! queueName in
  let counter (f : QueueCounts -> Z) := match summary with Some q => f q | None => 0 end in
  let policies :=
    default [] (queuePoliciesByQueue (DashboardSnapshot.rateLimits snapshot) !! queueName) in
  {| QueueView.queueName := queueName;
     QueueView.control := ConsoleData.queueControls data !! queueName;
     QueueView.activeJobs := num_of_Z (counter q_active);
     QueueView.queuedJobs := num_of_Z (counter q_queued);
     QueueView.backlog :=
       default (num_of_Z 0) (Overview.queueLengths (DashboardSnapshot.overview snapshot) !! queueName);
     QueueView.throttled := num_of_Z (counter q_throttled);
     QueueView.blocked := num_of_Z (counter q_blocked);
     QueueView.deadLetters :=
       num_of_Z (default 0
         (deadLetterCountsByQueue (DashboardSnapshot.deadLetters snapshot) !! queueName));
     QueueView.saturation := queue_saturation policies (counter q_active);
     QueueView.policies := policies |}.

Definition queueViews (data : ConsoleData) : list QueueView := List.map (queue_view data) QUEUES.

Definition worker_view (data : ConsoleData) (health : WorkerLeaseHealth) : WorkerView :=
  let workerId := WorkerLeaseHealth.workerId health in
  let status := workerStatusesById (ConsoleData.workerStatuses data) !! workerId in
  let cordoned :=
    match ConsoleData.workerControls data !! workerId with
    | Some control => WorkerControl.cordoned control
    | None => false
    end in
  let concurrency := match status with Some s => WorkerStatus.concurrency s | None => num_of_Z 0 end in
  {| WorkerView.health := health;
     WorkerView.concurrency := concurrency;
     WorkerView.version :=
       match status with Some s => WorkerStatus.version s | None => WorkerLeaseHealth.version health end;
     WorkerView.effectiveStatus :=
       if cordoned then "maintenance"
       else or_else (match status with Some s => WorkerStatus.status s | None => "" end)
              (WorkerLeaseHealth.status health);
     WorkerView.throughput :=
       num_of_Z (default 0
         (completedByWorker (queueJobSummary (ConsoleData.jobs data)) !! workerId));
     WorkerView.saturation :=
       if num_truthy concurrency
       then num_min
              (num_mul (num_div (WorkerLeaseHealth.activeLeaseCount health) concurrency) (num_of_Z 100))
              (num_of_Z 100)
       else num_of_Z 0 |}.

Definition workerViews (data : ConsoleData) : list WorkerView :=
  List.map (worker_view data) (DashboardSnapshot.workers (ConsoleData.snapshot data)).

(** * Filters *)

Record JobFilters := mkJobFilters {
  f_state : string;
  f_queue : string;
  f_sort : string;
  f_tenant : string
}.

Record DeadLetterFilters := mkDeadLetterFilters {
  d_queue : string;
  d_errorType : string;
  d_search : string
}.

(** [{ ...current, ...next }] of the properties that [next] has. *)
Definition handleJobFiltersChange (state queue sort tenant : option string) (current : JobFilters)
  : JobFilters :=
  mkJobFilters (opt_default state (f_state current)) (opt_default queue (f_queue current))
    (opt_default sort (f_sort current)) (opt_default tenant (f_tenant current)).

Definition handleDeadLetterFiltersChange (queue errorType search : option string)
    (current : DeadLetterFilters) : DeadLetterFilters :=
  mkDeadLetterFilters (opt_default queue (d_queue current))
    (opt_default errorType (d_errorType current)) (opt_default search (d_search current)).

(** [safeTrim(value).toLowerCase()] of a value that may be missing. *)
Definition normalized (value : option string) : string := to_lower (trim (opt_default value "")).

(** [values.some((value) => safeTrim(value).toLowerCase().includes(search))] *)
Definition some_includes (values : list (option string)) (search : string) : bool :=
  existsb (fun value => includes (normalized value) search) values.

(** [choice === "all" || value === choice] *)
Definition chosen (choice value : string) : bool :=
  String.eqb choice "all" || String.eqb value choice.

Section Views.
Context `{DateHost}.

Definition job_matches (filters : JobFilters) (search : string) (job : Job) : bool :=
  let tenantFilter := normalized (Some (f_tenant filters)) in
  chosen (f_state filters) (state_name (Job.state job)) &&
  chosen (f_queue filters) (Job.queue job) &&
  (negb (truthy tenantFilter) || includes (to_lower (Job.tenantId job)) tenantFilter) &&
  (negb (truthy search) ||
   some_includes
     [Some (Job.type job); Some (Job.id job); Some (Job.queue job); Some (Job.tenantId job);
      Job.workflowId job; Job.idempotencyKey job] search).

Definition created_time (job : Job) : option Z := date_parse (Job.createdAt job).

(** The comparator of the chosen order. *)
Definition compare_jobs (sort : string) (left right : Job) : comparison :=
  if String.eqb sort "priority" then compare_diff (Job.priority right) (Job.priority left)
  else if String.eqb sort "created" then newest_first created_time left right
  else if String.eqb sort "latency" then compare_diff (Job.executionMs right) (Job.executionMs left)
  else newest_first job_time left right.

Definition visibleJobs (filters : JobFilters) (search : string) (data : ConsoleData) : list Job :=
  sort_by (compare_jobs (f_sort filters))
    (List.filter (job_matches filters search) (ConsoleData.jobs data)).

Definition dead_letter_matches (filters : DeadLetterFilters) (item : DeadLetter) : bool :=
  let search := normalized (Some (d_search filters)) in
  chosen (d_queue filters) (DeadLetter.queue item) &&
  chosen (d_errorType filters) (trim (opt_default (DeadLetter.errorType item) "")) &&
  (negb (truthy search) ||
   some_includes
     [match DeadLetter.job item with Some job => Some (Job.type job) | None => None end;
      Some (DeadLetter.jobId item); DeadLetter.errorType item; Some (DeadLetter.errorMessage item);
      Some (DeadLetter.queue item)] search).

Definition visibleDeadLetters (filters : DeadLetterFilters) (data : ConsoleData) : list DeadLetter :=
  List.filter (dead_letter_matches filters) (DashboardSnapshot.deadLetters (ConsoleData.snapshot data)).

Definition visibleWorkers (workerFilter : string) (data : ConsoleData) : list WorkerView :=
  let query := normalized (Some workerFilter) in
  List.filter (fun worker =>
    let health := WorkerView.health worker in
    negb (truthy query) ||
    some_includes
      [Some (WorkerLeaseHealth.workerId health); Some (WorkerLeaseHealth.hostname health);
       Some (WorkerView.effectiveStatus worker); Some (join " " (WorkerLeaseHealth.queues health))]
      query) (workerViews data).

Definition visibleSchedules (scheduleFilter : string) (data : ConsoleData) : list Schedule :=
  let query := normalized (Some scheduleFilter) in
  List.filter (fun schedule =>
    negb (truthy query) ||
    some_includes
      [Some (Schedule.name schedule); Some (Schedule.type schedule); Some (Schedule.queue schedule);
       Some (Schedule.cronExpression schedule)] query) (ConsoleData.schedules data).

Definition visibleEvents (eventFilter searchQuery : string) (data : ConsoleData) : list SystemEvent :=
  let search := normalized (Some (or_else eventFilter searchQuery)) in
  List.filter (fun item =>
    negb (truthy search) ||
    some_includes
      [Some (SystemEvent.kind item); SystemEvent.message item; SystemEvent.jobId item;
       SystemEvent.queue item; SystemEvent.workerId item] search) (ConsoleData.events data).
End Views.

(** * Status texts *)

Definition leaderHealthy (data : ConsoleData) : bool :=
  let leader := DashboardSnapshot.leader (ConsoleData.snapshot data) in
  opt_truthy (SchedulerLeaderStatus.schedulerId leader) &&
  default false (SchedulerLeaderStatus.isLeaderHealthy leader).

Definition liveStatusDetail (liveMode liveUpdates hasLiveData : bool) (health : LiveHealth)
    (transportMode : TransportMode) (transportLabel : string) : string :=
  let is_health h := bool_decide (health = h) in
  let is_mode m := bool_decide (transportMode = m) in
  if negb liveMode then "Demo data only"
  else if is_health health_offline then
    if hasLiveData
    then "The dashboard is holding the last good snapshot while the API is unreachable."
    else "The dashboard has not received a live snapshot yet."
  else if is_health health_paused then "Realtime transport is paused and polling is disabled."
  else if is_health health_reconnecting then
    "Realtime transport is recovering while " +:+ to_lower transportLabel +:+ " protects the dashboard."
  else if is_mode mode_websocket then "WebSocket is the active live transport."
  else if is_mode mode_sse then "SSE is carrying the live event stream."
  else if is_mode mode_polling then
    if liveUpdates
    then "Realtime transport is degraded, so the dashboard is running in polling mode."
    else "Polling is active without realtime streaming."
  else if is_health health_degraded then
    "The dashboard is degraded but stable, with stale-while-revalidate enabled."
  else "Live updates are healthy.".

(** One entry of the status strip. *)
Record StatusItem := mkStatusItem { label : string; value : string; detail : string }.

(** [lastSuccessfulAt] and the rest are those of [liveMeta]. *)
Definition commandStatusItems `{DateHost} (now : Z) (data : ConsoleData) (lastSuccessfulAt : string)
    (dataStale : bool) (transportLabel connectionState : string) : list StatusItem :=
  let snapshot := ConsoleData.snapshot data in
  let overview := DashboardSnapshot.overview snapshot in
  [mkStatusItem "Snapshot"
     (formatRelative now (Some (or_else lastSuccessfulAt (Overview.lastUpdatedAt overview))))
     (if dataStale then "holding the last steady view" else "fresh");
   mkStatusItem "Transport" transportLabel connectionState;
   mkStatusItem "Leader" (if leaderHealthy data then "healthy" else "stale")
     (opt_or_else (SchedulerLeaderStatus.schedulerId (DashboardSnapshot.leader snapshot))
        "no leader lease");
   mkStatusItem "Queue backlog"
     (num_to_string (num_add (Overview.queuedJobs overview) (Overview.scheduledJobs overview)))
     (num_to_string (Overview.activeJobs overview) +:+ " active")].

(** * Lemmas *)

(** Numbers that a field shows in whole units. *)
Definition whole (x : num) : Prop := exists z, 0 <= z < 2 ^ 53 /\ x = num_of_Z z.

(** A comparator [right - left] of whole numbers. *)
Lemma descending_consistent {A} (f : A -> num) :
  Consistent (fun x y => compare_diff (f y) (f x)) (fun x => whole (f x)).
Proof.
  assert (forall x y a b, 0 <= a < 2 ^ 53 -> 0 <= b < 2 ^ 53 -> f x = num_of_Z a -> f y = num_of_Z b ->
    compare_diff (f y) (f x) = (b ?= a)) as Hcmp.
  { intros x y a b Ha Hb Hx Hy. rewrite Hx, Hy. apply compare_diff_int; unfold safe_int; lia. }
  split.
  - intros x y (a & Ha & Hx) (b & Hb & Hy).
    rewrite (Hcmp x y a b), (Hcmp y x b a) by done. apply Z.compare_antisym.
  - intros x y z (a & Ha & Hx) (b & Hb & Hy) (c & Hc & Hz). unfold before.
    rewrite (Hcmp x y a b), (Hcmp y z b c), (Hcmp x z a c) by done.
    rewrite !Z.compare_le_iff. lia.
Qed.

(** The counters of a queue count its jobs. *)
Definition in_queue (queue : string) (p : Job -> bool) (job : Job) : bool :=
  String.eqb (Job.queue job) queue && p job.

Lemma queue_counters queue jobs s q :
  byQueue s !! queue = Some q ->
  exists q', byQueue (foldl summarize_job s jobs) !! queue = Some q' /\
    forall f p, (forall job q, f (count_in_queue job q) = f q + b2z (p job)) ->
      f q' = f q + Z.of_nat (count (in_queue queue p) jobs).
Proof.
  revert s q. induction jobs as [| job jobs IH]; intros s q Hq; cbn [foldl].
  { exists q. split; [done |]. intros f p _. cbn. lia. }
  assert (byQueue (summarize_job s job) !! queue =
          Some (if String.eqb (Job.queue job) queue then count_in_queue job q else q)) as Hq'.
  { cbn. destruct (String.eqb_spec (Job.queue job) queue) as [-> | Hne];
      [by rewrite lookup_alter_eq, Hq | by rewrite lookup_alter_ne]. }
  destruct (IH _ _ Hq') as (q' & Hl & Hf). exists q'. split; [done |].
  intros f p Hfp. rewrite (Hf f p Hfp), count_cons. unfold in_queue at 2.
  destruct (String.eqb (Job.queue job) queue); cbn [andb]; [rewrite Hfp |];
    destruct (p job); cbn [b2z]; lia.
Qed.

Lemma summary_counts jobs queue f p :
  queue ∈ QUEUES -> (forall job q, f (count_in_queue job q) = f q + b2z (p job)) ->
  match byQueue (queueJobSummary jobs) !! queue with Some q => f q | None => 0 end =
  f no_queue_counts + Z.of_nat (count (in_queue queue p) jobs).
Proof.
  intros Hin Hf.
  destruct (queue_counters queue jobs
    (mkQueueJobSummary (list_to_map (List.map (fun q => (q, no_queue_counts)) QUEUES)) ∅)
    no_queue_counts) as (q' & Hq & Hc).
  - unfold QUEUES in Hin. rewrite !elem_of_cons in Hin.
    destruct Hin as [-> | [-> | [-> | Hin]]]; [done.. | by apply elem_of_nil in Hin].
  - unfold queueJobSummary. rewrite Hq. by apply Hc.
Qed.

Lemma worker_completed workerId jobs s :
  truthy workerId = true ->
  default 0 (completedByWorker (foldl summarize_job s jobs) !! workerId) =
  default 0 (completedByWorker s !! workerId) +
  Z.of_nat (count (fun job => bool_decide (Job.workerId job = Some workerId) && in_state completed job) jobs).
Proof.
  intros Ht. revert s. induction jobs as [| job jobs IH]; intros s; cbn [foldl]; [cbn; lia |].
  rewrite IH, count_cons. cbn [completedByWorker summarize_job].
  destruct (Job.workerId job) as [w |] eqn:Ew.
  2: { rewrite bool_decide_eq_false_2 by done. cbn [andb]. lia. }
  destruct (decide (w = workerId)) as [-> | Hne].
  - rewrite Ht, bool_decide_eq_true_2 by done. cbn [andb].
    destruct (in_state completed job); [rewrite lookup_insert_eq; cbn; lia | lia].
  - rewrite bool_decide_eq_false_2 by congruence. cbn [andb].
    destruct (_ && _); [rewrite lookup_insert_ne by done |]; lia.
Qed.

Lemma dead_letter_counts queue l (m : gmap string Z) :
  default 0 (foldl (fun result item =>
    <[DeadLetter.queue item := default 0 (result !! DeadLetter.queue item) + 1]> result) m l !! queue) =
  default 0 (m !! queue) +
  Z.of_nat (count (fun item => String.eqb (DeadLetter.queue item) queue) l).
Proof.
  revert m. induction l as [| item l IH]; intros m; cbn [foldl]; [cbn; lia |].
  rewrite IH, count_cons. destruct (String.eqb_spec (DeadLetter.queue item) queue) as [-> | Hne].
  - rewrite lookup_insert_eq. cbn. lia.
  - rewrite lookup_insert_ne by done. lia.
Qed.

Definition queue_policy (queue : string) (item : RateLimitStatus) : bool :=
  let policy := RateLimitStatus.policy item in
  String.eqb (RateLimitPolicy.scope policy) "queue" &&
  String.eqb (opt_default (RateLimitPolicy.scopeValue policy) "") queue.

Lemma queue_policies queue l :
  truthy queue = true -> default [] (queuePoliciesByQueue l !! queue) = List.filter (queue_policy queue) l.
Proof.
  intros Ht. unfold queuePoliciesByQueue. cbn zeta.
  match goal with |- default [] (foldl ?f ∅ l !! queue) = _ =>
    assert (forall m, default [] (foldl f m l !! queue) =
      default [] (m !! queue) ++ List.filter (queue_policy queue) l) as Hf end.
  { induction l as [| item l IH]; intros m; cbn [foldl List.filter]; [by rewrite app_nil_r |].
    rewrite IH. unfold queue_policy at 2.
    set (value := opt_default (RateLimitPolicy.scopeValue (RateLimitStatus.policy item)) "").
    destruct (String.eqb _ "queue"); cbn [andb]; [| done].
    destruct (String.eqb_spec value queue) as [-> | Hne].
    - rewrite Ht, lookup_insert_eq. cbn. by rewrite <- app_assoc.
    - destruct (truthy value); [by rewrite lookup_insert_ne | done]. }
  by rewrite Hf, lookup_empty.
Qed.

(** * Properties *)

Section Properties.
Context `{DateHost}.

(** Jobs that the chosen order can rank. *)
Definition rankable (sort : string) (job : Job) : Prop :=
  if String.eqb sort "priority" then whole (Job.priority job)
  else if String.eqb sort "created" then is_Some (created_time job)
  else if String.eqb sort "latency" then whole (Job.executionMs job)
  else is_Some (job_time job).

#[local] Instance compare_jobs_consistent sort : Consistent (compare_jobs sort) (rankable sort).
Proof.
  assert (forall c P, Consistent c P -> compare_jobs sort = c -> rankable sort = P ->
    Consistent (compare_jobs sort) (rankable sort)) as HC by (intros c P HC -> ->; exact HC).
  unfold compare_jobs, rankable in *.
  destruct (String.eqb sort "priority"); [eapply HC; [apply (descending_consistent Job.priority) | done | done] |].
  destruct (String.eqb sort "created"); [eapply HC; [apply (newest_first_consistent created_time) | done | done] |].
  destruct (String.eqb sort "latency"); [eapply HC; [apply (descending_consistent Job.executionMs) | done | done] |].
  eapply HC; [apply (newest_first_consistent job_time) | done | done].
Qed.

(** C28: The jobs table shows exactly the jobs that pass every chosen filter -
    state, queue, tenant and search - and no other, each as often as the data
    have it; when the chosen order ranks them they come in that order, and jobs
    of equal rank stay in the order of the data; without filters every job is
    shown. *)
Theorem visibleJobs_exact filters search data :
  visibleJobs filters search data ≡ₚ
    List.filter (job_matches filters search) (ConsoleData.jobs data) /\
  (forall job, job ∈ visibleJobs filters search data <->
     job ∈ ConsoleData.jobs data /\
     (f_state filters = "all" \/ state_name (Job.state job) = f_state filters) /\
     (f_queue filters = "all" \/ Job.queue job = f_queue filters) /\
     (normalized (Some (f_tenant filters)) = "" \/
      includes (to_lower (Job.tenantId job)) (normalized (Some (f_tenant filters))) = true) /\
     (search = "" \/ exists value,
        value ∈ [Some (Job.type job); Some (Job.id job); Some (Job.queue job); Some (Job.tenantId job);
                 Job.workflowId job; Job.idempotencyKey job] /\
        includes (normalized value) search = true)) /\
  (Forall (rankable (f_sort filters)) (ConsoleData.jobs data) ->
     StronglySorted (before (compare_jobs (f_sort filters))) (visibleJobs filters search data) /\
     forall job, rankable (f_sort filters) job ->
       List.filter (same_rank (compare_jobs (f_sort filters)) job) (visibleJobs filters search data) =
       List.filter (same_rank (compare_jobs (f_sort filters)) job)
         (List.filter (job_matches filters search) (ConsoleData.jobs data))).
Proof.
  unfold visibleJobs. split_and!; [apply sort_by_perm | |].
  - intros job. rewrite sort_by_perm, list_elem_of_In, List.filter_In, <- list_elem_of_In.
    apply and_iff_compat_l. unfold job_matches, chosen, some_includes, truthy.
    rewrite !andb_true_iff, !orb_true_iff, !negb_true_iff, !negb_false_iff, !String.eqb_eq, existsb_exists.
    setoid_rewrite <- list_elem_of_In. tauto.
  - intros Hr. assert (Forall (rankable (f_sort filters))
      (List.filter (job_matches filters search) (ConsoleData.jobs data))) as Hr'.
    { rewrite List.Forall_forall in *. intros job [Hin _]%List.filter_In. by apply Hr. }
    split; [by apply (sort_by_sorted _ (rankable (f_sort filters))) |].
    intros job Hj. by apply (sort_by_stable _ (rankable (f_sort filters))).
Qed.

(** The queue and worker views count what the data hold: there is one view
    per known queue, whose counters are the numbers of its jobs in each group of
    states, of its dead letters and its rate-limit policies, and after a
    reconciliation its backlog is the number of jobs it shows as queued; there is
    one view per worker lease, in their order, whose throughput is the number of
    jobs it completed, and which is under maintenance exactly when an operator
    cordoned it or its own status says so. *)
Theorem views_count data :
  List.map QueueView.queueName (queueViews data) = QUEUES /\
  (forall v, v ∈ queueViews data ->
     let queue := QueueView.queueName v in
     let n p := num_of_nat (count (in_queue queue p) (ConsoleData.jobs data)) in
     QueueView.activeJobs v = n (in_state active) /\ QueueView.queuedJobs v = n waiting /\
     QueueView.throttled v = n (in_state throttled) /\ QueueView.blocked v = n (in_state blocked) /\
     QueueView.deadLetters v =
       num_of_nat (count (fun item => String.eqb (DeadLetter.queue item) queue)
         (DashboardSnapshot.deadLetters (ConsoleData.snapshot data))) /\
     QueueView.policies v =
       List.filter (queue_policy queue) (DashboardSnapshot.rateLimits (ConsoleData.snapshot data))) /\
  (forall now v, v ∈ queueViews (reconcileConsoleData now data) ->
     QueueView.backlog v = QueueView.queuedJobs v) /\
  List.map WorkerView.health (workerViews data) = DashboardSnapshot.workers (ConsoleData.snapshot data) /\
  (forall w, w ∈ workerViews data ->
     let workerId := WorkerLeaseHealth.workerId (WorkerView.health w) in
     let cordoned := exists c, ConsoleData.workerControls data !! workerId = Some c /\
       WorkerControl.cordoned c = true in
     (truthy workerId = true ->
        WorkerView.throughput w =
          num_of_nat (count (fun job => bool_decide (Job.workerId job = Some workerId) &&
            in_state completed job) (ConsoleData.jobs data))) /\
     (cordoned -> WorkerView.effectiveStatus w = "maintenance") /\
     (~ cordoned -> WorkerView.effectiveStatus w =
        or_else (match workerStatusesById (ConsoleData.workerStatuses data) !! workerId with
                 | Some s => WorkerStatus.status s | None => "" end)
          (WorkerLeaseHealth.status (WorkerView.health w)))).
Proof.
  assert (forall data v, v ∈ queueViews data -> exists queue, queue ∈ QUEUES /\ v = queue_view data queue) as Hv.
  { intros d v. unfold queueViews. rewrite list_elem_of_In, List.in_map_iff.
    intros (queue & <- & Hin). exists queue. by rewrite list_elem_of_In. }
  assert (forall jobs queue f p, queue ∈ QUEUES ->
    (forall job q, f (count_in_queue job q) = f q + b2z (p job)) -> f no_queue_counts = 0 ->
    num_of_Z (match byQueue (queueJobSummary jobs) !! queue with Some q => f q | None => 0 end) =
    num_of_nat (count (in_queue queue p) jobs)) as Hc.
  { intros jobs queue f p Hin Hf H0. by rewrite (summary_counts jobs queue f p Hin Hf), H0. }
  split_and!.
  - unfold queueViews. rewrite List.map_map. apply List.map_id.
  - intros v (queue & Hin & ->)%Hv. cbn.
    split_and!; try (apply Hc; [done | | done]; intros job q; done).
    + unfold deadLetterCountsByQueue. rewrite dead_letter_counts, lookup_empty. done.
    + apply queue_policies. unfold QUEUES in Hin. set_solver.
  - intros now v (queue & Hin & ->)%Hv. cbn [QueueView.backlog QueueView.queuedJobs queue_view].
    rewrite (Hc _ queue q_queued waiting Hin) by done.
    cbn [reconcileConsoleData ConsoleData.snapshot DashboardSnapshot.overview ConsoleData.jobs
      summarizeJobs Overview.queueLengths].
    rewrite lookup_fmap, queue_lengths_spec, decide_True by (by left). done.
  - unfold workerViews. rewrite List.map_map. apply List.map_id.
  - intros w. unfold workerViews. rewrite list_elem_of_In, List.in_map_iff. intros (health & <- & _).
    cbn [WorkerView.throughput WorkerView.effectiveStatus WorkerView.health worker_view]. split_and!.
    + intros Ht. unfold queueJobSummary. rewrite worker_completed by done. done.
    + intros (c & -> & ->). done.
    + intros Hn. destruct (ConsoleData.workerControls data !! _) as [c |] eqn:Ec; [| done].
      destruct (WorkerControl.cordoned c) eqn:Ecc; [| done]. destruct Hn. eauto.
Qed.
End Properties.

(** * Witnesses *)

#[local] Existing Instance utc_host.

Definition sample_filters : JobFilters := mkJobFilters "all" "default" "updated" " Default".

Lemma visibleJobs_exact_witness :
  sample_job ∈ visibleJobs sample_filters "email" sample_data /\
  StronglySorted (before (compare_jobs "updated")) (visibleJobs sample_filters "email" sample_data).
Proof.
  destruct (visibleJobs_exact sample_filters "email" sample_data) as (Hp & _ & Hsorted). split.
  - rewrite Hp. vm_compute. left.
  - apply Hsorted. repeat constructor. vm_compute. by eexists.
Defined.

Lemma views_count_witness :
  exists v, v ∈ queueViews (reconcileConsoleData 0 sample_data) /\
    QueueView.queueName v = "default" /\ QueueView.backlog v = QueueView.queuedJobs v.
Proof.
  exists (queue_view (reconcileConsoleData 0 sample_data) "default").
  split; [right; left |]. split; [reflexivity |].
  apply (proj1 (proj2 (proj2 (views_count sample_data))) 0). right. left.
Defined.
