(* ===== verification/ConsoleForms.v ===== *)
(** The forms of [src/components/OpsConsole.tsx]: the drafts of jobs and
    schedules, their validation, and the bodies the console sends. *)

From stdpp Require Import base list strings gmap.
From Stdlib Require Import ZArith Lia Bool Ascii.
From S2P Require Import Prelude JsString JsNum JsDate JsValue Models Safe.

#[local] Open Scope js_scope.

Definition line_break : string := String (ascii_of_nat 10) EmptyString.

(** A JSON text as the source writes it over several lines. *)
Definition quoted (s : string) : string := quote s.

Definition defaultJobDraft : JobDraft :=
  {| JobDraft.type := "email.send";
     JobDraft.queue := "default";
     JobDraft.tenantId := "tenant-a";
     JobDraft.priority := "5";
     JobDraft.maxAttempts := "5";
     JobDraft.timeoutSeconds := "45";
     JobDraft.delaySeconds := "0";
     JobDraft.scheduledAt := "";
     JobDraft.workflowId := "";
     JobDraft.dependencies := "";
     JobDraft.idempotencyKey := "";
     JobDraft.dedupeWindowSeconds := "900";
     JobDraft.payload :=
       "{" +:+ line_break +:+ "  " +:+ quoted "recipient" +:+ ": " +:+ quoted "ops@example.com" +:+ ","
       +:+ line_break +:+ "  " +:+ quoted "durationMs" +:+ ": 250" +:+ line_break +:+ "}" |}.

Definition defaultScheduleDraft : ScheduleDraft :=
  {| ScheduleDraft.name := "";
     ScheduleDraft.cronExpression := "*/15 * * * *";
     ScheduleDraft.queue := "default";
     ScheduleDraft.type := "cleanup.run";
     ScheduleDraft.priority := "5";
     ScheduleDraft.maxAttempts := "5";
     ScheduleDraft.timeoutSeconds := "60";
     ScheduleDraft.timezone := "UTC";
     ScheduleDraft.enabled := true;
     ScheduleDraft.payload :=
       "{" +:+ line_break +:+ "  " +:+ quoted "resource" +:+ ": " +:+ quoted "stale-cache"
       +:+ line_break +:+ "}" |}.

(** ** Editing a draft *)

Inductive JobField :=
  | job_type | job_queue | job_tenantId | job_priority | job_maxAttempts | job_timeoutSeconds | job_delaySeconds | job_scheduledAt | job_workflowId | job_dependencies | job_idempotencyKey | job_dedupeWindowSeconds | job_payload.

Definition job_field_name (field : JobField) : string :=
  match field with
  | job_type => "type"
  | job_queue => "queue"
  | job_tenantId => "tenantId"
  | job_priority => "priority"
  | job_maxAttempts => "maxAttempts"
  | job_timeoutSeconds => "timeoutSeconds"
  | job_delaySeconds => "delaySeconds"
  | job_scheduledAt => "scheduledAt"
  | job_workflowId => "workflowId"
  | job_dependencies => "dependencies"
  | job_idempotencyKey => "idempotencyKey"
  | job_dedupeWindowSeconds => "dedupeWindowSeconds"
  | job_payload => "payload"
  end.

(** [{ ...current, [field]: value }] *)
Definition set_job_text (field : JobField) (value : string) (draft : JobDraft) : JobDraft :=
  let '(JobDraft.mk f0 f1 f2 f3 f4 f5 f6 f7 f8 f9 f10 f11 f12) := draft in
  match field with
  | job_type => JobDraft.mk value f1 f2 f3 f4 f5 f6 f7 f8 f9 f10 f11 f12
  | job_queue => JobDraft.mk f0 value f2 f3 f4 f5 f6 f7 f8 f9 f10 f11 f12
  | job_tenantId => JobDraft.mk f0 f1 value f3 f4 f5 f6 f7 f8 f9 f10 f11 f12
  | job_priority => JobDraft.mk f0 f1 f2 value f4 f5 f6 f7 f8 f9 f10 f11 f12
  | job_maxAttempts => JobDraft.mk f0 f1 f2 f3 value f5 f6 f7 f8 f9 f10 f11 f12
  | job_timeoutSeconds => JobDraft.mk f0 f1 f2 f3 f4 value f6 f7 f8 f9 f10 f11 f12
  | job_delaySeconds => JobDraft.mk f0 f1 f2 f3 f4 f5 value f7 f8 f9 f10 f11 f12
  | job_scheduledAt => JobDraft.mk f0 f1 f2 f3 f4 f5 f6 value f8 f9 f10 f11 f12
  | job_workflowId => JobDraft.mk f0 f1 f2 f3 f4 f5 f6 f7 value f9 f10 f11 f12
  | job_dependencies => JobDraft.mk f0 f1 f2 f3 f4 f5 f6 f7 f8 value f10 f11 f12
  | job_idempotencyKey => JobDraft.mk f0 f1 f2 f3 f4 f5 f6 f7 f8 f9 value f11 f12
  | job_dedupeWindowSeconds => JobDraft.mk f0 f1 f2 f3 f4 f5 f6 f7 f8 f9 f10 value f12
  | job_payload => JobDraft.mk f0 f1 f2 f3 f4 f5 f6 f7 f8 f9 f10 f11 value
  end.

Inductive ScheduleField :=
  | schedule_name | schedule_cronExpression | schedule_queue | schedule_type | schedule_priority | schedule_maxAttempts | schedule_timeoutSeconds | schedule_timezone | schedule_payload.

Definition schedule_field_name (field : ScheduleField) : string :=
  match field with
  | schedule_name => "name"
  | schedule_cronExpression => "cronExpression"
  | schedule_queue => "queue"
  | schedule_type => "type"
  | schedule_priority => "priority"
  | schedule_maxAttempts => "maxAttempts"
  | schedule_timeoutSeconds => "timeoutSeconds"
  | schedule_timezone => "timezone"
  | schedule_payload => "payload"
  end.

(** [{ ...current, [field]: value }] *)
Definition set_schedule_text (field : ScheduleField) (value : string) (draft : ScheduleDraft) : ScheduleDraft :=
  let '(ScheduleDraft.mk f0 f1 f2 f3 f4 f5 f6 f7 f8 f9) := draft in
  match field with
  | schedule_name => ScheduleDraft.mk value f1 f2 f3 f4 f5 f6 f7 f8 f9
  | schedule_cronExpression => ScheduleDraft.mk f0 value f2 f3 f4 f5 f6 f7 f8 f9
  | schedule_queue => ScheduleDraft.mk f0 f1 value f3 f4 f5 f6 f7 f8 f9
  | schedule_type => ScheduleDraft.mk f0 f1 f2 value f4 f5 f6 f7 f8 f9
  | schedule_priority => ScheduleDraft.mk f0 f1 f2 f3 value f5 f6 f7 f8 f9
  | schedule_maxAttempts => ScheduleDraft.mk f0 f1 f2 f3 f4 value f6 f7 f8 f9
  | schedule_timeoutSeconds => ScheduleDraft.mk f0 f1 f2 f3 f4 f5 value f7 f8 f9
  | schedule_timezone => ScheduleDraft.mk f0 f1 f2 f3 f4 f5 f6 value f8 f9
  | schedule_payload => ScheduleDraft.mk f0 f1 f2 f3 f4 f5 f6 f7 f8 value
  end.

Definition set_schedule_enabled (value : bool) (draft : ScheduleDraft) : ScheduleDraft :=
  let '(ScheduleDraft.mk f0 f1 f2 f3 f4 f5 f6 f7 _ f9) := draft in
  ScheduleDraft.mk f0 f1 f2 f3 f4 f5 f6 f7 value f9.

(** [Number(text) || fallback] *)
Definition number_or (text : string) (fallback : Z) : num :=
  let value := num_of_string text in if num_truthy value then value else num_of_Z fallback.

(** [if (condition) errors\[key\] = message] *)
Definition error_if (condition : bool) (key message : string) (errors : gmap string string)
  : gmap string string :=
  if condition then <[key := message]> errors else errors.

(** [!validation.payload]: a payload that is missing or falsy. *)
Definition usable_payload (payload : option jsval) : option jsval :=
  match payload with
  | Some v => if value_truthy v then Some v else None
  | None => None
  end.

(** ** Jobs *)

Record JobValidation := {
  job_errors : gmap string string;
  checked_payload : option jsval;
  dedupeWindowSeconds : num;
  checked_dependencies : list string
}.

Section Jobs.
Context `{DateHost} `{JsonHost}.

Definition bad_schedule_time (now : Z) (scheduledAt : string) : bool :=
  truthy (trim scheduledAt) &&
  match date_parse scheduledAt with
  | None => true
  | Some scheduledTime => (scheduledTime <=? now)%Z
  end.

Definition validateJobForm (now : Z) (draft : JobDraft) : JobValidation :=
  let payloadResult := safeJsonParse (VStr (JobDraft.payload draft)) in
  let priority := num_of_string (JobDraft.priority draft) in
  {| job_errors :=
       error_if (bad_schedule_time now (JobDraft.scheduledAt draft))
         "scheduledAt" (friendlyInlineError "scheduledAt" "scheduledAt")
       (error_if (num_lt priority (num_of_Z 0) || num_gt priority (num_of_Z 9))
         "priority" "Priority must stay between 0 and 9."
       (error_if (truthy (json_error payloadResult))
         "payload" (friendlyInlineError "payload" (json_error payloadResult))
       (error_if (negb (truthy (trim (JobDraft.tenantId draft)))) "tenantId" "Tenant is required."
       (error_if (negb (truthy (trim (JobDraft.type draft)))) "type" "Job type is required." ∅))));
     checked_payload := json_value payloadResult;
     dedupeWindowSeconds :=
       clamp (number_or (JobDraft.dedupeWindowSeconds draft) 0) (num_of_Z 0) (num_of_Z 86400);
     checked_dependencies := parseDependencyIds (VStr (JobDraft.dependencies draft)) |}.

(** [requestBody] of [submitJob]. *)
Record JobRequest := {
  r_type : string;
  r_queue : string;
  r_tenantId : string;
  r_priority : num;
  r_maxAttempts : num;
  r_timeoutSeconds : num;
  r_delaySeconds : num;
  r_scheduledAt : option string;
  r_workflowId : option string;
  r_dependencies : list string;
  r_idempotencyKey : option string;
  r_dedupeWindowSeconds : num;
  r_payload : jsval
}.

(** [safeTrim(value) || undefined] *)
Definition trimmed_or_undefined (value : string) : option string :=
  if truthy (trim value) then Some (trim value) else None.

Definition jobRequest (draft : JobDraft) (validation : JobValidation) (payload : jsval)
  : result JobRequest :=
  let! scheduledAt :=
    (if truthy (trim (JobDraft.scheduledAt draft))
     then let! t := to_iso_string (date_parse (JobDraft.scheduledAt draft)) in Ok (Some t)
     else Ok None) in
  Ok {| r_type := trim (JobDraft.type draft);
        r_queue := or_else (trim (JobDraft.queue draft)) "default";
        r_tenantId := or_else (trim (JobDraft.tenantId draft)) "default";
        r_priority := clamp (number_or (JobDraft.priority draft) 5) (num_of_Z 0) (num_of_Z 9);
        r_maxAttempts := num_max (number_or (JobDraft.maxAttempts draft) 5) (num_of_Z 1);
        r_timeoutSeconds := num_max (number_or (JobDraft.timeoutSeconds draft) 0) (num_of_Z 0);
        r_delaySeconds := num_max (number_or (JobDraft.delaySeconds draft) 0) (num_of_Z 0);
        r_scheduledAt := scheduledAt;
        r_workflowId := trimmed_or_undefined (JobDraft.workflowId draft);
        r_dependencies := checked_dependencies validation;
        r_idempotencyKey := trimmed_or_undefined (JobDraft.idempotencyKey draft);
        r_dedupeWindowSeconds := dedupeWindowSeconds validation;
        r_payload := payload |}.

Definition opt_string_value (o : option string) : jsval :=
  match o with Some s => VStr s | None => VUndefined end.

(** The object, with its properties in the order of the source. *)
Definition job_request_value (r : JobRequest) : jsval :=
  let blocked := nonempty (r_dependencies r) in
  VObj
    [("type", VStr (r_type r)); ("queue", VStr (r_queue r)); ("tenantId", VStr (r_tenantId r));
     ("priority", VNum (r_priority r)); ("maxAttempts", VNum (r_maxAttempts r));
     ("timeoutSeconds", VNum (r_timeoutSeconds r)); ("delaySeconds", VNum (r_delaySeconds r));
     ("scheduledAt", opt_string_value (r_scheduledAt r)); ("schemaVersion", VNum (num_of_Z 1));
     ("workflowId", opt_string_value (r_workflowId r));
     ("dependencies",
        if blocked then VArr (List.map VStr (r_dependencies r)) else VUndefined);
     ("dependencyPolicy", if blocked then VStr "block" else VUndefined);
     ("idempotencyKey", opt_string_value (r_idempotencyKey r));
     ("dedupeWindowSeconds", VNum (r_dedupeWindowSeconds r)); ("payload", r_payload r)].

(** What [submitJob] does with the form before it starts to work: the errors it
    shows, or the request. *)
Definition checkJobForm (now : Z) (draft : JobDraft) : result (gmap string string + JobRequest) :=
  let validation := validateJobForm now draft in
  match decide (job_errors validation = ∅), usable_payload (checked_payload validation) with
  | left _, Some payload => let! r := jobRequest draft validation payload in Ok (inr r)
  | _, _ => Ok (inl (job_errors validation))
  end.
End Jobs.

(** ** Schedules *)

Definition cron_fields (cronExpression : string) : nat :=
  length (List.filter nonempty (split_runs is_space (chars (trim cronExpression)))).

Definition validateScheduleForm `{JsonHost} (draft : ScheduleDraft)
  : gmap string string * option jsval :=
  let payloadResult := safeJsonParse (VStr (ScheduleDraft.payload draft)) in
  (error_if (truthy (json_error payloadResult))
     "payload" (friendlyInlineError "payload" (json_error payloadResult))
   (error_if (negb (truthy (trim (ScheduleDraft.type draft)))) "type" "Job type is required."
   (error_if (cron_fields (ScheduleDraft.cronExpression draft) <? 5)%nat
     "cronExpression" (friendlyInlineError "cronExpression" "cronExpression")
   (error_if (negb (truthy (trim (ScheduleDraft.name draft))))
     "name" "Schedule name is required." ∅))),
   json_value payloadResult).

(** [scheduleBody] of [submitSchedule]. *)
Record ScheduleBody := {
  s_name : string;
  s_cronExpression : string;
  s_queue : string;
  s_type : string;
  s_payload : jsval;
  s_priority : num;
  s_maxAttempts : num;
  s_timeoutSeconds : num;
  s_enabled : bool;
  s_timezone : string
}.

Definition scheduleBody (draft : ScheduleDraft) (payload : jsval) : ScheduleBody :=
  {| s_name := trim (ScheduleDraft.name draft);
     s_cronExpression := trim (ScheduleDraft.cronExpression draft);
     s_queue := or_else (trim (ScheduleDraft.queue draft)) "default";
     s_type := trim (ScheduleDraft.type draft);
     s_payload := payload;
     s_priority := clamp (number_or (ScheduleDraft.priority draft) 5) (num_of_Z 0) (num_of_Z 9);
     s_maxAttempts := num_max (number_or (ScheduleDraft.maxAttempts draft) 5) (num_of_Z 1);
     s_timeoutSeconds := num_max (number_or (ScheduleDraft.timeoutSeconds draft) 0) (num_of_Z 0);
     s_enabled := ScheduleDraft.enabled draft;
     s_timezone := or_else (trim (ScheduleDraft.timezone draft)) "UTC" |}.

Definition schedule_body_value (b : ScheduleBody) : jsval :=
  VObj
    [("name", VStr (s_name b)); ("cronExpression", VStr (s_cronExpression b));
     ("queue", VStr (s_queue b)); ("type", VStr (s_type b)); ("payload", s_payload b);
     ("priority", VNum (s_priority b)); ("maxAttempts", VNum (s_maxAttempts b));
     ("timeoutSeconds", VNum (s_timeoutSeconds b)); ("enabled", VBool (s_enabled b));
     ("timezone", VStr (s_timezone b))].

Definition checkScheduleForm `{JsonHost} (draft : ScheduleDraft)
  : gmap string string + ScheduleBody :=
  let '(errors, payload) := validateScheduleForm draft in
  match decide (errors = ∅), usable_payload payload with
  | left _, Some payload => inr (scheduleBody draft payload)
  | _, _ => inl errors
  end.

(** * Lemmas *)

Lemma lookup_error_if c k m (e : gmap string string) k' :
  error_if c k m e !! k' = if c && String.eqb k k' then Some m else e !! k'.
Proof.
  unfold error_if. destruct c; [| done]. cbn [andb].
  destruct (String.eqb_spec k k') as [<- |]; [by rewrite lookup_insert_eq | by rewrite lookup_insert_ne].
Qed.

Lemma error_if_empty c k m (e : gmap string string) : error_if c k m e = ∅ <-> c = false /\ e = ∅.
Proof.
  unfold error_if. destruct c; [| naive_solver]. split; [| by intros [? _]].
  intros E. by apply insert_non_empty in E.
Qed.

Lemma number_or_not_nan text fallback :
  is_nan (num_of_Z fallback) = false -> is_nan (number_or text fallback) = false.
Proof.
  intros Hf. unfold number_or. destruct (num_truthy (num_of_string text)) eqn:E; [| done].
  by destruct (num_of_string text).
Qed.

Lemma number_max_ge text fallback lo :
  is_nan (num_of_Z fallback) = false -> is_nan (num_of_Z lo) = false ->
  num_le (num_of_Z lo) (num_max (number_or text fallback) (num_of_Z lo)) = true.
Proof. intros Hf Hl. apply num_max_ge_r; [by apply number_or_not_nan | done]. Qed.

(** The conditions under which a form passes. *)
Definition job_form_ok `{DateHost} `{JsonHost} (now : Z) (draft : JobDraft) : Prop :=
  trim (JobDraft.type draft) <> "" /\ trim (JobDraft.tenantId draft) <> "" /\
  json_error (safeJsonParse (VStr (JobDraft.payload draft))) = "" /\
  is_Some (usable_payload (json_value (safeJsonParse (VStr (JobDraft.payload draft))))) /\
  num_lt (num_of_string (JobDraft.priority draft)) (num_of_Z 0) = false /\
  num_gt (num_of_string (JobDraft.priority draft)) (num_of_Z 9) = false /\
  (trim (JobDraft.scheduledAt draft) = "" \/
   exists t, date_parse (JobDraft.scheduledAt draft) = Some t /\ (now < t)%Z).

Section Form_lemmas.
Context `{DateHost} `{JsonHost}.

Lemma bad_schedule_time_false now scheduledAt :
  bad_schedule_time now scheduledAt = false <->
  trim scheduledAt = "" \/ exists t, date_parse scheduledAt = Some t /\ (now < t)%Z.
Proof.
  unfold bad_schedule_time. rewrite andb_false_iff, truthy_false.
  destruct (date_parse scheduledAt) as [t |]; [rewrite Z.leb_gt |]; naive_solver.
Qed.

Lemma job_errors_empty now draft :
  job_errors (validateJobForm now draft) = ∅ <->
  trim (JobDraft.type draft) <> "" /\ trim (JobDraft.tenantId draft) <> "" /\
  json_error (safeJsonParse (VStr (JobDraft.payload draft))) = "" /\
  num_lt (num_of_string (JobDraft.priority draft)) (num_of_Z 0) = false /\
  num_gt (num_of_string (JobDraft.priority draft)) (num_of_Z 9) = false /\
  (trim (JobDraft.scheduledAt draft) = "" \/
   exists t, date_parse (JobDraft.scheduledAt draft) = Some t /\ (now < t)%Z).
Proof.
  unfold validateJobForm. cbn [job_errors].
  rewrite !error_if_empty, !negb_false_iff, orb_false_iff, bad_schedule_time_false, !truthy_true, truthy_false.
  tauto.
Qed.

Lemma jobRequest_total now draft payload :
  job_errors (validateJobForm now draft) = ∅ ->
  exists request, jobRequest draft (validateJobForm now draft) payload = Ok request.
Proof.
  rewrite job_errors_empty. intros (_ & _ & _ & _ & _ & Ht). unfold jobRequest.
  destruct (truthy (trim (JobDraft.scheduledAt draft))) eqn:E; [| cbn; eauto].
  apply truthy_true in E. destruct Ht as [Ht | (t & -> & _)]; [done |]. cbn. eauto.
Qed.

Lemma form_total now draft : exists checked, checkJobForm now draft = Ok checked.
Proof.
  unfold checkJobForm. cbn zeta. destruct (decide _) as [He |]; [| eauto].
  destruct (usable_payload _) as [payload |]; [| eauto].
  destruct (jobRequest_total now draft payload He) as [r ->]. cbn. eauto.
Qed.

Lemma checkJobForm_passes now draft request :
  checkJobForm now draft = Ok (inr request) ->
  job_form_ok now draft /\
  exists payload, json_value (safeJsonParse (VStr (JobDraft.payload draft))) = Some payload /\
    value_truthy payload = true /\
    jobRequest draft (validateJobForm now draft) payload = Ok request.
Proof.
  unfold checkJobForm, job_form_ok. cbn zeta.
  destruct (decide _) as [He | He]; [| done]. apply job_errors_empty in He as Hc.
  cbn [checked_payload validateJobForm].
  destruct (json_value _) as [payload |]; [| done]. cbn [usable_payload].
  destruct (value_truthy payload) eqn:Ev; [| done].
  destruct (jobRequest _ _ _) as [r |] eqn:Er; [| done]. cbn [result_bind]. intros [= ->].
  split; [naive_solver |]. by exists payload.
Qed.

Lemma checkJobForm_fails now draft errors :
  checkJobForm now draft = Ok (inl errors) -> errors = job_errors (validateJobForm now draft).
Proof.
  unfold checkJobForm. cbn zeta. destruct (decide _); [| by intros [= <-]].
  destruct (usable_payload _); [| by intros [= <-]]. by destruct (jobRequest _ _ _).
Qed.

Lemma job_error_fields now draft :
  let errors := job_errors (validateJobForm now draft) in
  (is_Some (errors !! "type") <-> trim (JobDraft.type draft) = "") /\
  (is_Some (errors !! "tenantId") <-> trim (JobDraft.tenantId draft) = "") /\
  (is_Some (errors !! "payload") <->
     json_error (safeJsonParse (VStr (JobDraft.payload draft))) <> "") /\
  (is_Some (errors !! "priority") <->
     num_lt (num_of_string (JobDraft.priority draft)) (num_of_Z 0) = true \/
     num_gt (num_of_string (JobDraft.priority draft)) (num_of_Z 9) = true) /\
  (is_Some (errors !! "scheduledAt") <->
     bad_schedule_time now (JobDraft.scheduledAt draft) = true).
Proof.
  assert (forall (b : bool) m, is_Some (if b then Some m else None : option string) <-> b = true)
    as Hb by (intros [] m; split; [done | by eexists | by intros [] | done]).
  cbn zeta. unfold validateJobForm. cbn [job_errors].
  rewrite !lookup_error_if, lookup_empty.
  cbn [String.eqb Ascii.eqb Bool.eqb]. rewrite !andb_false_r, !andb_true_r, !Hb, orb_true_iff,
    !negb_true_iff, !truthy_false, truthy_true. done.
Qed.

Lemma or_else_nonempty s t : t <> "" -> or_else s t <> "".
Proof. intros Ht. unfold or_else. destruct (truthy s) eqn:E; [by apply truthy_true | done]. Qed.

Lemma jobRequest_ranges now draft payload request :
  job_form_ok now draft -> value_truthy payload = true ->
  jobRequest draft (validateJobForm now draft) payload = Ok request ->
  num_le (num_of_Z 0) (r_priority request) = true /\
  num_le (r_priority request) (num_of_Z 9) = true /\
  num_le (num_of_Z 1) (r_maxAttempts request) = true /\
  num_le (num_of_Z 0) (r_timeoutSeconds request) = true /\
  num_le (num_of_Z 0) (r_delaySeconds request) = true /\
  num_le (num_of_Z 0) (r_dedupeWindowSeconds request) = true /\
  num_le (r_dedupeWindowSeconds request) (num_of_Z 86400) = true /\
  r_type request <> "" /\ r_queue request <> "" /\ r_tenantId request <> "" /\
  value_truthy (r_payload request) = true /\
  (forall text, r_scheduledAt request = Some text ->
     exists t, date_parse text = Some t /\ (now < t)%Z).
Proof.
  intros (Hty & Hte & _ & _ & _ & _ & Ht) Hv Hr. unfold jobRequest in Hr.
  assert (forall f fallback hi, is_nan (num_of_Z fallback) = false -> num_le (num_of_Z 0) (num_of_Z hi) = true ->
    num_le (num_of_Z 0) (clamp (number_or f fallback) (num_of_Z 0) (num_of_Z hi)) = true /\
    num_le (clamp (number_or f fallback) (num_of_Z 0) (num_of_Z hi)) (num_of_Z hi) = true) as Hclamp
    by (intros f fallback hi Hf Hhi; apply clamp_between; [by apply number_or_not_nan | done]).
  assert (r_scheduledAt request = None \/
    exists t, date_parse (JobDraft.scheduledAt draft) = Some t /\ (now < t)%Z /\
      r_scheduledAt request = Some (iso_of_time t)) as Hs.
  { destruct (truthy (trim (JobDraft.scheduledAt draft))) eqn:E.
    - apply truthy_true in E. destruct Ht as [Ht | (t & Et & Hlt)]; [done |]. right. exists t.
      rewrite Et in Hr. cbn in Hr. by injection Hr as <-.
    - cbn in Hr. injection Hr as <-. by left. }
  destruct (if truthy (trim (JobDraft.scheduledAt draft)) then _ else _) as [scheduledAt |]; [| done].
  cbn [result_bind] in Hr. injection Hr as <-.
  cbn [r_priority r_maxAttempts r_timeoutSeconds r_delaySeconds r_dedupeWindowSeconds r_type r_queue
    r_tenantId r_payload r_scheduledAt validateJobForm dedupeWindowSeconds] in *.
  destruct (Hclamp (JobDraft.priority draft) 5%Z 9%Z) as [? ?]; [done | done |].
  destruct (Hclamp (JobDraft.dedupeWindowSeconds draft) 0%Z 86400%Z) as [? ?]; [done | done |].
  split_and!; try done; try (by apply number_max_ge); try (by apply or_else_nonempty).
  intros text ->. destruct Hs as [| (t & Et & Hlt & [= ->])]; [done |]. exists t. split; [| done].
  by apply date_parse_iso, (date_parse_range (JobDraft.scheduledAt draft)).
Qed.
End Form_lemmas.

(** * Properties *)

Section Properties.
Context `{DateHost} `{JsonHost}.

(** The text holds JSON that is truthy. *)
Definition usable_text (text : string) : Prop :=
  trim text <> "" /\ exists v, json_parse (trim text) = Some v /\ value_truthy v = true.

(** The text is blank, or holds JSON that is falsy. *)
Definition empty_text (text : string) : Prop :=
  trim text = "" \/ exists v, json_parse (trim text) = Some v /\ value_truthy v = false.

Lemma payload_parse text :
  let r := safeJsonParse (VStr text) in
  (json_error r = "" /\ is_Some (usable_payload (json_value r)) <-> usable_text text) /\
  (json_error r <> "" <->
     trim text <> "" /\ json_parse (trim text) = None /\ syntax_error_message (trim text) <> "") /\
  (empty_text text -> json_error r = "" /\ usable_payload (json_value r) = None).
Proof.
  cbn zeta. unfold safeJsonParse, usable_text, empty_text, safeTrim. cbn [asString].
  destruct (truthy (trim text)) eqn:E; cbn [negb].
  - apply truthy_true in E. destruct (json_parse (trim text)) as [v |] eqn:Ep;
      cbn [json_value json_error usable_payload]; [destruct (value_truthy v) eqn:Ev |];
      split_and!; try (by naive_solver).
    + by intros [? | (? & [= <-] & ?)]; [| congruence].
    + split; [by intros (_ & ? & ?) | intros (_ & ? & [= <-] & ?); congruence].
  - apply truthy_false in E. cbn. split_and!; by naive_solver.
Qed.

(** C27: Checking the job form never throws. The form passes exactly when type and
    tenant are not blank, the payload is truthy JSON, the priority is not outside 0
    to 9 and the scheduled time is blank or a later date. A form that fails marks
    the blank names, the priority and the time exactly when they are at fault, and
    the payload exactly when it is not blank and does not parse: a payload that is
    blank or falsy JSON, alone at fault, fails the form with nothing marked. The
    request of a form that passes has its numbers in their ranges, no blank name,
    and a readable future time if it has any. *)
Theorem jobForm_exact now draft :
  let timely := trim (JobDraft.scheduledAt draft) = "" \/
    exists t, date_parse (JobDraft.scheduledAt draft) = Some t /\ (now < t)%Z in
  let fair := num_lt (num_of_string (JobDraft.priority draft)) (num_of_Z 0) = false /\
    num_gt (num_of_string (JobDraft.priority draft)) (num_of_Z 9) = false in
  let named := trim (JobDraft.type draft) <> "" /\ trim (JobDraft.tenantId draft) <> "" in
  let text := JobDraft.payload draft in
  (exists checked, checkJobForm now draft = Ok checked) /\
  ((exists request, checkJobForm now draft = Ok (inr request)) <->
   named /\ usable_text text /\ fair /\ timely) /\
  (forall errors, checkJobForm now draft = Ok (inl errors) ->
     (is_Some (errors !! "type") <-> trim (JobDraft.type draft) = "") /\
     (is_Some (errors !! "tenantId") <-> trim (JobDraft.tenantId draft) = "") /\
     (is_Some (errors !! "payload") <->
        trim text <> "" /\ json_parse (trim text) = None /\ syntax_error_message (trim text) <> "") /\
     (is_Some (errors !! "priority") <-> ~ fair) /\
     (is_Some (errors !! "scheduledAt") <-> ~ timely)) /\
  (named -> fair -> timely -> empty_text text -> checkJobForm now draft = Ok (inl ∅)) /\
  (forall request, checkJobForm now draft = Ok (inr request) ->
     num_le (num_of_Z 0) (r_priority request) = true /\
     num_le (r_priority request) (num_of_Z 9) = true /\
     num_le (num_of_Z 1) (r_maxAttempts request) = true /\
     num_le (num_of_Z 0) (r_timeoutSeconds request) = true /\
     num_le (num_of_Z 0) (r_delaySeconds request) = true /\
     num_le (num_of_Z 0) (r_dedupeWindowSeconds request) = true /\
     num_le (r_dedupeWindowSeconds request) (num_of_Z 86400) = true /\
     r_type request <> "" /\ r_queue request <> "" /\ r_tenantId request <> "" /\
     value_truthy (r_payload request) = true /\
     (forall t, r_scheduledAt request = Some t -> exists u, date_parse t = Some u /\ (now < u)%Z)).
Proof.
  cbn zeta. destruct (payload_parse (JobDraft.payload draft)) as (Hok & Hbad & Hempty). split_and!.
  - apply form_total.
  - rewrite <- Hok. split; [intros [r Hr]; apply checkJobForm_passes in Hr as [Hf _]; unfold job_form_ok in Hf; tauto |].
    intros ([Hty Hte] & [Hp [payload Hv]] & [Hl Hg] & Ht). unfold checkJobForm. cbn zeta.
    assert (job_errors (validateJobForm now draft) = ∅) as He by (by apply job_errors_empty).
    rewrite decide_True_pi with (HP := He). cbn [checked_payload validateJobForm] in *.
    rewrite Hv. destruct (jobRequest_total now draft payload He) as [r Hr].
    exists r. cbn [checked_payload validateJobForm] in Hr. by rewrite Hr.
  - intros errors ->%checkJobForm_fails.
    destruct (job_error_fields now draft) as (E1 & E2 & E3 & E4 & E5). rewrite Hbad in E3.
    split_and!; [exact E1 | exact E2 | exact E3 | rewrite E4 | rewrite E5].
    + destruct (num_lt _ _), (num_gt _ _); naive_solver.
    + rewrite <- bad_schedule_time_false. by rewrite not_false_iff_true.
  - intros [Hty Hte] [Hl Hg] Ht [Hp Hu]%Hempty. unfold checkJobForm. cbn zeta.
    assert (job_errors (validateJobForm now draft) = ∅) as He by (by apply job_errors_empty).
    rewrite decide_True_pi with (HP := He). cbn [checked_payload validateJobForm] in *. by rewrite Hu, He.
  - intros request (Hf & payload & Hv & Ht & Hr)%checkJobForm_passes.
    by apply (jobRequest_ranges now draft payload).
Qed.
End Properties.

(** * Examples *)

#[local] Instance sample_json : JsonHost := {| syntax_error_message := fun _ => "unexpected token" |}.

(** A draft like the default one, with this priority. *)
Definition draft_with_priority (priority : string) : JobDraft :=
  {| JobDraft.type := "email.send"; JobDraft.queue := "default"; JobDraft.tenantId := "tenant-a";
     JobDraft.priority := priority; JobDraft.maxAttempts := "5"; JobDraft.timeoutSeconds := "45";
     JobDraft.delaySeconds := "0"; JobDraft.scheduledAt := ""; JobDraft.workflowId := "";
     JobDraft.dependencies := ""; JobDraft.idempotencyKey := "";
     JobDraft.dedupeWindowSeconds := "900"; JobDraft.payload := "{}" |}.

(** The default draft without a payload. *)
Definition empty_draft : JobDraft :=
  let '(JobDraft.mk f0 f1 f2 f3 f4 f5 f6 f7 f8 f9 f10 f11 _) := defaultJobDraft in
  JobDraft.mk f0 f1 f2 f3 f4 f5 f6 f7 f8 f9 f10 f11 " ".

Lemma jobForm_exact_witness :
  match checkJobForm (H := utc_host) 1773345600000 defaultJobDraft with
  | Ok (inr request) => num_le (r_priority request) (num_of_Z 9) = true
  | _ => False
  end /\
  checkJobForm (H := utc_host) 1773345600000 empty_draft = Ok (inl ∅).
Proof.
  split.
  - destruct (checkJobForm (H := utc_host) 1773345600000 defaultJobDraft) as [[errors | request] |] eqn:E;
      [vm_compute in E; discriminate | | vm_compute in E; discriminate].
    destruct (jobForm_exact (H := utc_host) 1773345600000 defaultJobDraft) as (_ & _ & _ & _ & Hr).
    exact (proj1 (proj2 (Hr request E))).
  - destruct (jobForm_exact (H := utc_host) 1773345600000 empty_draft) as (_ & _ & _ & He & _).
    apply He; [by split; vm_compute | by split; vm_compute | left; by vm_compute | left; by vm_compute].
Defined.

(** A priority of 0, which the form accepts, is sent as 5. *)
Lemma zero_priority_is_replaced :
  match checkJobForm (H := utc_host) 1773345600000 (draft_with_priority "0") with
  | Ok (inr request) => r_priority request = num_of_Z 5
  | _ => False
  end.
Proof. vm_compute. reflexivity. Qed.
