(* ===== verification/ConsoleProperties.v ===== *)
(** What the actions of the console guarantee (ConsoleActions.v): the data stays
    consistent, the flags of the buttons tell which tasks run, each action in demo
    mode changes exactly the jobs and dead letters it names, and in live mode it
    sends its request. *)

From stdpp Require Import base list strings gmap relations sorting.
From Stdlib Require Import ZArith Lia Bool Ascii.
From S2P Require Import Prelude JsString JsNum JsDate JsSort JsValue Models ApiRoutes Safe.
From S2P Require Import ToastQueue ApiParsers ConsoleState Settings ConsoleViews ConsoleForms.
From S2P Require Import ConsoleActions.

#[local] Open Scope Z_scope.

(** * Consistent data *)

Record distinct (data : ConsoleData) : Prop := {
  distinct_jobs : NoDup (List.map Job.id (ConsoleData.jobs data));
  distinct_schedules : NoDup (List.map Schedule.id (ConsoleData.schedules data));
  distinct_deadLetters :
    NoDup (List.map DeadLetter.jobId (DashboardSnapshot.deadLetters (ConsoleData.snapshot data)))
}.

(** The overview is the summary of the jobs, the blocked and throttled jobs shown
    are the first sixteen, at most sixty events are kept, and the ids name one job,
    schedule or dead letter each. *)
Record data_ok (data : ConsoleData) : Prop := {
  ok_overview :
    let snapshot := ConsoleData.snapshot data in
    DashboardSnapshot.overview snapshot =
    summarizeJobs (ConsoleData.jobs data) (DashboardSnapshot.workers snapshot)
      (DashboardSnapshot.rateLimits snapshot)
      (Overview.lastUpdatedAt (DashboardSnapshot.overview snapshot));
  ok_blocked :
    DashboardSnapshot.blockedJobs (ConsoleData.snapshot data) =
    take 16 (List.filter (in_state blocked) (ConsoleData.jobs data));
  ok_throttled :
    DashboardSnapshot.throttledJobs (ConsoleData.snapshot data) =
    take 16 (List.filter (in_state throttled) (ConsoleData.jobs data));
  ok_events : (length (ConsoleData.events data) <= 60)%nat;
  ok_distinct : distinct data
}.

(** Ids that [createToastId] has not given to a job or schedule of the data. *)
Record fresh_ids (ids : nat -> string) (data : ConsoleData) : Prop := {
  fresh_each_other : NoDup [ids 1%nat; ids 2%nat; ids 3%nat; ids 4%nat];
  fresh_jobs :
    Forall (fun job => Job.id job ∉ [ids 1%nat; ids 2%nat; ids 3%nat; ids 4%nat])
      (ConsoleData.jobs data);
  fresh_schedules : ids 0%nat ∉ List.map Schedule.id (ConsoleData.schedules data)
}.

(** * Steps *)

(** The user edits drafts, filters, the selection and the settings. *)
Definition edit (c c' : Console) : Prop :=
  Console.data c' = Console.data c /\ Console.busyMap c' = Console.busyMap c /\
  Console.tasks c' = Console.tasks c /\ Console.next c' = Console.next c.

Section Steps.
Context `{DateHost} `{JsonHost} `{ActionApi}.

Inductive step : Console -> Console -> Prop :=
  | step_action now ids action c c' :
      fresh_ids ids (Console.data c) -> perform now ids action c = Ok c' -> step c c'
  | step_resume now id answer c c' : resume now id answer c = Some c' -> step c c'
  | step_settle id c c' : settle id c = Some c' -> step c c'
  | step_effects c : step c (effects c)
  | step_edit c c' : edit c c' -> step c c'.

(** The flag an action raises. *)
Definition action_key (action : Action) : option string :=
  match action with
  | SubmitJob => Some "submit-job"
  | RetryJob jobId => Some ("job-retry-" +:+ jobId)
  | CancelJob jobId => Some ("job-cancel-" +:+ jobId)
  | ReplayJob jobId _ _ _ => Some ("job-replay-" +:+ jobId)
  | ReplaySelected => Some "bulk-replay"
  | DeleteSelected => Some "bulk-delete"
  | SubmitSchedule => Some "schedule-submit"
  | ToggleSchedule schedule _ => Some ("schedule-" +:+ Schedule.id schedule)
  | TriggerSchedule schedule => Some ("schedule-trigger-" +:+ Schedule.id schedule)
  | SeedWorkflow => Some "seed-workflow"
  | AdjustPriority _ _ | SetQueueControl _ _ | ToggleCordon _ _ => None
  end.

(** Steps in which no action starts whose flag is up. Most buttons are disabled
    by their flag; [PageProperties.page_actions_exact] says which are not. *)
Inductive calm_step : Console -> Console -> Prop :=
  | calm_action now ids action c c' :
      perform now ids action c = Ok c' ->
      (forall key, action_key action = Some key -> key ∉ Console.busyMap c) -> calm_step c c'
  | calm_resume now id answer c c' : resume now id answer c = Some c' -> calm_step c c'
  | calm_settle id c c' : settle id c = Some c' -> calm_step c c'
  | calm_effects c : calm_step c (effects c)
  | calm_edit c c' : edit c c' -> calm_step c c'.
End Steps.

(** * Lemmas *)

(** ** Consistency of the operations on the data *)

Section Data_lemmas.
Context `{DateHost}.

Lemma summarize_workers jobs workers workers' rateLimits t :
  length workers = length workers' ->
  summarizeJobs jobs workers rateLimits t = summarizeJobs jobs workers' rateLimits t.
Proof. intros E. unfold summarizeJobs. by rewrite E. Qed.

Lemma reconcile_distinct now data : distinct data -> distinct (reconcileConsoleData now data).
Proof.
  intros [Hj Hs Hd]. split; cbn [reconcileConsoleData ConsoleData.jobs ConsoleData.schedules
    ConsoleData.snapshot DashboardSnapshot.deadLetters]; by rewrite sort_by_perm.
Qed.

Lemma reconcile_ok now data : distinct data -> data_ok (reconcileConsoleData now data).
Proof.
  intros Hd. split; [| done | done | | by apply reconcile_distinct].
  - cbn [reconcileConsoleData ConsoleData.snapshot DashboardSnapshot.overview ConsoleData.jobs
      DashboardSnapshot.workers DashboardSnapshot.rateLimits].
    apply summarize_workers. by rewrite length_sort_by.
  - cbn [reconcileConsoleData ConsoleData.events]. unfold sortEvents. rewrite length_take. lia.
Qed.

Lemma replaceJob_ok now data job : distinct data -> data_ok (replaceJob now data job).
Proof.
  intros Hd. pose proof (replaceJob_update now data job "" (distinct_jobs _ Hd)) as [Hj _].
  unfold replaceJob in *. apply reconcile_ok.
  destruct data as [sn jobs sc ev ws ins qc wc lh so], Hd as [_ Hs Hdl]. split; [| done | done].
  cbn [reconcileConsoleData set_jobs ConsoleData.jobs] in Hj |- *. by rewrite sort_by_perm in Hj.
Qed.

Lemma NoDup_filter_map {A} (f : A -> string) (p : A -> bool) l :
  NoDup (List.map f l) -> NoDup (List.map f (List.filter p l)).
Proof.
  induction l as [| x l IH]; [done |]. cbn. intros [Hx Hl]%NoDup_cons.
  destruct (p x); [| by apply IH]. cbn. constructor; [| by apply IH].
  rewrite list_elem_of_In, in_map_iff in *. intros (y & Hy & Hin%filter_In). apply Hx.
  exists y. tauto.
Qed.

Lemma removeDeadLetters_ok now data jobIds :
  distinct data -> data_ok (removeDeadLetters now data jobIds).
Proof.
  intros [Hj Hs Hd]. apply reconcile_ok.
  destruct data as [[ov me tr wk dl bl th rl le] jobs sc ev ws ins qc wc lh so].
  split; [done | done |]. by apply NoDup_filter_map.
Qed.

Lemma appendEvents_keeps data events :
  ConsoleData.jobs (appendEvents data events) = ConsoleData.jobs data /\
  ConsoleData.snapshot (appendEvents data events) = ConsoleData.snapshot data /\
  ConsoleData.schedules (appendEvents data events) = ConsoleData.schedules data /\
  ConsoleData.source (appendEvents data events) = ConsoleData.source data.
Proof.
  destruct data, events as [| event events]; [done |]. unfold appendEvents. cbn zeta.
  by destruct (Nat.eqb _ _).
Qed.

Lemma appendEvents_ok data events : data_ok data -> data_ok (appendEvents data events).
Proof.
  intros [Ho Hb Ht He [Hj Hs Hd]].
  destruct (appendEvents_keeps data events) as (Ej & Esn & Esc & _).
  split; rewrite ?Ej, ?Esn; try done; [| split; by rewrite ?Ej, ?Esn, ?Esc].
  destruct events as [| event events]; [done |]. unfold appendEvents. cbn zeta.
  destruct (Nat.eqb _ _); [done |]. destruct data.
  cbn [set_events ConsoleData.events]. unfold sortEvents. rewrite length_take. lia.
Qed.

Lemma appendEvent_ok data event : data_ok data -> data_ok (appendEvent data event).
Proof. apply appendEvents_ok. Qed.

Lemma workflow_ok now ids data :
  distinct data -> fresh_ids ids data -> data_ok (addLocalWorkflowJobs now ids data).
Proof.
  intros [Hj Hs Hd] [Hn Hf _].
  pose proof (addLocalWorkflowJobs_spec now ids data) as (_ & _ & _ & Hids).
  specialize (Hids Hj Hn Hf). unfold addLocalWorkflowJobs in *. apply reconcile_ok.
  destruct data. split; [| done | done].
  cbn [reconcileConsoleData set_jobs set_events ConsoleData.jobs] in Hids |- *.
  by rewrite sort_by_perm in Hids.
Qed.

Lemma map_ids {A} (key : A -> string) (f : A -> A) l :
  (forall x, key (f x) = key x) -> List.map key (List.map f l) = List.map key l.
Proof. intros Hf. rewrite List.map_map. by apply List.map_ext. Qed.
End Data_lemmas.

(** ** Consistency of the updaters *)

Section Updater_lemmas.
Context `{DateHost} `{JsonHost} `{ActionApi}.

Lemma with_job_ok jobId f data :
  (forall job, distinct data -> data_ok (f job data)) -> data_ok data -> data_ok (with_job jobId f data).
Proof. intros Hf Hd. unfold with_job. destruct (find_job _ _); [apply Hf, Hd | done]. Qed.

Lemma requeue_ok now data job jobIds :
  distinct data -> data_ok (removeDeadLetters now (replaceJob now data job) jobIds).
Proof. intros Hd. by apply removeDeadLetters_ok, ok_distinct, replaceJob_ok. Qed.

Lemma retry_ok now jobId data : data_ok data -> data_ok (retry_demo now jobId data).
Proof. apply with_job_ok. intros job Hd. by apply appendEvent_ok, requeue_ok. Qed.

Lemma cancel_ok now jobId data : data_ok data -> data_ok (cancel_demo now jobId data).
Proof. apply with_job_ok. intros job Hd. by apply appendEvent_ok, replaceJob_ok. Qed.

Lemma priority_ok now jobId delta data : data_ok data -> data_ok (priority_demo now jobId delta data).
Proof. apply with_job_ok. intros job Hd. by apply appendEvent_ok, replaceJob_ok. Qed.

Lemma bulk_replay_ok now selected queue payload data :
  data_ok data -> data_ok (bulk_replay_demo now selected queue payload data).
Proof.
  intros Hd. apply appendEvent_ok. revert data Hd.
  induction selected as [| id selected IH]; intros data Hd; cbn [foldl]; [done |].
  apply IH, with_job_ok; [| done]. intros job Hd'. by apply requeue_ok.
Qed.

Lemma bulk_delete_ok now selected data : data_ok data -> data_ok (bulk_delete_demo now selected data).
Proof. intros Hd. by apply appendEvent_ok, removeDeadLetters_ok, ok_distinct. Qed.

Lemma drained_id now queue job : Job.id (drained now queue job) = Job.id job.
Proof. unfold drained. destruct (_ && _); by destruct job. Qed.

Lemma queue_control_ok now queue action data :
  data_ok data -> data_ok (queue_control_demo now queue action data).
Proof.
  intros [_ _ _ _ [Hj Hs Hd]]. apply appendEvent_ok, reconcile_ok. destruct data.
  cbn [ConsoleData.jobs] in *. split; [| done | done]. cbn [DataWith.queueControls set_jobs ConsoleData.jobs].
  destruct action; [done | done |]. by rewrite (map_ids Job.id) by apply drained_id.
Qed.

Lemma cordon_ok now workerId cordoned data :
  data_ok data -> data_ok (cordon_demo now workerId cordoned data).
Proof.
  intros [Ho Hb Ht He [Hj Hs Hd]]. apply appendEvent_ok. destruct data. by repeat split.
Qed.

Lemma schedule_ok now id body data :
  id ∉ List.map Schedule.id (ConsoleData.schedules data) -> data_ok data ->
  data_ok (schedule_demo now id body data).
Proof.
  intros Hid [_ _ _ _ [Hj Hs Hd]]. apply appendEvent_ok, reconcile_ok. destruct data.
  cbn [ConsoleData.schedules] in *. split; [done | | done].
  cbn [DataWith.schedules ConsoleData.schedules List.map]. by constructor.
Qed.

Lemma toggled_id now id enabled item : Schedule.id (toggled now id enabled item) = Schedule.id item.
Proof. unfold toggled. destruct (String.eqb _ _); by destruct item. Qed.

Lemma toggle_ok now schedule enabled data :
  data_ok data -> data_ok (toggle_demo now schedule enabled data).
Proof.
  intros [_ _ _ _ [Hj Hs Hd]]. apply appendEvent_ok, reconcile_ok. destruct data.
  cbn [ConsoleData.schedules] in *. split; [done | | done].
  cbn [DataWith.schedules ConsoleData.schedules]. by rewrite (map_ids Schedule.id) by apply toggled_id.
Qed.

Lemma trigger_ok now job schedule data : data_ok data -> data_ok (trigger_demo now job schedule data).
Proof. intros Hd. by apply appendEvent_ok, replaceJob_ok, ok_distinct. Qed.
End Updater_lemmas.

(** The updaters, each known by its name. *)
Create HintDb data_ok discriminated.
#[export] Hint Constants Opaque : data_ok.
#[export] Hint Resolve retry_ok cancel_ok priority_ok bulk_replay_ok bulk_delete_ok queue_control_ok
  cordon_ok schedule_ok toggle_ok trigger_ok replaceJob_ok requeue_ok ok_distinct workflow_ok
  fresh_schedules appendEvent_ok : data_ok.

(** ** What each part of the state depends on *)

(** A state with the same flags and tasks. *)
Definition same_tasks (c c' : Console) : Prop :=
  Console.busyMap c' = Console.busyMap c /\ Console.tasks c' = Console.tasks c /\
  Console.next c' = Console.next c.

(** Reduces the record of the component and the bookkeeping around the data. *)
Ltac console_simpl :=
  cbv beta iota zeta delta [runBusy setBusy add_task setConsoleData refresh enqueueToast notify
    notifyUnsupportedLiveControl live retry_toast cancel_toast replay_toast bulk_replay_done
    bulk_delete_done schedule_done toggle_toast trigger_toast seed_toast submit_done continue
    set_progress
    Console.data Console.settings Console.selectedTab Console.selectedJobId
    Console.selectedDeadLetters Console.bulkReplayQueue Console.bulkReplayPayload Console.jobDraft
    Console.jobFormErrors Console.scheduleDraft Console.scheduleErrors Console.busyMap
    Console.notified Console.refreshes Console.tasks Console.next
    Console.set_data Console.set_settings Console.set_selectedTab Console.set_selectedJobId
    Console.set_selectedDeadLetters Console.set_bulkReplayQueue Console.set_bulkReplayPayload
    Console.set_jobDraft Console.set_jobFormErrors Console.set_scheduleDraft
    Console.set_scheduleErrors Console.set_busyMap Console.set_notified Console.set_refreshes
    Console.set_tasks Console.set_next] in *.

Lemma data_runBusy key task c :
  Console.data (runBusy key task c) = Console.data (snd (task (setBusy key true c))).
Proof. unfold runBusy. destruct (task _) as [progress c']. by destruct c'. Qed.

(** The data after a handler, in either mode. *)
Ltac by_mode :=
  rewrite ?data_runBusy; destruct (live _); cbn [snd];
  match goal with c : Console |- _ => destruct c end; console_simpl; eauto with data_ok.

Section Step_lemmas.
Context `{DateHost} `{JsonHost} `{ActionApi}.

Lemma submit_demo_ok now id draft request c c' :
  data_ok (Console.data c) -> submit_demo now id draft request c = Ok c' -> data_ok (Console.data c').
Proof.
  intros Hd. unfold submit_demo. destruct (duplicate_of _ _ _); [intros [= <-]; by destruct c |].
  destruct (createJobFromDraft _ _ _ _) as [job |]; [| done]. cbn [result_bind]. intros [= <-].
  destruct c. console_simpl. eauto with data_ok.
Qed.

Lemma replay_demo_ok now id jobId queue payload edited dead c :
  data_ok (Console.data c) ->
  data_ok (Console.data (replay_demo now id jobId queue payload edited dead c)).
Proof.
  intros Hd. unfold replay_demo. destruct (find_job _ _); [| done].
  destruct dead, c; console_simpl; eauto with data_ok.
Qed.

Lemma perform_ok now ids action c c' :
  fresh_ids ids (Console.data c) -> perform now ids action c = Ok c' ->
  data_ok (Console.data c) -> data_ok (Console.data c').
Proof.
  intros Hf Hp Hd. destruct action; cbn [perform] in Hp; try (injection Hp as <-).
  - unfold submitJob in Hp. destruct (checkJobForm _ _) as [[errors | request] |]; [| | done];
      cbn [result_bind] in Hp; [injection Hp as <-; by destruct c |].
    destruct (live c); [injection Hp as <-; by destruct c |].
    destruct (submit_demo _ _ _ _ _) as [c1 |] eqn:E; [| done]. cbn [result_bind] in Hp.
    injection Hp as <-. apply submit_demo_ok in E; [by destruct c1 | by destruct c].
  - unfold retryJob. by_mode.
  - unfold cancelJob. by_mode.
  - unfold adjustPriority. by_mode.
  - unfold replayJob. destruct (replay_payload _); [| by destruct c].
    rewrite data_runBusy. destruct (find_job _ _) as [job |]; [| by destruct c].
    destruct (live _); [by destruct c |]. cbn [snd].
    match goal with |- context [replay_demo ?a ?b ?d ?e ?f ?g ?h ?s] =>
      assert (data_ok (Console.data (replay_demo a b d e f g h s))) as Hr
        by (apply replay_demo_ok; by destruct c); destruct (replay_demo a b d e f g h s) end.
    exact Hr.
  - unfold replaySelectedDeadLetters. destruct (Console.selectedDeadLetters c); [by destruct c |].
    destruct (bulk_payload _); [by destruct c |]. by_mode.
  - unfold deleteSelectedDeadLetters. destruct (Console.selectedDeadLetters c); [by destruct c |].
    by_mode.
  - unfold setQueueControl. by_mode.
  - unfold toggleWorkerCordon. by_mode.
  - unfold submitSchedule. destruct (checkScheduleForm _); [by destruct c |]. by_mode.
  - unfold toggleSchedule. by_mode.
  - unfold triggerSchedule. destruct (createJobFromDraft _ _ _ _); by_mode.
  - unfold seedWorkflow. by_mode.
Qed.

Lemma continue_ok now call value c :
  data_ok (Console.data c) -> data_ok (Console.data (continue now call value c)).
Proof. intros Hd. destruct call, c; console_simpl; eauto with data_ok. Qed.

Lemma resumed_ok now id answer c c' :
  resume now id answer c = Some c' -> data_ok (Console.data c) -> data_ok (Console.data c').
Proof.
  unfold resume. intros Hr Hd. destruct (Console.tasks c !! id) as [task |]; [| done]. cbn in Hr.
  destruct (progress task) as [call sent |]; [| done]. injection Hr as <-.
  destruct answer as [value |]; [| by destruct c].
  pose proof (continue_ok now call value c Hd) as Hc. destruct (continue _ _ _ c). exact Hc.
Qed.

Lemma settle_ok id c c' : settle id c = Some c' -> Console.data c' = Console.data c.
Proof.
  unfold settle. destruct (Console.tasks c !! id) as [task |]; [| done]. cbn.
  destruct (progress task); [done |]. intros [= <-]. by destruct c.
Qed.

Lemma effects_ok c : Console.data (effects c) = Console.data c /\ same_tasks c (effects c).
Proof. unfold effects. destruct c. console_simpl. by destruct (_ && _). Qed.

Lemma console_step_ok c c' : step c c' -> data_ok (Console.data c) -> data_ok (Console.data c').
Proof.
  intros [] Hd.
  - by eapply perform_ok.
  - by eapply resumed_ok.
  - by erewrite settle_ok.
  - by destruct (effects_ok c0) as [-> _].
  - destruct H2 as (-> & _). done.
Qed.

(** ** Flags and tasks *)

(** A task with this key began. *)
Definition started (key : string) (c c' : Console) : Prop :=
  Console.busyMap c' = {[key]} ∪ Console.busyMap c /\
  (exists p, Console.tasks c' = <[Console.next c := mkTask key p]> (Console.tasks c)) /\
  Console.next c' = S (Console.next c).

Lemma runBusy_started key task c :
  (forall s, same_tasks s (snd (task s))) -> started key c (runBusy key task c).
Proof.
  intros Ht. unfold runBusy. specialize (Ht (setBusy key true c)).
  destruct (task (setBusy key true c)) as [p c'], c, c', Ht as (Hb & Htk & Hn). console_simpl.
  cbn [snd] in *. subst. repeat split. by exists p.
Qed.

Lemma submit_demo_tasks now id draft request c c' :
  submit_demo now id draft request c = Ok c' -> same_tasks c c'.
Proof.
  unfold submit_demo. destruct (duplicate_of _ _ _); [intros [= <-]; by destruct c |].
  destruct (createJobFromDraft _ _ _ _); [| done]. cbn [result_bind]. intros [= <-]. by destruct c.
Qed.

Lemma replay_demo_tasks now id jobId queue payload edited dead c :
  same_tasks c (replay_demo now id jobId queue payload edited dead c).
Proof. unfold replay_demo. destruct (find_job _ _); [destruct dead |]; by destruct c. Qed.

(** The code of a task, in either mode, leaves flags and tasks alone. *)
Ltac task_frame :=
  let s := fresh "s" in intros s; destruct (live s), s; by repeat split.

Lemma perform_tasks now ids action c c' :
  perform now ids action c = Ok c' ->
  same_tasks c c' \/ exists key, action_key action = Some key /\ started key c c'.
Proof.
  destruct action; cbn [perform action_key]; try (intros [= <-]).
  - unfold submitJob. destruct (checkJobForm _ _) as [[errors | request] |]; [| | done];
      cbn [result_bind]; [intros [= <-]; left; by destruct c |].
    destruct (live c).
    + intros [= <-]. right. eexists. split; [done |]. apply runBusy_started. intros []; by repeat split.
    + destruct (submit_demo _ _ _ _ _) as [c1 |] eqn:E; [| done]. cbn [result_bind]. intros [= <-].
      right. eexists. split; [done |]. apply submit_demo_tasks in E as (Hb & Ht & Hn).
      destruct c, c1. console_simpl. subst. repeat split. by eexists.
  - right. eexists. split; [done |]. apply runBusy_started. task_frame.
  - right. eexists. split; [done |]. apply runBusy_started. task_frame.
  - left. unfold adjustPriority. destruct (live c); by destruct c.
  - unfold replayJob. destruct (replay_payload _); [| left; by destruct c].
    right. eexists. split; [done |]. apply runBusy_started. intros s.
    destruct (find_job _ _) as [job |]; [| by destruct s]. destruct (live s); [by destruct s |]. cbn [snd].
    pose proof (replay_demo_tasks now (ids 0%nat) jobId queue j edited
      (bool_decide (is_Some (findDeadLetter (Console.data c) jobId))) s) as Hr.
    destruct (replay_demo _ _ _ _ _ _ _ s). exact Hr.
  - unfold replaySelectedDeadLetters. destruct (Console.selectedDeadLetters c); [left; by destruct c |].
    destruct (bulk_payload _); [left; by destruct c |].
    right. eexists. split; [done |]. apply runBusy_started. task_frame.
  - unfold deleteSelectedDeadLetters. destruct (Console.selectedDeadLetters c); [left; by destruct c |].
    right. eexists. split; [done |]. apply runBusy_started. task_frame.
  - left. unfold setQueueControl. destruct (live c); by destruct c.
  - left. unfold toggleWorkerCordon. destruct (live c); by destruct c.
  - unfold submitSchedule. destruct (checkScheduleForm _); [left; by destruct c |].
    right. eexists. split; [done |]. apply runBusy_started. task_frame.
  - right. eexists. split; [done |]. apply runBusy_started. task_frame.
  - right. eexists. split; [done |]. apply runBusy_started. intros s.
    destruct (createJobFromDraft _ _ _ _); destruct (live s), s; by repeat split.
  - right. eexists. split; [done |]. apply runBusy_started. task_frame.
Qed.

Lemma resume_tasks now id answer c c' :
  resume now id answer c = Some c' ->
  exists key call sent, Console.tasks c !! id = Some (mkTask key (Waiting call sent)) /\
    Console.tasks c' = <[id := mkTask key Ended]> (Console.tasks c) /\
    Console.busyMap c' = Console.busyMap c /\ Console.next c' = Console.next c.
Proof.
  unfold resume. destruct (Console.tasks c !! id) as [[key p] |] eqn:Et; [| done]. cbn.
  destruct p as [call sent |]; [| done]. intros [= <-]. exists key, call, sent. split; [done |].
  assert (same_tasks c (match answer with Some value => continue now call value c | None => c end))
    as (Hb & Ht & Hn) by (destruct answer; [destruct call |]; by destruct c).
  destruct (match answer with Some _ => _ | None => _ end). console_simpl. subst. repeat split.
  apply map_eq. intros k. destruct (decide (k = id)) as [-> | Hne].
  - by rewrite lookup_alter_eq, lookup_insert_eq, Et.
  - by rewrite lookup_alter_ne, lookup_insert_ne.
Qed.

Lemma settle_tasks id c c' :
  settle id c = Some c' ->
  exists key, Console.tasks c !! id = Some (mkTask key Ended) /\
    Console.tasks c' = delete id (Console.tasks c) /\
    Console.busyMap c' = Console.busyMap c ∖ {[key]} /\ Console.next c' = Console.next c.
Proof.
  unfold settle. destruct (Console.tasks c !! id) as [[key p] |]; [| done]. cbn.
  destruct p; [done |]. intros [= <-]. exists key. by destruct c.
Qed.

(** A task with the key is under way. *)
Definition under_way (c : Console) (key : string) : Prop :=
  exists id p, Console.tasks c !! id = Some (mkTask key p).

Record flags_ok (c : Console) : Prop := {
  flags_next : forall id, is_Some (Console.tasks c !! id) -> (id < Console.next c)%nat;
  flags_tasks : forall key, key ∈ Console.busyMap c -> under_way c key
}.

(** With every task's flag up, and one task per flag. *)
Record calm_ok (c : Console) : Prop := {
  calm_flags : flags_ok c;
  calm_up : forall id key p, Console.tasks c !! id = Some (mkTask key p) -> key ∈ Console.busyMap c;
  calm_single : forall id id' key p p',
    Console.tasks c !! id = Some (mkTask key p) -> Console.tasks c !! id' = Some (mkTask key p') ->
    id = id'
}.

Lemma flags_same c c' : same_tasks c c' -> flags_ok c -> flags_ok c'.
Proof.
  intros (Hb & Ht & Hn) [H1' H2']. split; unfold under_way in *; rewrite ?Hb, ?Ht, ?Hn; done.
Qed.

Lemma flags_started key c c' : started key c c' -> flags_ok c -> flags_ok c'.
Proof.
  intros (Hb & [p Ht] & Hn) [Hnext Hflags]. split.
  - intros id. rewrite Ht, Hn, lookup_insert_is_Some. intros [-> | [_ Hid%Hnext]]; lia.
  - intros k. rewrite Hb, elem_of_union, elem_of_singleton. unfold under_way. rewrite Ht.
    intros [-> | (id & q & Hid)%Hflags]; [exists (Console.next c), p; by rewrite lookup_insert_eq |].
    exists id, q. rewrite lookup_insert_ne; [done |]. intros <-.
    assert (Console.next c < Console.next c)%nat; [apply Hnext; eauto | lia].
Qed.

Lemma flags_resumed id key call sent c c' :
  Console.tasks c !! id = Some (mkTask key (Waiting call sent)) ->
  Console.tasks c' = <[id := mkTask key Ended]> (Console.tasks c) ->
  Console.busyMap c' = Console.busyMap c -> Console.next c' = Console.next c ->
  flags_ok c -> flags_ok c'.
Proof.
  intros Hid Ht Hb Hn [Hnext Hflags]. split.
  - intros k. rewrite Ht, Hn, lookup_insert_is_Some. intros [-> | [_ Hk]]; apply Hnext; eauto.
  - intros k. rewrite Hb. unfold under_way. rewrite Ht. intros (id' & q & Hid')%Hflags.
    destruct (decide (id' = id)) as [-> | Hne].
    + exists id, Ended. rewrite lookup_insert_eq. congruence.
    + exists id', q. by rewrite lookup_insert_ne.
Qed.

Lemma flags_settled id key c c' :
  Console.tasks c !! id = Some (mkTask key Ended) ->
  Console.tasks c' = delete id (Console.tasks c) ->
  Console.busyMap c' = Console.busyMap c ∖ {[key]} -> Console.next c' = Console.next c ->
  flags_ok c -> flags_ok c'.
Proof.
  intros Hid Ht Hb Hn [Hnext Hflags]. split.
  - intros k. rewrite Ht, Hn, lookup_delete_is_Some. intros [_ Hk]. by apply Hnext.
  - intros k. rewrite Hb, elem_of_difference, elem_of_singleton. unfold under_way. rewrite Ht.
    intros [(id' & q & Hid')%Hflags Hk]. exists id', q. rewrite lookup_delete_ne; [done |]. congruence.
Qed.

Lemma edit_same c c' : edit c c' -> same_tasks c c'.
Proof. by intros (_ & ? & ? & ?). Qed.

Lemma step_flags c c' : step c c' -> flags_ok c -> flags_ok c'.
Proof.
  intros [now ids action s s' _ Hp | now id answer s s' Hr | id s s' Hs | s | s s' He].
  - apply perform_tasks in Hp as [Hp | (key & _ & Hp)]; [by apply flags_same | by eapply flags_started].
  - apply resume_tasks in Hr as (key & call & sent & ? & ? & ? & ?). by eapply flags_resumed.
  - apply settle_tasks in Hs as (key & ? & ? & ? & ?). by eapply flags_settled.
  - apply flags_same, effects_ok.
  - by apply flags_same, edit_same.
Qed.

Lemma calm_same c c' : same_tasks c c' -> calm_ok c -> calm_ok c'.
Proof.
  intros Hs [Hf Hu H1']. split; [by eapply flags_same | ..]; destruct Hs as (Hb & Ht & Hn);
    rewrite ?Hb, ?Ht; done.
Qed.

Lemma calm_step_ok c c' : calm_step c c' -> calm_ok c -> calm_ok c'.
Proof.
  intros [now ids action s s' Hp Hkey | now id answer s s' Hr | id s s' Hs | s | s s' He] Hc.
  - apply perform_tasks in Hp as [Hp | (key & Hk & Hp)]; [by eapply calm_same |].
    pose proof (flags_started _ _ _ Hp (calm_flags _ Hc)) as Hf.
    destruct Hp as (Hb & [p Ht] & Hn), Hc as [_ Hu H1']. specialize (Hkey _ Hk). split; [done | ..].
    + intros id k q. rewrite Hb, Ht, lookup_insert_Some. set_solver.
    + intros id id' k q q'. rewrite Ht, !lookup_insert_Some. naive_solver.
  - apply resume_tasks in Hr as (key & call & sent & Hid & Ht & Hb & Hn).
    pose proof (flags_resumed _ _ _ _ _ _ Hid Ht Hb Hn (calm_flags _ Hc)) as Hf.
    destruct Hc as [_ Hu H1']. split; [done | ..].
    + intros k key' q. rewrite Hb, Ht, lookup_insert_Some. naive_solver.
    + intros k k' key' q q'. rewrite Ht, !lookup_insert_Some. naive_solver.
  - apply settle_tasks in Hs as (key & Hid & Ht & Hb & Hn).
    pose proof (flags_settled _ _ _ _ Hid Ht Hb Hn (calm_flags _ Hc)) as Hf.
    destruct Hc as [_ Hu H1']. split; [done | ..].
    + intros k key' q. rewrite Hb, Ht, lookup_delete_Some. intros [Hne Hk].
      apply elem_of_difference. split; [by eapply Hu |]. intros ->%elem_of_singleton.
      by apply Hne, (H1' _ _ _ _ _ Hid Hk).
    + intros k k' key' q q'. rewrite Ht, !lookup_delete_Some. naive_solver.
  - by eapply calm_same; [apply effects_ok |].
  - by eapply calm_same; [apply edit_same |].
Qed.

Lemma initial_calm data settings tab job : calm_ok (initial data settings tab job).
Proof.
  split; [split |..].
  - intros id [? Hid]. done.
  - intros key Hkey. by apply elem_of_empty in Hkey.
  - done.
  - done.
Qed.
End Step_lemmas.

(** ** Lookups after an update *)

Section Lookup_lemmas.
Context `{DateHost}.

Lemma find_job_id data jobId job : find_job data jobId = Some job -> Job.id job = jobId.
Proof. intros [_ Hid]%find_some. by apply String.eqb_eq. Qed.

Lemma find_replace now data job id :
  distinct data ->
  find_job (replaceJob now data job) id =
  (if String.eqb (Job.id job) id then Some job else find_job data id).
Proof. intros [Hj _ _]. exact (proj2 (replaceJob_update now data job id Hj)). Qed.

Lemma find_remove now data jobIds id :
  distinct data -> find_job (removeDeadLetters now data jobIds) id = find_job data id.
Proof.
  intros [Hj _ Hd]. unfold find_job.
  destruct (removeDeadLetters_spec now data jobIds "" Hd) as (_ & -> & _).
  apply (find_perm_nodup Job.id); [| apply sort_by_perm].
  cbn [reconcileConsoleData ConsoleData.jobs]. by rewrite sort_by_perm.
Qed.

Lemma find_append data event id : find_job (appendEvent data event) id = find_job data id.
Proof. unfold find_job, appendEvent. by destruct (appendEvents_keeps data [event]) as (-> & _). Qed.

Lemma dead_append data event id :
  findDeadLetter (appendEvent data event) id = findDeadLetter data id.
Proof. unfold findDeadLetter, appendEvent. by destruct (appendEvents_keeps data [event]) as (_ & -> & _). Qed.

Lemma dead_replace now data job id :
  distinct data -> findDeadLetter (replaceJob now data job) id = findDeadLetter data id.
Proof.
  intros [_ _ Hd]. unfold findDeadLetter, replaceJob. destruct data.
  apply (find_perm_nodup DeadLetter.jobId); [| apply sort_by_perm].
  cbn [reconcileConsoleData set_jobs ConsoleData.snapshot DashboardSnapshot.deadLetters] in *.
  by rewrite sort_by_perm.
Qed.

Lemma requeue_lookup now data job id :
  distinct data ->
  let data' := removeDeadLetters now (replaceJob now data job) [Job.id job] in
  find_job data' id = (if String.eqb (Job.id job) id then Some job else find_job data id) /\
  findDeadLetter data' id = (if String.eqb (Job.id job) id then None else findDeadLetter data id).
Proof.
  intros Hd. cbn zeta. pose proof (ok_distinct _ (replaceJob_ok now data job Hd)) as Hd'.
  split; [by rewrite find_remove, find_replace |].
  destruct (removeDeadLetters_spec now (replaceJob now data job) [Job.id job] id
    (distinct_deadLetters _ Hd')) as (-> & _).
  cbn [existsb]. rewrite orb_false_r, (String.eqb_sym id), dead_replace by done. done.
Qed.

(** An action on one job that keeps its id: the job becomes [f job], no other
    job changes, and without the job nothing does. *)
Lemma with_job_lookup jobId id (f : Job -> Job) (g : Job -> ConsoleData -> ConsoleData) data :
  (forall job, find_job data jobId = Some job ->
     find_job (g job data) id = (if String.eqb jobId id then Some (f job) else find_job data id)) ->
  find_job (with_job jobId g data) id =
  (if String.eqb jobId id then f <$> find_job data jobId else find_job data id).
Proof.
  intros Hg. unfold with_job. destruct (find_job data jobId) as [job |] eqn:E; [by apply Hg |].
  destruct (String.eqb_spec jobId id) as [<- |]; done.
Qed.

(** The dead letter of the job goes with it. *)
Lemma with_job_dead jobId id (g : Job -> ConsoleData -> ConsoleData) data :
  (forall job, find_job data jobId = Some job ->
     findDeadLetter (g job data) id =
     (if String.eqb jobId id then None else findDeadLetter data id)) ->
  findDeadLetter (with_job jobId g data) id =
  (if String.eqb jobId id && bool_decide (is_Some (find_job data jobId)) then None
   else findDeadLetter data id).
Proof.
  intros Hg. unfold with_job. destruct (find_job data jobId) as [job |] eqn:E.
  - rewrite Hg by done. rewrite bool_decide_eq_true_2 by eauto. by rewrite andb_true_r.
  - rewrite bool_decide_eq_false_2 by (by intros [? ?]). by rewrite andb_false_r.
Qed.
End Lookup_lemmas.

(** The updates of a job keep its id. *)
Lemma retried_id now job : Job.id (retried now job) = Job.id job.
Proof. by destruct job. Qed.
Lemma canceled_id now job : Job.id (canceled_job now job) = Job.id job.
Proof. by destruct job. Qed.
Lemma bulk_replayed_id now queue payload job :
  Job.id (bulk_replayed now queue payload job) = Job.id job.
Proof. by destruct job. Qed.
Lemma replayed_id now queue payload job :
  Job.id (replayed_dead_letter now queue payload job) = Job.id job.
Proof. by destruct job. Qed.

Lemma bulk_replayed_twice now queue payload job :
  bulk_replayed now queue payload (bulk_replayed now queue payload job) =
  bulk_replayed now queue payload job.
Proof. destruct job, payload; done. Qed.

Section Demo_lemmas.
Context `{DateHost} `{JsonHost} `{ActionApi}.

(** What the updaters of the demo mode do to the jobs. *)
Lemma demo_updates now jobId delta data :
  distinct data ->
  let updated f id :=
    if String.eqb jobId id then f <$> find_job data jobId else find_job data id in
  let adjusted := priority_demo now jobId delta data in
  (forall id, find_job (retry_demo now jobId data) id = updated (retried now) id) /\
  (forall id, findDeadLetter (retry_demo now jobId data) id =
     if String.eqb jobId id && bool_decide (is_Some (find_job data jobId)) then None
     else findDeadLetter data id) /\
  (forall id, find_job (cancel_demo now jobId data) id = updated (canceled_job now) id) /\
  (forall id, findDeadLetter (cancel_demo now jobId data) id = findDeadLetter data id) /\
  (forall job, find_job data jobId = Some job ->
     find_job adjusted jobId = Some (JobWith.updatedAt (iso_of_time now) (JobWith.priority
       (clamp (num_add (Job.priority job) (num_of_Z delta)) (num_of_Z 0) (num_of_Z 9)) job))) /\
  (forall id, id <> jobId -> find_job adjusted id = find_job data id) /\
  (find_job data jobId = None ->
     retry_demo now jobId data = data /\ cancel_demo now jobId data = data /\ adjusted = data).
Proof.
  intros Hd. cbn zeta. split_and!.
  - intros id. apply with_job_lookup. intros job Hj%find_job_id. rewrite find_append.
    rewrite <- Hj, <- (retried_id now job). by apply requeue_lookup.
  - intros id. apply with_job_dead. intros job Hj%find_job_id. rewrite dead_append.
    rewrite <- Hj, <- (retried_id now job). by apply requeue_lookup.
  - intros id. apply with_job_lookup. intros job Hj%find_job_id.
    rewrite find_append, find_replace, canceled_id, Hj; done.
  - intros id. unfold cancel_demo, with_job. destruct (find_job _ _); [| done].
    by rewrite dead_append, dead_replace.
  - intros job Hj. unfold priority_demo, with_job. rewrite Hj, find_append, find_replace by done.
    apply find_job_id in Hj. destruct job. cbn [Job.id JobWith.updatedAt JobWith.priority Job.priority] in *.
    subst. by rewrite String.eqb_refl.
  - intros id Hne. unfold priority_demo, with_job. destruct (find_job data jobId) as [job |] eqn:E; [| done].
    rewrite find_append, find_replace by done. apply find_job_id in E. destruct job. cbn in *.
    rewrite (proj2 (String.eqb_neq _ _)) by congruence. done.
  - intros E. unfold retry_demo, cancel_demo, priority_demo, with_job. by rewrite E.
Qed.

(** One iteration of the bulk replay. *)
Lemma bulk_step_lookup now queue payload data jobId :
  distinct data ->
  let data' := bulk_step now queue payload data jobId in
  distinct data' /\
  (forall id, find_job data' id =
     if String.eqb jobId id then bulk_replayed now queue payload <$> find_job data jobId
     else find_job data id) /\
  (forall id, findDeadLetter data' id =
     if String.eqb jobId id && bool_decide (is_Some (find_job data jobId)) then None
     else findDeadLetter data id).
Proof.
  intros Hd. cbn zeta. unfold bulk_step. split_and!.
  - unfold with_job. destruct (find_job _ _); [| done]. by apply ok_distinct, requeue_ok.
  - intros id. apply with_job_lookup. intros job Hj%find_job_id.
    rewrite <- Hj, <- (bulk_replayed_id now queue payload job). by apply requeue_lookup.
  - intros id. apply with_job_dead. intros job Hj%find_job_id.
    rewrite <- Hj, <- (bulk_replayed_id now queue payload job). by apply requeue_lookup.
Qed.

Lemma bulk_replay_lookup now queue payload selected data id :
  distinct data ->
  let data' := bulk_replay_demo now selected queue payload data in
  let chosen := existsb (String.eqb id) selected in
  find_job data' id =
    (if chosen then bulk_replayed now queue payload <$> find_job data id else find_job data id) /\
  findDeadLetter data' id =
    (if chosen && bool_decide (is_Some (find_job data id)) then None else findDeadLetter data id).
Proof.
  cbn zeta. unfold bulk_replay_demo. rewrite find_append, dead_append. revert data.
  induction selected as [| jobId selected IH]; intros data Hd; cbn [foldl existsb]; [done |].
  destruct (bulk_step_lookup now queue payload data jobId Hd) as (Hd' & Hf & Hl).
  destruct (IH _ Hd') as [-> ->]. rewrite Hf, Hl, (String.eqb_sym jobId id).
  destruct (String.eqb_spec id jobId) as [-> | Hne]; cbn [orb andb]; [| done].
  destruct (find_job data jobId) as [job |]; cbn [fmap option_fmap option_map].
  - rewrite bulk_replayed_twice, !bool_decide_eq_true_2 by eauto.
    by destruct (existsb _ selected).
  - rewrite !bool_decide_eq_false_2 by (by intros [? ?]). by destruct (existsb _ selected).
Qed.

Lemma bulk_delete_lookup now selected data id :
  distinct data ->
  find_job (bulk_delete_demo now selected data) id = find_job data id /\
  findDeadLetter (bulk_delete_demo now selected data) id =
    (if existsb (String.eqb id) selected then None else findDeadLetter data id).
Proof.
  intros Hd. unfold bulk_delete_demo. rewrite find_append, dead_append. split; [by apply find_remove |].
  by apply removeDeadLetters_spec, Hd.
Qed.

(** A job drafted from a form that passes has the request's tenant and type, and
    the form's key. *)
Lemma drafted_names now id draft request job :
  trim (JobDraft.type draft) <> "" ->
  createJobFromDraft now id draft (r_payload request) = Ok job ->
  Job.id job = id /\ Job.type job = trim (JobDraft.type draft) /\
  Job.tenantId job = or_else (trim (JobDraft.tenantId draft)) "default" /\
  Job.idempotencyKey job = Some (trim (JobDraft.idempotencyKey draft)).
Proof.
  intros Hty Hj. unfold createJobFromDraft in Hj.
  destruct (to_iso_string _) as [runAt |]; [| done]. cbn [result_bind] in Hj. injection Hj as <-.
  cbn. split_and!; try done. unfold or_else. by rewrite (proj2 (truthy_true _) Hty).
Qed.

Lemma request_names draft validation payload request :
  jobRequest draft validation payload = Ok request ->
  r_type request = trim (JobDraft.type draft) /\
  r_tenantId request = or_else (trim (JobDraft.tenantId draft)) "default".
Proof.
  unfold jobRequest. destruct (if truthy _ then _ else _); [| done]. cbn [result_bind].
  by intros [= <-].
Qed.

Lemma find_some_iff {A} (p : A -> bool) l :
  is_Some (List.find p l) <-> exists x, x ∈ l /\ p x = true.
Proof.
  split.
  - intros [x [Hin Hp]%find_some]. exists x. by rewrite list_elem_of_In.
  - intros (x & Hin%list_elem_of_In & Hp). destruct (List.find p l) eqn:E; [by eexists |].
    by rewrite (find_none _ _ E x Hin) in Hp.
Qed.

(** Submitting the same keyed form again finds the job. *)
(** The job carries the names of the form that passed. *)
Definition same_submission (draft : JobDraft) (job : Job) : Prop :=
  Job.tenantId job = trim (JobDraft.tenantId draft) /\ Job.type job = trim (JobDraft.type draft) /\
  trim (opt_default (Job.idempotencyKey job) "") = trim (JobDraft.idempotencyKey draft).

Lemma find_first {A} (p : A -> bool) l1 x l2 :
  p x = true -> (forall y, y ∈ l1 -> p y = false) -> List.find p (l1 ++ x :: l2) = Some x.
Proof.
  intros Hx Hl. induction l1 as [| y l1 IH]; cbn; [by rewrite Hx |].
  rewrite (Hl y) by (by left). apply IH. intros z Hz. apply Hl. by right.
Qed.

Lemma duplicate_spec now draft request data :
  checkJobForm now draft = Ok (inr request) ->
  let key := trim (JobDraft.idempotencyKey draft) in
  (forall before duplicate after,
     key <> "" -> ConsoleData.jobs data = before ++ duplicate :: after -> same_submission draft duplicate ->
     (forall job, job ∈ before -> ~ same_submission draft job) ->
     duplicate_of draft request data = Some duplicate) /\
  (key = "" \/ (forall job, job ∈ ConsoleData.jobs data -> ~ same_submission draft job) ->
   duplicate_of draft request data = None).
Proof.
  intros (Hok & payload & _ & _ & Hr)%checkJobForm_passes. cbn zeta.
  destruct Hok as (Hnty & Hnte & _). apply request_names in Hr as [Hrt Hre].
  unfold or_else in Hre. rewrite (proj2 (truthy_true _) Hnte) in Hre.
  set (p := fun job => String.eqb (Job.tenantId job) (r_tenantId request) &&
    String.eqb (Job.type job) (r_type request) &&
    String.eqb (trim (opt_default (Job.idempotencyKey job) "")) (trim (JobDraft.idempotencyKey draft))).
  assert (forall job, p job = true <-> same_submission draft job) as Hp.
  { intros job. unfold p, same_submission. rewrite !andb_true_iff, !String.eqb_eq, Hrt, Hre. tauto. }
  assert (forall job, ~ same_submission draft job -> p job = false) as Hn.
  { intros job Hs. destruct (p job) eqn:E; [by apply Hp in E | done]. }
  unfold duplicate_of. change (fun job => _) with p. split.
  - intros before duplicate after Hk -> Hs Hb. rewrite (proj2 (truthy_true _) Hk).
    apply find_first; [by apply Hp |]. intros job Hj. by apply Hn, Hb.
  - intros Hc. destruct (truthy _) eqn:Et; [| done]. apply truthy_true in Et.
    destruct Hc as [? | Hno]; [done |]. destruct (List.find p _) as [job |] eqn:E; [| done].
    apply find_some in E as [Hin Hpj]. apply Hp in Hpj.
    by destruct (Hno job (proj2 (list_elem_of_In _ _) Hin)).
Qed.

Lemma drafted_same now now' id draft request job :
  checkJobForm now draft = Ok (inr request) ->
  createJobFromDraft now' id draft (r_payload request) = Ok job -> same_submission draft job.
Proof.
  intros (Hok & _)%checkJobForm_passes Hj. destruct Hok as (Hnty & Hnte & _).
  apply (drafted_names now' id draft request job Hnty) in Hj as (_ & Hty & Hte & Hkey).
  unfold or_else in Hte. rewrite (proj2 (truthy_true _) Hnte) in Hte.
  unfold same_submission. rewrite Hty, Hte, Hkey. cbn [opt_default]. by rewrite trim_idem.
Qed.
End Demo_lemmas.

(** * What the actions make of a job *)

(** A job that is retried: queued now, without attempts, times, leases or outcome. *)
Definition job_requeued (now : Z) (job : Job) : Job :=
  {| Job.id := Job.id job; Job.type := Job.type job; Job.queue := Job.queue job;
     Job.tenantId := Job.tenantId job; Job.payload := Job.payload job;
     Job.priority := Job.priority job; Job.attempts := num_of_Z 0;
     Job.maxAttempts := Job.maxAttempts job; Job.state := queued;
     Job.schemaVersion := Job.schemaVersion job; Job.idempotencyKey := Job.idempotencyKey job;
     Job.workflowId := Job.workflowId job; Job.parentJobId := Job.parentJobId job;
     Job.dependencyPolicy := Job.dependencyPolicy job; Job.blockedReason := Some "";
     Job.createdAt := Job.createdAt job; Job.updatedAt := iso_of_time now;
     Job.runAt := iso_of_time now; Job.startedAt := None; Job.finishedAt := None;
     Job.lastHeartbeatAt := None; Job.leaseExpiresAt := None; Job.throttleUntil := None;
     Job.lastError := Some ""; Job.result := VUndefined; Job.workerId := Job.workerId job;
     Job.leaseToken := Job.leaseToken job; Job.timeoutSeconds := Job.timeoutSeconds job;
     Job.cancelRequested := false; Job.executionMs := Job.executionMs job |}.

(** A job that is cancelled now. *)
Definition job_cancelled (now : Z) (job : Job) : Job :=
  {| Job.id := Job.id job; Job.type := Job.type job; Job.queue := Job.queue job;
     Job.tenantId := Job.tenantId job; Job.payload := Job.payload job;
     Job.priority := Job.priority job; Job.attempts := Job.attempts job;
     Job.maxAttempts := Job.maxAttempts job; Job.state := canceled;
     Job.schemaVersion := Job.schemaVersion job; Job.idempotencyKey := Job.idempotencyKey job;
     Job.workflowId := Job.workflowId job; Job.parentJobId := Job.parentJobId job;
     Job.dependencyPolicy := Job.dependencyPolicy job; Job.blockedReason := Job.blockedReason job;
     Job.createdAt := Job.createdAt job; Job.updatedAt := iso_of_time now; Job.runAt := Job.runAt job;
     Job.startedAt := Job.startedAt job; Job.finishedAt := Some (iso_of_time now);
     Job.lastHeartbeatAt := Job.lastHeartbeatAt job; Job.leaseExpiresAt := Job.leaseExpiresAt job;
     Job.throttleUntil := Job.throttleUntil job; Job.lastError := Some "canceled by operator";
     Job.result := Job.result job; Job.workerId := Job.workerId job;
     Job.leaseToken := Job.leaseToken job; Job.timeoutSeconds := Job.timeoutSeconds job;
     Job.cancelRequested := true; Job.executionMs := Job.executionMs job |}.

(** A job that is given another priority now. *)
Definition job_reprioritised (now : Z) (priority : num) (job : Job) : Job :=
  {| Job.id := Job.id job; Job.type := Job.type job; Job.queue := Job.queue job;
     Job.tenantId := Job.tenantId job; Job.payload := Job.payload job; Job.priority := priority;
     Job.attempts := Job.attempts job; Job.maxAttempts := Job.maxAttempts job;
     Job.state := Job.state job; Job.schemaVersion := Job.schemaVersion job;
     Job.idempotencyKey := Job.idempotencyKey job; Job.workflowId := Job.workflowId job;
     Job.parentJobId := Job.parentJobId job; Job.dependencyPolicy := Job.dependencyPolicy job;
     Job.blockedReason := Job.blockedReason job; Job.createdAt := Job.createdAt job;
     Job.updatedAt := iso_of_time now; Job.runAt := Job.runAt job; Job.startedAt := Job.startedAt job;
     Job.finishedAt := Job.finishedAt job; Job.lastHeartbeatAt := Job.lastHeartbeatAt job;
     Job.leaseExpiresAt := Job.leaseExpiresAt job; Job.throttleUntil := Job.throttleUntil job;
     Job.lastError := Job.lastError job; Job.result := Job.result job;
     Job.workerId := Job.workerId job; Job.leaseToken := Job.leaseToken job;
     Job.timeoutSeconds := Job.timeoutSeconds job; Job.cancelRequested := Job.cancelRequested job;
     Job.executionMs := Job.executionMs job |}.

(** A job that is replayed from its dead letter: queued now in [queue], with the
    override if there is one, without attempts or error. *)
Definition job_replayed (now : Z) (queue : string) (payload : option jsval) (job : Job) : Job :=
  {| Job.id := Job.id job; Job.type := Job.type job; Job.queue := queue;
     Job.tenantId := Job.tenantId job;
     Job.payload := match payload with Some value => value | None => Job.payload job end;
     Job.priority := Job.priority job; Job.attempts := num_of_Z 0;
     Job.maxAttempts := Job.maxAttempts job; Job.state := queued;
     Job.schemaVersion := Job.schemaVersion job; Job.idempotencyKey := Job.idempotencyKey job;
     Job.workflowId := Job.workflowId job; Job.parentJobId := Job.parentJobId job;
     Job.dependencyPolicy := Job.dependencyPolicy job; Job.blockedReason := Job.blockedReason job;
     Job.createdAt := Job.createdAt job; Job.updatedAt := iso_of_time now;
     Job.runAt := iso_of_time now; Job.startedAt := None; Job.finishedAt := None;
     Job.lastHeartbeatAt := Job.lastHeartbeatAt job; Job.leaseExpiresAt := Job.leaseExpiresAt job;
     Job.throttleUntil := Job.throttleUntil job; Job.lastError := Some "";
     Job.result := Job.result job; Job.workerId := Job.workerId job;
     Job.leaseToken := Job.leaseToken job; Job.timeoutSeconds := Job.timeoutSeconds job;
     Job.cancelRequested := Job.cancelRequested job; Job.executionMs := Job.executionMs job |}.

Lemma retried_spec now job : retried now job = job_requeued now job.
Proof. by destruct job. Qed.

Lemma canceled_spec now job : canceled_job now job = job_cancelled now job.
Proof. by destruct job. Qed.

Lemma bulk_replayed_spec now queue payload job :
  bulk_replayed now queue payload job = job_replayed now queue payload job.
Proof. destruct job. by destruct payload. Qed.

(** * Properties *)

Section Properties.
Context `{DateHost} `{JsonHost} `{ActionApi}.

(** C22: The console data stays consistent whatever is done: reconciled data with
    distinct ids has an overview that summarises its jobs, at most sixty events and
    the first sixteen blocked and throttled jobs, and every run of handlers (in
    demo and live mode), answers, failures, effects and edits keeps it so. *)
Theorem actions_keep_data now data c c' :
  (distinct data -> data_ok (reconcileConsoleData now data)) /\
  (data_ok (Console.data c) -> rtc step c c' -> data_ok (Console.data c')).
Proof.
  split; [apply reconcile_ok |]. intros Hd Hs. induction Hs as [| c c1 c' H1' _ IH]; [done |].
  by apply IH, (console_step_ok c).
Qed.

(** C23: The flags of the buttons tell which tasks run: in every run each raised
    flag belongs to a task under way; when no action starts while its flag is up,
    every task under way has its flag up too and flags and tasks correspond one to
    one; and whether its request succeeds or fails, a waiting task can end, which
    takes its flag down and removes it. *)
Theorem busy_flags data settings tab job c :
  (rtc step (initial data settings tab job) c ->
     forall key, key ∈ Console.busyMap c -> under_way c key) /\
  (rtc calm_step (initial data settings tab job) c ->
     (forall key, key ∈ Console.busyMap c <-> under_way c key) /\
     forall id id' key p p',
       Console.tasks c !! id = Some (mkTask key p) -> Console.tasks c !! id' = Some (mkTask key p') ->
       id = id') /\
  (forall now id key call sent answer,
     Console.tasks c !! id = Some (mkTask key (Waiting call sent)) ->
     exists c1 c2, resume now id answer c = Some c1 /\ settle id c1 = Some c2 /\
       key ∉ Console.busyMap c2 /\ Console.tasks c2 = delete id (Console.tasks c)).
Proof.
  pose proof (initial_calm data settings tab job) as Hi. split_and!.
  - intros Hs. apply calm_flags in Hi. revert Hi.
    induction Hs as [s | s s1 s' H1' _ IH]; intros Hi; [apply Hi |]. by eapply IH, step_flags.
  - intros Hs. assert (calm_ok c) as [Hf Hu Hsingle].
    { revert Hi. induction Hs as [s | s s1 s' H1' _ IH]; intros Hi; [done |].
      by eapply IH, calm_step_ok. }
    split; [| done]. intros key. split; [apply Hf |]. intros (id & p & Hid). by eapply Hu.
  - intros now id key call sent answer Hid.
    assert (exists c1, resume now id answer c = Some c1) as [c1 Hc1]
      by (unfold resume; rewrite Hid; cbn; eauto).
    exists c1. apply resume_tasks in Hc1 as Ht. destruct Ht as (key' & call' & sent' & Hid' & Ht & Hb & _).
    assert (key' = key) as -> by congruence.
    assert (exists c2, settle id c1 = Some c2) as [c2 Hc2]
      by (unfold settle; rewrite Ht, lookup_insert_eq; cbn; eauto).
    exists c2. split; [done |]. split; [done |].
    apply settle_tasks in Hc2 as (key'' & Hid'' & Ht2 & Hb2 & _).
    rewrite Ht, lookup_insert_eq in Hid''. injection Hid'' as <-.
    split; [set_solver |]. by rewrite Ht2, Ht, delete_insert_eq.
Qed.

(** C24: In demo mode retrying, cancelling and reprioritising a job change that job
    and no other. Retrying queues it anew, without attempts, times, leases, outcome
    or a request to cancel, and removes its dead letter; cancelling marks it
    cancelled now; a priority change moves its priority by the step, within 0 to 9.
    A job that is not there leaves the data as they are. In live mode none of the
    three touches the data: the first two send their request and wait for it, and a
    priority change sends nothing, starts nothing and only notifies. *)
Theorem job_actions_exact now jobId delta c :
  distinct (Console.data c) ->
  let data := Console.data c in
  let retry := Console.data (retryJob now jobId c) in
  let cancel := Console.data (cancelJob now jobId c) in
  let adjusted := adjustPriority now jobId delta c in
  let updated f id :=
    if String.eqb jobId id then f <$> find_job data jobId else find_job data id in
  (live c = false ->
     (forall id, find_job retry id = updated (job_requeued now) id) /\
     (forall id, findDeadLetter retry id =
        if String.eqb jobId id && bool_decide (is_Some (find_job data jobId)) then None
        else findDeadLetter data id) /\
     (forall id, find_job cancel id = updated (job_cancelled now) id) /\
     (forall id, findDeadLetter cancel id = findDeadLetter data id) /\
     (forall job, find_job data jobId = Some job -> exists priority,
        find_job (Console.data adjusted) jobId = Some (job_reprioritised now priority job) /\
        priority = clamp (num_add (Job.priority job) (num_of_Z delta)) (num_of_Z 0) (num_of_Z 9) /\
        (is_nan (num_add (Job.priority job) (num_of_Z delta)) = false ->
         num_le (num_of_Z 0) priority = true /\ num_le priority (num_of_Z 9) = true)) /\
     (forall id, id <> jobId -> find_job (Console.data adjusted) id = find_job data id) /\
     (find_job data jobId = None -> retry = data /\ cancel = data /\ Console.data adjusted = data)) /\
  (live c = true ->
     retry = data /\ cancel = data /\ Console.data adjusted = data /\ same_tasks c adjusted /\
     (exists toast, Console.notified adjusted = Console.notified c ++ [toast]) /\
     Console.tasks (retryJob now jobId c) !! Console.next c =
       Some (mkTask ("job-retry-" +:+ jobId)
         (Waiting (CallRetry jobId) (post (API_ROUTES.jobRetry jobId) None (Some parseJob)))) /\
     Console.tasks (cancelJob now jobId c) !! Console.next c =
       Some (mkTask ("job-cancel-" +:+ jobId)
         (Waiting (CallCancel jobId) (post (API_ROUTES.jobCancel jobId) None (Some parseJob))))).
Proof.
  intros Hd. cbn zeta.
  assert (forall key s, live (setBusy key true s) = live s) as Hlive by (by intros key []).
  split; intros Hl.
  - assert (Console.data (retryJob now jobId c) = retry_demo now jobId (Console.data c)) as ->
      by (unfold retryJob; rewrite data_runBusy, Hlive, Hl; by destruct c).
    assert (Console.data (cancelJob now jobId c) = cancel_demo now jobId (Console.data c)) as ->
      by (unfold cancelJob; rewrite data_runBusy, Hlive, Hl; by destruct c).
    assert (Console.data (adjustPriority now jobId delta c) = priority_demo now jobId delta (Console.data c)) as ->
      by (unfold adjustPriority; rewrite Hl; by destruct c).
    destruct (demo_updates now jobId delta (Console.data c) Hd) as (D1 & D2 & D3 & D4 & D5 & D6 & D7).
    split_and!; try done.
    + intros id. rewrite D1. destruct (String.eqb jobId id); [| done].
      destruct (find_job _ _); [| done]. cbn. by rewrite retried_spec.
    + intros id. rewrite D3. destruct (String.eqb jobId id); [| done].
      destruct (find_job _ _); [| done]. cbn. by rewrite canceled_spec.
    + intros job Hj. eexists. split; [rewrite (D5 job Hj); by destruct job |]. split; [done |].
      intros Hn. by apply clamp_between.
  - unfold retryJob, cancelJob, adjustPriority, runBusy. rewrite !Hlive, Hl.
    destruct c. console_simpl. rewrite !lookup_insert_eq. split_and!; try done. by eexists.
Qed.

(** C25: Submitting a job in demo mode. A form that fails shows its errors and starts
    nothing. One that passes and names an idempotency key is suppressed exactly when
    a job of the session has the same tenant, type and key, whatever its state and
    queue: the data stay as they are and the first such job is selected. Otherwise
    the drafted job joins the data under its id, is selected and shown, no other job
    changes, and with a key the data now hold a job that the same form would be
    suppressed for; a draft that cannot be dated throws instead. *)
Theorem submit_demo_exact now id c :
  live c = false -> distinct (Console.data c) ->
  let draft := Console.jobDraft c in
  let data := Console.data c in
  let key := trim (JobDraft.idempotencyKey draft) in
  let same job := Job.tenantId job = trim (JobDraft.tenantId draft) /\
    Job.type job = trim (JobDraft.type draft) /\ trim (opt_default (Job.idempotencyKey job) "") = key in
  (forall errors, checkJobForm now draft = Ok (inl errors) ->
     exists c', submitJob now id c = Ok c' /\ Console.data c' = data /\ same_tasks c c' /\
       Console.jobFormErrors c' = errors) /\
  (forall request, checkJobForm now draft = Ok (inr request) ->
     (forall before duplicate after,
        key <> "" -> ConsoleData.jobs data = before ++ duplicate :: after -> same duplicate ->
        (forall job, job ∈ before -> ~ same job) ->
        exists c', submitJob now id c = Ok c' /\ Console.data c' = data /\
          Console.selectedJobId c' = Job.id duplicate) /\
     (key = "" \/ (forall job, job ∈ ConsoleData.jobs data -> ~ same job) ->
      match createJobFromDraft now id draft (r_payload request) with
      | Throw error => submitJob now id c = Throw error
      | Ok job =>
          exists c', submitJob now id c = Ok c' /\
            Console.selectedJobId c' = id /\ Console.selectedTab c' = "jobs" /\
            (forall other, find_job (Console.data c') other =
               if String.eqb id other then Some job else find_job data other) /\
            (key <> "" -> exists duplicate, duplicate ∈ ConsoleData.jobs (Console.data c') /\ same duplicate)
      end)).
Proof.
  intros Hl Hd. cbn zeta. split.
  - intros errors He. unfold submitJob. rewrite He. cbn [result_bind]. eexists. split; [done |].
    by destruct c.
  - intros request Hr. unfold submitJob. rewrite Hr. cbn [result_bind]. rewrite Hl.
    assert (Console.data (setBusy "submit-job" true c) = Console.data c) as Hdata by (by destruct c).
    pose proof (duplicate_spec now (Console.jobDraft c) request (Console.data c) Hr) as [Hfound Hnone].
    unfold submit_demo. rewrite Hdata. split.
    + intros before duplicate after Hk Ej Hs Hb. rewrite (Hfound before duplicate after Hk Ej Hs Hb).
      cbn [result_bind]. eexists. split; [done |]. by destruct c.
    + intros Hno. rewrite (Hnone Hno).
      destruct (createJobFromDraft now id (Console.jobDraft c) (r_payload request)) as [job |] eqn:Hj; [| done].
      cbn [result_bind]. eexists. split; [done |].
      pose proof Hr as ([Hnty _] & _)%checkJobForm_passes.
      pose proof (drafted_names now id (Console.jobDraft c) request job Hnty Hj) as (Hid & _).
      assert (forall other, find_job (appendEvent (replaceJob now (Console.data c) job)
          (job_event now "job.enqueued" (Job.id job) (Job.queue job) (Some (Job.state job))
             ("job queued into " +:+ Job.queue job))) other =
          (if String.eqb id other then Some job else find_job (Console.data c) other)) as Hf
        by (intros other; by rewrite find_append, find_replace, Hid).
      destruct c. console_simpl. split_and!; try done. intros Hk. cbn [Console.jobDraft] in *.
      exists job. split; [| by eapply drafted_same].
      specialize (Hf id). rewrite String.eqb_refl in Hf. apply find_some in Hf as [Hin _].
      by apply list_elem_of_In.
Qed.

(** C26: Bulk actions on dead letters. In demo mode a replay queues every selected
    job that is known anew, in the chosen queue and with the override if there is
    one, and removes its dead letter, while a selected dead letter without a job
    stays; a deletion removes the selected records and touches no job; and no other
    job or record changes. In live mode the data stay as they are: each sends the
    selected ids, the replay with its queue and override, and waits. Without a
    selection, or with an override that does not parse for a replay, the data stay
    and nothing starts. A demo action clears the selection. *)
Theorem dead_letter_actions_exact now c :
  let data := Console.data c in
  let selected := Console.selectedDeadLetters c in
  let queue := Console.bulkReplayQueue c in
  let replayed := replaySelectedDeadLetters now c in
  let deleted := deleteSelectedDeadLetters now c in
  let chosen id := existsb (String.eqb id) selected in
  (selected = [] ->
     Console.data replayed = data /\ same_tasks c replayed /\
     Console.data deleted = data /\ same_tasks c deleted) /\
  (forall error, bulk_payload (Console.bulkReplayPayload c) = inl error ->
     Console.data replayed = data /\ same_tasks c replayed) /\
  (selected <> [] -> live c = false -> distinct data ->
     Console.selectedDeadLetters deleted = [] /\
     (forall id,
        find_job (Console.data deleted) id = find_job data id /\
        findDeadLetter (Console.data deleted) id =
          (if chosen id then None else findDeadLetter data id)) /\
     forall payload, bulk_payload (Console.bulkReplayPayload c) = inr payload ->
       Console.selectedDeadLetters replayed = [] /\
       forall id,
         find_job (Console.data replayed) id =
           (if chosen id then job_replayed now queue payload <$> find_job data id else find_job data id) /\
         findDeadLetter (Console.data replayed) id =
           (if chosen id && bool_decide (is_Some (find_job data id)) then None
            else findDeadLetter data id)) /\
  (selected <> [] -> live c = true ->
     Console.data deleted = data /\
     Console.tasks deleted !! Console.next c =
       Some (mkTask "bulk-delete" (Waiting CallBulkDelete
         (post API_ROUTES.deadLettersDelete
            (Some (VObj [("jobIds", VArr (List.map VStr selected))])) None))) /\
     forall payload, bulk_payload (Console.bulkReplayPayload c) = inr payload ->
       Console.data replayed = data /\
       Console.tasks replayed !! Console.next c =
         Some (mkTask "bulk-replay" (Waiting (CallBulkReplay (length selected))
           (post API_ROUTES.deadLettersReplay
              (Some (VObj [("jobIds", VArr (List.map VStr selected)); ("queue", VStr queue);
                           ("payload", match payload with Some value => value | None => VUndefined end)]))
              (Some parseJobs))))).
Proof.
  cbn zeta. unfold replaySelectedDeadLetters, deleteSelectedDeadLetters.
  assert (forall key s, live (setBusy key true s) = live s) as Hlive by (by intros key []).
  destruct (Console.selectedDeadLetters c) as [| first others] eqn:Es; split_and!; try done.
  - intros _. by destruct c.
  - intros error _. by destruct c.
  - intros error ->. by destruct c.
  - intros _ Hl Hd. unfold runBusy. rewrite !Hlive, Hl. split_and!.
    + by destruct c.
    + intros id. destruct (bulk_delete_lookup now (first :: others) (Console.data c) id Hd) as [<- <-].
      destruct c. by console_simpl.
    + intros payload ->. split; [by destruct c |]. intros id.
      destruct (bulk_replay_lookup now (Console.bulkReplayQueue c) payload (first :: others)
        (Console.data c) id Hd) as [E1 E2].
      destruct c. console_simpl. cbn [Console.data Console.bulkReplayQueue] in *. rewrite E1, E2.
      split; [| done]. match goal with |- (if ?b then _ else _) = _ => destruct b; [| done] end.
      destruct (find_job data id) as [job |]; cbn; [by rewrite bulk_replayed_spec | reflexivity].
  - intros _ Hl. unfold runBusy. rewrite !Hlive, Hl. split_and!; [by destruct c | |].
    + destruct c. console_simpl. by rewrite lookup_insert_eq.
    + intros payload ->. split; [by destruct c |]. destruct c. console_simpl.
      rewrite lookup_insert_eq. by destruct payload.
Qed.
End Properties.

(** * Witnesses *)

#[local] Existing Instance utc_host.
#[local] Instance sample_json : JsonHost := {| syntax_error_message := fun _ => "unexpected token" |}.
#[local] Instance sample_action_api : ActionApi := {| as_job := fun _ => sample_job |}.

Definition demo_settings : ConsoleSettings :=
  {| environment := "Demo Sandbox"; baseUrlInput := ""; token := ""; liveMode := false;
     liveUpdates := true; pollIntervalMs := 15000 |}.

Definition live_settings : ConsoleSettings :=
  {| environment := "Demo Sandbox"; baseUrlInput := "http://localhost:8080"; token := "t";
     liveMode := true; liveUpdates := true; pollIntervalMs := 15000 |}.

(** A dead letter of the sample job. *)
Definition sample_dead_letter : DeadLetter :=
  {| DeadLetter.jobId := "job-1"; DeadLetter.queue := "default"; DeadLetter.errorType := Some "panic";
     DeadLetter.errorMessage := "boom"; DeadLetter.failedAt := "2026-03-12T20:00:09Z";
     DeadLetter.workerId := "worker-a"; DeadLetter.stackTrace := None;
     DeadLetter.lastAttempt := num_of_Z 5; DeadLetter.replayCount := num_of_Z 0;
     DeadLetter.lastReplayedAt := None;
     DeadLetter.job := Some sample_job; DeadLetter.attempts := None |}.

Definition sample_failed : ConsoleData :=
  set_snapshot (set_deadLetters [sample_dead_letter] createEmptySnapshot) sample_data.

Definition demo_console : Console :=
  Console.set_selectedDeadLetters ["job-1"; "unknown"]
    (initial sample_failed demo_settings "jobs" "job-1").

Definition live_console : Console := initial sample_failed live_settings "jobs" "job-1".

Definition sample_now : Z := 1773345600000.
Definition sample_ids (n : nat) : string := "new-" +:+ dec (Z.of_nat n).

Lemma sample_distinct : distinct sample_failed.
Proof. split; apply (bool_decide_unpack _); vm_compute; exact I. Qed.

Lemma sample_fresh : fresh_ids sample_ids sample_failed.
Proof. split; apply (bool_decide_unpack _); vm_compute; exact I. Qed.

(** The sample data after a reconciliation; then the job is retried. *)
Definition reconciled_console : Console :=
  setConsoleData (reconcileConsoleData sample_now) demo_console.

Lemma actions_keep_data_witness : data_ok (Console.data (retryJob sample_now "job-1" reconciled_console)).
Proof.
  destruct (actions_keep_data sample_now sample_failed reconciled_console
    (retryJob sample_now "job-1" reconciled_console)) as [Hstart Hrun].
  apply Hrun; [exact (Hstart sample_distinct) |]. apply rtc_once.
  apply (step_action sample_now sample_ids (RetryJob "job-1")); [| reflexivity].
  split; apply (bool_decide_unpack _); vm_compute; exact I.
Defined.

Lemma busy_flags_witness :
  let c := retryJob sample_now "job-1" live_console in
  (forall key, key ∈ Console.busyMap c <-> under_way c key) /\
  exists c1 c2, resume sample_now 0 None c = Some c1 /\ settle 0 c1 = Some c2 /\
    Console.busyMap c2 = ∅.
Proof.
  cbn zeta. destruct (busy_flags sample_failed live_settings "jobs" "job-1"
    (retryJob sample_now "job-1" live_console)) as (_ & Hcalm & Hend).
  split.
  - apply Hcalm, rtc_once. apply (calm_action sample_now sample_ids (RetryJob "job-1")); [reflexivity |].
    intros key _ Hk. by apply elem_of_empty in Hk.
  - destruct (Hend sample_now 0%nat "job-retry-job-1" (CallRetry "job-1")
      (post (API_ROUTES.jobRetry "job-1") None (Some parseJob)) None eq_refl) as (c1 & c2 & H1 & H2 & _).
    exists c1, c2. split; [exact H1 |]. split; [exact H2 |].
    cbn in H1. injection H1 as <-. cbn in H2. injection H2 as <-. apply set_eq. set_solver.
Defined.

Lemma job_actions_exact_witness :
  find_job (Console.data (retryJob sample_now "job-1" demo_console)) "job-1" =
    Some (job_requeued sample_now sample_job) /\
  Console.data (retryJob sample_now "job-1" live_console) = sample_failed.
Proof.
  split.
  - destruct (job_actions_exact sample_now "job-1" 1 demo_console sample_distinct) as [Hdemo _].
    destruct (Hdemo eq_refl) as [Hretry _]. exact (Hretry "job-1").
  - destruct (job_actions_exact sample_now "job-1" 1 live_console sample_distinct) as [_ Hlive].
    exact (proj1 (Hlive eq_refl)).
Defined.

(** The console with a keyed draft in the form. *)
Definition keyed_draft (key : string) : JobDraft :=
  {| JobDraft.type := "email.send"; JobDraft.queue := "default"; JobDraft.tenantId := "default";
     JobDraft.priority := "5"; JobDraft.maxAttempts := "5"; JobDraft.timeoutSeconds := "45";
     JobDraft.delaySeconds := "0"; JobDraft.scheduledAt := ""; JobDraft.workflowId := "";
     JobDraft.dependencies := ""; JobDraft.idempotencyKey := key;
     JobDraft.dedupeWindowSeconds := "900"; JobDraft.payload := "{}" |}.

Lemma submit_demo_exact_witness :
  match submitJob sample_now "new-0" (Console.set_jobDraft (keyed_draft "key") demo_console) with
  | Ok c' => Console.data c' = sample_failed /\ Console.selectedJobId c' = "job-1"
  | Throw _ => False
  end.
Proof.
  set (c := Console.set_jobDraft (keyed_draft "key") demo_console).
  destruct (checkJobForm sample_now (keyed_draft "key")) as [[errors | request] |] eqn:Er;
    [vm_compute in Er; discriminate | | vm_compute in Er; discriminate].
  destruct (submit_demo_exact sample_now "new-0" c eq_refl sample_distinct) as [_ Hsubmit].
  destruct (Hsubmit request Er) as [Hdup _].
  destruct (Hdup [] sample_job []) as (c' & Hc' & Hdata & Hsel).
  - discriminate.
  - reflexivity.
  - split_and!; reflexivity.
  - intros job Hj. by apply not_elem_of_nil in Hj.
  - rewrite Hc'. split; assumption.
Defined.

Lemma dead_letter_actions_exact_witness :
  findDeadLetter (Console.data (replaySelectedDeadLetters sample_now demo_console)) "job-1" = None /\
  find_job (Console.data (deleteSelectedDeadLetters sample_now demo_console)) "job-1" = Some sample_job.
Proof.
  destruct (dead_letter_actions_exact sample_now demo_console) as (_ & _ & Hdemo & _).
  destruct Hdemo as (_ & Hdeleted & Hreplayed); [discriminate | reflexivity | exact sample_distinct |].
  destruct (Hreplayed None eq_refl) as [_ Hr].
  split; [exact (proj2 (Hr "job-1")) | exact (proj1 (Hdeleted "job-1"))].
Defined.
