(* ===== verification/LiveFrame.v ===== *)
(** What the callbacks of LiveData.v leave to the rest of the console: no request
    of somebody else is handled, the props stay, the owner hears of a recovery
    only, and in demo mode the data of the console stay consistent.

    [evolves] says so of one callback; a step of the hook is a chain of them. *)

From stdpp Require Import base list strings gmap relations.
From Stdlib Require Import ZArith Lia Bool.
From S2P Require Import Prelude JsString JsNum JsDate JsValue Models ApiRoutes Safe LiveRefresh.
From S2P Require Import LiveTransport ToastQueue ApiParsers RequestClient RequestPool ConsoleState.
From S2P Require Import Urls DemoData LiveState LiveData LiveTasks ConsoleProperties.

#[local] Open Scope Z_scope.

(** * Consistent demo data *)

(** The data of a console in demo mode. *)
Definition demo_ok (data : ConsoleData) : Prop :=
  data_ok data /\ ConsoleData.source data = source_demo.

Definition shown_data (s : St) : ConsoleData := Hook.consoleData (St.hook s).

(** Nothing is fetched in demo mode. *)
Definition demo_idle (s : St) : Prop :=
  Props.liveMode (St.props s) = false /\ St.refreshTasks s = [].

(** No request was made and no transport was started. *)
Definition silent (s : St) : Prop := requests (St.pool s) = ∅ /\ St.managers s = ∅.

Lemma appendEvents_demo `{DateHost} data events : demo_ok data -> demo_ok (appendEvents data events).
Proof.
  intros [Hok Hs]. split; [by apply appendEvents_ok |].
  by destruct (appendEvents_keeps data events) as (_ & _ & _ & ->).
Qed.

Section Hook.
Context `{UrlApi} `{HeadersApi} `{DateHost} `{Browser} `{ApiView}.

(** * The frame of a callback *)

(** The notifications of the hook. *)
Definition recovery (toast : ToastInput) : Prop := exists mode, toast = recovered_toast mode.

Record frame (s s' : St) : Prop := {
  fr_props : St.props s' = St.props s;
  fr_requests : keeps_requests (St.pool s) (St.pool s');
  fr_notified : exists new, St.notified s' = new ++ St.notified s /\ Forall recovery new;
  fr_refreshes : demo_idle s -> St.refreshTasks s' = [];
  fr_data : demo_idle s -> demo_ok (shown_data s) -> demo_ok (shown_data s');
  fr_silent : demo_idle s -> silent s -> silent s'
}.

#[export] Instance frame_preorder : PreOrder frame.
Proof.
  split.
  - intros s. split; try done; [by exists [] | by intros [_ ?]].
  - intros s1 s2 s3 [P12 K12 (n12 & N12 & F12) R12 D12 S12] [P23 K23 (n23 & N23 & F23) R23 D23 S23].
    assert (demo_idle s1 -> demo_idle s2) as Hidle
      by (intros Hi; split; [rewrite P12; apply Hi | by apply R12]).
    split.
    + congruence.
    + by etransitivity.
    + exists (n23 ++ n12). rewrite N23, N12, app_assoc. split; [done |]. by apply Forall_app.
    + auto.
    + auto.
    + auto.
Qed.

(** A callback under the invariant of the work under way. *)
Definition evolves (s s' : St) : Prop := tasks_of s -> tasks_of s' /\ frame s s'.

#[export] Instance evolves_preorder : PreOrder evolves.
Proof.
  split; [by intros s Hs |]. intros s1 s2 s3 H12 H23 Hs.
  destruct (H12 Hs) as [Hs2 F12], (H23 Hs2) as [Hs3 F23]. split; [done | by etransitivity].
Qed.

(** An update that leaves the requests, the props, the notifications and the
    data alone, and one that may change the data. *)
Record calm (s s' : St) : Prop := {
  calm_tasks : keeps_tasks s s';
  calm_props : St.props s' = St.props s;
  calm_notified : St.notified s' = St.notified s;
  calm_data : demo_ok (shown_data s) -> demo_ok (shown_data s');
  calm_silent : St.managers s = ∅ -> St.managers s' = ∅
}.

#[export] Instance calm_preorder : PreOrder calm.
Proof.
  split; [intros s; split; [reflexivity | done | done | done | done] |].
  intros s1 s2 s3 [K12 P12 N12 D12 S12] [K23 P23 N23 D23 S23]. split; try congruence.
  - by etransitivity.
  - auto.
  - auto.
Qed.

Lemma calm_frame s s' : calm s s' -> frame s s'.
Proof.
  intros [Hk Hp Hn Hd Hm]. split.
  - done.
  - by rewrite (kt_pool _ _ Hk).
  - exists []. by rewrite Hn.
  - intros [_ ?]. by rewrite (kt_refreshes _ _ Hk).
  - intros _. exact Hd.
  - intros _ [Hr Hs]. split; [by rewrite (kt_pool _ _ Hk) | auto].
Qed.

Lemma calm_evolves s s' : calm s s' -> evolves s s'.
Proof.
  intros Hc Hs. split; [eapply tasks_of_keeps; [exact Hs | apply Hc] | by apply calm_frame].
Qed.

(** In live mode nothing is said of the data. *)
Lemma live_frame s s' :
  ~ demo_idle s -> St.props s' = St.props s -> keeps_requests (St.pool s) (St.pool s') ->
  St.notified s' = St.notified s -> frame s s'.
Proof. intros Hl Hp Hk Hn. split; [done | done | by exists [] | done | done | done]. Qed.

Lemma calm_foldl {A} (f : St -> A -> St) l s :
  (forall s a, calm s (f s a)) -> calm s (foldl f s l).
Proof.
  intros Hf. revert s. induction l as [| a l IH]; intros s; [reflexivity |]. cbn.
  etransitivity; [apply Hf | apply IH].
Qed.

(** ** Callbacks that touch neither requests nor data *)

Ltac calm :=
  split; [split; cbn; (reflexivity || lia) | reflexivity | reflexivity | exact (fun Hd => Hd)
         | exact (fun Hm => Hm)].

Lemma calm_hook f s :
  (forall h, Hook.consoleData (f h) = Hook.consoleData h) -> calm s (hook_upd f s).
Proof. intros Hf. split; [apply kt_hook | done | done | | done]. unfold shown_data. cbn. by rewrite Hf. Qed.

Lemma calm_refs f s :
  (forall r, Refs.fetchControllerRef (f r) = Refs.fetchControllerRef r /\
             Refs.inspectionControllerRef (f r) = Refs.inspectionControllerRef r /\
             Refs.fetchPromiseRef (f r) = Refs.fetchPromiseRef r) ->
  calm s (refs_upd f s).
Proof. intros Hf. split; [by apply kt_refs | done | done | done | done]. Qed.

Lemma calm_status f s : calm s (setTransportStatus f s).
Proof. calm. Qed.

Lemma calm_clear id s : calm s (clear_timeout id s).
Proof. destruct id; calm. Qed.

Lemma calm_bump s : calm s (St.set_next (S (St.next s)) s).
Proof. calm. Qed.

Lemma calm_effects e s : calm s (St.set_effects e s).
Proof. calm. Qed.

Lemma calm_loops l s : calm s (St.set_loops l s).
Proof. calm. Qed.

Lemma calm_timers t s : calm s (St.set_timers t s).
Proof. calm. Qed.

Lemma calm_appended events s :
  calm s (setConsoleData (fun current => appendEvents current events) s).
Proof. split; [by split | done | done | | done]. apply appendEvents_demo. Qed.

Create HintDb calm.
#[local] Hint Resolve calm_status calm_clear calm_bump calm_effects calm_loops
  calm_timers calm_appended : calm.
#[local] Hint Extern 1 (calm _ (hook_upd _ _)) => (apply calm_hook; reflexivity) : calm.
#[local] Hint Extern 1 (calm _ (refs_upd _ _)) => (apply calm_refs; by repeat split) : calm.

(** One update at a time, the last one first. *)
Ltac calm_chain :=
  cbn zeta;
  repeat first [ reflexivity | etransitivity; [| solve [auto with calm]] ].

Lemma calm_setTimeout t d s : calm s (snd (setTimeout t d s)).
Proof. calm. Qed.

Lemma calm_updateTransportStatus st s : calm s (updateTransportStatus st s).
Proof. unfold updateTransportStatus. cbn zeta. destruct (sameTransportStatus _ _); calm_chain. Qed.

Lemma calm_scheduleConsoleRefresh s : calm s (scheduleConsoleRefresh s).
Proof.
  unfold scheduleConsoleRefresh.
  etransitivity; [apply (calm_clear (Refs.refreshDebounceRef (St.refs s))) |]. calm.
Qed.

Lemma calm_flushPendingEvents s : calm s (flushPendingEvents s).
Proof.
  unfold flushPendingEvents. cbn zeta. set (s' := match Refs.eventFlushTimerRef _ with Some _ => _ | None => _ end).
  assert (calm s s') as Hs' by (unfold s'; case_match; calm). clearbody s'.
  destruct (Refs.pendingEventsRef (St.refs s')) as [| event events]; [exact Hs' |].
  etransitivity; [| apply calm_scheduleConsoleRefresh]. etransitivity; [exact Hs' |]. calm_chain.
Qed.

Lemma calm_queueLiveEvent e s : calm s (queueLiveEvent e s).
Proof. unfold queueLiveEvent. cbn zeta. case_match; calm. Qed.

Lemma calm_scheduleInspectionRefresh j s : calm s (scheduleInspectionRefresh j s).
Proof.
  unfold scheduleInspectionRefresh. destruct (negb _); [reflexivity |].
  etransitivity; [apply (calm_clear (Refs.inspectionDebounceRef (St.refs s) !! j)) |]. calm.
Qed.

Lemma calm_callback o c s : calm s (callback o c s).
Proof.
  destruct c; cbn [callback].
  - apply calm_updateTransportStatus.
  - unfold onEvent. cbn zeta. destruct (_ && _); [| apply calm_queueLiveEvent].
    etransitivity; [apply calm_queueLiveEvent | apply calm_scheduleInspectionRefresh].
  - apply calm_status.
Qed.

Lemma calm_manager_action o id a s s' : manager_action o id a s = Some s' -> calm s s'.
Proof.
  unfold manager_action. destruct (St.managers s !! id) as [[options m] |] eqn:Em; [| done]. cbn.
  destruct (LiveTransport.perform _ _ _ _) as [m' |]; [| done]. cbn. intros [= <-].
  etransitivity; [| apply calm_foldl; intros; apply calm_callback].
  split; [by split | done | done | done |]. intros E. by rewrite E, lookup_empty in Em.
Qed.

Lemma calm_call_manager o id a s : calm s (call_manager o id a s).
Proof.
  destruct id as [id |]; [| reflexivity]. cbn.
  destruct (manager_action o id a s) eqn:E; cbn; [by eapply calm_manager_action | reflexivity].
Qed.

Lemma calm_resume_loop id s : calm s (resume_loop id s).
Proof.
  unfold resume_loop, scheduleNext. destruct (St.loops s !! id) as [l |]; [| reflexivity]. cbn zeta.
  assert (calm s (update_loop id (set_awaiting None) s)) as Hs by apply calm_loops.
  destruct (cancelled l); [exact Hs |]. etransitivity; [exact Hs |].
  destruct (St.loops _ !! id) as [l' |]; [| reflexivity]. destruct (next_delay l' _); calm.
Qed.

Lemma calm_applyInspectionFallback j s s' : applyInspectionFallback j s = Ok s' -> calm s s'.
Proof.
  unfold applyInspectionFallback. intros E. apply result_bind_ok in E as ([i |] & _ & E);
    [| by injection E as <-].
  cbn zeta in E. destruct (decide _); injection E as <-; [reflexivity |]. calm.
Qed.

Lemma calm_invalid_base_url q s : calm s (invalid_base_url q s).
Proof. unfold invalid_base_url. cbn zeta. destruct q; calm. Qed.

(** ** Effects *)

Lemma start_manager_frame o s :
  Props.liveMode (St.props s) = true -> frame s (start_manager o s).
Proof.
  intros Hl. unfold start_manager. cbn zeta.
  match goal with |- context [call_manager o (Some ?i) Start ?x] =>
    pose proof (calm_call_manager o (Some i) Start x) as [[Hk _ _ _ _ _ _] Hp Hn _ _];
    set (s' := call_manager o (Some i) Start x) in * end.
  apply live_frame; [intros [Hd _]; congruence | exact Hp | | exact Hn].
  change (keeps_requests (St.pool s) (St.pool s')). by rewrite Hk.
Qed.

(** A transport is started in live mode only. *)
Lemma transport_effect_evolves o s : evolves s (transport_effect o s).
Proof.
  intros Hs. split; [eapply tasks_of_keeps; [exact Hs | apply kt_transport_effect] |].
  unfold transport_effect. cbn zeta.
  assert (forall i a, calm s (refs_upd (Refs.set_transportManagerRef None) (call_manager o i a s)))
    as Hk by (intros; etransitivity; [apply calm_call_manager | calm]).
  match goal with |- context [refs_upd ?f (call_manager o ?i ?a s)] => specialize (Hk i a);
    set (s' := refs_upd f (call_manager o i a s)) in * end.
  pose proof (calm_props _ _ Hk) as Ep. clearbody s'. etransitivity; [by apply calm_frame |].
  destruct (Props.liveMode (St.props s)) eqn:Hl; cbn [negb]; [| reflexivity].
  repeat (destruct (negb _); [apply calm_frame, calm_status |]).
  apply start_manager_frame. by rewrite Ep.
Qed.

Lemma calm_transport_cleanup o s : calm s (transport_cleanup o s).
Proof.
  unfold transport_cleanup. destruct (effect_manager _) as [m |]; [| reflexivity].
  etransitivity; [apply (calm_call_manager o (Some m)) |]. cbn zeta. destruct (decide _); calm.
Qed.

Lemma calm_poll_cleanup s : calm s (poll_cleanup s).
Proof.
  unfold poll_cleanup. destruct (effect_loop _) as [id |]; [| reflexivity]. cbn zeta.
  etransitivity; [| apply calm_effects]. etransitivity; [| apply calm_clear]. calm.
Qed.

Lemma calm_drawer_effect s : calm s (drawer_effect s).
Proof. unfold drawer_effect. cbn zeta. destruct (_ || _); [reflexivity |]. destruct (_ <=? 0); calm. Qed.

Lemma calm_drawer_cleanup s : calm s (drawer_cleanup s).
Proof. unfold drawer_cleanup. case_match; calm. Qed.

Lemma calm_cache_effect s : calm s (cache_effect s).
Proof. unfold cache_effect. cbn zeta. repeat case_match; calm. Qed.

Lemma calm_degraded_effect o s : calm s (degraded_effect o s).
Proof. unfold degraded_effect. cbn zeta. case_match; calm. Qed.

Lemma calm_ref_effects old new b s : calm s (ref_effects old new b s).
Proof. unfold ref_effects. cbn zeta. destruct (String.eqb _ _), (_ =? _), b; calm. Qed.

Lemma calm_clear_debounces s : calm s (clear_debounces s).
Proof. apply calm_foldl. intros s' id. apply (calm_clear (Some id)). Qed.

Lemma calm_reset_timeouts s : calm s (reset_timeouts s).
Proof.
  unfold reset_timeouts. cbn zeta.
  set (s1 := match Refs.refreshDebounceRef _ with Some _ => _ | None => _ end).
  assert (calm s s1) as H1s by (unfold s1; case_match; calm). clearbody s1.
  assert (calm s1 (refs_upd (Refs.set_inspectionDebounceRef ∅) (clear_debounces s1))) as H2s
    by (etransitivity; [apply calm_clear_debounces | calm]).
  etransitivity; [exact H1s |]. etransitivity; [exact H2s |]. case_match; calm.
Qed.

Lemma calm_reset_state s : calm s (reset_state s).
Proof. unfold reset_state. calm_chain. Qed.

Lemma calm_reset_refs s : calm s (reset_refs s).
Proof. unfold reset_refs. calm_chain. Qed.

(** Demo data are kept. *)
Lemma calm_enter_demo o s : calm s (enter_demo o s).
Proof.
  split; [apply (kt_enter o) | done | done | | done]. intros [Hok Hs]. unfold shown_data in *.
  cbn [enter_demo setConsoleData]. cbn. rewrite decide_True by exact Hs. by split.
Qed.

Lemma recovered_evolves s : evolves s (recovered_effect s).
Proof.
  intros Hs. split; [eapply tasks_of_keeps; [exact Hs | apply kt_recovered_effect] |].
  unfold recovered_effect. cbn zeta. split.
  - by destruct (_ && _).
  - by destruct (_ && _).
  - destruct (_ && _); [| by exists []]. eexists [_]. split; [done |]. repeat constructor. by eexists.
  - intros [_ ?]. by destruct (_ && _).
  - intros _. by destruct (_ && _).
  - intros _. by destruct (_ && _).
Qed.

(** ** Callbacks that make or abort requests *)

Lemma abort_evolves c s :
  (tasks_of s -> forall i, c = Some i -> is_Some (controllers (St.pool s) !! i)) ->
  evolves s (abort_controller c s).
Proof.
  intros Hc Hs. split; [by apply abort_tasks; auto |]. destruct c as [c |]; [| reflexivity].
  split; cbn; try done; [| by exists [] | by intros [_ ?] |].
  - by apply keeps_abort, pool_reachable_ok, Hs.
  - intros _ [Hr Hm]. split; [| exact Hm]. unfold abortController. cbn.
    destruct (signal_aborted _ _); [exact Hr |]. cbn. by rewrite Hr, fmap_empty.
Qed.

Lemma abort_fetch_evolves s : evolves s (abort_controller (Refs.fetchControllerRef (St.refs s)) s).
Proof. apply abort_evolves. intros Hs c Hc. by eapply t_fetch; [apply Hs |]. Qed.

Lemma abort_inspections_evolves s : evolves s (abort_inspections s).
Proof.
  intros Hs. split; [by apply abort_inspections_tasks |]. unfold abort_inspections.
  assert (forall l s, tasks_of s -> Forall (fun c => is_Some (controllers (St.pool s) !! c)) l ->
    frame s (foldl (fun s c => abort_controller (Some c) s) s l)) as HL.
  { clear. induction l as [| c l IH]; intros s Hs Hl; [reflexivity |]. cbn.
    apply Forall_cons in Hl as [Hc Hl].
    destruct (abort_evolves (Some c) s) as [Hs' F]; [by intros _ ? [= <-] | done |].
    etransitivity; [exact F |]. apply IH; [done |]. eapply Forall_impl; [exact Hl |]. intros x Hx.
    by eapply pool_step_controllers; [apply pool_abort |]. }
  apply HL; [done |]. apply Forall_forall. intros c Hc. change (List.map snd ?l) with (l.*2) in Hc.
  apply list_elem_of_fmap in Hc as ([j c'] & -> & Hj%elem_of_map_to_list).
  by eapply t_inspect; [apply Hs |].
Qed.

Lemma live_mode_not_idle s : Props.liveMode (St.props s) = true -> ~ demo_idle s.
Proof. intros Hl [Hd _]. congruence. Qed.

(** The requests made between two states of the pool, under a new controller. *)
Lemma got_keeps s1 s2 s3 c :
  pool_reachable (St.pool s1) -> St.pool s2 = snd (newController (St.pool s1)) ->
  got c s2 s3 -> keeps_requests (St.pool s1) (St.pool s3).
Proof. intros Hp E (_ & _ & _ & _ & K & _). etransitivity; [apply keeps_new |]. by rewrite <- E. Qed.

Lemma start_refresh_frame q s :
  tasks_of s -> Props.liveMode (St.props s) = true -> frame s (snd (start_refresh q s)).
Proof.
  intros Hs Hl. destruct (abort_fetch_evolves s Hs) as [H1s H1f].
  destruct (start_refresh_begins q s (t_pool _ _ _ _ _ _ (proj1 (proj1 H1s)))) as (c & w & Hb).
  etransitivity; [exact H1f |]. apply live_frame; [| apply Hb | apply Hb | apply Hb].
  apply live_mode_not_idle. by rewrite (fr_props _ _ H1f).
Qed.

Lemma refreshConsole_evolves o q f s : evolves s (snd (refreshConsole o q f s)).
Proof.
  intros Hs. split; [by apply refreshConsole_tasks |]. unfold refreshConsole.
  destruct (Props.liveMode (St.props s)) eqn:Hl; cbn [negb]; [| reflexivity].
  set (s' := if q then s else _).
  assert (calm s s') as Hs' by (unfold s'; destruct q; [reflexivity | calm]).
  assert (tasks_of s') as Ht by (eapply tasks_of_keeps; [exact Hs | apply Hs']).
  rewrite <- (calm_props _ _ Hs') in Hl.
  clearbody s'. etransitivity; [apply calm_frame, Hs' |]. destruct (negb (opt_truthy _)).
  { apply calm_frame, calm_invalid_base_url. }
  pose proof (start_refresh_frame q s' Ht Hl) as HR.
  destruct (Refs.fetchPromiseRef (St.refs s')), f; try reflexivity;
    destruct (start_refresh q s') as [pr s'']; exact HR.
Qed.

Lemma start_inspection_frame j s :
  tasks_of s -> Props.liveMode (St.props s) = true -> frame s (start_inspection j s).
Proof.
  intros Hs Hl. unfold start_inspection.
  destruct (abort_evolves (Refs.inspectionControllerRef (St.refs s) !! j) s) as [H1s H1f];
    [intros _ c Hc; by eapply t_inspect; [apply Hs |] | done |].
  set (s1 := abort_controller _ s) in *. etransitivity; [exact H1f |].
  assert (~ demo_idle s1) as H1l by (apply live_mode_not_idle; by rewrite (fr_props _ _ H1f)).
  rewrite new_controller_eq. cbn zeta beta iota.
  match goal with |- context [get ?p ?k ?f ?c ?x] => set (s2 := x) end.
  assert (St.pool s2 = snd (newController (St.pool s1)) /\ St.props s2 = St.props s1 /\
          St.notified s2 = St.notified s1) as (Ep & Er & En) by done.
  clearbody s2. set (c := fresh (St.pool s1)).
  assert (got c s2 s2) as G2 by (apply (got_start s1); [apply H1s | done | exact Ep]).
  destruct (get _ _ _ _ s2) as [a s3] eqn:E3. eapply get_got in E3 as (G3 & _); [| exact G2].
  apply (got_keeps s1) in G3 as K; [| apply H1s | exact Ep]. destruct G3 as [E _].
  apply live_frame; [done | | exact K |]; cbn; rewrite E; cbn; congruence.
Qed.

(** An inspection is fetched in live mode only. *)
Lemma refreshInspection_evolves o j f s : evolves s (refreshInspection o j f s).
Proof.
  intros Hs. split; [by apply refreshInspection_tasks |]. unfold refreshInspection.
  destruct (negb (truthy j)); [reflexivity |].
  destruct (Props.liveMode (St.props s)) eqn:Hl; cbn [negb orb];
    [destruct (negb _) |]; try (destruct (applyInspectionFallback j s) as [s' |] eqn:E;
      [apply calm_frame; etransitivity; [by eapply calm_applyInspectionFallback | calm] | reflexivity]).
  destruct (_ && _); [reflexivity | by apply start_inspection_frame].
Qed.

Lemma run_loop_evolves o id q s : evolves s (run_loop o id q s).
Proof.
  unfold run_loop. pose proof (refreshConsole_evolves o q false s) as HR.
  destruct (refreshConsole o q false s) as [[p |] s']; cbn in HR;
    (etransitivity; [exact HR |]); apply calm_evolves; [calm | apply calm_resume_loop].
Qed.

Lemma fire_evolves o id s s' : fire o id s = Some s' -> evolves s s'.
Proof.
  unfold fire. destruct (St.timers s !! id) as [[t d] |]; [| done]. cbn. intros [= <-].
  assert (evolves s (clearTimeout id s)) as Hc by (apply calm_evolves; calm).
  destruct t.
  - etransitivity; [exact Hc | apply calm_evolves, calm_flushPendingEvents].
  - etransitivity; [exact Hc | apply refreshConsole_evolves].
  - etransitivity; [exact Hc |]. etransitivity; [| apply refreshInspection_evolves].
    apply calm_evolves; calm.
  - etransitivity; [exact Hc | apply run_loop_evolves].
  - apply refreshInspection_evolves.
Qed.

(** ** Continuations of requests *)

Lemma end_refresh_rest t s :
  St.props (end_refresh t s) = St.props s /\ St.pool (end_refresh t s) = St.pool s /\
  St.notified (end_refresh t s) = St.notified s.
Proof. unfold end_refresh. cbn zeta. by destruct (decide _), (refresh_quiet t). Qed.

Lemma continue_refresh_rest o t settled s :
  let s' := continue_refresh o t settled s in
  St.props s' = St.props s /\ St.pool s' = St.pool s /\ St.notified s' = St.notified s.
Proof.
  cbn zeta. unfold continue_refresh. destruct (signal_aborted _ _); [apply end_refresh_rest |].
  destruct settled as [reason | [[[a b] c] d]].
  - by destruct (end_refresh_rest t (refresh_failed reason s)) as (-> & -> & ->).
  - destruct (end_refresh_rest t (refresh_succeeded o (as_snapshot a) (as_jobs b) (as_schedules c)
      (as_workerStatuses d) s)) as (-> & -> & ->).
    unfold refresh_succeeded. cbn zeta. by destruct (_ || _).
Qed.

Lemma advance_refreshes_rest o l s :
  let s' := foldl (advance_refresh o) s l in
  St.props s' = St.props s /\ St.pool s' = St.pool s /\ St.notified s' = St.notified s.
Proof.
  cbn zeta. revert s. induction l as [| t l IH]; intros s; [done |]. cbn.
  destruct (IH (advance_refresh o s t)) as (-> & -> & ->).
  unfold advance_refresh. destruct (all_settled _ _) as [settled |]; [| done]. cbn zeta.
  set (s1 := St.set_refreshTasks _ s).
  destruct (continue_refresh_rest o (snd t) settled s1) as (Ep & Eq & En).
  assert (calm (continue_refresh o (snd t) settled s1)
    (resolve_refresh (fst t) (continue_refresh o (snd t) settled s1))) as [Hk Hp Hn _]
    by (apply calm_foldl; intros; apply calm_resume_loop).
  by rewrite Hp, Hn, (kt_pool _ _ Hk), Ep, Eq, En.
Qed.

(** In demo mode there are no refreshes to go on. *)
Lemma advance_refreshes_frame o s : frame s (foldl (advance_refresh o) s (St.refreshTasks s)).
Proof.
  destruct (St.refreshTasks s) as [| t l] eqn:E; [reflexivity |].
  destruct (advance_refreshes_rest o (t :: l) s) as (Ep & Eq & En).
  apply live_frame; [intros [_ ?]; congruence | done | by rewrite Eq | done].
Qed.

Lemma end_inspection_frame t s : frame s (end_inspection t s).
Proof.
  unfold end_inspection. cbn zeta.
  split; [| | exists []; split; [| done] | intros [_ ?] | intros _ | intros _]; by destruct (decide _).
Qed.

Lemma continue_inspection_frame o t settled s : frame s (continue_inspection o t settled s).
Proof.
  unfold continue_inspection. destruct (signal_aborted _ _); [apply end_inspection_frame |].
  destruct settled as [v | reason]; cbn zeta.
  - etransitivity; [| apply end_inspection_frame]. apply calm_frame. destruct (decide _); calm.
  - destruct (applyInspectionFallback _ s) as [s' |] eqn:E; [| apply end_inspection_frame].
    etransitivity; [| apply end_inspection_frame]. apply calm_frame.
    etransitivity; [by eapply calm_applyInspectionFallback | calm].
Qed.

Lemma advance_inspections_frame o l s :
  frame s (foldl (advance_inspection o) s l) /\
  St.pool (foldl (advance_inspection o) s l) = St.pool s.
Proof.
  revert s. induction l as [| t l IH]; intros s; [by split; [reflexivity |] |]. cbn.
  destruct (IH (advance_inspection o s t)) as [HF HP].
  unfold advance_inspection in *. destruct (handled _ _) as [settled |]; [| done].
  cbn zeta in *. set (s1 := St.set_inspectionTasks _ s) in *. split.
  - etransitivity; [| exact HF]. etransitivity; [| apply continue_inspection_frame].
    split; cbn; try done; [by exists [] | by intros [_ ?]].
  - rewrite HP. by rewrite (ei_pool _ _ _ (continue_inspection_ends o (snd t) settled s1)).
Qed.

(** Handling a request: the frame but for that request. *)
Lemma handle_request_frame o id s s' :
  handle_request o id s = Some s' ->
  exists p, RequestPool.drain id (St.pool s) = Some p /\ St.pool s' = p /\ frame (St.set_pool p s) s'.
Proof.
  unfold handle_request. destruct (RequestPool.drain id (St.pool s)) as [p |]; [| done].
  cbn. intros [= <-]. exists p. split; [done |].
  set (s1 := St.set_pool p s).
  pose proof (advance_refreshes_frame o s1) as F2.
  destruct (advance_refreshes_rest o (St.refreshTasks s1) s1) as (_ & E2 & _).
  set (s2 := foldl (advance_refresh o) s1 (St.refreshTasks s1)) in *.
  destruct (advance_inspections_frame o (St.inspectionTasks s2) s2) as [F3 E3].
  split; [exact (eq_trans E3 E2) | exact (transitivity F2 F3)].
Qed.

(** ** Rendering *)

Lemma calm_reset s : calm s (reset_timeouts (reset_state (reset_refs s))).
Proof.
  transitivity (reset_refs s); [apply calm_reset_refs |].
  transitivity (reset_state (reset_refs s)); [apply calm_reset_state | apply calm_reset_timeouts].
Qed.

(** The effect of the mode, once what was under way is aborted. *)
Lemma enter_frame o s :
  frame s (if negb (Props.liveMode (St.props s)) then enter_demo o s else enter_live s).
Proof.
  destruct (Props.liveMode (St.props s)) eqn:Hl; cbn [negb]; [| apply calm_frame, calm_enter_demo].
  apply live_frame; [by apply live_mode_not_idle | done | done | done].
Qed.

Lemma live_mode_evolves o s : evolves s (live_mode_effect o s).
Proof.
  intros Hs. split; [by apply live_mode_effect_tasks |]. unfold live_mode_effect. cbn zeta.
  destruct (abort_fetch_evolves s Hs) as [H1s F1]. set (s1 := abort_controller _ s) in *.
  destruct (abort_inspections_evolves s1 H1s) as [_ F2]. set (s2 := abort_inspections s1) in *.
  set (s3 := call_manager _ _ _ s2). assert (calm s2 s3) as Hc by apply calm_call_manager.
  pose proof (calm_reset s3) as Hr. set (s4 := reset_timeouts _) in *.
  assert (St.props s = St.props s4) as ->
    by by rewrite (calm_props _ _ Hr), (calm_props _ _ Hc), (fr_props _ _ F2), (fr_props _ _ F1).
  clearbody s4 s3 s2 s1.
  transitivity s1; [exact F1 |]. transitivity s2; [exact F2 |].
  transitivity s3; [by apply calm_frame |]. transitivity s4; [by apply calm_frame | apply enter_frame].
Qed.

Lemma poll_effect_evolves o s : evolves s (poll_effect o s).
Proof.
  unfold poll_effect. destruct (negb (Props.liveMode _)); [reflexivity |].
  destruct (negb (opt_truthy _)).
  { etransitivity; [| apply refreshConsole_evolves]. apply calm_evolves. calm. }
  destruct (negb (Hook.isVisible _)); [apply calm_evolves; calm |]. cbn zeta.
  etransitivity; [| apply run_loop_evolves]. apply calm_evolves. calm.
Qed.

Lemma select_effect_evolves o s : evolves s (select_effect o s).
Proof. unfold select_effect. case_match; [reflexivity | apply refreshInspection_evolves]. Qed.

Lemma when_evolves b f s : (forall s, evolves s (f s)) -> evolves s (when b f s).
Proof. intros Hf. destruct b; [apply Hf | reflexivity]. Qed.

Lemma run_effects_evolves o d s : evolves s (run_effects o d s).
Proof.
  unfold run_effects. cbn zeta.
  repeat (etransitivity; [| apply when_evolves; intros x;
    first [ apply recovered_evolves | apply select_effect_evolves | apply poll_effect_evolves
          | apply live_mode_evolves | apply transport_effect_evolves
          | apply calm_evolves;
            first [ apply calm_degraded_effect | apply calm_cache_effect | apply calm_drawer_effect
                  | apply calm_drawer_cleanup | apply calm_poll_cleanup
                  | apply calm_transport_cleanup ] ]]).
  reflexivity.
Qed.

(** A render: the frame, but for the props. *)
Lemma commit_evolves o p tr j s :
  evolves (St.set_props p s) (commit o p tr j s).
Proof.
  unfold commit. cbn zeta. etransitivity; [| apply run_effects_evolves].
  etransitivity; [| apply calm_evolves, calm_ref_effects]. apply calm_evolves. calm.
Qed.

Lemma set_props_tasks p s : tasks_of s -> tasks_of (St.set_props p s).
Proof. intros Hs. eapply tasks_of_keeps; [exact Hs |]. by split. Qed.

(** ** Steps *)

(** Steps other than a render, the handling of a request, and an update of the
    data or a request by the owner. *)
Definition in_frame (e : hook_action) : bool :=
  match e with
  | Commit _ _ _ | HandleRequest _ | UpdateData _ | OwnerRequest _ => false
  | _ => true
  end.

Lemma event_evolves o e s s' :
  in_frame e = true -> LiveData.perform o e s = Some s' -> evolves s s'.
Proof.
  destruct e; cbn [in_frame LiveData.perform]; intros Hf E; try done.
  - injection E as <-. apply calm_evolves. calm.
  - by eapply fire_evolves.
  - destruct (net_event id e (St.pool s)) as [q |] eqn:EN; [| done]. injection E as <-.
    intros Hs. assert (keeps_requests (St.pool s) q) as Hk
      by (eapply keeps_net; [| exact EN]; apply pool_reachable_ok, Hs).
    split; [apply pool_tasks; [exact Hs | by eapply rtc_once, pool_net | exact Hk] |].
    split; cbn; try done; [by exists [] | by intros [_ ?] |]. intros _ [Hr _].
    unfold net_event in EN. by rewrite Hr, lookup_empty in EN.
  - destruct (browser_event a); [| done]. by eapply calm_evolves, calm_manager_action.
  - injection E as <-. unfold manualReconnect. destruct (negb _); [reflexivity |]. cbn zeta.
    etransitivity; [| apply refreshConsole_evolves]. apply calm_evolves, calm_call_manager.
  - injection E as <-. apply refreshConsole_evolves.
Qed.

(** Whatever the step, the owner hears of recoveries only. *)
Lemma perform_notified o e s s' :
  tasks_of s -> LiveData.perform o e s = Some s' ->
  exists new, St.notified s' = new ++ St.notified s /\ Forall recovery new.
Proof.
  intros Hs E. destruct (in_frame e) eqn:Hf.
  { by destruct (event_evolves o e s s' Hf E Hs) as [_ [_ _ ? _ _ _]]. }
  destruct e; try done; cbn [LiveData.perform] in E.
  - injection E as <-.
    by destruct (commit_evolves o p transition jobs_changed s (set_props_tasks p s Hs)) as [_ [_ _ ? _ _ _]].
  - by apply handle_request_frame in E as (p & _ & _ & [_ _ ? _ _ _]).
  - injection E as <-. by exists [].
  - injection E as <-. by exists [].
Qed.

(** A request that waits to be handled under a key. *)
Definition waits_under (key : string) (p : Pool) (r : nat) : Prop :=
  exists q, requests p !! r = Some q /\ drained q = false /\ RequestPool.key q = key.

Lemma waits_keeps key p p' r : keeps_requests p p' -> waits_under key p r -> waits_under key p' r.
Proof.
  intros Hk (q & Hq & Hd & Ek). destruct (Hk r q Hq) as (q' & Hq' & Ed & _ & Ek').
  exists q'. split_and!; [done | congruence | congruence].
Qed.

(** A request is handled in its own step only. *)
Lemma perform_requests o e s s' key r :
  tasks_of s -> LiveData.perform o e s = Some s' ->
  (forall id, e = HandleRequest id -> id <> r) ->
  waits_under key (St.pool s) r -> waits_under key (St.pool s') r.
Proof.
  intros Hs E Hr Hw. destruct (in_frame e) eqn:Hf.
  { destruct (event_evolves o e s s' Hf E Hs) as [_ [_ Hk _ _ _ _]]. by eapply waits_keeps. }
  destruct e; try done; cbn [LiveData.perform] in E.
  - injection E as <-.
    destruct (commit_evolves o p transition jobs_changed s (set_props_tasks p s Hs)) as [_ [_ Hk _ _ _ _]].
    by eapply waits_keeps.
  - apply handle_request_frame in E as (p & Ed & Ep & _). rewrite Ep.
    assert (id <> r) as Hne by by apply Hr.
    revert Ed. unfold RequestPool.drain. destruct (requests (St.pool s) !! id) as [q |]; [| done]. cbn.
    destruct (_ && _); [| done]. intros [= <-]. destruct Hw as (q' & Hq' & Hd & Ek).
    exists q'. cbn. by rewrite lookup_insert_ne.
  - by injection E as <-.
  - injection E as <-. eapply waits_keeps; [| exact Hw]. apply keeps_request, pool_reachable_ok, Hs.
Qed.
End Hook.
