(* ===== verification/OpsConsole.v ===== *)
(** [src/components/OpsConsole.tsx] as a whole: the actions of the console on the
    data of [useDashboardLiveData], and both on the queue of [useToastQueue].

    The console of ConsoleActions.v, the hook of LiveData.v and the queue of
    ToastQueue.v are run together: [setConsoleData] of an action updates the data
    of the hook, its [requestJson] makes a request in the pool of the hook and its
    continuation runs when that request is handled, its [refreshConsole] starts a
    refresh; the settings and the selected job are the props of the hook's next
    render, and whatever is notified enters the queue. *)

From stdpp Require Import base list strings gmap relations.
From Stdlib Require Import ZArith Lia Bool.
From S2P Require Import Prelude JsString JsNum JsDate JsValue Models ApiRoutes Safe LiveRefresh.
From S2P Require Import LiveTransport Settings ToastQueue ApiParsers RequestClient RequestPool.
From S2P Require Import ConsoleState Urls DemoData LiveState LiveData LiveTasks ConsoleViews.
From S2P Require Import ConsoleForms ConsoleActions ConsoleProperties LiveFrame.

#[local] Open Scope Z_scope.

(** [awaited] are the tasks that wait for a request of the pool, in the order
    they began to. *)
Record App := mkApp {
  hook : St;
  console : Console;
  queue : Queue;
  awaited : list (nat * nat)
}.

(** What a step reads from outside; [toastIds] are the ids of the toasts, by the
    number of toasts before them. *)
Record Moment := mkMoment { outside : Outside; toastIds : nat -> string }.

Definition now (m : Moment) : Z := clock (outside m).

(** [const { toasts, enqueueToast } = useToastQueue()], for some toasts. *)
Definition deliver (m : Moment) (new : list ToastInput) (q : Queue) : Queue :=
  foldl (fun q toast => snd (ToastQueue.enqueueToast (now m) (toastIds m (handle q)) toast q)) q new.

(** The console with the data of the hook. *)
Definition load (s : St) (c : Console) : Console := Console.set_data (shown_data s) c.

(** What the hook notified between two of its states. *)
Definition newly_notified (s s' : St) : list ToastInput :=
  rev (take (length (St.notified s') - length (St.notified s)) (St.notified s')).

(** The hook has run. *)
Definition after_hook (m : Moment) (s' : St) (a : App) : App :=
  mkApp s' (load s' (console a)) (deliver m (newly_notified (hook a) s') (queue a)) (awaited a).

Section OpsConsole.
Context `{UrlApi} `{HeadersApi} `{DateHost} `{Browser} `{ApiView} `{JsonHost} `{ActionApi}.

(** The default realtime URL, which is not a setting. *)
Context (realtimeBaseUrlInput : string).

(** The options of [useDashboardLiveData]. *)
Definition props_of (c : Console) : Props :=
  let settings := Console.settings c in
  {| Props.resolvedBaseUrl := normalizeBaseUrl (VStr (baseUrlInput settings));
     Props.resolvedRealtimeBaseUrl :=
       normalizeBaseUrl (VStr (or_else realtimeBaseUrlInput (baseUrlInput settings)));
     Props.token := Settings.token settings;
     Props.liveMode := Settings.liveMode settings;
     Props.liveUpdates := Settings.liveUpdates settings;
     Props.pollIntervalMs := Settings.pollIntervalMs settings;
     Props.selectedJobId := Console.selectedJobId c |}.

(** ** Actions *)

(** [requestJson(path, { method: "POST", body }, undefined, parser)] *)
Definition owner_options (p : Props) (sent : Sent) : RequestJsonOptions :=
  {| RequestClient.baseUrl := Props.resolvedBaseUrl p;
     RequestClient.path := sent_path sent;
     RequestClient.token := Some (Props.token p);
     init := {| method := "POST"; init_headers := []; body := default "" (sent_body sent) |};
     timeoutMs := default_timeoutMs;
     parser := sent_parser sent;
     allowEmpty := false |}.

(** The request of the task [id], when it waits for one. *)
Definition send (id : nat) (a : App) : App :=
  match Console.tasks (console a) !! id with
  | Some (mkTask _ (Waiting _ sent)) =>
      let '(request, pool) :=
        requestJson (owner_options (St.props (hook a)) sent) None None (St.pool (hook a)) in
      mkApp (St.set_pool pool (hook a)) (console a) (queue a) (awaited a ++ [(id, request)])
  | _ => a
  end.

(** The calls of [refreshConsole({ quiet: true, force: true })]. *)
Definition force_refreshes (m : Moment) (n : nat) (s : St) : St :=
  Nat.iter n (fun s => snd (refreshConsole (outside m) true true s)) s.

(** The code of an action has run, from [console a] to [c']: its data, refreshes
    and notifications go to the hooks. *)
Definition forward (m : Moment) (c' : Console) (a : App) : App :=
  let c := console a in
  let s := LiveData.setConsoleData (fun _ => Console.data c') (hook a) in
  let s := force_refreshes m (Console.refreshes c' - Console.refreshes c) s in
  mkApp s (load s c') (deliver m (drop (length (Console.notified c)) (Console.notified c')) (queue a))
    (awaited a).

(** A handler; the task it began, if any, has the next id. *)
Definition act (m : Moment) (c' : Console) (a : App) : App :=
  send (Console.next (console a)) (forward m c' a).

(** ** Requests *)

Definition answer_of (p : Pool) (request : nat) : option jsval :=
  match outcome p request with Some (Resolved value) => Some value | _ => None end.

Definition answer_task (m : Moment) (answer : option jsval) (a : App) (id : nat) : App :=
  match resume (now m) id answer (console a) with
  | Some c' => forward m c' a
  | None => a
  end.

(** The tasks that wait for a request go on when it was handled. *)
Definition answer (m : Moment) (request : nat) (a : App) : App :=
  let value := answer_of (St.pool (hook a)) request in
  let waiting := List.filter (fun t => Nat.eqb (snd t) request) (awaited a) in
  let others := List.filter (fun t => negb (Nat.eqb (snd t) request)) (awaited a) in
  foldl (answer_task m value) (mkApp (hook a) (console a) (queue a) others) (List.map fst waiting).

(** ** Steps *)

Inductive app_action :=
  (** buttons and forms, then the [finally] of [runBusy] *)
  | UserAct (action : Action)
  | UserEdit (c' : Console)
  | SettleTask (id : nat)
  (** an event for the hook, or a button that calls it *)
  | HookEvent (e : hook_action)
  (** a request is handled *)
  | HandleAnswer (request : nat)
  | Render (transition jobs_changed : bool)
  | DismissToast (id : string)
  | ToastTimeout (timer : nat).

(** The effects of the console use the data of the render. *)
Definition render_effects (a : App) : App :=
  let c := ConsoleActions.effects
    (Console.set_data (Hook.consoleData (St.rendered (hook a))) (console a)) in
  mkApp (hook a) (load (hook a) c) (queue a) (awaited a).

Definition run_hook (m : Moment) (e : hook_action) (a : App) : option App :=
  s' ← LiveData.perform (outside m) e (hook a);
  Some (after_hook m s' a).

Definition app_perform (m : Moment) (x : app_action) (a : App) : option App :=
  match x with
  | UserAct action =>
      match ConsoleActions.perform (now m) (ids (outside m)) action (console a) with
      | Ok c' => Some (act m c' a)
      | Throw _ => None
      end
  | UserEdit c' => Some (forward m c' a)
  | SettleTask id =>
      c' ← settle id (console a);
      Some (mkApp (hook a) c' (queue a) (awaited a))
  | HookEvent e => run_hook m e a
  | HandleAnswer request =>
      a' ← run_hook m (HandleRequest request) a;
      Some (answer m request a')
  | Render transition jobs_changed =>
      a' ← run_hook m (Commit (props_of (console a)) transition jobs_changed) a;
      Some (render_effects a')
  | DismissToast id =>
      Some (mkApp (hook a) (console a) (dismissToast id (queue a)) (awaited a))
  | ToastTimeout timer =>
      q ← ToastQueue.fire timer (queue a);
      Some (mkApp (hook a) (console a) q (awaited a))
  end.

(** The console when it is mounted: the first render, and the effects of the hook. *)
Definition first_commit (m : Moment) (settings : ConsoleSettings) (selectedTab selectedJobId : string)
    (visible : bool) : App :=
  let c := ConsoleActions.initial (createEmptyConsoleData source_live) settings selectedTab selectedJobId in
  let s := LiveData.mount (outside m) (props_of c) visible in
  mkApp s (load s c) (deliver m (rev (St.notified s)) useToastQueue) [].

(** Then its own effects run, on the data of that render. *)
Definition mount_app (m : Moment) (settings : ConsoleSettings) (selectedTab selectedJobId : string)
    (visible : bool) : App :=
  render_effects (first_commit m settings selectedTab selectedJobId visible).

(** ** What may happen *)

(** Ids drawn at random are not empty, differ, and are not in use. *)
Record fresh_toasts (m : Moment) (q : Queue) : Prop := {
  toasts_named : forall n, toastIds m n <> "";
  toasts_differ : forall n n', toastIds m n = toastIds m n' -> n = n';
  toasts_unused : forall n, (handle q <= n)%nat -> keyById q !! toastIds m n = None
}.

Definition named (toast : ToastInput) : Prop := toast_key toast <> "".

(** The buttons that only call the hook. *)
Definition refreshSnapshot : hook_action := RefreshConsoleCall false true.
Definition reconnectNow : hook_action := ManualReconnect.

(** What comes from the browser or those buttons; the rest of [hook_action] is
    what the console itself asks of the hook. *)
Definition hook_event (e : hook_action) : bool :=
  match e with
  | VisibilityChange _ | FireTimeout _ | Network _ _ | ManagerEvent _ _ | ManualReconnect => true
  | RefreshConsoleCall quiet force => negb quiet && force
  | Commit _ _ _ | HandleRequest _ | UpdateData _ | OwnerRequest _ => false
  end.

(** A replay looks its job up in the data of the last render. *)
Definition reads_render (action : Action) : bool :=
  match action with ReplayJob _ _ _ _ => true | _ => false end.

(** An edit may notify (the settings are reset), and the interval is one of the
    presets. *)
Record edited (c c' : Console) : Prop := {
  edited_fields : edit c c';
  edited_refreshes : Console.refreshes c' = Console.refreshes c;
  edited_notified : exists new, Console.notified c' = Console.notified c ++ new /\ Forall named new;
  edited_interval : Settings.pollIntervalMs (Console.settings c') ∈ [0; 5000; 15000; 30000]
}.

Definition app_valid (m : Moment) (x : app_action) (a : App) : Prop :=
  valid_env (transport_env (outside m)) /\ fresh_toasts m (queue a) /\
  match x with
  | UserAct action =>
      fresh_ids (ids (outside m)) (Console.data (console a)) /\
      (reads_render action = true -> Hook.consoleData (St.rendered (hook a)) = shown_data (hook a))
  | UserEdit c' => edited (console a) c'
  | HookEvent e => hook_event e = true
  | _ => True
  end.

Inductive app_step : App -> App -> Prop :=
  | app_step_perform m x a a' : app_valid m x a -> app_perform m x a = Some a' -> app_step a a'.

Definition valid_mount (m : Moment) (settings : ConsoleSettings) : Prop :=
  valid_env (transport_env (outside m)) /\ fresh_toasts m useToastQueue /\
  Settings.pollIntervalMs settings ∈ [0; 5000; 15000; 30000].

Inductive app_reachable : App -> Prop :=
  | app_mounted m settings tab job visible :
      valid_mount m settings -> app_reachable (mount_app m settings tab job visible)
  | app_stepped a a' : app_reachable a -> app_step a a' -> app_reachable a'.

(** Steps of the console while the hook changes its data. *)
Inductive console_step : Console -> Console -> Prop :=
  | console_runs c c' : ConsoleProperties.step c c' -> console_step c c'
  | console_loads data c : console_step c (Console.set_data data c).
End OpsConsole.
