(* ===== verification/OpsConsoleProperties.v ===== *)
(** What the console of OpsConsole.v guarantees as a whole: it refines the hook,
    the queue and the actions it is made of, every action that waits is answered,
    and a session in demo mode keeps its data consistent. *)

From stdpp Require Import base list strings gmap relations.
From Stdlib Require Import ZArith Lia Bool.
From S2P Require Import Prelude JsString JsNum JsDate JsValue Models ApiRoutes Safe LiveRefresh.
From S2P Require Import LiveTransport Settings ToastQueue ApiParsers RequestClient RequestPool.
From S2P Require Import ConsoleState Urls DemoData LiveState LiveData LiveTasks ConsoleViews.
From S2P Require Import ConsoleForms ConsoleActions ConsoleProperties LiveFrame OpsConsole.

#[local] Open Scope Z_scope.

(** * What the actions tell the hooks *)

(** Notifications are added, with a name each; refreshes are counted; settings
    are the user's. *)
Record speaks (c c' : Console) : Prop := {
  sp_notified : exists new, Console.notified c' = Console.notified c ++ new /\ Forall named new;
  sp_refreshes : (Console.refreshes c <= Console.refreshes c')%nat;
  sp_settings : Console.settings c' = Console.settings c
}.

#[local] Instance speaks_preorder : PreOrder speaks.
Proof.
  split; [intros c; split; [exists []; by rewrite app_nil_r | done | done] |].
  intros c1 c2 c3 [(n12 & E12 & F12) R12 S12] [(n23 & E23 & F23) R23 S23]. split; [| lia | congruence].
  exists (n12 ++ n23). rewrite E23, E12, app_assoc. split; [done |]. by apply Forall_app.
Qed.

Lemma speaks_enqueue toast c : named toast -> speaks c (enqueueToast toast c).
Proof. intros Ht. destruct c. split; cbn; [| done | done]. exists [toast]. by repeat constructor. Qed.

Lemma speaks_notify tone title description c : speaks c (notify tone title description c).
Proof. apply speaks_enqueue. by destruct tone. Qed.

Lemma speaks_unsupported title detail c : speaks c (notifyUnsupportedLiveControl title detail c).
Proof. by apply speaks_enqueue. Qed.

Lemma speaks_refresh c : speaks c (refresh c).
Proof. destruct c. split; cbn; [exists []; by rewrite app_nil_r | lia | done]. Qed.

(** An update of another field. *)
Lemma speaks_same c c' :
  Console.notified c' = Console.notified c -> Console.refreshes c' = Console.refreshes c ->
  Console.settings c' = Console.settings c -> speaks c c'.
Proof. intros En Er Es. split; [exists []; by rewrite app_nil_r | lia | done]. Qed.

Ltac speaks_field c := apply (speaks_same c); by destruct c.

Lemma speaks_data f c : speaks c (ConsoleActions.setConsoleData f c).
Proof. speaks_field c. Qed.

Lemma speaks_busy key value c : speaks c (setBusy key value c).
Proof. speaks_field c. Qed.

Lemma speaks_task key p c : speaks c (add_task key p c).
Proof. speaks_field c. Qed.

Create HintDb speaks.
#[local] Hint Resolve speaks_enqueue speaks_notify speaks_unsupported speaks_refresh speaks_data
  speaks_busy speaks_task : speaks.
#[local] Hint Extern 1 (speaks _ (Console.set_selectedTab _ ?c)) => (speaks_field c) : speaks.
#[local] Hint Extern 1 (speaks _ (Console.set_selectedJobId _ ?c)) => (speaks_field c) : speaks.
#[local] Hint Extern 1 (speaks _ (Console.set_selectedDeadLetters _ ?c)) => (speaks_field c) : speaks.
#[local] Hint Extern 1 (speaks _ (Console.set_bulkReplayPayload _ ?c)) => (speaks_field c) : speaks.
#[local] Hint Extern 1 (speaks _ (Console.set_scheduleDraft _ ?c)) => (speaks_field c) : speaks.
#[local] Hint Extern 1 (speaks _ (Console.set_scheduleErrors _ ?c)) => (speaks_field c) : speaks.
#[local] Hint Extern 1 (speaks _ (Console.set_jobFormErrors _ ?c)) => (speaks_field c) : speaks.
#[local] Hint Extern 1 (speaks _ (Console.set_data _ ?c)) => (speaks_field c) : speaks.
#[local] Hint Extern 1 (speaks _ (Console.set_tasks _ ?c)) => (speaks_field c) : speaks.

(** One update at a time, the last one first. *)
Ltac speaks_chain :=
  repeat first [ reflexivity | etransitivity; [| solve [eauto with speaks]] ].

Section Speaks.
Context `{DateHost} `{JsonHost} `{ActionApi}.

Lemma speaks_runBusy key task c :
  (forall s, speaks s (snd (task s))) -> speaks c (runBusy key task c).
Proof.
  intros Ht. unfold runBusy. pose proof (Ht (setBusy key true c)) as Hs.
  destruct (task (setBusy key true c)) as [p c']. cbn [snd] in Hs.
  etransitivity; [| apply speaks_task]. etransitivity; [apply speaks_busy | exact Hs].
Qed.

Ltac speaks_mode :=
  unfold retry_toast, cancel_toast, replay_toast, bulk_replay_done, bulk_delete_done, schedule_done,
    toggle_toast, trigger_toast, seed_toast;
  try (apply speaks_runBusy; intros ?); destruct (live _); cbn [snd]; speaks_chain.

Lemma perform_speaks now ids action c c' : ConsoleActions.perform now ids action c = Ok c' -> speaks c c'.
Proof.
  destruct action; cbn [ConsoleActions.perform]; try (intros [= <-]).
  - unfold submitJob. destruct (checkJobForm _ _) as [[errors | request] |]; [| | done];
      cbn [result_bind]; [intros [= <-]; speaks_chain |].
    destruct (live c); [intros [= <-]; apply speaks_runBusy; reflexivity |].
    destruct (submit_demo _ _ _ _ _) as [c1 |] eqn:E; [| done]. cbn [result_bind]. intros [= <-].
    etransitivity; [| apply speaks_task]. etransitivity; [apply (speaks_busy "submit-job" true) |].
    revert E. unfold submit_demo. destruct (duplicate_of _ _ _); [intros [= <-]; speaks_chain |].
    destruct (createJobFromDraft _ _ _ _); [| done]. cbn [result_bind]. intros [= <-]. speaks_chain.
  - unfold retryJob. speaks_mode.
  - unfold cancelJob. speaks_mode.
  - unfold adjustPriority. speaks_mode.
  - unfold replayJob. destruct (replay_payload _); [| speaks_chain].
    apply speaks_runBusy. intros s. destruct (find_job _ _) as [job |]; [| reflexivity].
    destruct (live s); [reflexivity |]. cbn [snd]. unfold replay_toast.
    etransitivity; [| apply speaks_notify]. unfold replay_demo. destruct (find_job _ _); [| reflexivity].
    case_match; speaks_chain.
  - unfold replaySelectedDeadLetters. destruct (Console.selectedDeadLetters c); [speaks_chain |].
    destruct (bulk_payload _); [speaks_chain |]. speaks_mode.
  - unfold deleteSelectedDeadLetters. destruct (Console.selectedDeadLetters c); [speaks_chain |].
    speaks_mode.
  - unfold setQueueControl. speaks_mode.
  - unfold toggleWorkerCordon. speaks_mode.
  - unfold submitSchedule. destruct (checkScheduleForm _); [speaks_chain |]. speaks_mode.
  - unfold toggleSchedule. speaks_mode.
  - unfold triggerSchedule. apply speaks_runBusy. intros s. destruct (live s); [reflexivity |]. cbn [snd].
    destruct (createJobFromDraft _ _ _ _); unfold trigger_toast; speaks_chain.
  - unfold seedWorkflow. speaks_mode.
Qed.

Lemma resume_speaks now id answer c c' : resume now id answer c = Some c' -> speaks c c'.
Proof.
  unfold resume. destruct (Console.tasks c !! id) as [[key [call sent |]] |]; cbn; try done.
  intros [= <-]. transitivity (match answer with Some value => continue now call value c | None => c end).
  - destruct answer as [value |]; [| reflexivity]. destruct call; cbn [continue];
      unfold submit_done, retry_toast, cancel_toast, replay_toast, bulk_replay_done, bulk_delete_done,
        schedule_done, toggle_toast, trigger_toast, seed_toast; cbn zeta; speaks_chain.
  - generalize (match answer with Some value => continue now call value c | None => c end). intros s.
    unfold set_progress. speaks_chain.
Qed.
End Speaks.

(** * Toasts *)

Lemma recovery_named toast : recovery toast -> named toast.
Proof. by intros [mode ->]. Qed.

Lemma enqueue_fresh m toast q :
  fresh_toasts m q ->
  fresh_toasts m (snd (ToastQueue.enqueueToast (now m) (toastIds m (handle q)) toast q)).
Proof.
  intros [Hn Hd Hu]. split; [done | done |]. intros n. unfold ToastQueue.enqueueToast.
  destruct (truthy _); [apply Hu |]. destruct (cooling _ _ _ _); [apply Hu |]. cbn. intros Hlt.
  rewrite lookup_insert_ne; [apply Hu; lia |]. intros E%Hd. lia.
Qed.

Lemma deliver_steps m new q :
  fresh_toasts m q -> Forall named new ->
  rtc ToastQueue.step q (deliver m new q) /\ fresh_toasts m (deliver m new q).
Proof.
  unfold deliver. revert q. induction new as [| toast new IH]; intros q Hq Hnew; [by split |].
  apply Forall_cons in Hnew as [Ht Hnew]. cbn [foldl].
  destruct (IH _ (enqueue_fresh m toast q Hq) Hnew) as [Hs Hf]. split; [| exact Hf].
  eapply rtc_l; [| exact Hs]. apply step_enqueue; [apply Hq | by apply Hq | exact Ht].
Qed.

Lemma dismiss_handle id q : handle (dismissToast id q) = handle q.
Proof. unfold dismissToast. cbn. by repeat case_match. Qed.

Lemma dismiss_unused id q id' :
  keyById q !! id' = None -> keyById (dismissToast id q) !! id' = None.
Proof.
  unfold dismissToast. cbn. intros Hn.
  assert (forall q', keyById q' = keyById q -> keyById
    (match keyById q' !! id with
     | Some key => if truthy key
         then mkQueue (toasts q') (timers q') (delete key (activeKeys q')) (delete id (keyById q'))
                (lastShownAt q') (armed q') (handle q') else q'
     | None => q'
     end) !! id' = None) as Hq; [| by apply Hq; case_match].
  intros q' E. rewrite E. case_match; [| by rewrite E]. case_match; [| by rewrite E]. cbn.
  apply lookup_delete_None. by right.
Qed.

Lemma dismiss_fresh m id q : fresh_toasts m q -> fresh_toasts m (dismissToast id q).
Proof.
  intros [Hn Hd Hu]. split; [done | done |]. intros n. rewrite dismiss_handle. intros Hle.
  by apply dismiss_unused, Hu.
Qed.

Lemma fire_fresh m timer q q' :
  ToastQueue.fire timer q = Some q' -> fresh_toasts m q -> fresh_toasts m q'.
Proof.
  unfold ToastQueue.fire. destruct (armed q !! timer) as [[id d] |]; [| done]. intros [= <-] [Hn Hd Hu].
  by apply dismiss_fresh.
Qed.

Section Projections.
Context `{UrlApi} `{HeadersApi} `{DateHost} `{Browser} `{ApiView} `{JsonHost} `{ActionApi}.
Context (realtimeBaseUrlInput : string).

(** * One step, seen by each part *)

Lemma newly_notified_named s s' :
  (exists new, St.notified s' = new ++ St.notified s /\ Forall recovery new) ->
  Forall named (newly_notified s s').
Proof.
  intros (new & E & Hnew). unfold newly_notified. rewrite E, length_app.
  replace (length new + length (St.notified s) - length (St.notified s))%nat with (length new) by lia.
  rewrite take_app_length. apply Forall_rev. eapply Forall_impl; [exact Hnew | apply recovery_named].
Qed.

(** The parts of [a'] are reached from those of [a], and [a'] can go on. *)
Record refines (m : Moment) (a a' : App) : Prop := {
  rf_hook : rtc hook_step (hook a) (hook a');
  rf_queue : rtc ToastQueue.step (queue a) (queue a');
  rf_console : rtc console_step (console a) (console a');
  rf_toasts : fresh_toasts m (queue a) -> fresh_toasts m (queue a')
}.

#[local] Instance refines_preorder m : PreOrder (refines m).
Proof.
  split; [by intros a; split |]. intros a1 a2 a3 [] [].
  split; [by etransitivity | by etransitivity | by etransitivity | auto].
Qed.

(** The console shows the data of the hook, at a preset interval. *)
Record synced (a : App) : Prop := {
  sy_data : Console.data (console a) = shown_data (hook a);
  sy_interval : Settings.pollIntervalMs (Console.settings (console a)) ∈ [0; 5000; 15000; 30000]
}.

Lemma load_data s c : Console.data (load s c) = shown_data s.
Proof. by destruct c. Qed.

Lemma load_settings s c : Console.settings (load s c) = Console.settings c.
Proof. by destruct c. Qed.

Lemma load_tasks s c :
  Console.tasks (load s c) = Console.tasks c /\ Console.next (load s c) = Console.next c /\
  Console.busyMap (load s c) = Console.busyMap c.
Proof. by destruct c. Qed.

Lemma hook_once m e s s' :
  valid_env (transport_env (outside m)) -> valid_action e ->
  LiveData.perform (outside m) e s = Some s' -> rtc hook_step s s'.
Proof. intros Hv Ha E. eapply rtc_once, hook_step_perform; eassumption. Qed.

Lemma force_refreshes_steps m n s :
  valid_env (transport_env (outside m)) -> rtc hook_step s (force_refreshes m n s).
Proof.
  intros Hv. induction n as [| n IH]; [apply rtc_refl |]. cbn. etransitivity; [exact IH |].
  by eapply (hook_once m (RefreshConsoleCall true true)).
Qed.

(** What the code of an action tells the hooks. *)
Lemma forward_refines m c' a :
  valid_env (transport_env (outside m)) -> fresh_toasts m (queue a) ->
  rtc console_step (console a) c' ->
  (exists new, Console.notified c' = Console.notified (console a) ++ new /\ Forall named new) ->
  refines m a (forward m c' a).
Proof.
  intros Hv Hq Hc (new & En & Hnew). unfold forward. cbn zeta. rewrite En, drop_app_length.
  destruct (deliver_steps m new (queue a) Hq Hnew) as [Hs Hf]. split; cbn.
  - eapply rtc_l; [| by apply force_refreshes_steps].
    by eapply (hook_step_perform (outside m) (UpdateData (fun _ => Console.data c'))).
  - exact Hs.
  - eapply rtc_r; [exact Hc | apply console_loads].
  - done.
Qed.

Lemma send_refines m id a : valid_env (transport_env (outside m)) -> refines m a (send id a).
Proof.
  intros Hv. unfold send. destruct (Console.tasks (console a) !! id) as [[key [call sent |]] |];
    try reflexivity.
  destruct (requestJson _ _ _ _) as [request pool] eqn:E. split; cbn; try done.
  apply (hook_once m (OwnerRequest (owner_options (St.props (hook a)) sent))); [done | done |].
  unfold LiveData.perform, pool_upd. by rewrite E.
Qed.

Lemma forward_synced m c' a :
  Settings.pollIntervalMs (Console.settings c') ∈ [0; 5000; 15000; 30000] ->
  synced (forward m c' a).
Proof. intros Hp. split; cbn; [apply load_data | by rewrite load_settings]. Qed.

Lemma send_synced id a : synced a -> synced (send id a).
Proof.
  intros [Hd Hp]. unfold send. destruct (Console.tasks (console a) !! id) as [[key [call sent |]] |];
    try by split.
  destruct (requestJson _ _ _ _) as [request pool]. by split.
Qed.

(** An action, an edit, a continuation. *)
Lemma console_call m c' a :
  valid_env (transport_env (outside m)) -> fresh_toasts m (queue a) -> synced a ->
  rtc console_step (console a) c' -> speaks (console a) c' ->
  refines m a (forward m c' a) /\ synced (forward m c' a).
Proof.
  intros Hv Hq [_ Hp] Hc [Hn _ Hs]. split; [by apply forward_refines |].
  apply forward_synced. by rewrite Hs.
Qed.

Lemma answer_task_refines m answer a id :
  valid_env (transport_env (outside m)) -> fresh_toasts m (queue a) -> synced a ->
  refines m a (answer_task m answer a id) /\ synced (answer_task m answer a id).
Proof.
  intros Hv Hq Hs. unfold answer_task.
  destruct (resume _ _ _ _) as [c' |] eqn:E; [| by split; [reflexivity |]].
  apply console_call; [done | done | done | | by eapply resume_speaks].
  apply rtc_once, console_runs. by eapply step_resume.
Qed.

Lemma answers_refine m answer l a :
  valid_env (transport_env (outside m)) -> fresh_toasts m (queue a) -> synced a ->
  let a' := foldl (answer_task m answer) a l in refines m a a' /\ synced a'.
Proof.
  intros Hv. cbn zeta. revert a. induction l as [| id l IH]; intros a Hq Hs; [by split; [reflexivity |] |].
  cbn. destruct (answer_task_refines m answer a id Hv Hq Hs) as [HR HS].
  destruct (IH _ (rf_toasts _ _ _ HR Hq) HS) as [HR' HS']. split; [by etransitivity | done].
Qed.

(** The hook has run. *)
Lemma run_hook_refines m e a a' :
  valid_env (transport_env (outside m)) -> valid_action e -> fresh_toasts m (queue a) -> synced a ->
  run_hook m e a = Some a' ->
  (exists new, St.notified (hook a') = new ++ St.notified (hook a) /\ Forall recovery new) ->
  refines m a a' /\ synced a'.
Proof.
  intros Hv He Hq [_ Hp] E Hn. unfold run_hook in E.
  destruct (LiveData.perform _ _ _) as [s' |] eqn:Es; [| done]. injection E as <-. cbn in Hn.
  destruct (deliver_steps m _ (queue a) Hq (newly_notified_named _ _ Hn)) as [Hs Hf]. split.
  - split; cbn; [by eapply hook_once | exact Hs | apply rtc_once, console_loads | done].
  - split; cbn; [apply load_data | by rewrite load_settings].
Qed.

Lemma hook_steps s s' : hook_reachable s -> rtc hook_step s s' -> hook_reachable s'.
Proof. intros Hs Hst. induction Hst; [done |]. apply IHHst. by eapply hook_stepped. Qed.

Lemma props_valid c :
  Settings.pollIntervalMs (Console.settings c) ∈ [0; 5000; 15000; 30000] ->
  valid_props (props_of realtimeBaseUrlInput c).
Proof. by unfold valid_props. Qed.

Lemma effects_speak c : speaks c (ConsoleActions.effects c).
Proof.
  unfold ConsoleActions.effects. cbn zeta.
  transitivity (Console.set_selectedTab (tabKey (Console.selectedTab c)) c); [eauto with speaks |].
  etransitivity; [| eauto with speaks]. destruct (_ && _); [eauto with speaks | reflexivity].
Qed.

Lemma render_settings a : Console.settings (console (render_effects a)) = Console.settings (console a).
Proof.
  unfold render_effects. cbn [console]. rewrite load_settings, (sp_settings _ _ (effects_speak _)).
  by destruct (console a).
Qed.

Lemma render_refines m a :
  synced a -> refines m a (render_effects a) /\ synced (render_effects a).
Proof.
  intros [Hd Hp]. split; [| split; [apply load_data | by rewrite render_settings]].
  unfold render_effects. set (c := Console.set_data _ _). split; cbn; try done.
  eapply rtc_l; [apply (console_loads (Hook.consoleData (St.rendered (hook a)))) |].
  eapply rtc_l; [apply console_runs, step_effects |]. apply rtc_once, console_loads.
Qed.

(** One step of the console is a run of each of its parts. *)
Lemma app_step_refines m x a a' :
  hook_reachable (hook a) -> synced a ->
  app_valid m x a -> app_perform realtimeBaseUrlInput m x a = Some a' ->
  refines m a a' /\ synced a'.
Proof.
  intros Hr Hs (Hv & Hq & Hx) E. destruct x; cbn [app_perform] in E.
  - destruct (ConsoleActions.perform _ _ _ _) as [c' |] eqn:Ec; [| done]. injection E as <-.
    destruct (console_call m c' a) as [HR HS]; [done | done | done | | by eapply perform_speaks |].
    { apply rtc_once, console_runs. eapply step_action; [apply Hx | exact Ec]. }
    unfold act. split; [| by apply send_synced]. etransitivity; [exact HR | by apply send_refines].
  - injection E as <-. destruct Hx as [He Hn Hnew Hp]. split; [| by apply forward_synced].
    apply forward_refines; [done | done | | exact Hnew]. by apply rtc_once, console_runs, step_edit.
  - destruct (settle id (console a)) as [c' |] eqn:Ec; [| done]. injection E as <-. split.
    + split; cbn; try done. apply rtc_once, console_runs. by eapply step_settle.
    + apply settle_ok in Ec as Ed. destruct Hs as [Hd Hp]. split; cbn; [by rewrite Ed |].
      revert Ec. unfold settle. destruct (Console.tasks _ !! id) as [[key [? ? |]] |]; cbn; try done.
      intros [= <-]. by destruct (console a).
  - apply (run_hook_refines m e a a'); try done; [by destruct e |].
    unfold run_hook in E. destruct (LiveData.perform _ _ _) as [s' |] eqn:Es; [| done].
    injection E as <-. by apply perform_notified in Es; [| apply reachable_tasks].
  - destruct (run_hook m (HandleRequest request) a) as [a1 |] eqn:E1; [| done]. injection E as <-.
    destruct (run_hook_refines m (HandleRequest request) a a1) as [HR HS]; try done.
    { unfold run_hook in E1. destruct (LiveData.perform _ _ _) as [s' |] eqn:Es; [| done].
      injection E1 as <-. by apply perform_notified in Es; [| apply reachable_tasks]. }
    unfold answer. set (a2 := mkApp (hook a1) (console a1) (queue a1) _).
    destruct (answers_refine m (answer_of (St.pool (hook a1)) request)
      (List.map fst (List.filter (fun t => Nat.eqb (snd t) request) (awaited a1))) a2) as [HR' HS'];
      [done | by apply HR | by destruct HS |].
    split; [| exact HS']. etransitivity; [exact HR |]. etransitivity; [| exact HR']. by split.
  - destruct (run_hook m (Commit _ _ _) a) as [a1 |] eqn:E1; [| done]. injection E as <-.
    destruct (run_hook_refines m (Commit (props_of realtimeBaseUrlInput (console a)) transition
      jobs_changed) a a1) as [HR HS]; [done | | done | done | exact E1 | |].
    { apply props_valid, Hs. }
    { unfold run_hook in E1. destruct (LiveData.perform _ _ _) as [s' |] eqn:Es; [| done].
      injection E1 as <-. by apply perform_notified in Es; [| apply reachable_tasks]. }
    destruct (render_refines m a1 HS) as [HR' HS']. split; [by etransitivity | done].
  - injection E as <-. split; [| by destruct Hs].
    split; [done | apply rtc_once, step_dismiss | done | apply dismiss_fresh].
  - destruct (ToastQueue.fire timer (queue a)) as [q |] eqn:Ef; [| done]. injection E as <-.
    split; [| by destruct Hs]. split; [done | by eapply rtc_once, step_fire | done | by eapply fire_fresh].
Qed.

Lemma app_reachable_parts a :
  app_reachable realtimeBaseUrlInput a ->
  hook_reachable (hook a) /\ ToastQueue.reachable (queue a) /\ synced a.
Proof.
  induction 1 as [m settings tab job visible (Hv & Hq & Hp) | a a' _ (Hh & Ht & Hs) Hst].
  - set (c := ConsoleActions.initial (createEmptyConsoleData source_live) settings tab job).
    set (a0 := first_commit realtimeBaseUrlInput m settings tab job visible).
    assert (synced a0) as H0s by (split; [apply load_data | exact Hp]).
    split_and!; [by apply hook_mounted | | apply (render_refines m a0 H0s)].
    apply (deliver_steps m); [done |]. apply Forall_rev.
    destruct (run_effects_evolves (outside m) all_due
      (useDashboardLiveData (outside m) (props_of realtimeBaseUrlInput c) visible)
      (initial_tasks _ _ _)) as [_ [_ _ (new & En & Hnew) _ _ _]].
    fold c. unfold LiveData.mount. rewrite En, app_nil_r.
    eapply Forall_impl; [exact Hnew | apply recovery_named].
  - destruct Hst as [m x a a' Hx E]. destruct (app_step_refines m x a a' Hh Hs Hx E) as [[Hh' Ht' _ _] Hs'].
    split_and!; [by eapply hook_steps | unfold ToastQueue.reachable in *; by etransitivity | done].
Qed.

(** * The requests of the actions *)

(** The key of the request of a task. *)
Definition post_key (sent : Sent) : string :=
  "POST:" +:+ sent_path sent +:+ ":" +:+ default "" (sent_body sent).

(** Every task that waits, but for those in [l], waits for one request of the
    pool, made under its key and not handled. *)
Record tracked (l : list nat) (ts : gmap nat Task) (n : nat) (p : Pool) (aw : list (nat * nat))
  : Prop := {
  tr_ids : forall id, is_Some (ts !! id) -> (id < n)%nat;
  tr_distinct : NoDup (aw.*1 ++ l);
  tr_request : forall id r, (id, r) ∈ aw ->
    exists key call sent, ts !! id = Some (mkTask key (Waiting call sent)) /\
      waits_under (post_key sent) p r;
  tr_pending : forall id, id ∈ l -> exists key call sent, ts !! id = Some (mkTask key (Waiting call sent));
  tr_waiting : forall id key call sent,
    ts !! id = Some (mkTask key (Waiting call sent)) -> id ∈ aw.*1 ++ l
}.

Definition tracks (l : list nat) (a : App) : Prop :=
  tracked l (Console.tasks (console a)) (Console.next (console a)) (St.pool (hook a)) (awaited a).

Definition keeps_waits (p p' : Pool) : Prop :=
  forall key r, waits_under key p r -> waits_under key p' r.

Lemma tracked_pool l ts n p p' aw : keeps_waits p p' -> tracked l ts n p aw -> tracked l ts n p' aw.
Proof.
  intros Hk [T1 T2 T3 T4 T5]. split; try done.
  intros id r Hr. destruct (T3 id r Hr) as (key & call & sent & Hid & Hw).
  exists key, call, sent. split; [done | by apply Hk].
Qed.

Lemma tracked_frame l a a' :
  same_tasks (console a) (console a') -> awaited a' = awaited a ->
  keeps_waits (St.pool (hook a)) (St.pool (hook a')) -> tracks l a -> tracks l a'.
Proof. intros (_ & Et & En) Ea Hk. unfold tracks. rewrite Et, En, Ea. by apply tracked_pool. Qed.

(** A task begins. *)
Lemma tracked_new ts n p aw : tracked [] ts n p aw -> ts !! n = None /\ n ∉ aw.*1.
Proof.
  intros [T1 T2 T3 T4 T5].
  assert (ts !! n = None) as Hn
    by (destruct (ts !! n) eqn:E; [assert (n < n)%nat by (apply T1; eauto); lia | done]).
  split; [done |]. intros ([id r] & E & Hid)%list_elem_of_fmap. cbn in E. subst.
  destruct (T3 _ _ Hid) as (? & ? & ? & ? & _). congruence.
Qed.

Lemma tracked_ended ts n p aw key :
  tracked [] ts n p aw -> tracked [] (<[n := mkTask key Ended]> ts) (S n) p aw.
Proof.
  intros Ht. destruct (tracked_new _ _ _ _ Ht) as [Hn Ha]. destruct Ht as [T1 T2 T3 T4 T5].
  split; try done.
  - intros id [<- | [_ Hid%T1]]%lookup_insert_is_Some; lia.
  - intros id r Hid. destruct (T3 id r Hid) as (k & call & sent & E & Hw). exists k, call, sent.
    split; [| done]. rewrite lookup_insert_ne; [done |]. intros <-. congruence.
  - intros id. by intros Hid%elem_of_nil.
  - intros id k call sent [[<- E] | [_ E]]%lookup_insert_Some; [done | by eapply T5].
Qed.

Lemma tracked_sent ts n p p' aw key call sent r :
  tracked [] ts n p aw -> keeps_waits p p' -> waits_under (post_key sent) p' r ->
  tracked [] (<[n := mkTask key (Waiting call sent)]> ts) (S n) p' (aw ++ [(n, r)]).
Proof.
  intros Ht Hk Hw. destruct (tracked_new _ _ _ _ Ht) as [Hn Ha]. destruct Ht as [T1 T2 T3 T4 T5].
  rewrite app_nil_r in *. split; rewrite ?app_nil_r.
  - intros id [<- | [_ Hid%T1]]%lookup_insert_is_Some; lia.
  - rewrite fmap_app. apply NoDup_app. split_and!; [done | | by apply NoDup_singleton].
    intros id Hid Hid'%list_elem_of_singleton. cbn in Hid'. by subst.
  - intros id q [Hid | Hid]%elem_of_app.
    + destruct (T3 id q Hid) as (k & call' & sent' & E & Hq). exists k, call', sent'.
      rewrite lookup_insert_ne by (intros <-; congruence). split; [done | by apply Hk].
    + apply list_elem_of_singleton in Hid as [= -> ->]. exists key, call, sent. by rewrite lookup_insert_eq.
  - intros id. by intros Hid%elem_of_nil.
  - intros id k call' sent'. rewrite fmap_app, elem_of_app.
    intros [[<- E] | [_ E]]%lookup_insert_Some; [right; by left | left; by eapply T5].
Qed.

(** A task ends. *)
Lemma tracked_settled ts n p aw key id :
  ts !! id = Some (mkTask key Ended) -> tracked [] ts n p aw -> tracked [] (delete id ts) n p aw.
Proof.
  intros Hid [T1 T2 T3 T4 T5]. split; try done.
  - intros i [_ Hi]%lookup_delete_is_Some. by apply T1.
  - intros i r Hi. destruct (T3 i r Hi) as (k & call & sent & E & Hw). exists k, call, sent.
    rewrite lookup_delete_ne; [done |]. intros <-. congruence.
  - intros i. by intros Hi%elem_of_nil.
  - intros i k call sent [_ E]%lookup_delete_Some. by eapply T5.
Qed.

(** The first task of [l] goes on. *)
Lemma tracked_resumed ts n p aw key id l :
  tracked (id :: l) ts n p aw -> tracked l (<[id := mkTask key Ended]> ts) n p aw.
Proof.
  intros [T1 T2 T3 T4 T5].
  assert (NoDup (aw.*1 ++ l) /\ id ∉ aw.*1 ++ l) as [Hd Hn].
  { rewrite <- Permutation_middle in T2. by apply NoDup_cons in T2 as [? ?]. }
  rewrite not_elem_of_app in Hn. destruct Hn as [Hna Hnl]. split; try done.
  - intros i [<- | [_ Hi]]%lookup_insert_is_Some; [| by apply T1].
    destruct (T4 id ltac:(by left)) as (? & ? & ? & E). apply T1. by eexists.
  - intros i r Hi. destruct (T3 i r Hi) as (k & call & sent & E & Hw). exists k, call, sent.
    rewrite lookup_insert_ne; [done |]. intros <-. apply Hna. by apply (list_elem_of_fmap_2 fst _ (id, r)).
  - intros i Hi. destruct (T4 i ltac:(by right)) as (k & call & sent & E). exists k, call, sent.
    rewrite lookup_insert_ne; [done |]. by intros <-.
  - intros i k call sent [[_ E] | [Hne E]]%lookup_insert_Some; [done |]. apply T5 in E.
    rewrite elem_of_app, elem_of_cons in E. rewrite elem_of_app. naive_solver.
Qed.

(** The tasks that wait for [r] are the ones to go on. *)
Lemma tracked_split ts n p p' aw r :
  tracked [] ts n p aw ->
  (forall key i, i <> r -> waits_under key p i -> waits_under key p' i) ->
  tracked (List.map fst (List.filter (fun t => Nat.eqb (snd t) r) aw)) ts n p'
    (List.filter (fun t => negb (Nat.eqb (snd t) r)) aw).
Proof.
  intros [T1 T2 T3 T4 T5] Hk. rewrite app_nil_r in *.
  assert (forall i, i ∈ (List.filter (fun t => negb (Nat.eqb (snd t) r)) aw).*1 ++
    List.map fst (List.filter (fun t => Nat.eqb (snd t) r) aw) <-> i ∈ aw.*1) as Hin.
  { intros i. change (List.map fst) with (fmap (M := list) (@fst nat nat)). rewrite <- fmap_app.
    rewrite !list_elem_of_fmap. setoid_rewrite elem_of_app. setoid_rewrite list_elem_of_In.
    setoid_rewrite filter_In. split.
    - intros ([j q] & -> & [[Hq _] | [Hq _]]); by exists (j, q).
    - intros ([j q] & -> & Hq). exists (j, q). split; [done |]. cbn.
      destruct (Nat.eqb q r); [by right | by left]. }
  split; try done.
  - change (List.map fst) with (fmap (M := list) (@fst nat nat)). rewrite <- fmap_app.
    rewrite (NoDup_Permutation_proper _ (aw.*1)); [done |]. apply fmap_Permutation.
    clear. induction aw as [| [j q] aw IH]; [done |]. cbn. destruct (Nat.eqb q r); cbn.
    + by rewrite <- Permutation_middle, IH.
    + by rewrite IH.
  - intros i q [Hi Hq]%list_elem_of_In%filter_In. cbn in Hq. apply negb_true_iff, Nat.eqb_neq in Hq.
    destruct (T3 i q) as (k & call & sent & E & Hw); [by apply list_elem_of_In |].
    exists k, call, sent. split; [done | by apply Hk].
  - intros i Hi. assert (i ∈ aw.*1) as ([j q] & -> & Hj)%list_elem_of_fmap
      by (apply Hin, elem_of_app; by right).
    destruct (T3 j q Hj) as (k & call & sent & E & _). by exists k, call, sent.
  - intros i k call sent E. apply Hin. by eapply T5; rewrite ?app_nil_r.
Qed.

Lemma load_same s c : same_tasks c (load s c).
Proof. by destruct c. Qed.

Lemma force_refreshes_evolves m n s : evolves s (force_refreshes m n s).
Proof.
  induction n as [| n IH]; [reflexivity |]. cbn. etransitivity; [exact IH | apply refreshConsole_evolves].
Qed.

Lemma forward_hook m c' a :
  tasks_of (hook a) ->
  tasks_of (hook (forward m c' a)) /\
  keeps_waits (St.pool (hook a)) (St.pool (hook (forward m c' a))).
Proof.
  intros Hs. unfold forward. cbn [hook].
  set (s := LiveData.setConsoleData _ (hook a)).
  assert (tasks_of s) as Hs' by (eapply tasks_of_keeps; [exact Hs | by split]).
  destruct (force_refreshes_evolves m (Console.refreshes c' - Console.refreshes (console a)) s Hs')
    as [Hs'' [_ Hk _ _ _ _]].
  split; [exact Hs'' |]. intros key r Hw. by apply (waits_keeps key (St.pool s)).
Qed.

(** What a caller of [requestJson] is given waits under its key. *)
Lemma given_under p options k r p' :
  pool_ok p -> requestJson options None k p = (r, p') ->
  waits_under (dedupeKey k options) p' r /\ keeps_requests p p'.
Proof.
  intros Hp E. split; [| by replace p' with (snd (r, p')) by done; rewrite <- E; apply keeps_request].
  revert E. unfold requestJson. destruct (requestMap p !! _) as [e |] eqn:Em; intros [= <- <-].
  - apply (ok_map p Hp) in Em as (q & Hq & Hk & Hd). by exists q.
  - eexists. cbn. by rewrite lookup_insert_eq.
Qed.

Lemma act_tracks m t ids action c' a :
  tasks_of (hook a) ->
  ConsoleActions.perform t ids action (console a) = Ok c' -> tracks [] a -> tracks [] (act m c' a).
Proof.
  intros Hs Hp Ht. destruct (forward_hook m c' a Hs) as [Hs' Hk]. unfold act, send.
  change (console (forward m c' a)) with (load (hook (forward m c' a)) c').
  destruct (load_tasks (hook (forward m c' a)) c') as (El & En & _). rewrite El.
  destruct (perform_tasks _ _ _ _ _ Hp) as [(Eb & Et & Ex) | (key & _ & _ & [p Et] & Ex)]; rewrite Et.
  - destruct (tracked_new _ _ _ _ Ht) as [-> _]. unfold tracks.
    change (console (forward m c' a)) with (load (hook (forward m c' a)) c').
    rewrite El, En, Et, Ex. by apply (tracked_pool _ _ _ (St.pool (hook a))).
  - rewrite lookup_insert_eq. unfold tracks in *. destruct p as [call sent |].
    + destruct (requestJson _ _ _ _) as [r pool] eqn:E. cbn [console hook awaited].
      change (console (forward m c' a)) with (load (hook (forward m c' a)) c'). rewrite El, En, Et, Ex.
      apply given_under in E as [Hw Hkr]; [| apply pool_reachable_ok, Hs'].
      apply (tracked_sent _ _ (St.pool (hook a))); [exact Ht | | exact Hw].
      intros k i Hi. by eapply waits_keeps, Hk.
    + change (console (forward m c' a)) with (load (hook (forward m c' a)) c'). rewrite El, En, Et, Ex.
      apply tracked_ended. by apply (tracked_pool _ _ _ (St.pool (hook a))).
Qed.

(** The first task to go on can, and the others stay tracked. *)
Lemma pending_resumes m answer id l a :
  tracks (id :: l) a -> exists c', resume (now m) id answer (console a) = Some c'.
Proof.
  intros Ht. destruct (tr_pending _ _ _ _ _ Ht id ltac:(by left)) as (key & call & sent & Hid).
  unfold resume. rewrite Hid. cbn. eauto.
Qed.

Lemma answer_task_tracks m answer id l a :
  tasks_of (hook a) -> tracks (id :: l) a -> tracks l (answer_task m answer a id).
Proof.
  intros Hs Ht. destruct (pending_resumes m answer id l a Ht) as [c' Hc].
  destruct (forward_hook m c' a Hs) as [Hs' Hk]. unfold answer_task. rewrite Hc.
  unfold tracks in *. change (console (forward m c' a)) with (load (hook (forward m c' a)) c').
  destruct (load_tasks (hook (forward m c' a)) c') as (El & En & _). rewrite El, En.
  apply resume_tasks in Hc as (key' & call' & sent' & Hid' & Et & _ & Ex). rewrite Et, Ex.
  apply (tracked_pool _ _ _ (St.pool (hook a))); [exact Hk |]. by apply tracked_resumed.
Qed.

Lemma answer_task_hook m answer id a : tasks_of (hook a) -> tasks_of (hook (answer_task m answer a id)).
Proof.
  intros Hs. unfold answer_task. destruct (resume _ _ _ _) as [c' |]; [| exact Hs].
  by apply forward_hook.
Qed.

Lemma answers_track m answer l a :
  tasks_of (hook a) -> tracks l a -> tracks [] (foldl (answer_task m answer) a l).
Proof.
  revert a. induction l as [| id l IH]; intros a Hs Ht; [done |]. cbn [foldl].
  apply IH; [by apply answer_task_hook | by apply answer_task_tracks].
Qed.

Lemma run_hook_tracks m e l a a' :
  tasks_of (hook a) -> (forall id, e <> HandleRequest id) -> run_hook m e a = Some a' ->
  tracks l a -> tracks l a'.
Proof.
  intros Hs He E. unfold run_hook in E.
  destruct (LiveData.perform _ _ _) as [s' |] eqn:Es; [| done]. injection E as <-.
  apply tracked_frame; [apply load_same | done |]. intros key r.
  eapply (perform_requests _ e); [exact Hs | exact Es |]. intros id ->. by destruct (He id).
Qed.

(** A request was handled: the tasks that wait for it are to go on. *)
Lemma handled_tracks m r a s' q :
  tasks_of (hook a) -> LiveData.perform (outside m) (HandleRequest r) (hook a) = Some s' ->
  tracks [] a ->
  tracks (List.map fst (List.filter (fun t => Nat.eqb (snd t) r) (awaited a)))
    (mkApp s' (load s' (console a)) q
       (List.filter (fun t => negb (Nat.eqb (snd t) r)) (awaited a))).
Proof.
  intros Hs Es Ht. unfold tracks. cbn. destruct (load_tasks s' (console a)) as (-> & -> & _).
  apply (tracked_split _ _ (St.pool (hook a))); [exact Ht |]. intros key i Hne.
  eapply perform_requests; [exact Hs | exact Es |]. by intros id [= <-].
Qed.

Lemma render_tracks l a : tracks l a -> tracks l (render_effects a).
Proof.
  intros Ht. apply (tracked_frame l a); [| reflexivity | intros key r Hw; exact Hw | exact Ht].
  unfold render_effects. cbn [console hook].
  set (c := Console.set_data (Hook.consoleData (St.rendered (hook a))) (console a)).
  assert (same_tasks (console a) c) as (Eb & Et & En) by (unfold c; by destruct (console a)).
  destruct (load_tasks (hook a) (ConsoleActions.effects c)) as (El & Eln & Elb).
  destruct (effects_ok c) as [_ (Eb2 & Et2 & En2)]. split_and!; congruence.
Qed.

Lemma app_step_tracks m x a a' :
  hook_reachable (hook a) -> app_valid m x a -> app_perform realtimeBaseUrlInput m x a = Some a' ->
  tracks [] a -> tracks [] a'.
Proof.
  intros Hr%reachable_tasks (Hv & Hq & Hx) E Ht. destruct x; cbn [app_perform] in E.
  - destruct (ConsoleActions.perform _ _ _ _) as [c' |] eqn:Ec; [| done]. injection E as <-.
    by eapply act_tracks.
  - injection E as <-. destruct (forward_hook m c' a Hr) as [_ Hk].
    apply (tracked_frame [] a); [| done | exact Hk | exact Ht].
    destruct Hx as [(_ & Eb & Et & En) _ _ _].
    destruct (load_tasks (hook (forward m c' a)) c') as (El & Eln & Elb).
    split_and!; [exact (eq_trans Elb Eb) | exact (eq_trans El Et) | exact (eq_trans Eln En)].
  - destruct (settle id (console a)) as [c' |] eqn:Ec; [| done]. injection E as <-.
    apply settle_tasks in Ec as (key & Hid & Et & _ & En). unfold tracks in *. cbn. rewrite Et, En.
    by eapply tracked_settled.
  - eapply run_hook_tracks; [exact Hr | | exact E | exact Ht]. by intros id ->.
  - unfold run_hook in E. destruct (LiveData.perform _ _ _) as [s' |] eqn:Es; [| done].
    injection E as <-. unfold answer. apply answers_track.
    + eapply hook_step_tasks; [exact Hr |]. by eapply (hook_step_perform _ (HandleRequest request)).
    + by apply (handled_tracks m request a s').
  - destruct (run_hook m (Commit _ _ _) a) as [a1 |] eqn:E1; [| done]. injection E as <-.
    assert (tracks [] a1) as Ht1
      by (apply (run_hook_tracks m _ [] a a1 Hr) in E1; [exact E1 | intros id E; discriminate E | exact Ht]).
    by apply render_tracks.
  - by injection E as <-.
  - destruct (ToastQueue.fire timer (queue a)) as [q |]; [| done]. by injection E as <-.
Qed.

Lemma tracks_start s c q : Console.tasks c = ∅ -> tracks [] (mkApp s c q []).
Proof.
  intros E. unfold tracks. cbn [console hook awaited]. rewrite E. split.
  - intros id. rewrite lookup_empty. by intros [? ?].
  - constructor.
  - by intros id r Hid%elem_of_nil.
  - by intros id Hid%elem_of_nil.
  - intros id key call sent. by rewrite lookup_empty.
Qed.

Lemma app_reachable_tracks a : app_reachable realtimeBaseUrlInput a -> tracks [] a.
Proof.
  induction 1 as [m settings tab job visible _ | a a' Ha Ht Hst].
  - apply render_tracks, tracks_start, load_tasks.
  - destruct Hst as [m x a a' Hx E]. destruct (app_reachable_parts a Ha) as (Hh & _ & _).
    by eapply app_step_tracks.
Qed.

(** A request under way can be rejected by the network. *)
Lemma can_settle p r q :
  requests p !! r = Some q -> settled (run q) = false ->
  exists e p', net_event r e p = Some p' /\ is_Some (outcome p' r).
Proof.
  intros Hq Hset. unfold settled in Hset. destruct (phase (run q)) as [| status | result] eqn:Ep; [| | done].
  - exists (FetchRejects abort_error). unfold net_event. rewrite Hq. cbn. rewrite Ep. cbn.
    eexists. split; [done |]. unfold outcome. cbn. rewrite lookup_insert_eq. cbn. by eexists.
  - exists (TextRejects abort_error). unfold net_event. rewrite Hq. cbn. rewrite Ep. cbn.
    eexists. split; [done |]. unfold outcome. cbn. rewrite lookup_insert_eq. cbn. by eexists.
Qed.

Lemma can_drain p r q :
  requests p !! r = Some q -> RequestPool.drained q = false -> settled (run q) = true ->
  is_Some (RequestPool.drain r p).
Proof. intros Hq Hd Hs. unfold RequestPool.drain. rewrite Hq. cbn. rewrite Hd, Hs. by eexists. Qed.

(** The tasks of [l] have ended, the others are as they were. *)
Lemma answers_end m answer l a i task :
  tasks_of (hook a) -> tracks l a -> Console.tasks (console a) !! i = Some task ->
  Console.tasks (console (foldl (answer_task m answer) a l)) !! i =
    Some (if decide (i ∈ l) then mkTask (task_key task) Ended else task).
Proof.
  revert a task. induction l as [| id l IH]; intros a task Hs Ht Hi.
  { cbn. by rewrite decide_False by apply not_elem_of_nil. }
  cbn [foldl].
  assert (Console.tasks (console (answer_task m answer a id)) !! i =
      Some (if decide (i = id) then mkTask (task_key task) Ended else task)) as Hi'.
  { destruct (pending_resumes m answer id l a Ht) as [c' Hc]. unfold answer_task. rewrite Hc.
    change (console (forward m c' a)) with (load (hook (forward m c' a)) c').
    destruct (load_tasks (hook (forward m c' a)) c') as (El & _). rewrite El.
    apply resume_tasks in Hc as (key' & call' & sent' & Hid' & Et & _ & _). rewrite Et.
    destruct (decide (i = id)) as [-> | Hne]; [| by rewrite lookup_insert_ne].
    rewrite lookup_insert_eq. by simplify_eq. }
  rewrite (IH _ _ (answer_task_hook m answer id a Hs) (answer_task_tracks m answer id l a Hs Ht) Hi').
  destruct (decide (i = id)) as [-> | Hne].
  - rewrite (decide_True (P := id ∈ id :: l)) by by left. by destruct (decide (id ∈ l)).
  - apply f_equal, decide_ext. rewrite elem_of_cons. naive_solver.
Qed.

(** The request of a task that waits. *)
Lemma waiting_request a id key call sent :
  app_reachable realtimeBaseUrlInput a ->
  Console.tasks (console a) !! id = Some (mkTask key (Waiting call sent)) ->
  exists r, (id, r) ∈ awaited a /\ waits_under (post_key sent) (St.pool (hook a)) r.
Proof.
  intros Ha%app_reachable_tracks Hid. pose proof (tr_waiting _ _ _ _ _ Ha id key call sent Hid) as Hw.
  rewrite app_nil_r in Hw. apply list_elem_of_fmap in Hw as ([j r] & -> & Hr). cbn in Hid.
  destruct (tr_request _ _ _ _ _ Ha j r Hr) as (key' & call' & sent' & E & Hw). exists r. cbn.
  split; [exact Hr |]. by simplify_eq.
Qed.

(** Handling the request of a task ends it. *)
Lemma handled_ends m a r id key call sent p :
  app_reachable realtimeBaseUrlInput a -> (id, r) ∈ awaited a ->
  Console.tasks (console a) !! id = Some (mkTask key (Waiting call sent)) ->
  RequestPool.drain r (St.pool (hook a)) = Some p ->
  exists a', app_perform realtimeBaseUrlInput m (HandleAnswer r) a = Some a' /\
    Console.tasks (console a') !! id = Some (mkTask key Ended).
Proof.
  intros Ha Hr Hid Hp. destruct (app_reachable_parts a Ha) as (Hh%reachable_tasks & _ & _).
  assert (exists s', LiveData.perform (outside m) (HandleRequest r) (hook a) = Some s') as [s' Es]
    by (cbn; unfold handle_request; rewrite Hp; cbn; eauto).
  exists (answer m r (after_hook m s' a)). split; [cbn [app_perform]; unfold run_hook; by rewrite Es |].
  unfold answer.
  rewrite (answers_end m _ (List.map fst (List.filter (fun t => Nat.eqb (snd t) r) (awaited a))) _ id
    (mkTask key (Waiting call sent))).
  - rewrite decide_True; [done |]. apply list_elem_of_In, in_map_iff. exists (id, r). split; [done |].
    apply filter_In. split; [by apply list_elem_of_In | apply Nat.eqb_refl].
  - by eapply handle_request_tasks.
  - apply (handled_tracks m r a s'); [exact Hh | exact Es | by apply app_reachable_tracks].
  - cbn. by destruct (load_tasks s' (console a)) as (-> & _ & _).
Qed.

(** * Properties *)

(** C1: The console refines its parts. However the user, the timers, the network
    and the renders are interleaved, the hook is in a reachable state of its own,
    the queue of toasts too, and the console shows the data of the hook; and each
    step of the whole is a run of the hook's steps, a run of the queue's steps and
    a run of the console's actions, continuations, effects and edits between which
    the hook changes its data. So what is proved of each part holds of the whole. *)
Theorem console_refines_parts a :
  app_reachable realtimeBaseUrlInput a ->
  hook_reachable (hook a) /\ ToastQueue.reachable (queue a) /\
  Console.data (console a) = shown_data (hook a) /\
  forall m x a', app_valid m x a -> app_perform realtimeBaseUrlInput m x a = Some a' ->
    rtc hook_step (hook a) (hook a') /\ rtc ToastQueue.step (queue a) (queue a') /\
    rtc console_step (console a) (console a').
Proof.
  intros Ha. destruct (app_reachable_parts a Ha) as (Hh & Ht & Hs).
  split_and!; [done | done | apply Hs |]. intros m x a' Hx E.
  by destruct (app_step_refines m x a a' Hh Hs Hx E) as [[? ? ? _] _].
Qed.

(** C2: Every action that waits is answered. In every reachable state of the
    console a task that waits has one request in the pool of the hook, with the
    path and the body it sent as its key, whose promise has not been handled: so
    two tasks that sent the same share the request. While that request is under
    way its timer is armed or it is aborted already, and it can settle; once it
    has settled its promise can be handled, which ends the task whatever the
    answer, and then the [finally] of [runBusy] takes the task away and lowers
    its flag. *)
Theorem actions_answered a id key call sent :
  app_reachable realtimeBaseUrlInput a ->
  Console.tasks (console a) !! id = Some (mkTask key (Waiting call sent)) ->
  exists r q,
    (id, r) ∈ awaited a /\ requests (St.pool (hook a)) !! r = Some q /\
    RequestPool.key q = post_key sent /\
    (forall id' key' call' sent',
       Console.tasks (console a) !! id' = Some (mkTask key' (Waiting call' sent')) ->
       post_key sent' = post_key sent -> (id', r) ∈ awaited a) /\
    (settled (run q) = false ->
       (RequestClient.timer (run q) = true \/ is_Some (aborted (run q))) /\
       exists e p', net_event r e (St.pool (hook a)) = Some p' /\ is_Some (outcome p' r)) /\
    (settled (run q) = true -> forall m, exists a1 a2,
       app_perform realtimeBaseUrlInput m (HandleAnswer r) a = Some a1 /\
       Console.tasks (console a1) !! id = Some (mkTask key Ended) /\
       app_perform realtimeBaseUrlInput m (SettleTask id) a1 = Some a2 /\
       Console.tasks (console a2) !! id = None /\ key ∉ Console.busyMap (console a2)).
Proof.
  intros Ha Hid. destruct (waiting_request a id key call sent Ha Hid) as (r & Hr & q & Hq & Hd & Ek).
  destruct (app_reachable_parts a Ha) as (Hh%reachable_tasks & _ & _).
  assert (pool_ok (St.pool (hook a))) as Hok by apply pool_reachable_ok, Hh.
  exists r, q. split_and!; [done | done | done | | |].
  - intros id' key' call' sent' Hid' E.
    destruct (waiting_request a id' key' call' sent' Ha Hid') as (r' & Hr' & q' & Hq' & Hd' & Ek').
    assert (r' = r) as ->; [| done].
    assert (requestMap (St.pool (hook a)) !! post_key sent = Some r) by (apply (ok_map _ Hok); eauto).
    assert (requestMap (St.pool (hook a)) !! post_key sent = Some r')
      by (apply (ok_map _ Hok); exists q'; split_and!; congruence). congruence.
  - intros Hset. split; [| by eapply can_settle].
    destruct (ok_request _ Hok r q Hq) as [(sig & Hrun & _) _ _ _ _]. by apply (ok_armed _ _ Hrun).
  - intros Hset m. destruct (can_drain _ r q Hq Hd Hset) as [p Hp].
    destruct (handled_ends m a r id key call sent p Ha Hr Hid Hp) as (a1 & E1 & Hend).
    assert (exists c', settle id (console a1) = Some c') as [c' Hc]
      by (unfold settle; rewrite Hend; cbn; eauto).
    exists a1, (mkApp (hook a1) c' (queue a1) (awaited a1)).
    apply settle_tasks in Hc as Hs. destruct Hs as (key' & Hid' & Et & Eb & _).
    cbn [app_perform]. rewrite Hc. cbn. rewrite Et, Eb, lookup_delete_eq.
    split_and!; try done. simplify_eq. set_solver.
Qed.
End Projections.

(** * Samples *)

Import LiveTasks.Sample.
#[local] Existing Instance sample_json.
#[local] Existing Instance sample_action_api.

Definition sample_moment : Moment :=
  mkMoment (mkOutside sample_now sample_ids sample_env) (fun n => "toast-" +:+ dec (Z.of_nat n)).

(** The console in live mode, on the jobs of an API that is not there yet. *)
Definition live_app : App := mount_app "" sample_moment live_settings "jobs" "" true.

(** A job is retried; the request is under way. *)
Definition retrying_app : App :=
  default live_app (app_perform "" sample_moment (UserAct (RetryJob "job-1")) live_app).

Lemma sample_toasts : fresh_toasts sample_moment useToastQueue.
Proof.
  split.
  - intros n E. discriminate E.
  - intros n n' E. injection E as E. apply dec_inj in E. lia.
  - intros n _. apply lookup_empty.
Qed.

Lemma live_app_reachable : app_reachable "" live_app.
Proof.
  apply app_mounted. split_and!; [apply at_start_valid | apply sample_toasts |]. cbn. set_solver.
Qed.

Lemma live_app_queue : queue live_app = useToastQueue.
Proof. by vm_compute. Qed.

Lemma retry_valid : app_valid sample_moment (UserAct (RetryJob "job-1")) live_app.
Proof.
  split; [apply at_start_valid |]. split; [rewrite live_app_queue; apply sample_toasts |].
  split; [| done]. split; apply (bool_decide_unpack _); vm_compute; exact I.
Qed.

Lemma retrying_step : app_perform "" sample_moment (UserAct (RetryJob "job-1")) live_app = Some retrying_app.
Proof. done. Qed.

Lemma retrying_reachable : app_reachable "" retrying_app.
Proof. eapply app_stepped; [apply live_app_reachable |]. eapply app_step_perform; [apply retry_valid | done]. Qed.

Definition retry_request : Sent := post (API_ROUTES.jobRetry "job-1") None (Some parseJob).

Lemma console_refines_parts_witness :
  hook_reachable (hook retrying_app) /\ rtc hook_step (hook live_app) (hook retrying_app).
Proof.
  destruct (console_refines_parts "" retrying_app retrying_reachable) as (Hh & _).
  destruct (console_refines_parts "" live_app live_app_reachable) as (_ & _ & _ & Hstep).
  split; [exact Hh |].
  exact (proj1 (Hstep sample_moment (UserAct (RetryJob "job-1")) retrying_app retry_valid retrying_step)).
Defined.

Lemma actions_answered_witness :
  exists r q, (0%nat, r) ∈ awaited retrying_app /\
    requests (St.pool (hook retrying_app)) !! r = Some q /\
    RequestPool.key q = "POST:/api/v1/jobs/job-1/retry:".
Proof.
  destruct (actions_answered "" retrying_app 0 "job-retry-job-1" (CallRetry "job-1") retry_request
    retrying_reachable) as (r & q & Hr & Hq & Hk & _); [vm_compute; reflexivity |].
  exists r, q. split; [exact Hr |]. split; [exact Hq |]. rewrite Hk. vm_compute. reflexivity.
Defined.
