(* ===== verification/OpsRefreshes.v ===== *)
(** What the answer to an action's request does to the hook of the console: an
    answer that resolved begins a refresh of its own, which nothing has aborted
    and which every other refresh gives way to; a rejection leaves data, refreshes
    and toasts as the hook left them. *)

From stdpp Require Import base list strings gmap relations.
From Stdlib Require Import ZArith Lia Bool.
From S2P Require Import Prelude JsString JsNum JsDate JsValue Models ApiRoutes Safe LiveRefresh.
From S2P Require Import LiveTransport Settings ToastQueue ApiParsers RequestClient RequestPool.
From S2P Require Import ConsoleState Urls DemoData LiveState LiveData LiveTasks ConsoleViews.
From S2P Require Import ConsoleForms ConsoleActions ConsoleProperties LiveFrame OpsConsole.
From S2P Require Import OpsConsoleProperties.

#[local] Open Scope Z_scope.

(** * Task numbers grow *)

Section Hook.
Context `{UrlApi} `{HeadersApi} `{DateHost} `{Browser} `{ApiView}.

Lemma foldl_next {A} (f : St -> A -> St) l s :
  (forall s x, (St.next s <= St.next (f s x))%nat) -> (St.next s <= St.next (foldl f s l))%nat.
Proof.
  intros Hf. revert s. induction l as [| x l IH]; intros s; [done |]. cbn.
  etransitivity; [apply Hf | apply IH].
Qed.

Lemma advance_refresh_next o s t : (St.next s <= St.next (advance_refresh o s t))%nat.
Proof.
  unfold advance_refresh. destruct (all_settled _ _) as [settled |]; [| done].
  set (s1 := St.set_refreshTasks _ s). etransitivity; [| apply kt_next, kt_resolve_refresh].
  exact (er_next _ _ _ (continue_refresh_ends o (snd t) settled s1)).
Qed.

Lemma advance_inspection_next o s t : (St.next s <= St.next (advance_inspection o s t))%nat.
Proof.
  unfold advance_inspection. destruct (handled _ _) as [settled |]; [| done].
  set (s1 := St.set_inspectionTasks _ s).
  exact (ei_next _ _ _ (continue_inspection_ends o (snd t) settled s1)).
Qed.

Lemma handle_request_next o id s s' : handle_request o id s = Some s' -> (St.next s <= St.next s')%nat.
Proof.
  unfold handle_request. destruct (RequestPool.drain id (St.pool s)) as [p |]; [| done]. cbn.
  intros [= <-]. etransitivity; [| apply foldl_next; intros; apply advance_inspection_next].
  by etransitivity; [| apply foldl_next; intros; apply advance_refresh_next].
Qed.

(** * A forced refresh *)

(** The refresh [t] is the current one: its promise and its controller are the
    refs', it is not aborted and waits for its requests; all others are aborted. *)
Record current_refresh (s : St) (p : nat) (t : RefreshTask) : Prop := {
  cr_promise : Refs.fetchPromiseRef (St.refs s) = Some p;
  cr_task : (p, t) ∈ St.refreshTasks s;
  cr_open : signal_aborted (St.pool s) (refresh_controller t) = false;
  cr_waits : let '(a, b, c, d) := refresh_waits t in Forall (waiting (St.pool s)) [a; b; c; d];
  cr_others : forall p' t', (p', t') ∈ St.refreshTasks s -> p' <> p ->
    signal_aborted (St.pool s) (refresh_controller t') = true
}.

(** The current refresh is the only one that is not aborted. *)
Lemma current_alone s p t :
  tasks_of s -> (p, t) ∈ St.refreshTasks s ->
  Refs.fetchControllerRef (St.refs s) = Some (refresh_controller t) ->
  forall p' t', (p', t') ∈ St.refreshTasks s -> p' <> p ->
    signal_aborted (St.pool s) (refresh_controller t') = true.
Proof.
  intros [[Hs _] _] Ht Hc p' t' Ht' Hne. destruct (t_refresh _ _ _ _ _ _ Hs p' t' Ht') as [_ [Ha | Hf]];
    [exact Ha |]. rewrite Hc in Hf. injection Hf as Hf. exfalso. apply Hne.
  assert ((p', t') = (p, t)) as [= -> _]; [| done].
  eapply (NoDup_fmap_eq (fun t => refresh_controller (snd t)));
    [exact (t_refreshes _ _ _ _ _ _ Hs) | exact Ht' | exact Ht | exact (eq_sym Hf)].
Qed.

Lemma start_refresh_current q s :
  tasks_of s -> exists t, current_refresh (snd (start_refresh q s)) (St.next s) t.
Proof.
  intros Hs. pose proof (abort_fetch_tasks s Hs) as [[H1s _] _].
  pose proof (start_refresh_tasks q s Hs) as Hs'.
  destruct (start_refresh_begins q s (t_pool _ _ _ _ _ _ H1s))
    as (c & w & [_ _ Hc Hcs Hw Hr _ _ Hf _ Hp _ _]).
  set (s' := snd (start_refresh q s)) in *. clearbody s'.
  set (s1 := abort_controller (Refs.fetchControllerRef (St.refs s)) s) in *.
  assert (St.next s1 = St.next s) as En by (unfold s1; by destruct (Refs.fetchControllerRef (St.refs s))).
  rewrite En in *. set (t := {| refresh_controller := c; refresh_quiet := q; refresh_waits := w |}) in *.
  assert ((St.next s, t) ∈ St.refreshTasks s') as Ht by (rewrite Hr, elem_of_app; right; by left).
  exists t. split; [exact Hp | exact Ht | | exact Hw | by eapply current_alone].
  unfold signal_aborted. rewrite Hcs. unfold t. cbn. by rewrite Hc, lookup_insert_eq.
Qed.

(** What lets a refresh begin. *)
Definition refreshable (p : Props) : Prop :=
  Props.liveMode p = true /\ opt_truthy (Props.resolvedBaseUrl p) = true.

Lemma forced_refresh_current o s :
  tasks_of s -> refreshable (St.props s) ->
  exists t, current_refresh (snd (refreshConsole o true true s)) (St.next s) t.
Proof.
  intros Hs [Hl Hu]. unfold refreshConsole. rewrite Hl. cbn [negb]. rewrite Hu. cbn [negb].
  pose proof (start_refresh_current true s Hs) as HR.
  destruct (Refs.fetchPromiseRef (St.refs s)); by destruct (start_refresh true s) as [pr s'].
Qed.
End Hook.

(** * Answers *)

Section Answers.
Context `{UrlApi} `{HeadersApi} `{DateHost} `{Browser} `{ApiView} `{JsonHost} `{ActionApi}.
Context (realtimeBaseUrlInput : string).

(** Every action asks for one refresh once its request resolved. *)
Lemma continue_refreshes t call value c :
  Console.refreshes (continue t call value c) = S (Console.refreshes c).
Proof. by destruct call, c. Qed.

Lemma resolved_refreshes t id value c c' :
  resume t id (Some value) c = Some c' -> Console.refreshes c' = S (Console.refreshes c).
Proof.
  unfold resume. destruct (Console.tasks c !! id) as [[key [call sent |]] |]; cbn; try done.
  intros [= <-]. rewrite <- (continue_refreshes t call value c). by destruct (continue t call value c).
Qed.

(** A rejection only ends the task. *)
Lemma rejected_same t id c c' :
  resume t id None c = Some c' ->
  Console.refreshes c' = Console.refreshes c /\ Console.notified c' = Console.notified c /\
  Console.data c' = Console.data c.
Proof.
  unfold resume. destruct (Console.tasks c !! id) as [[key [call sent |]] |]; cbn; try done.
  intros [= <-]. by destruct c.
Qed.

(** The task of an answer that resolved. *)
Lemma resolved_current m value a id c' :
  tasks_of (hook a) -> refreshable (St.props (hook a)) ->
  resume (now m) id (Some value) (console a) = Some c' ->
  exists t, current_refresh (hook (forward m c' a)) (St.next (hook a)) t.
Proof.
  intros Hs Hl Hc. unfold forward. cbn [hook].
  rewrite (resolved_refreshes _ _ _ _ _ Hc).
  replace (S (Console.refreshes (console a)) - Console.refreshes (console a))%nat with 1%nat by lia.
  apply (forced_refresh_current (outside m) (LiveData.setConsoleData (fun _ => Console.data c') (hook a)));
    [| exact Hl]. eapply tasks_of_keeps; [exact Hs | by split].
Qed.

(** What the tasks yet to be answered find. *)
Definition ready (n : nat) (a : App) : Prop :=
  tasks_of (hook a) /\ refreshable (St.props (hook a)) /\ (n <= St.next (hook a))%nat.

Lemma ready_resolved m n value a id c' :
  ready n a -> resume (now m) id (Some value) (console a) = Some c' -> ready n (forward m c' a).
Proof.
  intros (Hs & Hl & Hn) Hc. destruct (forward_hook m c' a Hs) as [Hs' _].
  destruct (resolved_current m value a id c' Hs Hl Hc) as [t Ht].
  assert (St.props (hook (forward m c' a)) = St.props (hook a)) as Ep.
  { unfold forward. cbn [hook]. set (s := LiveData.setConsoleData _ (hook a)).
    change (St.props (hook a)) with (St.props s). apply force_refreshes_evolves.
    eapply tasks_of_keeps; [exact Hs | by split]. }
  split; [exact Hs' |]. rewrite Ep. split; [exact Hl |].
  destruct Hs' as [[Ht' _] _]. pose proof (proj2 (t_refresh_ids _ _ _ _ _ _ Ht')) as Hids.
  rewrite Forall_forall in Hids.
  exact (Nat.le_trans _ _ _ Hn (Nat.lt_le_incl _ _ (Hids _ (cr_task _ _ _ Ht)))).
Qed.

(** One after the other: the last one's refresh is the current one. *)
Lemma answers_current m n value l a :
  l <> [] -> ready n a -> tracks l a ->
  exists p t, (n <= p)%nat /\ current_refresh (hook (foldl (answer_task m (Some value)) a l)) p t.
Proof.
  revert a. induction l as [| id l IH]; intros a Hl Ha Ht; [done |]. cbn [foldl].
  destruct (pending_resumes m (Some value) id l a Ht) as [c' Hc].
  assert (tracks l (answer_task m (Some value) a id)) as Ht' by (apply answer_task_tracks; [apply Ha | exact Ht]).
  unfold answer_task in Ht' at 1. unfold answer_task at 2. rewrite Hc in *.
  destruct l as [| id' l].
  - destruct Ha as (Hs & Hp & Hn). destruct (resolved_current m value a id c' Hs Hp Hc) as [t Hcur].
    by exists (St.next (hook a)), t.
  - apply IH; [done | by eapply ready_resolved | exact Ht'].
Qed.

(** Rejections leave what the hook holds. *)
Record untouched (a a' : App) : Prop := {
  un_refreshes : St.refreshTasks (hook a') = St.refreshTasks (hook a);
  un_data : shown_data (hook a') = shown_data (hook a);
  un_queue : queue a' = queue a
}.

Lemma answers_rejected m l a :
  synced a -> untouched a (foldl (answer_task m None) a l).
Proof.
  revert a. induction l as [| id l IH]; intros a Hs; [done |]. cbn [foldl].
  unfold answer_task at 2. destruct (resume _ _ _ _) as [c' |] eqn:Hc; [| by apply IH].
  apply rejected_same in Hc as Hsame. destruct Hsame as (Er & En & Ed).
  assert (untouched a (forward m c' a)) as [U1 U2 U3].
  { unfold forward. rewrite Er, Nat.sub_diag, En, drop_all, Ed, (sy_data _ Hs). by split. }
  destruct (IH (forward m c' a)) as [V1 V2 V3]; [| split; congruence].
  apply forward_synced. rewrite (sp_settings _ _ (resume_speaks _ _ _ _ _ Hc)). apply Hs.
Qed.

(** Handling a request leaves its outcome. *)
Lemma drain_outcome r p p' : RequestPool.drain r p = Some p' -> outcome p' r = outcome p r.
Proof.
  unfold RequestPool.drain, outcome. destruct (requests p !! r) as [q |]; [| done]. cbn.
  destruct (_ && _); [| done]. intros [= <-]. cbn. by rewrite lookup_insert_eq.
Qed.

(** * Properties *)

(** C3: In live mode the answer to an action refreshes the console. When the
    request [r] that actions wait for is handled, with a base URL to fetch from: if
    it resolved, a refresh that did not exist before is the one [fetchPromiseRef]
    holds, its controller is not aborted, its four requests are yet to be handled,
    and every other refresh under way is aborted, so it alone can replace the data;
    if it was rejected, the refreshes, the data and the toasts are those the hook
    itself left: the console neither refetches nor reports the failure. *)
Theorem live_answer_refreshes m r a a' :
  app_reachable realtimeBaseUrlInput a -> refreshable (St.props (hook a)) ->
  r ∈ (awaited a).*2 ->
  app_perform realtimeBaseUrlInput m (HandleAnswer r) a = Some a' ->
  match answer_of (St.pool (hook a)) r with
  | Some _ => exists p t, (St.next (hook a) <= p)%nat /\ current_refresh (hook a') p t
  | None =>
      exists s', handle_request (outside m) r (hook a) = Some s' /\
        St.refreshTasks (hook a') = St.refreshTasks s' /\ shown_data (hook a') = shown_data s' /\
        queue a' = deliver m (newly_notified (hook a) s') (queue a)
  end.
Proof.
  intros Ha Hl Hr E. destruct (app_reachable_parts _ a Ha) as (Hh%reachable_tasks & _ & Hsy).
  cbn [app_perform] in E. unfold run_hook in E.
  destruct (LiveData.perform (outside m) (HandleRequest r) (hook a)) as [s' |] eqn:Es; [| done].
  injection E as <-. pose proof (handle_request_frame (outside m) r (hook a) s' Es) as (p & Hp & Ep & F).
  unfold answer. cbn [after_hook hook console queue awaited].
  assert (answer_of (St.pool s') r = answer_of (St.pool (hook a)) r) as ->
    by (unfold answer_of; by rewrite Ep, (drain_outcome r _ _ Hp)).
  set (ids := List.map fst _). set (a2 := mkApp s' _ _ _).
  destruct (answer_of (St.pool (hook a)) r) as [value |].
  - apply answers_current.
    + apply list_elem_of_fmap in Hr as ([id r'] & -> & Hin). intros Hnil.
      enough (In id ids) as Hid by by rewrite Hnil in Hid.
      apply in_map_iff. exists (id, r'). split; [done |]. apply filter_In.
      split; [by apply list_elem_of_In | apply Nat.eqb_refl].
    + split; [by eapply handle_request_tasks |]. split; [| by eapply handle_request_next].
      unfold a2. cbn [hook]. by rewrite (fr_props _ _ F).
    + apply (handled_tracks m r a s'); [exact Hh | exact Es | by apply (app_reachable_tracks realtimeBaseUrlInput)].
  - assert (synced a2) as Ha2 by (split; [apply load_data | cbn; rewrite load_settings; apply Hsy]).
    destruct (answers_rejected m ids a2 Ha2) as [U1 U2 U3]. by exists s'.
Qed.
End Answers.

(** * Samples *)

Import LiveTasks.Sample.
#[local] Existing Instance sample_json.
#[local] Existing Instance sample_action_api.

(** The API answers the retry with the job. *)
Definition retried_text : string :=
  default "" (json_stringify (VObj [("id", VStr "job-1"); ("type", VStr "email.send");
    ("queue", VStr "default"); ("state", VStr "queued")])).

Definition network (e : NetEvent) (a : App) : App :=
  default a (app_perform "" sample_moment (HookEvent (Network 5 e)) a).

Definition answered_app : App := network (TextResolves retried_text) (network (FetchResolves 200) retrying_app).

Definition refreshed_app : App :=
  default answered_app (app_perform "" sample_moment (HandleAnswer 5) answered_app).

Lemma network_reachable e a :
  app_reachable "" a -> queue a = useToastQueue ->
  is_Some (app_perform "" sample_moment (HookEvent (Network 5 e)) a) -> app_reachable "" (network e a).
Proof.
  intros Ha Hq [a' E]. eapply app_stepped; [exact Ha |].
  apply (app_step_perform "" sample_moment (HookEvent (Network 5 e))).
  - split; [apply at_start_valid |]. split; [| done]. rewrite Hq. apply sample_toasts.
  - unfold network. by rewrite E.
Qed.

Lemma answered_reachable : app_reachable "" answered_app.
Proof.
  apply network_reachable; [apply network_reachable; [apply retrying_reachable | |] | |];
    first [vm_compute; reflexivity | apply (bool_decide_unpack _); vm_compute; exact I].
Qed.

Lemma live_answer_refreshes_witness :
  is_Some (answer_of (St.pool (hook answered_app)) 5) /\
  exists p t, (St.next (hook answered_app) <= p)%nat /\ current_refresh (hook refreshed_app) p t.
Proof.
  assert (is_Some (answer_of (St.pool (hook answered_app)) 5)) as [value E]
    by (apply (bool_decide_unpack _); vm_compute; exact I).
  split; [by exists value |].
  pose proof (live_answer_refreshes "" sample_moment 5 answered_app refreshed_app answered_reachable) as HT.
  rewrite E in HT. apply HT.
  - vm_compute. split; reflexivity.
  - vm_compute. left.
  - apply is_some_default. vm_compute. reflexivity.
Defined.
