(* ===== verification/DemoSession.v ===== *)
(** A session of the console in demo mode: whatever the user does and however the
    timers and renders fall, nothing is sent to the backend and the data stay
    consistent. *)

From stdpp Require Import base list strings gmap relations sorting.
From Stdlib Require Import ZArith Lia Bool.
From S2P Require Import Prelude JsString JsNum JsDate JsSort JsValue Models ApiRoutes Safe LiveRefresh.
From S2P Require Import LiveTransport Settings ToastQueue ApiParsers RequestClient RequestPool.
From S2P Require Import ConsoleState Urls DemoData LiveState LiveData LiveTasks ConsoleViews.
From S2P Require Import ConsoleForms ConsoleActions ConsoleProperties LiveFrame OpsConsole.
From S2P Require Import OpsConsoleProperties.

#[local] Open Scope Z_scope.

(** * Actions in demo mode *)

(** The data keep their source, and no task begins to wait. *)
Record stays_local (c c' : Console) : Prop := {
  sl_source : ConsoleData.source (Console.data c') = ConsoleData.source (Console.data c);
  sl_tasks : forall id key call sent,
    Console.tasks c' !! id = Some (mkTask key (Waiting call sent)) ->
    Console.tasks c !! id = Some (mkTask key (Waiting call sent))
}.

#[local] Instance stays_local_preorder : PreOrder stays_local.
Proof.
  split; [by intros c; split |]. intros c1 c2 c3 [S12 T12] [S23 T23]. split; [congruence |].
  intros id key call sent E. by apply T12, T23.
Qed.

Lemma local_same c c' :
  Console.data c' = Console.data c -> Console.tasks c' = Console.tasks c -> stays_local c c'.
Proof. intros Ed Et. split; [by rewrite Ed | by rewrite Et]. Qed.

Ltac local_field c := apply (local_same c); by destruct c.

Lemma local_enqueue toast c : stays_local c (enqueueToast toast c).
Proof. local_field c. Qed.

Lemma local_notify tone title description c : stays_local c (notify tone title description c).
Proof. local_field c. Qed.

Lemma local_busy key value c : stays_local c (setBusy key value c).
Proof. local_field c. Qed.

Lemma local_refresh c : stays_local c (refresh c).
Proof. local_field c. Qed.

(** An updater that keeps the source. *)
Definition keeps_source (f : ConsoleData -> ConsoleData) : Prop :=
  forall data, ConsoleData.source (f data) = ConsoleData.source data.

Lemma local_set data c :
  ConsoleData.source data = ConsoleData.source (Console.data c) ->
  stays_local c (Console.set_data data c).
Proof. intros E. destruct c. by split. Qed.

Lemma local_data f c : keeps_source f -> stays_local c (ConsoleActions.setConsoleData f c).
Proof. intros Hf. apply local_set, Hf. Qed.

Lemma local_ended key c : stays_local c (add_task key Ended c).
Proof.
  destruct c. split; [done |]. cbn. intros id key' call sent [[_ E] | [_ E]]%lookup_insert_Some; done.
Qed.

Lemma local_runBusy key task c :
  (forall s, live s = live c -> fst (task s) = Ended /\ stays_local s (snd (task s))) ->
  stays_local c (runBusy key task c).
Proof.
  intros Ht. unfold runBusy. destruct (Ht (setBusy key true c)) as [Hp Hs]; [by destruct c |].
  destruct (task (setBusy key true c)) as [p c']. cbn in Hp, Hs. subst p.
  etransitivity; [| apply local_ended]. etransitivity; [apply local_busy | exact Hs].
Qed.

(** ** The updaters keep the source *)

Section Source.
Context `{DateHost} `{JsonHost} `{ActionApi}.

Lemma source_reconcile now data :
  ConsoleData.source (reconcileConsoleData now data) = ConsoleData.source data.
Proof. done. Qed.

Lemma source_replace now data job : ConsoleData.source (replaceJob now data job) = ConsoleData.source data.
Proof. by destruct data. Qed.

Lemma source_remove now data jobIds :
  ConsoleData.source (removeDeadLetters now data jobIds) = ConsoleData.source data.
Proof. by destruct data. Qed.

Lemma source_append data event : ConsoleData.source (appendEvent data event) = ConsoleData.source data.
Proof. by destruct (appendEvents_keeps data [event]) as (_ & _ & _ & E). Qed.

Lemma source_jobs jobs data : ConsoleData.source (set_jobs jobs data) = ConsoleData.source data.
Proof. by destruct data. Qed.

Lemma source_controls x data : ConsoleData.source (DataWith.queueControls x data) = ConsoleData.source data.
Proof. by destruct data. Qed.

Lemma source_workers x data : ConsoleData.source (DataWith.workerControls x data) = ConsoleData.source data.
Proof. by destruct data. Qed.

Lemma source_schedules x data : ConsoleData.source (DataWith.schedules x data) = ConsoleData.source data.
Proof. by destruct data. Qed.

Lemma source_workflow now ids : keeps_source (addLocalWorkflowJobs now ids).
Proof. by intros []. Qed.

Hint Rewrite source_append source_remove source_replace source_reconcile source_jobs source_controls
  source_workers source_schedules : source.

Ltac keep_source := let data := fresh "data" in intros data; autorewrite with source; reflexivity.

Lemma source_with_job jobId f :
  (forall job, keeps_source (f job)) -> keeps_source (with_job jobId f).
Proof. intros Hf data. unfold with_job. destruct (find_job _ _); [apply Hf | done]. Qed.

Lemma source_retry now jobId : keeps_source (retry_demo now jobId).
Proof. apply source_with_job. intros job. keep_source. Qed.

Lemma source_cancel now jobId : keeps_source (cancel_demo now jobId).
Proof. apply source_with_job. intros job. keep_source. Qed.

Lemma source_priority now jobId delta : keeps_source (priority_demo now jobId delta).
Proof. apply source_with_job. intros job data. cbn zeta. autorewrite with source. done. Qed.

Lemma source_bulk_replay now selected queue payload :
  keeps_source (bulk_replay_demo now selected queue payload).
Proof.
  intros data. unfold bulk_replay_demo. rewrite source_append.
  revert data. induction selected as [| id selected IH]; intros data; [done |]. cbn [foldl].
  rewrite IH. apply source_with_job. intros job. keep_source.
Qed.

Lemma source_bulk_delete now selected : keeps_source (bulk_delete_demo now selected).
Proof. unfold bulk_delete_demo. keep_source. Qed.

Lemma source_queue_control now queue action : keeps_source (queue_control_demo now queue action).
Proof. unfold queue_control_demo. keep_source. Qed.

Lemma source_cordon now workerId cordoned : keeps_source (cordon_demo now workerId cordoned).
Proof. unfold cordon_demo. keep_source. Qed.

Lemma source_schedule now id body : keeps_source (schedule_demo now id body).
Proof. unfold schedule_demo. keep_source. Qed.

Lemma source_toggle now schedule enabled : keeps_source (toggle_demo now schedule enabled).
Proof. unfold toggle_demo. keep_source. Qed.

Lemma source_trigger now job schedule : keeps_source (trigger_demo now job schedule).
Proof. unfold trigger_demo. keep_source. Qed.
End Source.

Create HintDb stays_local discriminated.
#[local] Hint Constants Opaque : stays_local.
#[local] Hint Resolve local_enqueue local_notify local_busy local_refresh local_data local_ended
  source_retry source_cancel source_priority source_bulk_replay source_bulk_delete
  source_queue_control source_cordon source_schedule source_toggle source_trigger source_workflow
  : stays_local.
#[local] Hint Extern 1 (stays_local _ (Console.set_selectedTab _ ?c)) => (local_field c) : stays_local.
#[local] Hint Extern 1 (stays_local _ (Console.set_selectedJobId _ ?c)) => (local_field c) : stays_local.
#[local] Hint Extern 1 (stays_local _ (Console.set_selectedDeadLetters _ ?c)) =>
  (local_field c) : stays_local.
#[local] Hint Extern 1 (stays_local _ (Console.set_bulkReplayPayload _ ?c)) =>
  (local_field c) : stays_local.
#[local] Hint Extern 1 (stays_local _ (Console.set_scheduleDraft _ ?c)) => (local_field c) : stays_local.
#[local] Hint Extern 1 (stays_local _ (Console.set_scheduleErrors _ ?c)) => (local_field c) : stays_local.
#[local] Hint Extern 1 (stays_local _ (Console.set_jobFormErrors _ ?c)) => (local_field c) : stays_local.

(** One update at a time, the last one first. *)
Ltac local_chain :=
  repeat first [ reflexivity | etransitivity; [| solve [eauto with stays_local]] ].

Section Demo.
Context `{DateHost} `{JsonHost} `{ActionApi}.

Ltac demo_toasts :=
  unfold retry_toast, cancel_toast, replay_toast, bulk_replay_done, bulk_delete_done, schedule_done,
    toggle_toast, trigger_toast, seed_toast, notifyUnsupportedLiveControl.

(** A handler of a task in demo mode. *)
Ltac demo_task Hl :=
  let s := fresh "s" in
  let E := fresh "E" in
  apply local_runBusy; intros s E; rewrite E, Hl; cbn [fst snd]; split; [reflexivity |];
  demo_toasts; local_chain.

Lemma perform_local now ids action c c' :
  live c = false -> ConsoleActions.perform now ids action c = Ok c' -> stays_local c c'.
Proof.
  intros Hl. destruct action; cbn [ConsoleActions.perform]; try (intros [= <-]).
  - unfold submitJob. destruct (checkJobForm _ _) as [[errors | request] |]; [| | done];
      cbn [result_bind]; [intros [= <-]; local_chain |]. rewrite Hl.
    unfold submit_demo. destruct (duplicate_of _ _ _); cbn [result_bind]; [intros [= <-]; local_chain |].
    destruct (createJobFromDraft _ _ _ _) as [job |]; [| done]. cbn [result_bind]. intros [= <-].
    etransitivity; [| apply local_ended]. etransitivity; [apply (local_busy "submit-job" true) |].
    etransitivity; [| apply local_set; rewrite source_append, source_replace; by destruct c]. local_chain.
  - unfold retryJob. demo_task Hl.
  - unfold cancelJob. demo_task Hl.
  - unfold adjustPriority. rewrite Hl. local_chain.
  - unfold replayJob. destruct (replay_payload _); [| local_chain].
    apply local_runBusy. intros s E. destruct (find_job _ _) as [job |]; [| done]. rewrite E, Hl.
    cbn [fst snd]. split; [done |]. demo_toasts. etransitivity; [| apply local_notify].
    unfold replay_demo. destruct (find_job _ _); [| reflexivity]. case_match.
    + apply local_set. by rewrite source_append, source_remove, source_replace.
    + etransitivity; [| apply local_set; rewrite source_append, source_replace; by destruct s]. local_chain.
  - unfold replaySelectedDeadLetters. destruct (Console.selectedDeadLetters c); [local_chain |].
    destruct (bulk_payload _); [local_chain | demo_task Hl].
  - unfold deleteSelectedDeadLetters. destruct (Console.selectedDeadLetters c); [local_chain |].
    demo_task Hl.
  - unfold setQueueControl. rewrite Hl. local_chain.
  - unfold toggleWorkerCordon. rewrite Hl. local_chain.
  - unfold submitSchedule. destruct (checkScheduleForm _); [local_chain | demo_task Hl].
  - unfold toggleSchedule. demo_task Hl.
  - unfold triggerSchedule. apply local_runBusy. intros s E. rewrite E, Hl. cbn [fst snd].
    split; [done |]. destruct (createJobFromDraft _ _ _ _); [demo_toasts; local_chain | reflexivity].
  - unfold seedWorkflow. demo_task Hl.
Qed.
End Demo.

(** * Sessions *)

Lemma demo_data_ok `{DateHost} now (ids : nat -> string) :
  NoDup (List.map ids (seq 0 16)) -> demo_ok (createDemoConsoleData now ids).
Proof.
  intros Hids. split; [| done]. apply reconcile_ok.
  change (List.map ids (seq 0 16)) with (List.map ids (seq 0 12) ++ List.map ids (seq 12 4)) in Hids.
  apply NoDup_app in Hids as (Hj & _ & Hs). split.
  - by apply demo_ids_nodup.
  - cbn in Hs |- *. by do 2 (apply NoDup_cons in Hs as [_ Hs]).
  - cbn. apply NoDup_singleton.
Qed.

Section Session.
Context `{UrlApi} `{HeadersApi} `{DateHost} `{Browser} `{ApiView} `{JsonHost} `{ActionApi}.
Context (realtimeBaseUrlInput : string).

(** The console is mounted in demo mode, and the user does not leave it. *)
Inductive demo_session : App -> Prop :=
  | demo_mounted m settings tab job visible :
      valid_mount m settings -> Settings.liveMode settings = false ->
      NoDup (List.map (ids (outside m)) (seq 0 16)) ->
      demo_session (mount_app realtimeBaseUrlInput m settings tab job visible)
  | demo_stepped a a' :
      demo_session a -> app_step realtimeBaseUrlInput a a' -> live (console a') = false ->
      demo_session a'.

Lemma demo_reachable a : demo_session a -> app_reachable realtimeBaseUrlInput a.
Proof. induction 1; [by apply app_mounted | by eapply app_stepped]. Qed.

Lemma demo_live a : demo_session a -> live (console a) = false.
Proof. destruct 1; [| done]. unfold live, mount_app. by rewrite render_settings. Qed.

(** The hook in demo mode. *)
Definition demo_hook (s : St) : Prop := demo_idle s /\ silent s /\ demo_ok (shown_data s).

Lemma demo_frame s s' : frame s s' -> demo_hook s -> demo_hook s'.
Proof.
  intros [Hp _ _ Hr Hd Hs] (Hi & Hsi & Hok).
  split_and!; [split; [rewrite Hp; apply Hi | auto] | auto | auto].
Qed.

Lemma demo_evolves s s' : tasks_of s -> evolves s s' -> demo_hook s -> demo_hook s'.
Proof. intros Hs Hev. by apply demo_frame, Hev. Qed.

Lemma demo_forward m c' a :
  tasks_of (hook a) -> demo_hook (hook a) -> demo_ok (Console.data c') ->
  demo_hook (hook (forward m c' a)).
Proof.
  intros Hs (Hi & Hsi & _) Hc. unfold forward. cbn [hook].
  set (s := LiveData.setConsoleData _ (hook a)).
  assert (tasks_of s) as Hs' by (eapply tasks_of_keeps; [exact Hs | by split]).
  eapply demo_evolves; [exact Hs' | apply force_refreshes_evolves |]. by split_and!.
Qed.

(** The parts of a session. *)
Record demo_app (a : App) : Prop := {
  da_hook : demo_hook (hook a);
  da_awaited : awaited a = []
}.

Lemma demo_mount m settings tab job visible :
  Settings.liveMode settings = false -> NoDup (List.map (ids (outside m)) (seq 0 16)) ->
  demo_app (mount_app realtimeBaseUrlInput m settings tab job visible).
Proof.
  intros Hl Hids. split; [| done]. unfold mount_app, LiveData.mount. cbn [hook].
  eapply demo_evolves; [apply initial_tasks | apply run_effects_evolves |].
  split_and!; [by split | by split |]. unfold shown_data. cbn. rewrite Hl. by apply demo_data_ok.
Qed.

Lemma no_task_waits a id key call sent :
  tracks [] a -> awaited a = [] ->
  Console.tasks (console a) !! id = Some (mkTask key (Waiting call sent)) -> False.
Proof.
  intros Ht Ea Hid. apply (tr_waiting _ _ _ _ _ Ht) in Hid. rewrite Ea in Hid.
  by apply elem_of_nil in Hid.
Qed.

Lemma demo_act m action c' a :
  tasks_of (hook a) -> tracks [] a -> synced a -> demo_app a -> live (console a) = false ->
  fresh_ids (ids (outside m)) (Console.data (console a)) ->
  ConsoleActions.perform (now m) (ids (outside m)) action (console a) = Ok c' ->
  demo_app (act m c' a).
Proof.
  intros Hs Ht [Hd _] [Hh Ha] Hl Hf Hp.
  destruct Hh as (Hi & Hsi & Hok & Hso). rewrite <- Hd in Hok, Hso.
  pose proof (perform_local _ _ _ _ _ Hl Hp) as [Esrc Htk].
  assert (demo_ok (Console.data c')) as Hok'
    by (split; [by eapply perform_ok | by rewrite Esrc]).
  assert (demo_hook (hook (forward m c' a))) as Hf'
    by (apply demo_forward; [exact Hs | split_and!; [done | done | rewrite <- Hd; by split] | exact Hok']).
  unfold act, send.
  destruct (Console.tasks (console (forward m c' a)) !! _) as [[key [call sent |]] |] eqn:E;
    try by split.
  exfalso. change (console (forward m c' a)) with (load (hook (forward m c' a)) c') in E.
  destruct (load_tasks (hook (forward m c' a)) c') as (El & _ & _). rewrite El in E.
  eapply no_task_waits; [exact Ht | exact Ha | by apply Htk].
Qed.

Lemma demo_run_hook m e a a' :
  tasks_of (hook a) -> in_frame e = true -> run_hook m e a = Some a' ->
  demo_app a -> demo_app a'.
Proof.
  intros Hs He E [Hh Ha]. unfold run_hook in E.
  destruct (LiveData.perform _ _ _) as [s' |] eqn:Es; [| done]. injection E as <-. split; [| done].
  eapply demo_evolves; [exact Hs | by eapply event_evolves | exact Hh].
Qed.

Lemma demo_render m tr j a a' :
  tasks_of (hook a) -> live (console a) = false ->
  run_hook m (Commit (props_of realtimeBaseUrlInput (console a)) tr j) a = Some a' ->
  demo_app a -> demo_app (render_effects a').
Proof.
  intros Hs Hl E [(Hi & Hsi & Hok) Ha]. unfold run_hook in E. cbn in E. injection E as <-.
  split; [| exact Ha]. unfold render_effects. cbn [hook after_hook].
  apply (demo_evolves _ _ (set_props_tasks (props_of realtimeBaseUrlInput (console a)) _ Hs)
    (commit_evolves (outside m) _ tr j (hook a))).
  split_and!; [split; [exact Hl | apply Hi] | exact Hsi | exact Hok].
Qed.

Lemma demo_step m x a a' :
  app_reachable realtimeBaseUrlInput a -> demo_app a -> live (console a) = false ->
  app_valid m x a -> app_perform realtimeBaseUrlInput m x a = Some a' -> demo_app a'.
Proof.
  intros Hr Hd Hl (Hv & Hq & Hx) E. pose proof (app_reachable_tracks _ a Hr) as Ht.
  destruct (app_reachable_parts _ a Hr) as (Hh%reachable_tasks & _ & Hs).
  destruct x; cbn [app_perform] in E.
  - destruct (ConsoleActions.perform _ _ _ _) as [c' |] eqn:Ec; [| done]. injection E as <-.
    eapply demo_act; try done. apply Hx.
  - injection E as <-. destruct Hx as [(Ed & _) _ _ _]. split; [| apply Hd].
    apply demo_forward; [exact Hh | apply Hd |]. rewrite Ed, (sy_data _ Hs). apply Hd.
  - destruct (settle id (console a)) as [c' |] eqn:Ec; [| done]. injection E as <-. by destruct Hd.
  - eapply (demo_run_hook m e); [exact Hh | by destruct e | exact E | exact Hd].
  - destruct Hd as [(_ & [Hr0 _] & _) _]. unfold run_hook in E. cbn in E.
    unfold handle_request, RequestPool.drain in E. by rewrite Hr0, lookup_empty in E.
  - destruct (run_hook m (Commit _ _ _) a) as [a1 |] eqn:E1; [| done]. injection E as <-.
    by eapply demo_render.
  - injection E as <-. by destruct Hd.
  - destruct (ToastQueue.fire timer (queue a)) as [q |]; [| done]. injection E as <-. by destruct Hd.
Qed.

Lemma demo_session_app a : demo_session a -> demo_app a.
Proof.
  induction 1 as [m settings tab job visible Hv Hl Hids | a a' Ha IH Hst Hl]; [by apply demo_mount |].
  destruct Hst as [m x a a' Hx E].
  eapply demo_step; [by apply demo_reachable | exact IH | by apply demo_live | exact Hx | exact E].
Qed.

(** C4: A session in demo mode stays consistent and stays local. Whatever the user
    does in it, and however renders, timeouts and events fall, the data the
    console shows are demo data whose overview, blocked and throttled jobs are
    those of the jobs shown, with at most sixty events and with distinct ids; and
    no request is made, no realtime transport is started and no action waits for
    an answer. *)
Theorem demo_session_consistent a :
  demo_session a ->
  data_ok (Console.data (console a)) /\
  ConsoleData.source (Console.data (console a)) = source_demo /\
  requests (St.pool (hook a)) = ∅ /\ St.managers (hook a) = ∅ /\ St.refreshTasks (hook a) = [] /\
  (forall id key call sent,
     Console.tasks (console a) !! id <> Some (mkTask key (Waiting call sent))).
Proof.
  intros Ha. pose proof (demo_reachable a Ha) as Hr.
  destruct (app_reachable_parts _ a Hr) as (_ & _ & [-> _]).
  destruct (demo_session_app a Ha) as [([_ Hi] & [Hreq Hm] & [Hok Hso]) Haw]. split_and!; try done.
  intros id key call sent Hid. eapply no_task_waits; [by apply (app_reachable_tracks realtimeBaseUrlInput) | exact Haw | exact Hid].
Qed.
End Session.

(** * Samples *)

Import LiveTasks.Sample.
#[local] Existing Instance sample_json.
#[local] Existing Instance sample_action_api.

(** A session that seeds a workflow. *)
Definition demo_start : App := mount_app "" sample_moment demo_settings "jobs" "" true.

(** The first ids are drawn for the demo data. *)
Definition later_moment : Moment :=
  mkMoment (mkOutside sample_now (fun n => "later-" +:+ dec (Z.of_nat n)) sample_env)
    (toastIds sample_moment).

Definition seeded : App := default demo_start (app_perform "" later_moment (UserAct SeedWorkflow) demo_start).

Lemma demo_start_session : demo_session "" demo_start.
Proof.
  apply demo_mounted; [| done | apply (bool_decide_unpack _); by vm_compute].
  split_and!; [apply at_start_valid | apply sample_toasts | cbn; set_solver].
Qed.

Lemma demo_start_queue : queue demo_start = useToastQueue.
Proof. by vm_compute. Qed.

Lemma later_toasts : fresh_toasts later_moment useToastQueue.
Proof. destruct sample_toasts as [Hn Hd Hu]. split; [exact Hn | exact Hd | exact Hu]. Qed.

Lemma seeded_session : demo_session "" seeded.
Proof.
  eapply demo_stepped; [apply demo_start_session | | by vm_compute].
  apply (app_step_perform "" later_moment (UserAct SeedWorkflow));
    [| apply is_some_default; by vm_compute].
  split; [apply at_start_valid |]. split; [rewrite demo_start_queue; apply later_toasts |].
  split; [| done]. split; apply (bool_decide_unpack _); vm_compute; exact I.
Qed.

Lemma demo_session_consistent_witness :
  length (ConsoleData.jobs (Console.data (console seeded))) = 14%nat /\
  data_ok (Console.data (console seeded)) /\ requests (St.pool (hook seeded)) = ∅.
Proof.
  split; [vm_compute; reflexivity |].
  destruct (demo_session_consistent "" seeded seeded_session) as (Hok & _ & Hr & _).
  split; [exact Hok | exact Hr].
Defined.
