(* ===== verification/Sections.v ===== *)
(** What the components below [OpsConsole] compute before they render: the hero
    ([components/OperationsHero.tsx]), the charts ([components/TrendChart.tsx]), the
    drawer of a job ([components/JobDrawer.tsx]), the smaller sections, and the
    error boundary ([ErrorBoundary.tsx]). *)

From stdpp Require Import base list strings gmap sorting.
From Stdlib Require Import ZArith Lia Bool Ascii.
From S2P Require Import Prelude JsString JsNum JsDate JsSort JsValue Models Safe Settings ConsoleState.
From S2P Require Import ConsoleViews.

#[local] Open Scope Z_scope.

(** * Numbers on the screen *)

(** A decimal constant of the source. *)
Definition hundredths (n : Z) : num := num_of_decimal false n (-2).

Definition getStaggerDelay (index step : num) : num :=
  num_min (num_mul index step) (hundredths 18).

(** [AnimatedNumber] shows 0 for a number that is not finite. *)
Definition animated_value (value : num) : num := if is_finite value then value else num_of_Z 0.

(** [ProgressBar] *)
Definition progress_clamped (value : num) : num :=
  num_min (num_max value (num_of_Z 0)) (num_of_Z 100).
Definition progress_text (value : num) : string := num_to_string (num_round (progress_clamped value)) +:+ "%".

(** [Math.min(...values)], [Math.max(...values)] *)
Definition math_min (values : list num) : num := foldl num_min (infinity false) values.
Definition math_max (values : list num) : num := foldl num_max (infinity true) values.

(** * Charts *)

Record Point := mkPoint { point_x : num; point_y : num }.

Record Paths := mkPaths { areaPath : string; linePath : string; lastPoint : option Point }.

Definition chart_point (series : list MetricsPoint) (min span : num) (index : nat)
    (point : MetricsPoint) : Point :=
  let width := num_of_Z 320 in
  mkPoint
    (if Nat.eqb (length series) 1 then num_div width (num_of_Z 2)
     else num_mul (num_div (num_of_nat index) (num_of_nat (length series - 1))) width)
    (num_sub (num_of_Z 132)
       (num_mul (num_div (num_sub (MetricsPoint.value point) min) span) (num_of_Z 100))).

Definition path_step (path : string) (index : nat) (point : Point) : string :=
  path +:+ (if Nat.eqb index 0 then "M" else " L") +:+ to_fixed 2 (point_x point) +:+ " "
  +:+ to_fixed 2 (point_y point).

(** [points.reduce] with the index. *)
Fixpoint reduce_points (path : string) (index : nat) (points : list Point) : string :=
  match points with
  | [] => path
  | point :: points' => reduce_points (path_step path index point) (S index) points'
  end.

Definition buildPaths (series : list MetricsPoint) : Paths :=
  let values := List.map MetricsPoint.value series in
  let min := math_min (values ++ [num_of_Z 0]) in
  let max := math_max (values ++ [num_of_Z 1]) in
  let span := num_max (num_sub max min) (num_of_Z 1) in
  let points := imap (chart_point series min span) series in
  let linePath := reduce_points "" 0 points in
  mkPaths (linePath +:+ " L 320 132 L 0 132 Z") linePath (last points).

(** * The hero *)

Record HeroLiveMeta := {
  m_health : string;
  m_transportLabel : string;
  m_connectionState : string;
  m_isVisible : bool;
  m_lastAttemptAt : string;
  m_lastSuccessfulAt : string;
  m_lastMessageAt : string;
  m_reconnectAttempt : Z;
  m_currentPollDelayMs : num;
  m_nextRetryAt : option string;
  m_hasLiveData : bool;
  m_dataStale : bool
}.

(** [heartbeatAgeMs > 15_000] *)
Definition stale_heartbeat (health : WorkerLeaseHealth) : bool :=
  num_gt (WorkerLeaseHealth.heartbeatAgeMs health) (num_of_Z 15000).

Definition healthyWorkers (workerViews : list WorkerView) : nat :=
  count (fun worker =>
    String.eqb (WorkerView.effectiveStatus worker) "healthy" &&
    num_le (WorkerLeaseHealth.heartbeatAgeMs (WorkerView.health worker)) (num_of_Z 15000)) workerViews.

Definition staleWorkers (workerViews : list WorkerView) : nat :=
  count (fun worker => stale_heartbeat (WorkerView.health worker)) workerViews.

Definition headline (snapshot : DashboardSnapshot) (workerViews : list WorkerView) (health : string)
    (leaderHealthy : bool) : string :=
  let failedJobs := Overview.failedJobs (DashboardSnapshot.overview snapshot) in
  if String.eqb health "demo" then "Demo sandbox"
  else if String.eqb health "offline" then "Transport offline"
  else if String.eqb health "reconnecting" then "Recovering stream"
  else if num_gt failedJobs (num_of_Z 0) || nonempty (DashboardSnapshot.deadLetters snapshot)
  then "Failure pressure detected"
  else if negb leaderHealthy || (0 <? staleWorkers workerViews)%nat
  then "Coordination needs attention"
  else if String.eqb health "degraded" then "Holding a degraded path"
  else "System steady".

Definition queue_load (queue : QueueView) : num :=
  num_add (QueueView.backlog queue) (QueueView.activeJobs queue).

Definition compare_load (left right : QueueView) : comparison :=
  compare_diff (queue_load right) (queue_load left).

Definition queuePreview (queueViews : list QueueView) : list QueueView :=
  take 3 (sort_by compare_load queueViews).

(** [a || b] of two differences: a first one that is 0 or NaN decides nothing. *)
Definition compare_workers (left right : WorkerView) : comparison :=
  let age worker := WorkerLeaseHealth.heartbeatAgeMs (WorkerView.health worker) in
  let leases worker := WorkerLeaseHealth.activeLeaseCount (WorkerView.health worker) in
  if num_truthy (num_sub (age right) (age left)) then compare_diff (age right) (age left)
  else compare_diff (leases right) (leases left).

Definition workerPreview (workerViews : list WorkerView) : list WorkerView :=
  take 4 (sort_by compare_workers workerViews).

Definition eventPreview (visibleEvents : list SystemEvent) : list SystemEvent := take 4 visibleEvents.

Definition formatPollingInterval (value : num) : string :=
  if num_ge value (num_of_Z 60000)
  then num_to_string (num_round (num_div value (num_of_Z 60000))) +:+ "m"
  else num_to_string (num_round (num_div value (num_of_Z 1000))) +:+ "s".

Definition liveStatusItems `{DateHost} `{LocaleHost} (now : Z) (snapshot : DashboardSnapshot)
    (visibleEvents : list SystemEvent) (meta : HeroLiveMeta) : list StatusItem :=
  let lastEvent := head (eventPreview visibleEvents) in
  let relative (value : string) := formatRelative now (Some value) in
  let retry := opt_default (m_nextRetryAt meta) "" in
  [mkStatusItem "Transport" (m_transportLabel meta) (m_connectionState meta);
   mkStatusItem "Connection" (m_health meta)
     (if m_isVisible meta then "foreground tab" else "background tab");
   mkStatusItem "Last event"
     (relative (or_else (match lastEvent with Some event => SystemEvent.timestamp event | None => "" end)
        (m_lastMessageAt meta)))
     (or_else (match lastEvent with Some event => SystemEvent.kind event | None => "" end)
        (if m_hasLiveData meta then "Awaiting traffic" else "Collecting first sample"));
   mkStatusItem "Last good snapshot"
     (relative (or_else (m_lastSuccessfulAt meta)
        (Overview.lastUpdatedAt (DashboardSnapshot.overview snapshot))))
     (if m_dataStale meta then "holding last stable state" else "current view is fresh");
   mkStatusItem "Reconnects" (dec (m_reconnectAttempt meta))
     (if truthy retry then "next " +:+ relative retry
      else if 0 <? m_reconnectAttempt meta then "transport settled" else "quiet");
   mkStatusItem "Polling"
     (if num_gt (m_currentPollDelayMs meta) (num_of_Z 0)
      then formatPollingInterval (m_currentPollDelayMs meta) else "paused")
     (if truthy retry then "retry " +:+ formatDateTime (Some retry)
      else if truthy (m_lastAttemptAt meta) then "last probe " +:+ relative (m_lastAttemptAt meta)
      else "standby")].

(** * Smaller sections *)

(** [MetricsSection] *)
Definition total_backlog (queueViews : list QueueView) : num :=
  foldl (fun total item => num_add total (QueueView.backlog item)) (num_of_Z 0) queueViews.
Definition saturatedQueues (queueViews : list QueueView) : nat :=
  count (fun queue => num_ge (QueueView.saturation queue) (num_of_Z 80)) queueViews.

(** [OverviewSection] and [SideRail] *)
Definition snapshot_staleWorkers (snapshot : DashboardSnapshot) : nat :=
  count stale_heartbeat (DashboardSnapshot.workers snapshot).
Definition recoveredEvents (visibleEvents : list SystemEvent) : nat :=
  count (fun event => includes (SystemEvent.kind event) "recovered") visibleEvents.
Definition queuedWork (snapshot : DashboardSnapshot) : num :=
  let overview := DashboardSnapshot.overview snapshot in
  num_add (Overview.queuedJobs overview) (Overview.scheduledJobs overview).
Definition saturated_policies (snapshot : DashboardSnapshot) : nat :=
  count RateLimitStatus.throttled (DashboardSnapshot.rateLimits snapshot).

(** The options of [DeadLetterSection]: [new Set] keeps the first of equal texts. *)
Definition error_types (visibleDeadLetters : list DeadLetter) : list string :=
  foldl (fun seen text => if existsb (String.eqb text) seen then seen else seen ++ [text]) []
    (List.filter truthy
       (List.map (fun item => trim (opt_default (DeadLetter.errorType item) "")) visibleDeadLetters)).

(** [EventsSection] *)
Definition event_text (item : SystemEvent) : string :=
  opt_or_else (SystemEvent.message item)
    (join " / "
       (List.filter truthy
          [opt_default (SystemEvent.queue item) ""; opt_default (SystemEvent.workerId item) "";
           opt_default (SystemEvent.jobId item) "";
           match SystemEvent.state item with Some s => state_name s | None => "" end])).

(** [WorkflowsSection] *)
Definition node_text (node : DependencyNode) : string :=
  opt_or_else (DependencyNode.blockedReason node)
    (DependencyNode.queue node +:+ " queue / parent "
     +:+ opt_or_else (DependencyNode.parentJobId node) "root").

(** * The drawer of a job *)

Module Drawer.
Record Drawer := mk { replayQueue : string; payloadText : string; inlineError : string }.
End Drawer.
Notation Drawer := Drawer.Drawer.

Definition new_drawer : Drawer := Drawer.mk "default" "{}" "".

(** [inspection.deadLetter?.job?.payload ?? inspection.job.payload] *)
Definition inspected_payload (inspection : JobInspection) : jsval :=
  let own := Job.payload (JobInspection.job inspection) in
  match JobInspection.deadLetter inspection with
  | Some letter =>
      match DeadLetter.job letter with
      | Some job => match Job.payload job with VNull | VUndefined => own | payload => payload end
      | None => own
      end
  | None => own
  end.

(** The effect that runs when another job is inspected. *)
Definition inspect_effect (inspection : option JobInspection) (d : Drawer) : Drawer :=
  match inspection with
  | None => d
  | Some inspection =>
      Drawer.mk (or_else (Job.queue (JobInspection.job inspection)) "default")
        (default "" (stringifyJson (inspected_payload inspection))) ""
  end.

Definition edit_payload (text : string) (d : Drawer) : Drawer := Drawer.mk (Drawer.replayQueue d) text "".

(** What [onReplay] is called with: the job, the queue, the text, edited or not. *)
Definition ReplayCall : Type := string * string * string * bool.

Definition replay_same (inspection : JobInspection) (d : Drawer) : ReplayCall :=
  (Job.id (JobInspection.job inspection), Drawer.replayQueue d, Drawer.payloadText d, false).

Definition replay_edited (inspection : JobInspection) (d : Drawer) : Drawer * option ReplayCall :=
  if negb (truthy (trim (Drawer.payloadText d)))
  then (Drawer.mk (Drawer.replayQueue d) (Drawer.payloadText d)
          "Replay payload cannot be empty when editing.", None)
  else (d, Some (Job.id (JobInspection.job inspection), Drawer.replayQueue d, Drawer.payloadText d, true)).

(** * The error boundary *)

Definition resetSessionState (st : storage) : storage :=
  foldl clearStoredValue st
    [STORAGE_KEYS.baseUrl; STORAGE_KEYS.token; STORAGE_KEYS.liveMode; STORAGE_KEYS.liveUpdates;
     STORAGE_KEYS.pollIntervalMs; STORAGE_KEYS.environment].

(** The state: the error that was caught. *)
Definition getDerivedStateFromError (error : thrown) : option thrown := Some error.

(** What it shows of an error: the explanation and the message. *)
Definition boundary_text (error : thrown) (message : string) : string * string :=
  (if looksLikeAutofillError error then "Autofill or extension interference was isolated."
   else "A render failure was caught before it could take down the whole console.", message).

(** * Lemmas *)

(** The first [n] of a sorted list come before all others. *)
Lemma top_of_sorted {A} (cmp : A -> A -> comparison) (P : A -> Prop) `{!Consistent cmp P} n l :
  Forall P l ->
  exists rest, l ≡ₚ take n (sort_by cmp l) ++ rest /\
    forall x y, x ∈ take n (sort_by cmp l) -> y ∈ rest -> before cmp x y.
Proof.
  intros Hl. exists (drop n (sort_by cmp l)). split; [rewrite take_drop; symmetry; apply sort_by_perm |].
  pose proof (sort_by_sorted cmp P l Hl) as Hs. rewrite <- (take_drop n (sort_by cmp l)) in Hs.
  intros x y Hx Hy. by apply (StronglySorted_app_1_elem_of (before cmp) _ _ x y Hs).
Qed.

(** Heartbeat ages and lease counts in whole units. *)
Definition whole_worker (worker : WorkerView) : Prop :=
  whole (WorkerLeaseHealth.heartbeatAgeMs (WorkerView.health worker)) /\
  whole (WorkerLeaseHealth.activeLeaseCount (WorkerView.health worker)).

(** The ages and leases of the workers decide, in this order. *)
Definition compare_pairs (a b : Z * Z) : comparison :=
  match (fst b ?= fst a) with Eq => snd b ?= snd a | c => c end.

Lemma num_of_Z_truthy z : safe_int z -> num_truthy (num_of_Z z) = false -> z = 0.
Proof.
  intros Hz E. pose proof (num_of_Z_finite z Hz) as Hf.
  destruct (num_of_Z z) eqn:En; try done. by apply num_of_Z_zero in En as [-> _].
Qed.

Lemma compare_workers_int left right a b c d :
  0 <= a < 2 ^ 53 -> 0 <= b < 2 ^ 53 -> 0 <= c < 2 ^ 53 -> 0 <= d < 2 ^ 53 ->
  WorkerLeaseHealth.heartbeatAgeMs (WorkerView.health left) = num_of_Z a ->
  WorkerLeaseHealth.activeLeaseCount (WorkerView.health left) = num_of_Z b ->
  WorkerLeaseHealth.heartbeatAgeMs (WorkerView.health right) = num_of_Z c ->
  WorkerLeaseHealth.activeLeaseCount (WorkerView.health right) = num_of_Z d ->
  compare_workers left right = compare_pairs (a, b) (c, d).
Proof.
  intros Ha Hb Hc Hd Ea Eb Ec Ed. unfold compare_workers, compare_pairs. cbn [fst snd].
  rewrite Ea, Eb, Ec, Ed, num_sub_int, !compare_diff_int by (unfold safe_int; lia).
  destruct (Z.compare_spec c a) as [-> | Hlt | Hgt].
  - by rewrite Z.sub_diag.
  - destruct (num_truthy (num_of_Z (c - a))) eqn:E; [done |]. exfalso. apply num_of_Z_truthy in E; unfold safe_int in *; lia.
  - destruct (num_truthy (num_of_Z (c - a))) eqn:E; [done |]. exfalso. apply num_of_Z_truthy in E; unfold safe_int in *; lia.
Qed.

#[local] Instance compare_workers_consistent : Consistent compare_workers whole_worker.
Proof.
  split.
  - intros x y [(a & Ha & Ea) (b & Hb & Eb)] [(c & Hc & Ec) (d & Hd & Ed)].
    rewrite (compare_workers_int x y a b c d), (compare_workers_int y x c d a b) by done.
    unfold compare_pairs. cbn [fst snd]. rewrite (Z.compare_antisym c a), (Z.compare_antisym d b).
    by destruct (c ?= a).
  - intros x y z [(a & Ha & Ea) (b & Hb & Eb)] [(c & Hc & Ec) (d & Hd & Ed)] [(e & He & Ee) (f & Hf & Ef)].
    unfold before. rewrite (compare_workers_int x y a b c d), (compare_workers_int y z c d e f),
      (compare_workers_int x z a b e f) by done.
    unfold compare_pairs. cbn [fst snd].
    destruct (Z.compare_spec c a), (Z.compare_spec e c), (Z.compare_spec e a); try lia; try done;
      destruct (Z.compare_spec d b), (Z.compare_spec f d), (Z.compare_spec f b); try lia; done.
Qed.

#[local] Instance compare_load_consistent : Consistent compare_load (fun queue => whole (queue_load queue)).
Proof. apply (descending_consistent queue_load). Qed.

(** A counter is positive when something was counted. *)
Lemma count_positive {A} (p : A -> bool) l :
  Z.of_nat (length l) < 2 ^ 53 ->
  num_gt (num_of_nat (count p l)) (num_of_Z 0) = existsb p l.
Proof.
  intros Hl. pose proof (count_le_length p l). unfold num_gt, num_of_nat.
  change (SFltb (num_of_Z 0) ?x) with (num_lt (num_of_Z 0) x).
  rewrite num_lt_int by (unfold safe_int; lia). clear Hl H. induction l as [| x l IH]; [done |].
  rewrite count_cons. cbn [existsb]. destruct (p x); cbn [orb]; [apply Z.ltb_lt; lia | exact IH].
Qed.

Lemma failed_counter `{DateHost} now data :
  Overview.failedJobs
    (DashboardSnapshot.overview (ConsoleData.snapshot (reconcileConsoleData now data))) =
  num_of_nat (count (in_state failed) (ConsoleData.jobs data)).
Proof.
  cbn [reconcileConsoleData ConsoleData.snapshot DashboardSnapshot.overview summarizeJobs
    Overview.failedJobs].
  rewrite (fold_counter failedJobs (in_state failed)) by done.
  by rewrite (count_perm _ _ _ (sort_by_perm _ _)).
Qed.

Lemma count_zero {A} (p : A -> bool) l : (0 <? count p l)%nat = existsb p l.
Proof.
  induction l as [| x l IH]; [done |]. rewrite count_cons. cbn [existsb].
  by destruct (p x); cbn [orb].
Qed.

Lemma existsb_false {A} (p : A -> bool) l : existsb p l = false <-> Forall (fun x => p x = false) l.
Proof.
  rewrite Forall_forall. setoid_rewrite list_elem_of_In. split.
  - intros E x Hx. destruct (p x) eqn:Ep; [| done].
    assert (existsb p l = true); [apply existsb_exists; eauto | congruence].
  - intros Hl. destruct (existsb p l) eqn:E; [| done].
    apply existsb_exists in E as (x & Hx & Ex). by rewrite (Hl x Hx) in Ex.
Qed.

Lemma existsb_map {A B} (f : A -> B) (p : B -> bool) l :
  existsb p (List.map f l) = existsb (fun x => p (f x)) l.
Proof. induction l as [| x l IH]; cbn; [done |]. by rewrite IH. Qed.

Lemma length_preview {A} n (l : list A) : (length (take n l) <= n)%nat.
Proof. rewrite length_take. lia. Qed.

(** The tests of the headline, one by one. *)
Lemma headline_steady snapshot workers health leader :
  headline snapshot workers health leader = "System steady" <->
  health ∉ ["demo"; "offline"; "reconnecting"; "degraded"] /\
  num_gt (Overview.failedJobs (DashboardSnapshot.overview snapshot)) (num_of_Z 0) = false /\
  DashboardSnapshot.deadLetters snapshot = [] /\ leader = true /\
  existsb (fun worker => stale_heartbeat (WorkerView.health worker)) workers = false.
Proof.
  unfold headline, staleWorkers. rewrite count_zero.
  assert (health ∉ ["demo"; "offline"; "reconnecting"; "degraded"] <->
    String.eqb health "demo" = false /\ String.eqb health "offline" = false /\
    String.eqb health "reconnecting" = false /\ String.eqb health "degraded" = false) as ->.
  { rewrite !String.eqb_neq, !not_elem_of_cons. pose proof (not_elem_of_nil health). tauto. }
  destruct (String.eqb health "demo"), (String.eqb health "offline"),
    (String.eqb health "reconnecting"), (String.eqb health "degraded"), (num_gt _ _), leader,
    (existsb _ workers), (DashboardSnapshot.deadLetters snapshot); cbn; naive_solver.
Qed.

(** * Properties *)

Section Properties.
Context `{DateHost}.

(** The hero says "System steady" exactly when nothing is wrong: the
    connection is neither demo, offline, reconnecting nor degraded, and after a
    reconciliation no job has failed, there is no dead letter, the leader is
    healthy and no heartbeat is older than fifteen seconds. Its previews show at
    most three queues and four workers, and no queue or worker left out is more
    loaded, or older, than one shown. *)
Theorem hero_steady now data health :
  let data' := reconcileConsoleData now data in
  let snapshot' := ConsoleData.snapshot data' in
  Z.of_nat (length (ConsoleData.jobs data)) < 2 ^ 53 ->
  (headline snapshot' (workerViews data') health (leaderHealthy data') = "System steady" <->
     health ∉ ["demo"; "offline"; "reconnecting"; "degraded"] /\
     Forall (fun job => state_name (Job.state job) <> "failed") (ConsoleData.jobs data) /\
     DashboardSnapshot.deadLetters (ConsoleData.snapshot data) = [] /\
     leaderHealthy data = true /\
     Forall (fun health => stale_heartbeat health = false)
       (DashboardSnapshot.workers (ConsoleData.snapshot data))) /\
  (Forall (fun queue => whole (queue_load queue)) (queueViews data) ->
     exists rest, queueViews data ≡ₚ queuePreview (queueViews data) ++ rest /\
       (length (queuePreview (queueViews data)) <= 3)%nat /\
       forall x y, x ∈ queuePreview (queueViews data) -> y ∈ rest -> before compare_load x y) /\
  (Forall whole_worker (workerViews data) ->
     exists rest, workerViews data ≡ₚ workerPreview (workerViews data) ++ rest /\
       (length (workerPreview (workerViews data)) <= 4)%nat /\
       forall x y, x ∈ workerPreview (workerViews data) -> y ∈ rest -> before compare_workers x y).
Proof.
  cbn zeta. intros Hlen. split_and!.
  - rewrite headline_steady, failed_counter, count_positive by done. unfold workerViews.
    rewrite existsb_map, !existsb_false.
    cbn [reconcileConsoleData ConsoleData.snapshot DashboardSnapshot.deadLetters DashboardSnapshot.workers].
    rewrite (sort_by_perm compare_heartbeat).
    assert (sort_by (newest_first dead_letter_time)
        (DashboardSnapshot.deadLetters (ConsoleData.snapshot data)) = [] <->
      DashboardSnapshot.deadLetters (ConsoleData.snapshot data) = []) as ->.
    { split; [| by intros ->]. intros E. apply Permutation_nil. by rewrite <- E, sort_by_perm. }
    assert (Forall (fun job => in_state failed job = false) (ConsoleData.jobs data) <->
      Forall (fun job => state_name (Job.state job) <> "failed") (ConsoleData.jobs data)) as ->
      by (apply Forall_iff; intros job; apply String.eqb_neq).
    done.
  - intros Hq. destruct (top_of_sorted compare_load _ 3 _ Hq) as (rest & Hp & Hb).
    exists rest. split; [done |]. split; [apply length_preview | done].
  - intros Hw. destruct (top_of_sorted compare_workers _ 4 _ Hw) as (rest & Hp & Hb).
    exists rest. split; [done |]. split; [apply length_preview | done].
Qed.

(** The button of the error boundary forgets every setting: after a reload they
    are the defaults, and nothing else in storage is touched. *)
Theorem reset_restores_defaults defaultBaseUrl defaultToken st :
  restoreSettings defaultBaseUrl defaultToken (resetSessionState st) =
    {| environment := "Demo Sandbox"; baseUrlInput := defaultBaseUrl; token := defaultToken;
       liveMode := true; liveUpdates := true; pollIntervalMs := 15000 |} /\
  (forall key fallback,
     key ∉ [STORAGE_KEYS.baseUrl; STORAGE_KEYS.token; STORAGE_KEYS.liveMode; STORAGE_KEYS.liveUpdates;
            STORAGE_KEYS.pollIntervalMs; STORAGE_KEYS.environment] ->
     readStoredValue (resetSessionState st) key fallback = readStoredValue st key fallback).
Proof.
  split.
  - destruct st as [| | items full]; [done | done |].
    unfold restoreSettings, restore, resetSessionState. cbn [foldl clearStoredValue readStoredValue].
    assert (forall key, key ∈ [STORAGE_KEYS.baseUrl; STORAGE_KEYS.token; STORAGE_KEYS.liveMode;
        STORAGE_KEYS.liveUpdates; STORAGE_KEYS.pollIntervalMs; STORAGE_KEYS.environment] ->
      foldl (fun m k => delete k m) items [STORAGE_KEYS.baseUrl; STORAGE_KEYS.token;
        STORAGE_KEYS.liveMode; STORAGE_KEYS.liveUpdates; STORAGE_KEYS.pollIntervalMs;
        STORAGE_KEYS.environment] !! key = None) as Hd.
    { intros key Hkey. cbn [foldl]. rewrite !lookup_delete_None. set_solver. }
    cbn [foldl] in Hd. by rewrite !Hd by set_solver.
  - intros key fallback Hkey. destruct st as [| | items full]; [done | done |].
    unfold resetSessionState. cbn [foldl clearStoredValue readStoredValue].
    rewrite !lookup_delete_ne by set_solver. done.
Qed.

(** An edited replay is issued exactly when its text is not blank, with that text. *)
Theorem replay_edited_exact inspection d :
  (trim (Drawer.payloadText d) = "" -> snd (replay_edited inspection d) = None /\
     Drawer.inlineError (fst (replay_edited inspection d)) <> "") /\
  (trim (Drawer.payloadText d) <> "" ->
     replay_edited inspection d =
       (d, Some (Job.id (JobInspection.job inspection), Drawer.replayQueue d, Drawer.payloadText d, true))).
Proof.
  unfold replay_edited. split; intros Ht.
  - apply truthy_false in Ht. by rewrite Ht.
  - apply truthy_true in Ht. by rewrite Ht.
Qed.

(** A progress bar fills between nothing and everything. *)
Theorem progress_bounds value :
  is_nan value = false ->
  num_le (num_of_Z 0) (progress_clamped value) = true /\
  num_le (progress_clamped value) (num_of_Z 100) = true.
Proof. intros Hn. by apply (clamp_between value (num_of_Z 0) (num_of_Z 100)). Qed.
End Properties.

(** * Witnesses *)

#[local] Existing Instance utc_host.

Lemma hero_steady_witness :
  headline (ConsoleData.snapshot (reconcileConsoleData 0 sample_data))
    (workerViews (reconcileConsoleData 0 sample_data)) "live"
    (leaderHealthy (reconcileConsoleData 0 sample_data)) <> "System steady" /\
  exists rest, queueViews sample_data ≡ₚ queuePreview (queueViews sample_data) ++ rest.
Proof.
  assert (Z.of_nat (length (ConsoleData.jobs sample_data)) < 2 ^ 53) as Hlen by (cbn; lia).
  destruct (hero_steady 0 sample_data "live" Hlen) as (Hsteady & Hqueues & _). split.
  - intros E. apply Hsteady in E as (_ & _ & _ & Hleader & _). vm_compute in Hleader. discriminate.
  - destruct Hqueues as (rest & Hp & _); [| by exists rest].
    unfold queueViews, QUEUES. cbn [List.map].
    repeat constructor; exists 0; (split; [lia | vm_compute; reflexivity]).
Defined.

(** Two samples draw a line from the left to the right edge. *)
Example two_points :
  linePath (buildPaths [MetricsPoint.mk "t1" (num_of_Z 0); MetricsPoint.mk "t2" (num_of_Z 5)]) =
  "M0.00 132.00 L320.00 32.00".
Proof. vm_compute. reflexivity. Qed.
