(* ===== verification/Tables.v ===== *)
(** What the tables and cards of the sections say: the texts and the status of each
    row, and the React key it is rendered under.

    A record has the texts of one row in the order of the source
    ([components/JobsSection.tsx], [QueuesSection.tsx], [WorkersSection.tsx],
    [SchedulesSection.tsx], [DeadLetterSection.tsx], [EventsSection.tsx],
    [OverviewSection.tsx], [JobDrawer.tsx], [SideRail.tsx]); an optional text that is
    not rendered is [None]. *)

From stdpp Require Import base list strings gmap sorting.
From Stdlib Require Import ZArith Lia Bool.
From S2P Require Import Prelude JsString JsNum JsDate JsSort JsValue Models Safe LiveRefresh Settings.
From S2P Require Import ToastQueue ConsoleState ConsoleViews ConsoleActions ConsoleProperties Sections.

#[local] Open Scope Z_scope.

(** [value ? text(value) : fallback] of a text that may be missing. *)
Definition when_text (value : option string) (text : string -> string) (fallback : string) : string :=
  let v := opt_default value "" in if truthy v then text v else fallback.

(** [Number > 0] *)
Definition positive (n : num) : bool := num_gt n (num_of_Z 0).

Section Tables.
Context `{DateHost} `{LocaleHost}.
Context (now : Z).

Definition relative_or (value : option string) (fallback : string) : string :=
  when_text value (fun v => formatRelative now (Some v)) fallback.

(** * Jobs *)

Record JobRow := mkJobRow {
  job_key : string;
  job_title : string;
  job_origin : string;
  job_idempotency : option string;
  job_status : string;
  job_workflow : string;
  job_attempts : string;
  job_execution : string;
  job_lease : string;
  job_health : string
}.

Definition attempts_text (job : Job) : string :=
  num_to_string (Job.attempts job) +:+ "/" +:+ num_to_string (Job.maxAttempts job).

Definition job_row (job : Job) : JobRow :=
  mkJobRow (Job.id job) (Job.type job)
    (slice_to 8 (Job.id job) +:+ " / " +:+ Job.queue job +:+ " / " +:+ Job.tenantId job)
    (let key := opt_default (Job.idempotencyKey job) "" in
     if truthy key then Some ("idempotency " +:+ key) else None)
    (state_name (Job.state job))
    (when_text (Job.workflowId job) (fun id => "workflow " +:+ slice_to 8 id) "single job")
    (attempts_text job)
    (if positive (Job.executionMs job) then formatLatency (Job.executionMs job) else "not executed")
    (relative_or (Job.leaseExpiresAt job) (relative_or (Job.throttleUntil job) "n/a"))
    (opt_or_else (Job.blockedReason job) (opt_or_else (Job.lastError job) "healthy")).

(** A row of blocked work: key, title, reason, status, workflow. *)
Definition blocked_row (job : Job) : string * string * string * string * string :=
  (Job.id job, Job.type job, opt_or_else (Job.blockedReason job) "waiting on upstream work",
   state_name (Job.state job), opt_or_else (Job.workflowId job) "standalone").

(** * Queues *)

(** What the control of a queue says: paused, else draining, else neither. *)
Definition queue_posture {A} (paused draining flowing : A) (queue : QueueView) : A :=
  match QueueView.control queue with
  | Some control =>
      if QueueControl.paused control then paused
      else if QueueControl.draining control then draining else flowing
  | None => flowing
  end.

Definition queue_flow : QueueView -> string := queue_posture "paused" "draining" "flowing".
Definition queue_intake : QueueView -> string :=
  queue_posture "paused intake" "draining existing work" "accepting new work".
Definition queue_pill : QueueView -> string := queue_posture "paused" "draining" "healthy".

(** A policy of a queue: key, name, limit, status, count. *)
Definition policy_row (status : RateLimitStatus) : string * string * string * string * string :=
  let policy := RateLimitStatus.policy status in
  (RateLimitPolicy.id policy, RateLimitPolicy.name policy,
   RateLimitPolicy.mode policy +:+ " / limit " +:+ num_to_string (RateLimitPolicy.limit policy),
   if RateLimitStatus.throttled status then "saturated" else "healthy",
   num_to_string (if String.eqb (RateLimitPolicy.mode policy) "concurrency"
                  then RateLimitStatus.activeCount status else RateLimitStatus.recentCount status)).

Record QueueCard := mkQueueCard {
  queue_key : string;
  queue_state : string;
  queue_status : string;
  queue_tiles : list (string * num);
  queue_progress : string;
  queue_policies : list (string * string * string * string * string)
}.

Definition queue_card (queue : QueueView) : QueueCard :=
  mkQueueCard (QueueView.queueName queue) (queue_flow queue) (queue_pill queue)
    [("Backlog", QueueView.backlog queue); ("Active", QueueView.activeJobs queue);
     ("Blocked", QueueView.blocked queue); ("Dead letter", QueueView.deadLetters queue)]
    (progress_text (QueueView.saturation queue)) (List.map policy_row (QueueView.policies queue)).

(** The queue's row of the overview. *)
Definition queue_ops_row (queue : QueueView) : QueueCard :=
  mkQueueCard (QueueView.queueName queue) (queue_intake queue) (queue_pill queue)
    [("Backlog", QueueView.backlog queue); ("Active", QueueView.activeJobs queue);
     ("Blocked", QueueView.blocked queue); ("Dead", QueueView.deadLetters queue)]
    (progress_text (QueueView.saturation queue)) [].

(** * Workers *)

Record WorkerCard := mkWorkerCard {
  worker_key : string;
  worker_pulse : bool;
  worker_host : string;
  worker_status : string;
  worker_tiles : list (string * num);
  worker_progress : string;
  worker_details : list (string * string)
}.

Definition worker_card (worker : WorkerView) : WorkerCard :=
  let health := WorkerView.health worker in
  mkWorkerCard (WorkerLeaseHealth.workerId health)
    (num_lt (WorkerLeaseHealth.heartbeatAgeMs health) (num_of_Z 10000))
    (WorkerLeaseHealth.hostname health) (WorkerView.effectiveStatus worker)
    [("Queues", num_of_nat (length (WorkerLeaseHealth.queues health)));
     ("Leases", WorkerLeaseHealth.activeLeaseCount health);
     ("Concurrency", WorkerView.concurrency worker); ("Throughput", WorkerView.throughput worker)]
    (progress_text (WorkerView.saturation worker))
    [("heartbeat age", formatLatency (WorkerLeaseHealth.heartbeatAgeMs health));
     ("oldest lease", opt_or_else (WorkerLeaseHealth.oldestLeaseJobId health) "none");
     ("lease expiry", relative_or (WorkerLeaseHealth.leaseExpiresAt health) "n/a");
     ("started", formatDateTime (Some (WorkerLeaseHealth.startedAt health)))].

(** * Schedules and dead letters *)

(** Key, name, what it runs, when, status. *)
Definition schedule_row (schedule : Schedule) : string * string * string * string * string :=
  (Schedule.id schedule, Schedule.name schedule,
   Schedule.cronExpression schedule +:+ " / " +:+ Schedule.type schedule +:+ " / " +:+ Schedule.queue schedule,
   "next " +:+ formatDateTime (Some (Schedule.nextRunAt schedule)) +:+ " / last " +:+
   formatDateTime (Schedule.lastRunAt schedule),
   if Schedule.enabled schedule then "enabled" else "paused").

Record DeadLetterRow := mkDeadLetterRow {
  letter_key : string;
  letter_checked : bool;
  letter_title : string;
  letter_error : string;
  letter_history : string;
  letter_status : string;
  letter_queue : string
}.

Definition letter_name (item : DeadLetter) : string :=
  opt_or_else (Job.type <$> DeadLetter.job item) (slice_to 8 (DeadLetter.jobId item)).

Definition dead_letter_row (selected : list string) (item : DeadLetter) : DeadLetterRow :=
  mkDeadLetterRow (DeadLetter.jobId item) (existsb (String.eqb (DeadLetter.jobId item)) selected)
    (letter_name item)
    (opt_or_else (DeadLetter.errorType item) "failure" +:+ " / " +:+ DeadLetter.errorMessage item)
    ("failed " +:+ formatDateTime (Some (DeadLetter.failedAt item)) +:+ " / replayed " +:+
     num_to_string (DeadLetter.replayCount item) +:+ " times")
    "failed" (DeadLetter.queue item).

(** * Events *)

(** [`${item.timestamp}-${item.kind}-${item.jobId}`] *)
Definition event_key (item : SystemEvent) : string :=
  SystemEvent.timestamp item +:+ "-" +:+ SystemEvent.kind item +:+ "-" +:+
  opt_default (SystemEvent.jobId item) "undefined".

(** Key, kind, time, text. *)
Definition event_card (item : SystemEvent) : string * string * string * string :=
  (event_key item, SystemEvent.kind item, formatDateTime (Some (SystemEvent.timestamp item)), event_text item).

(** The text of the overview, which names the job before the worker. *)
Definition activity_text (item : SystemEvent) : string :=
  opt_or_else (SystemEvent.message item)
    (join " / "
       (List.filter truthy
          [opt_default (SystemEvent.queue item) ""; opt_default (SystemEvent.jobId item) "";
           opt_default (SystemEvent.workerId item) "";
           match SystemEvent.state item with Some s => state_name s | None => "" end])).

Definition activity_rows (visibleEvents : list SystemEvent) : list (string * string * string * string) :=
  List.map (fun item =>
    (event_key item, SystemEvent.kind item, formatDateTime (Some (SystemEvent.timestamp item)),
     activity_text item)) (take 6 visibleEvents).

(** * The overview and the rail *)

(** A signal: title, text, status, detail. *)
Definition control_plane (snapshot : DashboardSnapshot) (leaderHealthy : bool)
    (visibleEvents : list SystemEvent) : list (string * string * string * string) :=
  let leader := DashboardSnapshot.leader snapshot in
  let age := Metrics.maxWorkerHeartbeatAgeMs (DashboardSnapshot.metrics snapshot) in
  [("Leader lease", opt_or_else (SchedulerLeaderStatus.schedulerId leader) "No active leader announced",
    if leaderHealthy then "leader healthy" else "leader stale",
    relative_or (SchedulerLeaderStatus.leaseExpiresAt leader) "lease unknown");
   ("Heartbeat drift", dec (Z.of_nat (snapshot_staleWorkers snapshot)) +:+ " workers beyond 15s",
    if num_gt age (num_of_Z 15000) then "stale" else "healthy", formatLatency age);
   ("Recovery path", "Replay-safe recovery events visible in the live stream.", "recovery",
    dec (Z.of_nat (recoveredEvents visibleEvents)) +:+ " recent events")].

Definition watchlist (snapshot : DashboardSnapshot) : list (string * string * string * string) :=
  let letters := Z.of_nat (length (DashboardSnapshot.deadLetters snapshot)) in
  let throttled := Overview.throttledJobs (DashboardSnapshot.overview snapshot) in
  let stale := Z.of_nat (snapshot_staleWorkers snapshot) in
  [("Dead letter", dec letters +:+ " jobs waiting on operator recovery",
    if 0 <? letters then "degraded" else "healthy", dec letters +:+ " jobs");
   ("Throttle pressure", dec (Z.of_nat (saturated_policies snapshot)) +:+ " saturated policies",
    if positive throttled then "degraded" else "healthy", num_to_string throttled +:+ " jobs");
   ("Heartbeat drift", dec stale +:+ " workers beyond the heartbeat threshold",
    if 0 <? stale then "stale" else "healthy",
    formatLatency (Metrics.maxWorkerHeartbeatAgeMs (DashboardSnapshot.metrics snapshot)))].

(** What the rail says of the selected job. *)
Definition selected_details (job : Job) : list (string * string) :=
  [("queue", Job.queue job); ("worker", opt_or_else (Job.workerId job) "unassigned");
   ("idempotency", opt_or_else (Job.idempotencyKey job) "not set");
   ("payload", payloadPreview (Job.payload job))].

(** * The drawer *)

Definition drawer_status (updating : bool) (detailError lastUpdatedAt : string) : string * string :=
  (if updating then "Updating details..."
   else if truthy detailError then "Showing cached details" else "Details in sync",
   if truthy lastUpdatedAt then "Last detail refresh " +:+ formatRelative now (Some lastUpdatedAt)
   else "No detail refresh yet").

Definition drawer_profile (job : Job) : list (string * string) :=
  [("Queue", Job.queue job); ("Tenant", Job.tenantId job);
   ("Worker", opt_or_else (Job.workerId job) "unassigned");
   ("Priority", num_to_string (Job.priority job));
   ("Lease", relative_or (Job.leaseExpiresAt job) "not leased");
   ("Heartbeat", relative_or (Job.lastHeartbeatAt job) "n/a");
   ("Created", formatDateTime (Some (Job.createdAt job)));
   ("Started", formatDateTime (Job.startedAt job));
   ("Completed", formatDateTime (Job.finishedAt job));
   ("Execution", if positive (Job.executionMs job) then formatLatency (Job.executionMs job) else "pending");
   ("Attempts", attempts_text job);
   ("Retry ETA", relative_or (Some (Job.runAt job)) "n/a")].

(** Title, text, detail of the cards on failure, idempotency and lease. *)
Definition drawer_recovery (inspection : JobInspection) : list (string * string * string) :=
  let job := JobInspection.job inspection in
  let letter := JobInspection.deadLetter inspection in
  [("Failure reason",
    opt_or_else (DeadLetter.errorMessage <$> letter) (opt_or_else (Job.lastError job) "healthy"),
    opt_or_else (letter ≫= DeadLetter.errorType)
      (opt_or_else (Job.blockedReason job) "No active failure signal."));
   ("Idempotency", opt_or_else (Job.idempotencyKey job) "No key",
    match JobInspection.idempotency inspection with
    | Some record =>
        "Suppression active until " +:+ formatDateTime (Some (IdempotencyRecord.expiresAt record))
    | None => "Platform default duplicate window is 15 minutes unless overridden at submit time."
    end);
   ("Lease ownership", opt_or_else (Job.workerId job) "Unclaimed",
    when_text (Job.leaseToken job) (fun token => "Lease token " +:+ token)
      "No worker lease is attached to this job right now.")].

Record AttemptCard := mkAttemptCard {
  attempt_key : string;
  attempt_title : string;
  attempt_worker : string;
  attempt_status : string;
  attempt_error : string;
  attempt_started : string;
  attempt_finished : string;
  attempt_expired : bool
}.

Definition attempt_card (attempt : JobAttempt) : AttemptCard :=
  let number := num_to_string (JobAttempt.attempt attempt) in
  mkAttemptCard (JobAttempt.jobId attempt +:+ "-" +:+ number) ("Attempt " +:+ number)
    (or_else (JobAttempt.workerId attempt) "unknown worker") (JobAttempt.status attempt)
    (opt_or_else (JobAttempt.errorMessage attempt)
       (opt_or_else (JobAttempt.errorType attempt) "No attempt error recorded."))
    (formatDateTime (Some (JobAttempt.startedAt attempt)))
    (when_text (JobAttempt.finishedAt attempt) (fun at_ => formatDateTime (Some at_)) "running")
    (JobAttempt.leaseExpired attempt).

(** Title, preview and full text of the payload and of the result. *)
Definition drawer_payloads (job : Job) : list (string * string * string) :=
  let full value := default "" (stringifyJson value) in
  let result := Job.result job in
  [("Payload", payloadPreview (Job.payload job), full (Job.payload job));
   ("Result", if value_truthy result then payloadPreview result else "no result",
    if value_truthy result then full result else "// no result emitted")].

(** Key, title, status, text of a node of the graph. *)
Definition graph_card (node : DependencyNode) : string * string * string * string :=
  let degree (ids : option (list string)) := dec (Z.of_nat (length (default [] ids))) in
  (DependencyNode.jobId node, DependencyNode.type node, state_name (DependencyNode.state node),
   opt_or_else (DependencyNode.blockedReason node)
     (degree (DependencyNode.dependsOn node) +:+ " upstream / " +:+
      degree (DependencyNode.dependents node) +:+ " downstream")).

(** Key, title, time, message of an entry of the timeline. *)
Definition timeline_card (item : JobEvent) : string * string * string * string :=
  (JobEvent.type item +:+ "-" +:+ JobEvent.occurredAt item, JobEvent.type item,
   formatDateTime (Some (JobEvent.occurredAt item)), JobEvent.message item).
End Tables.

(** * Keys *)

Section Keys.
Context `{DateHost} `{LocaleHost}.

Lemma sorted_keys_distinct {A} (key : A -> string) (cmp : A -> A -> comparison) (p : A -> bool) l :
  NoDup (List.map key l) -> NoDup (List.map key (sort_by cmp (List.filter p l))).
Proof.
  intros Hl. eapply (NoDup_Permutation_proper _ (List.map key (List.filter p l))).
  - apply Permutation_map, sort_by_perm.
  - by apply NoDup_filter_map.
Qed.

Lemma take_keys_distinct {A} (key : A -> string) n l :
  NoDup (List.map key l) -> NoDup (List.map key (take n l)).
Proof.
  intros Hl. rewrite <- (take_drop n l), map_app in Hl. by apply NoDup_app in Hl as [? _].
Qed.

(** Whatever the filters, no two rows of a table are rendered under one key: jobs,
    blocked jobs, schedules, dead letters, queues and toasts. *)
Theorem row_keys_distinct now data q filters search letters schedules selected :
  data_ok data -> ToastQueue.reachable q ->
  NoDup (List.map (fun job => job_key (job_row now job)) (visibleJobs filters search data)) /\
  NoDup (List.map Job.id (DashboardSnapshot.blockedJobs (ConsoleData.snapshot data))) /\
  NoDup (List.map Schedule.id (visibleSchedules schedules data)) /\
  NoDup (List.map (fun item => letter_key (dead_letter_row selected item)) (visibleDeadLetters letters data)) /\
  NoDup (List.map (fun queue => queue_key (queue_card queue)) (queueViews data)) /\
  NoDup (List.map Toast.id (toasts q)).
Proof.
  intros Hd Hq. destruct (ok_distinct data Hd) as [Hj Hs Hl]. split_and!.
  - by apply (sorted_keys_distinct Job.id).
  - rewrite (ok_blocked data Hd). by apply take_keys_distinct, NoDup_filter_map.
  - by apply NoDup_filter_map.
  - by apply (NoDup_filter_map DeadLetter.jobId).
  - unfold queueViews. rewrite List.map_map. cbn. apply (bool_decide_unpack _). by vm_compute.
  - by apply queue_reachable_ok.
Qed.

(** Events are told apart by their message too, but rendered under a key without
    it: a feed can hold two events with one key. *)
Definition told (message : string) : SystemEvent :=
  SystemEvent.mk "job.failed" (Some "job-1") None None None (Some message) "2024-01-01T00:00:00.000Z".

Example event_keys_collide :
  let feed := ConsoleData.events (appendEvents (createEmptyConsoleData source_live) [told "a"; told "b"]) in
  length feed = 2%nat /\ ~ NoDup (List.map event_key feed).
Proof.
  cbn zeta. split; [by vm_compute |].
  match goal with |- ~ NoDup ?l => let k := eval vm_compute in l in change l with k end.
  intros [Hn _]%NoDup_cons. apply Hn. by left.
Qed.
End Keys.
