(* ===== verification/Page.v ===== *)
(** What the page of the console offers: the inputs and buttons that the JSX of
    [components/OpsConsole.tsx] and of its sections renders, whether each is
    disabled, and what it does.

    A section is a function of its props, as in the source, to its controls in the
    order of the page. Pressing a control runs the handler it was rendered with, on
    the console of OpsConsole.v; the state that only the page reads (search, filters,
    open panels, the replay form of the drawer) is [View]. *)

From stdpp Require Import base list strings gmap relations.
From Stdlib Require Import ZArith Lia Bool.
From S2P Require Import Prelude JsString JsNum JsDate JsValue Models ApiRoutes Safe LiveRefresh.
From S2P Require Import LiveTransport Settings ToastQueue ApiParsers RequestClient RequestPool.
From S2P Require Import ConsoleState Urls DemoData LiveState LiveData ConsoleViews ConsoleForms.
From S2P Require Import ConsoleActions ConsoleProperties LiveFrame OpsConsole Sections Tables.

#[local] Open Scope js_scope.

(** * The state of the page *)

(** [deferredSearch] follows [searchQuery]; [inspected] is the id of the job that
    the drawer's effect last ran for. *)
Module View.
Record View := mk {
  searchQuery : string;
  deferredSearch : string;
  jobFilters : JobFilters;
  deadLetterFilters : DeadLetterFilters;
  workerFilter : string;
  scheduleFilter : string;
  eventFilter : string;
  settingsOpen : bool;
  tokenVisible : bool;
  drawer : Drawer;
  inspected : option string
}.

Definition set_searchQuery (x : string) (r : View) : View :=
  mk x (deferredSearch r) (jobFilters r) (deadLetterFilters r) (workerFilter r) (scheduleFilter r) (eventFilter r) (settingsOpen r) (tokenVisible r) (drawer r) (inspected r).
Definition set_deferredSearch (x : string) (r : View) : View :=
  mk (searchQuery r) x (jobFilters r) (deadLetterFilters r) (workerFilter r) (scheduleFilter r) (eventFilter r) (settingsOpen r) (tokenVisible r) (drawer r) (inspected r).
Definition set_jobFilters (x : JobFilters) (r : View) : View :=
  mk (searchQuery r) (deferredSearch r) x (deadLetterFilters r) (workerFilter r) (scheduleFilter r) (eventFilter r) (settingsOpen r) (tokenVisible r) (drawer r) (inspected r).
Definition set_deadLetterFilters (x : DeadLetterFilters) (r : View) : View :=
  mk (searchQuery r) (deferredSearch r) (jobFilters r) x (workerFilter r) (scheduleFilter r) (eventFilter r) (settingsOpen r) (tokenVisible r) (drawer r) (inspected r).
Definition set_workerFilter (x : string) (r : View) : View :=
  mk (searchQuery r) (deferredSearch r) (jobFilters r) (deadLetterFilters r) x (scheduleFilter r) (eventFilter r) (settingsOpen r) (tokenVisible r) (drawer r) (inspected r).
Definition set_scheduleFilter (x : string) (r : View) : View :=
  mk (searchQuery r) (deferredSearch r) (jobFilters r) (deadLetterFilters r) (workerFilter r) x (eventFilter r) (settingsOpen r) (tokenVisible r) (drawer r) (inspected r).
Definition set_eventFilter (x : string) (r : View) : View :=
  mk (searchQuery r) (deferredSearch r) (jobFilters r) (deadLetterFilters r) (workerFilter r) (scheduleFilter r) x (settingsOpen r) (tokenVisible r) (drawer r) (inspected r).
Definition set_settingsOpen (x : bool) (r : View) : View :=
  mk (searchQuery r) (deferredSearch r) (jobFilters r) (deadLetterFilters r) (workerFilter r) (scheduleFilter r) (eventFilter r) x (tokenVisible r) (drawer r) (inspected r).
Definition set_tokenVisible (x : bool) (r : View) : View :=
  mk (searchQuery r) (deferredSearch r) (jobFilters r) (deadLetterFilters r) (workerFilter r) (scheduleFilter r) (eventFilter r) (settingsOpen r) x (drawer r) (inspected r).
Definition set_drawer (x : Drawer) (r : View) : View :=
  mk (searchQuery r) (deferredSearch r) (jobFilters r) (deadLetterFilters r) (workerFilter r) (scheduleFilter r) (eventFilter r) (settingsOpen r) (tokenVisible r) x (inspected r).
Definition set_inspected (x : option string) (r : View) : View :=
  mk (searchQuery r) (deferredSearch r) (jobFilters r) (deadLetterFilters r) (workerFilter r) (scheduleFilter r) (eventFilter r) (settingsOpen r) (tokenVisible r) (drawer r) x.
End View.
Notation View := View.View.

Definition initial_view : View :=
  View.mk "" "" (mkJobFilters "all" "all" "updated" "") (mkDeadLetterFilters "all" "all" "") "" "" ""
    false false new_drawer None.

Record Page := mkPage { app : App; view : View }.

(** * Controls *)

(** What a control does: it runs an action, sets state of the console (to a text
    that was typed), sets state of the page, calls the hook, or dismisses a toast. *)
Inductive Effect :=
  | Run (action : Action)
  | Edit (f : Console -> Console)
  | Typed (f : string -> Console -> Console)
  | See (f : View -> View)
  | SeeTyped (f : string -> View -> View)
  | Call (e : hook_action)
  | Dismiss (id : string).

Record Control := mkControl { control_label : string; disabled : bool; effect : Effect }.

Definition button (label : string) (e : Effect) : Control := mkControl label false e.

(** The options of a [select]. *)
Definition select (f : string -> Effect) (values : list string) : list Control :=
  List.map (fun value => button value (f value)) values.

(** ** The header *)

Definition edit_settings (f : ConsoleSettings -> ConsoleSettings) (c : Console) : Console :=
  Console.set_settings (f (Console.settings c)) c.

Definition setEnvironment (x : string) (s : ConsoleSettings) : ConsoleSettings :=
  Build_ConsoleSettings x (Settings.baseUrlInput s) (Settings.token s) (Settings.liveMode s)
    (Settings.liveUpdates s) (Settings.pollIntervalMs s).
Definition setBaseUrlInput (x : string) (s : ConsoleSettings) : ConsoleSettings :=
  Build_ConsoleSettings (Settings.environment s) x (Settings.token s) (Settings.liveMode s)
    (Settings.liveUpdates s) (Settings.pollIntervalMs s).
Definition setToken (x : string) (s : ConsoleSettings) : ConsoleSettings :=
  Build_ConsoleSettings (Settings.environment s) (Settings.baseUrlInput s) x
    (Settings.liveMode s) (Settings.liveUpdates s) (Settings.pollIntervalMs s).
Definition setLiveMode (x : bool) (s : ConsoleSettings) : ConsoleSettings :=
  Build_ConsoleSettings (Settings.environment s) (Settings.baseUrlInput s) (Settings.token s) x
    (Settings.liveUpdates s) (Settings.pollIntervalMs s).
Definition setLiveUpdates (x : bool) (s : ConsoleSettings) : ConsoleSettings :=
  Build_ConsoleSettings (Settings.environment s) (Settings.baseUrlInput s) (Settings.token s)
    (Settings.liveMode s) x (Settings.pollIntervalMs s).
Definition setPollIntervalMs (x : PollingPreset) (s : ConsoleSettings) : ConsoleSettings :=
  Build_ConsoleSettings (Settings.environment s) (Settings.baseUrlInput s) (Settings.token s)
    (Settings.liveMode s) (Settings.liveUpdates s) x.

(** A checkbox becomes what it was not. *)
Definition topbar_controls (v : View) (s : ConsoleSettings) : list Control :=
  select (fun x => Edit (edit_settings (setEnvironment x)))
    ["Demo Sandbox"; "Staging Cluster"; "Prod East"] ++
  List.map (fun preset => button (fst preset) (Edit (edit_settings (setPollIntervalMs (snd preset)))))
    POLLING_PRESETS ++
  [button "Live mode" (Edit (edit_settings (setLiveMode (negb (Settings.liveMode s)))));
   button "Live stream" (Edit (edit_settings (setLiveUpdates (negb (Settings.liveUpdates s)))));
   button "Search" (SeeTyped View.set_searchQuery);
   button (if View.settingsOpen v then "Hide connection" else "Connection")
     (See (View.set_settingsOpen (negb (View.settingsOpen v))));
   button "Refresh snapshot" (Call refreshSnapshot)].

Definition settings_controls (defaultBaseUrl defaultToken : string) (v : View) : list Control :=
  if View.settingsOpen v then
    [button "API base URL" (Typed (fun x => edit_settings (setBaseUrlInput x)));
     button "Admin token" (Typed (fun x => edit_settings (setToken x)));
     button (if View.tokenVisible v then "Hide" else "Show")
       (See (View.set_tokenVisible (negb (View.tokenVisible v))));
     button "Reset Local Defaults" (Edit (resetConnectionSettings defaultBaseUrl defaultToken))]
  else [].

Definition hero_controls : list Control :=
  [button "Reconnect" (Call reconnectNow); button "Refresh" (Call refreshSnapshot)].

Definition tab_controls : list Control :=
  List.map (fun tab => button (snd tab) (Edit (Console.set_selectedTab (tab_key (fst tab))))) TABS.

(** ** The sections *)

Definition onSelectJob (jobId : string) : Effect := Edit (Console.set_selectedJobId jobId).

(** The three buttons of a queue, and their labels. *)
Definition queue_controls (pause resume drain : string) (enabled : bool) (queue : QueueView)
  : list Control :=
  let control label action :=
    mkControl label (negb enabled) (Run (SetQueueControl (QueueView.queueName queue) action)) in
  [control pause action_pause; control resume action_resume; control drain action_drain].

Definition OverviewSection (queueViews : list QueueView) (blockedJobs : list Job)
    (queueControlsEnabled : bool) : list Control :=
  flat_map (queue_controls "Pause" "Resume" "Drain" queueControlsEnabled) queueViews ++
  List.map (fun job => button (Job.type job) (onSelectJob (Job.id job))) blockedJobs.

Definition QueuesSection (queueViews : list QueueView) (controlsEnabled : bool) : list Control :=
  flat_map (queue_controls "Pause queue" "Resume queue" "Drain queue" controlsEnabled) queueViews.

(** The form of a new job. *)
Definition job_form_controls (busy : JobsBusy) : list Control :=
  select (fun x => Edit (updateJobDraft job_type x)) JOB_TYPES ++
  select (fun x => Edit (updateJobDraft job_queue x)) QUEUES ++
  List.map (fun field => button (fst field) (Typed (updateJobDraft (snd field))))
    [("Tenant", job_tenantId); ("Priority", job_priority); ("Max attempts", job_maxAttempts);
     ("Timeout seconds", job_timeoutSeconds); ("Delay seconds", job_delaySeconds);
     ("Scheduled at", job_scheduledAt); ("Workflow ID", job_workflowId);
     ("Dependencies", job_dependencies); ("Idempotency key", job_idempotencyKey);
     ("Dedupe window seconds", job_dedupeWindowSeconds); ("Payload", job_payload)] ++
  [mkControl "Submit Job" (submit_busy busy) (Run SubmitJob);
   mkControl "Seed Demo Workflow" (seed_busy busy) (Run SeedWorkflow)].

(** [onJobFiltersChange(next)] *)
Definition filter_jobs (state queue sort tenant : option string) (v : View) : View :=
  View.set_jobFilters (handleJobFiltersChange state queue sort tenant (View.jobFilters v)) v.

Definition job_filter_controls : list Control :=
  select (fun x => See (filter_jobs (Some x) None None None))
    ["all"; "queued"; "scheduled"; "active"; "retrying"; "blocked"; "throttled"; "completed";
     "failed"; "canceled"] ++
  select (fun x => See (filter_jobs None (Some x) None None)) ("all" :: QUEUES) ++
  [button "Tenant" (SeeTyped (fun x => filter_jobs None None None (Some x)))] ++
  select (fun x => See (filter_jobs None None (Some x) None)) ["updated"; "created"; "priority"; "latency"].

(** The buttons of a row of the table. *)
Definition job_row_controls (busy : JobsBusy) (priorityControlsEnabled : bool) (job : Job)
  : list Control :=
  [button (Job.type job) (onSelectJob (Job.id job));
   mkControl "Retry" (retry_busy busy (Job.id job)) (Run (RetryJob (Job.id job)));
   mkControl "Cancel" (cancel_busy busy (Job.id job)) (Run (CancelJob (Job.id job)));
   mkControl "Priority +" (negb priorityControlsEnabled) (Run (AdjustPriority (Job.id job) 1))].

Definition JobsSection (visibleJobs : list Job) (busy : JobsBusy) (priorityControlsEnabled : bool)
  : list Control :=
  job_form_controls busy ++ job_filter_controls ++
  flat_map (job_row_controls busy priorityControlsEnabled) visibleJobs.

Definition worker_controls (enabled : bool) (worker : WorkerView) : list Control :=
  let workerId := WorkerLeaseHealth.workerId (WorkerView.health worker) in
  let lease := opt_or_else (WorkerLeaseHealth.oldestLeaseJobId (WorkerView.health worker)) "" in
  [mkControl "Cordon" (negb enabled) (Run (ToggleCordon workerId true));
   mkControl "Resume" (negb enabled) (Run (ToggleCordon workerId false))] ++
  (if truthy lease then [button "Inspect oldest lease" (onSelectJob lease)] else []).

Definition WorkersSection (visibleWorkers : list WorkerView) (controlsEnabled : bool) : list Control :=
  [button "Search workers" (SeeTyped View.set_workerFilter)] ++
  flat_map (worker_controls controlsEnabled) visibleWorkers.

Definition schedule_form_controls (draft : ScheduleDraft) (busy : bool) : list Control :=
  let text field x := updateScheduleDraft (inl (field, x)) in
  [button "Name" (Typed (text schedule_name)); button "Cron" (Typed (text schedule_cronExpression))] ++
  select (fun x => Edit (text schedule_queue x)) QUEUES ++
  select (fun x => Edit (text schedule_type x)) JOB_TYPES ++
  [button "Priority" (Typed (text schedule_priority));
   button "Timeout seconds" (Typed (text schedule_timeoutSeconds));
   button "Timezone" (Typed (text schedule_timezone));
   button "Enabled" (Edit (updateScheduleDraft (inr (negb (ScheduleDraft.enabled draft)))));
   button "Payload" (Typed (text schedule_payload));
   mkControl "Save schedule" busy (Run SubmitSchedule)].

Definition schedule_row_controls (schedule : Schedule) : list Control :=
  [button (if Schedule.enabled schedule then "Pause" else "Resume")
     (Run (ToggleSchedule schedule (negb (Schedule.enabled schedule))));
   button "Trigger now" (Run (TriggerSchedule schedule))].

Definition SchedulesSection (draft : ScheduleDraft) (visibleSchedules : list Schedule) (busy : bool)
  : list Control :=
  schedule_form_controls draft busy ++ [button "Filter" (SeeTyped View.set_scheduleFilter)] ++
  flat_map schedule_row_controls visibleSchedules.

(** [onFiltersChange(next)] *)
Definition filter_dead_letters (queue errorType search : option string) (v : View) : View :=
  View.set_deadLetterFilters
    (handleDeadLetterFiltersChange queue errorType search (View.deadLetterFilters v)) v.

Definition dead_letter_controls (item : DeadLetter) : list Control :=
  [button "" (Edit (handleToggleDeadLetterSelection (DeadLetter.jobId item)));
   button (letter_name item) (onSelectJob (DeadLetter.jobId item))].

(** [busy] of the replay, then of the deletion. *)
Definition DeadLetterSection (visibleDeadLetters : list DeadLetter) (busy : bool * bool)
  : list Control :=
  select (fun x => See (filter_dead_letters (Some x) None None)) ("all" :: QUEUES) ++
  select (fun x => See (filter_dead_letters None (Some x) None))
    ("all" :: error_types visibleDeadLetters) ++
  [button "Search" (SeeTyped (fun x => filter_dead_letters None None (Some x)))] ++
  select (fun x => Edit (Console.set_bulkReplayQueue x)) QUEUES ++
  [button "Replay payload override" (Typed Console.set_bulkReplayPayload);
   mkControl "Replay selected" (fst busy) (Run ReplaySelected);
   mkControl "Delete selected" (snd busy) (Run DeleteSelected)] ++
  flat_map dead_letter_controls visibleDeadLetters.

Definition EventsSection : list Control := [button "Filter" (SeeTyped View.set_eventFilter)].

(** ** The rail, the drawer and the toasts *)

Definition SideRail (selectedJob : option Job) : list Control :=
  match selectedJob with
  | Some _ => [button "Open jobs view" (Edit (Console.set_selectedTab "jobs"))]
  | None => []
  end.

Definition run_replay (call : ReplayCall) : Effect :=
  let '(jobId, queue, payloadText, edited) := call in Run (ReplayJob jobId queue payloadText edited).

Definition drawer_queue (queue : string) (v : View) : View :=
  View.set_drawer (Drawer.mk queue (Drawer.payloadText (View.drawer v)) (Drawer.inlineError (View.drawer v))) v.

Definition drawer_payload (text : string) (v : View) : View :=
  View.set_drawer (edit_payload text (View.drawer v)) v.

Definition JobDrawer (inspection : option JobInspection) (busy priorityControlsEnabled : bool)
    (d : Drawer) : list Control :=
  match inspection with
  | None => []
  | Some inspection =>
      let jobId := Job.id (JobInspection.job inspection) in
      let onClose := Edit (Console.set_selectedJobId "") in
      [button "backdrop" onClose; button "x" onClose;
       mkControl "Retry" busy (Run (RetryJob jobId));
       mkControl "Cancel" busy (Run (CancelJob jobId));
       mkControl "Priority +" (busy || negb priorityControlsEnabled) (Run (AdjustPriority jobId 1));
       mkControl "Priority -" (busy || negb priorityControlsEnabled) (Run (AdjustPriority jobId (-1)))] ++
      select (fun x => See (drawer_queue x)) QUEUES ++
      [button "Replay payload" (SeeTyped drawer_payload);
       mkControl "Replay Same Payload" busy (run_replay (replay_same inspection d));
       mkControl "Replay Edited Payload" busy
         match replay_edited inspection d with
         | (_, Some call) => run_replay call
         | (d', None) => See (View.set_drawer d')
         end]
  end.

Definition ToastViewport (items : list Toast) : list Control :=
  List.map (fun item => button "x" (Dismiss (Toast.id item))) items.

(** * The page *)

Section Page.
Context `{UrlApi} `{HeadersApi} `{DateHost} `{Browser} `{ApiView} `{JsonHost} `{ActionApi}.
Context (realtimeBaseUrlInput defaultBaseUrl defaultToken : string).

(** What the page was rendered from. *)
Definition rendered_data (p : Page) : ConsoleData := Hook.consoleData (St.rendered (hook (app p))).

Definition rendered_inspection (p : Page) : result (option JobInspection) :=
  selectedInspection (St.props (hook (app p))) (St.rendered (hook (app p))).

Definition search (v : View) : string := to_lower (trim (View.deferredSearch v)).

Definition demoMode (c : Console) : bool := negb (Settings.liveMode (Console.settings c)).

(** The section of the tab; a skeleton while the first data are loading. *)
Definition tabContent (p : Page) : list Control :=
  let c := console (app p) in
  let v := view p in
  let data := rendered_data p in
  if Hook.loading (St.rendered (hook (app p))) then []
  else
    let tab := tabKey (Console.selectedTab c) in
    if String.eqb tab "overview" then
      OverviewSection (queueViews data) (DashboardSnapshot.blockedJobs (ConsoleData.snapshot data))
        (demoMode c)
    else if String.eqb tab "jobs" then
      JobsSection (visibleJobs (View.jobFilters v) (search v) data) (jobsBusy c) (demoMode c)
    else if String.eqb tab "queues" then QueuesSection (queueViews data) (demoMode c)
    else if String.eqb tab "workers" then
      WorkersSection (visibleWorkers (View.workerFilter v) data) (demoMode c)
    else if String.eqb tab "schedules" then
      SchedulesSection (Console.scheduleDraft c) (visibleSchedules (View.scheduleFilter v) data)
        (busy c "schedule-submit")
    else if String.eqb tab "dead-letter" then
      DeadLetterSection (visibleDeadLetters (View.deadLetterFilters v) data) (deadLetterBusy c)
    else if String.eqb tab "workflows" then []
    else if String.eqb tab "metrics" then []
    else EventsSection.

(** Whether the drawer's job is being replayed. *)
Definition drawer_busy (c : Console) (inspection : option JobInspection) : bool :=
  match inspection with
  | Some inspection => busy c ("job-replay-" +:+ Job.id (JobInspection.job inspection))
  | None => false
  end.

Definition page (p : Page) : result (list Control) :=
  let c := console (app p) in
  let! inspection := rendered_inspection p in
  Ok (topbar_controls (view p) (Console.settings c) ++
      settings_controls defaultBaseUrl defaultToken (view p) ++ hero_controls ++ tab_controls ++
      tabContent p ++ SideRail (JobInspection.job <$> inspection) ++
      JobDrawer inspection (drawer_busy c inspection) (demoMode c) (View.drawer (view p)) ++
      ToastViewport (toasts (queue (app p)))).

(** * What happens to the page *)

Definition with_app (p : Page) (a : option App) : option Page := (fun a => mkPage a (view p)) <$> a.

(** A control is used, with [text] typed into it. *)
Definition press (m : Moment) (control : Control) (text : string) (p : Page) : option Page :=
  let act x := with_app p (app_perform realtimeBaseUrlInput m x (app p)) in
  if disabled control then None
  else
    match effect control with
    | Run action => act (UserAct action)
    | Edit f => act (UserEdit (f (console (app p))))
    | Typed f => act (UserEdit (f text (console (app p))))
    | See f => Some (mkPage (app p) (f (view p)))
    | SeeTyped f => Some (mkPage (app p) (f text (view p)))
    | Call e => act (HookEvent e)
    | Dismiss id => act (DismissToast id)
    end.

(** The drawer's effect after a render, for another job than before. *)
Definition drawer_effect (p : Page) : Page :=
  match rendered_inspection p with
  | Throw _ => p
  | Ok inspection =>
      let id := (fun i => Job.id (JobInspection.job i)) <$> inspection in
      if decide (id = View.inspected (view p)) then p
      else mkPage (app p) (View.set_inspected id
             (View.set_drawer (inspect_effect inspection (View.drawer (view p))) (view p)))
  end.

(** What is not the user's doing. *)
Definition unattended (x : app_action) : bool :=
  match x with
  | SettleTask _ | HandleAnswer _ | ToastTimeout _ => true
  | HookEvent e =>
      match e with VisibilityChange _ | FireTimeout _ | Network _ _ | ManagerEvent _ _ => true | _ => false end
  | UserAct _ | UserEdit _ | Render _ _ | DismissToast _ => false
  end.

Record valid_moment (m : Moment) (a : App) : Prop := {
  moment_env : valid_env (transport_env (outside m));
  moment_toasts : fresh_toasts m (queue a)
}.

(** The ids drawn at random are new. *)
Record fresh_moment (m : Moment) (a : App) : Prop := {
  moment_valid : valid_moment m a;
  moment_ids : fresh_ids (ids (outside m)) (Console.data (console a))
}.

(** React renders the data of the hook before the user acts on them. *)
Definition up_to_date (p : Page) : Prop := rendered_data p = shown_data (hook (app p)).

(** The user acts on the page, something happens outside, or React gets to the
    deferred text. *)
Inductive page_acts : Page -> Page -> Prop :=
  | page_press m p controls control text p' :
      fresh_moment m (app p) -> up_to_date p -> page p = Ok controls -> control ∈ controls ->
      press m control text p = Some p' -> page_acts p p'
  | page_event m x p a' :
      valid_moment m (app p) -> unattended x = true ->
      app_perform realtimeBaseUrlInput m x (app p) = Some a' -> page_acts p (mkPage a' (view p))
  | page_defer p :
      page_acts p (mkPage (app p) (View.set_deferredSearch (View.searchQuery (view p)) (view p))).

(** React renders the page; the effect of the drawer is still due. *)
Inductive page_renders : Page -> Page -> Prop :=
  | page_render m transition jobs_changed p a' :
      valid_moment m (app p) ->
      app_perform realtimeBaseUrlInput m (Render transition jobs_changed) (app p) = Some a' ->
      page_renders p (mkPage a' (view p)).

Inductive page_step : Page -> Page -> Prop :=
  | page_step_acts p p' : page_acts p p' -> page_step p p'
  | page_step_renders p p' : page_renders p p' -> page_step p (drawer_effect p').

(** The page when the console is mounted. *)
Definition mount_page (m : Moment) (st : storage) (tab job : string) (visible : bool) : Page :=
  mkPage (mount_app realtimeBaseUrlInput m (restoreSettings defaultBaseUrl defaultToken st) tab job visible)
    initial_view.

Inductive page_reachable : Page -> Prop :=
  | page_mounted m st tab job visible :
      valid_env (transport_env (outside m)) -> fresh_toasts m useToastQueue ->
      page_reachable (drawer_effect (mount_page m st tab job visible))
  | page_stepped p p' : page_reachable p -> page_step p p' -> page_reachable p'.
End Page.
