(* ===== verification/PageProperties.v ===== *)
(** What the page of Page.v guarantees: which actions its enabled controls run,
    and that a user of the page only takes steps of the console of OpsConsole.v. *)

From stdpp Require Import base list strings gmap relations.
From Stdlib Require Import ZArith Lia Bool.
From S2P Require Import Prelude JsString JsNum JsDate JsValue Models ApiRoutes Safe LiveRefresh.
From S2P Require Import LiveTransport Settings ToastQueue ApiParsers RequestClient RequestPool.
From S2P Require Import ConsoleState Urls DemoData LiveState LiveData LiveTasks ConsoleViews.
From S2P Require Import ConsoleForms ConsoleActions ConsoleProperties LiveFrame OpsConsole.
From S2P Require Import OpsConsoleProperties Sections Page.

#[local] Open Scope js_scope.

(** * The actions of a list of controls *)

(** An enabled control of [l] runs [action]. *)
Definition offers (l : list Control) (action : Action) : Prop :=
  exists control, control ∈ l /\ disabled control = false /\ effect control = Run action.

Lemma offers_nil action : offers [] action <-> False.
Proof. split; [| done]. by intros (c & Hc%elem_of_nil & _). Qed.

Lemma offers_cons c l action :
  offers (c :: l) action <-> (disabled c = false /\ effect c = Run action) \/ offers l action.
Proof. unfold offers. setoid_rewrite elem_of_cons. naive_solver. Qed.

Lemma offers_app l l' action : offers (l ++ l') action <-> offers l action \/ offers l' action.
Proof. unfold offers. setoid_rewrite elem_of_app. naive_solver. Qed.

Lemma offers_flat_map {A} (f : A -> list Control) l action :
  offers (flat_map f l) action <-> exists x, x ∈ l /\ offers (f x) action.
Proof.
  induction l as [| x l IH]; cbn.
  - rewrite offers_nil. split; [done |]. by intros (x & Hx%elem_of_nil & _).
  - rewrite offers_app, IH. setoid_rewrite elem_of_cons. naive_solver.
Qed.

(** Controls that run no action. *)
Definition mute (e : Effect) : Prop := forall action, e <> Run action.

Lemma offers_mute {A} (f : A -> Control) l action :
  (forall x, mute (effect (f x))) -> offers (List.map f l) action <-> False.
Proof.
  intros Hf. induction l as [| x l IH]; cbn; [apply offers_nil |].
  rewrite offers_cons, IH. split; [| done]. intros [[_ E] | []]. by apply Hf in E.
Qed.

Lemma offers_select f values action :
  (forall x, mute (f x)) -> offers (select f values) action <-> False.
Proof. intros Hf. by apply offers_mute. Qed.

(** Lists of controls that are written out. *)
Ltac offers :=
  rewrite ?offers_app, ?offers_cons, ?offers_nil, ?offers_select, ?offers_mute by (intros ? ?; done);
  cbn [disabled effect button].

(** The disjunct that holds. *)
Ltac pick := first [solve [split_and!; reflexivity] | left; pick | right; pick].

Lemma negb_disabled b : negb b = false <-> b = true.
Proof. by destruct b. Qed.

(** ** Each section *)

Lemma topbar_offers v s action : offers (topbar_controls v s) action <-> False.
Proof. unfold topbar_controls. offers. naive_solver. Qed.

Lemma settings_offers url token v action : offers (settings_controls url token v) action <-> False.
Proof. unfold settings_controls. destruct (View.settingsOpen v); offers; naive_solver. Qed.

Lemma hero_offers action : offers hero_controls action <-> False.
Proof. unfold hero_controls. offers. naive_solver. Qed.

Lemma tabs_offer action : offers tab_controls action <-> False.
Proof. by apply offers_mute. Qed.

Lemma queue_offers a b c enabled queue action :
  offers (queue_controls a b c enabled queue) action <->
  enabled = true /\ exists x, action = SetQueueControl (QueueView.queueName queue) x.
Proof.
  unfold queue_controls. cbn zeta. offers. rewrite negb_disabled. split; [naive_solver |].
  intros [-> [[] ->]]; naive_solver.
Qed.

Lemma job_row_offers busy enabled job action :
  offers (job_row_controls busy enabled job) action <->
  (retry_busy busy (Job.id job) = false /\ action = RetryJob (Job.id job)) \/
  (cancel_busy busy (Job.id job) = false /\ action = CancelJob (Job.id job)) \/
  (enabled = true /\ action = AdjustPriority (Job.id job) 1).
Proof. unfold job_row_controls. offers. rewrite negb_disabled. unfold onSelectJob. naive_solver. Qed.

Lemma job_form_offers busy action :
  offers (job_form_controls busy) action <->
  (submit_busy busy = false /\ action = SubmitJob) \/ (seed_busy busy = false /\ action = SeedWorkflow).
Proof. unfold job_form_controls. offers. naive_solver. Qed.

Lemma job_filter_offers action : offers job_filter_controls action <-> False.
Proof. unfold job_filter_controls. offers. naive_solver. Qed.

Lemma worker_offers enabled worker action :
  offers (worker_controls enabled worker) action <->
  enabled = true /\
  exists cordoned, action = ToggleCordon (WorkerLeaseHealth.workerId (WorkerView.health worker)) cordoned.
Proof.
  unfold worker_controls, onSelectJob. cbn zeta. rewrite offers_app.
  assert (forall b, offers (if b : bool then [button "Inspect oldest lease"
    (Edit (Console.set_selectedJobId (opt_or_else (WorkerLeaseHealth.oldestLeaseJobId
       (WorkerView.health worker)) "")))] else []) action <-> False) as ->
    by (intros []; offers; naive_solver).
  offers. rewrite negb_disabled. split; [naive_solver |]. intros [-> [[] ->]]; naive_solver.
Qed.

Lemma schedule_form_offers draft busy action :
  offers (schedule_form_controls draft busy) action <-> busy = false /\ action = SubmitSchedule.
Proof. unfold schedule_form_controls. cbn zeta. offers. naive_solver. Qed.

Lemma schedule_row_offers schedule action :
  offers (schedule_row_controls schedule) action <->
  action = ToggleSchedule schedule (negb (Schedule.enabled schedule)) \/ action = TriggerSchedule schedule.
Proof. unfold schedule_row_controls. offers. naive_solver. Qed.

Lemma dead_letter_offers item action : offers (dead_letter_controls item) action <-> False.
Proof. unfold dead_letter_controls, onSelectJob. offers. naive_solver. Qed.

Lemma toasts_offer items action : offers (ToastViewport items) action <-> False.
Proof. by apply offers_mute. Qed.

Lemma rail_offers job action : offers (SideRail job) action <-> False.
Proof. destruct job; unfold SideRail; offers; naive_solver. Qed.

Lemma overview_offers queues jobs enabled action :
  offers (OverviewSection queues jobs enabled) action <->
  enabled = true /\ exists queue x, queue ∈ queues /\ action = SetQueueControl (QueueView.queueName queue) x.
Proof.
  unfold OverviewSection. offers. rewrite offers_flat_map. setoid_rewrite queue_offers. naive_solver.
Qed.

Lemma queues_offer queues enabled action :
  offers (QueuesSection queues enabled) action <->
  enabled = true /\ exists queue x, queue ∈ queues /\ action = SetQueueControl (QueueView.queueName queue) x.
Proof. unfold QueuesSection. rewrite offers_flat_map. setoid_rewrite queue_offers. naive_solver. Qed.

Lemma jobs_offer jobs busy enabled action :
  offers (JobsSection jobs busy enabled) action <->
  (submit_busy busy = false /\ action = SubmitJob) \/ (seed_busy busy = false /\ action = SeedWorkflow) \/
  exists job, job ∈ jobs /\
    ((retry_busy busy (Job.id job) = false /\ action = RetryJob (Job.id job)) \/
     (cancel_busy busy (Job.id job) = false /\ action = CancelJob (Job.id job)) \/
     (enabled = true /\ action = AdjustPriority (Job.id job) 1)).
Proof.
  unfold JobsSection. rewrite !offers_app, job_form_offers, job_filter_offers, offers_flat_map.
  setoid_rewrite job_row_offers. tauto.
Qed.

Lemma workers_offer workers enabled action :
  offers (WorkersSection workers enabled) action <->
  enabled = true /\ exists worker cordoned, worker ∈ workers /\
    action = ToggleCordon (WorkerLeaseHealth.workerId (WorkerView.health worker)) cordoned.
Proof.
  unfold WorkersSection. offers. rewrite offers_flat_map. setoid_rewrite worker_offers. naive_solver.
Qed.

Lemma schedules_offer draft schedules busy action :
  offers (SchedulesSection draft schedules busy) action <->
  (busy = false /\ action = SubmitSchedule) \/
  exists schedule, schedule ∈ schedules /\
    (action = ToggleSchedule schedule (negb (Schedule.enabled schedule)) \/ action = TriggerSchedule schedule).
Proof.
  unfold SchedulesSection. offers. rewrite schedule_form_offers, offers_flat_map.
  setoid_rewrite schedule_row_offers. naive_solver.
Qed.

Lemma dead_letters_offer items busy action :
  offers (DeadLetterSection items busy) action <->
  (fst busy = false /\ action = ReplaySelected) \/ (snd busy = false /\ action = DeleteSelected).
Proof.
  unfold DeadLetterSection. offers. rewrite offers_flat_map. setoid_rewrite dead_letter_offers.
  naive_solver.
Qed.

Lemma events_offer action : offers EventsSection action <-> False.
Proof. unfold EventsSection. offers. naive_solver. Qed.

(** The drawer: replaying an edited payload needs a text. *)
Lemma drawer_offers inspection busy enabled d action :
  offers (JobDrawer (Some inspection) busy enabled d) action <->
  busy = false /\
  let jobId := Job.id (JobInspection.job inspection) in
  (action = RetryJob jobId \/ action = CancelJob jobId \/
   (enabled = true /\ exists delta, (delta = 1 \/ delta = -1)%Z /\ action = AdjustPriority jobId delta) \/
   exists edited, (edited = true -> trim (Drawer.payloadText d) <> "") /\
     action = ReplayJob jobId (Drawer.replayQueue d) (Drawer.payloadText d) edited).
Proof.
  unfold JobDrawer, replay_same, replay_edited, run_replay. cbn zeta.
  assert (truthy (trim (Drawer.payloadText d)) = true <-> trim (Drawer.payloadText d) <> "") as Ht
    by (unfold truthy; by destruct (trim (Drawer.payloadText d))).
  offers. rewrite !orb_false_iff, !negb_disabled.
  destruct (truthy (trim (Drawer.payloadText d))) eqn:E; cbn [negb]; split.
  - naive_solver.
  - intros (-> & [-> | [-> | [(-> & delta & [-> | ->] & ->) | ([] & _ & ->)]]]); pick.
  - naive_solver.
  - intros (-> & [-> | [-> | [(-> & delta & [-> | ->] & ->) | ([] & He & ->)]]]); try pick.
    destruct Ht as [_ Ht]. discriminate (Ht (He eq_refl)).
Qed.

Section Page.
Context `{UrlApi} `{HeadersApi} `{DateHost} `{Browser} `{ApiView} `{JsonHost} `{ActionApi}.
Context (realtimeBaseUrlInput defaultBaseUrl defaultToken : string).

(** * What may be done, by action *)

(** The data of tab [tab] are shown. *)
Definition shows (p : Page) (tab : string) : Prop :=
  Hook.loading (St.rendered (hook (app p))) = false /\ tabKey (Console.selectedTab (console (app p))) = tab.

Definition flag_down (p : Page) (key : string) : Prop := key ∉ Console.busyMap (console (app p)).

Definition demo (p : Page) : Prop := Settings.liveMode (Console.settings (console (app p))) = false.

(** A row of the table of jobs. *)
Definition listed (p : Page) (jobId : string) : Prop :=
  exists job, job ∈ visibleJobs (View.jobFilters (view p)) (search (view p)) (rendered_data p) /\
    Job.id job = jobId.

(** The drawer is open on [jobId], which is not being replayed. *)
Definition open_drawer (p : Page) (inspection : option JobInspection) (jobId : string) : Prop :=
  (exists i, inspection = Some i /\ Job.id (JobInspection.job i) = jobId) /\
  flag_down p ("job-replay-" +:+ jobId).

(** The state in which a user may run [action], by the action. *)
Definition permitted (p : Page) (inspection : option JobInspection) (action : Action) : Prop :=
  match action with
  | SubmitJob => shows p "jobs" /\ flag_down p "submit-job"
  | SeedWorkflow => shows p "jobs" /\ flag_down p "seed-workflow"
  | RetryJob jobId =>
      (shows p "jobs" /\ listed p jobId /\ flag_down p ("job-retry-" +:+ jobId)) \/
      open_drawer p inspection jobId
  | CancelJob jobId =>
      (shows p "jobs" /\ listed p jobId /\ flag_down p ("job-cancel-" +:+ jobId)) \/
      open_drawer p inspection jobId
  | AdjustPriority jobId delta =>
      demo p /\
      ((shows p "jobs" /\ listed p jobId /\ delta = 1%Z) \/
       (open_drawer p inspection jobId /\ (delta = 1 \/ delta = -1)%Z))
  | ReplayJob jobId queue text edited =>
      open_drawer p inspection jobId /\ queue = Drawer.replayQueue (View.drawer (view p)) /\
      text = Drawer.payloadText (View.drawer (view p)) /\ (edited = true -> trim text <> "")
  | ReplaySelected => shows p "dead-letter" /\ flag_down p "bulk-replay"
  | DeleteSelected => shows p "dead-letter" /\ flag_down p "bulk-delete"
  | SetQueueControl queue _ => demo p /\ (shows p "overview" \/ shows p "queues") /\ queue ∈ QUEUES
  | ToggleCordon workerId _ =>
      demo p /\ shows p "workers" /\
      exists worker, worker ∈ visibleWorkers (View.workerFilter (view p)) (rendered_data p) /\
        WorkerLeaseHealth.workerId (WorkerView.health worker) = workerId
  | SubmitSchedule => shows p "schedules" /\ flag_down p "schedule-submit"
  | ToggleSchedule schedule enabled =>
      shows p "schedules" /\ enabled = negb (Schedule.enabled schedule) /\
      schedule ∈ visibleSchedules (View.scheduleFilter (view p)) (rendered_data p)
  | TriggerSchedule schedule =>
      shows p "schedules" /\
      schedule ∈ visibleSchedules (View.scheduleFilter (view p)) (rendered_data p)
  end.

Lemma busy_down c key : busy c key = false <-> key ∉ Console.busyMap c.
Proof. unfold busy. by rewrite bool_decide_eq_false. Qed.

Lemma demoMode_demo p : demoMode (console (app p)) = true <-> demo p.
Proof. unfold demoMode, demo. by destruct (Settings.liveMode _). Qed.

(** Each queue has its card. *)
Lemma queue_cards data queue :
  (exists view, view ∈ queueViews data /\ QueueView.queueName view = queue) <-> queue ∈ QUEUES.
Proof.
  unfold queueViews. setoid_rewrite list_elem_of_fmap. split.
  - by intros (view & (name & -> & Hn) & <-).
  - intros Hq. exists (queue_view data queue). split; [by exists queue | done].
Qed.

(** The part of [permitted] that is the tab's. *)
Definition tab_permits (p : Page) (action : Action) : Prop :=
  match action with
  | RetryJob jobId => shows p "jobs" /\ listed p jobId /\ flag_down p ("job-retry-" +:+ jobId)
  | CancelJob jobId => shows p "jobs" /\ listed p jobId /\ flag_down p ("job-cancel-" +:+ jobId)
  | AdjustPriority jobId delta => demo p /\ shows p "jobs" /\ listed p jobId /\ delta = 1%Z
  | ReplayJob _ _ _ _ => False
  | action => permitted p None action
  end.

Ltac by_action :=
  match goal with
  | Hshows : (forall t, shows _ t <-> _), action : Action |- _ =>
      destruct action; rewrite ?Hshows; try naive_solver
  end.

Lemma tab_offers p action : offers (tabContent p) action <-> tab_permits p action.
Proof.
  unfold tabContent. destruct (Hook.loading (St.rendered (hook (app p)))) eqn:El.
  { rewrite offers_nil. unfold tab_permits, permitted, shows. rewrite El.
    destruct action; naive_solver. }
  cbn zeta. set (tab := tabKey _).
  assert (forall t, shows p t <-> tab = t) as Hshows by (intros t; unfold shows; rewrite El; naive_solver).
  clearbody tab. unfold tab_permits, permitted, flag_down.
  destruct (String.eqb_spec tab "overview") as [-> | H1'].
  { rewrite overview_offers, demoMode_demo. by_action.
    rewrite <- (queue_cards (rendered_data p)). naive_solver. }
  destruct (String.eqb_spec tab "jobs") as [-> | H2'].
  { rewrite jobs_offer. setoid_rewrite demoMode_demo. unfold jobsBusy, listed.
    cbn [submit_busy seed_busy retry_busy cancel_busy]. setoid_rewrite busy_down. by_action. }
  destruct (String.eqb_spec tab "queues") as [-> | H3'].
  { rewrite queues_offer, demoMode_demo. by_action.
    rewrite <- (queue_cards (rendered_data p)). naive_solver. }
  destruct (String.eqb_spec tab "workers") as [-> | H4'].
  { rewrite workers_offer, demoMode_demo. by_action. }
  destruct (String.eqb_spec tab "schedules") as [-> | H5'].
  { rewrite schedules_offer, busy_down. by_action. }
  destruct (String.eqb_spec tab "dead-letter") as [-> | H6'].
  { rewrite dead_letters_offer. unfold deadLetterBusy. cbn [fst snd]. rewrite !busy_down. by_action. }
  transitivity False; [destruct (String.eqb tab "workflows"), (String.eqb tab "metrics");
    rewrite ?offers_nil, ?events_offer; done |].
  by_action.
Qed.

(** * What the controls do to the console *)

Definition preset_interval (c : Console) : Prop :=
  Settings.pollIntervalMs (Console.settings c) ∈ [0; 5000; 15000; 30000]%Z.

(** An edit of the page, or one of its calls, is one of the console. *)
Definition sound (e : Effect) : Prop :=
  match e with
  | Edit f => forall c, preset_interval c -> edited c (f c)
  | Typed f => forall text c, preset_interval c -> edited c (f text c)
  | Call e => hook_event e = true
  | Run _ | See _ | SeeTyped _ | Dismiss _ => True
  end.

Definition all_sound (l : list Control) : Prop := Forall (fun control => sound (effect control)) l.

Lemma all_sound_app l l' : all_sound l -> all_sound l' -> all_sound (l ++ l').
Proof. intros Hl Hl'. by apply Forall_app. Qed.

Lemma all_sound_map {A} (f : A -> Control) l : (forall x, x ∈ l -> sound (effect (f x))) -> all_sound (List.map f l).
Proof.
  intros Hf. apply Forall_forall. intros c Hc. change (List.map f l) with (f <$> l) in Hc.
  apply list_elem_of_fmap in Hc as (x & -> & Hx). by apply Hf.
Qed.

Lemma all_sound_select f values : (forall x, sound (f x)) -> all_sound (select f values).
Proof. intros Hf. apply all_sound_map. intros x _. apply Hf. Qed.

Lemma all_sound_flat_map {A} (f : A -> list Control) l :
  (forall x, all_sound (f x)) -> all_sound (flat_map f l).
Proof. intros Hf. induction l as [| x l IH]; cbn; [constructor | by apply all_sound_app]. Qed.

(** An edit that tells nobody. *)
Lemma edited_quietly c c' :
  preset_interval c' -> Console.data c' = Console.data c -> Console.busyMap c' = Console.busyMap c ->
  Console.tasks c' = Console.tasks c -> Console.next c' = Console.next c ->
  Console.refreshes c' = Console.refreshes c -> Console.notified c' = Console.notified c -> edited c c'.
Proof.
  intros Hp Hd Hb Ht Hn Hr Ho. split; [by split_and! | done | | exact Hp].
  exists []. by rewrite Ho, app_nil_r.
Qed.

Ltac edited := intros; match goal with c : Console |- _ => apply edited_quietly; destruct c end; done.

(** A change of the settings. *)
Lemma edited_settings f c :
  Settings.pollIntervalMs (f (Console.settings c)) ∈ [0; 5000; 15000; 30000]%Z ->
  edited c (edit_settings f c).
Proof. intros Hp. apply edited_quietly; destruct c; done. Qed.

Lemma edited_toggle jobId c : preset_interval c -> edited c (handleToggleDeadLetterSelection jobId c).
Proof. edited. Qed.

Lemma edited_reset c : preset_interval c -> edited c (resetConnectionSettings defaultBaseUrl defaultToken c).
Proof.
  intros Hp. split; [by destruct c | by destruct c | | by destruct c]. eexists [_]. split; [by destruct c |].
  by repeat constructor.
Qed.

(** Lists that are written out: one control at a time. *)
Ltac sounds :=
  repeat first [ apply all_sound_app | apply all_sound_select | apply Forall_cons; split | apply Forall_nil; done ];
  intros; cbn [sound effect button onSelectJob];
  try match goal with |- forall _, _ => intros end; try exact I; try reflexivity; try edited.

Lemma topbar_sound v s : all_sound (topbar_controls v s).
Proof.
  unfold topbar_controls. apply all_sound_app; [| apply all_sound_app].
  - apply all_sound_select. intros x c Hc. by apply edited_settings.
  - apply all_sound_map. intros [label x] Hx c Hc. apply edited_settings. cbn.
    unfold POLLING_PRESETS in Hx. rewrite !elem_of_cons in Hx. cbn in Hx. set_solver.
  - sounds; by apply edited_settings.
Qed.

Lemma settings_sound v : all_sound (settings_controls defaultBaseUrl defaultToken v).
Proof.
  unfold settings_controls. destruct (View.settingsOpen v); [| constructor].
  sounds; by (apply edited_settings || apply edited_reset).
Qed.

Lemma tab_controls_sound : all_sound tab_controls.
Proof. apply all_sound_map. cbn. edited. Qed.

Lemma queue_controls_sound a b c enabled queue : all_sound (queue_controls a b c enabled queue).
Proof. unfold queue_controls. sounds. Qed.

Lemma job_form_sound busy : all_sound (job_form_controls busy).
Proof. unfold job_form_controls. sounds. Qed.

Lemma job_filters_sound : all_sound job_filter_controls.
Proof. unfold job_filter_controls. sounds. Qed.

Lemma job_row_sound busy enabled job : all_sound (job_row_controls busy enabled job).
Proof. unfold job_row_controls. sounds. Qed.

Lemma worker_sound enabled worker : all_sound (worker_controls enabled worker).
Proof.
  unfold worker_controls. cbn zeta. apply all_sound_app; [sounds |]. destruct (truthy _); sounds.
Qed.

Lemma schedule_form_sound draft busy : all_sound (schedule_form_controls draft busy).
Proof. unfold schedule_form_controls. cbn zeta. sounds. Qed.

Lemma schedule_row_sound schedule : all_sound (schedule_row_controls schedule).
Proof. unfold schedule_row_controls. sounds. Qed.

Lemma dead_letter_sound item : all_sound (dead_letter_controls item).
Proof. unfold dead_letter_controls. sounds. Qed.

Lemma job_drawer_sound inspection busy enabled d : all_sound (JobDrawer inspection busy enabled d).
Proof.
  destruct inspection as [inspection |]; [| constructor]. unfold JobDrawer. cbn zeta.
  unfold replay_same, replay_edited, run_replay.
  destruct (negb (truthy _)); sounds.
Qed.

Lemma tabContent_sound p : all_sound (tabContent p).
Proof.
  unfold tabContent. destruct (Hook.loading _); [constructor |]. cbn zeta.
  repeat case_match; unfold OverviewSection, JobsSection, QueuesSection, WorkersSection,
    SchedulesSection, DeadLetterSection, EventsSection.
  all: repeat apply all_sound_app; try solve [sounds].
  all: try (apply all_sound_flat_map; intros);
    auto using queue_controls_sound, job_form_sound, job_filters_sound, job_row_sound, worker_sound,
      schedule_form_sound, schedule_row_sound, dead_letter_sound.
  all: try (apply all_sound_map; intros); sounds.
Qed.

Lemma ok_sound l l' : Ok l' = Ok l -> all_sound l' -> all_sound l.
Proof. congruence. Qed.

Lemma page_sound p controls :
  page defaultBaseUrl defaultToken p = Ok controls -> all_sound controls.
Proof.
  unfold page. destruct (rendered_inspection p) as [inspection |]; cbn [result_bind]; [| done].
  intros E. apply (ok_sound _ _ E).
  apply all_sound_app; [apply topbar_sound |]. apply all_sound_app; [apply settings_sound |].
  apply all_sound_app; [sounds |]. apply all_sound_app; [apply tab_controls_sound |].
  apply all_sound_app; [apply tabContent_sound |].
  apply all_sound_app; [destruct inspection; cbn; sounds |].
  apply all_sound_app; [apply job_drawer_sound | by apply all_sound_map].
Qed.

(** * Steps *)

(** A control of the page that is used takes a step of the console, or none. *)
Lemma press_steps m control text p p' :
  fresh_moment m (app p) -> up_to_date p -> preset_interval (console (app p)) ->
  sound (effect control) -> press realtimeBaseUrlInput m control text p = Some p' ->
  app p' = app p \/ app_step realtimeBaseUrlInput (app p) (app p').
Proof.
  intros [[Hv Ht] Hi] Hu Hp Hs E. unfold press in E. destruct (disabled control); [done |].
  assert (forall x, app_valid m x (app p) ->
    with_app p (app_perform realtimeBaseUrlInput m x (app p)) = Some p' ->
    app_step realtimeBaseUrlInput (app p) (app p')) as Hact.
  { intros x Hx Ex. unfold with_app in Ex.
    destruct (app_perform _ m x (app p)) as [a' |] eqn:Ea; [| done]. injection Ex as <-.
    by eapply app_step_perform. }
  destruct (effect control) as [action | f | f | f | f | e | id]; cbn [sound] in Hs.
  - right. eapply Hact; [| exact E]. split; [done |]. split; [done |]. by split; [| intros _].
  - right. eapply Hact; [| exact E]. split; [done |]. split; [done | by apply Hs].
  - right. eapply Hact; [| exact E]. split; [done |]. split; [done | by apply Hs].
  - left. by injection E as <-.
  - left. by injection E as <-.
  - right. eapply Hact; [| exact E]. split; [done |]. by split.
  - right. eapply Hact; [| exact E]. split; [done |]. by split.
Qed.

Lemma drawer_effect_app p : app (drawer_effect p) = app p.
Proof. unfold drawer_effect. destruct (rendered_inspection p); [by case_decide | done]. Qed.

Lemma page_step_steps p p' :
  preset_interval (console (app p)) -> page_step realtimeBaseUrlInput defaultBaseUrl defaultToken p p' ->
  app p' = app p \/ app_step realtimeBaseUrlInput (app p) (app p').
Proof.
  intros Hp Hst. revert Hp. destruct Hst as [p p' Ha | p p' Hr]; intros Hp.
  - revert Hp. destruct Ha as [m q controls control text q' Hm Hu Hpage Hc E | m x q a' [Hv Ht] Hx E | q];
      intros Hp.
    + apply page_sound in Hpage. unfold all_sound in Hpage. rewrite Forall_forall in Hpage.
      eapply press_steps; [exact Hm | exact Hu | exact Hp | by apply Hpage | exact E].
    + right. apply (app_step_perform _ m x); [| exact E]. split; [done |]. split; [done |].
      destruct x; try done. by destruct e.
    + by left.
  - right. rewrite drawer_effect_app. destruct Hr as [m tr j q a' [Hv Ht] E].
    by apply (app_step_perform _ m (Render tr j)).
Qed.

Lemma page_reachable_app p :
  page_reachable realtimeBaseUrlInput defaultBaseUrl defaultToken p -> app_reachable realtimeBaseUrlInput (app p).
Proof.
  induction 1 as [m st tab job visible Hv Ht | p p' _ IH Hst].
  - rewrite drawer_effect_app. apply app_mounted. split_and!; [done | done |]. apply poll_valid.
  - assert (preset_interval (console (app p))) as Hp by apply (app_reachable_parts realtimeBaseUrlInput _ IH).
    destruct (page_step_steps p p' Hp Hst) as [-> | Hs]; [done | by eapply app_stepped].
Qed.

(** * Properties *)

(** C6: The page offers exactly the actions that its state permits. The page can be
    shown unless the inspection of the selected job throws, and an enabled control
    of it runs an action if and only if [permitted] says so: jobs, workers and
    schedules that pass the filters of the tab that is shown, each queue, the job of
    the drawer; while the action's own flag is down, but for the buttons of a
    schedule and for retrying and cancelling in the drawer, which look at another
    flag or at none; and the actions the API has no endpoint for in demo mode only. *)
Theorem page_actions_exact p :
  match page defaultBaseUrl defaultToken p with
  | Throw e => rendered_inspection p = Throw e
  | Ok controls =>
      exists inspection, rendered_inspection p = Ok inspection /\
    forall action, offers controls action <-> permitted p inspection action
  end.
Proof.
  unfold page. destruct (rendered_inspection p) as [inspection | e]; cbn [result_bind]; [| done].
  exists inspection. split; [done |]. intros action.
  rewrite !offers_app, topbar_offers, settings_offers, hero_offers, tabs_offer, tab_offers, rail_offers,
    toasts_offer.
  transitivity (tab_permits p action \/
    offers (JobDrawer inspection (drawer_busy (console (app p)) inspection) (demoMode (console (app p)))
      (View.drawer (view p))) action); [tauto |].
  destruct inspection as [i |].
  - rewrite drawer_offers. cbn [drawer_busy]. rewrite busy_down, demoMode_demo. cbn zeta.
    destruct action; unfold tab_permits, permitted, open_drawer, flag_down; naive_solver.
  - unfold JobDrawer. rewrite offers_nil.
    destruct action; unfold tab_permits, permitted, open_drawer; naive_solver.
Qed.

(** C5: The page refines the console. From the first render with the settings that
    were stored, through any uses of its controls (with any text), renders and
    events from outside, the console of the page is in a reachable state, and each
    step of the page leaves it alone or is one of its steps: in particular, the
    edits of the page are edits and keep the interval one of the presets, and its
    calls are those the console allows. *)
Theorem page_refines_console p :
  page_reachable realtimeBaseUrlInput defaultBaseUrl defaultToken p ->
  app_reachable realtimeBaseUrlInput (app p) /\
  Settings.pollIntervalMs (Console.settings (console (app p))) ∈ [0; 5000; 15000; 30000]%Z /\
  forall p', page_step realtimeBaseUrlInput defaultBaseUrl defaultToken p p' ->
    app p' = app p \/ app_step realtimeBaseUrlInput (app p) (app p').
Proof.
  intros Hr%page_reachable_app.
  assert (preset_interval (console (app p))) as Hp by apply (app_reachable_parts realtimeBaseUrlInput _ Hr).
  split_and!; [exact Hr | exact Hp |]. intros p'. by apply page_step_steps.
Qed.
End Page.

(** * Samples *)

Import LiveTasks.Sample.
#[local] Existing Instance sample_json.
#[local] Existing Instance sample_action_api.

(** The page of a browser without stored settings, in live mode. *)
Definition start_page : Page :=
  drawer_effect (mount_page "" "http://localhost:8080" "t" sample_moment NoWindow "jobs" "" true).

(** The user leaves live mode. *)
Definition live_mode_control : Control := button "Live mode" (Edit (edit_settings (setLiveMode false))).

Definition left_page : Page :=
  default start_page (press "" sample_moment live_mode_control "" start_page).

Lemma start_page_reachable : page_reachable "" "http://localhost:8080" "t" start_page.
Proof. apply page_mounted; [apply at_start_valid | apply sample_toasts]. Qed.

Lemma start_page_fresh : fresh_moment sample_moment (app start_page).
Proof.
  split; [split; [apply at_start_valid |] | split; apply (bool_decide_unpack _); vm_compute; exact I].
  replace (queue (app start_page)) with useToastQueue by (by vm_compute). apply sample_toasts.
Qed.

Lemma live_mode_offered v s : Settings.liveMode s = true -> live_mode_control ∈ topbar_controls v s.
Proof. intros E. unfold topbar_controls. rewrite E, !elem_of_app. right. right. by left. Qed.

Lemma left_page_step : page_step "" "http://localhost:8080" "t" start_page left_page.
Proof.
  assert (rendered_inspection start_page = Ok None) as Hi by by vm_compute.
  apply page_step_acts. eapply page_press; [apply start_page_fresh | by vm_compute | unfold page; rewrite Hi; reflexivity | |].
  - apply elem_of_app. left. apply live_mode_offered. by vm_compute.
  - apply is_some_default. by vm_compute.
Qed.

Lemma page_refines_console_witness :
  app_reachable "" (app start_page) /\
  Settings.liveMode (Console.settings (console (app left_page))) = false /\
  (app left_page = app start_page \/ app_step "" (app start_page) (app left_page)).
Proof.
  destruct (page_refines_console "" "http://localhost:8080" "t" start_page start_page_reachable)
    as (Hr & _ & Hs).
  split; [exact Hr |]. split; [vm_compute; reflexivity |]. exact (Hs left_page left_page_step).
Defined.

(** In live mode the jobs tab offers no change of priority. *)
Example live_page_priority action :
  permitted start_page None action -> forall jobId delta, action <> AdjustPriority jobId delta.
Proof. intros Hp jobId delta ->. destruct Hp as [Hd _]. by vm_compute in Hd. Qed.
