(* ===== verification/Shell.v ===== *)
(** The shell of the page: [main.tsx] mounts [App] inside [ErrorBoundary.tsx], and
    the settings and the query parameters of the console outlive a page in local
    storage ([usePersistentState]) and in the URL ([useQueryParamState]).

    The shell shows a page of Page.v or what the boundary caught. A render that
    throws, in its inspection or in the updater of a submission, unmounts the page
    (Unmount.v says what is left of it); the buttons of the boundary, and reloading,
    mount a new one from storage and the URL. *)

From stdpp Require Import base list strings gmap relations.
From Stdlib Require Import ZArith Lia Bool Ascii.
From S2P Require Import Prelude JsString JsNum JsDate JsSort JsValue Models ApiRoutes Safe LiveRefresh.
From S2P Require Import LiveTransport Settings ToastQueue ApiParsers RequestClient RequestPool.
From S2P Require Import ConsoleState Urls DemoData LiveState LiveData LiveTasks LiveTimeouts.
From S2P Require Import ConsoleViews ConsoleForms ConsoleActions ConsoleProperties LiveFrame OpsConsole.
From S2P Require Import OpsConsoleProperties Sections Page PageProperties.

#[local] Open Scope js_scope.

(** * The boundary *)

Definition exn_message (e : exn) : string :=
  match e with RangeError m | TypeError m | SyntaxError m | PlainError m => m end.

Definition thrown_of (e : exn) : thrown :=
  match e with
  | RangeError m => ThrownError "RangeError" m
  | TypeError m => ThrownError "TypeError" m
  | SyntaxError m => ThrownError "SyntaxError" m
  | PlainError m => ThrownError "Error" m
  end.

(** What [render] shows while an error is held. *)
Definition boundary_shows (e : exn) : string * string := boundary_text (thrown_of e) (exn_message e).

(** * The shell *)

(** What outlives a page: [window.localStorage] and [window.location.href]. *)
Record Site := mkSite { store : storage; href : string }.

(** A page with the tab and the job that were last written to the URL, or the
    state of the boundary. *)
Inductive Screen :=
  | Running (p : Page) (queried : string * string)
  | Caught (error : exn).

Record Shell := mkShell { screen : Screen; site : Site }.

Section Shell.
Context `{UrlApi} `{!UrlParams} `{HeadersApi} `{DateHost} `{Browser} `{ApiView} `{JsonHost}.
Context `{ActionApi}.
Context (realtimeBaseUrlInput defaultBaseUrl defaultToken : string).

Local Notation controls_of := (page defaultBaseUrl defaultToken).
Local Notation acts := (page_acts realtimeBaseUrlInput defaultBaseUrl defaultToken).
Local Notation renders := (page_renders realtimeBaseUrlInput).
Local Notation reaches := (page_reachable realtimeBaseUrlInput defaultBaseUrl defaultToken).
Local Notation mounts := (mount_page realtimeBaseUrlInput defaultBaseUrl defaultToken).

(** The effect of [useQueryParamState], which runs when the value changes. *)
Definition query_effect (key : string) (previous : option string) (value href : string) : string :=
  if decide (previous = Some value) then href else default href (writeQueryParam (Some href) key value).

(** The effects of [usePersistentState] and of [useQueryParamState]. Only this page
    writes to storage, so an effect that runs again for a value that did not change
    writes what is there. *)
Definition site_effects (queried : option (string * string)) (c : Console) (s : Site) : Site :=
  mkSite (persistSettings (store s) (Console.settings c))
    (query_effect "job" (snd <$> queried) (Console.selectedJobId c)
       (query_effect "tab" (fst <$> queried) (Console.selectedTab c) (href s))).

(** React has rendered [p] from the console [c]: what the render throws goes to the
    boundary, which unmounts the page; otherwise the effects run, those of storage
    and of the URL for the values of [c]. *)
Definition show (queried : option (string * string)) (c : Console) (p : Page) (s : Site) : Shell :=
  match rendered_inspection p with
  | Throw error => mkShell (Caught error) s
  | Ok _ =>
      mkShell (Running (drawer_effect p) (Console.selectedTab c, Console.selectedJobId c))
        (site_effects queried c s)
  end.

(** The tab and the job that the URL names. *)
Definition url_tab (s : Site) : string := readQueryParam (Some (href s)) "tab" "overview".
Definition url_job (s : Site) : string := readQueryParam (Some (href s)) "job" "".

(** [<App />] is mounted. *)
Definition open_page (m : Moment) (visible : bool) (s : Site) : Shell :=
  show None
    (console (first_commit realtimeBaseUrlInput m (restoreSettings defaultBaseUrl defaultToken (store s))
       (url_tab s) (url_job s) visible))
    (mounts m (store s) (url_tab s) (url_job s) visible) s.

(** [main.tsx]: [container] says whether the document has the root element. *)
Definition main (container : bool) (m : Moment) (visible : bool) (s : Site) : result Shell :=
  if negb container then Throw (PlainError "Dashboard root element was not found.")
  else Ok (open_page m visible s).

(** The buttons of the boundary. *)
Definition retryRender (m : Moment) (visible : bool) (s : Site) : Shell := open_page m visible s.

Definition resetSavedSettings (m : Moment) (visible : bool) (s : Site) : Shell :=
  open_page m visible (mkSite (resetSessionState (store s)) (href s)).

(** A new page can be mounted; the clock is not at the ends of the range of dates. *)
Record mountable (m : Moment) : Prop := {
  mountable_env : valid_env (transport_env (outside m));
  mountable_toasts : fresh_toasts m useToastQueue;
  mountable_clock : demo_clock (now m)
}.

Inductive shell_step : Shell -> Shell -> Prop :=
  | shell_acts p p' queried s :
      acts p p' -> shell_step (mkShell (Running p queried) s) (mkShell (Running p' queried) s)
  | shell_renders p p' queried s :
      renders p p' ->
      shell_step (mkShell (Running p queried) s) (show (Some queried) (console (app p)) p' s)
  (** an updater of a button throws when React renders *)
  | shell_throws m p controls control action error queried s :
      fresh_moment m (app p) -> up_to_date p -> controls_of p = Ok controls -> control ∈ controls ->
      disabled control = false -> effect control = Run action ->
      ConsoleActions.perform (now m) (ids (outside m)) action (console (app p)) = Throw error ->
      shell_step (mkShell (Running p queried) s) (mkShell (Caught error) s)
  | shell_retry m visible error s :
      mountable m -> shell_step (mkShell (Caught error) s) (retryRender m visible s)
  | shell_reset m visible error s :
      mountable m -> shell_step (mkShell (Caught error) s) (resetSavedSettings m visible s)
  (** the user reloads the page, perhaps with another URL *)
  | shell_reload m visible sh address :
      mountable m -> shell_step sh (open_page m visible (mkSite (store (site sh)) address)).

Inductive shell_reachable : Shell -> Prop :=
  | shell_opened container m visible s sh :
      mountable m -> main container m visible s = Ok sh -> shell_reachable sh
  | shell_stepped sh sh' : shell_reachable sh -> shell_step sh sh' -> shell_reachable sh'.

(** * What a render depends on *)

(** The hook has not been rendered again. *)
Record same_render (s s' : St) : Prop := {
  sr_props : St.props s' = St.props s;
  sr_rendered : St.rendered s' = St.rendered s
}.

#[local] Instance same_render_preorder : PreOrder same_render.
Proof. split; [by intros s |]. intros s1 s2 s3 [] []. split; congruence. Qed.

Lemma loop_render s s' : keeps_loop s s' -> same_render s s'.
Proof. intros []. by split. Qed.

Lemma clock_render s s' : keeps_clock s s' -> same_render s s'.
Proof. intros []. by split. Qed.

Lemma when_render b f s : (forall s, same_render s (f s)) -> same_render s (when b f s).
Proof. intros Hf. by destruct b; [apply Hf |]. Qed.

Lemma poll_cleanup_render s : same_render s (poll_cleanup s).
Proof.
  unfold poll_cleanup. destruct (effect_loop _); [| done]. cbn zeta.
  by destruct (match St.loops s !! _ with Some l => timer l | None => None end).
Qed.

Lemma drawer_cleanup_render s : same_render s (drawer_cleanup s).
Proof. unfold drawer_cleanup. by destruct (effect_drawer _). Qed.

Lemma drawer_effect_render s : same_render s (LiveData.drawer_effect s).
Proof. unfold LiveData.drawer_effect. cbn zeta. destruct (_ || _); [done |]. by destruct (_ <=? _)%Z. Qed.

Lemma select_effect_render o s : same_render s (select_effect o s).
Proof. unfold select_effect. destruct (negb _); [done |]. apply clock_render, kc_refreshInspection. Qed.

Lemma poll_effect_render o s : same_render s (poll_effect o s).
Proof.
  unfold poll_effect. cbn zeta. destruct (negb _); [done |]. destruct (negb _).
  { apply clock_render. etransitivity; [apply (kc_hook (Hook.set_currentPollDelayMs 0)) |].
    apply kc_refreshConsole. }
  destruct (negb _); [done |]. etransitivity; [| apply loop_render, kl_run_loop]. by split.
Qed.

Lemma run_effects_render o d s : same_render s (run_effects o d s).
Proof.
  unfold run_effects. cbn zeta.
  do 11 (etransitivity; [| apply when_render; intros;
    first [ apply clock_render, kc_recovered_effect | apply clock_render, kc_degraded_effect
          | apply clock_render, kc_cache_effect | apply drawer_effect_render | apply select_effect_render
          | apply poll_effect_render | apply loop_render, kl_transport_effect
          | apply loop_render, kl_live_mode_effect | apply drawer_cleanup_render
          | apply poll_cleanup_render | apply loop_render, kl_transport_cleanup ]]).
  reflexivity.
Qed.

(** Nothing but a render changes what was rendered. *)
Lemma perform_render o e s s' :
  match e with Commit _ _ _ => False | _ => True end -> LiveData.perform o e s = Some s' -> same_render s s'.
Proof.
  intros He E. destruct e; try done; cbn [LiveData.perform] in E.
  - by injection E as <-.
  - by eapply loop_render, kl_fire.
  - destruct (net_event _ _ _); [| done]. by injection E as <-.
  - by eapply loop_render, kl_handle_request.
  - destruct (browser_event a); [| done]. by eapply loop_render, kl_manager_action.
  - injection E as <-. unfold manualReconnect. destruct (negb _); [done |]. cbn zeta.
    etransitivity; [apply loop_render, kl_call_manager | apply clock_render, kc_refreshConsole].
  - injection E as <-. apply clock_render, kc_refreshConsole.
  - injection E as <-. apply clock_render, kc_data.
  - by injection E as <-.
Qed.

(** ** The console and the page *)

Lemma force_refreshes_render m n s : same_render s (force_refreshes m n s).
Proof.
  induction n as [| n IH]; [done |]. etransitivity; [exact IH |].
  apply clock_render, kc_refreshConsole.
Qed.

Lemma forward_render m c' a : same_render (hook a) (hook (forward m c' a)).
Proof.
  unfold forward. cbn [hook]. etransitivity; [| apply force_refreshes_render].
  apply clock_render, kc_data.
Qed.

Lemma act_render m c' a : same_render (hook a) (hook (act m c' a)).
Proof.
  etransitivity; [apply (forward_render m c') |]. unfold act, send.
  destruct (Console.tasks _ !! _) as [[key [call sent |]] |]; [| done | done].
  destruct (requestJson _ _ _ _) as [request pool]. by split.
Qed.

Lemma answer_render m request a : same_render (hook a) (hook (answer m request a)).
Proof.
  unfold answer. cbn zeta. set (a1 := mkApp (hook a) _ _ _). change (hook a) with (hook a1) at 1.
  generalize (answer_of (St.pool (hook a)) request) as value.
  generalize (List.map fst (List.filter (fun t => Nat.eqb (snd t) request) (awaited a))) as l.
  clearbody a1. intros l value. revert a1. induction l as [| id l IH]; intros a1; [done |]. cbn [foldl].
  etransitivity; [| apply IH]. unfold answer_task. destruct (resume _ _ _ _); [apply forward_render | done].
Qed.

Lemma run_hook_render m e a a' :
  match e with Commit _ _ _ => False | _ => True end -> run_hook m e a = Some a' ->
  same_render (hook a) (hook a').
Proof.
  intros He E. unfold run_hook in E. destruct (LiveData.perform _ _ _) as [s' |] eqn:Es; [| done].
  injection E as <-. by eapply perform_render.
Qed.

Lemma app_perform_render m x a a' :
  match x with Render _ _ | HookEvent (Commit _ _ _) => False | _ => True end ->
  app_perform realtimeBaseUrlInput m x a = Some a' -> same_render (hook a) (hook a').
Proof.
  intros Hx E. destruct x; try done; cbn [app_perform] in E.
  - destruct (ConsoleActions.perform _ _ _ _) as [c' |]; [| done]. injection E as <-. apply act_render.
  - injection E as <-. apply forward_render.
  - destruct (settle _ _); [| done]. by injection E as <-.
  - eapply run_hook_render; [| exact E]. by destruct e.
  - destruct (run_hook m (HandleRequest request) a) as [a1 |] eqn:E1; [| done]. injection E as <-.
    etransitivity; [eapply run_hook_render; [| exact E1]; done | apply answer_render].
  - by injection E as <-.
  - destruct (ToastQueue.fire _ _); [| done]. by injection E as <-.
Qed.

Lemma same_inspection_shown p p' :
  same_render (hook (app p)) (hook (app p')) -> rendered_inspection p' = rendered_inspection p.
Proof. intros [E1 E2]. unfold rendered_inspection. by rewrite E1, E2. Qed.

Lemma press_render m control text p p' :
  sound (effect control) -> press realtimeBaseUrlInput m control text p = Some p' ->
  same_render (hook (app p)) (hook (app p')).
Proof.
  intros Hs E. unfold press in E. destruct (disabled control); [done |].
  assert (forall x, match x with Render _ _ | HookEvent (Commit _ _ _) => False | _ => True end ->
    with_app p (app_perform realtimeBaseUrlInput m x (app p)) = Some p' ->
    same_render (hook (app p)) (hook (app p'))) as Hact.
  { intros x Hx Ex. unfold with_app in Ex.
    destruct (app_perform _ m x (app p)) as [a' |] eqn:Ea; [| done]. injection Ex as <-.
    by eapply app_perform_render. }
  destruct (effect control) as [action | f | f | f | f | e | id]; cbn [sound] in Hs;
    try (eapply Hact; [| exact E]; done).
  - by injection E as <-.
  - by injection E as <-.
  - eapply Hact; [| exact E]. by destruct e.
Qed.

(** A page that is shown stays one that can be shown until it is rendered again. *)
Lemma acts_render p p' : acts p p' -> same_render (hook (app p)) (hook (app p')).
Proof.
  intros [m q controls control text q' Hm Hu Hpage Hc E | m x q a' Hm Hx E | q].
  - eapply press_render; [| exact E]. apply page_sound in Hpage. unfold all_sound in Hpage.
    rewrite Forall_forall in Hpage. by apply Hpage.
  - eapply app_perform_render; [| exact E]. destruct x; try done. by destruct e.
  - done.
Qed.

(** * A new page *)

(** A demo job was created not long before the page. *)
Lemma demo_created now ids :
  Forall (fun job => exists m, (0 <= m <= 1600)%Z /\ Job.createdAt job = minutesAgo now m)
    (demo_jobs now ids).
Proof.
  unfold demo_jobs.
  cbn [demo_job_ingest demo_job_thumb_sm demo_job_thumb_md demo_job_aggregate demo_job_dead
      demo_job_retry demo_job_throttled demo_job_scheduled demo_job_active demo_job_idempotent].
  repeat (apply List.Forall_cons; [eexists; split; [| reflexivity]; lia |]). apply List.Forall_nil.
Qed.

Lemma fallback_of_date job jobs :
  fallback_expiry job <> None -> exists i, createInspectionFallback job jobs = Ok i.
Proof.
  intros He. unfold createInspectionFallback, fallback_idempotency.
  destruct (fallback_expiry job); [| done]. destruct (opt_truthy _); eexists; reflexivity.
Qed.

(** Without a cache the job's own data decide. *)
Lemma uncached_inspection data jobId :
  (forall job, job ∈ ConsoleData.jobs data -> fallback_expiry job <> None) ->
  exists i, getInspection (with_cache data ∅) jobId = Ok i.
Proof.
  intros Hj. unfold getInspection. destruct data as [sn jobs sc ev ws ins qc wc lh so].
  cbn [with_cache set_inspections ConsoleData.inspections ConsoleData.jobs] in *. rewrite lookup_empty.
  destruct (List.find _ jobs) as [job |] eqn:E; [| by eexists].
  apply List.find_some in E as [Hin%list_elem_of_In _].
  destruct (fallback_of_date job jobs (Hj job Hin)) as [i ->]. by eexists.
Qed.

Lemma reconciled_jobs now data job :
  job ∈ ConsoleData.jobs (reconcileConsoleData now data) <-> job ∈ ConsoleData.jobs data.
Proof. cbn [reconcileConsoleData ConsoleData.jobs]. by rewrite sort_by_perm. Qed.

(** The demo's jobs are recent. *)
Lemma demo_inspected now ids jobId :
  demo_clock now -> exists i, getInspection (with_cache (createDemoConsoleData now ids) ∅) jobId = Ok i.
Proof.
  intros Hnow. apply uncached_inspection. intros job Hin.
  apply reconciled_jobs in Hin. cbn [ConsoleData.jobs] in Hin. pose proof (demo_created now ids) as Hf. rewrite List.Forall_forall in Hf.
  destruct (Hf job) as (mn & Hm & Ec); [by apply list_elem_of_In |]. unfold fallback_expiry.
  rewrite Ec, (date_minutesAgo now Hnow mn) by lia. unfold time_add. cbn [mbind option_bind].
  unfold time_clip. rewrite !(proj2 (Z.leb_le _ _)); [done | |]; unfold demo_clock, max_time in *; lia.
Qed.

Lemma drawer_effect_inspection p : rendered_inspection (drawer_effect p) = rendered_inspection p.
Proof. unfold rendered_inspection. by rewrite drawer_effect_app. Qed.

Lemma nothing_inspected source jobId :
  getInspection (with_cache (createEmptyConsoleData source) ∅) jobId = Ok None.
Proof.
  unfold getInspection, with_cache, createEmptyConsoleData, set_inspections.
  cbn [ConsoleData.inspections ConsoleData.jobs]. by rewrite lookup_empty.
Qed.

(** What the first render shows: nothing in live mode, the demo otherwise. *)
Lemma first_data m settings tab job visible :
  let a := first_commit realtimeBaseUrlInput m settings tab job visible in
  St.props (hook a) = props_of realtimeBaseUrlInput
    (ConsoleActions.initial (createEmptyConsoleData source_live) settings tab job) /\
  St.rendered (hook a) = initial_hook (outside m) (St.props (hook a)) visible /\
  (Settings.liveMode settings = true -> ConsoleData.jobs (Hook.consoleData (St.rendered (hook a))) = []).
Proof.
  cbn zeta. unfold first_commit, LiveData.mount. cbn [hook]. set (p := props_of _ _).
  destruct (run_effects_render (outside m) all_due (useDashboardLiveData (outside m) p visible)) as [-> ->].
  split_and!; [done | done |]. cbn. by intros ->.
Qed.

(** The first render does not throw: there are no data yet, or those of the demo. *)
Lemma mounted_inspection m st tab job visible :
  demo_clock (now m) -> exists i, rendered_inspection (mounts m st tab job visible) = Ok i.
Proof.
  intros Hm. unfold rendered_inspection, Page.mount_page, mount_app. cbn [app].
  set (a := first_commit _ _ _ _ _ _). change (hook (render_effects a)) with (hook a).
  destruct (first_data m (restoreSettings defaultBaseUrl defaultToken st) tab job visible) as (Ep & Er & _).
  fold a in Ep, Er. rewrite Er. clear Er. set (p := St.props (hook a)) in *. clearbody p. clear Ep a.
  unfold selectedInspection. destruct (negb _); [by eexists |].
  cbn [initial_hook Hook.inspectionCache Hook.consoleData].
  rewrite lookup_empty. destruct (Props.liveMode p); [| by apply demo_inspected].
  exists None. apply nothing_inspected.
Qed.

(** The page right after it was opened. *)
Record opened_page (m : Moment) (visible : bool) (s : Site) (p : Page) : Prop := {
  op_shell : exists queried site', open_page m visible s = mkShell (Running p queried) site';
  op_reached : reaches p;
  op_shown : exists i, rendered_inspection p = Ok i;
  op_settings : Console.settings (console (app p)) = restoreSettings defaultBaseUrl defaultToken (store s);
  op_tab : Console.selectedTab (console (app p)) = tabKey (url_tab s);
  op_job : Console.selectedJobId (console (app p)) = "" \/
    Settings.liveMode (Console.settings (console (app p))) = false /\
    Console.selectedJobId (console (app p)) = url_job s /\
    exists job, job ∈ ConsoleData.jobs (rendered_data p) /\ Job.id job = url_job s
}.

(** The console's own effects, on the first render. *)
Lemma effects_url c :
  Console.selectedTab (ConsoleActions.effects c) = tabKey (Console.selectedTab c) /\
  Console.selectedJobId (ConsoleActions.effects c) =
    (if truthy (Console.selectedJobId c) &&
        negb (existsb (has_id (Console.selectedJobId c)) (ConsoleData.jobs (Console.data c)))
     then "" else Console.selectedJobId c).
Proof. unfold ConsoleActions.effects. destruct c. cbn. by destruct (_ && _). Qed.

Lemma load_url s c :
  Console.selectedTab (load s c) = Console.selectedTab c /\
  Console.selectedJobId (load s c) = Console.selectedJobId c.
Proof. by destruct c. Qed.

Lemma loaded_url data c :
  Console.selectedTab (Console.set_data data c) = Console.selectedTab c /\
  Console.selectedJobId (Console.set_data data c) = Console.selectedJobId c /\
  Console.data (Console.set_data data c) = data.
Proof. by destruct c. Qed.

Lemma render_effects_url a :
  let c := console (render_effects a) in
  let job := Console.selectedJobId (console a) in
  Console.selectedTab c = tabKey (Console.selectedTab (console a)) /\
  Console.selectedJobId c =
    (if truthy job && negb (existsb (has_id job) (ConsoleData.jobs (Hook.consoleData (St.rendered (hook a)))))
     then "" else job).
Proof.
  cbn zeta. unfold render_effects. cbn [console].
  set (data := Hook.consoleData (St.rendered (hook a))).
  destruct (loaded_url data (console a)) as (E1 & E2 & E3).
  destruct (effects_url (Console.set_data data (console a))) as [F1 F2]. rewrite E1 in F1. rewrite E2, E3 in F2.
  destruct (load_url (hook a) (ConsoleActions.effects (Console.set_data data (console a)))) as [-> ->].
  by rewrite F1, F2.
Qed.

Lemma first_effects m settings tab job visible :
  let a := first_commit realtimeBaseUrlInput m settings tab job visible in
  let c := console (render_effects a) in
  Console.selectedTab c = tabKey tab /\
  Console.selectedJobId c =
    (if truthy job && negb (existsb (has_id job) (ConsoleData.jobs (Hook.consoleData (St.rendered (hook a)))))
     then "" else job).
Proof.
  cbn zeta. set (a := first_commit _ _ _ _ _ _).
  assert (Console.selectedTab (console a) = tab /\ Console.selectedJobId (console a) = job) as [Et Ej].
  { unfold a, first_commit. cbn [console]. apply load_url. }
  destruct (render_effects_url a) as [F1 F2]. by rewrite Et in F1; rewrite Ej in F2.
Qed.

Lemma opened m visible s :
  mountable m -> exists p, opened_page m visible s p.
Proof.
  intros [Hv Ht Hc].
  destruct (mounted_inspection m (store s) (url_tab s) (url_job s) visible Hc) as [i Hi].
  pose proof (page_mounted realtimeBaseUrlInput defaultBaseUrl defaultToken m (store s) (url_tab s) (url_job s)
    visible Hv Ht) as Hr.
  set (settings := restoreSettings defaultBaseUrl defaultToken (store s)) in *.
  destruct (first_data m settings (url_tab s) (url_job s) visible) as (_ & _ & Hlive).
  destruct (first_effects m settings (url_tab s) (url_job s) visible) as [Etab Ejob].
  exists (drawer_effect (mounts m (store s) (url_tab s) (url_job s) visible)).
  assert (Console.settings (console (render_effects
    (first_commit realtimeBaseUrlInput m settings (url_tab s) (url_job s) visible))) = settings) as Eset
    by (rewrite render_settings; apply load_settings).
  split; rewrite ?drawer_effect_app.
  - unfold open_page, show. rewrite Hi. by eexists _, _.
  - exact Hr.
  - exists i. by rewrite drawer_effect_inspection.
  - exact Eset.
  - exact Etab.
  - cbn [app mount_page]. unfold mount_app. fold settings. rewrite Eset, Ejob.
    destruct (truthy (url_job s)) eqn:Et; cbn [andb]; [| left; by apply truthy_false].
    destruct (existsb _ _) eqn:Ex; cbn [negb]; [right | by left].
    destruct (Settings.liveMode settings) eqn:El; [by rewrite Hlive in Ex |].
    split_and!; [done | done |]. apply existsb_exists in Ex as (job & Hin & Hid%String.eqb_eq).
    exists job. split; [| done]. unfold rendered_data. rewrite drawer_effect_app. by apply list_elem_of_In.
Qed.

(** ** Every shell *)

(** A page that runs is one of Page.v, and it can be shown. *)
Definition shown (sh : Shell) : Prop :=
  match screen sh with
  | Running p _ => reaches p /\ exists i, rendered_inspection p = Ok i
  | Caught _ => True
  end.

Lemma opened_shown m visible s : mountable m -> shown (open_page m visible s).
Proof. intros Hm. by destruct (opened m visible s Hm) as (p & [(q & s' & ->) Hr Hi _ _ _]). Qed.

Lemma show_shown queried c p s : reaches (drawer_effect p) -> shown (show queried c p s).
Proof.
  intros Hp. unfold show. destruct (rendered_inspection p) as [i |] eqn:E; [| done].
  split; [exact Hp |]. exists i. by rewrite drawer_effect_inspection.
Qed.

Lemma shell_step_shown sh sh' : shown sh -> shell_step sh sh' -> shown sh'.
Proof.
  intros Hs Hst. destruct Hst as [p p' q s Ha | p p' q s Hr | | m v e s Hm | m v e s Hm | m v sh a Hm].
  - destruct Hs as [Hp [i Hi]]. split; [by eapply page_stepped; [| apply page_step_acts] |].
    exists i. by rewrite (same_inspection_shown p p' (acts_render p p' Ha)).
  - destruct Hs as [Hp _]. apply show_shown. eapply page_stepped; [exact Hp |]. by apply page_step_renders.
  - done.
  - exact (opened_shown m v s Hm).
  - exact (opened_shown m v _ Hm).
  - exact (opened_shown m v _ Hm).
Qed.

Lemma shell_reachable_shown sh : shell_reachable sh -> shown sh.
Proof.
  induction 1 as [container m visible s sh Hm E |]; [| by eapply shell_step_shown].
  unfold main in E. destruct (negb container); [done |]. injection E as <-. by apply opened_shown.
Qed.

(** Only the updater of a demo submission throws, for a delay that leaves the range
    of dates. *)
Definition undatable (t : Z) (c : Console) : Prop :=
  let delay := asNumber (VStr (JobDraft.delaySeconds (Console.jobDraft c))) (num_of_Z 0) in
  num_gt delay (num_of_Z 0) = true /\
  time_of_num (num_add (num_of_Z t) (num_mul delay (num_of_Z 1000))) = None.

Lemma perform_throws t new action c error :
  ConsoleActions.perform t new action c = Throw error ->
  action = SubmitJob /\ live c = false /\ error = RangeError "Invalid time value" /\ undatable t c.
Proof.
  destruct action; try done. cbn [ConsoleActions.perform]. unfold submitJob.
  destruct (form_total t (Console.jobDraft c)) as [[errors | request] ->]; [done |].
  cbn [result_bind]. destruct (live c); [done |]. unfold submit_demo.
  destruct (duplicate_of _ _ _) as [duplicate |]; [done |].
  destruct (createJobFromDraft t (new 0%nat) (Console.jobDraft c) (r_payload request)) as [job | e] eqn:E;
    [done |].
  intros [= <-]. assert (e = RangeError "Invalid time value") as ->.
  { unfold createJobFromDraft in E. by destruct (draft_run_at _ _); [| injection E as <-]. }
  split_and!; [done | done | done |]. by apply (draft_job_throws t (new 0%nat) (Console.jobDraft c) (r_payload request)).
Qed.

Lemma caught_only_by_render p q s sh error :
  shell_step (mkShell (Running p q) s) sh -> screen sh = Caught error ->
  site sh = s /\
  ((exists p', renders p p' /\ rendered_inspection p' = Throw error) \/
   (exists t, live (console (app p)) = false /\ undatable t (console (app p)) /\
      error = RangeError "Invalid time value")).
Proof.
  intros Hst E. inversion Hst as [p1 p' q1 s1 Ha | p1 p' q1 s1 Hr | m p1 cs c x e q1 s1 _ _ _ _ _ _ Hx | | | m v sh1 a Hm];
    subst.
  - done.
  - revert E. unfold show. destruct (rendered_inspection p') as [i | e] eqn:Ei; [done |].
    intros [= ->]. split; [done |]. left. by exists p'.
  - injection E as ->. split; [done |]. right. apply perform_throws in Hx as (_ & ? & ? & ?). by eexists.
  - cbn in E. destruct (opened m v (mkSite (store s) a) Hm) as (p' & [(q' & s' & Eo) _ _ _ _ _]).
    by rewrite Eo in E.
Qed.

End Shell.

(** * Samples *)

Import LiveTasks.Sample.
#[local] Existing Instance sample_json.
#[local] Existing Instance sample_action_api.

(** The parameters of a URL of Urls.v; of two with one key the last counts. *)
Definition simple_params (u : SimpleUrl) : list (string * string) :=
  List.map (cut "="%char) (split_char "&"%char (slice_from 1 (su_search u))).

#[local] Instance simple_url_params : UrlParams := {|
  url_params_get k u :=
    foldl (fun found kv => if String.eqb (fst kv) k then Some (slice_from 1 (snd kv)) else found)
      None (simple_params u);
  url_params_delete k u :=
    {| su_protocol := su_protocol u; su_host := su_host u; su_pathname := su_pathname u;
       su_search := prefixed "?" (join "&" (List.map (fun kv => fst kv +:+ snd kv)
         (List.filter (fun kv => negb (String.eqb (fst kv) k)) (simple_params u))));
       su_hash := su_hash u |}
|}.

(** A job with an idempotency key, of a server that does not know when it was created. *)
Definition undated_job : Job :=
  let '(Job.mk j0 j1 j2 j3 j4 j5 j6 j7 j8 j9 j10 j11 j12 j13 j14 _ j16 j17 j18 j19 j20 j21 j22 j23 j24 j25 j26 j27 j28 j29) := Safe.sample_job in
  Job.mk j0 j1 j2 j3 j4 j5 j6 j7 j8 j9 j10 j11 j12 j13 j14 "never" j16 j17 j18 j19 j20 j21 j22 j23 j24 j25 j26 j27 j28 j29.

#[local] Instance undated_view : ApiView := {|
  as_snapshot _ := createEmptySnapshot;
  as_jobs value := match value with VArr (_ :: _) => [undated_job] | _ => [] end;
  as_schedules _ := [];
  as_workerStatuses _ := [];
  as_inspection _ := no_inspection;
  as_event _ := SystemEvent.mk "job.succeeded" None None None None None ""
|}.

(** The answers to the four requests of a refresh. *)
Definition sent_text (value : jsval) : string := default "" (json_stringify value).

Definition refresh_texts : list (nat * string) :=
  [(1%nat, sent_text (VObj [("overview", VObj []); ("metrics", VObj []); ("trend", VObj [])]));
   (2%nat, sent_text (VArr [VObj [("id", VStr "job-1"); ("type", VStr "email.send");
                                  ("queue", VStr "default"); ("state", VStr "queued")]]));
   (3%nat, sent_text (VArr [])); (4%nat, sent_text (VArr []))].

Definition answers : list app_action :=
  flat_map (fun '(request, text) =>
    [HookEvent (Network request (FetchResolves 200)); HookEvent (Network request (TextResolves text));
     HandleAnswer request]) refresh_texts.

(** Events on a page without toasts. *)
Fixpoint events (l : list app_action) (p : Page) : option Page :=
  match l with
  | [] => Some p
  | x :: l =>
      if unattended x && bool_decide (keyById (queue (app p)) = ∅) then
        a ← app_perform "" sample_moment x (app p); events l (mkPage a (view p))
      else None
  end.

Lemma sample_valid p : keyById (queue (app p)) = ∅ -> valid_moment sample_moment (app p).
Proof.
  intros E. split; [apply at_start_valid |]. destruct sample_toasts as [Hn Hd _].
  split; [exact Hn | exact Hd |]. intros n _. by rewrite E, lookup_empty.
Qed.

Lemma events_steps url token l p p' queried s :
  events l p = Some p' ->
  rtc (shell_step "" url token) (mkShell (Running p queried) s) (mkShell (Running p' queried) s).
Proof.
  revert p. induction l as [| x l IH]; intros p; cbn [events]; [by intros [= ->] |].
  destruct (unattended x) eqn:Hx; cbn [andb]; [| done]. case_bool_decide as E; [| done].
  destruct (app_perform _ _ _ _) as [a |] eqn:Ea; [| done]. cbn [mbind option_bind]. intros Hl.
  eapply rtc_l; [| by apply IH]. apply shell_acts. eapply page_event; [| exact Hx | exact Ea].
  by apply sample_valid.
Qed.

(** A browser without stored settings opens a link to a job. *)
Definition first_site : Site := mkSite (Store ∅ false) "https://console.example/?tab=jobs&job=job-1".

Definition first_shell : Shell := open_page "" "https://jobs.example" "t" sample_moment true first_site.

(** The API answers. *)
Definition answered (sh : Shell) : Shell :=
  match screen sh with
  | Caught _ => sh
  | Running p queried =>
      match events answers p with
      | Some p => mkShell (Running p queried) (site sh)
      | None => sh
      end
  end.

(** React renders. *)
Definition rendered (sh : Shell) : Shell :=
  match screen sh with
  | Caught _ => sh
  | Running p queried =>
      match app_perform "" sample_moment (Render true true) (app p) with
      | Some a =>
          if decide (keyById (queue (app p)) = ∅)
          then show (Some queried) (console (app p)) (mkPage a (view p)) (site sh) else sh
      | None => sh
      end
  end.

(** The user opens the job in the table. *)
Definition row_control : Control := button "email.send" (onSelectJob "job-1").

Definition pressed (sh : Shell) : Shell :=
  match screen sh with
  | Caught _ => sh
  | Running p queried =>
      match press "" sample_moment row_control "" p with
      | Some p => mkShell (Running p queried) (site sh)
      | None => sh
      end
  end.

Definition loaded_shell : Shell := rendered (answered first_shell).

Definition caught_shell : Shell := rendered (pressed loaded_shell).

(** The page of [loaded_shell]. *)
Definition loaded_page : Page :=
  match screen loaded_shell with Running p _ => p | Caught _ => start_page end.

Notation sample_reachable := (shell_reachable "" "https://jobs.example" "t").

Lemma sample_mountable : mountable sample_moment.
Proof.
  split; [apply at_start_valid | apply sample_toasts |].
  change (demo_clock 1773345600000). unfold demo_clock, max_time. lia.
Qed.

Lemma answered_reachable_shell sh : sample_reachable sh -> sample_reachable (answered sh).
Proof.
  intros Hs. unfold answered. destruct sh as [[p q | e] s]; cbn [screen site]; [| done].
  destruct (events answers p) as [p' |] eqn:E; [| done].
  apply (events_steps "https://jobs.example" "t" _ _ _ q s) in E.
  revert Hs. induction E as [sh | sh1 sh2 sh3 Hst _ IH]; [done |].
  intros Hs. apply IH. by eapply shell_stepped.
Qed.

Lemma rendered_reachable_shell sh : sample_reachable sh -> sample_reachable (rendered sh).
Proof.
  intros Hs. unfold rendered. destruct sh as [[p q | e] s]; cbn [screen site]; [| done].
  destruct (app_perform _ _ _ _) as [a |] eqn:E; [| done]. destruct (decide _) as [Hk | _]; [| done].
  eapply shell_stepped; [exact Hs |].
  apply (shell_renders "" "https://jobs.example" "t" p (mkPage a (view p)) q s).
  eapply page_render; [| exact E]. by apply sample_valid.
Qed.

Lemma first_reachable : sample_reachable first_shell.
Proof.
  unfold first_shell.
  eapply (shell_opened "" "https://jobs.example" "t" true sample_moment true first_site _ sample_mountable).
  unfold main. cbn [negb]. reflexivity.
Qed.

Lemma loaded_reachable : sample_reachable loaded_shell.
Proof. apply rendered_reachable_shell, answered_reachable_shell, first_reachable. Qed.

Lemma loaded_fresh : fresh_moment sample_moment (app loaded_page).
Proof.
  split; [apply sample_valid; by vm_compute |]. split; apply (bool_decide_unpack _); vm_compute; exact I.
Qed.

Lemma row_offered : exists controls,
  page "https://jobs.example" "t" loaded_page = Ok controls /\ row_control ∈ controls.
Proof.
  assert (rendered_inspection loaded_page = Ok None) as Hi by by vm_compute.
  unfold page. rewrite Hi. cbn [result_bind]. eexists. split; [reflexivity |].
  rewrite !elem_of_app. do 4 right. left. unfold tabContent.
  replace (Hook.loading (St.rendered (hook (app loaded_page)))) with false by (by vm_compute).
  replace (Console.selectedTab (console (app loaded_page))) with "jobs" by (by vm_compute).
  cbn [tabKey existsb fst tab_key TABS String.eqb Ascii.eqb Bool.eqb orb].
  unfold JobsSection. rewrite !elem_of_app. do 2 right.
  assert (visibleJobs (View.jobFilters (view loaded_page)) (search (view loaded_page))
    (rendered_data loaded_page) = [undated_job]) as -> by (by vm_compute).
  cbn [flat_map]. by left.
Qed.

Lemma pressed_reachable : sample_reachable (pressed loaded_shell).
Proof.
  pose proof loaded_reachable as Hr. unfold pressed. destruct (screen loaded_shell) as [p q | e] eqn:E; [| done].
  assert (p = loaded_page) as -> by (unfold loaded_page; by rewrite E).
  destruct (press "" sample_moment row_control "" loaded_page) as [p' |] eqn:Ep; [| done].
  destruct row_offered as (controls & Ec & Hc). eapply shell_stepped; [exact Hr |].
  destruct loaded_shell as [sc s]. cbn in E |- *. subst sc. apply shell_acts.
  eapply page_press; [apply loaded_fresh | by vm_compute | exact Ec | exact Hc | exact Ep].
Qed.

Lemma caught_reachable : sample_reachable caught_shell.
Proof. apply rendered_reachable_shell, pressed_reachable. Qed.


(** In live mode a link to a job does not open it: when the page has loaded, the job
    is there, but no job is selected and the URL does not name it any more. *)
Example job_link_is_dropped :
  List.map Job.id (ConsoleData.jobs (Console.data (console (app loaded_page)))) = ["job-1"] /\
  Console.selectedJobId (console (app loaded_page)) = "" /\
  url_job first_site = "job-1" /\ url_job (site loaded_shell) = "".
Proof. vm_compute. split_and!; reflexivity. Qed.

(** A demo submission with a delay beyond the range of dates takes the page down. *)
Example demo_delay_throws :
  ConsoleActions.perform sample_now sample_ids SubmitJob
    (updateJobDraft job_delaySeconds "9000000000000" demo_console) =
  Throw (RangeError "Invalid time value").
Proof. vm_compute. reflexivity. Qed.
